(* ===== verification/_CoqProject ===== *)
-Q . S2P
Prelude.v
Csum16.v
Locks.v
Frame.v
Session.v
Rpc.v
Wire.v
Descriptors.v
Glibc.v
Script.v
Channel.v
FdPool.v
Interceptor.v
Messages.v
PoolInv.v
Threads.v
ThreadsSpec.v
InterceptorSpec.v
MessagesSpec.v
PollSpec.v
SocketSpec.v
World.v
DScript.v
Reactor.v
Net.v
Agent.v
Udp.v
Tcp.v
Reassembly.v
IpRx.v
Dispatch.v
Arbiter.v
Alive.v
AliveLayers.v
Boot.v
Process.v
Flags.v
Wakeful.v
Logging.v
ReactorSpec.v
AgentSpec.v
PacketSpec.v
TcpSpec.v
UdpSpec.v
DispatchSpec.v
Invariant.v
Interest.v
LoopSpec.v
ReassemblySpec.v
FragChainSpec.v
BootSpec.v
LoggingSpec.v
SocketCallSpec.v
Ownership.v
Safety.v
ProcessSpec.v
StopSpec.v
Simulation.v
Link.v
LinkSpec.v
StaleSpec.v
System.v
ConnectSpec.v
DeliverySpec.v
RoundTripSpec.v
WaitSpec.v
TcpConnectSpec.v
TcpDataSpec.v
DuplexSpec.v
