(* ===== verification/Prelude.v ===== *)
(** * Velox: a userspace network stack, modelled and verified

    Velox (README.md) lets unmodified programs use a TCP/IP stack that lives in
    a daemon.  A preloaded library, the interceptor (src/src/interceptor),
    replaces the socket calls; each pool descriptor has a channel, a SEQPACKET
    connection to the daemon veloxd (src/src/veloxd), on which a call is one
    Request and one Response message (src/src/rpc).  The daemon runs three
    threads: the interface reads packets from a TUN device into the IP layer's
    queue; the IP layer reassembles, demultiplexes and delivers them to UDP and
    TCP sessions; the event loop (arbiter, reactor, dispatcher) serves the
    channels and writes packets through sessions, IP layer and interface.

    ** The files

    - Prelude.v: results and faults ([res], [fault]), the state-and-fault monad
      [M], machine integers with their wrap-around, byte strings with checked
      loads and stores.
    - Csum16.v (base/Csum16.cpp), Frame.v (FrameBuf.h, PseudoHdr.h,
      ip/IpHdr.cpp), Session.v (Session.h, Session.cpp): checksum, packet
      buffers and header overlays, sessions and their demultiplexer.
    - Rpc.v (the message types, the interface [Codec] and its laws), Wire.v (a
      protobuf wire-format instance, which shows that the laws can hold and runs
      the examples), Descriptors.v (the tables and init values
      of rpc/c_out/*.pb-c.c).
    - Glibc.v (globals of the process; glibc as the class [Glibc]), Channel.v
      (req-resp-channel.c), FdPool.v (fdpool.c, fdchanmap.c), Interceptor.v
      (interceptor.c), Messages.v (the same calls over the heap of unpacked
      messages, with the frees).  PoolInv.v, MessagesSpec.v, InterceptorSpec.v, PollSpec.v and
      SocketSpec.v hold their theorems; Script.v is an environment to run them
      in.  Threads.v has the calls again for programs with several threads, cut
      at every access to a global and every system call, with the proof that a
      thread on its own runs the uncut definitions ([single_threaded]);
      ThreadsSpec.v has the theorems about their interleavings.
    - World.v: the daemon's whole state (singletons, and heaps for the objects
      behind smart pointers), the kernel as the class [Kernel].  Reactor.v
      (arbiter/reactor), Net.v (interface, sending half of ip/Ip.cpp), Agent.v
      (Endpoint.cpp, AgentChannel.cpp), Udp.v, Tcp.v, Reassembly.v
      (ip/reassembly), IpRx.v (the receiving loop of Ip.cpp), Dispatch.v
      (RpcDispatch.cpp), Arbiter.v (Arbiter.cpp, AgentHub.cpp and the step
      relation [dstep]), Boot.v (Veloxd.cpp, CfgParser.cpp, TunIface's
      opening), Logging.v (Logging.h, Logging.cpp; boost's core as the class
      [LogCore]).  DScript.v is a kernel to run them in.
    - Locks.v (base/RawMutex, base/BoundedDeque.h): the mutex and the queue that
      threads share, as a step relation over their calls, with its theorem.
    - ReactorSpec.v, AgentSpec.v: equations for single operations.  PacketSpec.v,
      TcpSpec.v, UdpSpec.v, DispatchSpec.v, Invariant.v, LoopSpec.v,
      ReassemblySpec.v, FragChainSpec.v, BootSpec.v, LoggingSpec.v,
      SocketCallSpec.v: the daemon's theorems.  Ownership.v: the graph of channels, endpoints,
      sessions and handles, and that every turn keeps it.  Alive.v, AliveLayers.v
      and Safety.v: which pointers end in live objects, layer by layer, and that
      freed memory is not used.  Interest.v: what epoll can report (its documented
      behaviour is the class [Epoll]).  Process.v ([main], the threads' creation,
      loops and end), Flags.v, ProcessSpec.v and StopSpec.v: the process as a
      whole; Wakeful.v: where a thread sleeps; Simulation.v: the turns of Arbiter.v
      are runs of the process.
    - Link.v: the two halves as one system.  [Host] adds the SEQPACKET
      connections to any kernel, [Guest] puts the daemon behind any glibc; both
      are instances of the classes above, so every definition of interceptor
      and daemon runs on them unchanged.  LinkSpec.v (one request through the
      event loop), StaleSpec.v, System.v, ConnectSpec.v (start-up, [socket]), DeliverySpec.v
      (receiving), RoundTripSpec.v (two hosts), WaitSpec.v ([recvfrom] that waits), TcpConnectSpec.v
      ([connect]), TcpDataSpec.v (data on a TCP connection) and DuplexSpec.v (two
      threads on one socket) hold the theorems about the whole system.

    ** How the code is modelled

    A function is a definition of the same name (a method [C::m] is [C_m]) in
    the monad [M S A = S -> res (A * S)]: a state is passed through, and a run
    that fails is a [Fault] that names why: a null pointer, an access outside
    an object, an object used after it was freed, a failed assertion, an exit,
    or fuel that ran out; one more, [Sleeps], says that the thread has come to a
    [wait_dequeue] on an empty queue, which is no failure (Process.v).  So "the
    call returns" is part of every theorem that gives a result, and the theorems
    about defects say which fault occurs.

    Assertions are those of a build without NDEBUG (-DCMAKE_BUILD_TYPE=Debug; the
    default of src/CMakeLists.txt is Release, which compiles them out).  No
    assertion of the code has a side effect, so a run that returns is also a run
    of the build without them; what is said about [AssertFail] is said about the
    build with them.

    Integers are [Z] with [u16], [u32], [i32] written out where the code wraps;
    words the code keeps in network order are kept as the raw word.  Memory
    behind a caller's pointer is a capacity or a list of bytes.  A [char*] in a
    frame is null, an offset in the frame or an offset in a string.  Shared and
    weak pointers are identifiers into heaps; callbacks are constructors that
    name the lambda and what it captured.

    Fuel: loops over a chain of frames take the size of the frame heap, which a
    chain that ends never exceeds (UdpSpec.v, [chain_bound]); loops that read a
    pipe, a socket or a channel until the kernel says otherwise take the number
    of reads as a parameter, and the theorems hold for every amount that covers
    what the environment delivers.  The checksum's loops take the byte count and
    two foldings, which Csum16.v proves to be enough.

    ** What the theorems show

    - Daemon: two invariants of every reachable state, of its data
      ([daemon_invariant]) and of its ownership graph ([ownership_graph]); both
      hold for the whole process from [main] on ([process_invariant]); no freed
      object is used, except when a channel closes ([no_dangling]); after a stop
      each thread ends when the call it sleeps in returns ([stop_ends_threads]);
      each request has one answer ([request_response]).
    - Whole system, from the program's call through interceptor, channel, event
      loop, handler and back: what a remote call does, in terms of the handler
      ([remote_call]); start-up and [socket] ([program_starts],
      [socket_end_to_end]); a datagram from the program to the wire, from the
      wire to the program, and from program to program ([sendto_on_the_wire],
      [wire_to_program], [datagram_roundtrip]); a TCP
      connection and data on it in both directions ([tcp_connect_end_to_end],
      [tcp_write_end_to_end], [tcp_read_end_to_end]); and four ordinary uses that
      end or block the daemon or the program ([close_kills_daemon],
      [udp_connect_aborts_both], [stale_notification_blocks], and [duplex_aborts],
      one thread reading while another writes).
    - Packets: checksums are RFC 1071's and verify; outgoing datagrams and
      segments have exactly the specified header bytes; identification numbers
      do not repeat; demultiplexing picks the most specific session.
    - TCP client: handshake, sending, receiving, and what each puts on the wire.
    - Interceptor: transparency for other descriptors, distinct descriptors over
      every history, start-up, [socket], [close], data transfer in both
      directions, [poll] as a merge of pool and kernel answers, [select], which
      cannot serve a pool descriptor ([select_high_pool]), and
      every response freed exactly once ([responses_freed_once]).
    - Threads: [BoundedDeque] is linearizable ([deque_linearizable]).  The
      interceptor's pool has no lock: threads whose pool operations do not overlap
      get distinct descriptors ([serialized_threads_distinct]); without that, two
      calls of [socket] can return the same one ([socket_race]).
    - Logging: what a record says and when none is written ([log_record],
      [log_column]).
    - Messages: consistency of the generated tables ([descriptor_tables]).
    - Defects, each with the fault it causes: the theorems whose names end in
      [_overflow], [_aborts], [_aborts_both], [_null_deref], [_kills_daemon],
      [_use_after_free], [_never_returns], [_high_pool], [_race], and the error
      cases of others.

    ** What is left out

    The C++ message classes (generated), protobuf, boost and the lock-free
    queue (third party; the queue is a FIFO here), libev's timers (their
    callback is [timeout_cb]), and the interleaving inside a turn: a step of
    [dstep] is one whole turn of one thread; a step of [pstep] (Process.v) is a
    turn of the interface or IP thread, or of the event loop one poll or one
    handle, so data races inside these are not modelled.  A callback that sleeps in
    [wait_dequeue] is run as a whole when the queue is filled; only its reads of
    the notification pipe come too late by that.  [read] on the TUN device and
    [epoll_wait] may never return: no theorem assumes that a thread moves on.  The program's own threads
    (Threads.v) interleave at each access to a global, in a memory that is
    sequentially consistent.  In Link.v the turns the daemon's threads take
    while a program waits are the scheduler's plan, a parameter; epoll there
    reports connections before the rest, and a write to a channel whose daemon has
    ended fails (in the program SIGPIPE would end it).  The calls of
    [VELOXD_LOG] inside the other functions are left out of their definitions;
    Logging.v gives the macro itself.  TCP teardown, retransmission, IP
    fragmentation and ICMP have no code to model. *)

From stdpp Require Export base list list_numbers numbers option gmap.
From Stdlib Require Export ZArith Lia.

#[global] Open Scope Z_scope.
#[global] Coercion Z.of_nat : nat >-> Z.

(** ** Automation databases *)

Create HintDb velox discriminated.
Create HintDb velox_bytes discriminated.

(** ** Faults

    Everything that ends or corrupts the real process instead of returning:
    a failed [assert], a null or dangling dereference, an access outside an
    object, [exit], and a loop that has not finished within its fuel.
    [Sleeps] is none of these: the thread has come to a [wait_dequeue] on a queue
    that is empty in this state, and goes on once another thread has filled it
    (Process.v). *)
Inductive fault : Set :=
  | AssertFail
  | NullDeref
  | OutOfBounds
  | UseAfterFree
  | ExitFailure
  | OutOfFuel
  | Sleeps.

Inductive res (A : Type) : Type :=
  | Ok (a : A)
  | Fault (f : fault).
Arguments Ok {A} a.
Arguments Fault {A} f.

#[global] Instance fault_eq_dec : EqDecision fault.
Proof. solve_decision. Defined.

#[global] Instance res_ret : MRet res := λ A a, Ok a.
#[global] Instance res_bind : MBind res := λ A B k m,
  match m with Ok a => k a | Fault f => Fault f end.

(** A state monad over [res]: the code that threads a process state. *)
Definition M (S A : Type) : Type := S → res (A * S).

#[global] Instance M_ret {S} : MRet (M S) := λ A a s, Ok (a, s).
#[global] Instance M_bind {S} : MBind (M S) := λ A B k m s,
  match m s with Ok (a, s') => k a s' | Fault f => Fault f end.

Definition fail {S A} (f : fault) : M S A := λ _, Fault f.
Definition get_st {S} : M S S := λ s, Ok (s, s).
Definition put_st {S} (s : S) : M S unit := λ _, Ok (tt, s).
Definition gets {S A} (f : S → A) : M S A := λ s, Ok (f s, s).
Definition modify {S} (f : S → S) : M S unit := λ s, Ok (tt, f s).
Definition lift_res {S A} (r : res A) : M S A := λ s,
  match r with Ok a => Ok (a, s) | Fault f => Fault f end.
Definition of_option {A} (f : fault) (o : option A) : res A :=
  match o with Some a => Ok a | None => Fault f end.
(** [assert(b)] with assertions enabled. *)
Definition assert_ {S} (b : bool) : M S unit :=
  if b then mret tt else fail AssertFail.
Definition deref {S A} (o : option A) : M S A := lift_res (of_option NullDeref o).

(** Running a monadic program: one step of a bind, and reduction of the monad's
    plumbing only. *)
Lemma M_bind_ok {S A B} (m : M S A) (k : A → M S B) s a s' :
  m s = Ok (a, s') → (m ≫= k) s = k a s'.
Proof. intros H. unfold mbind, M_bind. by rewrite H. Qed.
Lemma M_bind_fault {S A B} (m : M S A) (k : A → M S B) s f :
  m s = Fault f → (m ≫= k) s = Fault f.
Proof. intros H. unfold mbind, M_bind. by rewrite H. Qed.
Lemma M_bind_inv {S A B} (m : M S A) (k : A → M S B) s b s2 :
  (m ≫= k) s = Ok (b, s2) → ∃ a s1, m s = Ok (a, s1) ∧ k a s1 = Ok (b, s2).
Proof. unfold mbind, M_bind. destruct (m s) as [[a s1]|]; [eauto|done]. Qed.

(** Run the first action of a sequence whose result is known. *)
Tactic Notation "mstep" uconstr(H) := rewrite (M_bind_ok _ _ _ _ _ H).

Ltac run_m :=
  cbv [mbind M_bind res_bind mret M_ret res_ret assert_ deref lift_res of_option
       fail get_st put_st gets modify negb].
Ltac run_m_in H :=
  cbv [mbind M_bind res_bind mret M_ret res_ret assert_ deref lift_res of_option
       fail get_st put_st gets modify negb] in H.

(** ** Machine integers: unbounded [Z] with the wrap-around written out *)

Definition u8 (z : Z) : Z := z mod 2 ^ 8.
Definition u16 (z : Z) : Z := z mod 2 ^ 16.
Definition u32 (z : Z) : Z := z mod 2 ^ 32.
Definition u64 (z : Z) : Z := z mod 2 ^ 64.
Definition i16 (z : Z) : Z := (z + 2 ^ 15) mod 2 ^ 16 - 2 ^ 15.
Definition i32 (z : Z) : Z := (z + 2 ^ 31) mod 2 ^ 32 - 2 ^ 31.

Definition in_u8 (z : Z) : Prop := 0 ≤ z < 256.
Definition in_u16 (z : Z) : Prop := 0 ≤ z < 65536.
Definition in_u32 (z : Z) : Prop := 0 ≤ z < 4294967296.
Definition in_i32 (z : Z) : Prop := -2147483648 ≤ z < 2147483648.

(** C's truth value of an [int], and [e & mask] used as a condition. *)
Definition truth (z : Z) : bool := negb (z =? 0).
Definition has_bits (z mask : Z) : bool := truth (Z.land z mask).

(** Byte swaps: [htons]/[ntohs]/[__be16_to_cpu]/[__cpu_to_be16] and
    [htonl]/[ntohl] on a little-endian host. *)
Definition bswap16 (z : Z) : Z :=
  Z.lor (Z.shiftl (Z.land z 255) 8) (Z.land (Z.shiftr z 8) 255).
Definition bswap32 (z : Z) : Z :=
  Z.lor (Z.shiftl (bswap16 (Z.land z 65535)) 16)
        (bswap16 (Z.land (Z.shiftr z 16) 65535)).

Ltac Zify.zify_post_hook ::= idtac.

(** [lia] after turning every [/] and [mod] by a constant into equations. *)
Ltac dm_lia := Z.div_mod_to_equations; lia.

Ltac unfold_ints :=
  unfold u8, u16, u32, u64, i16, i32, in_u8, in_u16, in_u32, in_i32 in *;
  change (2 ^ 8) with 256 in *; change (2 ^ 16) with 65536 in *;
  change (2 ^ 15) with 32768 in *;
  change (2 ^ 32) with 4294967296 in *; change (2 ^ 31) with 2147483648 in *;
  change (2 ^ 64) with 18446744073709551616 in *.
Ltac int_lia := unfold_ints; dm_lia.

Lemma u16_range z : in_u16 (u16 z).
Proof. int_lia. Qed.
Lemma u32_range z : in_u32 (u32 z).
Proof. int_lia. Qed.
Lemma u16_small z : in_u16 z → u16 z = z.
Proof. intros H. apply Z.mod_small, H. Qed.
Lemma u32_small z : in_u32 z → u32 z = z.
Proof. intros H. apply Z.mod_small, H. Qed.
Lemma i32_small z : in_i32 z → i32 z = z.
Proof. intros ?. int_lia. Qed.
Lemma i32_range z : in_i32 (i32 z).
Proof. int_lia. Qed.
(** A [uint32_t] passed through an [int] parameter comes back unchanged. *)
Lemma u32_i32 z : in_u32 z → u32 (i32 z) = z.
Proof. intros ?. int_lia. Qed.

Lemma land_255 z : Z.land z 255 = z mod 256.
Proof. change 255 with (Z.ones 8). by rewrite Z.land_ones. Qed.
Lemma land_65535 z : Z.land z 65535 = z mod 65536.
Proof. change 65535 with (Z.ones 16). by rewrite Z.land_ones. Qed.
Lemma shiftr_8 z : Z.shiftr z 8 = z / 256.
Proof. by rewrite Z.shiftr_div_pow2. Qed.
Lemma shiftr_16 z : Z.shiftr z 16 = z / 65536.
Proof. by rewrite Z.shiftr_div_pow2. Qed.

(** Disjoint bit ranges: [|] of a shifted value and a smaller one is [+]. *)
Lemma lor_shiftl_add a b n : 0 ≤ n → 0 ≤ b < 2 ^ n → Z.lor (Z.shiftl a n) b = a * 2 ^ n + b.
Proof.
  intros Hn Hb. rewrite <-Z.shiftl_mul_pow2 by done.
  assert (Z.land (Z.shiftl a n) b = 0) as Hl.
  { apply Z.bits_inj'. intros i Hi. rewrite Z.land_spec, Z.bits_0.
    destruct (decide (i < n)).
    - by rewrite Z.shiftl_spec_low.
    - rewrite <-(Z.mod_small b (2 ^ n)) by done.
      rewrite Z.mod_pow2_bits_high by lia. apply andb_false_r. }
  rewrite Z.add_nocarry_lxor by done. by rewrite <-Z.lxor_lor by done.
Qed.

Lemma bswap16_arith z : bswap16 z = (z mod 256) * 256 + (z / 256) mod 256.
Proof.
  unfold bswap16. rewrite !land_255, shiftr_8.
  rewrite lor_shiftl_add by dm_lia. done.
Qed.
Lemma bswap16_range z : in_u16 (bswap16 z).
Proof. rewrite bswap16_arith. int_lia. Qed.
Lemma bswap16_invol z : in_u16 z → bswap16 (bswap16 z) = z.
Proof. rewrite !bswap16_arith. intros ?. int_lia. Qed.
Lemma bswap16_inj a b : in_u16 a → in_u16 b → bswap16 a = bswap16 b → a = b.
Proof. intros Ha Hb E. rewrite <-(bswap16_invol a), <-(bswap16_invol b) by done. by rewrite E. Qed.

Lemma bswap32_arith z :
  bswap32 z = bswap16 (z mod 65536) * 65536 + bswap16 ((z / 65536) mod 65536).
Proof.
  unfold bswap32. rewrite !land_65535, shiftr_16.
  pose proof (bswap16_range ((z / 65536) mod 65536)).
  rewrite lor_shiftl_add; unfold_ints; [done|lia|lia].
Qed.
Lemma bswap32_range z : in_u32 (bswap32 z).
Proof.
  rewrite bswap32_arith.
  pose proof (bswap16_range (z mod 65536)).
  pose proof (bswap16_range ((z / 65536) mod 65536)). unfold_ints; lia.
Qed.
Lemma bswap32_invol z : in_u32 z → bswap32 (bswap32 z) = z.
Proof. rewrite !bswap32_arith, !bswap16_arith. intros ?. int_lia. Qed.

(** ** Byte memory

    A memory object is the list of its bytes; a load or store outside the
    object is [None] (and becomes [Fault OutOfBounds] in the operations). *)

Definition bytes_ok (l : list Z) : Prop := Forall in_u8 l.

Definition in_range (off n len : Z) : bool := (0 <=? off) && (off + n <=? len).

Definition slice (l : list Z) (off n : Z) : option (list Z) :=
  if (0 <=? n) && in_range off n (length l)
  then Some (take (Z.to_nat n) (drop (Z.to_nat off) l)) else None.

Definition store (l : list Z) (off : Z) (bs : list Z) : option (list Z) :=
  if in_range off (length bs) (length l)
  then Some (take (Z.to_nat off) l ++ bs ++ drop (Z.to_nat off + length bs) l)
  else None.

(** Little-endian value of a byte string and its inverse. *)
Fixpoint le_val (bs : list Z) : Z :=
  match bs with [] => 0 | b :: bs => b + 256 * le_val bs end.
Fixpoint le_bytes (n : nat) (v : Z) : list Z :=
  match n with O => [] | S n => v mod 256 :: le_bytes n (v / 256) end.

Definition load8 (l : list Z) (off : Z) : option Z := le_val <$> slice l off 1.
Definition load16 (l : list Z) (off : Z) : option Z := le_val <$> slice l off 2.
Definition load32 (l : list Z) (off : Z) : option Z := le_val <$> slice l off 4.
Definition store8 (l : list Z) (off v : Z) : option (list Z) := store l off (le_bytes 1 v).
Definition store16 (l : list Z) (off v : Z) : option (list Z) := store l off (le_bytes 2 v).
Definition store32 (l : list Z) (off v : Z) : option (list Z) := store l off (le_bytes 4 v).

Lemma length_le_bytes n v : length (le_bytes n v) = n.
Proof. revert v; induction n; intros; simpl; auto. Qed.

Lemma le_bytes_ok n v : bytes_ok (le_bytes n v).
Proof. revert v; induction n; intros v; constructor; [int_lia|apply IHn]. Qed.

Lemma le_val_bytes n v : le_val (le_bytes n v) = v mod 256 ^ Z.of_nat n.
Proof.
  revert v; induction n as [|n IH]; intros v; cbn [le_val le_bytes].
  - by rewrite Z.mod_1_r.
  - rewrite IH, Nat2Z.inj_succ, Z.pow_succ_r by lia.
    rewrite Z.rem_mul_r by lia. done.
Qed.

Lemma le_val_range bs : bytes_ok bs → 0 ≤ le_val bs < 256 ^ Z.of_nat (length bs).
Proof.
  induction 1 as [|b bs Hb _ IH]; cbn [le_val length]; [done|].
  rewrite Nat2Z.inj_succ, Z.pow_succ_r by lia. unfold_ints. nia.
Qed.

Lemma le_bytes_val bs : bytes_ok bs → le_bytes (length bs) (le_val bs) = bs.
Proof.
  induction 1 as [|b bs Hb _ IH]; cbn [le_val le_bytes length]; [done|].
  replace ((b + 256 * le_val bs) / 256) with (le_val bs) by int_lia.
  rewrite IH. f_equal. int_lia.
Qed.

Lemma in_range_true off n len : in_range off n len = true ↔ 0 ≤ off ∧ off + n ≤ len.
Proof. unfold in_range. rewrite andb_true_iff, !Z.leb_le. done. Qed.

Lemma slice_Some l off n bs :
  slice l off n = Some bs ↔
  0 ≤ n ∧ 0 ≤ off ∧ off + n ≤ length l ∧ bs = take (Z.to_nat n) (drop (Z.to_nat off) l).
Proof.
  unfold slice. destruct ((0 <=? n) && _) eqn:E.
  - rewrite andb_true_iff, in_range_true, Z.leb_le in E. naive_solver.
  - rewrite andb_false_iff, Z.leb_gt, <-not_true_iff_false, in_range_true in E.
    split; [done|lia].
Qed.

Lemma slice_is_Some l off n :
  0 ≤ n → 0 ≤ off → off + n ≤ length l → is_Some (slice l off n).
Proof. intros. eexists. by apply slice_Some. Qed.

Lemma slice_length l off n bs : slice l off n = Some bs → Z.of_nat (length bs) = n.
Proof.
  intros (?&?&?&->)%slice_Some. rewrite length_take, length_drop. lia.
Qed.

Lemma slice_ok l off n bs : bytes_ok l → slice l off n = Some bs → bytes_ok bs.
Proof. intros Hl (?&?&?&->)%slice_Some. by apply Forall_take, Forall_drop. Qed.

Lemma store_Some l off bs l' :
  store l off bs = Some l' ↔
  0 ≤ off ∧ off + length bs ≤ length l ∧
  l' = take (Z.to_nat off) l ++ bs ++ drop (Z.to_nat off + length bs) l.
Proof.
  unfold store. destruct (in_range _ _ _) eqn:E.
  - rewrite in_range_true in E. naive_solver.
  - rewrite <-not_true_iff_false, in_range_true in E. split; [done|lia].
Qed.

Lemma store_is_Some l off bs :
  0 ≤ off → off + length bs ≤ length l → is_Some (store l off bs).
Proof. intros. eexists. by apply store_Some. Qed.

Lemma store_length l off bs l' : store l off bs = Some l' → length l' = length l.
Proof.
  intros (?&?&->)%store_Some. rewrite !length_app, length_take, length_drop. lia.
Qed.

Lemma store_ok l off bs l' :
  bytes_ok l → bytes_ok bs → store l off bs = Some l' → bytes_ok l'.
Proof.
  intros Hl Hb (?&?&->)%store_Some. repeat apply Forall_app_2; try done.
  - by apply Forall_take.
  - by apply Forall_drop.
Qed.

(** Reading back what was stored. *)
Lemma slice_store_same l off bs l' :
  store l off bs = Some l' → slice l' off (length bs) = Some bs.
Proof.
  intros H. pose proof (store_length _ _ _ _ H) as Hlen.
  apply store_Some in H as (?&?&->). apply slice_Some. rewrite Hlen.
  repeat split; [lia|lia|lia|].
  rewrite drop_app_length' by (rewrite length_take; lia).
  rewrite Nat2Z.id, take_app_length. done.
Qed.

(** A store does not change the bytes outside its range. *)
Lemma slice_store_disjoint l off bs l' off2 n :
  store l off bs = Some l' → (off2 + n ≤ off ∨ off + length bs ≤ off2) →
  slice l' off2 n = slice l off2 n.
Proof.
  intros H Hd. pose proof (store_length _ _ _ _ H) as Hlen.
  apply store_Some in H as (?&?&->).
  unfold slice. rewrite Hlen. destruct ((0 <=? n) && in_range off2 n (length l)) eqn:E; [|done].
  rewrite andb_true_iff, in_range_true, Z.leb_le in E. f_equal.
  apply list_eq. intros i.
  destruct (decide (i < Z.to_nat n)%nat) as [Hi|Hi].
  2: { rewrite !lookup_ge_None_2; [done| |]; rewrite length_take; lia. }
  rewrite !lookup_take, !lookup_drop, !decide_True by done.
  destruct Hd as [Hd|Hd].
  - rewrite lookup_app_l by (rewrite length_take; lia). by rewrite lookup_take, decide_True by lia.
  - rewrite lookup_app_r by (rewrite length_take; lia). rewrite length_take.
    rewrite lookup_app_r by lia. rewrite lookup_drop. f_equal. lia.
Qed.

(** ** Typed loads and stores *)

Lemma load16_store16_same l off v l' :
  store16 l off v = Some l' → load16 l' off = Some (u16 v).
Proof.
  intros H. unfold load16. rewrite (slice_store_same _ _ _ _ H : slice l' off 2 = _).
  cbn [fmap option_fmap option_map]. by rewrite le_val_bytes.
Qed.

Lemma load32_store32_same l off v l' :
  store32 l off v = Some l' → load32 l' off = Some (u32 v).
Proof.
  intros H. unfold load32. rewrite (slice_store_same _ _ _ _ H : slice l' off 4 = _).
  cbn [fmap option_fmap option_map]. by rewrite le_val_bytes.
Qed.

Lemma load8_store8_same l off v l' :
  store8 l off v = Some l' → load8 l' off = Some (u8 v).
Proof.
  intros H. unfold load8. rewrite (slice_store_same _ _ _ _ H : slice l' off 1 = _).
  cbn [fmap option_fmap option_map]. by rewrite le_val_bytes.
Qed.

Lemma load_range n l off v :
  0 ≤ n → bytes_ok l → le_val <$> slice l off n = Some v → 0 ≤ v < 256 ^ n.
Proof.
  intros Hn Hl (bs & Hs & ->)%fmap_Some.
  pose proof (le_val_range bs (slice_ok _ _ _ _ Hl Hs)) as Hr.
  by rewrite (slice_length _ _ _ _ Hs) in Hr.
Qed.
Lemma load8_range l off v : bytes_ok l → load8 l off = Some v → in_u8 v.
Proof. intros Hl Hv. by apply (load_range 1 l off) in Hv; [|lia|]. Qed.
Lemma load16_range l off v : bytes_ok l → load16 l off = Some v → in_u16 v.
Proof. intros Hl Hv. by apply (load_range 2 l off) in Hv; [|lia|]. Qed.
Lemma load32_range l off v : bytes_ok l → load32 l off = Some v → in_u32 v.
Proof. intros Hl Hv. by apply (load_range 4 l off) in Hv; [|lia|]. Qed.

Lemma load8_is_Some l off : 0 ≤ off → off + 1 ≤ length l → is_Some (load8 l off).
Proof. intros. apply fmap_is_Some, slice_is_Some; lia. Qed.
Lemma load16_is_Some l off : 0 ≤ off → off + 2 ≤ length l → is_Some (load16 l off).
Proof. intros. apply fmap_is_Some, slice_is_Some; lia. Qed.
Lemma load32_is_Some l off : 0 ≤ off → off + 4 ≤ length l → is_Some (load32 l off).
Proof. intros. apply fmap_is_Some, slice_is_Some; lia. Qed.

(** The function a program applies. *)
Ltac head_of m := lazymatch m with ?f _ => head_of f | _ => m end.
