(* ===== verification/Csum16.v ===== *)
(** * The Internet checksum (src/src/veloxd/base/Csum16.cpp)

    [checksum] is the 32-bit routine of [Csum16.cpp], with its unsigned
    wrap-around and its two loops; [wsum] is the reference sum of 16-bit
    little-endian words.  The theorems relate the two, show that the folding
    loop ends, and that a header whose check field was filled by the routine
    verifies. *)

From S2P Require Import Prelude.

(** The summing loop [while (count > 1) { sum += *ptr++; count -= 2; }]:
    src/src/veloxd/base/Csum16.cpp:36-41.  [ptr] is an offset in [mem]. *)
Fixpoint csum_loop (fuel : nat) (mem : list Z) (ptr count sum : Z) : res (Z * Z * Z) :=
  if 1 <? count then
    match fuel with
    | O => Fault OutOfFuel
    | S fuel =>
        w ← of_option OutOfBounds (load16 mem ptr);
        csum_loop fuel mem (ptr + 2) (count - 2) (u32 (sum + w))
    end
  else Ok (ptr, count, sum).

(** The loop and the left-over byte: src/src/veloxd/base/Csum16.cpp:36-45. *)
Definition csum_sum (mem : list Z) (count sum : Z) : res Z :=
  '(ptr, count, sum) ← csum_loop (Z.to_nat count) mem 0 count sum;
  if 0 <? count then
    b ← of_option OutOfBounds (load8 mem ptr);
    Ok (u32 (sum + b))
  else Ok sum.

(** [while (sum >> 16) sum = (sum & 0xffff) + (sum >> 16);]:
    src/src/veloxd/base/Csum16.cpp:48-49. *)
Fixpoint csum_fold (fuel : nat) (sum : Z) : res Z :=
  if truth (Z.shiftr sum 16) then
    match fuel with
    | O => Fault OutOfFuel
    | S fuel => csum_fold fuel (u32 (Z.land sum 65535 + Z.shiftr sum 16))
    end
  else Ok sum.

(** Folding a 32-bit sum takes at most two iterations ([csum_fold_spec]). *)
Definition fold_fuel : nat := 2.

(** [Csum16::checksum]: src/src/veloxd/base/Csum16.cpp:26-52.  [start_sum]
    is an [int] that initialises the [uint32_t] sum; [~sum] is the 32-bit
    complement. *)
Definition checksum (mem : list Z) (count start_sum : Z) : res Z :=
  sum ← csum_sum mem count (u32 start_sum);
  sum ← csum_fold fold_fuel sum;
  Ok (u32 (Z.lnot sum)).

(** ** Reference: the sum of the 16-bit words *)

Fixpoint wsum (l : list Z) : Z :=
  match l with
  | b0 :: b1 :: l => b0 + 256 * b1 + wsum l
  | [b] => b
  | [] => 0
  end.

(** The canonical representative of [s] in ones-complement arithmetic. *)
Definition ones_rep (s : Z) : Z :=
  if s =? 0 then 0 else (s - 1) mod 65535 + 1.

Lemma wsum_app a b n : length a = (2 * n)%nat → wsum (a ++ b) = wsum a + wsum b.
Proof.
  revert a. induction n as [|n IH]; intros a Ha.
  - destruct a; [done|]. simpl in Ha; lia.
  - destruct a as [|x [|y a]]; simpl in Ha; try lia.
    change ((x :: y :: a) ++ b) with (x :: y :: (a ++ b)). cbn [wsum].
    rewrite (IH a) by lia. lia.
Qed.

(** Induction two bytes at a time, as the loop reads. *)
Lemma list_ind2 {A} (P : list A → Prop) :
  P [] → (∀ x, P [x]) → (∀ x y l, P l → P (x :: y :: l)) → ∀ l, P l.
Proof.
  intros H0 H1 H2 l. enough (P l ∧ ∀ x, P (x :: l)) by naive_solver.
  induction l; naive_solver.
Qed.

Lemma wsum_range l : bytes_ok l → 0 ≤ wsum l ≤ 65535 * ((length l + 1) / 2).
Proof.
  induction l as [|x|x y l IH] using list_ind2; intros Hl; [done| |].
  - apply Forall_cons in Hl as [? _]. cbn. int_lia.
  - apply Forall_cons in Hl as [? [? ?]%Forall_cons]. specialize (IH ltac:(done)).
    cbn [wsum length]. int_lia.
Qed.

(** Words below 128 KiB of data cannot overflow the 32-bit accumulator. *)
Lemma wsum_u32 l : bytes_ok l → length l ≤ 131070 → in_u32 (wsum l).
Proof. intros Hl ?. pose proof (wsum_range l Hl). int_lia. Qed.

(** ** The summing loop computes [wsum] *)

Lemma load16_drop l (off : nat) x y t :
  drop off l = x :: y :: t → load16 l off = Some (x + 256 * y).
Proof.
  intros Hd. assert (length (drop off l) = S (S (length t))) as Hlen by by rewrite Hd.
  rewrite length_drop in Hlen. unfold load16, slice.
  replace (_ && _) with true by (symmetry; rewrite andb_true_iff, in_range_true, Z.leb_le; lia).
  rewrite Nat2Z.id, Hd. change (Z.to_nat 2) with 2%nat.
  cbn [take fmap option_fmap option_map le_val]. rewrite take_0. cbn [le_val]. f_equal. lia.
Qed.

Lemma load8_drop l (off : nat) x t : drop off l = x :: t → load8 l off = Some x.
Proof.
  intros Hd. assert (length (drop off l) = S (length t)) as Hlen by by rewrite Hd.
  rewrite length_drop in Hlen. unfold load8, slice.
  replace (_ && _) with true by (symmetry; rewrite andb_true_iff, in_range_true, Z.leb_le; lia).
  rewrite Nat2Z.id, Hd. change (Z.to_nat 1) with 1%nat.
  cbn [take fmap option_fmap option_map le_val]. rewrite take_0. cbn [le_val]. f_equal. lia.
Qed.

Lemma u32_add_l a b : u32 (u32 a + b) = u32 (a + b).
Proof. unfold u32. by rewrite Zplus_mod_idemp_l. Qed.

(** [csum_loop] from offset [off] over [cnt] bytes whose content is [data]. *)
Lemma csum_loop_spec data : ∀ (fuel off : nat) mem sum,
  take (length data) (drop off mem) = data → length data ≤ fuel →
  ∃ ptr' count' sum', csum_loop fuel mem off (length data) (u32 sum) = Ok (ptr', count', u32 sum') ∧
    match count' with
    | 0 => sum' = sum + wsum data
    | _ => count' = 1 ∧ ∃ b, load8 mem ptr' = Some b ∧ sum' + b = sum + wsum data
    end.
Proof.
  induction data as [|x|x y data IH] using list_ind2; intros fuel off mem sum Hd Hf.
  - exists off, 0, sum. split; [|cbn; lia]. destruct fuel; done.
  - exists off, 1, sum. split; [by destruct fuel|]. split; [done|].
    exists x. split; [|cbn; lia].
    destruct (drop off mem) as [|x' t] eqn:E; [done|]. cbn in Hd. simplify_eq.
    by apply (load8_drop _ _ _ t).
  - destruct fuel as [|fuel]; [cbn in Hf; lia|].
    destruct (drop off mem) as [|x' [|y' t]] eqn:E; try done.
    cbn [length take] in Hd. simplify_eq.
    assert (drop (S (S off)) mem = t) as E'.
    { replace (S (S off)) with (off + 2)%nat by lia. rewrite <-drop_drop, E. done. }
    destruct (IH fuel (S (S off)) mem (sum + (x + 256 * y))) as (p & c & s & Hrun & Hpost).
    { by rewrite E'. } { cbn [length] in Hf. lia. }
    exists p, c, s. split.
    + cbn [csum_loop]. replace (1 <? _) with true by (symmetry; apply Z.ltb_lt; cbn [length]; lia).
      rewrite (load16_drop _ _ _ _ _ E). cbn.
      replace (off + 2) with (Z.of_nat (S (S off))) by lia.
      replace (Z.of_nat (S (S (length data))) - 2) with (Z.of_nat (length data)) by lia.
      by rewrite u32_add_l.
    + cbn [wsum]. destruct c; naive_solver lia.
Qed.

Lemma csum_sum_spec mem count sum :
  0 ≤ count ≤ length mem →
  csum_sum mem count (u32 sum) = Ok (u32 (sum + wsum (take (Z.to_nat count) mem))).
Proof.
  intros Hc. unfold csum_sum. set (data := take (Z.to_nat count) mem).
  assert (length data = Z.to_nat count) as Hlen.
  { unfold data. rewrite length_take. lia. }
  destruct (csum_loop_spec data (Z.to_nat count) 0 mem sum) as (p & c & s & Hrun & Hpost).
  { by rewrite drop_0, Hlen. } { lia. }
  rewrite Hlen, Z2Nat.id in Hrun by lia. change (Z.of_nat 0) with 0 in Hrun. rewrite Hrun. cbn.
  destruct c as [|c|c].
  - by subst s.
  - destruct Hpost as [Hc1 (b & Hb & Hs)]. simplify_eq. cbn. rewrite Hb. cbn.
    by rewrite u32_add_l, Hs.
  - by destruct Hpost.
Qed.

(** ** The folding loop ends and computes the ones-complement residue *)

Lemma truth_shiftr16 s : 0 ≤ s → truth (Z.shiftr s 16) = (65536 <=? s).
Proof.
  intros Hs. unfold truth. rewrite shiftr_16.
  destruct (Z.leb_spec 65536 s); [apply negb_true_iff, Z.eqb_neq|apply negb_false_iff, Z.eqb_eq]; dm_lia.
Qed.

Lemma csum_fold_step n s : in_u32 s → 65536 ≤ s →
  csum_fold (S n) s = csum_fold n (s mod 65536 + s / 65536).
Proof.
  intros Hs Hge. cbn [csum_fold]. unfold_ints.
  rewrite truth_shiftr16, (proj2 (Z.leb_le _ _) Hge), land_65535, shiftr_16 by lia.
  f_equal. apply Z.mod_small. dm_lia.
Qed.

Lemma csum_fold_done n s : 0 ≤ s < 65536 → csum_fold n s = Ok s.
Proof.
  intros Hs. destruct n; cbn [csum_fold];
    by rewrite truth_shiftr16, (proj2 (Z.leb_gt _ _)) by lia.
Qed.

Lemma ones_rep_small s : 0 ≤ s < 65536 → ones_rep s = s.
Proof. unfold ones_rep. destruct (Z.eqb_spec s 0); intros; [lia|]. rewrite Z.mod_small; lia. Qed.

Lemma ones_rep_step s : 0 < s → ones_rep (s mod 65536 + s / 65536) = ones_rep s.
Proof.
  intros Hs. unfold ones_rep.
  destruct (Z.eqb_spec s 0); [lia|].
  destruct (Z.eqb_spec (s mod 65536 + s / 65536) 0); [dm_lia|]. f_equal.
  replace (s mod 65536 + s / 65536 - 1) with (s - 1 + (- (s / 65536)) * 65535) by dm_lia.
  by rewrite Z.mod_add by done.
Qed.

Lemma csum_fold_ones s : in_u32 s → csum_fold fold_fuel s = Ok (ones_rep s).
Proof.
  intros Hs. unfold fold_fuel. unfold_ints.
  destruct (Z.leb_spec 65536 s).
  2: { rewrite csum_fold_done, ones_rep_small; done || lia. }
  rewrite csum_fold_step by (unfold_ints; lia). rewrite <-ones_rep_step by lia.
  set (t := s mod 65536 + s / 65536). assert (0 ≤ t ≤ 131070) by (unfold t; dm_lia).
  destruct (Z.leb_spec 65536 t).
  2: { rewrite csum_fold_done, ones_rep_small; done || lia. }
  rewrite csum_fold_step by (unfold_ints; lia). rewrite <-ones_rep_step by lia.
  rewrite csum_fold_done, ones_rep_small; [done|dm_lia|dm_lia].
Qed.

Lemma ones_rep_range s : 0 ≤ s → 0 ≤ ones_rep s < 65536.
Proof. intros Hs. unfold ones_rep. destruct (Z.eqb_spec s 0); dm_lia. Qed.

Lemma u32_u32 z : u32 (u32 z) = u32 z.
Proof. apply u32_small, u32_range. Qed.

(** Everything [checksum] computes, for any buffer that holds [count] bytes. *)
Lemma checksum_eq mem count start :
  0 ≤ count ≤ length mem →
  checksum mem count start =
    Ok (4294967295 - ones_rep (u32 (start + wsum (take (Z.to_nat count) mem)))).
Proof.
  intros Hc. unfold checksum. rewrite csum_sum_spec by done. cbn [mbind res_bind].
  rewrite csum_fold_ones by apply u32_range. cbn [mbind res_bind]. f_equal.
  set (r := ones_rep _). assert (0 ≤ r < 65536).
  { unfold r. apply ones_rep_range. pose proof (u32_range (start + wsum (take (Z.to_nat count) mem))).
    int_lia. }
  unfold Z.lnot. int_lia.
Qed.

(** The 16-bit check field the callers keep of the 32-bit result. *)
Lemma check_field_eq mem count start :
  0 ≤ count ≤ length mem →
  u16 <$> (match checksum mem count start with Ok c => Some c | Fault _ => None end)
    = Some (65535 - ones_rep (u32 (start + wsum (take (Z.to_nat count) mem)))).
Proof.
  intros Hc. rewrite checksum_eq by done. cbn [fmap option_fmap option_map]. f_equal.
  set (s := u32 _). assert (0 ≤ s) by (pose proof (u32_range (start + wsum (take (Z.to_nat count) mem))); int_lia).
  pose proof (ones_rep_range s ltac:(done)). int_lia.
Qed.

(** The test a receiver applies: the words of the data, check field included,
    add up to all ones. *)
Definition csum_valid (l : list Z) : Prop := ones_rep (wsum l) = 65535.

Lemma csum_fill s : 0 < s → ones_rep (s + (65535 - ones_rep s)) = 65535.
Proof.
  intros Hs. unfold ones_rep. destruct (Z.eqb_spec s 0); [lia|].
  destruct (Z.eqb_spec (s + (65535 - ((s - 1) mod 65535 + 1))) 0); dm_lia.
Qed.

(** Replacing a 16-bit field at an even offset changes the word sum by the
    difference of the field's values. *)
Lemma wsum_store16 l off v w l' :
  0 ≤ off → off mod 2 = 0 → bytes_ok l →
  load16 l off = Some w → store16 l off v = Some l' →
  wsum l' = wsum l - w + u16 v.
Proof.
  intros Hoff Hev Hl Hw Hs. unfold load16 in Hw. apply fmap_Some in Hw as (bs & Hbs & ->).
  assert (length bs = 2%nat) as Hb2 by (apply slice_length in Hbs; lia).
  apply slice_Some in Hbs as (_ & _ & Hle & ->).
  apply store_Some in Hs as (_ & _ & ->). rewrite length_le_bytes in *.
  set (n := Z.to_nat off) in *. change (Z.to_nat 2) with 2%nat in *.
  assert (∃ k, n = (2 * k)%nat) as [k Hk] by (exists (Z.to_nat (off / 2)); unfold n; dm_lia).
  assert (length (take n l) = (2 * k)%nat) as Htn.
  { rewrite length_take. lia. }
  rewrite <-(take_drop n l) at 3. rewrite !(wsum_app _ _ _ Htn).
  rewrite (wsum_app _ _ 1) by done.
  rewrite <-(take_drop 2 (drop n l)) at 1. rewrite (wsum_app _ _ 1) by done.
  rewrite drop_drop. destruct (take 2 (drop n l)) as [|x [|y [|]]]; try done.
  cbn [wsum le_val le_bytes]. int_lia.
Qed.

(** ** Properties *)

(** C21. What [Csum16::checksum] computes: on every buffer of at least [count]
    bytes and for every start value it returns (both loops end, nothing is read
    out of bounds) the 32-bit complement of the ones-complement folding of the
    start value plus the sum of the 16-bit words, an odd last byte counted as a
    word of its own, the sum taken modulo 2^32.  For at most 131070 bytes and a
    start value from 0 to 131070 the sum does not wrap, and the result is the
    Internet checksum of RFC 1071; every packet is shorter than that. *)
Theorem checksum_correct mem count start :
  bytes_ok mem → 0 ≤ count ≤ length mem →
  let words := wsum (take (Z.to_nat count) mem) in
  checksum mem count start = Ok (4294967295 - ones_rep ((start + words) mod 4294967296)) ∧
  (count ≤ 131070 → 0 ≤ start ≤ 131070 → checksum mem count start = Ok (4294967295 - ones_rep (start + words))).
Proof.
  intros Hm Hc words. rewrite checksum_eq by done. fold words. split; [done|]. intros Hmax Hs. do 3 f_equal. apply u32_small.
  pose proof (wsum_range (take (Z.to_nat count) mem) ltac:(by apply Forall_take)) as Hr. fold words in Hr.
  rewrite length_take_le in Hr by lia. int_lia.
Qed.

Definition sample_hdr : list Z :=
  [69; 0; 0; 60; 28; 70; 64; 0; 64; 6; 0; 0; 172; 16; 10; 99; 172; 16; 10; 12].

Lemma checksum_correct_witness :
  checksum sample_hdr 20 0 = Ok (4294967295 - ones_rep (wsum sample_hdr)).
Proof.
  apply (checksum_correct sample_hdr 20 0); [|cbn; lia|lia|lia]. repeat constructor; done.
Defined.

(** A header whose 16-bit check field (at an even offset, zero before) is
    filled with the truncated result of [checksum] over the header verifies:
    the checksum over the filled header is zero in its low 16 bits, the test
    every receiver applies. *)
Theorem checksum_verifies hdr off c hdr' c' :
  bytes_ok hdr → length hdr ≤ 131068 → 0 ≤ off → off mod 2 = 0 →
  load16 hdr off = Some 0 →
  checksum hdr (length hdr) 0 = Ok c →
  store16 hdr off c = Some hdr' →
  checksum hdr' (length hdr') 0 = Ok c' →
  u16 c' = 0.
Proof.
  intros Hok Hlen Hoff Hev Hz Hc Hst Hc'.
  pose proof (wsum_store16 _ _ _ _ _ Hoff Hev Hok Hz Hst) as Hw.
  assert (bytes_ok hdr') as Hok' by exact (store_ok _ _ _ _ Hok (le_bytes_ok _ _) Hst).
  rewrite checksum_eq in Hc, Hc' by (split; lia). rewrite Nat2Z.id, firstn_all in Hc, Hc'.
  apply (store_length) in Hst as Hl. simplify_eq.
  pose proof (wsum_range hdr Hok) as Hr. pose proof (wsum_range hdr' Hok') as Hr'.
  rewrite Hl in Hr'. rewrite !Z.add_0_l, !u32_small in * by int_lia. rewrite Hw.
  unfold ones_rep.
  destruct (Z.eqb_spec (wsum hdr) 0) as [E|E].
  - rewrite E. done.
  - set (s := wsum hdr) in *.
    set (m := (s - 1) mod 65535). assert (0 ≤ m < 65535) by (unfold m; dm_lia).
    assert (u16 (4294967295 - (m + 1)) = 65534 - m) as Eu by int_lia.
    rewrite Eu. destruct (Z.eqb_spec (s - 0 + (65534 - m)) 0); [lia|].
    assert ((s - 0 + (65534 - m) - 1) mod 65535 = 65534) as ->; [|done].
    unfold m. dm_lia.
Qed.

Definition sample_hdr_filled : list Z :=
  take 10 sample_hdr ++ [177; 230] ++ drop 12 sample_hdr.

Lemma checksum_verifies_witness : u16 4294901760 = 0.
Proof.
  apply (checksum_verifies sample_hdr 10 4294960817 sample_hdr_filled).
  - repeat constructor; done.
  - cbn; lia.
  - lia.
  - done.
  - reflexivity.
  - vm_compute; reflexivity.
  - vm_compute; reflexivity.
  - vm_compute; reflexivity.
Defined.

(** Seeding [checksum] over an even-length header with the word sum of the
    payload, as [TcpSession::prepareBeforeIpTx] does, gives the checksum of
    header and payload laid out one after the other. *)
Theorem checksum_seeded hdr payload n :
  length hdr = (2 * n)%nat →
  checksum hdr (length hdr) (i32 (u32 (wsum payload))) =
  checksum (hdr ++ payload) (length (hdr ++ payload)) 0.
Proof.
  intros Hn. rewrite !checksum_eq by lia. rewrite !Nat2Z.id, !firstn_all.
  rewrite (wsum_app _ _ n) by done. do 3 f_equal.
  rewrite <-u32_add_l, u32_i32 by apply u32_range. rewrite u32_add_l. f_equal. lia.
Qed.

Lemma checksum_seeded_witness :
  checksum sample_hdr 20 (i32 (u32 (wsum [1; 2; 3]))) = checksum (sample_hdr ++ [1; 2; 3]) 23 0.
Proof. apply (checksum_seeded sample_hdr [1; 2; 3] 10). reflexivity. Defined.
