(* ===== verification/Locks.v ===== *)
(** * Locks and the shared queue

    [RawMutex] and [MutexScope] (src/src/veloxd/base/RawMutex.h, RawMutex.cpp) over
    a pthread mutex, and [BoundedDeque] (src/src/veloxd/base/BoundedDeque.h), each
    of whose methods takes the mutex, calls the method of [std::deque] and
    releases the mutex.  The threads that share a queue are a step relation:
    every thread is between two methods, inside one with the mutex taken, or
    inside one with its answer computed. *)

From stdpp Require Import relations.
From S2P Require Import Prelude.

(** ** The mutex *)

(** [pthread_mutex_t] of the default kind: the thread that holds it, and [None]
    when it is free. *)
Definition pthread_mutex : Type := option Z.
(** [None]: the caller blocks. *)
Definition pthread_mutex_lock (t : Z) (m : pthread_mutex) : option pthread_mutex :=
  match m with None => Some (Some t) | Some _ => None end.
Definition pthread_mutex_trylock (t : Z) (m : pthread_mutex) : pthread_mutex :=
  match m with None => Some t | Some _ => m end.
(** Unlocking a mutex that the thread does not hold is undefined. *)
Definition pthread_mutex_unlock (t : Z) (m : pthread_mutex) : option pthread_mutex :=
  match m with Some t' => if t =? t' then Some None else None | None => None end.

(** [class RawMutex]: src/src/veloxd/base/RawMutex.h:25-44. *)
Record RawMutex := mkRawMutex { _mutex : pthread_mutex; _holder : Z }.

(** [RawMutex::RawMutex]: src/src/veloxd/base/RawMutex.cpp:22-26. *)
Definition RawMutex_new : RawMutex := mkRawMutex None 0.
(** [RawMutex::lock]: src/src/veloxd/base/RawMutex.cpp:33-37. *)
Definition RawMutex_lock (t : Z) (m : RawMutex) : option RawMutex :=
  (λ x, mkRawMutex x (_holder m)) <$> pthread_mutex_lock t (_mutex m).
(** [RawMutex::tryLock]: src/src/veloxd/base/RawMutex.cpp:39-43; the result is
    dropped. *)
Definition RawMutex_tryLock (t : Z) (m : RawMutex) : RawMutex :=
  mkRawMutex (pthread_mutex_trylock t (_mutex m)) (_holder m).
(** [RawMutex::unlock]: src/src/veloxd/base/RawMutex.cpp:45-49. *)
Definition RawMutex_unlock (t : Z) (m : RawMutex) : option RawMutex :=
  (λ x, mkRawMutex x (_holder m)) <$> pthread_mutex_unlock t (_mutex m).
(** [RawMutex::isLockedByThisThread]: src/src/veloxd/base/RawMutex.cpp:51-55. *)
Definition RawMutex_isLockedByThisThread (t : Z) (m : RawMutex) : bool := t =? _holder m.

(** [MutexScope::MutexScope]: src/src/veloxd/base/RawMutex.cpp:57-61. *)
Definition MutexScope_new (t : Z) (m : RawMutex) : option RawMutex := RawMutex_lock t m.
(** [MutexScope::~MutexScope]: src/src/veloxd/base/RawMutex.cpp:63-66. *)
Definition MutexScope_delete (t : Z) (m : RawMutex) : option RawMutex := RawMutex_unlock t m.

(** ** The queue *)

Section deque.
Context {T : Type} (dflt : T).   (* a value-initialised [T] *)

(** The methods that have a body: src/src/veloxd/base/BoundedDeque.h:98-109. *)
Inductive deque_call : Type :=
  | CFront | CBack | CEmpty | CSize | CClear
  | CPushBack (v : T) | CPopFront | CPushFront (v : T) | CResize (n : nat) | CResizeWith (n : nat) (v : T).
Inductive deque_result : Type := RVoid | RRef (v : T) | RBool (b : bool) | RSize (n : nat).

(** The methods of [std::deque]; [front], [back] and [pop_front] of an empty
    one are undefined. *)
Definition std_deque (c : deque_call) (q : list T) : res (deque_result * list T) :=
  match c with
  | CFront => match q with v :: _ => Ok (RRef v, q) | [] => Fault OutOfBounds end
  | CBack => match last q with Some v => Ok (RRef v, q) | None => Fault OutOfBounds end
  | CEmpty => Ok (RBool (match q with [] => true | _ => false end), q)
  | CSize => Ok (RSize (length q), q)
  | CClear => Ok (RVoid, [])
  | CPushBack v => Ok (RVoid, q ++ [v])
  | CPopFront => match q with _ :: q => Ok (RVoid, q) | [] => Fault OutOfBounds end
  | CPushFront v => Ok (RVoid, v :: q)
  | CResize n => Ok (RVoid, resize n dflt q)
  | CResizeWith n v => Ok (RVoid, resize n v q)
  end.

(** [class BoundedDeque]: src/src/veloxd/base/BoundedDeque.h:27-63. *)
Record BoundedDeque := mkDeque { bd_mutex : RawMutex; bd_q : list T }.
(** [BoundedDeque::BoundedDeque() = default]. *)
Definition BoundedDeque_new : BoundedDeque := mkDeque RawMutex_new [].

(** The three points of a method, of every arity:
    src/src/veloxd/base/BoundedDeque.h:65-96. *)
Definition method_enter (t : Z) (d : BoundedDeque) : option BoundedDeque :=
  (λ m, mkDeque m (bd_q d)) <$> MutexScope_new t (bd_mutex d).
Definition method_body (c : deque_call) (d : BoundedDeque) : res (deque_result * BoundedDeque) :=
  '(r, q) ← std_deque c (bd_q d); Ok (r, mkDeque (bd_mutex d) q).
Definition method_leave (t : Z) (d : BoundedDeque) : option BoundedDeque :=
  (λ m, mkDeque m (bd_q d)) <$> MutexScope_delete t (bd_mutex d).

(** A thread's place in its program, a list of calls. *)
Inductive phase : Type := Between | Entered (c : deque_call) | Computed (c : deque_call) (r : deque_result).
Record client := mkClient { todo : list deque_call; at_ : phase; returned : list (deque_call * deque_result) }.

(** The queue, its clients, and the calls in the order in which their bodies
    ran. *)
Record sharing := mkSharing { deque : BoundedDeque; clients : gmap Z client; history : list (Z * (deque_call * deque_result)) }.

Inductive sstep : sharing → sharing → Prop :=
  | step_enter t c rest rs s d :
      clients s !! t = Some (mkClient (c :: rest) Between rs) → method_enter t (deque s) = Some d →
      sstep s (mkSharing d (<[t := mkClient rest (Entered c) rs]> (clients s)) (history s))
  | step_body t c rest rs s r d :
      clients s !! t = Some (mkClient rest (Entered c) rs) → method_body c (deque s) = Ok (r, d) →
      sstep s (mkSharing d (<[t := mkClient rest (Computed c r) rs]> (clients s)) (history s ++ [(t, (c, r))]))
  | step_leave t c r rest rs s d :
      clients s !! t = Some (mkClient rest (Computed c r) rs) → method_leave t (deque s) = Some d →
      sstep s (mkSharing d (<[t := mkClient rest Between (rs ++ [(c, r)])]> (clients s)) (history s)).

(** The start: an empty queue and programs. *)
Definition start (progs : gmap Z (list deque_call)) : sharing :=
  mkSharing BoundedDeque_new ((λ p, mkClient p Between []) <$> progs) [].

(** ** The specification: one call after the other *)

Fixpoint run_calls (cs : list deque_call) (q : list T) : res (list deque_result * list T) :=
  match cs with
  | [] => Ok ([], q)
  | c :: cs => '(r, q) ← std_deque c q; '(rs, q) ← run_calls cs q; Ok (r :: rs, q)
  end.

Lemma run_calls_snoc cs c q rs q1 r q2 : run_calls cs q = Ok (rs, q1) → std_deque c q1 = Ok (r, q2) →
  run_calls (cs ++ [c]) q = Ok (rs ++ [r], q2).
Proof.
  revert q rs. induction cs as [|c' cs IH]; intros q rs; cbn.
  - intros [= <- <-] Hc. by rewrite Hc.
  - destruct (std_deque c' q) as [[r' q']|]; [|done]. cbn. destruct (run_calls cs q') as [[rs' q'']|] eqn:E; [|done].
    cbn. intros [= <- <-] Hc. by rewrite (IH _ _ E Hc).
Qed.

(** ** The invariant *)

(** What a thread has computed and what it has taken from its program. *)
Definition computed (c : client) : list (deque_call * deque_result) :=
  returned c ++ match at_ c with Computed c r => [(c, r)] | _ => [] end.
Definition taken (c : client) : list deque_call :=
  match at_ c with Entered c => [c] | _ => [] end.
Definition calls_of (t : Z) (h : list (Z * (deque_call * deque_result))) : list (deque_call * deque_result) :=
  snd <$> filter (λ x, x.1 = t) h.

Record shared_ok (progs : gmap Z (list deque_call)) (s : sharing) : Prop := {
  so_owner : ∀ t c, clients s !! t = Some c → (at_ c ≠ Between ↔ _mutex (bd_mutex (deque s)) = Some t);
  so_known : ∀ t, _mutex (bd_mutex (deque s)) = Some t → is_Some (clients s !! t);
  so_queue : run_calls ((λ x, x.2.1) <$> history s) [] = Ok ((λ x, x.2.2) <$> history s, bd_q (deque s));
  so_clients : ∀ t c, clients s !! t = Some c →
    computed c = calls_of t (history s) ∧ progs !! t = Some ((fst <$> computed c) ++ taken c ++ todo c);
  so_dom : ∀ t, is_Some (clients s !! t) ↔ is_Some (progs !! t);
  so_holder : _holder (bd_mutex (deque s)) = 0
}.

Lemma start_ok progs : shared_ok progs (start progs).
Proof.
  constructor; cbn; try done.
  - intros t c. rewrite lookup_fmap. intros (p & _ & ->)%fmap_Some. cbn. split; [done|discriminate].
  - intros t c. rewrite lookup_fmap. intros (p & Hp & ->)%fmap_Some. by rewrite Hp.
  - intros t. rewrite lookup_fmap. by rewrite fmap_is_Some.
Qed.

Lemma calls_of_snoc t t' x h : calls_of t (h ++ [(t', x)]) = calls_of t h ++ (if decide (t' = t) then [x] else []).
Proof.
  unfold calls_of. rewrite filter_app, fmap_app. f_equal. destruct (decide (t' = t)) as [E|E].
  - by rewrite filter_cons_True.
  - by rewrite filter_cons_False.
Qed.

(** What a step of thread [t] may do. *)
Lemma client_step progs s s' t c c' : shared_ok progs s → clients s !! t = Some c →
  clients s' = <[t := c']> (clients s) →
  (∃ out, history s' = history s ++ ((t,.) <$> out) ∧ (length out ≤ 1)%nat ∧ computed c' = computed c ++ out ∧
     (fst <$> out) ++ taken c' ++ todo c' = taken c ++ todo c) →
  run_calls ((λ x, x.2.1) <$> history s') [] = Ok ((λ x, x.2.2) <$> history s', bd_q (deque s')) →
  (at_ c' ≠ Between ↔ _mutex (bd_mutex (deque s')) = Some t) →
  (∀ t', t' ≠ t → _mutex (bd_mutex (deque s')) = Some t' ↔ _mutex (bd_mutex (deque s)) = Some t') →
  _holder (bd_mutex (deque s')) = 0 → shared_ok progs s'.
Proof.
  intros I Hc Hcs (out & Hh & Hl & Hout & Hprog) Hq Hat Hoth Hhold. constructor; try done.
  - intros t' x. rewrite Hcs. destruct (decide (t' = t)) as [->|Hne]; [rewrite lookup_insert_eq; by intros [= <-]|].
    rewrite lookup_insert_ne by done. intros Hx. rewrite Hoth by done. by eapply so_owner.
  - intros t' Ht'. rewrite Hcs. destruct (decide (t' = t)) as [->|Hne]; [by rewrite lookup_insert_eq|].
    rewrite lookup_insert_ne by done. by eapply so_known, Hoth.
  - intros t' x. rewrite Hcs, Hh. intros Hx.
    assert (calls_of t' (history s ++ ((t,.) <$> out)) = calls_of t' (history s) ++ (if decide (t = t') then out else [])) as ->.
    { destruct out as [|o [|]]; cbn in *; [|by rewrite calls_of_snoc|lia]. rewrite !app_nil_r. by destruct (decide (t = t')); rewrite app_nil_r. }
    destruct (decide (t' = t)) as [->|Hne].
    + rewrite lookup_insert_eq in Hx. injection Hx as <-. rewrite decide_True by done.
      destruct (so_clients _ _ I _ _ Hc) as [E1 E2]. rewrite Hout, <-E1. split; [done|].
      rewrite E2, fmap_app, <-app_assoc. by rewrite Hprog.
    + rewrite lookup_insert_ne in Hx by done. rewrite decide_False, app_nil_r by done. by eapply so_clients.
  - intros t'. rewrite Hcs. destruct (decide (t' = t)) as [->|Hne].
    + rewrite lookup_insert_eq. rewrite <-(so_dom _ _ I t), Hc. by split.
    + rewrite lookup_insert_ne by done. by apply so_dom.
Qed.

Lemma sstep_ok progs s s' : sstep s s' → shared_ok progs s → shared_ok progs s'.
Proof.
  intros Hs I. destruct Hs as [t c rest rs s d Hc Hm|t c rest rs s r d Hc Hm|t c r rest rs s d Hc Hm].
  - unfold method_enter, MutexScope_new, RawMutex_lock, pthread_mutex_lock in Hm.
    destruct (_mutex (bd_mutex (deque s))) as [o|] eqn:Ho; [done|]. injection Hm as <-.
    eapply client_step; [exact I|exact Hc|reflexivity|..]; cbn; try done; try (by apply I).
    + exists []. unfold computed. cbn. rewrite !app_nil_r. split_and!; (done || lia).
    + intros t' Hne. rewrite Ho. split; [intros [= ->]; done|done].
  - unfold method_body in Hm. destruct (std_deque c (bd_q (deque s))) as [[r' q]|] eqn:Hq; [|done]. injection Hm as <- <-.
    eapply client_step; [exact I|exact Hc|reflexivity|..]; cbn; try done; try (by apply I).
    + exists [(c, r')]. split_and!; try done. unfold computed. cbn. by rewrite app_nil_r.
    + rewrite !fmap_app. cbn. eapply run_calls_snoc; [apply I|done].
    + rewrite <-(so_owner _ _ I _ _ Hc). cbn. done.
  - unfold method_leave, MutexScope_delete, RawMutex_unlock, pthread_mutex_unlock in Hm.
    destruct (_mutex (bd_mutex (deque s))) as [o|] eqn:Ho; [|done]. destruct (Z.eqb_spec t o) as [<-|]; [|done]. injection Hm as <-.
    eapply client_step; [exact I|exact Hc|reflexivity|..]; cbn; try done; try (by apply I).
    + exists []. unfold computed. cbn. rewrite !app_nil_r. split_and!; (done || lia).
    + intros t' Hne. rewrite Ho. split; [done|]. intros [= ->]. done.
Qed.

Lemma reachable_ok progs s s' : rtc sstep s s' → shared_ok progs s → shared_ok progs s'.
Proof. induction 1 as [|s1 s2 s3 Hs _ IH]; [done|]. intros I. by apply IH, (sstep_ok progs s1). Qed.

(** A thread that is inside a method, or that may enter one, can move unless its
    call is undefined on the queue as it is. *)
Lemma sharing_moves progs s t c : shared_ok progs s → clients s !! t = Some c → at_ c ≠ Between ∨ todo c ≠ [] →
  (∃ s', sstep s s') ∨ ∃ t' c' k f, clients s !! t' = Some c' ∧ at_ c' = Entered k ∧ std_deque k (bd_q (deque s)) = Fault f.
Proof.
  intros I Hc Hmove. destruct (_mutex (bd_mutex (deque s))) as [o|] eqn:Ho.
  - destruct (so_known _ _ I o Ho) as [[td ph rs] Hco]. pose proof (proj2 (so_owner _ _ I _ _ Hco) Ho) as Hph. cbn in Hph.
    destruct ph as [|k|k r]; [done| |].
    + destruct (std_deque k (bd_q (deque s))) as [[r q]|f] eqn:Hq; [|right; eauto 8].
      left. eexists. eapply step_body; [exact Hco|]. unfold method_body. by rewrite Hq.
    + left. eexists. eapply step_leave; [exact Hco|]. unfold method_leave, MutexScope_delete, RawMutex_unlock. rewrite Ho. cbn.
      by rewrite Z.eqb_refl.
  - destruct c as [td ph rs]. pose proof (so_owner _ _ I _ _ Hc) as Hown. rewrite Ho in Hown. cbn in Hown, Hmove.
    destruct ph; [|by destruct Hown as [Hx _]; specialize (Hx ltac:(done))..]. destruct td as [|k td]; [by destruct Hmove|].
    left. eexists. eapply step_enter; [exact Hc|]. unfold method_enter, MutexScope_new, RawMutex_lock. by rewrite Ho.
Qed.
End deque.
Arguments deque_call T : clear implicits. Arguments deque_result T : clear implicits. Arguments sharing T : clear implicits.
Arguments client T : clear implicits. Arguments BoundedDeque T : clear implicits.

(** ** Properties *)

(** C23. [BoundedDeque] is one queue: however the calls of its threads interleave,
    the threads inside a method are exactly the one that holds the mutex, the
    bodies that ran are a sequential run of [std::deque] that ends in the
    present queue, every thread's calls are in that run in the order of its
    program and return the run's answers, and while any thread has calls left
    some thread can move, unless a call is undefined on the queue it finds. *)
Theorem deque_linearizable {T} (dflt : T) progs s :
  rtc (sstep dflt) (start progs) s →
  (∀ t c, clients s !! t = Some c → (at_ c ≠ Between ↔ _mutex (bd_mutex (deque s)) = Some t)) ∧
  run_calls dflt ((λ x, x.2.1) <$> history s) [] = Ok ((λ x, x.2.2) <$> history s, bd_q (deque s)) ∧
  (∀ t c, clients s !! t = Some c →
     computed c = calls_of t (history s) ∧ progs !! t = Some ((fst <$> computed c) ++ taken c ++ todo c)) ∧
  (∀ t c, clients s !! t = Some c → at_ c ≠ Between ∨ todo c ≠ [] →
     (∃ s', sstep dflt s s') ∨
     ∃ t' c' k f, clients s !! t' = Some c' ∧ at_ c' = Entered k ∧ std_deque dflt k (bd_q (deque s)) = Fault f).
Proof.
  intros Hr. pose proof (reachable_ok dflt progs _ _ Hr (start_ok dflt progs)) as I.
  split_and!; [apply I|apply I|apply I|]. intros t c. by apply (sharing_moves dflt progs s t c).
Qed.

(** [RawMutex::isLockedByThisThread] is never true: no operation ever sets
    [_holder], so the answer is false even for the thread that holds the
    mutex. *)
Theorem holder_never_set {T} (dflt : T) progs s t :
  rtc (sstep dflt) (start progs) s → t ≠ 0 →
  RawMutex_isLockedByThisThread t (bd_mutex (deque s)) = false ∧
  RawMutex_isLockedByThisThread t (RawMutex_tryLock t (bd_mutex (deque s))) = false.
Proof.
  intros Hr Ht. pose proof (reachable_ok dflt progs _ _ Hr (start_ok dflt progs)) as I.
  unfold RawMutex_isLockedByThisThread. cbn. rewrite (so_holder _ _ _ I). split; by apply Z.eqb_neq.
Qed.

(** ** A concrete run *)

(** Two threads: 1 pushes 7 and asks for the size, 2 pushes 8 in front.  Thread
    1 is inside its first method while 2 waits. *)
Definition two_clients : gmap Z (list (deque_call Z)) := {[1 := [CPushBack 7; CSize]; 2 := [CPushFront 8]]}.
Definition first_inside : sharing Z :=
  mkSharing (mkDeque (mkRawMutex (Some 1) 0) [7])
    (<[1 := mkClient [CSize] (Computed (CPushBack 7) RVoid) []]> (<[1 := mkClient [CSize] (Entered (CPushBack 7)) []]> (clients (start two_clients))))
    [(1, (CPushBack 7, RVoid))].

Lemma deque_linearizable_witness :
  run_calls 0 [CPushBack 7] [] = Ok ([RVoid], [7]) ∧ ∃ s', sstep 0 first_inside s'.
Proof.
  assert (rtc (sstep 0) (start two_clients) first_inside) as Hr.
  { eapply rtc_l; [eapply (step_enter 0 1 (CPushBack 7) [CSize] [] (start two_clients)); reflexivity|].
    apply rtc_once. eapply (step_body 0 1 (CPushBack 7) [CSize] []); reflexivity. }
  destruct (deque_linearizable 0 two_clients first_inside Hr) as (_ & Hq & _ & Hmove). split; [exact Hq|].
  destruct (Hmove 1 (mkClient [CSize] (Computed (CPushBack 7) RVoid) [])) as [Hs|(t & c & k & f & _ & Ha & _)]; [reflexivity|by left|exact Hs|].
  eexists. eapply (step_leave 0 1 (CPushBack 7) RVoid [CSize] []); reflexivity.
Defined.
