(* ===== verification/Frame.v ===== *)
(** * Packet buffers and protocol headers

    [FrameBuf] (src/src/veloxd/FrameBuf.h) with its raw byte array and the
    pointers into it, the header overlays the stack reads and writes through
    ([PseudoHdr.h] and the kernel's [iphdr], [tcphdr] and [udphdr] that
    [IpHdr.h], [TcpHdr.h] and [UdpHdr.h] alias), and the header helpers of
    src/src/veloxd/ip/IpHdr.cpp. *)

From S2P Require Import Prelude.

(** ** Buffers *)

(** A [char*] held by a buffer: null, an offset in the buffer's own
    [rawBytes], or an offset in a caller's string. *)
Inductive ptr : Type :=
  | nullptr
  | raw (off : Z)
  | str (s : list Z) (off : Z).

#[global] Instance ptr_eq_dec : EqDecision ptr.
Proof. solve_decision. Defined.

Definition ptr_add (p : ptr) (n : Z) : ptr :=
  match p with
  | nullptr => nullptr
  | raw o => raw (o + n)
  | str s o => str s (o + n)
  end.

(** Pointer difference, defined inside one object only. *)
Definition ptr_diff (p q : ptr) : res Z :=
  match p, q with
  | nullptr, nullptr => Ok 0
  | raw a, raw b => Ok (a - b)
  | str s a, str t b => if decide (s = t) then Ok (a - b) else Fault OutOfBounds
  | _, _ => Fault OutOfBounds
  end.

Definition is_null (p : ptr) : bool :=
  match p with nullptr => true | _ => false end.

(** [FrameBuf]: src/src/veloxd/FrameBuf.h:25-41.  [next] is a shared pointer
    to another buffer of the heap of buffers. *)
Record FrameBuf := mkFrame {
  next : option nat;
  transport_hdr : ptr;
  network_hdr : ptr;
  hdrs_begin : ptr;
  hdrs_end : ptr;
  user_payload_begin : ptr;
  user_payload_end : ptr;
  rawBytes : list Z
}.

Definition maxRawBytesSize : Z := 1518.

(** [make_shared<FrameBuf>()]: null pointers, zeroed bytes. *)
Definition new_FrameBuf : FrameBuf :=
  mkFrame None nullptr nullptr nullptr nullptr nullptr nullptr
    (replicate (Z.to_nat maxRawBytesSize) 0).

Definition set_next v f := mkFrame v (transport_hdr f) (network_hdr f) (hdrs_begin f)
  (hdrs_end f) (user_payload_begin f) (user_payload_end f) (rawBytes f).
Definition set_transport_hdr v f := mkFrame (next f) v (network_hdr f) (hdrs_begin f)
  (hdrs_end f) (user_payload_begin f) (user_payload_end f) (rawBytes f).
Definition set_network_hdr v f := mkFrame (next f) (transport_hdr f) v (hdrs_begin f)
  (hdrs_end f) (user_payload_begin f) (user_payload_end f) (rawBytes f).
Definition set_hdrs_begin v f := mkFrame (next f) (transport_hdr f) (network_hdr f) v
  (hdrs_end f) (user_payload_begin f) (user_payload_end f) (rawBytes f).
Definition set_hdrs_end v f := mkFrame (next f) (transport_hdr f) (network_hdr f)
  (hdrs_begin f) v (user_payload_begin f) (user_payload_end f) (rawBytes f).
Definition set_user_payload_begin v f := mkFrame (next f) (transport_hdr f) (network_hdr f)
  (hdrs_begin f) (hdrs_end f) v (user_payload_end f) (rawBytes f).
Definition set_user_payload_end v f := mkFrame (next f) (transport_hdr f) (network_hdr f)
  (hdrs_begin f) (hdrs_end f) (user_payload_begin f) v (rawBytes f).
Definition set_rawBytes v f := mkFrame (next f) (transport_hdr f) (network_hdr f)
  (hdrs_begin f) (hdrs_end f) (user_payload_begin f) (user_payload_end f) v.

(** The object a pointer of [f] points into, and the offset there. *)
Definition target (f : FrameBuf) (p : ptr) : option (list Z * Z) :=
  match p with
  | nullptr => None
  | raw o => Some (rawBytes f, o)
  | str s o => Some (s, o)
  end.

Definition ld (w : list Z → Z → option Z) (f : FrameBuf) (p : ptr) (off : Z) : res Z :=
  '(l, o) ← of_option NullDeref (target f p);
  of_option OutOfBounds (w l (o + off)).

Definition ld8 := ld load8.
Definition ld16 := ld load16.
Definition ld32 := ld load32.

(** [n] bytes from [p]. *)
Definition ld_bytes (f : FrameBuf) (p : ptr) (n : Z) : res (list Z) :=
  '(l, o) ← of_option NullDeref (target f p);
  of_option OutOfBounds (slice l o n).

(** Stores go to the buffer's own bytes only (a [str] is a [const] string). *)
Definition st (w : list Z → Z → Z → option (list Z)) (f : FrameBuf) (p : ptr) (off v : Z)
    : res FrameBuf :=
  match p with
  | nullptr => Fault NullDeref
  | str _ _ => Fault OutOfBounds
  | raw o => l ← of_option OutOfBounds (w (rawBytes f) (o + off) v); Ok (set_rawBytes l f)
  end.

Definition st8 := st store8.
Definition st16 := st store16.
Definition st32 := st store32.

(** ** Header layouts: byte offsets in the overlays

    [PseudoHdr]: src/src/veloxd/PseudoHdr.h:25-41. *)
Definition PseudoHdr_tos : Z := 1.
Definition PseudoHdr_len : Z := 2.
Definition PseudoHdr_ttl : Z := 8.
Definition PseudoHdr_protocol : Z := 9.
Definition PseudoHdr_protocol_len : Z := 10.
Definition PseudoHdr_saddr : Z := 12.
Definition PseudoHdr_daddr : Z := 16.

(** [iphdr] (RFC 791): [ihl] and [version] share byte 0. *)
Definition iphdr_tot_len : Z := 2.
Definition iphdr_id : Z := 4.
Definition iphdr_frag_off : Z := 6.
Definition iphdr_protocol : Z := 9.
Definition iphdr_check : Z := 10.
Definition iphdr_saddr : Z := 12.
Definition iphdr_daddr : Z := 16.

Definition ld_ihl (f : FrameBuf) (p : ptr) : res Z := b ← ld8 f p 0; Ok (Z.land b 15).
Definition ld_version (f : FrameBuf) (p : ptr) : res Z := b ← ld8 f p 0; Ok (Z.shiftr b 4).
(** Bit-field stores keep the other nibble. *)
Definition st_ihl (f : FrameBuf) (p : ptr) (v : Z) : res FrameBuf :=
  b ← ld8 f p 0; st8 f p 0 (Z.lor (Z.shiftl (Z.shiftr b 4) 4) (Z.land v 15)).
Definition st_version (f : FrameBuf) (p : ptr) (v : Z) : res FrameBuf :=
  b ← ld8 f p 0; st8 f p 0 (Z.lor (Z.shiftl (Z.land v 15) 4) (Z.land b 15)).

(** [tcphdr] (RFC 793): [doff] is the high nibble of byte 12, the flags are
    byte 13. *)
Definition tcphdr_source : Z := 0.
Definition tcphdr_dest : Z := 2.
Definition tcphdr_seq : Z := 4.
Definition tcphdr_ack_seq : Z := 8.
Definition tcphdr_window : Z := 14.
Definition tcphdr_check : Z := 16.
Definition tcp_syn_bit : Z := 2.
Definition tcp_ack_bit : Z := 16.

Definition ld_doff (f : FrameBuf) (p : ptr) : res Z := b ← ld8 f p 12; Ok (Z.shiftr b 4).
Definition st_doff (f : FrameBuf) (p : ptr) (v : Z) : res FrameBuf :=
  b ← ld8 f p 12; st8 f p 12 (Z.lor (Z.shiftl (Z.land v 15) 4) (Z.land b 15)).
Definition ld_tcp_flag (bit : Z) (f : FrameBuf) (p : ptr) : res bool :=
  b ← ld8 f p 13; Ok (has_bits b bit).
Definition st_tcp_flag (bit : Z) (f : FrameBuf) (p : ptr) : res FrameBuf :=
  b ← ld8 f p 13; st8 f p 13 (Z.lor b bit).

(** [udphdr] (RFC 768). *)
Definition udphdr_source : Z := 0.
Definition udphdr_dest : Z := 2.
Definition udphdr_len : Z := 4.
Definition udphdr_check : Z := 6.

(** ** src/src/veloxd/ip/IpHdr.h and IpHdr.cpp *)

Definition IP_OFF_MASK : Z := 0x1fff.
Definition IP_DF_MASK : Z := 0x4000.
Definition IP_MF_MASK : Z := 0x2000.

(** [IpHdrs::ProtocolX]: src/src/veloxd/ip/IpHdr.h:36-43. *)
Inductive ProtocolX := PX_IP | PX_ICMP | PX_IGMP | PX_UDP | PX_TCP.

#[global] Instance ProtocolX_eq_dec : EqDecision ProtocolX.
Proof. solve_decision. Defined.

(** [IpHdrs::hlen]: src/src/veloxd/ip/IpHdr.cpp:22-26. *)
Definition IpHdrs_hlen (f : FrameBuf) (iphdr : ptr) : res Z := ld_ihl f iphdr.

(** [IpHdrs::isFrag]: src/src/veloxd/ip/IpHdr.cpp:28-33. *)
Definition IpHdrs_isFrag (f : FrameBuf) (iphdr : ptr) : res bool :=
  fo ← ld16 f iphdr iphdr_frag_off;
  let off := bswap16 fo in
  Ok (negb ((Z.land off IP_OFF_MASK =? 0) && (Z.land off IP_MF_MASK =? 0))).

(** [IpHdrs::moreFrag]: src/src/veloxd/ip/IpHdr.cpp:35-39. *)
Definition IpHdrs_moreFrag (f : FrameBuf) (iphdr : ptr) : res bool :=
  fo ← ld16 f iphdr iphdr_frag_off;
  Ok (has_bits (bswap16 fo) IP_MF_MASK).

(** The static table of [IpHdrs::protocol]: 255 entries, zero ([IP]) but for
    four of them: src/src/veloxd/ip/IpHdr.cpp:44-55. *)
Definition protoxmap : list ProtocolX :=
  <[17%nat := PX_UDP]> (<[6%nat := PX_TCP]> (<[2%nat := PX_IGMP]>
    (<[1%nat := PX_ICMP]> (replicate 255 PX_IP)))).

(** [IpHdrs::protocol]: src/src/veloxd/ip/IpHdr.cpp:41-58. *)
Definition IpHdrs_protocol (f : FrameBuf) (iphdr : ptr) : res ProtocolX :=
  p ← ld8 f iphdr iphdr_protocol;
  of_option OutOfBounds (protoxmap !! Z.to_nat p).

(** [IpHdrs::checksum]: src/src/veloxd/ip/IpHdr.cpp:60-64. *)
Definition IpHdrs_checksum (f : FrameBuf) (iphdr : ptr) : bool := true.

(** [IpIdGenerator]: src/src/veloxd/ip/IpHdr.h:57-66; the state is [last]. *)
Record IpIdGenerator := mkIdGen { last_id : Z }.

(** [IpIdGenerator::next]: src/src/veloxd/ip/IpHdr.cpp:66-74. *)
Definition IpIdGenerator_next (g : IpIdGenerator) : Z * IpIdGenerator :=
  let l := if last_id g =? 65535 then 0 else last_id g in
  let l := u16 (l + 1) in
  (bswap16 l, mkIdGen l).

(** The generator's state before the [k]-th call. *)
Fixpoint IpIdGenerator_iter (k : nat) (g : IpIdGenerator) : IpIdGenerator :=
  match k with O => g | S k => (IpIdGenerator_next (IpIdGenerator_iter k g)).2 end.

(** The [k]-th identifier handed out, from 0. *)
Definition nth_id (g : IpIdGenerator) (k : nat) : Z := (IpIdGenerator_next (IpIdGenerator_iter k g)).1.

(** ** Facts *)

Lemma next_state g : in_u16 (last_id g) →
  last_id (IpIdGenerator_next g).2 = last_id g mod 65535 + 1.
Proof.
  intros Hg. unfold IpIdGenerator_next. cbn.
  destruct (Z.eqb_spec (last_id g) 65535) as [->|]; [done|]. int_lia.
Qed.

Lemma iter_state g k : in_u16 (last_id g) →
  last_id (IpIdGenerator_iter (S k) g) = (last_id g + k) mod 65535 + 1.
Proof.
  intros Hg. induction k as [|k IH].
  - cbn [IpIdGenerator_iter]. rewrite next_state by done. by rewrite Z.add_0_r.
  - change (IpIdGenerator_iter (S (S k)) g) with (IpIdGenerator_next (IpIdGenerator_iter (S k) g)).2.
    rewrite next_state; rewrite IH; [|int_lia].
    rewrite Zplus_mod_idemp_l. do 2 f_equal. lia.
Qed.

Lemma nth_id_eq g k : in_u16 (last_id g) →
  nth_id g k = bswap16 ((last_id g + k) mod 65535 + 1).
Proof.
  intros Hg. rewrite <-iter_state by done. done.
Qed.

Lemma protoxmap_lookup p : in_u8 p →
  protoxmap !! Z.to_nat p =
    if p =? 255 then None else
    Some (if p =? 1 then PX_ICMP else if p =? 2 then PX_IGMP
          else if p =? 6 then PX_TCP else if p =? 17 then PX_UDP else PX_IP).
Proof.
  intros Hp. assert (∃ n : nat, (n < 256)%nat ∧ p = n) as (n & Hn & ->).
  { exists (Z.to_nat p). unfold_ints. lia. }
  rewrite Nat2Z.id.
  do 256 (destruct n as [|n]; [vm_compute; reflexivity|]). lia.
Qed.

(** ** Properties *)

(** C37. The identification generator never hands out 0 and does not repeat an
    identifier within 65535 consecutive calls, whatever its state: the
    identifiers of two calls less than 65535 apart differ. *)
Theorem ip_id_unique g i j :
  in_u16 (last_id g) → (i < j)%nat → j - i < 65535 →
  nth_id g i ≠ 0 ∧ nth_id g i ≠ nth_id g j.
Proof.
  intros Hg Hij Hd. rewrite !nth_id_eq by done. split.
  - intros E. apply (f_equal bswap16) in E.
    rewrite bswap16_invol in E by int_lia. change (bswap16 0) with 0 in E. dm_lia.
  - intros E. apply bswap16_inj in E; int_lia.
Qed.

Lemma ip_id_unique_witness :
  nth_id (mkIdGen 65535) 0 ≠ 0 ∧ nth_id (mkIdGen 65535) 0 ≠ nth_id (mkIdGen 65535) 1.
Proof. apply (ip_id_unique (mkIdGen 65535) 0 1); [unfold in_u16; cbn; lia|lia|lia]. Defined.

(** Protocol demultiplexing: a header whose protocol byte is below 255 is
    classified as its protocol number says (1 ICMP, 2 IGMP, 6 TCP, 17 UDP, any
    other IP); the byte 255 reads past the 255-entry table. *)
Theorem protocol_demux f iphdr p :
  in_u8 p → ld8 f iphdr iphdr_protocol = Ok p →
  IpHdrs_protocol f iphdr =
    if p =? 255 then Fault OutOfBounds else
    Ok (if p =? 1 then PX_ICMP else if p =? 2 then PX_IGMP
        else if p =? 6 then PX_TCP else if p =? 17 then PX_UDP else PX_IP).
Proof.
  intros Hp E. unfold IpHdrs_protocol. rewrite E. cbn [mbind res_bind].
  rewrite protoxmap_lookup by done. by destruct (p =? 255).
Qed.

Lemma protocol_demux_witness :
  IpHdrs_protocol (set_rawBytes [69; 0; 0; 20; 0; 0; 0; 0; 64; 255] new_FrameBuf) (raw 0)
    = Fault OutOfBounds.
Proof.
  apply (protocol_demux (set_rawBytes [69; 0; 0; 20; 0; 0; 0; 0; 64; 255] new_FrameBuf) (raw 0) 255);
    [unfold in_u8; lia|reflexivity].
Defined.
