(* ===== verification/Session.v ===== *)
(** * Sessions (protocol control blocks)

    The base class [Session] (src/src/veloxd/Session.h, Session.cpp), the port
    counters of the two transports and the demultiplexer [Sessions::find].
    Addresses and ports are kept as the raw (network order) words the code
    keeps in [in_addr] and [__be16]. *)

From S2P Require Import Prelude.

(** Error numbers of the platform the code names. *)
Definition EAGAIN : Z := 11.
Definition ENOTCONN : Z := 107.
Definition EISCONN : Z := 106.
Definition EINPROGRESS : Z := 115.

(** ** [inet_pton(AF_INET, ...)]: dotted decimal to the raw address word *)

Definition is_digit (c : Z) : bool := (48 <=? c) && (c <=? 57).

(** [octet]: value of the current number, [None] before its first digit;
    [acc]: the octets read, in order. *)
Fixpoint pton_loop (s : list Z) (octet : option Z) (acc : list Z) : option (list Z) :=
  match s with
  | [] => match octet with Some o => Some (acc ++ [o]) | None => None end
  | c :: s =>
      if is_digit c then
        match octet with
        | None => pton_loop s (Some (c - 48)) acc
        | Some o => if (o =? 0) || (255 <? o * 10 + (c - 48)) then None
                    else pton_loop s (Some (o * 10 + (c - 48))) acc
        end
      else if c =? 46 then
        match octet with Some o => pton_loop s None (acc ++ [o]) | None => None end
      else None
  end.

(** The word written to the destination; [None] when the text is refused and
    the destination is left alone. *)
Definition inet_pton (s : list Z) : option Z :=
  match pton_loop s None [] with
  | Some bs => if (length bs =? 4)%nat then Some (le_val bs) else None
  | None => None
  end.

(** ** [Session]: src/src/veloxd/Session.h:36-72 *)

Record Session := mkSession {
  faddr : Z;
  fport : Z;
  laddr : Z;
  lport : Z;
  s_socket : option nat    (* weak_ptr<Endpoint> _socket *)
}.

Definition set_remote (a p : Z) (s : Session) : Session :=
  mkSession a p (laddr s) (lport s) (s_socket s).
Definition set_lport (p : Z) (s : Session) : Session :=
  mkSession (faddr s) (fport s) (laddr s) p (s_socket s).

(** [Session::Session()]: src/src/veloxd/Session.cpp:33-49; [stack_addr] is
    [Conf::get()->stack.addr]. *)
Definition Session_new (stack_addr : list Z) : Session :=
  mkSession 0 0 (default 0 (inet_pton stack_addr)) 0 None.

(** The file-local [nextAvailPort()] of TcpSession.cpp and UdpSession.cpp
    (src/src/veloxd/tcp/TcpSession.cpp:44-50): the static 16-bit counter,
    and the port in network order. *)
Definition nextAvailPort (port : Z) : Z * Z :=
  let port := u16 (port + 1) in (bswap16 port, port).

(** [Session::bind]: src/src/veloxd/Session.cpp:124-130, with the static port
    counter threaded. *)
Definition Session_bind (s : Session) (port : Z) : Session * Z :=
  if lport s =? 0 then
    let '(p, port) := nextAvailPort port in (set_lport p s, port)
  else (s, port).

(** [Session::connect]: src/src/veloxd/Session.cpp:56-67. *)
Definition Session_connect (a p : Z) (s : Session) (port : Z) : Z * Session * Z :=
  let s := set_remote a p s in
  let '(s, port) := if lport s =? 0 then Session_bind s port else (s, port) in
  (0, s, port).

(** [Session::disconnect]: src/src/veloxd/Session.cpp:80-85. *)
Definition Session_disconnect (s : Session) : Session := set_remote 0 0 s.

(** [Session::send(buf)]: src/src/veloxd/Session.cpp:87-98. *)
Definition Session_send (s : Session) (port : Z) : Z * Session * Z :=
  let '(s, port) := if lport s =? 0 then Session_bind s port else (s, port) in
  (if fport s =? 0 then ENOTCONN else 0, s, port).

(** [Session::send(faddr, fport, buf)]: src/src/veloxd/Session.cpp:100-111.
    The parameter [p] shadows the member [fport]. *)
Definition Session_send_to (a p : Z) (s : Session) (port : Z) : Z * Session * Z :=
  let '(s, port) := if lport s =? 0 then Session_bind s port else (s, port) in
  (if negb (p =? 0) then EISCONN else 0, s, port).

(** [Session::setSocket]: src/src/veloxd/Session.cpp:138-142. *)
Definition Session_setSocket (so : option nat) (s : Session) : Session :=
  mkSession (faddr s) (fport s) (laddr s) (lport s) so.

(** ** Which session a packet leaves from *)

(** The port of a socket that sends: its own, or the next of the counter that is
    not 0. *)
Definition source_port (s : Session) (port : Z) : Z :=
  if lport s =? 0 then bswap16 (if u16 (port + 1) =? 0 then 1 else u16 (port + 1)) else lport s.

Lemma bswap16_nonzero n : in_u16 n → n ≠ 0 → bswap16 n ≠ 0.
Proof. intros Hn Hz H0. apply Hz, (bswap16_inj n 0); [done|done|by rewrite H0]. Qed.
Lemma bind_eq s port : Session_bind s port =
  if lport s =? 0 then (set_lport (bswap16 (u16 (port + 1))) s, u16 (port + 1)) else (s, port).
Proof. done. Qed.

(** [connect], then [send]. *)
Lemma connect_send_eq a q s port :
  (let '(_, s1, port1) := Session_connect a q s port in (Session_send s1 port1).1.2) =
    mkSession a q (laddr s) (source_port s port) (s_socket s).
Proof.
  unfold Session_connect, Session_send, source_port. rewrite !bind_eq. cbn [lport set_remote]. destruct (lport s =? 0) eqn:Hl.
  - cbn [lport set_lport]. destruct (Z.eqb_spec (u16 (port + 1)) 0) as [->|Hn]; [done|].
    rewrite (proj2 (Z.eqb_neq _ _) (bswap16_nonzero _ (u16_range _) Hn)). done.
  - cbn. by rewrite Hl.
Qed.
(** [send] to an address: the socket is bound, then connected, then sends. *)
Lemma send_connect_send_eq a q s port :
  (let '(_, s1, port1) := Session_send_to a q s port in
   let '(_, s2, port2) := Session_connect a q s1 port1 in (Session_send s2 port2).1.2) =
    mkSession a q (laddr s) (source_port s port) (s_socket s).
Proof.
  unfold Session_send_to, source_port. rewrite bind_eq. destruct (lport s =? 0) eqn:Hl.
  - pose proof (connect_send_eq a q (set_lport (bswap16 (u16 (port + 1))) s) (u16 (port + 1))) as Hc. rewrite Hc.
    unfold source_port. cbn [laddr lport s_socket set_lport]. destruct (Z.eqb_spec (u16 (port + 1)) 0) as [->|Hn]; [done|].
    by rewrite (proj2 (Z.eqb_neq _ _) (bswap16_nonzero _ (u16_range _) Hn)).
  - pose proof (connect_send_eq a q s port) as Hc. rewrite Hc. unfold source_port. by rewrite Hl.
Qed.

(** ** [Sessions::find]: src/src/veloxd/Session.h:77-150 *)

(** The lambda [in_addr_match]: src/src/veloxd/Session.h:83-99. *)
Definition in_addr_match (ours theirs : Z) : Z :=
  if ours =? 0 then 0 else if ours =? theirs then 1 else -1.

(** The body of the loop up to the accumulated score
    (src/src/veloxd/Session.h:112-141): [None] is [continue]. *)
Definition match_score (curr : Session) (fa fp la lp : Z) : option Z :=
  if negb (lport curr =? lp) then None else
  let accum := 1 in
  match (if negb (fport curr =? 0)
         then (if fport curr =? fp then Some (accum + 1) else None)
         else Some accum) with
  | None => None
  | Some accum =>
      let addr_m := in_addr_match (faddr curr) fa in
      if addr_m =? -1 then None else
      let accum := accum + addr_m in
      let addr_m := in_addr_match (laddr curr) la in
      if addr_m =? -1 then None else Some (accum + addr_m)
  end.

Section find.
Context (lock : nat → option Session).   (* weak_ptr::lock *)
Context (fa fp la lp : Z).

(** The loop over the container, [pcb] and [best_score] threaded. *)
Fixpoint find_loop (c : list nat) (pcb : option nat) (best_score : Z) : option nat :=
  match c with
  | [] => pcb
  | i :: c =>
      match lock i with
      | None => find_loop c pcb best_score
      | Some curr =>
          match match_score curr fa fp la lp with
          | None => find_loop c pcb best_score
          | Some accum =>
              if best_score <? accum then find_loop c (Some i) accum
              else find_loop c pcb best_score
          end
      end
  end.

(** The whole of [Sessions::find]: src/src/veloxd/Session.h:77-150. *)
Definition Sessions_find (c : list nat) : option nat := find_loop c None (-1).

(** The score of the session behind a weak pointer. *)
Definition score_of (i : nat) : option Z :=
  curr ← lock i; match_score curr fa fp la lp.

Definition score_below (k : Z) (i : nat) : Prop :=
  match score_of i with Some k' => k' < k | None => True end.
Definition score_at_most (k : Z) (i : nat) : Prop :=
  match score_of i with Some k' => k' ≤ k | None => True end.

Lemma find_loop_cons i c pcb b :
  find_loop (i :: c) pcb b =
    match score_of i with
    | Some k => if b <? k then find_loop c (Some i) k else find_loop c pcb b
    | None => find_loop c pcb b
    end.
Proof. unfold score_of. cbn. destruct (lock i); [|done]. cbn. by destruct match_score. Qed.

(** What the loop returns in terms of what it had found before. *)
Lemma find_loop_spec c : ∀ pcb b,
  (Forall (score_at_most b) c ∧ find_loop c pcb b = pcb) ∨
  (∃ pre i post k, c = pre ++ i :: post ∧ score_of i = Some k ∧ b < k ∧
     Forall (score_below k) pre ∧ Forall (score_at_most k) post ∧
     find_loop c pcb b = Some i).
Proof.
  induction c as [|i c IH]; intros pcb b; [left; by split|].
  rewrite find_loop_cons. destruct (score_of i) as [k|] eqn:Ei.
  2: { destruct (IH pcb b) as [[Hc ->]|(pre & j & post & k & -> & Hj & Hb & Hpre & Hpost & ->)].
    - left. split; [|done]. constructor; [|done]. unfold score_at_most. by rewrite Ei.
    - right. exists (i :: pre), j, post, k. repeat split; try done.
      constructor; [|done]. unfold score_below. by rewrite Ei. }
  destruct (Z.ltb_spec b k).
  - right. destruct (IH (Some i) k) as [[Hc ->]|(pre & j & post & k' & -> & Hj & Hb & Hpre & Hpost & ->)].
    + exists [], i, c, k. repeat split; done.
    + exists (i :: pre), j, post, k'. repeat split; try done; [lia|].
      constructor; [|done]. unfold score_below. by rewrite Ei.
  - destruct (IH pcb b) as [[Hc ->]|(pre & j & post & k' & -> & Hj & Hb & Hpre & Hpost & ->)].
    + left. split; [|done]. constructor; [|done]. unfold score_at_most. by rewrite Ei.
    + right. exists (i :: pre), j, post, k'. repeat split; try done.
      constructor; [|done]. unfold score_below. rewrite Ei. lia.
Qed.

Lemma score_of_range i k : score_of i = Some k → 1 ≤ k ≤ 4.
Proof.
  unfold score_of. destruct (lock i) as [s|]; [|done]. cbn.
  unfold match_score, in_addr_match. intros H. repeat case_match; simplify_eq; lia.
Qed.

Lemma score_of_best i s : lock i = Some s →
  (score_of i = Some 4 ↔
   lport s = lp ∧ fport s ≠ 0 ∧ fport s = fp ∧ faddr s ≠ 0 ∧ faddr s = fa ∧ laddr s ≠ 0 ∧ laddr s = la).
Proof.
  intros E. unfold score_of. rewrite E. cbn. unfold match_score, in_addr_match.
  destruct (Z.eqb_spec (lport s) lp); cbn; [|naive_solver].
  destruct (Z.eqb_spec (fport s) 0), (Z.eqb_spec (fport s) fp); cbn; try naive_solver;
  destruct (Z.eqb_spec (faddr s) 0), (Z.eqb_spec (faddr s) fa); cbn; try naive_solver;
  destruct (Z.eqb_spec (laddr s) 0), (Z.eqb_spec (laddr s) la); cbn; naive_solver.
Qed.
End find.

(** ** Properties *)

(** C22. Demultiplexing picks the most specific live session: if any session of
    the list is alive and matches the packet, [Sessions::find] returns the
    first one with the highest score (every session before it scores less,
    none after it scores more); otherwise it returns null. *)
Theorem find_best_match lock fa fp la lp c :
  match Sessions_find lock fa fp la lp c with
  | Some i => ∃ pre post k, c = pre ++ i :: post ∧ score_of lock fa fp la lp i = Some k ∧
      Forall (score_below lock fa fp la lp k) pre ∧ Forall (score_at_most lock fa fp la lp k) post
  | None => Forall (λ i, score_of lock fa fp la lp i = None) c
  end.
Proof.
  unfold Sessions_find.
  destruct (find_loop_spec lock fa fp la lp c None (-1)) as [[Hc ->]|(pre & i & post & k & -> & ? & ? & ? & ? & ->)].
  - eapply Forall_impl; [exact Hc|]. intros i Hi. unfold score_at_most in Hi.
    destruct (score_of lock fa fp la lp i) as [k|] eqn:E; [|done].
    apply score_of_range in E. lia.
  - naive_solver.
Qed.

(** A packet of an established flow reaches the session of that flow: when
    a live session of the list carries exactly the packet's four non-zero
    addresses and ports, and no other does, [Sessions::find] returns it no
    matter which wildcard (half-bound) sessions the list also holds. *)
Theorem find_exact_flow lock fa fp la lp c i s :
  i ∈ c → lock i = Some s →
  faddr s = fa → fport s = fp → laddr s = la → lport s = lp →
  fa ≠ 0 → fp ≠ 0 → la ≠ 0 →
  (∀ j t, j ∈ c → lock j = Some t → faddr t = fa → fport t = fp →
     laddr t = la → lport t = lp → j = i) →
  Sessions_find lock fa fp la lp c = Some i.
Proof.
  intros Hi Es Hfa Hfp Hla Hlp ? ? ? Huniq.
  assert (score_of lock fa fp la lp i = Some 4) as H4.
  { apply (proj2 (score_of_best lock fa fp la lp i s Es)). subst. naive_solver. }
  unfold Sessions_find.
  destruct (find_loop_spec lock fa fp la lp c None (-1)) as [[Hc _]|(pre & j & post & k & -> & Hk & _ & Hpre & Hpost & ->)].
  - rewrite Forall_forall in Hc. specialize (Hc i Hi). unfold score_at_most in Hc.
    rewrite H4 in Hc. lia.
  - f_equal. assert (k = 4) as ->.
    { pose proof (score_of_range _ _ _ _ _ _ _ Hk).
      rewrite elem_of_app, elem_of_cons, !Forall_forall in *.
      destruct Hi as [Hi|[->|Hi]]; [apply Hpre in Hi| |apply Hpost in Hi];
        [unfold score_below in Hi|by rewrite Hk in H4; simplify_eq|unfold score_at_most in Hi];
        rewrite H4 in Hi; lia. }
    unfold score_of in Hk. destruct (lock j) as [t|] eqn:Et; [|done].
    pose proof (proj1 (score_of_best lock fa fp la lp j t Et)) as Hb.
    destruct Hb as (?&?&?&?&?&?&?); [unfold score_of; by rewrite Et|].
    apply (Huniq j t); [set_solver|done..].
Qed.

Definition sample_lock (i : nat) : option Session :=
  match i with
  | 0%nat => Some (mkSession 0 0 7 80 None)
  | 1%nat => Some (mkSession 5 6 7 80 None)
  | _ => None
  end.

Lemma find_exact_flow_witness : Sessions_find sample_lock 5 6 7 80 [2; 0; 1]%nat = Some 1%nat.
Proof.
  apply (find_exact_flow sample_lock 5 6 7 80 [2; 0; 1]%nat 1%nat (mkSession 5 6 7 80 None));
    try done; [set_solver|].
  intros j t. rewrite !elem_of_cons. intros [->|[->|[->|Hj]]]; cbn; try done.
  - intros [= <-]. done.
  - by apply not_elem_of_nil in Hj.
Defined.

(** The state of the port counter before the [k]-th allocation. *)
Fixpoint port_iter (k : nat) (port : Z) : Z :=
  match k with O => port | S k => (nextAvailPort (port_iter k port)).2 end.
Definition nth_port (port : Z) (k : nat) : Z := (nextAvailPort (port_iter k port)).1.

Lemma port_iter_eq k port : in_u16 port → port_iter k port = u16 (port + k).
Proof.
  intros Hp. induction k as [|k IH]; cbn [port_iter nextAvailPort snd].
  - by rewrite Z.add_0_r, u16_small.
  - rewrite IH. int_lia.
Qed.

(** Automatic local ports: the [k]-th port handed out (the static counter
    starts at 1024) is 1025+k in network order modulo 2^16, so the first 64511
    allocations are pairwise distinct ports above 1024, and the next one is
    port 0, which the sessions use as "not bound". *)
Theorem auto_port_sequence k :
  nth_port 1024 k = bswap16 (u16 (1025 + k)) ∧
  (k < 64511 → nth_port 1024 k ≠ 0 ∧ ∀ j : nat, (j < k)%nat → nth_port 1024 j ≠ nth_port 1024 k) ∧
  nth_port 1024 64511 = 0.
Proof.
  assert (∀ n : nat, nth_port 1024 n = bswap16 (u16 (1025 + n))) as Heq.
  { intros n. unfold nth_port. cbn [nextAvailPort fst]. rewrite port_iter_eq by (unfold_ints; lia).
    f_equal. int_lia. }
  rewrite !Heq. split; [done|]. split.
  - intros Hk. split.
    + intros E. apply (f_equal bswap16) in E. rewrite bswap16_invol in E by apply u16_range.
      change (bswap16 0) with 0 in E. int_lia.
    + intros j Hj E. rewrite Heq in E. apply bswap16_inj in E; [|apply u16_range..]. int_lia.
  - vm_compute. done.
Qed.
