(* ===== verification/Rpc.v ===== *)
(** * The RPC messages

    [Request] and [Response] as the interceptor's generated C headers declare
    them (src/src/rpc/c_out/request.pb-c.h, response.pb-c.h; the C++ classes
    of cpp_out are generated from the same src/src/rpc/proto files): a [oneof]
    is an inductive type with one constructor per member, an [optional] field
    an [option].

    Serialisation is done by the protobuf runtimes, which are not part of the
    repository: the class [Codec] is the interface the two sides use, and
    [CodecLaws] the documented behaviour they rely on (what one side packs, the
    other unpacks). *)

From S2P Require Import Prelude.

(** src/src/rpc/rpc.h *)
Definition RPC_MESSAGE_MAX_SIZE : Z := 81920.
Definition RPC_MESSAGE_BUF_MAX_SIZE : Z := 80000.

(** ** Requests *)

(** The members of [oneof calling]: src/src/rpc/c_out/request.pb-c.h:43-229. *)
Inductive Calling : Type :=
  | CallSocket (domain type protocol : Z)
  | CallConnect (addr : list Z)
  | CallClose
  | CallRecvfrom (len flags : Z) (requireaddr : bool)
  | CallSendto (buf : list Z) (flags : Z) (addr : option (list Z))
  | CallPoll
  | CallSelect
  | CallGetpeername
  | CallGetsockname
  | CallGetsockopt
  | CallSetsockopt
  | CallFcntl
  | CallAtstart (progname : list Z).

(** [struct Request]: src/src/rpc/c_out/request.pb-c.h:231-259; [None] is
    [REQUEST__CALLING__NOT_SET]. *)
Record Request := mkRequest { pid : Z; calling : option Calling }.

(** ** Responses *)

(** [Response__RetCode]: src/src/rpc/c_out/response.pb-c.h:39-44. *)
Inductive RetCode : Set := RC_OK | RC_ERROR | RC_WAIT_NEXT.

(** The [ret], [has_errno_] and [errno_] every call's answer carries. *)
Record RetErr := mkRet { ret : Z; errno_ : option Z }.

(** The members of [oneof returning]:
    src/src/rpc/c_out/response.pb-c.h:46-269. *)
Inductive Returning : Type :=
  | RetSocket (r : RetErr)
  | RetConnect (r : RetErr)
  | RetClose (r : RetErr)
  | RetRecvfrom (r : RetErr) (buf addr : option (list Z))
  | RetSendto (r : RetErr)
  | RetPoll (r : RetErr)
  | RetSelect (r : RetErr)
  | RetGetpeername (r : RetErr) (peername : option (list Z))
  | RetGetsockname (r : RetErr) (sockanme : option (list Z))
  | RetGetsockopt (r : RetErr)
  | RetSetsockopt (r : RetErr)
  | RetFcntl (r : RetErr)
  | RetAtstart (startfd : Z) (count : option Z).

(** [struct Response]: src/src/rpc/c_out/response.pb-c.h:272-294.  The C++
    side can hold a message whose required [retCode] was never set: [None]. *)
Record Response := mkResponse { retcode : option RetCode; returning : option Returning }.

#[global] Instance Calling_eq_dec : EqDecision Calling.
Proof. solve_decision. Defined.
#[global] Instance Request_eq_dec : EqDecision Request.
Proof. solve_decision. Defined.
#[global] Instance RetCode_eq_dec : EqDecision RetCode.
Proof. solve_decision. Defined.
#[global] Instance RetErr_eq_dec : EqDecision RetErr.
Proof. solve_decision. Defined.
#[global] Instance Returning_eq_dec : EqDecision Returning.
Proof. solve_decision. Defined.
#[global] Instance Response_eq_dec : EqDecision Response.
Proof. solve_decision. Defined.

(** [Response::IsInitialized()] of the C++ runtime: every required field is
    set.  The [ret] of a member is set wherever the member is created. *)
Definition IsInitialized (r : Response) : bool := bool_decide (is_Some (retcode r)).

(** ** Field ranges *)

Definition opt_ok {A} (P : A → Prop) (o : option A) : Prop :=
  match o with Some a => P a | None => True end.

(** A [bytes] or [string] field: protobuf messages stay below 2 GiB. *)
Definition blob_ok (b : list Z) : Prop := bytes_ok b ∧ length b < 2 ^ 31.

Definition calling_wf (c : Calling) : Prop :=
  match c with
  | CallSocket d t p => in_i32 d ∧ in_i32 t ∧ in_i32 p
  | CallConnect a => blob_ok a
  | CallRecvfrom l f _ => in_i32 l ∧ in_i32 f
  | CallSendto b f a => blob_ok b ∧ in_i32 f ∧ opt_ok blob_ok a
  | CallAtstart n => blob_ok n
  | _ => True
  end.

Definition request_wf (r : Request) : Prop :=
  0 ≤ pid r < 2 ^ 64 ∧ opt_ok calling_wf (calling r).

Definition ret_wf (r : RetErr) : Prop := in_i32 (ret r) ∧ opt_ok in_i32 (errno_ r).

Definition returning_wf (c : Returning) : Prop :=
  match c with
  | RetSocket r | RetConnect r | RetClose r | RetSendto r | RetPoll r | RetSelect r
  | RetGetsockopt r | RetSetsockopt r | RetFcntl r => ret_wf r
  | RetRecvfrom r b a => ret_wf r ∧ opt_ok blob_ok b ∧ opt_ok blob_ok a
  | RetGetpeername r a | RetGetsockname r a => ret_wf r ∧ opt_ok blob_ok a
  | RetAtstart s c => in_i32 s ∧ opt_ok in_i32 c
  end.

Definition response_wf (r : Response) : Prop :=
  is_Some (retcode r) ∧ opt_ok returning_wf (returning r).

(** ** The serialisation interface *)

Class Codec := {
  request_pack : Request → list Z;
  request_unpack : list Z → option Request;
  response_pack : Response → list Z;
  response_unpack : list Z → option Response
}.

Class CodecLaws `{Codec} : Prop := {
  request_roundtrip r : request_wf r → request_unpack (request_pack r) = Some r;
  response_roundtrip r : response_wf r → response_unpack (response_pack r) = Some r;
  request_pack_nonempty r : request_wf r → request_pack r ≠ [];
  response_pack_nonempty r : response_wf r → response_pack r ≠ []
}.
