(* ===== verification/Wire.v ===== *)
(** * A codec for the RPC messages: the proto2 wire format

    An instance of [Codec] that satisfies [CodecLaws]: every message is its
    fields in order, a field its tag (number and wire type) as a varint
    followed by a varint or by a length and that many bytes; negative [int32]
    values take ten bytes, as proto2 sign-extends them.  The field numbers are
    those of src/src/rpc/proto/request.proto and response.proto.  It shows that
    the laws the two sides assume of their protobuf runtimes can hold, and it
    makes the witnesses run. *)

From S2P Require Import Prelude Rpc.

(** ** Varints *)

Fixpoint enc_varint (fuel : nat) (n : Z) : list Z :=
  match fuel with
  | O => [n]
  | S fuel => if n <? 128 then [n] else (n mod 128 + 128) :: enc_varint fuel (n / 128)
  end.

Fixpoint dec_varint (fuel : nat) (bs : list Z) : option (Z * list Z) :=
  match bs with
  | [] => None
  | b :: bs =>
      if b <? 128 then Some (b, bs)
      else match fuel with
           | O => None
           | S fuel => '(v, bs) ← dec_varint fuel bs; Some (b - 128 + 128 * v, bs)
           end
  end.

Lemma varint_roundtrip fuel n t :
  0 ≤ n < 128 ^ (Z.of_nat fuel + 1) → dec_varint fuel (enc_varint fuel n ++ t) = Some (n, t).
Proof.
  revert n. induction fuel as [|fuel IH]; intros n Hn.
  - change (128 ^ _) with 128 in Hn. cbn. by rewrite (proj2 (Z.ltb_lt n 128)) by lia.
  - cbn [enc_varint]. destruct (Z.ltb_spec n 128).
    + cbn. by rewrite (proj2 (Z.ltb_lt n 128)) by lia.
    + cbn [app dec_varint]. rewrite (proj2 (Z.ltb_ge _ 128)) by dm_lia.
      rewrite IH. { cbn. do 2 f_equal. dm_lia. }
      rewrite Nat2Z.inj_succ in Hn. replace (Z.succ fuel + 1) with (Z.succ (fuel + 1)) in Hn by lia.
      rewrite Z.pow_succ_r in Hn by lia. split; [dm_lia|]. apply Z.div_lt_upper_bound; lia.
Qed.

Lemma varint_roundtrip64 n t :
  0 ≤ n < 2 ^ 64 → dec_varint 9 (enc_varint 9 n ++ t) = Some (n, t).
Proof.
  intros Hn. apply varint_roundtrip. change (128 ^ (9%nat + 1)) with (2 ^ 70). lia.
Qed.

Lemma enc_varint_nonempty fuel n : enc_varint fuel n ≠ [].
Proof. destruct fuel; cbn; [done|]. by case_match. Qed.

(** ** Fields *)

Inductive wval : Type := WVarint (v : Z) | WLen (bs : list Z).
Notation field := (Z * wval)%type.

Definition varint_fuel : nat := 9.

Definition enc_field (f : field) : list Z :=
  match f.2 with
  | WVarint v => enc_varint varint_fuel (f.1 * 8) ++ enc_varint varint_fuel v
  | WLen bs => enc_varint varint_fuel (f.1 * 8 + 2) ++ enc_varint varint_fuel (length bs) ++ bs
  end.

Definition enc_fields (fs : list field) : list Z := concat (enc_field <$> fs).

Definition dec_field (bs : list Z) : option (field * list Z) :=
  '(tag, bs) ← dec_varint varint_fuel bs;
  '(v, bs) ← dec_varint varint_fuel bs;
  if tag mod 8 =? 0 then Some ((tag / 8, WVarint v), bs)
  else if (tag mod 8 =? 2) && (v <=? length bs)
  then Some ((tag / 8, WLen (take (Z.to_nat v) bs)), drop (Z.to_nat v) bs)
  else None.

Fixpoint dec_fields (fuel : nat) (bs : list Z) : option (list field) :=
  match bs with
  | [] => Some []
  | _ => match fuel with
         | O => None
         | S fuel => '(f, bs) ← dec_field bs; fs ← dec_fields fuel bs; Some (f :: fs)
         end
  end.

Definition field_ok (f : field) : Prop :=
  0 ≤ f.1 < 2 ^ 29 ∧
  match f.2 with WVarint v => 0 ≤ v < 2 ^ 64 | WLen bs => length bs < 2 ^ 64 end.

Lemma dec_enc_field f t : field_ok f → dec_field (enc_field f ++ t) = Some (f, t).
Proof.
  intros [Hn Hv]. destruct f as [n [v|bs]]; cbn [fst snd] in *; unfold enc_field, dec_field;
    cbn [fst snd]; rewrite <-?app_assoc.
  - rewrite varint_roundtrip64 by lia. cbn [mbind option_bind].
    rewrite varint_roundtrip64 by lia. cbn [mbind option_bind].
    rewrite Z.mod_mul, Z.div_mul by done. done.
  - rewrite varint_roundtrip64 by lia. cbn [mbind option_bind].
    rewrite varint_roundtrip64 by lia. cbn [mbind option_bind].
    replace ((n * 8 + 2) mod 8) with 2 by dm_lia. replace ((n * 8 + 2) / 8) with n by dm_lia.
    cbn [Z.eqb Pos.eqb andb]. rewrite (proj2 (Z.leb_le _ _)) by (rewrite length_app; lia).
    by rewrite Nat2Z.id, take_app_length, drop_app_length.
Qed.

Lemma enc_field_nonempty f : enc_field f ≠ [].
Proof.
  unfold enc_field. destruct f.2; intros H%app_eq_nil; destruct H as [H _];
    by apply enc_varint_nonempty in H.
Qed.

Lemma dec_fields_app f t fuel : field_ok f →
  dec_fields (S fuel) (enc_field f ++ t) = (λ fs, f :: fs) <$> dec_fields fuel t.
Proof.
  intros Hf. cbn [dec_fields]. destruct (enc_field f ++ t) as [|b bs] eqn:E.
  { apply app_eq_nil in E as [E _]. by apply enc_field_nonempty in E. }
  rewrite <-E, dec_enc_field by done. cbn [mbind option_bind].
  destruct (dec_fields fuel t); done.
Qed.

Lemma dec_enc_fields fs fuel :
  Forall field_ok fs → (length (enc_fields fs) ≤ fuel)%nat →
  dec_fields fuel (enc_fields fs) = Some fs.
Proof.
  intros Hok. revert fuel. induction Hok as [|f fs Hf _ IH]; intros fuel Hfuel.
  { by destruct fuel. }
  unfold enc_fields in *. cbn [concat fmap list_fmap] in *. rewrite length_app in Hfuel.
  assert (length (enc_field f) ≠ 0%nat) as Hne.
  { intros H%length_zero_iff_nil. by apply enc_field_nonempty in H. }
  destruct fuel as [|fuel]; [lia|]. rewrite dec_fields_app by done.
  rewrite IH by lia. done.
Qed.

Definition parse_fields (bs : list Z) : option (list field) := dec_fields (length bs) bs.

Lemma parse_enc_fields fs : Forall field_ok fs → parse_fields (enc_fields fs) = Some fs.
Proof. intros. by apply dec_enc_fields. Qed.

(** The last occurrence of a field wins. *)
Definition get_varint (n : Z) (fs : list field) : option Z :=
  fold_left (λ acc f, match f with (k, WVarint v) => if k =? n then Some v else acc | _ => acc end) fs None.
Definition get_bytes (n : Z) (fs : list field) : option (list Z) :=
  fold_left (λ acc f, match f with (k, WLen b) => if k =? n then Some b else acc | _ => acc end) fs None.
Definition get_int32 (n : Z) (fs : list field) : option Z := i32 <$> get_varint n fs.
Definition get_bool (n : Z) (fs : list field) : option bool := truth <$> get_varint n fs.

Definition f_int (n v : Z) : list field := [(n, WVarint (u64 v))].
Definition f_opt_int (n : Z) (v : option Z) : list field :=
  match v with Some v => f_int n v | None => [] end.
Definition f_bytes (n : Z) (b : list Z) : list field := [(n, WLen b)].
Definition f_opt_bytes (n : Z) (b : option (list Z)) : list field :=
  match b with Some b => f_bytes n b | None => [] end.

(** ** Requests *)

(** [Request__CallingCase]: src/src/rpc/c_out/request.pb-c.h:213-229. *)
Definition calling_num (c : Calling) : Z :=
  match c with
  | CallSocket _ _ _ => 1 | CallConnect _ => 2 | CallClose => 3 | CallRecvfrom _ _ _ => 4
  | CallSendto _ _ _ => 5 | CallPoll => 6 | CallSelect => 7 | CallGetpeername => 8
  | CallGetsockname => 9 | CallGetsockopt => 10 | CallSetsockopt => 11 | CallFcntl => 12
  | CallAtstart _ => 16
  end.

Definition calling_fields (c : Calling) : list field :=
  match c with
  | CallSocket d t p => f_int 1 d ++ f_int 2 t ++ f_int 3 p
  | CallConnect a => f_bytes 1 a
  | CallRecvfrom l f r => f_int 1 l ++ f_int 2 f ++ f_int 3 (Z.b2z r)
  | CallSendto b f a => f_bytes 1 b ++ f_int 2 f ++ f_opt_bytes 3 a
  | CallAtstart n => f_bytes 1 n
  | _ => []
  end.

Definition calling_of (n : Z) (fs : list field) : option Calling :=
  match n with
  | 1 => d ← get_int32 1 fs; t ← get_int32 2 fs; p ← get_int32 3 fs; Some (CallSocket d t p)
  | 2 => CallConnect <$> get_bytes 1 fs
  | 3 => Some CallClose
  | 4 => l ← get_int32 1 fs; f ← get_int32 2 fs; r ← get_bool 3 fs; Some (CallRecvfrom l f r)
  | 5 => b ← get_bytes 1 fs; f ← get_int32 2 fs; Some (CallSendto b f (get_bytes 3 fs))
  | 6 => Some CallPoll
  | 7 => Some CallSelect
  | 8 => Some CallGetpeername
  | 9 => Some CallGetsockname
  | 10 => Some CallGetsockopt
  | 11 => Some CallSetsockopt
  | 12 => Some CallFcntl
  | 16 => CallAtstart <$> get_bytes 1 fs
  | _ => None
  end.

Definition request_fields (r : Request) : list field :=
  match calling r with
  | Some c => f_bytes (calling_num c) (enc_fields (calling_fields c))
  | None => []
  end ++ f_int 15 (pid r).

(** The oneof member is the last length-delimited field. *)
Definition last_message (fs : list field) : option (Z * list Z) :=
  fold_left (λ acc f, match f with (k, WLen b) => Some (k, b) | _ => acc end) fs None.

Definition wire_request_pack (r : Request) : list Z := enc_fields (request_fields r).
Definition wire_request_unpack (bs : list Z) : option Request :=
  fs ← parse_fields bs;
  p ← get_varint 15 fs;
  match last_message fs with
  | None => Some (mkRequest p None)
  | Some (n, b) => sub ← parse_fields b; c ← calling_of n sub; Some (mkRequest p (Some c))
  end.

(** ** Responses *)

Definition retcode_num (c : RetCode) : Z :=
  match c with RC_OK => 0 | RC_ERROR => 1 | RC_WAIT_NEXT => 2 end.
Definition retcode_of (n : Z) : option RetCode :=
  match n with 0 => Some RC_OK | 1 => Some RC_ERROR | 2 => Some RC_WAIT_NEXT | _ => None end.

(** [Response__ReturningCase]: src/src/rpc/c_out/response.pb-c.h:254-270. *)
Definition returning_num (c : Returning) : Z :=
  match c with
  | RetSocket _ => 1 | RetConnect _ => 2 | RetClose _ => 3 | RetRecvfrom _ _ _ => 4
  | RetSendto _ => 5 | RetPoll _ => 6 | RetSelect _ => 7 | RetGetpeername _ _ => 8
  | RetGetsockname _ _ => 9 | RetGetsockopt _ => 10 | RetSetsockopt _ => 11 | RetFcntl _ => 12
  | RetAtstart _ _ => 16
  end.

Definition ret_fields (r : RetErr) : list field := f_int 1 (ret r) ++ f_opt_int 2 (errno_ r).
Definition ret_of (fs : list field) : option RetErr :=
  r ← get_int32 1 fs; Some (mkRet r (get_int32 2 fs)).

Definition returning_fields (c : Returning) : list field :=
  match c with
  | RetSocket r | RetConnect r | RetClose r | RetSendto r | RetPoll r | RetSelect r
  | RetGetsockopt r | RetSetsockopt r | RetFcntl r => ret_fields r
  | RetRecvfrom r b a => ret_fields r ++ f_opt_bytes 3 b ++ f_opt_bytes 4 a
  | RetGetpeername r a | RetGetsockname r a => ret_fields r ++ f_opt_bytes 3 a
  | RetAtstart s c => f_int 1 s ++ f_opt_int 2 c
  end.

Definition returning_of (n : Z) (fs : list field) : option Returning :=
  match n with
  | 1 => RetSocket <$> ret_of fs
  | 2 => RetConnect <$> ret_of fs
  | 3 => RetClose <$> ret_of fs
  | 4 => r ← ret_of fs; Some (RetRecvfrom r (get_bytes 3 fs) (get_bytes 4 fs))
  | 5 => RetSendto <$> ret_of fs
  | 6 => RetPoll <$> ret_of fs
  | 7 => RetSelect <$> ret_of fs
  | 8 => r ← ret_of fs; Some (RetGetpeername r (get_bytes 3 fs))
  | 9 => r ← ret_of fs; Some (RetGetsockname r (get_bytes 3 fs))
  | 10 => RetGetsockopt <$> ret_of fs
  | 11 => RetSetsockopt <$> ret_of fs
  | 12 => RetFcntl <$> ret_of fs
  | 16 => s ← get_int32 1 fs; Some (RetAtstart s (get_int32 2 fs))
  | _ => None
  end.

Definition response_fields (r : Response) : list field :=
  match returning r with
  | Some c => f_bytes (returning_num c) (enc_fields (returning_fields c))
  | None => []
  end ++ f_opt_int 15 (retcode_num <$> retcode r).

Definition wire_response_pack (r : Response) : list Z := enc_fields (response_fields r).
Definition wire_response_unpack (bs : list Z) : option Response :=
  fs ← parse_fields bs;
  rc ← get_varint 15 fs;
  rc ← retcode_of rc;
  match last_message fs with
  | None => Some (mkResponse (Some rc) None)
  | Some (n, b) => sub ← parse_fields b; c ← returning_of n sub;
                   Some (mkResponse (Some rc) (Some c))
  end.

Definition wire_codec : Codec := {|
  request_pack := wire_request_pack;
  request_unpack := wire_request_unpack;
  response_pack := wire_response_pack;
  response_unpack := wire_response_unpack
|}.

(** ** The laws *)

Lemma length_enc_varint fuel n : (length (enc_varint fuel n) ≤ S fuel)%nat.
Proof.
  revert n. induction fuel as [|fuel IH]; intros n; cbn; [lia|].
  case_match; cbn; [lia|]. specialize (IH (n / 128)). lia.
Qed.

Definition wval_size (v : wval) : Z := match v with WVarint _ => 0 | WLen b => length b end.

Lemma length_enc_field f : length (enc_field f) ≤ 20 + wval_size f.2.
Proof.
  unfold enc_field. destruct f as [n [v|b]]; cbn [fst snd wval_size]; rewrite !length_app;
    pose proof (length_enc_varint varint_fuel) as L; unfold varint_fuel in *.
  - pose proof (L (n * 8)). pose proof (L v). lia.
  - pose proof (L (n * 8 + 2)). pose proof (L (length b)). lia.
Qed.

Lemma length_enc_fields_cons f fs :
  length (enc_fields (f :: fs)) ≤ 20 + wval_size f.2 + length (enc_fields fs).
Proof. unfold enc_fields. cbn. rewrite length_app. pose proof (length_enc_field f). lia. Qed.

Lemma u64_range z : 0 ≤ u64 z < 2 ^ 64.
Proof. unfold u64. apply Z.mod_pos_bound. done. Qed.
Lemma i32_u64 z : in_i32 z → i32 (u64 z) = z.
Proof. intros ?. int_lia. Qed.

#[local] Hint Resolve u64_range : velox.

(** Field lists whose numbers and values are in range. *)
Ltac fields_ok :=
  repeat match goal with
  | |- Forall field_ok (_ ++ _) => apply Forall_app_2
  | |- Forall field_ok [] => constructor
  | |- Forall field_ok (f_opt_bytes _ ?o) => destruct o; cbn [f_opt_bytes]
  | |- Forall field_ok (f_opt_int _ ?o) => destruct o; cbn [f_opt_int]
  | |- Forall field_ok (f_int _ _) =>
      apply Forall_singleton; split; [cbn [fst]; lia|cbn [snd]; apply u64_range]
  | |- Forall field_ok (f_bytes _ _) =>
      apply Forall_singleton; split; [cbn [fst]; try lia|cbn [snd]]
  end.

Ltac wf_destruct :=
  cbn [calling_wf returning_wf opt_ok] in *; unfold ret_wf, blob_ok in *;
  cbn [opt_ok ret errno_] in *; destruct_and?.

Lemma calling_fields_ok c : calling_wf c → Forall field_ok (calling_fields c).
Proof. destruct c; intros; cbn [calling_fields]; wf_destruct; fields_ok; wf_destruct; lia. Qed.

Lemma returning_fields_ok c : returning_wf c → Forall field_ok (returning_fields c).
Proof.
  destruct c; intros; cbn [returning_fields]; unfold ret_fields; wf_destruct; fields_ok; wf_destruct; lia.
Qed.

(** Sizes of the nested messages. *)
Lemma length_enc_fields fs b :
  Forall (λ f, wval_size f.2 ≤ b) fs → 0 ≤ b → length (enc_fields fs) ≤ length fs * (20 + b).
Proof.
  intros H Hb. induction H as [|f fs Hf _ IH]; [done|].
  pose proof (length_enc_fields_cons f fs). cbn [length]. lia.
Qed.

Lemma calling_size c : calling_wf c → length (enc_fields (calling_fields c)) < 2 ^ 64.
Proof.
  intros Hc. assert (length (calling_fields c) ≤ 3) as Hlen.
  { destruct c as [| | | |? ? []| | | | | | | |]; cbn; lia. }
  pose proof (length_enc_fields (calling_fields c) (2 ^ 31)) as L.
  enough (length (enc_fields (calling_fields c)) ≤ length (calling_fields c) * (20 + 2 ^ 31)) by lia.
  apply L; [|lia].
  destruct c as [| | | |? ? []| | | | | | | |]; wf_destruct; repeat constructor; cbn; lia.
Qed.

Lemma returning_size c : returning_wf c → length (enc_fields (returning_fields c)) < 2 ^ 64.
Proof.
  intros Hc. assert (length (returning_fields c) ≤ 4) as Hlen.
  { destruct c as [[? []]|[? []]|[? []]|[? []] [] []|[? []]|[? []]|[? []]|[? []] []|[? []] []|[? []]|[? []]|[? []]|? []]; cbn; lia. }
  pose proof (length_enc_fields (returning_fields c) (2 ^ 31)) as L.
  enough (length (enc_fields (returning_fields c)) ≤ length (returning_fields c) * (20 + 2 ^ 31)) by lia.
  apply L; [|lia].
  destruct c as [[? []]|[? []]|[? []]|[? []] [] []|[? []]|[? []]|[? []]|[? []] []|[? []] []|[? []]|[? []]|[? []]|? []];
    wf_destruct; repeat constructor; cbn; lia.
Qed.

Lemma calling_of_fields c : calling_wf c → calling_of (calling_num c) (calling_fields c) = Some c.
Proof.
  destruct c as [| | |? ? []|? ? []| | | | | | | |]; intros; wf_destruct;
    unfold get_int32; cbn [calling_of calling_num calling_fields]; cbn -[i32 u64];
    rewrite ?i32_u64 by done; done.
Qed.

Lemma returning_of_fields c : returning_wf c → returning_of (returning_num c) (returning_fields c) = Some c.
Proof.
  destruct c as [[? []]|[? []]|[? []]|[? []] [] []|[? []]|[? []]|[? []]|[? []] []|[? []] []|[? []]|[? []]|[? []]|? []];
    intros; wf_destruct;
    unfold returning_of, ret_of, get_int32; cbn -[i32 u64]; rewrite ?i32_u64 by done; done.
Qed.

Lemma enc_fields_nonempty f fs : enc_fields (f :: fs) ≠ [].
Proof. unfold enc_fields. cbn. intros [H _]%app_eq_nil. by apply enc_field_nonempty in H. Qed.

Lemma wire_request_roundtrip r : request_wf r → wire_request_unpack (wire_request_pack r) = Some r.
Proof.
  destruct r as [p [c|]]; intros [Hp Hc]; cbn in Hp, Hc; unfold wire_request_unpack, wire_request_pack.
  - rewrite parse_enc_fields. 2: { unfold request_fields; cbn [calling pid]; fields_ok.
      { destruct c; cbn; lia. } by apply calling_size. }
    cbn -[u64 enc_fields calling_of parse_fields]. unfold u64. rewrite Z.mod_small by done.
    rewrite parse_enc_fields by by apply calling_fields_ok. cbn -[calling_of].
    by rewrite calling_of_fields.
  - rewrite parse_enc_fields by (unfold request_fields; cbn [calling pid]; fields_ok).
    cbn -[u64]. unfold u64. by rewrite Z.mod_small by done.
Qed.

Lemma wire_response_roundtrip r : response_wf r → wire_response_unpack (wire_response_pack r) = Some r.
Proof.
  destruct r as [rc [c|]]; intros [Hrc Hc]; cbn in Hrc, Hc; destruct Hrc as [rc' ->];
    unfold wire_response_unpack, wire_response_pack.
  - rewrite parse_enc_fields. 2: { unfold response_fields; cbn [returning retcode]; fields_ok.
      { destruct c; cbn; lia. } { by apply returning_size. } }
    cbn -[u64 enc_fields returning_of parse_fields retcode_of].
    replace (retcode_of (u64 (retcode_num rc'))) with (Some rc') by by destruct rc'.
    cbn -[enc_fields returning_of parse_fields].
    rewrite parse_enc_fields by by apply returning_fields_ok. cbn -[returning_of].
    by rewrite returning_of_fields.
  - rewrite parse_enc_fields by (unfold response_fields; cbn [returning retcode]; fields_ok).
    by destruct rc'.
Qed.

Lemma wire_codec_laws : @CodecLaws wire_codec.
Proof.
  split; cbn.
  - apply wire_request_roundtrip.
  - apply wire_response_roundtrip.
  - intros [p [c|]] _; apply enc_fields_nonempty.
  - intros [rc [c|]] [[rc' Hrc] _]; cbn in Hrc; subst; apply enc_fields_nonempty.
Qed.
