(* ===== verification/Descriptors.v ===== *)
(** * The message descriptors (src/src/rpc/c_out/request.pb-c.c, response.pb-c.c)

    The tables the protobuf-c runtime works from, one definition per table of
    the two generated C files: the fields of each message in order of their
    numbers, the permutation that sorts them by name, and the ranges of
    consecutive numbers.  The theorems check what the runtime documents of such
    tables (protobuf-c.h) and that the messages of Wire.v are laid out as the
    tables say, so that the two sides agree on the bytes. *)

From stdpp Require Import strings.
From S2P Require Import Prelude Rpc Wire.

#[local] Open Scope string_scope.
#[local] Open Scope list_scope.
#[local] Open Scope Z_scope.

Inductive Label : Set := LABEL_REQUIRED | LABEL_OPTIONAL.
Inductive FieldType : Set := TYPE_INT32 | TYPE_UINT64 | TYPE_BOOL | TYPE_ENUM | TYPE_STRING | TYPE_BYTES | TYPE_MESSAGE.

#[global] Instance Label_eq_dec : EqDecision Label.
Proof. solve_decision. Defined.

(** [ProtobufCIntRange]: first value and index of the field it stands for; the
    last range of a table only carries the number of fields. *)
Record IntRange := mkRange { start_value : Z; orig_index : nat }.

(** [offsetof(struct, member)]. *)
Record Offset := mkOffset { of_struct : string; of_member : string }.

(** [ProtobufCEnumValue], [ProtobufCEnumValueIndex] and
    [ProtobufCEnumDescriptor]. *)
Record EnumValue := mkEnumValue { ev_name : string; ev_c_name : string; ev_value : Z }.
Record EnumValueIndex := mkEnumIndex { ei_name : string; ei_index : nat }.
Record EnumDescriptor := mkEnum {
  e_name : string; e_short_name : string; e_c_name : string;
  e_n_values : nat; e_values : list EnumValue;
  e_n_names : nat; e_values_by_name : list EnumValueIndex;
  e_n_ranges : nat; e_ranges : list IntRange
}.

(** [ProtobufCFieldDescriptor] and [ProtobufCMessageDescriptor]; a null
    quantifier offset is [None]. *)
Inductive FieldDescriptor : Type :=
  | mkField (name : string) (id : Z) (label : Label) (type : FieldType)
      (quantifier : option Offset) (offset : Offset) (sub : SubDescriptor) (oneof : bool)
with MessageDescriptor : Type :=
  | mkMessage (name short_name c_name sizeof : string) (n_fields : nat)
      (fields : list FieldDescriptor) (by_name : list nat)
      (n_ranges : nat) (ranges : list IntRange)
with SubDescriptor : Type :=
  | NoSub
  | SubMessage (m : MessageDescriptor)
  | SubEnum (e : EnumDescriptor).

Definition f_name (f : FieldDescriptor) : string := let 'mkField n _ _ _ _ _ _ _ := f in n.
Definition f_id (f : FieldDescriptor) : Z := let 'mkField _ i _ _ _ _ _ _ := f in i.
Definition f_label (f : FieldDescriptor) : Label := let 'mkField _ _ l _ _ _ _ _ := f in l.
Definition f_type (f : FieldDescriptor) : FieldType := let 'mkField _ _ _ t _ _ _ _ := f in t.
Definition f_quantifier (f : FieldDescriptor) : option Offset := let 'mkField _ _ _ _ q _ _ _ := f in q.
Definition f_offset (f : FieldDescriptor) : Offset := let 'mkField _ _ _ _ _ o _ _ := f in o.
Definition f_sub (f : FieldDescriptor) : SubDescriptor := let 'mkField _ _ _ _ _ _ s _ := f in s.
Definition f_oneof (f : FieldDescriptor) : bool := let 'mkField _ _ _ _ _ _ _ b := f in b.
Definition m_fields (m : MessageDescriptor) : list FieldDescriptor := let 'mkMessage _ _ _ _ _ fs _ _ _ := m in fs.
Definition m_n_fields (m : MessageDescriptor) : nat := let 'mkMessage _ _ _ _ n _ _ _ _ := m in n.
Definition m_by_name (m : MessageDescriptor) : list nat := let 'mkMessage _ _ _ _ _ _ l _ _ := m in l.
Definition m_n_ranges (m : MessageDescriptor) : nat := let 'mkMessage _ _ _ _ _ _ _ n _ := m in n.
Definition m_ranges (m : MessageDescriptor) : list IntRange := let 'mkMessage _ _ _ _ _ _ _ _ r := m in r.
Definition m_sizeof (m : MessageDescriptor) : string := let 'mkMessage _ _ _ s _ _ _ _ _ := m in s.

(** ** src/src/rpc/c_out/request.pb-c.c *)

(** [request__socket__field_descriptors]: src/src/rpc/c_out/request.pb-c.c:135-173. *)
Definition request__socket__field_descriptors : list FieldDescriptor :=
  [
   mkField "domain" 1 LABEL_REQUIRED TYPE_INT32 None (mkOffset "Request__Socket" "domain") NoSub false;
   mkField "type" 2 LABEL_REQUIRED TYPE_INT32 None (mkOffset "Request__Socket" "type") NoSub false;
   mkField "protocol" 3 LABEL_REQUIRED TYPE_INT32 None (mkOffset "Request__Socket" "protocol") NoSub false
  ].
(** [request__socket__field_indices_by_name]: src/src/rpc/c_out/request.pb-c.c:174-178. *)
Definition request__socket__field_indices_by_name : list nat := [0%nat; 2%nat; 1%nat].
(** [request__socket__number_ranges]: src/src/rpc/c_out/request.pb-c.c:179-183. *)
Definition request__socket__number_ranges : list IntRange := [mkRange 1 0; mkRange 0 3].
(** [request__socket__descriptor]: src/src/rpc/c_out/request.pb-c.c:184-198. *)
Definition request__socket__descriptor : MessageDescriptor :=
  mkMessage "Request.Socket" "Socket" "Request__Socket" "Request__Socket" 3
    request__socket__field_descriptors request__socket__field_indices_by_name
    1 request__socket__number_ranges.

(** [request__connect__field_descriptors]: src/src/rpc/c_out/request.pb-c.c:199-213. *)
Definition request__connect__field_descriptors : list FieldDescriptor :=
  [
   mkField "addr" 1 LABEL_REQUIRED TYPE_BYTES None (mkOffset "Request__Connect" "addr") NoSub false
  ].
(** [request__connect__field_indices_by_name]: src/src/rpc/c_out/request.pb-c.c:214-216. *)
Definition request__connect__field_indices_by_name : list nat := [0%nat].
(** [request__connect__number_ranges]: src/src/rpc/c_out/request.pb-c.c:217-221. *)
Definition request__connect__number_ranges : list IntRange := [mkRange 1 0; mkRange 0 1].
(** [request__connect__descriptor]: src/src/rpc/c_out/request.pb-c.c:222-236. *)
Definition request__connect__descriptor : MessageDescriptor :=
  mkMessage "Request.Connect" "Connect" "Request__Connect" "Request__Connect" 1
    request__connect__field_descriptors request__connect__field_indices_by_name
    1 request__connect__number_ranges.

(** [request__close__descriptor]: src/src/rpc/c_out/request.pb-c.c:237-254. *)
Definition request__close__descriptor : MessageDescriptor :=
  mkMessage "Request.Close" "Close" "Request__Close" "Request__Close" 0
    [] []
    0 [].

(** [request__recvfrom__field_descriptors]: src/src/rpc/c_out/request.pb-c.c:255-293. *)
Definition request__recvfrom__field_descriptors : list FieldDescriptor :=
  [
   mkField "len" 1 LABEL_REQUIRED TYPE_INT32 None (mkOffset "Request__Recvfrom" "len") NoSub false;
   mkField "flags" 2 LABEL_REQUIRED TYPE_INT32 None (mkOffset "Request__Recvfrom" "flags") NoSub false;
   mkField "requireAddr" 3 LABEL_REQUIRED TYPE_BOOL None (mkOffset "Request__Recvfrom" "requireaddr") NoSub false
  ].
(** [request__recvfrom__field_indices_by_name]: src/src/rpc/c_out/request.pb-c.c:294-298. *)
Definition request__recvfrom__field_indices_by_name : list nat := [1%nat; 0%nat; 2%nat].
(** [request__recvfrom__number_ranges]: src/src/rpc/c_out/request.pb-c.c:299-303. *)
Definition request__recvfrom__number_ranges : list IntRange := [mkRange 1 0; mkRange 0 3].
(** [request__recvfrom__descriptor]: src/src/rpc/c_out/request.pb-c.c:304-318. *)
Definition request__recvfrom__descriptor : MessageDescriptor :=
  mkMessage "Request.Recvfrom" "Recvfrom" "Request__Recvfrom" "Request__Recvfrom" 3
    request__recvfrom__field_descriptors request__recvfrom__field_indices_by_name
    1 request__recvfrom__number_ranges.

(** [request__sendto__field_descriptors]: src/src/rpc/c_out/request.pb-c.c:319-357. *)
Definition request__sendto__field_descriptors : list FieldDescriptor :=
  [
   mkField "buf" 1 LABEL_REQUIRED TYPE_BYTES None (mkOffset "Request__Sendto" "buf") NoSub false;
   mkField "flags" 2 LABEL_REQUIRED TYPE_INT32 None (mkOffset "Request__Sendto" "flags") NoSub false;
   mkField "addr" 3 LABEL_OPTIONAL TYPE_BYTES (Some (mkOffset "Request__Sendto" "has_addr")) (mkOffset "Request__Sendto" "addr") NoSub false
  ].
(** [request__sendto__field_indices_by_name]: src/src/rpc/c_out/request.pb-c.c:358-362. *)
Definition request__sendto__field_indices_by_name : list nat := [2%nat; 0%nat; 1%nat].
(** [request__sendto__number_ranges]: src/src/rpc/c_out/request.pb-c.c:363-367. *)
Definition request__sendto__number_ranges : list IntRange := [mkRange 1 0; mkRange 0 3].
(** [request__sendto__descriptor]: src/src/rpc/c_out/request.pb-c.c:368-382. *)
Definition request__sendto__descriptor : MessageDescriptor :=
  mkMessage "Request.Sendto" "Sendto" "Request__Sendto" "Request__Sendto" 3
    request__sendto__field_descriptors request__sendto__field_indices_by_name
    1 request__sendto__number_ranges.

(** [request__poll__descriptor]: src/src/rpc/c_out/request.pb-c.c:383-400. *)
Definition request__poll__descriptor : MessageDescriptor :=
  mkMessage "Request.Poll" "Poll" "Request__Poll" "Request__Poll" 0
    [] []
    0 [].

(** [request__select__descriptor]: src/src/rpc/c_out/request.pb-c.c:401-418. *)
Definition request__select__descriptor : MessageDescriptor :=
  mkMessage "Request.Select" "Select" "Request__Select" "Request__Select" 0
    [] []
    0 [].

(** [request__getpeername__descriptor]: src/src/rpc/c_out/request.pb-c.c:419-436. *)
Definition request__getpeername__descriptor : MessageDescriptor :=
  mkMessage "Request.Getpeername" "Getpeername" "Request__Getpeername" "Request__Getpeername" 0
    [] []
    0 [].

(** [request__getsockname__descriptor]: src/src/rpc/c_out/request.pb-c.c:437-454. *)
Definition request__getsockname__descriptor : MessageDescriptor :=
  mkMessage "Request.Getsockname" "Getsockname" "Request__Getsockname" "Request__Getsockname" 0
    [] []
    0 [].

(** [request__getsockopt__descriptor]: src/src/rpc/c_out/request.pb-c.c:455-472. *)
Definition request__getsockopt__descriptor : MessageDescriptor :=
  mkMessage "Request.Getsockopt" "Getsockopt" "Request__Getsockopt" "Request__Getsockopt" 0
    [] []
    0 [].

(** [request__setsockopt__descriptor]: src/src/rpc/c_out/request.pb-c.c:473-490. *)
Definition request__setsockopt__descriptor : MessageDescriptor :=
  mkMessage "Request.Setsockopt" "Setsockopt" "Request__Setsockopt" "Request__Setsockopt" 0
    [] []
    0 [].

(** [request__fcntl__descriptor]: src/src/rpc/c_out/request.pb-c.c:491-508. *)
Definition request__fcntl__descriptor : MessageDescriptor :=
  mkMessage "Request.Fcntl" "Fcntl" "Request__Fcntl" "Request__Fcntl" 0
    [] []
    0 [].

(** [request__atstart__field_descriptors]: src/src/rpc/c_out/request.pb-c.c:509-523. *)
Definition request__atstart__field_descriptors : list FieldDescriptor :=
  [
   mkField "progname" 1 LABEL_REQUIRED TYPE_STRING None (mkOffset "Request__Atstart" "progname") NoSub false
  ].
(** [request__atstart__field_indices_by_name]: src/src/rpc/c_out/request.pb-c.c:524-526. *)
Definition request__atstart__field_indices_by_name : list nat := [0%nat].
(** [request__atstart__number_ranges]: src/src/rpc/c_out/request.pb-c.c:527-531. *)
Definition request__atstart__number_ranges : list IntRange := [mkRange 1 0; mkRange 0 1].
(** [request__atstart__descriptor]: src/src/rpc/c_out/request.pb-c.c:532-546. *)
Definition request__atstart__descriptor : MessageDescriptor :=
  mkMessage "Request.Atstart" "Atstart" "Request__Atstart" "Request__Atstart" 1
    request__atstart__field_descriptors request__atstart__field_indices_by_name
    1 request__atstart__number_ranges.

(** [request__field_descriptors]: src/src/rpc/c_out/request.pb-c.c:547-717. *)
Definition request__field_descriptors : list FieldDescriptor :=
  [
   mkField "socketCall" 1 LABEL_OPTIONAL TYPE_MESSAGE (Some (mkOffset "Request" "calling_case")) (mkOffset "Request" "socketcall") (SubMessage request__socket__descriptor) true;
   mkField "connectCall" 2 LABEL_OPTIONAL TYPE_MESSAGE (Some (mkOffset "Request" "calling_case")) (mkOffset "Request" "connectcall") (SubMessage request__connect__descriptor) true;
   mkField "closeCall" 3 LABEL_OPTIONAL TYPE_MESSAGE (Some (mkOffset "Request" "calling_case")) (mkOffset "Request" "closecall") (SubMessage request__close__descriptor) true;
   mkField "recvfromCall" 4 LABEL_OPTIONAL TYPE_MESSAGE (Some (mkOffset "Request" "calling_case")) (mkOffset "Request" "recvfromcall") (SubMessage request__recvfrom__descriptor) true;
   mkField "sendtoCall" 5 LABEL_OPTIONAL TYPE_MESSAGE (Some (mkOffset "Request" "calling_case")) (mkOffset "Request" "sendtocall") (SubMessage request__sendto__descriptor) true;
   mkField "pollCall" 6 LABEL_OPTIONAL TYPE_MESSAGE (Some (mkOffset "Request" "calling_case")) (mkOffset "Request" "pollcall") (SubMessage request__poll__descriptor) true;
   mkField "selectCall" 7 LABEL_OPTIONAL TYPE_MESSAGE (Some (mkOffset "Request" "calling_case")) (mkOffset "Request" "selectcall") (SubMessage request__select__descriptor) true;
   mkField "getpeernameCall" 8 LABEL_OPTIONAL TYPE_MESSAGE (Some (mkOffset "Request" "calling_case")) (mkOffset "Request" "getpeernamecall") (SubMessage request__getpeername__descriptor) true;
   mkField "getsocknameCall" 9 LABEL_OPTIONAL TYPE_MESSAGE (Some (mkOffset "Request" "calling_case")) (mkOffset "Request" "getsocknamecall") (SubMessage request__getsockname__descriptor) true;
   mkField "getsockoptCall" 10 LABEL_OPTIONAL TYPE_MESSAGE (Some (mkOffset "Request" "calling_case")) (mkOffset "Request" "getsockoptcall") (SubMessage request__getsockopt__descriptor) true;
   mkField "setsockoptCall" 11 LABEL_OPTIONAL TYPE_MESSAGE (Some (mkOffset "Request" "calling_case")) (mkOffset "Request" "setsockoptcall") (SubMessage request__setsockopt__descriptor) true;
   mkField "fcntlCall" 12 LABEL_OPTIONAL TYPE_MESSAGE (Some (mkOffset "Request" "calling_case")) (mkOffset "Request" "fcntlcall") (SubMessage request__fcntl__descriptor) true;
   mkField "pid" 15 LABEL_REQUIRED TYPE_UINT64 None (mkOffset "Request" "pid") NoSub false;
   mkField "atstartAction" 16 LABEL_OPTIONAL TYPE_MESSAGE (Some (mkOffset "Request" "calling_case")) (mkOffset "Request" "atstartaction") (SubMessage request__atstart__descriptor) true
  ].
(** [request__field_indices_by_name]: src/src/rpc/c_out/request.pb-c.c:718-733. *)
Definition request__field_indices_by_name : list nat := [13%nat; 2%nat; 1%nat; 11%nat; 7%nat; 8%nat; 9%nat; 12%nat; 5%nat; 3%nat; 6%nat; 4%nat; 10%nat; 0%nat].
(** [request__number_ranges]: src/src/rpc/c_out/request.pb-c.c:734-739. *)
Definition request__number_ranges : list IntRange := [mkRange 1 0; mkRange 15 12; mkRange 0 14].
(** [request__descriptor]: src/src/rpc/c_out/request.pb-c.c:740-754. *)
Definition request__descriptor : MessageDescriptor :=
  mkMessage "Request" "Request" "Request" "Request" 14
    request__field_descriptors request__field_indices_by_name
    2 request__number_ranges.

(** ** src/src/rpc/c_out/response.pb-c.c *)

(** [response__socket__field_descriptors]: src/src/rpc/c_out/response.pb-c.c:135-161. *)
Definition response__socket__field_descriptors : list FieldDescriptor :=
  [
   mkField "ret" 1 LABEL_REQUIRED TYPE_INT32 None (mkOffset "Response__Socket" "ret") NoSub false;
   mkField "errno_" 2 LABEL_OPTIONAL TYPE_INT32 (Some (mkOffset "Response__Socket" "has_errno_")) (mkOffset "Response__Socket" "errno_") NoSub false
  ].
(** [response__socket__field_indices_by_name]: src/src/rpc/c_out/response.pb-c.c:162-165. *)
Definition response__socket__field_indices_by_name : list nat := [1%nat; 0%nat].
(** [response__socket__number_ranges]: src/src/rpc/c_out/response.pb-c.c:166-170. *)
Definition response__socket__number_ranges : list IntRange := [mkRange 1 0; mkRange 0 2].
(** [response__socket__descriptor]: src/src/rpc/c_out/response.pb-c.c:171-185. *)
Definition response__socket__descriptor : MessageDescriptor :=
  mkMessage "Response.Socket" "Socket" "Response__Socket" "Response__Socket" 2
    response__socket__field_descriptors response__socket__field_indices_by_name
    1 response__socket__number_ranges.

(** [response__connect__field_descriptors]: src/src/rpc/c_out/response.pb-c.c:186-212. *)
Definition response__connect__field_descriptors : list FieldDescriptor :=
  [
   mkField "ret" 1 LABEL_REQUIRED TYPE_INT32 None (mkOffset "Response__Connect" "ret") NoSub false;
   mkField "errno_" 2 LABEL_OPTIONAL TYPE_INT32 (Some (mkOffset "Response__Connect" "has_errno_")) (mkOffset "Response__Connect" "errno_") NoSub false
  ].
(** [response__connect__field_indices_by_name]: src/src/rpc/c_out/response.pb-c.c:213-216. *)
Definition response__connect__field_indices_by_name : list nat := [1%nat; 0%nat].
(** [response__connect__number_ranges]: src/src/rpc/c_out/response.pb-c.c:217-221. *)
Definition response__connect__number_ranges : list IntRange := [mkRange 1 0; mkRange 0 2].
(** [response__connect__descriptor]: src/src/rpc/c_out/response.pb-c.c:222-236. *)
Definition response__connect__descriptor : MessageDescriptor :=
  mkMessage "Response.Connect" "Connect" "Response__Connect" "Response__Connect" 2
    response__connect__field_descriptors response__connect__field_indices_by_name
    1 response__connect__number_ranges.

(** [response__close__field_descriptors]: src/src/rpc/c_out/response.pb-c.c:237-263. *)
Definition response__close__field_descriptors : list FieldDescriptor :=
  [
   mkField "ret" 1 LABEL_REQUIRED TYPE_INT32 None (mkOffset "Response__Close" "ret") NoSub false;
   mkField "errno_" 2 LABEL_OPTIONAL TYPE_INT32 (Some (mkOffset "Response__Close" "has_errno_")) (mkOffset "Response__Close" "errno_") NoSub false
  ].
(** [response__close__field_indices_by_name]: src/src/rpc/c_out/response.pb-c.c:264-267. *)
Definition response__close__field_indices_by_name : list nat := [1%nat; 0%nat].
(** [response__close__number_ranges]: src/src/rpc/c_out/response.pb-c.c:268-272. *)
Definition response__close__number_ranges : list IntRange := [mkRange 1 0; mkRange 0 2].
(** [response__close__descriptor]: src/src/rpc/c_out/response.pb-c.c:273-287. *)
Definition response__close__descriptor : MessageDescriptor :=
  mkMessage "Response.Close" "Close" "Response__Close" "Response__Close" 2
    response__close__field_descriptors response__close__field_indices_by_name
    1 response__close__number_ranges.

(** [response__recvfrom__field_descriptors]: src/src/rpc/c_out/response.pb-c.c:288-338. *)
Definition response__recvfrom__field_descriptors : list FieldDescriptor :=
  [
   mkField "ret" 1 LABEL_REQUIRED TYPE_INT32 None (mkOffset "Response__Recvfrom" "ret") NoSub false;
   mkField "errno_" 2 LABEL_OPTIONAL TYPE_INT32 (Some (mkOffset "Response__Recvfrom" "has_errno_")) (mkOffset "Response__Recvfrom" "errno_") NoSub false;
   mkField "buf" 3 LABEL_OPTIONAL TYPE_BYTES (Some (mkOffset "Response__Recvfrom" "has_buf")) (mkOffset "Response__Recvfrom" "buf") NoSub false;
   mkField "addr" 4 LABEL_OPTIONAL TYPE_BYTES (Some (mkOffset "Response__Recvfrom" "has_addr")) (mkOffset "Response__Recvfrom" "addr") NoSub false
  ].
(** [response__recvfrom__field_indices_by_name]: src/src/rpc/c_out/response.pb-c.c:339-344. *)
Definition response__recvfrom__field_indices_by_name : list nat := [3%nat; 2%nat; 1%nat; 0%nat].
(** [response__recvfrom__number_ranges]: src/src/rpc/c_out/response.pb-c.c:345-349. *)
Definition response__recvfrom__number_ranges : list IntRange := [mkRange 1 0; mkRange 0 4].
(** [response__recvfrom__descriptor]: src/src/rpc/c_out/response.pb-c.c:350-364. *)
Definition response__recvfrom__descriptor : MessageDescriptor :=
  mkMessage "Response.Recvfrom" "Recvfrom" "Response__Recvfrom" "Response__Recvfrom" 4
    response__recvfrom__field_descriptors response__recvfrom__field_indices_by_name
    1 response__recvfrom__number_ranges.

(** [response__sendto__field_descriptors]: src/src/rpc/c_out/response.pb-c.c:365-391. *)
Definition response__sendto__field_descriptors : list FieldDescriptor :=
  [
   mkField "ret" 1 LABEL_REQUIRED TYPE_INT32 None (mkOffset "Response__Sendto" "ret") NoSub false;
   mkField "errno_" 2 LABEL_OPTIONAL TYPE_INT32 (Some (mkOffset "Response__Sendto" "has_errno_")) (mkOffset "Response__Sendto" "errno_") NoSub false
  ].
(** [response__sendto__field_indices_by_name]: src/src/rpc/c_out/response.pb-c.c:392-395. *)
Definition response__sendto__field_indices_by_name : list nat := [1%nat; 0%nat].
(** [response__sendto__number_ranges]: src/src/rpc/c_out/response.pb-c.c:396-400. *)
Definition response__sendto__number_ranges : list IntRange := [mkRange 1 0; mkRange 0 2].
(** [response__sendto__descriptor]: src/src/rpc/c_out/response.pb-c.c:401-415. *)
Definition response__sendto__descriptor : MessageDescriptor :=
  mkMessage "Response.Sendto" "Sendto" "Response__Sendto" "Response__Sendto" 2
    response__sendto__field_descriptors response__sendto__field_indices_by_name
    1 response__sendto__number_ranges.

(** [response__poll__field_descriptors]: src/src/rpc/c_out/response.pb-c.c:416-442. *)
Definition response__poll__field_descriptors : list FieldDescriptor :=
  [
   mkField "ret" 1 LABEL_REQUIRED TYPE_INT32 None (mkOffset "Response__Poll" "ret") NoSub false;
   mkField "errno_" 2 LABEL_OPTIONAL TYPE_INT32 (Some (mkOffset "Response__Poll" "has_errno_")) (mkOffset "Response__Poll" "errno_") NoSub false
  ].
(** [response__poll__field_indices_by_name]: src/src/rpc/c_out/response.pb-c.c:443-446. *)
Definition response__poll__field_indices_by_name : list nat := [1%nat; 0%nat].
(** [response__poll__number_ranges]: src/src/rpc/c_out/response.pb-c.c:447-451. *)
Definition response__poll__number_ranges : list IntRange := [mkRange 1 0; mkRange 0 2].
(** [response__poll__descriptor]: src/src/rpc/c_out/response.pb-c.c:452-466. *)
Definition response__poll__descriptor : MessageDescriptor :=
  mkMessage "Response.Poll" "Poll" "Response__Poll" "Response__Poll" 2
    response__poll__field_descriptors response__poll__field_indices_by_name
    1 response__poll__number_ranges.

(** [response__select__field_descriptors]: src/src/rpc/c_out/response.pb-c.c:467-493. *)
Definition response__select__field_descriptors : list FieldDescriptor :=
  [
   mkField "ret" 1 LABEL_REQUIRED TYPE_INT32 None (mkOffset "Response__Select" "ret") NoSub false;
   mkField "errno_" 2 LABEL_OPTIONAL TYPE_INT32 (Some (mkOffset "Response__Select" "has_errno_")) (mkOffset "Response__Select" "errno_") NoSub false
  ].
(** [response__select__field_indices_by_name]: src/src/rpc/c_out/response.pb-c.c:494-497. *)
Definition response__select__field_indices_by_name : list nat := [1%nat; 0%nat].
(** [response__select__number_ranges]: src/src/rpc/c_out/response.pb-c.c:498-502. *)
Definition response__select__number_ranges : list IntRange := [mkRange 1 0; mkRange 0 2].
(** [response__select__descriptor]: src/src/rpc/c_out/response.pb-c.c:503-517. *)
Definition response__select__descriptor : MessageDescriptor :=
  mkMessage "Response.Select" "Select" "Response__Select" "Response__Select" 2
    response__select__field_descriptors response__select__field_indices_by_name
    1 response__select__number_ranges.

(** [response__getpeername__field_descriptors]: src/src/rpc/c_out/response.pb-c.c:518-556. *)
Definition response__getpeername__field_descriptors : list FieldDescriptor :=
  [
   mkField "ret" 1 LABEL_REQUIRED TYPE_INT32 None (mkOffset "Response__Getpeername" "ret") NoSub false;
   mkField "errno_" 2 LABEL_OPTIONAL TYPE_INT32 (Some (mkOffset "Response__Getpeername" "has_errno_")) (mkOffset "Response__Getpeername" "errno_") NoSub false;
   mkField "peername" 3 LABEL_OPTIONAL TYPE_BYTES (Some (mkOffset "Response__Getpeername" "has_peername")) (mkOffset "Response__Getpeername" "peername") NoSub false
  ].
(** [response__getpeername__field_indices_by_name]: src/src/rpc/c_out/response.pb-c.c:557-561. *)
Definition response__getpeername__field_indices_by_name : list nat := [1%nat; 2%nat; 0%nat].
(** [response__getpeername__number_ranges]: src/src/rpc/c_out/response.pb-c.c:562-566. *)
Definition response__getpeername__number_ranges : list IntRange := [mkRange 1 0; mkRange 0 3].
(** [response__getpeername__descriptor]: src/src/rpc/c_out/response.pb-c.c:567-581. *)
Definition response__getpeername__descriptor : MessageDescriptor :=
  mkMessage "Response.Getpeername" "Getpeername" "Response__Getpeername" "Response__Getpeername" 3
    response__getpeername__field_descriptors response__getpeername__field_indices_by_name
    1 response__getpeername__number_ranges.

(** [response__getsockname__field_descriptors]: src/src/rpc/c_out/response.pb-c.c:582-620. *)
Definition response__getsockname__field_descriptors : list FieldDescriptor :=
  [
   mkField "ret" 1 LABEL_REQUIRED TYPE_INT32 None (mkOffset "Response__Getsockname" "ret") NoSub false;
   mkField "errno_" 2 LABEL_OPTIONAL TYPE_INT32 (Some (mkOffset "Response__Getsockname" "has_errno_")) (mkOffset "Response__Getsockname" "errno_") NoSub false;
   mkField "sockanme" 3 LABEL_OPTIONAL TYPE_BYTES (Some (mkOffset "Response__Getsockname" "has_sockanme")) (mkOffset "Response__Getsockname" "sockanme") NoSub false
  ].
(** [response__getsockname__field_indices_by_name]: src/src/rpc/c_out/response.pb-c.c:621-625. *)
Definition response__getsockname__field_indices_by_name : list nat := [1%nat; 0%nat; 2%nat].
(** [response__getsockname__number_ranges]: src/src/rpc/c_out/response.pb-c.c:626-630. *)
Definition response__getsockname__number_ranges : list IntRange := [mkRange 1 0; mkRange 0 3].
(** [response__getsockname__descriptor]: src/src/rpc/c_out/response.pb-c.c:631-645. *)
Definition response__getsockname__descriptor : MessageDescriptor :=
  mkMessage "Response.Getsockname" "Getsockname" "Response__Getsockname" "Response__Getsockname" 3
    response__getsockname__field_descriptors response__getsockname__field_indices_by_name
    1 response__getsockname__number_ranges.

(** [response__getsockopt__field_descriptors]: src/src/rpc/c_out/response.pb-c.c:646-672. *)
Definition response__getsockopt__field_descriptors : list FieldDescriptor :=
  [
   mkField "ret" 1 LABEL_REQUIRED TYPE_INT32 None (mkOffset "Response__Getsockopt" "ret") NoSub false;
   mkField "errno_" 2 LABEL_OPTIONAL TYPE_INT32 (Some (mkOffset "Response__Getsockopt" "has_errno_")) (mkOffset "Response__Getsockopt" "errno_") NoSub false
  ].
(** [response__getsockopt__field_indices_by_name]: src/src/rpc/c_out/response.pb-c.c:673-676. *)
Definition response__getsockopt__field_indices_by_name : list nat := [1%nat; 0%nat].
(** [response__getsockopt__number_ranges]: src/src/rpc/c_out/response.pb-c.c:677-681. *)
Definition response__getsockopt__number_ranges : list IntRange := [mkRange 1 0; mkRange 0 2].
(** [response__getsockopt__descriptor]: src/src/rpc/c_out/response.pb-c.c:682-696. *)
Definition response__getsockopt__descriptor : MessageDescriptor :=
  mkMessage "Response.Getsockopt" "Getsockopt" "Response__Getsockopt" "Response__Getsockopt" 2
    response__getsockopt__field_descriptors response__getsockopt__field_indices_by_name
    1 response__getsockopt__number_ranges.

(** [response__setsockopt__field_descriptors]: src/src/rpc/c_out/response.pb-c.c:697-723. *)
Definition response__setsockopt__field_descriptors : list FieldDescriptor :=
  [
   mkField "ret" 1 LABEL_REQUIRED TYPE_INT32 None (mkOffset "Response__Setsockopt" "ret") NoSub false;
   mkField "errno_" 2 LABEL_OPTIONAL TYPE_INT32 (Some (mkOffset "Response__Setsockopt" "has_errno_")) (mkOffset "Response__Setsockopt" "errno_") NoSub false
  ].
(** [response__setsockopt__field_indices_by_name]: src/src/rpc/c_out/response.pb-c.c:724-727. *)
Definition response__setsockopt__field_indices_by_name : list nat := [1%nat; 0%nat].
(** [response__setsockopt__number_ranges]: src/src/rpc/c_out/response.pb-c.c:728-732. *)
Definition response__setsockopt__number_ranges : list IntRange := [mkRange 1 0; mkRange 0 2].
(** [response__setsockopt__descriptor]: src/src/rpc/c_out/response.pb-c.c:733-747. *)
Definition response__setsockopt__descriptor : MessageDescriptor :=
  mkMessage "Response.Setsockopt" "Setsockopt" "Response__Setsockopt" "Response__Setsockopt" 2
    response__setsockopt__field_descriptors response__setsockopt__field_indices_by_name
    1 response__setsockopt__number_ranges.

(** [response__fcntl__field_descriptors]: src/src/rpc/c_out/response.pb-c.c:748-774. *)
Definition response__fcntl__field_descriptors : list FieldDescriptor :=
  [
   mkField "ret" 1 LABEL_REQUIRED TYPE_INT32 None (mkOffset "Response__Fcntl" "ret") NoSub false;
   mkField "errno_" 2 LABEL_OPTIONAL TYPE_INT32 (Some (mkOffset "Response__Fcntl" "has_errno_")) (mkOffset "Response__Fcntl" "errno_") NoSub false
  ].
(** [response__fcntl__field_indices_by_name]: src/src/rpc/c_out/response.pb-c.c:775-778. *)
Definition response__fcntl__field_indices_by_name : list nat := [1%nat; 0%nat].
(** [response__fcntl__number_ranges]: src/src/rpc/c_out/response.pb-c.c:779-783. *)
Definition response__fcntl__number_ranges : list IntRange := [mkRange 1 0; mkRange 0 2].
(** [response__fcntl__descriptor]: src/src/rpc/c_out/response.pb-c.c:784-798. *)
Definition response__fcntl__descriptor : MessageDescriptor :=
  mkMessage "Response.Fcntl" "Fcntl" "Response__Fcntl" "Response__Fcntl" 2
    response__fcntl__field_descriptors response__fcntl__field_indices_by_name
    1 response__fcntl__number_ranges.

(** [response__atstart__field_descriptors]: src/src/rpc/c_out/response.pb-c.c:799-825. *)
Definition response__atstart__field_descriptors : list FieldDescriptor :=
  [
   mkField "startfd" 1 LABEL_REQUIRED TYPE_INT32 None (mkOffset "Response__Atstart" "startfd") NoSub false;
   mkField "count" 2 LABEL_OPTIONAL TYPE_INT32 (Some (mkOffset "Response__Atstart" "has_count")) (mkOffset "Response__Atstart" "count") NoSub false
  ].
(** [response__atstart__field_indices_by_name]: src/src/rpc/c_out/response.pb-c.c:826-829. *)
Definition response__atstart__field_indices_by_name : list nat := [1%nat; 0%nat].
(** [response__atstart__number_ranges]: src/src/rpc/c_out/response.pb-c.c:830-834. *)
Definition response__atstart__number_ranges : list IntRange := [mkRange 1 0; mkRange 0 2].
(** [response__atstart__descriptor]: src/src/rpc/c_out/response.pb-c.c:835-849. *)
Definition response__atstart__descriptor : MessageDescriptor :=
  mkMessage "Response.Atstart" "Atstart" "Response__Atstart" "Response__Atstart" 2
    response__atstart__field_descriptors response__atstart__field_indices_by_name
    1 response__atstart__number_ranges.

(** [response__ret_code__enum_values_by_number]: src/src/rpc/c_out/response.pb-c.c:850-855. *)
Definition response__ret_code__enum_values_by_number : list EnumValue := [mkEnumValue "OK" "RESPONSE__RET_CODE__OK" 0; mkEnumValue "ERROR" "RESPONSE__RET_CODE__ERROR" 1; mkEnumValue "WAIT_NEXT" "RESPONSE__RET_CODE__WAIT_NEXT" 2].
(** [response__ret_code__value_ranges]: src/src/rpc/c_out/response.pb-c.c:856-858. *)
Definition response__ret_code__value_ranges : list IntRange := [mkRange 0 0; mkRange 0 3].
(** [response__ret_code__enum_values_by_name]: src/src/rpc/c_out/response.pb-c.c:859-864. *)
Definition response__ret_code__enum_values_by_name : list EnumValueIndex := [mkEnumIndex "ERROR" 1; mkEnumIndex "OK" 0; mkEnumIndex "WAIT_NEXT" 2].
(** [response__ret_code__descriptor]: src/src/rpc/c_out/response.pb-c.c:865-879. *)
Definition response__ret_code__descriptor : EnumDescriptor :=
  mkEnum "Response.RetCode" "RetCode" "Response__RetCode" 3 response__ret_code__enum_values_by_number 3 response__ret_code__enum_values_by_name 1 response__ret_code__value_ranges.
(** [response__field_descriptors]: src/src/rpc/c_out/response.pb-c.c:880-1050. *)
Definition response__field_descriptors : list FieldDescriptor :=
  [
   mkField "socketCall" 1 LABEL_OPTIONAL TYPE_MESSAGE (Some (mkOffset "Response" "returning_case")) (mkOffset "Response" "socketcall") (SubMessage response__socket__descriptor) true;
   mkField "connectCall" 2 LABEL_OPTIONAL TYPE_MESSAGE (Some (mkOffset "Response" "returning_case")) (mkOffset "Response" "connectcall") (SubMessage response__connect__descriptor) true;
   mkField "closeCall" 3 LABEL_OPTIONAL TYPE_MESSAGE (Some (mkOffset "Response" "returning_case")) (mkOffset "Response" "closecall") (SubMessage response__close__descriptor) true;
   mkField "recvfromCall" 4 LABEL_OPTIONAL TYPE_MESSAGE (Some (mkOffset "Response" "returning_case")) (mkOffset "Response" "recvfromcall") (SubMessage response__recvfrom__descriptor) true;
   mkField "sendtoCall" 5 LABEL_OPTIONAL TYPE_MESSAGE (Some (mkOffset "Response" "returning_case")) (mkOffset "Response" "sendtocall") (SubMessage response__sendto__descriptor) true;
   mkField "pollCall" 6 LABEL_OPTIONAL TYPE_MESSAGE (Some (mkOffset "Response" "returning_case")) (mkOffset "Response" "pollcall") (SubMessage response__poll__descriptor) true;
   mkField "selectCall" 7 LABEL_OPTIONAL TYPE_MESSAGE (Some (mkOffset "Response" "returning_case")) (mkOffset "Response" "selectcall") (SubMessage response__select__descriptor) true;
   mkField "getpeernameCall" 8 LABEL_OPTIONAL TYPE_MESSAGE (Some (mkOffset "Response" "returning_case")) (mkOffset "Response" "getpeernamecall") (SubMessage response__getpeername__descriptor) true;
   mkField "getsocknameCall" 9 LABEL_OPTIONAL TYPE_MESSAGE (Some (mkOffset "Response" "returning_case")) (mkOffset "Response" "getsocknamecall") (SubMessage response__getsockname__descriptor) true;
   mkField "getsockoptCall" 10 LABEL_OPTIONAL TYPE_MESSAGE (Some (mkOffset "Response" "returning_case")) (mkOffset "Response" "getsockoptcall") (SubMessage response__getsockopt__descriptor) true;
   mkField "setsockoptCall" 11 LABEL_OPTIONAL TYPE_MESSAGE (Some (mkOffset "Response" "returning_case")) (mkOffset "Response" "setsockoptcall") (SubMessage response__setsockopt__descriptor) true;
   mkField "fcntlCall" 12 LABEL_OPTIONAL TYPE_MESSAGE (Some (mkOffset "Response" "returning_case")) (mkOffset "Response" "fcntlcall") (SubMessage response__fcntl__descriptor) true;
   mkField "retCode" 15 LABEL_REQUIRED TYPE_ENUM None (mkOffset "Response" "retcode") (SubEnum response__ret_code__descriptor) false;
   mkField "atstartAction" 16 LABEL_OPTIONAL TYPE_MESSAGE (Some (mkOffset "Response" "returning_case")) (mkOffset "Response" "atstartaction") (SubMessage response__atstart__descriptor) true
  ].
(** [response__field_indices_by_name]: src/src/rpc/c_out/response.pb-c.c:1051-1066. *)
Definition response__field_indices_by_name : list nat := [13%nat; 2%nat; 1%nat; 11%nat; 7%nat; 8%nat; 9%nat; 5%nat; 3%nat; 12%nat; 6%nat; 4%nat; 10%nat; 0%nat].
(** [response__number_ranges]: src/src/rpc/c_out/response.pb-c.c:1067-1072. *)
Definition response__number_ranges : list IntRange := [mkRange 1 0; mkRange 15 12; mkRange 0 14].
(** [response__descriptor]: src/src/rpc/c_out/response.pb-c.c:1073-1087. *)
Definition response__descriptor : MessageDescriptor :=
  mkMessage "Response" "Response" "Response" "Response" 14
    response__field_descriptors response__field_indices_by_name
    2 response__number_ranges.

Definition all_descriptors : list MessageDescriptor :=
  [ request__socket__descriptor;
    request__connect__descriptor;
    request__close__descriptor;
    request__recvfrom__descriptor;
    request__sendto__descriptor;
    request__poll__descriptor;
    request__select__descriptor;
    request__getpeername__descriptor;
    request__getsockname__descriptor;
    request__getsockopt__descriptor;
    request__setsockopt__descriptor;
    request__fcntl__descriptor;
    request__atstart__descriptor;
    request__descriptor;
    response__socket__descriptor;
    response__connect__descriptor;
    response__close__descriptor;
    response__recvfrom__descriptor;
    response__sendto__descriptor;
    response__poll__descriptor;
    response__select__descriptor;
    response__getpeername__descriptor;
    response__getsockname__descriptor;
    response__getsockopt__descriptor;
    response__setsockopt__descriptor;
    response__fcntl__descriptor;
    response__atstart__descriptor;
    response__descriptor ].

(** ** Initial values

    The [__init] functions store the [__INIT] values of the headers: zeros,
    empty data, every [has_] flag clear. *)

(** [request__socket__init]: src/src/rpc/c_out/request.pb-c.c:12-17. *)
Definition request__socket__init : Calling := CallSocket 0 0 0.
(** [request__connect__init]: src/src/rpc/c_out/request.pb-c.c:18-23. *)
Definition request__connect__init : Calling := CallConnect [].
(** [request__close__init]: src/src/rpc/c_out/request.pb-c.c:24-29. *)
Definition request__close__init : Calling := CallClose.
(** [request__recvfrom__init]: src/src/rpc/c_out/request.pb-c.c:30-35. *)
Definition request__recvfrom__init : Calling := CallRecvfrom 0 0 false.
(** [request__sendto__init]: src/src/rpc/c_out/request.pb-c.c:36-41. *)
Definition request__sendto__init : Calling := CallSendto [] 0 None.
(** [request__poll__init]: src/src/rpc/c_out/request.pb-c.c:42-47. *)
Definition request__poll__init : Calling := CallPoll.
(** [request__select__init]: src/src/rpc/c_out/request.pb-c.c:48-53. *)
Definition request__select__init : Calling := CallSelect.
(** [request__getpeername__init]: src/src/rpc/c_out/request.pb-c.c:54-59. *)
Definition request__getpeername__init : Calling := CallGetpeername.
(** [request__getsockname__init]: src/src/rpc/c_out/request.pb-c.c:60-65. *)
Definition request__getsockname__init : Calling := CallGetsockname.
(** [request__getsockopt__init]: src/src/rpc/c_out/request.pb-c.c:66-71. *)
Definition request__getsockopt__init : Calling := CallGetsockopt.
(** [request__setsockopt__init]: src/src/rpc/c_out/request.pb-c.c:72-77. *)
Definition request__setsockopt__init : Calling := CallSetsockopt.
(** [request__fcntl__init]: src/src/rpc/c_out/request.pb-c.c:78-83. *)
Definition request__fcntl__init : Calling := CallFcntl.
(** [request__atstart__init]: src/src/rpc/c_out/request.pb-c.c:84-89. *)
Definition request__atstart__init : Calling := CallAtstart [].
(** [response__socket__init]: src/src/rpc/c_out/response.pb-c.c:12-17. *)
Definition response__socket__init : Returning := RetSocket (mkRet 0 None).
(** [response__connect__init]: src/src/rpc/c_out/response.pb-c.c:18-23. *)
Definition response__connect__init : Returning := RetConnect (mkRet 0 None).
(** [response__close__init]: src/src/rpc/c_out/response.pb-c.c:24-29. *)
Definition response__close__init : Returning := RetClose (mkRet 0 None).
(** [response__recvfrom__init]: src/src/rpc/c_out/response.pb-c.c:30-35. *)
Definition response__recvfrom__init : Returning := RetRecvfrom (mkRet 0 None) None None.
(** [response__sendto__init]: src/src/rpc/c_out/response.pb-c.c:36-41. *)
Definition response__sendto__init : Returning := RetSendto (mkRet 0 None).
(** [response__poll__init]: src/src/rpc/c_out/response.pb-c.c:42-47. *)
Definition response__poll__init : Returning := RetPoll (mkRet 0 None).
(** [response__select__init]: src/src/rpc/c_out/response.pb-c.c:48-53. *)
Definition response__select__init : Returning := RetSelect (mkRet 0 None).
(** [response__getpeername__init]: src/src/rpc/c_out/response.pb-c.c:54-59. *)
Definition response__getpeername__init : Returning := RetGetpeername (mkRet 0 None) None.
(** [response__getsockname__init]: src/src/rpc/c_out/response.pb-c.c:60-65. *)
Definition response__getsockname__init : Returning := RetGetsockname (mkRet 0 None) None.
(** [response__getsockopt__init]: src/src/rpc/c_out/response.pb-c.c:66-71. *)
Definition response__getsockopt__init : Returning := RetGetsockopt (mkRet 0 None).
(** [response__setsockopt__init]: src/src/rpc/c_out/response.pb-c.c:72-77. *)
Definition response__setsockopt__init : Returning := RetSetsockopt (mkRet 0 None).
(** [response__fcntl__init]: src/src/rpc/c_out/response.pb-c.c:78-83. *)
Definition response__fcntl__init : Returning := RetFcntl (mkRet 0 None).
(** [response__atstart__init]: src/src/rpc/c_out/response.pb-c.c:84-89. *)
Definition response__atstart__init : Returning := RetAtstart 0 None.
(** [request__init]: src/src/rpc/c_out/request.pb-c.c:90-95. *)
Definition request__init : Request := mkRequest 0 None.
(** [response__init]: src/src/rpc/c_out/response.pb-c.c:90-95. *)
Definition response__init : Response := mkResponse (Some RC_OK) None.

Definition calling_inits : list Calling :=
  [request__socket__init; request__connect__init; request__close__init; request__recvfrom__init; request__sendto__init; request__poll__init; request__select__init; request__getpeername__init; request__getsockname__init; request__getsockopt__init; request__setsockopt__init; request__fcntl__init; request__atstart__init].
Definition returning_inits : list Returning :=
  [response__socket__init; response__connect__init; response__close__init; response__recvfrom__init; response__sendto__init; response__poll__init; response__select__init; response__getpeername__init; response__getsockname__init; response__getsockopt__init; response__setsockopt__init; response__fcntl__init; response__atstart__init].

Lemma inits_wf : Forall calling_wf calling_inits ∧ Forall returning_wf returning_inits.
Proof.
  split; repeat constructor; cbn; unfold blob_ok, ret_wf, in_i32; cbn; repeat constructor; lia.
Qed.

(** ** What the runtime relies on

    protobuf-c finds a field by number through [ranges] and by name by a binary
    search over [by_name]. *)

(** The index a table of ranges gives to a number: range [j] covers as many
    numbers as there are indices up to the next range. *)
Fixpoint range_lookup (rs : list IntRange) (n : Z) : option nat :=
  match rs with
  | r :: ((r' :: _) as rest) =>
      if (start_value r <=? n) && (n <? start_value r + (orig_index r' - orig_index r))
      then Some (orig_index r + Z.to_nat (n - start_value r))%nat
      else range_lookup rest n
  | _ => None
  end.

(** The numbers range [r] stands for are those of the fields it points to. *)
Definition range_ok (fs : list FieldDescriptor) (r : IntRange) (stop : nat) : bool :=
  forallb (λ o : nat, bool_decide (f_id <$> fs !! (orig_index r + o)%nat = Some (start_value r + o)))
    (seq 0 (stop - orig_index r)).
Fixpoint ranges_ok (fs : list FieldDescriptor) (rs : list IntRange) : bool :=
  match rs with
  | r :: ((r' :: _) as rest) => range_ok fs r (orig_index r') && ranges_ok fs rest
  | _ => true
  end.

(** Every field's number leads back to its index. *)
Definition ids_found (m : MessageDescriptor) : bool :=
  forallb (λ i, match m_fields m !! i with
                | Some f => bool_decide (range_lookup (m_ranges m) (f_id f) = Some i)
                | None => false
                end) (seq 0 (length (m_fields m))).

Definition names_by_index (m : MessageDescriptor) : list (option string) :=
  (λ i, f_name <$> m_fields m !! i) <$> m_by_name m.

Fixpoint names_sorted (l : list (option string)) : bool :=
  match l with
  | Some a :: ((Some b :: _) as rest) => String.ltb a b && names_sorted rest
  | [Some _] | [] => true
  | _ => false
  end.

(** How the presence of a field is recorded: a [oneof] member by the case tag
    of its struct, an optional field by its [has_] member, a required field not
    at all; and every offset is in the struct the descriptor is for. *)
Definition quantifier_ok (m : MessageDescriptor) (f : FieldDescriptor) : bool :=
  bool_decide (of_struct (f_offset f) = m_sizeof m) &&
  match f_label f, f_quantifier f with
  | LABEL_REQUIRED, None => negb (f_oneof f)
  | LABEL_OPTIONAL, Some q =>
      bool_decide (of_struct q = m_sizeof m) &&
      (if f_oneof f then bool_decide (of_member q = "calling_case" ∨ of_member q = "returning_case")
       else bool_decide (of_member q = ("has_" +:+ of_member (f_offset f))))
  | _, _ => false
  end.

Definition table_ok (m : MessageDescriptor) : bool :=
  bool_decide (length (m_fields m) = m_n_fields m) &&
  bool_decide (length (m_by_name m) = m_n_fields m) &&
  bool_decide (NoDup (m_by_name m)) &&
  ranges_ok (m_fields m) (m_ranges m) && ids_found m &&
  names_sorted (names_by_index m) && forallb (quantifier_ok m) (m_fields m).

Lemma range_lookup_id fs rs n i :
  ranges_ok fs rs = true → range_lookup rs n = Some i → f_id <$> fs !! i = Some n.
Proof.
  induction rs as [|r [|r' rest] IH]; [done|done|]. cbn [ranges_ok range_lookup].
  rewrite andb_true_iff. intros [Hr Hok]. destruct (_ && _) eqn:Hin; [|by apply IH].
  rewrite andb_true_iff, Z.leb_le, Z.ltb_lt in Hin. intros [= <-].
  unfold range_ok in Hr. rewrite forallb_forall in Hr.
  specialize (Hr (Z.to_nat (n - start_value r))). rewrite bool_decide_eq_true in Hr.
  rewrite Hr; [f_equal; lia|]. apply in_seq. lia.
Qed.

Lemma ids_found_lookup m i f :
  ids_found m = true → m_fields m !! i = Some f → range_lookup (m_ranges m) (f_id f) = Some i.
Proof.
  unfold ids_found. rewrite forallb_forall. intros Hall Hi.
  specialize (Hall i). rewrite Hi, bool_decide_eq_true in Hall. apply Hall, in_seq.
  apply lookup_lt_Some in Hi. lia.
Qed.

Lemma all_tables_ok : forallb table_ok all_descriptors = true.
Proof. vm_compute. reflexivity. Qed.

(** ** Messages laid out by a descriptor *)

Definition wire_matches (t : FieldType) (v : wval) : Prop :=
  match t, v with
  | (TYPE_INT32 | TYPE_UINT64 | TYPE_ENUM), WVarint n => 0 ≤ n < 2 ^ 64
  | TYPE_BOOL, WVarint n => n = 0 ∨ n = 1
  | (TYPE_STRING | TYPE_BYTES | TYPE_MESSAGE), WLen _ => True
  | _, _ => False
  end.

(** A list of wire fields is a message of descriptor [m]: every field is one of
    [m]'s with the wire type of its declared type, sub-messages included; every
    required field is there; no field twice. *)
Inductive conforms : MessageDescriptor → list field → Prop :=
  | conforms_fields m fs :
      Forall (conforms_field m) fs →
      Forall (λ f, f_label f = LABEL_REQUIRED → f_id f ∈ fs.*1) (m_fields m) →
      NoDup fs.*1 →
      conforms m fs
with conforms_field : MessageDescriptor → field → Prop :=
  | conforms_scalar m f n v :
      f ∈ m_fields m → f_id f = n → wire_matches (f_type f) v → f_type f ≠ TYPE_MESSAGE →
      conforms_field m (n, v)
  | conforms_message m f n sub fs :
      f ∈ m_fields m → f_id f = n → f_type f = TYPE_MESSAGE → f_sub f = SubMessage sub →
      conforms sub fs → conforms_field m (n, WLen (enc_fields fs)).

Lemma u64_in z : 0 ≤ u64 z < 2 ^ 64.
Proof. apply Z.mod_pos_bound. lia. Qed.

(** The descriptor of each member of the two [oneof]s. *)
Definition calling_descriptor (c : Calling) : MessageDescriptor :=
  match c with
  | CallSocket _ _ _ => request__socket__descriptor
  | CallConnect _ => request__connect__descriptor
  | CallClose => request__close__descriptor
  | CallRecvfrom _ _ _ => request__recvfrom__descriptor
  | CallSendto _ _ _ => request__sendto__descriptor
  | CallPoll => request__poll__descriptor
  | CallSelect => request__select__descriptor
  | CallGetpeername => request__getpeername__descriptor
  | CallGetsockname => request__getsockname__descriptor
  | CallGetsockopt => request__getsockopt__descriptor
  | CallSetsockopt => request__setsockopt__descriptor
  | CallFcntl => request__fcntl__descriptor
  | CallAtstart _ => request__atstart__descriptor
  end.

Definition returning_descriptor (c : Returning) : MessageDescriptor :=
  match c with
  | RetSocket _ => response__socket__descriptor
  | RetConnect _ => response__connect__descriptor
  | RetClose _ => response__close__descriptor
  | RetRecvfrom _ _ _ => response__recvfrom__descriptor
  | RetSendto _ => response__sendto__descriptor
  | RetPoll _ => response__poll__descriptor
  | RetSelect _ => response__select__descriptor
  | RetGetpeername _ _ => response__getpeername__descriptor
  | RetGetsockname _ _ => response__getsockname__descriptor
  | RetGetsockopt _ => response__getsockopt__descriptor
  | RetSetsockopt _ => response__setsockopt__descriptor
  | RetFcntl _ => response__fcntl__descriptor
  | RetAtstart _ _ => response__atstart__descriptor
  end.

(** The field of a number, through the descriptor's own ranges. *)
Ltac scalar :=
  match goal with
  | |- conforms_field ?m (?n, ?v) =>
      let i := eval vm_compute in (default 0%nat (range_lookup (m_ranges m) n)) in
      eapply conforms_scalar; [apply (list_elem_of_lookup_2 _ i); reflexivity|reflexivity
        |cbn; first [apply u64_in|done|vm_compute; auto]|discriminate]
  end.
Ltac message lem :=
  match goal with
  | |- conforms_field ?m (?n, _) =>
      let i := eval vm_compute in (default 0%nat (range_lookup (m_ranges m) n)) in
      eapply conforms_message; [apply (list_elem_of_lookup_2 _ i); reflexivity|reflexivity|reflexivity|reflexivity|];
      match goal with |- conforms _ (_ ?c) => exact (lem c) end
  end.
Ltac conform :=
  apply conforms_fields;
  [ repeat (apply Forall_cons_2; [scalar|]); apply Forall_nil_2
  | repeat (apply Forall_cons_2; [cbn; first [discriminate|intros _; set_solver]|]); apply Forall_nil_2
  | apply (bool_decide_unpack _); vm_compute; exact I ].

Lemma calling_conforms c : conforms (calling_descriptor c) (calling_fields c).
Proof.
  destruct c as [d t p|a| |l f r|b f a| | | | | | | |n]; try (destruct a); try (destruct r);
    cbn [calling_descriptor calling_fields app f_int f_bytes f_opt_bytes]; conform.
Qed.

Lemma returning_conforms c : conforms (returning_descriptor c) (returning_fields c).
Proof.
  destruct c as [r|r|r|r b a|r|r|r|r a|r a|r|r|r|s n]; try (destruct r as [v [e|]]); try (destruct b); try (destruct a);
    try (destruct n);
    cbn [returning_descriptor returning_fields ret_fields ret errno_ app f_int f_bytes f_opt_bytes f_opt_int]; conform.
Qed.

Lemma by_name_perm m : table_ok m = true → m_by_name m ≡ₚ seq 0 (m_n_fields m).
Proof.
  unfold table_ok. rewrite !andb_true_iff, !bool_decide_eq_true.
  intros [[[[[[Hf Hl] Hnd] _] _] Hs] _]. apply submseteq_length_Permutation.
  - apply NoDup_submseteq; [done|]. intros i Hi. apply elem_of_seq. split; [lia|].
    assert (∀ l, names_sorted l = true → Forall is_Some l) as Hsome.
    { clear. induction l as [|[a|] l IH]; intros Hs; [constructor| |by destruct l].
      constructor; [done|]. apply IH. destruct l as [|[b|] l]; [done| |done].
      cbn in Hs. by apply andb_true_iff in Hs as [_ Hs]. }
    apply Hsome in Hs. rewrite Forall_forall in Hs.
    destruct (Hs (f_name <$> m_fields m !! i)) as [n Hn].
    { apply list_elem_of_fmap. eauto. }
    apply fmap_Some in Hn as (f & Hi' & _). apply lookup_lt_Some in Hi'. lia.
  - rewrite length_seq. lia.
Qed.

Lemma request_conforms r : conforms request__descriptor (request_fields r).
Proof.
  unfold request_fields. destruct (calling r) as [c|]; cbn [app f_int f_bytes]; [|conform].
  apply conforms_fields.
  - apply Forall_cons_2; [|apply Forall_cons_2; [scalar|apply Forall_nil_2]].
    destruct c; message calling_conforms.
  - repeat (apply Forall_cons_2; [cbn; first [discriminate|intros _; set_solver]|]); apply Forall_nil_2.
  - destruct c; apply (bool_decide_unpack _); vm_compute; exact I.
Qed.

Lemma response_conforms r : is_Some (retcode r) → conforms response__descriptor (response_fields r).
Proof.
  intros [rc Hrc]. unfold response_fields. rewrite Hrc. destruct (returning r) as [c|]; cbn [app f_int f_opt_int f_bytes fmap option_fmap option_map]; [|conform].
  apply conforms_fields.
  - apply Forall_cons_2; [|apply Forall_cons_2; [scalar|apply Forall_nil_2]].
    destruct c; message returning_conforms.
  - repeat (apply Forall_cons_2; [cbn; first [discriminate|intros _; set_solver]|]); apply Forall_nil_2.
  - destruct c; apply (bool_decide_unpack _); vm_compute; exact I.
Qed.

(** ** Properties *)

(** C32. The generated tables are what the runtime needs: in all 28 message
    descriptors, looking a number up in the ranges gives exactly the index of
    the field with that number, [field_indices_by_name] is a permutation of the
    fields that sorts their names strictly, and each field's presence is
    recorded in the member (case tag or [has_] flag) of the right struct. *)
Theorem descriptor_tables :
  Forall (λ m,
    (∀ n i, range_lookup (m_ranges m) n = Some i ↔ f_id <$> m_fields m !! i = Some n) ∧
    m_by_name m ≡ₚ seq 0 (length (m_fields m)) ∧
    names_sorted (names_by_index m) = true ∧
    Forall (λ f, quantifier_ok m f = true) (m_fields m)) all_descriptors.
Proof.
  apply Forall_forall. intros m Hm. pose proof all_tables_ok as Hall. rewrite forallb_forall in Hall.
  apply list_elem_of_In, Hall in Hm. pose proof (by_name_perm m Hm) as Hp.
  unfold table_ok in Hm. rewrite !andb_true_iff, !bool_decide_eq_true in Hm.
  destruct Hm as [[[[[[Hf Hl] Hnd] Hr] Hi] Hs] Hq]. rewrite Hf. split_and!; [|done|done|].
  - intros n i. split; [by apply range_lookup_id|]. intros (f & Hfi & ->)%fmap_Some. by apply ids_found_lookup.
  - apply Forall_forall. intros f Hin. rewrite forallb_forall in Hq. by apply Hq, list_elem_of_In.
Qed.

(** The instance of [Codec] in Wire.v agrees with the tables: a well-formed request or response
    packs to a message laid out as the generated descriptors declare (every
    field has a declared number and the wire type of its declared type, nested
    messages too; every required field is present; none occurs twice), and
    unpacking it gives the message back. *)
Theorem wire_conforms_roundtrip req resp :
  request_wf req → response_wf resp →
  conforms request__descriptor (request_fields req) ∧
  wire_request_unpack (enc_fields (request_fields req)) = Some req ∧
  conforms response__descriptor (response_fields resp) ∧
  wire_response_unpack (enc_fields (response_fields resp)) = Some resp.
Proof.
  intros Hq Hr. split_and!.
  - apply request_conforms.
  - by apply wire_request_roundtrip.
  - apply response_conforms, Hr.
  - by apply wire_response_roundtrip.
Qed.

Lemma wire_conforms_roundtrip_witness :
  wire_request_unpack (enc_fields (request_fields (mkRequest 7 (Some request__sendto__init)))) =
    Some (mkRequest 7 (Some request__sendto__init)).
Proof.
  apply (wire_conforms_roundtrip (mkRequest 7 (Some request__sendto__init)) response__init).
  - split; cbn; [lia|]. unfold blob_ok, in_i32. cbn. split_and!; lia || constructor.
  - split; cbn; [by eexists|done].
Defined.
