(* ===== verification/Glibc.v ===== *)
(** * The process the interceptor lives in

    The interceptor (src/src/interceptor) keeps a handful of globals and calls
    the next definition of each socket function through
    [struct glibc_socket_funcs glibc_funcs] (interceptor.h:31-69).  Those
    functions belong to glibc and the kernel: they are the class [Glibc] over
    an abstract environment [E].  Memory the caller passes is a capacity for an
    output buffer ([None] is a null pointer) and the list of its bytes for an
    input; what a call stores is part of its result. *)

From S2P Require Import Prelude.

(** What [recv] and its relatives return: the value, the bytes stored in
    [buf], the bytes stored in [src_addr], and [*addrlen] afterwards. *)
Record RecvOut := mkRecv {
  r_ret : Z;
  r_data : list Z;
  r_addr : option (list Z);
  r_addrlen : option Z
}.

(** [getpeername]/[getsockname]: the value, the bytes stored in [addr], and
    [*addrlen] afterwards. *)
Record NameOut := mkName { n_ret : Z; n_addr : list Z; n_addrlen : option Z }.

(** [getsockopt]: the value, the [int] stored in [optval], [*optlen]. *)
Record OptOut := mkOpt { o_ret : Z; o_val : option Z; o_len : option Z }.

Record pollfd := mkPollfd { p_fd : Z; p_events : Z; p_revents : Z }.

(** An [fd_set]: the descriptors in it. *)
Notation fd_set := (gset Z).

Record SelectOut := mkSelect {
  s_ret : Z; s_read : option fd_set; s_write : option fd_set; s_except : option fd_set
}.

(** A call's result and, when it sets it, the new [errno]. *)
Notation sys E A := (E → (A * option Z) * E).

(** The functions of [struct glibc_socket_funcs], and [malloc]:
    src/src/interceptor/interceptor.h:31-67. *)
Class Glibc (E : Type) := {
  (* 1. create/connect/close *)
  g_socket : Z → Z → Z → sys E Z;
  g_connect : Z → list Z → Z → sys E Z;
  g_close : Z → sys E Z;
  (* 2. read/write *)
  g_read : Z → option Z → Z → sys E RecvOut;
  g_write : Z → list Z → Z → sys E Z;
  g_send : Z → list Z → Z → Z → sys E Z;
  g_sendto : Z → list Z → Z → Z → option (list Z) → Z → sys E Z;
  g_recv : Z → option Z → Z → Z → sys E RecvOut;
  g_recvfrom : Z → option Z → Z → Z → option Z → option Z → sys E RecvOut;
  (* 3. poll *)
  g_poll : list pollfd → Z → Z → sys E (Z * list pollfd);
  g_select : Z → option fd_set → option fd_set → option fd_set → option Z → sys E SelectOut;
  (* 4. options *)
  g_getpeername : Z → option Z → option Z → sys E NameOut;
  g_getsockname : Z → option Z → option Z → sys E NameOut;
  g_getsockopt : Z → Z → Z → option Z → option Z → sys E OptOut;
  g_setsockopt : Z → Z → Z → list Z → Z → sys E Z;
  g_fcntl : Z → Z → Z → sys E Z;
  (* malloc: whether the block is granted *)
  g_malloc : Z → E → bool * E
}.

(** The globals: [g_startfd], [g_fd_count], [last_fd_assigned]
    (src/src/interceptor/fdpool.c:37-39), [g_chan_table], [g_proc_chan]
    (src/src/interceptor/fdchanmap.c:33-37), [errno], and the environment. *)
Record Proc (E : Type) := mkProc {
  g_startfd : Z;
  g_fd_count : Z;
  last_fd_assigned : Z;
  g_chan_table : option (list Z);
  g_proc_chan : Z;
  errno : Z;
  self_pid : Z;
  short_name : list Z;     (* program_invocation_short_name *)
  env : E
}.
Arguments mkProc {E}.
Arguments g_startfd {E}. Arguments g_fd_count {E}. Arguments last_fd_assigned {E}.
Arguments g_chan_table {E}. Arguments g_proc_chan {E}. Arguments errno {E}.
Arguments self_pid {E}. Arguments short_name {E}. Arguments env {E}.

Section proc.
Context {E : Type}.

Definition set_range (start count last : Z) (p : Proc E) : Proc E :=
  mkProc start count last (g_chan_table p) (g_proc_chan p) (errno p) (self_pid p) (short_name p) (env p).
Definition set_last (v : Z) (p : Proc E) : Proc E :=
  mkProc (g_startfd p) (g_fd_count p) v (g_chan_table p) (g_proc_chan p) (errno p) (self_pid p) (short_name p) (env p).
Definition set_chan_table (v : option (list Z)) (p : Proc E) : Proc E :=
  mkProc (g_startfd p) (g_fd_count p) (last_fd_assigned p) v (g_proc_chan p) (errno p) (self_pid p) (short_name p) (env p).
Definition set_proc_chan (v : Z) (p : Proc E) : Proc E :=
  mkProc (g_startfd p) (g_fd_count p) (last_fd_assigned p) (g_chan_table p) v (errno p) (self_pid p) (short_name p) (env p).
Definition set_errno (v : Z) (p : Proc E) : Proc E :=
  mkProc (g_startfd p) (g_fd_count p) (last_fd_assigned p) (g_chan_table p) (g_proc_chan p) v (self_pid p) (short_name p) (env p).
Definition set_env (v : E) (p : Proc E) : Proc E :=
  mkProc (g_startfd p) (g_fd_count p) (last_fd_assigned p) (g_chan_table p) (g_proc_chan p) (errno p) (self_pid p) (short_name p) v.

(** A glibc call made by the process. *)
Definition syscall {A} (f : sys E A) : M (Proc E) A := λ p,
  let '((a, en), e) := f (env p) in
  let p := set_env e p in
  Ok (a, match en with Some n => set_errno n p | None => p end).

Definition malloc_ok `{Glibc E} (n : Z) : M (Proc E) bool := λ p,
  let '(b, e) := g_malloc n (env p) in Ok (b, set_env e p).

Lemma syscall_eq {A} (f : sys E A) p a en e :
  f (env p) = ((a, en), e) →
  syscall f p = Ok (a, match en with Some n => set_errno n (set_env e p) | None => set_env e p end).
Proof. intros H. unfold syscall. by rewrite H. Qed.

(** Everything but [errno] and the environment. *)
Definition same_globals (p q : Proc E) : Prop :=
  g_startfd p = g_startfd q ∧ g_fd_count p = g_fd_count q ∧
  last_fd_assigned p = last_fd_assigned q ∧ g_chan_table p = g_chan_table q ∧
  g_proc_chan p = g_proc_chan q ∧ self_pid p = self_pid q ∧ short_name p = short_name q.

#[global] Instance same_globals_equiv : Equivalence same_globals.
Proof. unfold same_globals. split; repeat intro; naive_solver congruence. Qed.

Lemma same_globals_errno v p : same_globals p (set_errno v p).
Proof. done. Qed.
Lemma same_globals_env v p : same_globals p (set_env v p).
Proof. done. Qed.

(** A glibc call leaves the interceptor's globals alone. *)
Lemma syscall_globals {A} (f : sys E A) p a p' :
  syscall f p = Ok (a, p') → same_globals p p'.
Proof.
  unfold syscall. destruct (f (env p)) as [[a' en] e]. destruct en; intros [= <- <-]; done.
Qed.
End proc.

#[export] Hint Resolve same_globals_errno same_globals_env syscall_globals : velox.
