(* ===== verification/Script.v ===== *)
(** * A scripted environment

    A concrete instance of [Glibc] for the witnesses: reads return the messages
    of a script in order and fail when it is exhausted, writes are logged and
    complete, [poll] and [select] return the scripted answer. *)

From S2P Require Import Prelude Rpc Wire Glibc.

Record script := mkScript {
  sc_reads : list (list Z);             (* messages still to be read *)
  sc_log : list (Z * list Z);           (* descriptor and bytes of each write *)
  sc_next_fd : Z;                       (* next descriptor [socket] returns *)
  sc_poll : Z * list pollfd;            (* answer of the next [poll] *)
  sc_select : SelectOut
}.

Definition sc_ok (v : Z) : sys script Z := λ e, ((v, None), e).

Definition sc_read_bytes : sys script RecvOut := λ e,
  match sc_reads e with
  | [] => ((mkRecv (-1) [] None None, Some 4), e)
  | bs :: r => ((mkRecv (length bs) bs None None, None),
                mkScript r (sc_log e) (sc_next_fd e) (sc_poll e) (sc_select e))
  end.

Definition sc_write_bytes (fd : Z) (bs : list Z) : sys script Z := λ e,
  ((Z.of_nat (length bs), None),
   mkScript (sc_reads e) (sc_log e ++ [(fd, bs)]) (sc_next_fd e) (sc_poll e) (sc_select e)).

#[global] Instance script_glibc : Glibc script := {
  g_socket := λ _ _ _ e, ((sc_next_fd e, None),
      mkScript (sc_reads e) (sc_log e) (sc_next_fd e + 1) (sc_poll e) (sc_select e));
  g_connect := λ _ _ _, sc_ok 0;
  g_close := λ _, sc_ok 0;
  g_read := λ _ _ _, sc_read_bytes;
  g_write := λ fd bs _, sc_write_bytes fd bs;
  g_send := λ fd bs _ _, sc_write_bytes fd bs;
  g_sendto := λ fd bs _ _ _ _, sc_write_bytes fd bs;
  g_recv := λ _ _ _ _, sc_read_bytes;
  g_recvfrom := λ _ _ _ _ _ _, sc_read_bytes;
  g_poll := λ _ _ _ e, ((sc_poll e, None), e);
  g_select := λ _ _ _ _ _ e, ((sc_select e, None), e);
  g_getpeername := λ _ _ l e, ((mkName 0 [] l, None), e);
  g_getsockname := λ _ _ l e, ((mkName 0 [] l, None), e);
  g_getsockopt := λ _ _ _ _ l e, ((mkOpt 0 None l, None), e);
  g_setsockopt := λ _ _ _ _ _, sc_ok 0;
  g_fcntl := λ _ _ _, sc_ok 0;
  g_malloc := λ _ e, (true, e)
}.

#[global] Existing Instance wire_codec.
#[global] Existing Instance wire_codec_laws.

Definition no_select : SelectOut := mkSelect 0 None None None.

(** A process with pool [4096, 4096 + count), the given table, and a script of
    responses. *)
Definition sample_proc (count last : Z) (table : list Z) (rs : list Response) : Proc script :=
  mkProc 4096 count last (Some table) 3 0 77 [99; 117; 114; 108]
    (mkScript (response_pack <$> rs) [] 10 (0, []) no_select).

Definition answer (r : Returning) : Response := mkResponse (Some RC_OK) (Some r).
Definition wait_next (r : Returning) : Response := mkResponse (Some RC_WAIT_NEXT) (Some r).
