(* ===== verification/Channel.v ===== *)
(** * Request/response channels (src/src/interceptor/req-resp-channel.c)

    A channel is a SEQPACKET socket to the daemon; [chan_send] packs and
    writes one message, [chan_recv] reads messages until one is not
    [WAIT_NEXT]. *)

From S2P Require Import Prelude Rpc Glibc.

Definition AF_UNIX : Z := 1.
Definition AF_INET : Z := 2.
Definition SOCK_STREAM : Z := 1.
Definition SOCK_DGRAM : Z := 2.
Definition SOCK_SEQPACKET : Z := 5.
Definition SOCK_NONBLOCK : Z := 2048.

(** ["/run/veloxd/master.socket"] (src/src/rpc/rpc.h:26-27) in the 108-byte
    [sun_path] of a zeroed [sockaddr_un] with its family. *)
Definition master_path : list Z :=
  [47; 114; 117; 110; 47; 118; 101; 108; 111; 120; 100; 47;
   109; 97; 115; 116; 101; 114; 46; 115; 111; 99; 107; 101; 116].
Definition master_addr : list Z :=
  le_bytes 2 AF_UNIX ++ master_path ++ replicate (108 - length master_path) 0.

Section channel.
Context {E : Type} `{Glibc E} `{Codec}.

(** [open_chan]: src/src/interceptor/req-resp-channel.c:44-78. *)
Definition open_chan : M (Proc E) Z :=
  sockfd ← syscall (g_socket AF_UNIX SOCK_SEQPACKET 0);
  if sockfd =? -1 then fail ExitFailure else
  ret ← syscall (g_connect sockfd master_addr 110);
  if ret =? -1 then fail ExitFailure else
  mret sockfd.

(** [chan_send]: src/src/interceptor/req-resp-channel.c:80-101.
    [request__get_packed_size] is the length of what [request__pack]
    writes. *)
Definition chan_send (ch : Z) (req : Request) : M (Proc E) unit :=
  let buf := request_pack req in
  let bufsize : Z := length buf in
  _ ← assert_ (bufsize <=? RPC_MESSAGE_MAX_SIZE);
  nwritten ← syscall (g_write ch buf bufsize);
  assert_ (nwritten =? bufsize).

(** [WHILE_EINTR(nread = glibc_funcs.read(ch, buf, MAX))]:
    src/src/interceptor/req-resp-channel.c:35-42 and 116-123: any error is
    retried, not only [EINTR]. *)
Fixpoint read_retry (fuel : nat) (ch : Z) : M (Proc E) RecvOut :=
  r ← syscall (g_read ch (Some RPC_MESSAGE_MAX_SIZE) RPC_MESSAGE_MAX_SIZE);
  if r_ret r =? -1 then
    match fuel with O => fail OutOfFuel | S fuel => read_retry fuel ch end
  else mret r.

(** [resp->retcode == RESPONSE__RET_CODE__WAIT_NEXT]. *)
Definition is_wait_next (resp : Response) : bool :=
  match retcode resp with Some RC_WAIT_NEXT => true | _ => false end.

(** [chan_recv]: src/src/interceptor/req-resp-channel.c:103-135.  The fuel
    bounds the messages read (outer loop) and the retries of each read. *)
Fixpoint chan_recv_loop (fuel retries : nat) (ch : Z) : M (Proc E) Response :=
  r ← read_retry retries ch;
  _ ← assert_ (negb (r_ret r =? 0));
  resp ← deref (response_unpack (take (Z.to_nat (r_ret r)) (r_data r)));
  if is_wait_next resp then
    match fuel with O => fail OutOfFuel | S fuel => chan_recv_loop fuel retries ch end
  else mret resp.

(** ** What the environment does on one read *)

(** The environment answers a read of [ch] with the bytes [bs]. *)
Definition reads (ch : Z) (e : E) (bs : list Z) (e' : E) : Prop :=
  ∃ en a l, g_read ch (Some RPC_MESSAGE_MAX_SIZE) RPC_MESSAGE_MAX_SIZE e =
    ((mkRecv (length bs) bs a l, en), e').

(** [n] failed reads, then the bytes [bs]. *)
Inductive reads_after (ch : Z) : nat → E → list Z → E → Prop :=
  | reads_now e bs e' : reads ch e bs e' → reads_after ch 0 e bs e'
  | reads_fail n e out en e1 bs e' :
      g_read ch (Some RPC_MESSAGE_MAX_SIZE) RPC_MESSAGE_MAX_SIZE e = ((out, en), e1) →
      r_ret out = -1 → reads_after ch n e1 bs e' → reads_after ch (S n) e bs e'.

(** [k] messages whose code is [WAIT_NEXT], then the message [resp], every
    read failing at most [n] times first. *)
Inductive delivers (ch : Z) (n : nat) : nat → E → Response → E → Prop :=
  | delivers_last m e resp e' :
      (m ≤ n)%nat → reads_after ch m e (response_pack resp) e' → response_wf resp →
      is_wait_next resp = false → delivers ch n 0 e resp e'
  | delivers_wait m k e w e1 resp e' :
      (m ≤ n)%nat → reads_after ch m e (response_pack w) e1 → response_wf w →
      is_wait_next w = true → delivers ch n k e1 resp e' →
      delivers ch n (S k) e resp e'.

Lemma read_retry_spec ch m e bs e' : reads_after ch m e bs e' →
  ∀ n p, (m ≤ n)%nat → env p = e →
  ∃ p' a l, read_retry n ch p = Ok (mkRecv (length bs) bs a l, p') ∧ same_globals p p' ∧ env p' = e'.
Proof.
  induction 1 as [e bs e' (en & a & l & Hr)|m e out en e1 bs e' Hr Hm1 _ IH]; intros n p Hn <-.
  - exists (match en with Some n => set_errno n (set_env e' p) | None => set_env e' p end), a, l.
    split; [|by destruct en].
    destruct n; cbn [read_retry]; unfold mbind, M_bind; rewrite (syscall_eq _ _ _ _ _ Hr);
      cbn [r_ret]; rewrite (proj2 (Z.eqb_neq _ _)) by lia; done.
  - destruct n as [|n]; [lia|]. set (p1 := match en with Some n => set_errno n (set_env e1 p) | None => set_env e1 p end).
    destruct (IH n p1 ltac:(lia)) as (p' & a & l & Hrun & Hg & He); [by destruct en|].
    exists p', a, l. split; [|split; [|done]].
    + cbn [read_retry]. unfold mbind, M_bind. rewrite (syscall_eq _ _ _ _ _ Hr), Hm1. done.
    + etrans; [|exact Hg]. subst p1. by destruct en.
Qed.

Lemma chan_recv_loop_spec `{!CodecLaws} ch n k e resp e' : delivers ch n k e resp e' →
  ∀ fuel p, (k ≤ fuel)%nat → env p = e →
  ∃ p', chan_recv_loop fuel n ch p = Ok (resp, p') ∧ same_globals p p' ∧ env p' = e'.
Proof.
  intros Hd. induction Hd as [m e resp e' Hm Hr Hwf Hne|m k e w e1 resp e' Hm Hr Hwf Hwait _ IH];
    intros fuel p Hk He.
  - destruct (read_retry_spec _ _ _ _ _ Hr n p Hm He) as (p' & a & l & Hrun & Hg & He').
    exists p'. split; [|done].
    destruct fuel; cbn [chan_recv_loop]; unfold mbind at 1, M_bind at 1; rewrite Hrun; cbn [r_ret r_data];
      (rewrite (proj2 (Z.eqb_neq _ _)); [|pose proof (response_pack_nonempty resp Hwf); destruct (response_pack resp); [done|cbn; lia]]);
      rewrite Nat2Z.id, firstn_all, response_roundtrip by done; run_m; by rewrite Hne.
  - destruct fuel as [|fuel]; [lia|].
    destruct (read_retry_spec _ _ _ _ _ Hr n p Hm He) as (p1 & a & l & Hrun & Hg & He1).
    destruct (IH fuel p1 ltac:(lia) He1) as (p' & Hrun' & Hg' & He').
    exists p'. split; [|split; [by etrans|done]].
    cbn [chan_recv_loop]. unfold mbind at 1, M_bind at 1. rewrite Hrun. cbn [r_ret r_data].
    rewrite (proj2 (Z.eqb_neq _ _)).
    2: { pose proof (response_pack_nonempty w Hwf). destruct (response_pack w); [done|cbn; lia]. }
    rewrite Nat2Z.id, firstn_all, response_roundtrip by done. run_m. by rewrite Hwait.
Qed.
End channel.
