(* ===== verification/FdPool.v ===== *)
(** * The descriptor pool and the descriptor-to-channel table

    src/src/interceptor/fdpool.c hands out descriptors from the range the
    daemon assigned at start-up; src/src/interceptor/fdchanmap.c maps each of
    them to its channel through the array [g_chan_table]. *)

From S2P Require Import Prelude Rpc Glibc Channel.

Section fdpool.
Context {E : Type} `{Glibc E} `{Codec}.
Context (fuel retries : nat).   (* messages and failed reads chan_recv may see *)

(** [get_proc_chan]: src/src/interceptor/fdchanmap.c:72-76. *)
Definition get_proc_chan : M (Proc E) Z := gets g_proc_chan.

(** [is_assigned_by_velox]: src/src/interceptor/fdpool.c:92-96. *)
Definition is_assigned_by_velox (p : Proc E) (fd : Z) : bool :=
  (g_startfd p <=? fd) && (fd <? g_startfd p + g_fd_count p).

(** [next_avail_fd]: src/src/interceptor/fdpool.c:98-103. *)
Definition next_avail_fd : M (Proc E) Z :=
  p ← get_st;
  _ ← assert_ (last_fd_assigned p <? g_startfd p + g_fd_count p - 1);
  _ ← put_st (set_last (last_fd_assigned p + 1) p);
  mret (last_fd_assigned p + 1).

(** [reserve_fd_range]: src/src/interceptor/fdpool.c:105-110: [malloc] is not
    checked before [memset]. *)
Definition reserve_fd_range : M (Proc E) unit :=
  p ← get_st;
  ok ← malloc_ok (u64 (4 * g_fd_count p));
  if ok : bool then modify (set_chan_table (Some (replicate (Z.to_nat (g_fd_count p)) 0)))
  else fail NullDeref.

(** [chan_recv] with the development's fuel. *)
Definition chan_recv (ch : Z) : M (Proc E) Response := chan_recv_loop fuel retries ch.

(** [ask_veloxd_fd_range]: src/src/interceptor/fdpool.c:43-90. *)
Definition ask_veloxd_fd_range : M (Proc E) unit :=
  ch ← get_proc_chan;
  p ← get_st;
  let req := mkRequest (self_pid p) (Some (CallAtstart (short_name p))) in
  _ ← chan_send ch req;
  resp ← chan_recv ch;
  match returning resp with
  | Some (RetAtstart startfd count) =>
      let count := default 0 count in
      _ ← modify (set_range startfd count (startfd - 1));
      _ ← assert_ (negb (startfd =? 0));
      _ ← assert_ (negb (count =? 0));
      reserve_fd_range
  | Some _ => fail OutOfBounds
  | None => fail NullDeref
  end.

(** [chanmap_init]: src/src/interceptor/fdchanmap.c:39-52. *)
Definition chanmap_init : M (Proc E) unit :=
  ch ← open_chan;
  _ ← modify (set_proc_chan ch);
  ask_veloxd_fd_range.

(** The element of [g_chan_table] a descriptor selects. *)
Definition chan_index (p : Proc E) (fd : Z) : res (list Z * nat) :=
  match g_chan_table p with
  | None => Fault NullDeref
  | Some t => let i := fd - g_startfd p in
              if in_range i 1 (length t) then Ok (t, Z.to_nat i) else Fault OutOfBounds
  end.

(** [fd_chanmap]: src/src/interceptor/fdchanmap.c:54-58. *)
Definition fd_chanmap (fd : Z) : M (Proc E) Z := λ p,
  '(t, i) ← chan_index p fd; Ok (nth i t 0, p).

(** [set_fd_chanmap]: src/src/interceptor/fdchanmap.c:60-64. *)
Definition set_fd_chanmap (fd ch : Z) : M (Proc E) unit := λ p,
  '(t, i) ← chan_index p fd; Ok (tt, set_chan_table (Some (<[i := ch]> t)) p).

(** [unset_fd_chanmap]: src/src/interceptor/fdchanmap.c:66-70. *)
Definition unset_fd_chanmap (fd ch : Z) : M (Proc E) unit := λ p,
  '(t, i) ← chan_index p fd; Ok (tt, set_chan_table (Some (<[i := 0]> t)) p).

(** ** The pool's invariant *)

Record proc_inv (p : Proc E) : Prop := {
  inv_start : 0 < g_startfd p;
  inv_count : 0 < g_fd_count p;
  inv_last : g_startfd p - 1 ≤ last_fd_assigned p < g_startfd p + g_fd_count p;
  inv_table : ∃ t, g_chan_table p = Some t ∧ Z.of_nat (length t) = g_fd_count p
}.

Lemma proc_inv_same p q : same_globals p q → proc_inv p → proc_inv q.
Proof.
  intros (E1&E2&E3&E4&_) [? ? ? ?]. split; rewrite <-?E1, <-?E2, <-?E3, <-?E4; done.
Qed.

Lemma is_assigned_spec p fd :
  is_assigned_by_velox p fd = true ↔ g_startfd p ≤ fd < g_startfd p + g_fd_count p.
Proof. unfold is_assigned_by_velox. rewrite andb_true_iff, Z.leb_le, Z.ltb_lt. done. Qed.

Lemma chan_index_ok p fd :
  proc_inv p → is_assigned_by_velox p fd = true →
  ∃ t, g_chan_table p = Some t ∧ Z.of_nat (length t) = g_fd_count p ∧
       (Z.to_nat (fd - g_startfd p) < length t)%nat ∧
       chan_index p fd = Ok (t, Z.to_nat (fd - g_startfd p)).
Proof.
  intros Hi (?&?)%is_assigned_spec. destruct (inv_table _ Hi) as (t & Ht & Hl).
  exists t. repeat split; [done|done|lia|]. unfold chan_index. rewrite Ht.
  replace (in_range _ _ _) with true; [done|]. symmetry. apply in_range_true. lia.
Qed.

(** The channel of a descriptor, as the abstract map the table implements. *)
Definition chan_of (p : Proc E) (fd : Z) : option Z :=
  if is_assigned_by_velox p fd
  then t ← g_chan_table p; t !! Z.to_nat (fd - g_startfd p)
  else None.

Lemma fd_chanmap_ok p fd c : proc_inv p → chan_of p fd = Some c → fd_chanmap fd p = Ok (c, p).
Proof.
  intros Hi Hc. unfold chan_of in Hc. destruct (is_assigned_by_velox p fd) eqn:Ha; [|done].
  destruct (chan_index_ok p fd Hi Ha) as (t & Ht & _ & Hlt & Hx).
  rewrite Ht in Hc. cbn in Hc. unfold fd_chanmap. rewrite Hx. cbn.
  by rewrite (nth_lookup_Some _ _ _ _ Hc).
Qed.

Lemma chan_of_is_Some p fd : proc_inv p →
  is_Some (chan_of p fd) ↔ is_assigned_by_velox p fd = true.
Proof.
  intros Hi. unfold chan_of. destruct (is_assigned_by_velox p fd) eqn:Ha.
  - split; [done|intros _]. destruct (chan_index_ok p fd Hi Ha) as (t & Ht & _ & Hlt & _).
    rewrite Ht. cbn. by apply lookup_lt_is_Some.
  - split; [by intros [? ?]|done].
Qed.

Lemma chan_of_same p q fd : same_globals p q → chan_of p fd = chan_of q fd.
Proof.
  intros (E1&E2&_&E4&_). unfold chan_of, is_assigned_by_velox. by rewrite E1, E2, E4.
Qed.

(** Writing an entry: the map update. *)
Lemma table_update p fd v : proc_inv p → is_assigned_by_velox p fd = true →
  ∃ t, chan_index p fd = Ok (t, Z.to_nat (fd - g_startfd p)) ∧
    let p' := set_chan_table (Some (<[Z.to_nat (fd - g_startfd p) := v]> t)) p in
    proc_inv p' ∧ chan_of p' fd = Some v ∧ ∀ fd', fd' ≠ fd → chan_of p' fd' = chan_of p fd'.
Proof.
  intros Hi Ha. destruct (chan_index_ok p fd Hi Ha) as (t & Ht & Hl & Hlt & Hx).
  exists t. split; [done|]. split; [|split].
  - destruct Hi as [? ? ? _]. split; try done. eexists. split; [reflexivity|]. by rewrite length_insert.
  - unfold chan_of, is_assigned_by_velox. cbn. unfold is_assigned_by_velox in Ha. rewrite Ha.
    by apply list_lookup_insert_eq.
  - intros fd' Hne. unfold chan_of, is_assigned_by_velox. cbn. rewrite Ht. cbn.
    destruct (_ && _) eqn:Ha'; [|done]. apply andb_true_iff in Ha' as [?%Z.leb_le ?%Z.ltb_lt].
    apply is_assigned_spec in Ha. apply list_lookup_insert_ne. lia.
Qed.

Lemma set_fd_chanmap_ok p fd ch : proc_inv p → is_assigned_by_velox p fd = true →
  ∃ p', set_fd_chanmap fd ch p = Ok (tt, p') ∧ proc_inv p' ∧ chan_of p' fd = Some ch ∧
        (∀ fd', fd' ≠ fd → chan_of p' fd' = chan_of p fd') ∧ env p' = env p ∧
        last_fd_assigned p' = last_fd_assigned p ∧ self_pid p' = self_pid p ∧
        g_startfd p' = g_startfd p ∧ g_fd_count p' = g_fd_count p.
Proof.
  intros Hi Ha. destruct (table_update p fd ch Hi Ha) as (t & Hx & Hi' & Hc & Ho).
  eexists. unfold set_fd_chanmap. rewrite Hx. split; [reflexivity|]. split_and!; done.
Qed.

Lemma unset_fd_chanmap_ok p fd ch : proc_inv p → is_assigned_by_velox p fd = true →
  ∃ p', unset_fd_chanmap fd ch p = Ok (tt, p') ∧ proc_inv p' ∧ chan_of p' fd = Some 0 ∧
        (∀ fd', fd' ≠ fd → chan_of p' fd' = chan_of p fd') ∧ env p' = env p ∧
        last_fd_assigned p' = last_fd_assigned p ∧ self_pid p' = self_pid p ∧
        g_startfd p' = g_startfd p ∧ g_fd_count p' = g_fd_count p ∧ errno p' = errno p.
Proof.
  intros Hi Ha. destruct (table_update p fd 0 Hi Ha) as (t & Hx & Hi' & Hc & Ho).
  eexists. unfold unset_fd_chanmap. rewrite Hx. split; [reflexivity|]. split_and!; done.
Qed.

Lemma next_avail_fd_eq p :
  next_avail_fd p =
    if last_fd_assigned p <? g_startfd p + g_fd_count p - 1
    then Ok (last_fd_assigned p + 1, set_last (last_fd_assigned p + 1) p) else Fault AssertFail.
Proof. unfold next_avail_fd. run_m. by destruct (_ <? _). Qed.

Lemma next_avail_fd_inv p fd p' : proc_inv p → next_avail_fd p = Ok (fd, p') →
  proc_inv p' ∧ fd = last_fd_assigned p + 1 ∧ last_fd_assigned p' = fd ∧
  is_assigned_by_velox p' fd = true ∧ (∀ x, chan_of p' x = chan_of p x) ∧ env p' = env p.
Proof.
  intros Hi. rewrite next_avail_fd_eq. destruct (Z.ltb_spec (last_fd_assigned p) (g_startfd p + g_fd_count p - 1));
    [|done]. intros [= <- <-]. destruct Hi as [? ? ? ?]. split_and!; try done.
  - split; cbn; done || lia.
  - apply is_assigned_spec. cbn. lia.
Qed.
End fdpool.

#[export] Hint Resolve proc_inv_same : velox.
