(* ===== verification/Interceptor.v ===== *)
(** * The interposed socket calls (src/src/interceptor/interceptor.c)

    One definition per interposed function, in the source's order.  A call on
    a descriptor outside the pool goes to glibc unchanged; a call on a pool
    descriptor becomes one request and one response on the descriptor's
    channel, or is answered locally ([poll], [select], the option calls). *)

From S2P Require Import Prelude Rpc Glibc Channel FdPool.

Definition sizeof_sockaddr_in : Z := 16.
Definition ENOMEM : Z := 12.
Definition EINVAL : Z := 22.
Definition ENOPROTOOPT : Z := 92.
Definition SOL_SOCKET : Z := 1.
Definition SO_ERROR : Z := 4.
Definition F_GETFD : Z := 1.
Definition F_SETFD : Z := 2.
Definition F_GETFL : Z := 3.
Definition F_SETFL : Z := 4.
Definition O_RDWR : Z := 2.
Definition POLLIN : Z := 1.
Definition POLLPRI : Z := 2.
Definition POLLOUT : Z := 4.
Definition POLLERR : Z := 8.
Definition POLLHUP : Z := 16.
Definition POLLNVAL : Z := 32.
Definition POLLRDHUP : Z := 8192.
Definition FD_SETSIZE : Z := 1024.

Section interceptor.
Context {E : Type} `{Glibc E} `{Codec}.
Context (fuel retries : nat).

Notation chan_recv := (chan_recv fuel retries).

(** [INTERCEPTOR_RETURN__RET_AND_ERRNO]:
    src/src/interceptor/interceptor.c:47-63. *)
Definition return_ret_errno (r : RetErr) : M (Proc E) Z :=
  if negb (ret r =? -1) then mret (ret r) else
  match errno_ r with
  | None => fail AssertFail
  | Some e => _ ← modify (set_errno e); mret (-1)
  end.

(** [chan_send(fd_chanmap(fd), &req); chan_recv(fd_chanmap(fd), &resp);] with
    [req.pid = getpid()], as every call does: the shape of
    src/src/interceptor/interceptor.c:179-192. *)
Definition rpc (fd : Z) (c : Calling) : M (Proc E) Response :=
  pid ← gets self_pid;
  ch ← fd_chanmap fd;
  _ ← chan_send ch (mkRequest pid (Some c));
  ch ← fd_chanmap fd;
  chan_recv ch.

(** ** 1. create/connect/close *)

(** [socket]: src/src/interceptor/interceptor.c:76-158. *)
Definition socket (domain type protocol : Z) : M (Proc E) Z :=
  if negb (domain =? AF_INET) then syscall (g_socket domain type protocol) else
  if negb (has_bits type SOCK_STREAM) && negb (has_bits type SOCK_DGRAM)
  then syscall (g_socket domain type protocol) else
  connfd ← next_avail_fd;
  connCh ← open_chan;
  _ ← set_fd_chanmap connfd connCh;
  pid ← gets self_pid;
  _ ← chan_send connCh (mkRequest pid (Some (CallSocket domain type protocol)));
  resp ← chan_recv connCh;
  match returning resp with
  | Some (RetSocket r) =>
      if negb (ret r =? -1) then mret connfd else
      match errno_ r with
      | None => fail AssertFail
      | Some e => _ ← modify (set_errno e); mret (-1)
      end
  | _ => fail AssertFail
  end.

(** [connect]: src/src/interceptor/interceptor.c:160-199. *)
Definition connect (sockfd : Z) (addr : list Z) (addrlen : Z) : M (Proc E) Z :=
  p ← get_st;
  if negb (is_assigned_by_velox p sockfd) then syscall (g_connect sockfd addr addrlen) else
  _ ← assert_ (addrlen =? sizeof_sockaddr_in);
  addBytes ← lift_res (of_option OutOfBounds (slice addr 0 addrlen));
  resp ← rpc sockfd (CallConnect addBytes);
  match returning resp with
  | Some (RetConnect r) => return_ret_errno r
  | _ => fail AssertFail
  end.

(** [close]: src/src/interceptor/interceptor.c:201-238.  [close_chan]
    (req-resp-channel.c:137-141) calls the interposed [close] on the channel,
    hence the recursion, bounded by [n]. *)
Fixpoint close (n : nat) (fd : Z) : M (Proc E) Z :=
  p ← get_st;
  if negb (is_assigned_by_velox p fd) then syscall (g_close fd) else
  resp ← rpc fd CallClose;
  match returning resp with
  | Some (RetClose r) =>
      ch ← fd_chanmap fd;
      ch' ← fd_chanmap fd;
      _ ← unset_fd_chanmap fd ch';
      _ ← match n with O => fail OutOfFuel | S n => close n ch end;
      return_ret_errno r
  | _ => fail AssertFail
  end.

(** ** 2. read/write *)

(** [sendto]: src/src/interceptor/interceptor.c:272-326.  [buf] is the bytes
    behind the pointer, [None] a null pointer; [dest_addr] likewise. *)
Definition sendto (sockfd : Z) (buf : option (list Z)) (len flags : Z)
    (dest_addr : option (list Z)) (addrlen : Z) : M (Proc E) Z :=
  p ← get_st;
  if negb (is_assigned_by_velox p sockfd)
  then syscall (g_sendto sockfd (default [] buf) len flags dest_addr addrlen) else
  match buf with
  | None => mret 0
  | Some buf =>
      if len =? 0 then mret 0 else
      data ← lift_res (of_option OutOfBounds (slice buf 0 len));
      addr ← match dest_addr with
             | None => mret None
             | Some a =>
                 _ ← assert_ (addrlen =? sizeof_sockaddr_in);
                 a ← lift_res (of_option OutOfBounds (slice a 0 addrlen));
                 mret (Some a)
             end;
      resp ← rpc sockfd (CallSendto data flags addr);
      match returning resp with
      | Some (RetSendto r) => return_ret_errno r
      | _ => fail AssertFail
      end
  end.

(** The end of [recvfrom], which stores what the response has:
    src/src/interceptor/interceptor.c:379-399. *)
Definition recvfrom_result (cap : Z) (src_addr addrlen : option Z) (resp : Response) : M (Proc E) RecvOut :=
  match returning resp with
  | Some (RetRecvfrom r rbuf raddr) =>
      (* memcpy(buf, buf_bytes.data, buf_bytes.len) *)
      data ← (if 0 <? ret r then
                let d := default [] rbuf in
                if Z.of_nat (length d) <=? cap then mret d else fail OutOfBounds
              else mret []);
      (* memcpy(src_addr, addr_bytes.data, 16); *addrlen = 16 *)
      '(a, l) ← match src_addr, raddr with
                | Some acap, Some ab =>
                    if 0 <? ret r then
                      ab ← lift_res (of_option OutOfBounds (slice ab 0 sizeof_sockaddr_in));
                      if sizeof_sockaddr_in <=? acap then
                        match addrlen with
                        | None => fail NullDeref
                        | Some _ => mret (Some ab, Some sizeof_sockaddr_in)
                        end
                      else fail OutOfBounds
                    else mret (None, addrlen)
                | _, _ => mret (None, addrlen)
                end;
      v ← return_ret_errno r;
      mret (mkRecv v data a l)
  | _ => fail AssertFail
  end.

(** [recvfrom]: src/src/interceptor/interceptor.c:340-400.  [buf] and
    [src_addr] are the capacities behind the pointers, [addrlen] the value
    behind its pointer. *)
Definition recvfrom (sockfd : Z) (buf : option Z) (len flags : Z)
    (src_addr addrlen : option Z) : M (Proc E) RecvOut :=
  p ← get_st;
  if negb (is_assigned_by_velox p sockfd)
  then syscall (g_recvfrom sockfd buf len flags src_addr addrlen) else
  match buf with
  | None => mret (mkRecv 0 [] None addrlen)
  | Some cap =>
      if len =? 0 then mret (mkRecv 0 [] None addrlen) else
      resp ← rpc sockfd (CallRecvfrom (i32 len) flags (bool_decide (is_Some src_addr)));
      recvfrom_result cap src_addr addrlen resp
  end.

(** [read]: src/src/interceptor/interceptor.c:242-250. *)
Definition read (fd : Z) (buf : option Z) (count : Z) : M (Proc E) RecvOut :=
  p ← get_st;
  if negb (is_assigned_by_velox p fd) then syscall (g_read fd buf count) else
  recvfrom fd buf count 0 None None.

(** [write]: src/src/interceptor/interceptor.c:252-260. *)
Definition write (fd : Z) (buf : option (list Z)) (count : Z) : M (Proc E) Z :=
  p ← get_st;
  if negb (is_assigned_by_velox p fd) then syscall (g_write fd (default [] buf) count) else
  sendto fd buf count 0 None 0.

(** [send]: src/src/interceptor/interceptor.c:262-270. *)
Definition send (sockfd : Z) (buf : option (list Z)) (len flags : Z) : M (Proc E) Z :=
  p ← get_st;
  if negb (is_assigned_by_velox p sockfd) then syscall (g_send sockfd (default [] buf) len flags) else
  sendto sockfd buf len flags None 0.

(** [recv]: src/src/interceptor/interceptor.c:330-338. *)
Definition recv (sockfd : Z) (buf : option Z) (len flags : Z) : M (Proc E) RecvOut :=
  p ← get_st;
  if negb (is_assigned_by_velox p sockfd) then syscall (g_recv sockfd buf len flags) else
  recvfrom sockfd buf len flags None None.

(** ** 3. poll *)

Definition set_revents (v : Z) (f : pollfd) : pollfd := mkPollfd (p_fd f) (p_events f) v.

(** The partition loop of [poll], from index [i]:
    src/src/interceptor/interceptor.c:429-435.  The result is the array with
    its [revents] cleared, and [nv_idx] with [non_velox]. *)
Fixpoint poll_partition (p : Proc E) (i : nat) (fds : list pollfd)
    : list pollfd * list (nat * pollfd) :=
  match fds with
  | [] => ([], [])
  | f :: fds =>
      let f := set_revents 0 f in
      let '(fds', nv) := poll_partition p (S i) fds in
      (f :: fds', if negb (is_assigned_by_velox p (p_fd f)) then (i, f) :: nv else nv)
  end.

(** The copy-back loop: src/src/interceptor/interceptor.c:454-458. *)
Fixpoint poll_copy_back (idx : list nat) (polled : list pollfd) (fds : list pollfd) (nready : Z)
    : list pollfd * Z :=
  match idx, polled with
  | i :: idx, f :: polled =>
      poll_copy_back idx polled (alter (set_revents (p_revents f)) i fds)
        (if truth (p_revents f) then nready + 1 else nready)
  | _, _ => (fds, nready)
  end.

(** The Velox loop: src/src/interceptor/interceptor.c:463-469. *)
Fixpoint poll_velox (p : Proc E) (fds : list pollfd) (nready : Z) : list pollfd * Z :=
  match fds with
  | [] => ([], nready)
  | f :: fds =>
      if is_assigned_by_velox p (p_fd f) then
        let f := set_revents (Z.land (p_events f) (Z.lor (Z.lor POLLIN POLLOUT) POLLHUP)) f in
        let '(fds, n) := poll_velox p fds (if truth (p_revents f) then nready + 1 else nready) in
        (f :: fds, n)
      else let '(fds, n) := poll_velox p fds nready in (f :: fds, n)
  end.

(** [poll]: src/src/interceptor/interceptor.c:406-474; the caller's array is
    [fds] and [nfds] its length. *)
Definition poll (fds : list pollfd) (timeout : Z) : M (Proc E) (Z * list pollfd) :=
  let nfds : Z := length fds in
  ok1 ← malloc_ok (u64 (nfds * 8));
  ok2 ← malloc_ok (u64 (nfds * 8));
  if negb (ok1 && ok2) then _ ← modify (set_errno ENOMEM); mret (-1, fds) else
  p ← get_st;
  let '(fds, nv) := poll_partition p 0 fds in
  if Z.of_nat (length nv) =? nfds then syscall (g_poll fds nfds timeout) else
  '(fds, nready) ← (if (0 <? length nv)%nat then
                      '(r, polled) ← syscall (g_poll (snd <$> nv) (length nv) 0);
                      if 0 <? r then mret (poll_copy_back (fst <$> nv) polled fds 0)
                      else mret (fds, 0)
                    else mret (fds, 0));
  let '(fds, nready) := poll_velox p fds nready in
  mret (nready, fds).

(** [FD_ISSET] and [FD_SET] on an [fd_set] of [FD_SETSIZE] bits. *)
Definition fd_in_set_range (fd : Z) : bool := (0 <=? fd) && (fd <? FD_SETSIZE).
Definition FD_ISSET (fd : Z) (s : fd_set) : res bool :=
  if fd_in_set_range fd then Ok (bool_decide (fd ∈ s)) else Fault OutOfBounds.
Definition FD_SET (fd : Z) (s : fd_set) : res fd_set :=
  if fd_in_set_range fd then Ok ({[fd]} ∪ s) else Fault OutOfBounds.

(** The scan's accumulators: [nv_r], [nv_w], [nv_e], [has_velox],
    [max_nv_fd]. *)
Record scan := mkScan { nv_r : fd_set; nv_w : fd_set; nv_e : fd_set; has_velox : bool; max_nv_fd : Z }.

(** One descriptor of the first loop of [select]:
    src/src/interceptor/interceptor.c:499-509. *)
Definition select_scan_fd (p : Proc E) (fd : Z) (orig_r orig_w orig_e : fd_set) (a : scan) : res scan :=
  r ← FD_ISSET fd orig_r;
  if is_assigned_by_velox p fd then
    if r : bool then Ok (mkScan (nv_r a) (nv_w a) (nv_e a) true (max_nv_fd a)) else
    w ← FD_ISSET fd orig_w;
    if w : bool then Ok (mkScan (nv_r a) (nv_w a) (nv_e a) true (max_nv_fd a)) else
    e ← FD_ISSET fd orig_e;
    if e : bool then Ok (mkScan (nv_r a) (nv_w a) (nv_e a) true (max_nv_fd a)) else Ok a
  else
    nr ← (if r : bool then FD_SET fd (nv_r a) else Ok (nv_r a));
    w ← FD_ISSET fd orig_w;
    nw ← (if w : bool then FD_SET fd (nv_w a) else Ok (nv_w a));
    e ← FD_ISSET fd orig_e;
    ne ← (if e : bool then FD_SET fd (nv_e a) else Ok (nv_e a));
    Ok (mkScan nr nw ne (has_velox a)
          (if (r || w || e) && (max_nv_fd a <? fd) then fd else max_nv_fd a)).

(** [for (int fd = 0; fd < nfds; fd++) ...]: src/src/interceptor/interceptor.c:498-510. *)
Fixpoint select_scan (p : Proc E) (n : nat) (fd : Z) (orig_r orig_w orig_e : fd_set) (a : scan) : res scan :=
  match n with
  | O => Ok a
  | S n => a ← select_scan_fd p fd orig_r orig_w orig_e a;
           select_scan p n (fd + 1) orig_r orig_w orig_e a
  end.

(** [if (set && FD_ISSET(fd, src)) FD_SET(fd, set);] *)
Definition select_mark (fd : Z) (src : fd_set) (dst : option fd_set) : res (option fd_set * bool) :=
  match dst with
  | None => Ok (None, false)
  | Some d => b ← FD_ISSET fd src;
              if b : bool then d ← FD_SET fd d; Ok (Some d, true) else Ok (Some d, false)
  end.

(** The copy loop: src/src/interceptor/interceptor.c:530-534. *)
Fixpoint select_copy (n : nat) (fd : Z) (kr kw ke : fd_set) (s : option fd_set * option fd_set * option fd_set)
    : res (option fd_set * option fd_set * option fd_set) :=
  match n with
  | O => Ok s
  | S n =>
      let '(r, w, e) := s in
      '(r, _) ← select_mark fd kr r;
      '(w, _) ← select_mark fd kw w;
      '(e, _) ← select_mark fd ke e;
      select_copy n (fd + 1) kr kw ke (r, w, e)
  end.

(** The last loop: src/src/interceptor/interceptor.c:539-551. *)
Fixpoint select_velox (p : Proc E) (n : nat) (fd : Z) (orig_r orig_w orig_e : fd_set)
    (s : option fd_set * option fd_set * option fd_set) (nready : Z)
    : res (option fd_set * option fd_set * option fd_set * Z) :=
  match n with
  | O => Ok (s, nready)
  | S n =>
      if is_assigned_by_velox p fd then
        let '(r, w, e) := s in
        '(r, b1) ← select_mark fd orig_r r;
        '(w, b2) ← select_mark fd orig_w w;
        '(e, b3) ← select_mark fd orig_e e;
        select_velox p n (fd + 1) orig_r orig_w orig_e (r, w, e)
          (if b1 || b2 || b3 then nready + 1 else nready)
      else select_velox p n (fd + 1) orig_r orig_w orig_e s nready
  end.

(** [select]: src/src/interceptor/interceptor.c:476-554. *)
Definition select (nfds : Z) (readfds writefds exceptfds : option fd_set) (timeout : option Z)
    : M (Proc E) SelectOut :=
  p ← get_st;
  let orig_r := default ∅ readfds in
  let orig_w := default ∅ writefds in
  let orig_e := default ∅ exceptfds in
  a ← lift_res (select_scan p (Z.to_nat nfds) 0 orig_r orig_w orig_e (mkScan ∅ ∅ ∅ false (-1)));
  if negb (has_velox a) then syscall (g_select nfds readfds writefds exceptfds timeout) else
  let cleared := ((λ _, ∅) <$> readfds, (λ _, ∅) <$> writefds, (λ _, ∅) <$> exceptfds) in
  '(s, nready) ← (if 0 <=? max_nv_fd a then
                    k ← syscall (g_select (max_nv_fd a + 1) (Some (nv_r a)) (Some (nv_w a)) (Some (nv_e a)) (Some 0));
                    if 0 <? s_ret k then
                      s ← lift_res (select_copy (Z.to_nat (max_nv_fd a + 1)) 0 (default ∅ (s_read k))
                                      (default ∅ (s_write k)) (default ∅ (s_except k)) cleared);
                      mret (s, s_ret k)
                    else mret (cleared, 0)
                  else mret (cleared, 0));
  '(r, w, e, nready) ← lift_res (select_velox p (Z.to_nat nfds) 0 orig_r orig_w orig_e s nready);
  mret (mkSelect nready r w e).

(** ** 4. options *)

(** The body shared by [getpeername] and [getsockname] after the request. *)
Definition return_name (r : RetErr) (name : option (list Z)) (addr addrlen : option Z) : M (Proc E) NameOut :=
  let bytes := default [] name in
  data ← match addr with
         | None => if (0 <? length bytes)%nat then fail NullDeref else mret []
         | Some cap => if Z.of_nat (length bytes) <=? cap then mret bytes else fail OutOfBounds
         end;
  match addrlen with
  | None => fail NullDeref
  | Some _ => v ← return_ret_errno r; mret (mkName v data (Some sizeof_sockaddr_in))
  end.

(** [getpeername]: src/src/interceptor/interceptor.c:558-588. *)
Definition getpeername (sockfd : Z) (addr addrlen : option Z) : M (Proc E) NameOut :=
  p ← get_st;
  if negb (is_assigned_by_velox p sockfd) then syscall (g_getpeername sockfd addr addrlen) else
  resp ← rpc sockfd CallGetpeername;
  match returning resp with
  | Some (RetGetpeername r name) => return_name r name addr addrlen
  | _ => fail AssertFail
  end.

(** [getsockname]: src/src/interceptor/interceptor.c:590-620. *)
Definition getsockname (sockfd : Z) (addr addrlen : option Z) : M (Proc E) NameOut :=
  p ← get_st;
  if negb (is_assigned_by_velox p sockfd) then syscall (g_getsockname sockfd addr addrlen) else
  resp ← rpc sockfd CallGetsockname;
  match returning resp with
  | Some (RetGetsockname r name) => return_name r name addr addrlen
  | _ => fail AssertFail
  end.

(** [setsockopt]: src/src/interceptor/interceptor.c:622-636. *)
Definition setsockopt (sockfd level optname : Z) (optval : list Z) (optlen : Z) : M (Proc E) Z :=
  p ← get_st;
  if negb (is_assigned_by_velox p sockfd) then syscall (g_setsockopt sockfd level optname optval optlen) else
  mret 0.

(** [getsockopt]: src/src/interceptor/interceptor.c:638-660.  [optval] is the
    capacity behind the pointer. *)
Definition getsockopt (sockfd level optname : Z) (optval optlen : option Z) : M (Proc E) OptOut :=
  p ← get_st;
  if negb (is_assigned_by_velox p sockfd) then syscall (g_getsockopt sockfd level optname optval optlen) else
  if (level =? SOL_SOCKET) && (optname =? SO_ERROR) then
    match optval, optlen with
    | Some cap, Some l =>
        if 4 <=? l then
          if 4 <=? cap then mret (mkOpt 0 (Some 0) (Some 4)) else fail OutOfBounds
        else mret (mkOpt 0 None optlen)
    | _, _ => mret (mkOpt 0 None optlen)
    end
  else _ ← modify (set_errno ENOPROTOOPT); mret (mkOpt (-1) None optlen).

(** [fcntl]: src/src/interceptor/interceptor.c:662-702. *)
Definition fcntl (fd cmd arg : Z) : M (Proc E) Z :=
  p ← get_st;
  if negb (is_assigned_by_velox p fd) then syscall (g_fcntl fd cmd arg) else
  if cmd =? F_GETFD then mret 0 else
  if cmd =? F_SETFD then mret 0 else
  if cmd =? F_GETFL then mret O_RDWR else
  if cmd =? F_SETFL then mret 0 else
  _ ← modify (set_errno EINVAL); mret (-1).

(** [interceptor_init]: src/src/interceptor/interceptor.c:707-732, after the
    [dlsym] lookups that fill [glibc_funcs]. *)
Definition interceptor_init : M (Proc E) unit := chanmap_init fuel retries.

(** [__libc_start_main]: src/src/interceptor/interceptor.c:734-751; glibc's
    function of that name, found with [dlsym], runs the program's [main]. *)
Definition libc_start_main (glibc_start_main : M (Proc E) Z) : M (Proc E) Z :=
  _ ← interceptor_init;
  glibc_start_main.

End interceptor.
