(* ===== verification/Messages.v ===== *)
(** * The memory of the messages

    In C a response is an object on the heap: [response__unpack]
    (src/src/rpc/c_out/response.pb-c.c) allocates it, and the interceptor frees
    it by hand.  Here the calls of Interceptor.v are written once more over a
    heap of unpacked messages, with every [free] where the source has it, and
    proved to compute what Interceptor.v says and to leave no message behind. *)

From stdpp Require Import strings.
From S2P Require Import Prelude Rpc Wire Descriptors Glibc Channel FdPool Interceptor.

(** ** Messages and the runtime *)

(** A message: [base.descriptor], as the name of the struct it describes, and
    what the fields hold. *)
Record CMessage := mkCMessage { base_descriptor : string; contents : Request + Response }.

(** [REQUEST__INIT]: src/src/rpc/c_out/request.pb-c.h:257-259. *)
Definition REQUEST__INIT : CMessage := mkCMessage (m_sizeof request__descriptor) (inl (mkRequest 0 None)).

(** The process and its unpacked messages. *)
Record CProc (E : Type) : Type := mkCProc { proc : Proc E; cells : gmap nat CMessage; next_cell : nat }.
Arguments mkCProc {E}. Arguments proc {E}. Arguments cells {E}. Arguments next_cell {E}.
Notation C E := (M (CProc E)).

Section runtime.
Context `{Codec}.

(** The runtime's functions over any message. *)
Definition protobuf_c_message_pack (m : CMessage) : list Z :=
  match contents m with inl r => request_pack r | inr r => response_pack r end.
Definition protobuf_c_message_unpack (d : MessageDescriptor) (data : list Z) : option CMessage :=
  mkCMessage (m_sizeof d) <$>
    (if decide (m_sizeof d = m_sizeof request__descriptor) then inl <$> request_unpack data else inr <$> response_unpack data).

(** [assert(message->base.descriptor == &d)]. *)
Definition check_descriptor {A} (d : MessageDescriptor) (m : CMessage) (a : A) : res A :=
  if decide (base_descriptor m = m_sizeof d) then Ok a else Fault AssertFail.

(** [request__get_packed_size]: src/src/rpc/c_out/request.pb-c.c:96-101. *)
Definition request__get_packed_size (message : CMessage) : res Z :=
  check_descriptor request__descriptor message (Z.of_nat (length (protobuf_c_message_pack message))).
(** [request__pack]: src/src/rpc/c_out/request.pb-c.c:102-108. *)
Definition request__pack (message : CMessage) : res (list Z) :=
  check_descriptor request__descriptor message (protobuf_c_message_pack message).
(** [request__pack_to_buffer]: src/src/rpc/c_out/request.pb-c.c:109-115; the
    buffer is appended to. *)
Definition request__pack_to_buffer (message : CMessage) (buffer : list Z) : res (list Z) :=
  check_descriptor request__descriptor message (buffer ++ protobuf_c_message_pack message).
(** [response__get_packed_size]: src/src/rpc/c_out/response.pb-c.c:96-101. *)
Definition response__get_packed_size (message : CMessage) : res Z :=
  check_descriptor response__descriptor message (Z.of_nat (length (protobuf_c_message_pack message))).
(** [response__pack]: src/src/rpc/c_out/response.pb-c.c:102-108. *)
Definition response__pack (message : CMessage) : res (list Z) :=
  check_descriptor response__descriptor message (protobuf_c_message_pack message).
(** [response__pack_to_buffer]: src/src/rpc/c_out/response.pb-c.c:109-115. *)
Definition response__pack_to_buffer (message : CMessage) (buffer : list Z) : res (list Z) :=
  check_descriptor response__descriptor message (buffer ++ protobuf_c_message_pack message).

Context {E : Type}.

(** A step of the process that touches no message. *)
Definition lift {A} (m : M (Proc E) A) : C E A := λ s,
  match m (proc s) with Ok (a, p) => Ok (a, mkCProc p (cells s) (next_cell s)) | Fault f => Fault f end.

(** A new object; a null pointer where the bytes do not parse. *)
Definition unpack_new (m : option CMessage) : C E (option nat) := λ s,
  match m with
  | None => Ok (None, s)
  | Some m => Ok (Some (next_cell s), mkCProc (proc s) (<[next_cell s := m]> (cells s)) (S (next_cell s)))
  end.
(** [*message]. *)
Definition message_at (message : option nat) : C E CMessage := λ s,
  match message with
  | None => Fault NullDeref
  | Some i => match cells s !! i with Some m => Ok (m, s) | None => Fault UseAfterFree end
  end.
Definition free_cell (i : nat) : C E unit := modify (λ s, mkCProc (proc s) (delete i (cells s)) (next_cell s)).

(** [request__unpack]: src/src/rpc/c_out/request.pb-c.c:116-125. *)
Definition request__unpack (data : list Z) : C E (option nat) := unpack_new (protobuf_c_message_unpack request__descriptor data).
(** [response__unpack]: src/src/rpc/c_out/response.pb-c.c:116-125. *)
Definition response__unpack (data : list Z) : C E (option nat) := unpack_new (protobuf_c_message_unpack response__descriptor data).

(** [request__free_unpacked]: src/src/rpc/c_out/request.pb-c.c:126-134. *)
Definition request__free_unpacked (message : option nat) : C E unit :=
  match message with
  | None => mret tt
  | Some i => m ← message_at message; _ ← lift_res (check_descriptor request__descriptor m tt); free_cell i
  end.
(** [response__free_unpacked]: src/src/rpc/c_out/response.pb-c.c:126-134. *)
Definition response__free_unpacked (message : option nat) : C E unit :=
  match message with
  | None => mret tt
  | Some i => m ← message_at message; _ ← lift_res (check_descriptor response__descriptor m tt); free_cell i
  end.

(** The fields of the response behind [resp]. *)
Definition response_at (resp : option nat) : C E Response :=
  m ← message_at resp;
  match contents m with inr r => mret r | inl _ => fail OutOfBounds end.
End runtime.

(** ** The channel and the calls *)

Section calls.
Context {E : Type} `{Glibc E} `{Codec}.
Context (fuel retries : nat).

(** The struct after [req.pid = pid; req.xcall = &x; req.calling_case = ...]. *)
Definition fill_request (pid : Z) (c : Calling) (m : CMessage) : CMessage := mkCMessage (base_descriptor m) (inl (mkRequest pid (Some c))).

(** [chan_send]: src/src/interceptor/req-resp-channel.c:80-101. *)
Definition chan_send_c (ch : Z) (req : CMessage) : C E unit :=
  bufsize ← lift_res (request__get_packed_size req);
  _ ← assert_ (bufsize <=? RPC_MESSAGE_MAX_SIZE);
  buf ← lift_res (request__pack req);
  nwritten ← lift (syscall (g_write ch buf bufsize));
  assert_ (nwritten =? bufsize).

(** [chan_recv]: src/src/interceptor/req-resp-channel.c:103-135; [resp] is the
    local variable at the start of a round of the loop. *)
Fixpoint chan_recv_c (fuel : nat) (ch : Z) (resp : option nat) : C E (option nat) :=
  _ ← match resp with Some _ => response__free_unpacked resp | None => mret tt end;
  r ← lift (read_retry retries ch);
  _ ← assert_ (negb (r_ret r =? 0));
  resp ← response__unpack (take (Z.to_nat (r_ret r)) (r_data r));
  m ← response_at resp;
  if is_wait_next m then
    match fuel with O => fail OutOfFuel | S fuel => chan_recv_c fuel ch resp end
  else mret resp.

(** The request and the response of a call on a pool descriptor, as in
    src/src/interceptor/interceptor.c:173-192. *)
Definition rpc_c (fd : Z) (c : Calling) : C E (option nat) :=
  pid ← lift (gets self_pid);
  ch ← lift (fd_chanmap fd);
  _ ← chan_send_c ch (fill_request pid c REQUEST__INIT);
  ch ← lift (fd_chanmap fd);
  chan_recv_c fuel ch None.

(** [assert(resp->returning_case == X)], and the member the case selects. *)
Definition member {A} (sel : Returning → option A) (resp : option nat) : C E A :=
  m ← response_at resp;
  match returning m ≫= sel with Some a => mret a | None => fail AssertFail end.

(** What follows once [ret] and [errno_] are read: free, then set [errno]:
    src/src/interceptor/interceptor.c:47-63. *)
Definition return_ret_errno_c (r : RetErr) (ok : Z) (resp : option nat) : C E Z :=
  if negb (ret r =? -1) then _ ← response__free_unpacked resp; mret ok else
  match errno_ r with
  | None => fail AssertFail
  | Some e => _ ← response__free_unpacked resp; _ ← lift (modify (set_errno e)); mret (-1)
  end.

Definition sel_socket (x : Returning) : option RetErr := match x with RetSocket r => Some r | _ => None end.
Definition sel_connect (x : Returning) : option RetErr := match x with RetConnect r => Some r | _ => None end.
Definition sel_close (x : Returning) : option RetErr := match x with RetClose r => Some r | _ => None end.
Definition sel_sendto (x : Returning) : option RetErr := match x with RetSendto r => Some r | _ => None end.
Definition sel_recvfrom (x : Returning) : option (RetErr * option (list Z) * option (list Z)) :=
  match x with RetRecvfrom r b a => Some (r, b, a) | _ => None end.
Definition sel_getpeername (x : Returning) : option (RetErr * option (list Z)) := match x with RetGetpeername r n => Some (r, n) | _ => None end.
Definition sel_getsockname (x : Returning) : option (RetErr * option (list Z)) := match x with RetGetsockname r n => Some (r, n) | _ => None end.

(** [socket]: src/src/interceptor/interceptor.c:76-158. *)
Definition socket_c (domain type protocol : Z) : C E Z :=
  if negb (domain =? AF_INET) then lift (syscall (g_socket domain type protocol)) else
  if negb (has_bits type SOCK_STREAM) && negb (has_bits type SOCK_DGRAM)
  then lift (syscall (g_socket domain type protocol)) else
  connfd ← lift next_avail_fd;
  connCh ← lift open_chan;
  _ ← lift (set_fd_chanmap connfd connCh);
  pid ← lift (gets self_pid);
  _ ← chan_send_c connCh (fill_request pid (CallSocket domain type protocol) REQUEST__INIT);
  resp ← chan_recv_c fuel connCh None;
  r ← member sel_socket resp;
  return_ret_errno_c r connfd resp.

(** [connect]: src/src/interceptor/interceptor.c:160-199. *)
Definition connect_c (sockfd : Z) (addr : list Z) (addrlen : Z) : C E Z :=
  p ← lift get_st;
  if negb (is_assigned_by_velox p sockfd) then lift (syscall (g_connect sockfd addr addrlen)) else
  _ ← assert_ (addrlen =? sizeof_sockaddr_in);
  addBytes ← lift_res (of_option OutOfBounds (slice addr 0 addrlen));
  resp ← rpc_c sockfd (CallConnect addBytes);
  r ← member sel_connect resp;
  return_ret_errno_c r (ret r) resp.

(** [close]: src/src/interceptor/interceptor.c:201-238. *)
Fixpoint close_c (n : nat) (fd : Z) : C E Z :=
  p ← lift get_st;
  if negb (is_assigned_by_velox p fd) then lift (syscall (g_close fd)) else
  resp ← rpc_c fd CallClose;
  r ← member sel_close resp;
  ch ← lift (fd_chanmap fd);
  ch' ← lift (fd_chanmap fd);
  _ ← lift (unset_fd_chanmap fd ch');
  _ ← match n with O => fail OutOfFuel | S n => close_c n ch end;
  return_ret_errno_c r (ret r) resp.

(** [sendto]: src/src/interceptor/interceptor.c:272-326. *)
Definition sendto_c (sockfd : Z) (buf : option (list Z)) (len flags : Z) (dest_addr : option (list Z)) (addrlen : Z) : C E Z :=
  p ← lift get_st;
  if negb (is_assigned_by_velox p sockfd)
  then lift (syscall (g_sendto sockfd (default [] buf) len flags dest_addr addrlen)) else
  match buf with
  | None => mret 0
  | Some buf =>
      if len =? 0 then mret 0 else
      data ← lift_res (of_option OutOfBounds (slice buf 0 len));
      addr ← match dest_addr with
             | None => mret None
             | Some a =>
                 _ ← assert_ (addrlen =? sizeof_sockaddr_in);
                 a ← lift_res (of_option OutOfBounds (slice a 0 addrlen));
                 mret (Some a)
             end;
      resp ← rpc_c sockfd (CallSendto data flags addr);
      r ← member sel_sendto resp;
      return_ret_errno_c r (ret r) resp
  end.

(** [recvfrom]: src/src/interceptor/interceptor.c:340-400. *)
Definition recvfrom_c (sockfd : Z) (buf : option Z) (len flags : Z) (src_addr addrlen : option Z) : C E RecvOut :=
  p ← lift get_st;
  if negb (is_assigned_by_velox p sockfd)
  then lift (syscall (g_recvfrom sockfd buf len flags src_addr addrlen)) else
  match buf with
  | None => mret (mkRecv 0 [] None addrlen)
  | Some cap =>
      if len =? 0 then mret (mkRecv 0 [] None addrlen) else
      resp ← rpc_c sockfd (CallRecvfrom (i32 len) flags (bool_decide (is_Some src_addr)));
      '(r, rbuf, raddr) ← member sel_recvfrom resp;
      data ← (if 0 <? ret r then
                let d := default [] rbuf in
                if Z.of_nat (length d) <=? cap then mret d else fail OutOfBounds
              else mret []);
      '(a, l) ← match src_addr, raddr with
                | Some acap, Some ab =>
                    if 0 <? ret r then
                      ab ← lift_res (of_option OutOfBounds (slice ab 0 sizeof_sockaddr_in));
                      if sizeof_sockaddr_in <=? acap then
                        match addrlen with
                        | None => fail NullDeref
                        | Some _ => mret (Some ab, Some sizeof_sockaddr_in)
                        end
                      else fail OutOfBounds
                    else mret (None, addrlen)
                | _, _ => mret (None, addrlen)
                end;
      v ← return_ret_errno_c r (ret r) resp;
      mret (mkRecv v data a l)
  end.

(** The common end of [getpeername] and [getsockname]. *)
Definition return_name_c (r : RetErr) (name : option (list Z)) (addr addrlen : option Z) (resp : option nat) : C E NameOut :=
  let bytes := default [] name in
  data ← match addr with
         | None => if (0 <? length bytes)%nat then fail NullDeref else mret []
         | Some cap => if Z.of_nat (length bytes) <=? cap then mret bytes else fail OutOfBounds
         end;
  match addrlen with
  | None => fail NullDeref
  | Some _ => v ← return_ret_errno_c r (ret r) resp; mret (mkName v data (Some sizeof_sockaddr_in))
  end.
(** [getpeername]: src/src/interceptor/interceptor.c:558-588. *)
Definition getpeername_c (sockfd : Z) (addr addrlen : option Z) : C E NameOut :=
  p ← lift get_st;
  if negb (is_assigned_by_velox p sockfd) then lift (syscall (g_getpeername sockfd addr addrlen)) else
  resp ← rpc_c sockfd CallGetpeername;
  '(r, name) ← member sel_getpeername resp;
  return_name_c r name addr addrlen resp.
(** [getsockname]: src/src/interceptor/interceptor.c:590-620. *)
Definition getsockname_c (sockfd : Z) (addr addrlen : option Z) : C E NameOut :=
  p ← lift get_st;
  if negb (is_assigned_by_velox p sockfd) then lift (syscall (g_getsockname sockfd addr addrlen)) else
  resp ← rpc_c sockfd CallGetsockname;
  '(r, name) ← member sel_getsockname resp;
  return_name_c r name addr addrlen resp.

(** [ask_veloxd_fd_range]: src/src/interceptor/fdpool.c:43-90. *)
Definition ask_veloxd_fd_range_c : C E unit :=
  ch ← lift get_proc_chan;
  p ← lift get_st;
  _ ← chan_send_c ch (fill_request (self_pid p) (CallAtstart (short_name p)) REQUEST__INIT);
  resp ← chan_recv_c fuel ch None;
  m ← response_at resp;
  match returning m with
  | Some (RetAtstart startfd count) =>
      let count := default 0 count in
      _ ← lift (modify (set_range startfd count (startfd - 1)));
      _ ← assert_ (negb (startfd =? 0));
      _ ← assert_ (negb (count =? 0));
      _ ← response__free_unpacked resp;
      lift reserve_fd_range
  | Some _ => fail OutOfBounds
  | None => fail NullDeref
  end.
End calls.
