(* ===== verification/PoolInv.v ===== *)
(** * The descriptor pool over whole runs of the interceptor

    Every interposed call keeps the pool's invariant, the range and the
    channel of the process, and never moves [last_fd_assigned] back.  [keeps]
    is a small program logic for that: one rule per combinator, collected in
    the hint database [keeps], and a tactic that applies them along the
    structure of a call.  [run_calls] runs any sequence of calls. *)

From S2P Require Import Prelude Rpc Glibc Channel FdPool Interceptor Script.

Create HintDb keeps discriminated.

Section keeps.
Context {E : Type} `{Glibc E} `{Codec}.
Context (fuel retries : nat).

(** The pool of [p'] is a later state of the pool of [p]. *)
Record pool_step (p p' : Proc E) : Prop := {
  ps_inv : proc_inv p';
  ps_start : g_startfd p' = g_startfd p;
  ps_count : g_fd_count p' = g_fd_count p;
  ps_last : last_fd_assigned p ≤ last_fd_assigned p';
  ps_pid : self_pid p' = self_pid p;
  ps_proc : g_proc_chan p' = g_proc_chan p
}.

Definition keeps {A} (m : M (Proc E) A) : Prop :=
  ∀ p a p', proc_inv p → m p = Ok (a, p') → pool_step p p'.

Lemma pool_step_refl p : proc_inv p → pool_step p p.
Proof. intros. by split. Qed.

Lemma pool_step_trans p q r : pool_step p q → pool_step q r → pool_step p r.
Proof. intros [] []. split; [done|congruence|congruence|lia|congruence|congruence]. Qed.

Lemma pool_step_same p q : proc_inv p → same_globals p q → pool_step p q.
Proof.
  intros Hi Hs. pose proof (proc_inv_same _ _ Hs Hi). destruct Hs as (?&?&?&?&?&?&?).
  split; done || congruence || lia.
Qed.

Lemma keeps_ret {A} (a : A) : keeps (mret a).
Proof. intros p a' p' Hi [= <- <-]. by apply pool_step_refl. Qed.
Lemma keeps_fail {A} f : keeps (fail f : M (Proc E) A).
Proof. by intros p a p'. Qed.
Lemma keeps_bind {A B} (m : M (Proc E) A) (k : A → M (Proc E) B) :
  keeps m → (∀ a, keeps (k a)) → keeps (m ≫= k).
Proof.
  intros Hm Hk p b p' Hi (a & p1 & H1 & H2)%M_bind_inv.
  pose proof (Hm _ _ _ Hi H1) as Hs. eapply pool_step_trans; [exact Hs|].
  eapply Hk; [apply Hs|done].
Qed.
Lemma keeps_get : keeps get_st.
Proof. intros p a p' Hi [= <- <-]. by apply pool_step_refl. Qed.
Lemma keeps_gets {A} (f : Proc E → A) : keeps (gets f).
Proof. intros p a p' Hi [= <- <-]. by apply pool_step_refl. Qed.
Lemma keeps_lift {A} (r : res A) : keeps (lift_res r).
Proof. intros p a p' Hi. unfold lift_res. destruct r; [intros [= <- <-]; by apply pool_step_refl|done]. Qed.
Lemma keeps_assert b : keeps (assert_ b).
Proof. destruct b; [apply keeps_ret|apply keeps_fail]. Qed.
Lemma keeps_errno e : keeps (modify (set_errno e)).
Proof. intros p a p' Hi [= <- <-]. by apply pool_step_same. Qed.
Lemma keeps_syscall {A} (f : sys E A) : keeps (syscall f).
Proof. intros p a p' Hi Hs%syscall_globals. by apply pool_step_same. Qed.
Lemma keeps_malloc n : keeps (malloc_ok n).
Proof.
  intros p a p' Hi. unfold malloc_ok. destruct (g_malloc n (env p)). intros [= <- <-]. by apply pool_step_same.
Qed.

#[local] Hint Resolve keeps_ret keeps_fail keeps_get keeps_gets keeps_lift keeps_assert
  keeps_errno keeps_syscall keeps_malloc : keeps.

(** Follow the program: bind, branch, or a rule of the database. *)
Ltac keeps_tac :=
  repeat first
    [ solve [eauto with keeps nocore]
    | apply keeps_bind; [|intros ?]
    | match goal with
      | |- keeps (if ?b then _ else _) => destruct b
      | |- keeps (match ?x with _ => _ end) => destruct x
      end ].

Lemma keeps_deref {A} (o : option A) : keeps (deref o).
Proof. apply keeps_lift. Qed.
#[local] Hint Resolve keeps_deref : keeps.

Lemma keeps_open_chan : keeps open_chan.
Proof. unfold open_chan. keeps_tac. Qed.
Lemma keeps_chan_send ch req : keeps (chan_send ch req).
Proof. unfold chan_send. keeps_tac. Qed.
Lemma keeps_read_retry n ch : keeps (read_retry n ch).
Proof. induction n; cbn [read_retry]; keeps_tac. Qed.
#[local] Hint Resolve keeps_open_chan keeps_chan_send keeps_read_retry : keeps.
Lemma keeps_chan_recv_loop n m ch : keeps (chan_recv_loop n m ch).
Proof. induction n; cbn [chan_recv_loop]; keeps_tac. Qed.
Lemma keeps_chan_recv ch : keeps (chan_recv fuel retries ch).
Proof. apply keeps_chan_recv_loop. Qed.

Lemma keeps_next_avail_fd : keeps next_avail_fd.
Proof.
  intros p fd p' Hi Hn. pose proof (next_avail_fd_inv p fd p' Hi Hn) as (Hi' & Hfd & Hl & _ & _ & _).
  rewrite next_avail_fd_eq in Hn. destruct (_ <? _); [|done]. injection Hn as <- <-.
  split; cbn; done || lia.
Qed.
Lemma keeps_fd_chanmap fd : keeps (fd_chanmap fd).
Proof.
  intros p a p' Hi. unfold fd_chanmap. destruct (chan_index p fd) as [[t i]|]; [|done].
  intros [= <- <-]. by apply pool_step_refl.
Qed.

(** Storing a channel in the table. *)
Lemma table_store_step p fd t i v : proc_inv p → chan_index p fd = Ok (t, i) →
  pool_step p (set_chan_table (Some (<[i := v]> t)) p).
Proof.
  intros Hi. unfold chan_index. destruct (inv_table _ Hi) as (t' & Ht & Hl). rewrite Ht.
  destruct (in_range _ _ _); [|done]. intros [= <- <-].
  destruct Hi as [? ? ? _]. split; [|done|done|cbn; lia|done|done].
  split; cbn; try done. eexists. split; [reflexivity|]. by rewrite length_insert.
Qed.
Lemma keeps_set_fd_chanmap fd ch : keeps (set_fd_chanmap fd ch).
Proof.
  intros p a p' Hi. unfold set_fd_chanmap. destruct (chan_index p fd) as [[t i]|] eqn:Hx; [|done].
  intros [= <- <-]. by eapply table_store_step.
Qed.
Lemma keeps_unset_fd_chanmap fd ch : keeps (unset_fd_chanmap fd ch).
Proof.
  intros p a p' Hi. unfold unset_fd_chanmap. destruct (chan_index p fd) as [[t i]|] eqn:Hx; [|done].
  intros [= <- <-]. by eapply table_store_step.
Qed.
#[local] Hint Resolve keeps_chan_recv keeps_next_avail_fd keeps_fd_chanmap
  keeps_set_fd_chanmap keeps_unset_fd_chanmap : keeps.

Lemma keeps_return_ret_errno r : keeps (return_ret_errno r).
Proof. unfold return_ret_errno. keeps_tac. Qed.
Lemma keeps_rpc fd c : keeps (rpc fuel retries fd c).
Proof. unfold rpc. keeps_tac. Qed.
#[local] Hint Resolve keeps_return_ret_errno keeps_rpc : keeps.

Lemma keeps_socket d t pr : keeps (socket fuel retries d t pr).
Proof. unfold socket. keeps_tac. Qed.
Lemma keeps_connect fd a l : keeps (connect fuel retries fd a l).
Proof. unfold connect. keeps_tac. Qed.
Lemma keeps_close n fd : keeps (close fuel retries n fd).
Proof. revert fd. induction n; intros fd; cbn [close]; keeps_tac. Qed.
Lemma keeps_sendto fd b l f a al : keeps (sendto fuel retries fd b l f a al).
Proof. unfold sendto. keeps_tac. Qed.
Lemma keeps_recvfrom fd b l f a al : keeps (recvfrom fuel retries fd b l f a al).
Proof. unfold recvfrom, recvfrom_result. keeps_tac. Qed.
#[local] Hint Resolve keeps_socket keeps_connect keeps_close keeps_sendto keeps_recvfrom : keeps.
Lemma keeps_poll fds t : keeps (poll fds t).
Proof. unfold poll. keeps_tac. Qed.
Lemma keeps_select n r w e t : keeps (select n r w e t).
Proof. unfold select. keeps_tac. Qed.
Lemma keeps_return_name r n a l : keeps (return_name r n a l).
Proof. unfold return_name. keeps_tac. Qed.
#[local] Hint Resolve keeps_poll keeps_select keeps_return_name : keeps.

(** ** Whole runs *)

(** The interposed calls an application can make, with their arguments. *)
Inductive call : Type :=
  | CSocket (domain type protocol : Z)
  | CConnect (fd : Z) (addr : list Z) (addrlen : Z)
  | CClose (n : nat) (fd : Z)
  | CRead (fd : Z) (buf : option Z) (count : Z)
  | CWrite (fd : Z) (buf : option (list Z)) (count : Z)
  | CSend (fd : Z) (buf : option (list Z)) (len flags : Z)
  | CSendto (fd : Z) (buf : option (list Z)) (len flags : Z) (dest : option (list Z)) (addrlen : Z)
  | CRecv (fd : Z) (buf : option Z) (len flags : Z)
  | CRecvfrom (fd : Z) (buf : option Z) (len flags : Z) (src addrlen : option Z)
  | CPoll (fds : list pollfd) (timeout : Z)
  | CSelect (nfds : Z) (r w e : option fd_set) (timeout : option Z)
  | CGetpeername (fd : Z) (addr addrlen : option Z)
  | CGetsockname (fd : Z) (addr addrlen : option Z)
  | CSetsockopt (fd level optname : Z) (optval : list Z) (optlen : Z)
  | CGetsockopt (fd level optname : Z) (optval optlen : option Z)
  | CFcntl (fd cmd arg : Z).

(** Run one call; the result is the descriptor when a Velox socket was
    created. *)
Definition run_call (c : call) : M (Proc E) (option Z) :=
  match c with
  | CSocket d t pr =>
      v ← socket fuel retries d t pr;
      mret (if (d =? AF_INET) && (has_bits t SOCK_STREAM || has_bits t SOCK_DGRAM) && negb (v =? -1)
            then Some v else None)
  | CConnect fd a l => _ ← connect fuel retries fd a l; mret None
  | CClose n fd => _ ← close fuel retries n fd; mret None
  | CRead fd b n => _ ← read fuel retries fd b n; mret None
  | CWrite fd b n => _ ← write fuel retries fd b n; mret None
  | CSend fd b l f => _ ← send fuel retries fd b l f; mret None
  | CSendto fd b l f d al => _ ← sendto fuel retries fd b l f d al; mret None
  | CRecv fd b l f => _ ← recv fuel retries fd b l f; mret None
  | CRecvfrom fd b l f s al => _ ← recvfrom fuel retries fd b l f s al; mret None
  | CPoll fds t => _ ← poll fds t; mret None
  | CSelect n r w e t => _ ← select n r w e t; mret None
  | CGetpeername fd a l => _ ← getpeername fuel retries fd a l; mret None
  | CGetsockname fd a l => _ ← getsockname fuel retries fd a l; mret None
  | CSetsockopt fd l o v n => _ ← setsockopt fd l o v n; mret None
  | CGetsockopt fd l o v n => _ ← getsockopt fd l o v n; mret None
  | CFcntl fd c a => _ ← fcntl fd c a; mret None
  end.

(** The descriptors created by a sequence of calls, oldest first. *)
Fixpoint run_calls (cs : list call) : M (Proc E) (list Z) :=
  match cs with
  | [] => mret []
  | c :: cs => o ← run_call c; fds ← run_calls cs; mret (option_list o ++ fds)
  end.

Lemma keeps_run_call c : keeps (run_call c).
Proof.
  destruct c; cbn [run_call]; unfold read, write, send, recv, getpeername, getsockname,
    setsockopt, getsockopt, fcntl; keeps_tac.
Qed.

(** A created descriptor is a new one of the range. *)
Lemma socket_new_fd p d t pr v p' :
  proc_inv p → d = AF_INET → has_bits t SOCK_STREAM || has_bits t SOCK_DGRAM = true →
  socket fuel retries d t pr p = Ok (v, p') → v ≠ -1 →
  last_fd_assigned p < v ≤ last_fd_assigned p' ∧ g_startfd p ≤ v < g_startfd p + g_fd_count p.
Proof.
  intros Hi -> Ht Hs Hv. unfold socket in Hs. rewrite Z.eqb_refl in Hs. cbn [negb] in Hs.
  rewrite <-negb_orb, Ht in Hs. cbn [negb] in Hs.
  apply M_bind_inv in Hs as (fd & p1 & Hn & Hs).
  pose proof (next_avail_fd_inv p fd p1 Hi Hn) as (Hi1 & Hfd & Hl1 & Ha & _ & _).
  pose proof (keeps_next_avail_fd _ _ _ Hi Hn) as Hs1.
  apply is_assigned_spec in Ha. rewrite (ps_start _ _ Hs1), (ps_count _ _ Hs1) in Ha.
  enough (v = fd ∧ pool_step p1 p') as [-> [_ _ _ Hl _ _]] by lia. split.
  - apply M_bind_inv in Hs as (ch & p2 & Ho & Hs). apply M_bind_inv in Hs as (u & p3 & Hset & Hs).
    apply M_bind_inv in Hs as (pid & p4 & Hpid & Hs). apply M_bind_inv in Hs as (u' & p5 & Hsend & Hs).
    apply M_bind_inv in Hs as (resp & p6 & Hrecv & Hs).
    destruct (returning resp) as [[]|]; try done. destruct (negb (ret r =? -1)).
    + by injection Hs.
    + destruct (errno_ r); [|done]. apply M_bind_inv in Hs as (? & ? & _ & Hs). injection Hs as <- _. done.
  - assert (∀ {B} (m : M (Proc E) B) b, keeps m → m p1 = Ok (b, p') → pool_step p1 p') as Hk by eauto.
    eapply Hk; [|exact Hs]. keeps_tac.
Qed.

Lemma run_call_new p c o p' : proc_inv p → run_call c p = Ok (o, p') →
  opt_ok (λ v, last_fd_assigned p < v ≤ last_fd_assigned p' ∧
               g_startfd p ≤ v < g_startfd p + g_fd_count p) o.
Proof.
  intros Hi Hr. destruct c; cbn [run_call] in Hr; apply M_bind_inv in Hr as (v & p1 & Hc & [= <- <-]);
    try done.
  destruct (_ && _) eqn:Hb; [|done]. rewrite !andb_true_iff, negb_true_iff in Hb.
  destruct Hb as [[->%Z.eqb_eq Ht] ?%Z.eqb_neq]. by eapply socket_new_fd.
Qed.

Lemma run_calls_spec cs : ∀ p fds p', proc_inv p → run_calls cs p = Ok (fds, p') →
  pool_step p p' ∧
  Forall (λ v, last_fd_assigned p < v ≤ last_fd_assigned p' ∧
               g_startfd p ≤ v < g_startfd p + g_fd_count p) fds ∧ NoDup fds.
Proof.
  induction cs as [|c cs IH]; intros p fds p' Hi Hr.
  - injection Hr as <- <-. split; [by apply pool_step_refl|]. by split; constructor.
  - apply M_bind_inv in Hr as (o & p1 & Hc & (fds' & p2 & Hcs & [= <- <-])%M_bind_inv).
    pose proof (keeps_run_call c _ _ _ Hi Hc) as Hs1.
    pose proof (run_call_new _ _ _ _ Hi Hc) as Hnew.
    destruct (IH p1 fds' p2 (ps_inv _ _ Hs1) Hcs) as (Hs2 & Hall & Hnd).
    rewrite (ps_start _ _ Hs1), (ps_count _ _ Hs1) in Hall.
    split; [by eapply pool_step_trans|]. pose proof (ps_last _ _ Hs1). pose proof (ps_last _ _ Hs2).
    split.
    + apply Forall_app_2.
      * destruct o as [v|]; cbn in *; repeat constructor; lia.
      * eapply Forall_impl; [exact Hall|]. cbn. lia.
    + destruct o as [v|]; cbn in *; [|done]. apply NoDup_cons. split; [|done].
      intros Hin. rewrite Forall_forall in Hall. apply Hall in Hin. lia.
Qed.
End keeps.

(** ** Properties *)

(** Descriptor allocation is sound over every history: from a process whose
    pool is initialised, any sequence of interposed calls that completes leaves
    the pool initialised over the same range, and the descriptors its [socket]
    calls returned are pairwise distinct and inside the range the daemon
    assigned, whatever glibc, the kernel and the daemon answered. *)
Theorem descriptors_distinct {E} `{Glibc E} `{Codec} fuel retries cs (p : Proc E) fds p' :
  proc_inv p → run_calls fuel retries cs p = Ok (fds, p') →
  proc_inv p' ∧ g_startfd p' = g_startfd p ∧ g_fd_count p' = g_fd_count p ∧
  NoDup fds ∧ Forall (λ fd, is_assigned_by_velox p fd = true) fds.
Proof.
  intros Hi Hr. destruct (run_calls_spec fuel retries cs p fds p' Hi Hr) as (Hs & Hall & Hnd).
  destruct Hs. split_and!; try done. eapply Forall_impl; [exact Hall|].
  intros v [_ Hv]. by apply is_assigned_spec.
Qed.

Definition two_sockets : list call := [CSocket AF_INET SOCK_STREAM 0; CSocket AF_INET SOCK_DGRAM 0].
Definition pool_proc : Proc script :=
  sample_proc 4 4095 [0; 0; 0; 0] [answer (RetSocket (mkRet 0 None)); answer (RetSocket (mkRet 0 None))].

Lemma pool_proc_inv : proc_inv pool_proc.
Proof. split; cbn; [lia|lia|lia|eauto]. Qed.

Lemma descriptors_distinct_witness :
  ∃ p', run_calls 0 0 two_sockets pool_proc = Ok ([4096; 4097], p') ∧ proc_inv p' ∧ NoDup [4096; 4097].
Proof.
  destruct (run_calls 0 0 two_sockets pool_proc) as [[fds p']|] eqn:Hr; [|by vm_compute in Hr].
  destruct (descriptors_distinct 0 0 two_sockets pool_proc fds p' pool_proc_inv Hr) as (Hi & _ & _ & Hnd & _).
  assert (fds = [4096; 4097]) as -> by (vm_compute in Hr; by injection Hr).
  exists p'. split; [reflexivity|]. split; [exact Hi|exact Hnd].
Defined.
