(* ===== verification/Threads.v ===== *)
(** * Programs with several threads

    The interceptor's globals ([last_fd_assigned], [g_chan_table]) and its
    channels are shared by the program's threads, and no lock protects them.
    [code] is a computation cut into its atomic parts: every access to a global
    and every system call is one part, between which the other threads run.
    [flat] runs the parts without a break.  A [team] is the shared memory and
    the threads, each with its own [errno] and the rest of its code. *)

From S2P Require Import Prelude Rpc Wire Glibc Script Channel FdPool Interceptor PoolInv.

(** ** Code in atomic parts *)

Inductive code (E A : Type) : Type :=
  | CRet (a : A)
  | CAtom {B : Type} (m : M (Proc E) B) (k : B → code E A).
Arguments CRet {E A} a. Arguments CAtom {E A B} m k.

#[global] Instance code_ret {E} : MRet (code E) := λ A a, CRet a.
#[global] Instance code_bind {E} : MBind (code E) := λ A B f,
  fix go c := match c with CRet a => f a | CAtom m k => CAtom m (λ b, go (k b)) end.
Definition atom {E A} (m : M (Proc E) A) : code E A := CAtom m CRet.

(** All parts in one go. *)
Fixpoint flat {E A} (c : code E A) : M (Proc E) A :=
  match c with CRet a => mret a | CAtom m k => b ← m; flat (k b) end.

(** Computations that agree on every state. *)
Definition meq {E A} (m n : M (Proc E) A) : Prop := ∀ p, m p = n p.
#[global] Instance meq_equiv {E A} : Equivalence (@meq E A).
Proof. split; [by intros m p|intros m n Hm p; by rewrite Hm|intros m n o Hm Hn p; by rewrite Hm, Hn]. Qed.
Lemma meq_bind {E A B} (m n : M (Proc E) A) (f g : A → M (Proc E) B) : meq m n → (∀ a, meq (f a) (g a)) → meq (m ≫= f) (n ≫= g).
Proof. intros Hm Hf p. unfold mbind, M_bind. rewrite Hm. destruct (n p) as [[a q]|]; [apply Hf|done]. Qed.
Lemma meq_assoc {E A B C} (m : M (Proc E) A) (f : A → M (Proc E) B) (g : B → M (Proc E) C) :
  meq ((m ≫= f) ≫= g) (m ≫= λ a, f a ≫= g).
Proof. intros p. unfold mbind, M_bind. by destruct (m p) as [[]|]. Qed.
Lemma meq_ret {E A} (m : M (Proc E) A) : meq (m ≫= mret) m.
Proof. intros p. unfold mbind, M_bind, mret, M_ret. by destruct (m p) as [[]|]. Qed.
Lemma flat_bind {E A B} (c : code E A) (f : A → code E B) : meq (flat (c ≫= f)) (flat c ≫= λ a, flat (f a)).
Proof.
  induction c as [a|X m k IH]; [done|]. cbn. rewrite meq_assoc. by apply meq_bind.
Qed.
Lemma flat_atom {E A} (m : M (Proc E) A) : meq (flat (atom m)) m.
Proof. apply meq_ret. Qed.
(** A part of the code against its counterpart. *)
Lemma flat_step {E A B} (c : code E A) (f : A → code E B) m g : meq (flat c) m → (∀ a, meq (flat (f a)) (g a)) → meq (flat (c ≫= f)) (m ≫= g).
Proof. intros Hc Hf. rewrite flat_bind. by apply meq_bind. Qed.

Create HintDb flat discriminated.
#[export] Hint Resolve flat_atom : flat.
Ltac flat :=
  repeat (intros; cbn [negb]; first
    [ reflexivity
    | solve [eauto with flat nocore]
    | apply flat_step
    | lazymatch goal with
      | |- meq (flat (match ?x with _ => _ end)) _ => destruct x
      | |- meq (flat ((match ?x with _ => _ end) ≫= _)) _ => destruct x
      end ]).

(** ** The calls, part by part *)

Section calls.
Context {E : Type} `{Glibc E} `{Codec}.
Context (fuel retries : nat).
Notation code := (code E).

(** [next_avail_fd]: src/src/interceptor/fdpool.c:98-103: the assertion loads the
    variable, and so does the increment, which then stores it. *)
Definition next_avail_fd_code : code Z :=
  _ ← atom (p ← get_st; assert_ (last_fd_assigned p <? g_startfd p + g_fd_count p - 1));
  v ← atom (gets last_fd_assigned);
  _ ← atom (modify (set_last (v + 1)));
  mret (v + 1).

(** [open_chan]: src/src/interceptor/req-resp-channel.c:44-78. *)
Definition open_chan_code : code Z :=
  sockfd ← atom (syscall (g_socket AF_UNIX SOCK_SEQPACKET 0));
  if sockfd =? -1 then atom (fail ExitFailure) else
  ret ← atom (syscall (g_connect sockfd master_addr 110));
  if ret =? -1 then atom (fail ExitFailure) else
  mret sockfd.

(** [chan_recv]'s loop over interrupted reads:
    src/src/interceptor/req-resp-channel.c:116-122. *)
Fixpoint read_retry_code (fuel : nat) (ch : Z) : code RecvOut :=
  r ← atom (syscall (g_read ch (Some RPC_MESSAGE_MAX_SIZE) RPC_MESSAGE_MAX_SIZE));
  if r_ret r =? -1 then
    match fuel with O => atom (fail OutOfFuel) | S fuel => read_retry_code fuel ch end
  else mret r.
(** [chan_recv]: src/src/interceptor/req-resp-channel.c:103-135, each read a part;
    the buffers are the thread's own. *)
Fixpoint chan_recv_code (fuel : nat) (ch : Z) : code Response :=
  r ← read_retry_code retries ch;
  resp ← atom (_ ← assert_ (negb (r_ret r =? 0)); deref (response_unpack (take (Z.to_nat (r_ret r)) (r_data r))));
  if is_wait_next resp then
    match fuel with O => atom (fail OutOfFuel) | S fuel => chan_recv_code fuel ch end
  else mret resp.

(** [chan_send(fd_chanmap(fd), &req); chan_recv(fd_chanmap(fd), &resp);], as every
    call does: the shape of src/src/interceptor/interceptor.c:179-192. *)
Definition rpc_code (fd : Z) (c : Calling) : code Response :=
  pid ← atom (gets self_pid);
  ch ← atom (fd_chanmap fd);
  _ ← atom (chan_send ch (mkRequest pid (Some c)));
  ch ← atom (fd_chanmap fd);
  chan_recv_code fuel ch.

(** [socket] from [open_chan] on: src/src/interceptor/interceptor.c:114-158. *)
Definition socket_rest (domain type protocol connfd : Z) : code Z :=
  connCh ← open_chan_code;
  _ ← atom (set_fd_chanmap connfd connCh);
  pid ← atom (gets self_pid);
  _ ← atom (chan_send connCh (mkRequest pid (Some (CallSocket domain type protocol))));
  resp ← chan_recv_code fuel connCh;
  match returning resp with
  | Some (RetSocket r) =>
      if negb (ret r =? -1) then mret connfd else
      match errno_ r with
      | None => atom (fail AssertFail)
      | Some e => _ ← atom (modify (set_errno e)); mret (-1)
      end
  | _ => atom (fail AssertFail)
  end.
(** [socket]: src/src/interceptor/interceptor.c:76-158, with the allocation
    [alloc]. *)
Definition socket_code (alloc : code Z) (domain type protocol : Z) : code Z :=
  if negb (domain =? AF_INET) then atom (syscall (g_socket domain type protocol)) else
  if negb (has_bits type SOCK_STREAM) && negb (has_bits type SOCK_DGRAM)
  then atom (syscall (g_socket domain type protocol)) else
  connfd ← alloc;
  socket_rest domain type protocol connfd.

(** [connect]: src/src/interceptor/interceptor.c:160-199. *)
Definition connect_code (sockfd : Z) (addr : list Z) (addrlen : Z) : code Z :=
  p ← atom get_st;
  if negb (is_assigned_by_velox p sockfd) then atom (syscall (g_connect sockfd addr addrlen)) else
  addBytes ← atom (_ ← assert_ (addrlen =? sizeof_sockaddr_in); lift_res (of_option OutOfBounds (slice addr 0 addrlen)));
  resp ← rpc_code sockfd (CallConnect addBytes);
  match returning resp with
  | Some (RetConnect r) => atom (return_ret_errno r)
  | _ => atom (fail AssertFail)
  end.

(** [close]: src/src/interceptor/interceptor.c:201-238. *)
Fixpoint close_code (n : nat) (fd : Z) : code Z :=
  p ← atom get_st;
  if negb (is_assigned_by_velox p fd) then atom (syscall (g_close fd)) else
  resp ← rpc_code fd CallClose;
  match returning resp with
  | Some (RetClose r) =>
      ch ← atom (fd_chanmap fd);
      ch' ← atom (fd_chanmap fd);
      _ ← atom (unset_fd_chanmap fd ch');
      _ ← match n with O => atom (fail OutOfFuel) | S n => close_code n ch end;
      atom (return_ret_errno r)
  | _ => atom (fail AssertFail)
  end.

(** [sendto]: src/src/interceptor/interceptor.c:272-326. *)
Definition sendto_code (sockfd : Z) (buf : option (list Z)) (len flags : Z) (dest_addr : option (list Z)) (addrlen : Z) : code Z :=
  p ← atom get_st;
  if negb (is_assigned_by_velox p sockfd) then atom (syscall (g_sendto sockfd (default [] buf) len flags dest_addr addrlen)) else
  match buf with
  | None => mret 0
  | Some buf =>
      if len =? 0 then mret 0 else
      data ← atom (lift_res (of_option OutOfBounds (slice buf 0 len)));
      addr ← match dest_addr with
             | None => mret None
             | Some a => atom (_ ← assert_ (addrlen =? sizeof_sockaddr_in); a ← lift_res (of_option OutOfBounds (slice a 0 addrlen)); mret (Some a))
             end;
      resp ← rpc_code sockfd (CallSendto data flags addr);
      match returning resp with
      | Some (RetSendto r) => atom (return_ret_errno r)
      | _ => atom (fail AssertFail)
      end
  end.

(** [recvfrom]: src/src/interceptor/interceptor.c:340-400. *)
Definition recvfrom_code (sockfd : Z) (buf : option Z) (len flags : Z) (src_addr addrlen : option Z) : code RecvOut :=
  p ← atom get_st;
  if negb (is_assigned_by_velox p sockfd) then atom (syscall (g_recvfrom sockfd buf len flags src_addr addrlen)) else
  match buf with
  | None => mret (mkRecv 0 [] None addrlen)
  | Some cap =>
      if len =? 0 then mret (mkRecv 0 [] None addrlen) else
      resp ← rpc_code sockfd (CallRecvfrom (i32 len) flags (bool_decide (is_Some src_addr)));
      atom (recvfrom_result cap src_addr addrlen resp)
  end.

(** [read]: src/src/interceptor/interceptor.c:242-250. *)
Definition read_code (fd : Z) (buf : option Z) (count : Z) : code RecvOut :=
  p ← atom get_st;
  if negb (is_assigned_by_velox p fd) then atom (syscall (g_read fd buf count)) else recvfrom_code fd buf count 0 None None.
(** [write]: src/src/interceptor/interceptor.c:252-260. *)
Definition write_code (fd : Z) (buf : option (list Z)) (count : Z) : code Z :=
  p ← atom get_st;
  if negb (is_assigned_by_velox p fd) then atom (syscall (g_write fd (default [] buf) count)) else sendto_code fd buf count 0 None 0.
(** [send]: src/src/interceptor/interceptor.c:262-270. *)
Definition send_code (sockfd : Z) (buf : option (list Z)) (len flags : Z) : code Z :=
  p ← atom get_st;
  if negb (is_assigned_by_velox p sockfd) then atom (syscall (g_send sockfd (default [] buf) len flags)) else sendto_code sockfd buf len flags None 0.
(** [recv]: src/src/interceptor/interceptor.c:330-338. *)
Definition recv_code (sockfd : Z) (buf : option Z) (len flags : Z) : code RecvOut :=
  p ← atom get_st;
  if negb (is_assigned_by_velox p sockfd) then atom (syscall (g_recv sockfd buf len flags)) else recvfrom_code sockfd buf len flags None None.
(** [getpeername]: src/src/interceptor/interceptor.c:558-588. *)
Definition getpeername_code (sockfd : Z) (addr addrlen : option Z) : code NameOut :=
  p ← atom get_st;
  if negb (is_assigned_by_velox p sockfd) then atom (syscall (g_getpeername sockfd addr addrlen)) else
  resp ← rpc_code sockfd CallGetpeername;
  match returning resp with
  | Some (RetGetpeername r name) => atom (return_name r name addr addrlen)
  | _ => atom (fail AssertFail)
  end.
(** [getsockname]: src/src/interceptor/interceptor.c:590-620. *)
Definition getsockname_code (sockfd : Z) (addr addrlen : option Z) : code NameOut :=
  p ← atom get_st;
  if negb (is_assigned_by_velox p sockfd) then atom (syscall (g_getsockname sockfd addr addrlen)) else
  resp ← rpc_code sockfd CallGetsockname;
  match returning resp with
  | Some (RetGetsockname r name) => atom (return_name r name addr addrlen)
  | _ => atom (fail AssertFail)
  end.

(** A call, with the descriptor it created; those that make one call of glibc at
    most and read only what never changes are one part. *)
Definition call_code (alloc : code Z) (c : call) : code (option Z) :=
  match c with
  | CSocket d t pr =>
      v ← socket_code alloc d t pr;
      mret (if (d =? AF_INET) && (has_bits t SOCK_STREAM || has_bits t SOCK_DGRAM) && negb (v =? -1)
            then Some v else None)
  | CConnect fd a l => _ ← connect_code fd a l; mret None
  | CClose n fd => _ ← close_code n fd; mret None
  | CRead fd b n => _ ← read_code fd b n; mret None
  | CWrite fd b n => _ ← write_code fd b n; mret None
  | CSend fd b l f => _ ← send_code fd b l f; mret None
  | CSendto fd b l f d al => _ ← sendto_code fd b l f d al; mret None
  | CRecv fd b l f => _ ← recv_code fd b l f; mret None
  | CRecvfrom fd b l f s al => _ ← recvfrom_code fd b l f s al; mret None
  | CPoll fds t => _ ← atom (poll fds t); mret None
  | CSelect n r w e t => _ ← atom (select n r w e t); mret None
  | CGetpeername fd a l => _ ← getpeername_code fd a l; mret None
  | CGetsockname fd a l => _ ← getsockname_code fd a l; mret None
  | CSetsockopt fd l o v n => _ ← atom (setsockopt fd l o v n); mret None
  | CGetsockopt fd l o v n => _ ← atom (getsockopt fd l o v n); mret None
  | CFcntl fd c a => _ ← atom (fcntl fd c a); mret None
  end.
(** A thread's program: the descriptors its calls create, oldest first. *)
Fixpoint calls_code (alloc : code Z) (cs : list call) : code (list Z) :=
  match cs with
  | [] => mret []
  | c :: cs => o ← call_code alloc c; fds ← calls_code alloc cs; mret (option_list o ++ fds)
  end.

(** ** Without a break, the parts are the call *)

Lemma flat_next_avail_fd : meq (flat next_avail_fd_code) next_avail_fd.
Proof. intros p. unfold next_avail_fd_code, next_avail_fd. cbn. run_m. by destruct (_ <? _). Qed.
Lemma flat_open_chan : meq (flat open_chan_code) open_chan.
Proof. unfold open_chan_code, open_chan. flat. Qed.
Lemma flat_read_retry n ch : meq (flat (read_retry_code n ch)) (read_retry n ch).
Proof. induction n as [|n IH]; cbn [read_retry_code read_retry]; flat. Qed.
Hint Resolve flat_next_avail_fd flat_open_chan flat_read_retry : flat.
Lemma flat_chan_recv n ch : meq (flat (chan_recv_code n ch)) (chan_recv_loop n retries ch).
Proof.
  induction n as [|n IH]; cbn [chan_recv_code chan_recv_loop]; apply flat_step; [apply flat_read_retry| |apply flat_read_retry|];
    intros r; rewrite <-meq_assoc; flat.
Qed.
Hint Resolve flat_chan_recv : flat.
Lemma flat_rpc fd c : meq (flat (rpc_code fd c)) (rpc fuel retries fd c).
Proof. unfold rpc_code, rpc, chan_recv. flat. Qed.
Hint Resolve flat_rpc : flat.
Lemma flat_socket d t pr : meq (flat (socket_code next_avail_fd_code d t pr)) (socket fuel retries d t pr).
Proof. unfold socket_code, socket_rest, socket, chan_recv. flat. Qed.
Lemma flat_connect fd a l : meq (flat (connect_code fd a l)) (connect fuel retries fd a l).
Proof.
  unfold connect_code, connect. apply flat_step; [apply flat_atom|]. intros p. destruct (negb _); [flat|]. rewrite <-meq_assoc. flat.
Qed.
Lemma flat_close n fd : meq (flat (close_code n fd)) (close fuel retries n fd).
Proof. revert fd. induction n as [|n IH]; intros fd; cbn [close_code close]; flat. Qed.
Lemma flat_sendto fd b l f a al : meq (flat (sendto_code fd b l f a al)) (sendto fuel retries fd b l f a al).
Proof. unfold sendto_code, sendto. flat. Qed.
Lemma flat_recvfrom fd b l f a al : meq (flat (recvfrom_code fd b l f a al)) (recvfrom fuel retries fd b l f a al).
Proof. unfold recvfrom_code, recvfrom. flat. Qed.
Hint Resolve flat_socket flat_connect flat_close flat_sendto flat_recvfrom : flat.
Lemma flat_call c : meq (flat (call_code next_avail_fd_code c)) (run_call fuel retries c).
Proof.
  destruct c; cbn [call_code run_call]; apply flat_step; try flat;
    unfold read_code, read, write_code, write, send_code, send, recv_code, recv, getpeername_code, getpeername, getsockname_code, getsockname; flat.
Qed.
Lemma flat_calls cs : meq (flat (calls_code next_avail_fd_code cs)) (run_calls fuel retries cs).
Proof. induction cs as [|c cs IH]; cbn [calls_code run_calls]; [done|]. apply flat_step; [apply flat_call|]. flat. Qed.
End calls.

(** ** The team *)

Record team (E A : Type) : Type := mkTeam { memory : Proc E; crew : list (Z * code E A) }.
Arguments mkTeam {E A}. Arguments memory {E A}. Arguments crew {E A}.

Section team.
Context {E A : Type}.
Implicit Types s : team E A.

(** Thread [i] runs the next part of its code, with its own [errno]; [None]: it
    has none left. *)
Definition team_step (i : nat) s : res (option (team E A)) :=
  match crew s !! i with
  | Some (en, CAtom m k) =>
      match m (set_errno en (memory s)) with
      | Ok (b, p) => Ok (Some (mkTeam (set_errno (errno (memory s)) p) (<[i := (errno p, k b)]> (crew s))))
      | Fault f => Fault f
      end
  | _ => Ok None
  end.
Inductive tstep s s' : Prop := tstep_thread i : team_step i s = Ok (Some s') → tstep s s'.
(** The threads move in the given order. *)
Fixpoint run_team (sched : list nat) s : res (team E A) :=
  match sched with
  | [] => Ok s
  | i :: sched => s' ← team_step i s; match s' with Some s' => run_team sched s' | None => Fault OutOfFuel end
  end.
Lemma run_team_rtc sched s s' : run_team sched s = Ok s' → rtc tstep s s'.
Proof.
  revert s. induction sched as [|i sched IH]; intros s Hr; cbn in Hr; [by injection Hr as ->|].
  destruct (team_step i s) as [[s1|]|] eqn:Hs; [|done..]. eapply rtc_l; [by econstructor|by apply IH].
Qed.

Lemma run_team_cons {B} i sched s en (m : M (Proc E) B) k b q : crew s !! i = Some (en, CAtom m k) → m (set_errno en (memory s)) = Ok (b, q) →
  run_team (i :: sched) s = run_team sched (mkTeam (set_errno (errno (memory s)) q) (<[i := (errno q, k b)]> (crew s))).
Proof. intros Hi Hm. cbn. unfold team_step. by rewrite Hi, Hm. Qed.

(** Parts that one thread runs on its own. *)
Inductive runs {B} : code E B → Proc E → code E B → Proc E → Prop :=
  | runs_done c p : runs c p c p
  | runs_part {X} (m : M (Proc E) X) k p b p1 c' p' : m p = Ok (b, p1) → runs (k b) p1 c' p' → runs (CAtom m k) p c' p'.
Lemma runs_trans {B} (c1 c2 c3 : code E B) p1 p2 p3 : runs c1 p1 c2 p2 → runs c2 p2 c3 p3 → runs c1 p1 c3 p3.
Proof. induction 1 as [|X m k p b q c' p' Hm _ IH]; [done|]. intros Hr. eapply runs_part; [done|by apply IH]. Qed.
Lemma runs_bind {B C} (c c' : code E B) (k : B → code E C) p p' : runs c p c' p' → runs (c ≫= k) p (c' ≫= k) p'.
Proof. induction 1 as [|X m k' p b q c' p' Hm _ IH]; [constructor|].
  change (CAtom m k' ≫= k) with (CAtom m (λ b, k' b ≫= k)). eapply runs_part; [done|exact IH].
Qed.
Lemma runs_flat {B} (c : code E B) p a q : flat c p = Ok (a, q) → runs c p (CRet a) q.
Proof.
  revert p. induction c as [b|X m k IH]; intros p Hr; cbn [flat] in Hr; [injection Hr as <- <-; constructor|].
  apply M_bind_inv in Hr as (b & p1 & Hm & Hr). eapply runs_part; [done|by apply IH].
Qed.
Lemma set_errno_same (p q : Proc E) en : set_errno (errno q) (set_errno en q) = q.
Proof. by destruct q. Qed.
Lemma runs_team s i en c c' q : crew s !! i = Some (en, c) → runs c (set_errno en (memory s)) c' q →
  rtc tstep s (mkTeam (set_errno (errno (memory s)) q) (<[i := (errno q, c')]> (crew s))).
Proof.
  intros Hi Hr. remember (set_errno en (memory s)) as p eqn:Hp. revert s en Hi Hp. induction Hr as [c p|X m k p b p1 c' p' Hm _ IH]; intros s en Hi ->.
  - cbn. rewrite list_insert_id by done. destruct s as [[] ts]. cbn. done.
  - eapply rtc_l; [apply (tstep_thread _ _ i); unfold team_step; by rewrite Hi, Hm|]. set (s1 := mkTeam _ _).
    assert (crew s1 !! i = Some (errno p1, k b)) as Hi1 by (apply list_lookup_insert_eq; by eapply lookup_lt_Some).
    specialize (IH s1 (errno p1) Hi1 ltac:(symmetry; apply (set_errno_same p1))). cbn in IH. by rewrite list_insert_insert_eq in IH.
Qed.

(** A thread alone computes what its code does in one go. *)
Lemma alone_run (c : code E A) en p a q : flat c (set_errno en p) = Ok (a, q) →
  rtc tstep (mkTeam p [(en, c)]) (mkTeam (set_errno (errno p) q) [(errno q, CRet a)]).
Proof. intros Hr. exact (runs_team (mkTeam p [(en, c)]) 0 en c (CRet a) q eq_refl (runs_flat _ _ _ _ Hr)). Qed.

(** What a finished thread returns. *)
Fixpoint ends (Q : A → Prop) (c : code E A) : Prop :=
  match c with CRet a => Q a | CAtom m k => ∀ p b p', m p = Ok (b, p') → ends Q (k b) end.
Lemma ends_step Q s s' : tstep s s' → Forall (λ t, ends Q t.2) (crew s) → Forall (λ t, ends Q t.2) (crew s').
Proof.
  intros [i Hi] Hf. unfold team_step in Hi. destruct (crew s !! i) as [[en [a|B m k]]|] eqn:Ht; try done.
  destruct (m _) as [[b p]|] eqn:Hm; [|done]. injection Hi as <-. apply Forall_insert; [done|]. rewrite Forall_lookup in Hf. by eapply (Hf _ _ Ht).
Qed.
Lemma ends_run Q s s' : rtc tstep s s' → Forall (λ t, ends Q t.2) (crew s) → Forall (λ t, ends Q t.2) (crew s').
Proof. induction 1 as [|s1 s2 s3 Hs _ IH]; [done|]. intros Hf. by eapply IH, ends_step. Qed.
End team.

(** A program with one thread: in parts or in one go, its calls do the same. *)
Theorem single_threaded {E} `{Glibc E} `{Codec} fuel retries cs (p : Proc E) fds q :
  run_calls fuel retries cs p = Ok (fds, q) →
  rtc tstep (mkTeam p [(errno p, calls_code fuel retries next_avail_fd_code cs)]) (mkTeam (set_errno (errno p) q) [(errno q, CRet fds)]).
Proof. intros Hr. apply alone_run. rewrite (flat_calls fuel retries cs _). destruct p. exact Hr. Qed.
