(* ===== verification/ThreadsSpec.v ===== *)
(** * Threads that share the descriptor pool

    When the allocation of a descriptor is not interrupted, every interleaving
    of the threads' calls hands out distinct descriptors; as it is written, it
    can be. *)

From S2P Require Import Prelude Rpc Wire Glibc Script Channel FdPool Interceptor PoolInv Threads.

Section held.
Context {E : Type} `{Glibc E} `{Codec}.
Context (fuel retries : nat).

(** [m] takes a new descriptor of the pool, the one [f] finds in its result. *)
Definition allocates {B} (m : M (Proc E) B) (f : B → Z) : Prop := ∀ p b p', proc_inv p → m p = Ok (b, p') →
  pool_step p p' ∧ last_fd_assigned p < f b ≤ last_fd_assigned p' ∧ g_startfd p ≤ f b.

(** The thread holds the descriptors [L]; when its code ends, it holds [L'] and
    returns [a] with [Q L' a]. *)
Fixpoint holds {A} (L : list Z) (c : code E A) (Q : list Z → A → Prop) : Prop :=
  match c with
  | CRet a => Q L a
  | CAtom m k => (keeps m ∧ ∀ p b p', m p = Ok (b, p') → holds L (k b) Q) ∨ (∃ f, allocates m f ∧ ∀ b, f b ∉ L → holds (f b :: L) (k b) Q)
  end.
Lemma holds_weaken {A} L (c : code E A) (Q R : list Z → A → Prop) : (∀ L a, Q L a → R L a) → holds L c Q → holds L c R.
Proof.
  intros HQ. revert L. induction c as [a|B m k IH]; intros L; cbn; [apply HQ|].
  intros [[Hm Hk]|(f & Hm & Hk)]; [left; eauto|right]. exists f. eauto.
Qed.
Lemma holds_bind {A B} L (c : code E A) (k : A → code E B) Q : holds L c (λ L' a, holds L' (k a) Q) → holds L (c ≫= k) Q.
Proof.
  revert L. induction c as [a|X m k' IH]; intros L; cbn; [done|].
  intros [[Hm Hk]|(f & Hm & Hk)]; [left; split; [done|]; intros p b p' Hb; by eapply IH, Hk|right].
  exists f. split; [done|]. intros b Hb. by apply IH, Hk.
Qed.

(** Code that allocates nothing. *)
Fixpoint plain {A} (c : code E A) : Prop := match c with CRet _ => True | CAtom m k => keeps m ∧ ∀ b, plain (k b) end.
Lemma plain_ret {A} (a : A) : plain (mret a : code E A).
Proof. done. Qed.
Lemma plain_atom {A} (m : M (Proc E) A) : keeps m → plain (atom m).
Proof. done. Qed.
Lemma plain_bind {A B} (c : code E A) (k : A → code E B) : plain c → (∀ a, plain (k a)) → plain (c ≫= k).
Proof. intros Hc Hk. induction c as [a|X m k' IH]; [apply Hk|]. destruct Hc as [Hm Hc]. split; [done|]. intros b. by apply IH. Qed.
Lemma ends_bind {A B} (c : code E A) (k : A → code E B) Q : (∀ a, ends Q (k a)) → ends Q (c ≫= k).
Proof. intros Hk. induction c as [a|X m k' IH]; [apply Hk|]. intros p b p' _. apply IH. Qed.
Lemma plain_ends_holds {A} L (c : code E A) (R : A → Prop) (Q : list Z → A → Prop) : plain c → ends R c → (∀ a, R a → Q L a) → holds L c Q.
Proof.
  intros Hc Hr HQ. induction c as [a|X m k IH]; [by apply HQ|]. destruct Hc as [Hm Hc]. left. split; [done|]. intros p b p' Hb. apply IH; [done|]. by eapply Hr.
Qed.
Lemma plain_holds {A} L (c : code E A) (Q : list Z → A → Prop) : plain c → (∀ a, Q L a) → holds L c Q.
Proof. intros Hc HQ. apply (plain_ends_holds L c (λ _, True)); [done| |eauto]. clear Hc. induction c as [|X m k IH]; [done|]. intros p b p' _. apply IH. Qed.
End held.

Create HintDb plain discriminated.
#[export] Hint Resolve plain_ret : plain.
#[export] Hint Resolve keeps_ret keeps_fail keeps_get keeps_gets keeps_lift keeps_assert keeps_errno keeps_syscall keeps_deref
  keeps_chan_send keeps_fd_chanmap keeps_set_fd_chanmap keeps_unset_fd_chanmap keeps_return_ret_errno keeps_return_name keeps_poll keeps_select : plain.
(** Walk through code, and through the program of a part. *)
Ltac plain :=
  repeat (intros; first
    [ solve [eauto with plain nocore]
    | lazymatch goal with
      | |- plain (match ?x with _ => _ end) => destruct x
      | |- plain ((match ?x with _ => _ end) ≫= _) => destruct x
      | |- plain (_ ≫= _) => apply plain_bind
      | |- plain (atom _) => apply plain_atom
      | |- keeps (match ?x with _ => _ end) => destruct x
      | |- keeps (_ ≫= _) => apply keeps_bind
      end ]).

Section calls.
Context {E : Type} `{Glibc E} `{Codec}.
Context (fuel retries : nat).

Lemma plain_open_chan : plain (open_chan_code (E := E)).
Proof. unfold open_chan_code. plain. Qed.
Lemma plain_read_retry n ch : plain (read_retry_code (E := E) n ch).
Proof. induction n as [|n IH]; cbn [read_retry_code]; plain. Qed.
Hint Resolve plain_open_chan plain_read_retry : plain.
Lemma plain_chan_recv n ch : plain (chan_recv_code (E := E) retries n ch).
Proof. induction n as [|n IH]; cbn [chan_recv_code]; plain. Qed.
Hint Resolve plain_chan_recv : plain.
Lemma plain_rpc fd c : plain (rpc_code (E := E) fuel retries fd c).
Proof. unfold rpc_code. plain. Qed.
Hint Resolve plain_rpc : plain.
Lemma plain_socket_rest d t pr fd : plain (socket_rest (E := E) fuel retries d t pr fd).
Proof. unfold socket_rest. plain. Qed.
Lemma ends_socket_rest d t pr fd : ends (λ v, v = fd ∨ v = -1) (socket_rest (E := E) fuel retries d t pr fd).
Proof.
  unfold socket_rest. do 5 (apply ends_bind; intros ?). destruct (returning _) as [[]|]; cbn; try done.
  destruct (negb _); [by left|]. destruct (errno_ _); cbn; [by right|done].
Qed.
Lemma plain_connect fd a l : plain (connect_code (E := E) fuel retries fd a l).
Proof. unfold connect_code. plain. Qed.
Lemma plain_close n fd : plain (close_code (E := E) fuel retries n fd).
Proof. revert fd. induction n as [|n IH]; intros fd; cbn [close_code]; plain. Qed.
Lemma plain_sendto fd b l f a al : plain (sendto_code (E := E) fuel retries fd b l f a al).
Proof. unfold sendto_code. plain. Qed.
Lemma plain_recvfrom fd b l f a al : plain (recvfrom_code (E := E) fuel retries fd b l f a al).
Proof. unfold recvfrom_code, recvfrom_result. plain. Qed.
Hint Resolve plain_connect plain_close plain_sendto plain_recvfrom : plain.
(** Every call but [socket] allocates nothing and creates no descriptor. *)
Lemma plain_call alloc c : match c with
  | CSocket _ _ _ => True
  | _ => ∃ B (x : code E B), call_code (E := E) fuel retries alloc c = (x ≫= λ _, mret None) ∧ plain x
  end.
Proof.
  destruct c; cbn [call_code]; [done|..]; (do 2 eexists; split; [reflexivity|]); unfold read_code, write_code, send_code, recv_code,
    getpeername_code, getsockname_code, setsockopt, getsockopt, fcntl; plain.
Qed.

(** ** An allocation that is not interrupted *)

(** [next_avail_fd] in one part, as when the program's threads take turns to
    call [socket]. *)
Definition whole_next_avail_fd : code E Z := atom next_avail_fd.
Lemma next_avail_fd_allocates : allocates (E := E) next_avail_fd id.
Proof.
  intros p fd p' Hi Hn. pose proof (next_avail_fd_inv p fd p' Hi Hn) as (_ & -> & Hl & _). split; [by eapply keeps_next_avail_fd|].
  destruct (inv_last _ Hi). unfold id. lia.
Qed.

(** The descriptors [l] are among those taken since [L]. *)
Definition taken (L L' l : list Z) : Prop := ∃ N, L' = N ++ L ∧ NoDup l ∧ l ⊆ N ∧ ∀ v, v ∈ N → v ∉ L.
Lemma taken_nil L : taken L L [].
Proof. exists []. split_and!; [done|constructor|set_solver|set_solver]. Qed.
Lemma taken_app L L1 L2 l1 l2 : taken L L1 l1 → taken L1 L2 l2 → taken L L2 (l1 ++ l2).
Proof.
  intros (N1 & -> & D1 & S1 & F1) (N2 & -> & D2 & S2 & F2). exists (N2 ++ N1). split_and!; [by rewrite app_assoc| |set_solver|set_solver].
  apply NoDup_app. split_and!; [done| |done]. intros v Hv1%S1 Hv2%S2%F2. set_solver.
Qed.

Lemma holds_socket L d t pr : holds (E := E) L (socket_code fuel retries whole_next_avail_fd d t pr)
  (λ L' v, if (d =? AF_INET) && (has_bits t SOCK_STREAM || has_bits t SOCK_DGRAM) && negb (v =? -1) then taken L L' [v] else taken L L' []).
Proof.
  unfold socket_code. destruct (d =? AF_INET); cbn [negb andb]; [|apply plain_holds; [plain|intros v; apply taken_nil]].
  destruct (has_bits t SOCK_STREAM || has_bits t SOCK_DGRAM) eqn:Hb; rewrite <-negb_orb, Hb; cbn [negb andb];
    [|apply plain_holds; [plain|intros v; apply taken_nil]].
  apply holds_bind. right. exists id. split; [apply next_avail_fd_allocates|]. intros fd Hfd. change (id fd) with fd. cbn [holds].
  apply (plain_ends_holds _ _ (λ v, v = fd ∨ v = -1)); [apply plain_socket_rest|apply ends_socket_rest|].
  assert (∀ l, NoDup l → l ⊆ [fd] → taken L (fd :: L) l) as Ht.
  { intros l Hd Hl. exists [fd]. split_and!; try done. intros v ->%list_elem_of_singleton. exact Hfd. }
  intros v Hv. destruct (v =? -1) eqn:Hm; cbn [negb]; apply Ht; [constructor|set_solver|apply NoDup_singleton|].
  destruct Hv as [-> | ->]; [set_solver|done].
Qed.
Lemma holds_call L c : holds (E := E) L (call_code fuel retries whole_next_avail_fd c) (λ L' o, taken L L' (option_list o)).
Proof.
  destruct c as [d t pr| | | | | | | | | | | | | | |] eqn:Hc.
  { cbn [call_code]. apply holds_bind. eapply holds_weaken; [|apply holds_socket]. intros L' v Hv.
    cbn [holds mret code_ret]. cbv beta in Hv. by destruct (_ && _ && _). }
  all: pose proof (plain_call whole_next_avail_fd c) as Hp; rewrite Hc in Hp; destruct Hp as (B & x & -> & Hx);
    apply holds_bind, plain_holds; [exact Hx|intros ?; apply taken_nil].
Qed.
Lemma holds_calls L cs : holds (E := E) L (calls_code fuel retries whole_next_avail_fd cs) (taken L).
Proof.
  revert L. induction cs as [|c cs IH]; intros L; [apply taken_nil|]. cbn [calls_code]. apply holds_bind.
  eapply holds_weaken; [|apply holds_call]. intros L1 o Ho. apply holds_bind. eapply holds_weaken; [|apply IH]. intros L2 l Hl.
  exact (taken_app _ _ _ _ _ Ho Hl).
Qed.
End calls.

(** ** The team's invariant *)

Section team.
Context {E : Type} `{Glibc E}.
Implicit Types s : team E (list Z).

(** Every thread holds descriptors, no two threads the same, all handed out. *)
Record team_ok s : Prop := {
  tm_inv : proc_inv (memory s);
  tm_held : ∃ Ls, Forall2 (λ L t, holds L t.2 (λ L' l, NoDup l ∧ l ⊆ L')) Ls (crew s) ∧ NoDup (concat Ls) ∧
    ∀ v, v ∈ concat Ls → g_startfd (memory s) ≤ v ≤ last_fd_assigned (memory s)
}.
Lemma elem_of_concat (Ls : list (list Z)) v : v ∈ concat Ls ↔ ∃ L, v ∈ L ∧ L ∈ Ls.
Proof. rewrite list_elem_of_In, in_concat. setoid_rewrite list_elem_of_In. naive_solver. Qed.
Lemma concat_insert (Ls : list (list Z)) i L v : Ls !! i = Some L → concat (<[i := v :: L]> Ls) ≡ₚ v :: concat Ls.
Proof.
  intros Hi. rewrite (insert_take_drop Ls i (v :: L)) by (by eapply lookup_lt_Some). rewrite <-(take_drop_middle Ls i L Hi) at 3.
  rewrite !concat_app. cbn. symmetry. apply Permutation_middle.
Qed.
Lemma team_step_ok s s' : tstep s s' → team_ok s → team_ok s' ∧ pool_step (memory s) (memory s').
Proof.
  intros [i Hi] [I (Ls & Hh & Hd & Hr)]. unfold team_step in Hi. destruct (crew s !! i) as [[en [a|B m k]]|] eqn:Ht; try done.
  destruct (m _) as [[b p]|] eqn:Hm; [|done]. injection Hi as <-. destruct (Forall2_lookup_r _ _ _ _ _ Hh Ht) as (L & HL & Hc). cbn in Hc.
  assert (proc_inv (set_errno en (memory s))) as I1 by (by apply (proc_inv_same (memory s))).
  assert (∀ q, pool_step (set_errno en (memory s)) q → pool_step (memory s) (set_errno (errno (memory s)) q)) as Hps.
  { intros q [P1 P2 P3 P4 P5 P6]. constructor; try done. by apply (proc_inv_same q). }
  destruct Hc as [[Hk Hc]|(f & Hf & Hc)].
  - pose proof (Hps _ (Hk _ _ _ I1 Hm)) as P. split; [|exact P]. constructor; [apply P|]. exists Ls. split_and!; [|done|].
    + rewrite <-(list_insert_id Ls i L HL). apply Forall2_insert; [done|]. by eapply Hc.
    + intros v Hv. specialize (Hr v Hv). destruct P as [_ P2 _ P4 _ _]. cbn in *. lia.
  - destruct (Hf _ _ _ I1 Hm) as (P0 & Hl & Hst). pose proof (Hps _ P0) as P. split; [|exact P].
    assert (f b ∉ concat Ls) as Hnew by (intros Hv%Hr; cbn in Hl; lia).
    constructor; [apply P|]. exists (<[i := f b :: L]> Ls). pose proof (concat_insert Ls i L (f b) HL) as Hp. split_and!.
    + apply Forall2_insert; [done|]. apply Hc. intros Hv. apply Hnew, elem_of_concat. eauto using list_elem_of_lookup_2.
    + rewrite Hp. by constructor.
    + intros v Hv. rewrite Hp in Hv. apply elem_of_cons in Hv as [-> |Hv]; destruct P as [_ P2 _ P4 _ _]; cbn in *; [lia|]. specialize (Hr v Hv). lia.
Qed.
Lemma team_run_ok s s' : rtc tstep s s' → team_ok s → team_ok s' ∧ pool_step (memory s) (memory s').
Proof.
  induction 1 as [s|s1 s2 s3 Hs _ IH]; intros I; [split; [done|by apply pool_step_refl; apply I]|].
  destruct (team_step_ok s1 s2 Hs I) as [I2 P]. destruct (IH I2) as [I3 P']. split; [done|by eapply pool_step_trans].
Qed.

Lemma held_by s : team_ok s → ∀ i en l, crew s !! i = Some (en, CRet l) →
  NoDup l ∧ ∀ v, v ∈ l → g_startfd (memory s) ≤ v ≤ last_fd_assigned (memory s).
Proof.
  intros [_ (Ls & Hh & _ & Hr)] i en l Hl. destruct (Forall2_lookup_r _ _ _ _ _ Hh Hl) as (L & HL & Hd & Hs). split; [done|].
  intros v Hv. apply Hr, elem_of_concat. exists L. split; [by apply Hs|by eapply list_elem_of_lookup_2].
Qed.
Lemma concat_apart (Ls : list (list Z)) i j L L' : NoDup (concat Ls) → i ≠ j → Ls !! i = Some L → Ls !! j = Some L' → L ## L'.
Proof.
  revert i j. induction Ls as [|X Ls IH]; intros i j Hd Hne Hi Hj; [done|]. cbn in Hd. apply NoDup_app in Hd as (_ & Hx & Hd).
  assert (∀ n Y, Ls !! n = Some Y → X ## Y) as HX.
  { intros n Y Hn v Hv HY. apply (Hx v Hv), elem_of_concat. exists Y. split; [done|by eapply list_elem_of_lookup_2]. }
  destruct i as [|i], j as [|j]; cbn in *; [done| | |]; simplify_eq; [by eapply HX|intros v H1 H2; by eapply (HX _ _ Hi v)|].
  apply (IH i j); congruence || done.
Qed.
Lemma held_apart s i j en en' l l' : team_ok s → i ≠ j → crew s !! i = Some (en, CRet l) → crew s !! j = Some (en', CRet l') → l ## l'.
Proof.
  intros [_ (Ls & Hh & Hd & _)] Hne Hl Hl'. destruct (Forall2_lookup_r _ _ _ _ _ Hh Hl) as (L & HL & _ & Hs).
  destruct (Forall2_lookup_r _ _ _ _ _ Hh Hl') as (L' & HL' & _ & Hs'). pose proof (concat_apart Ls i j L L' Hd Hne HL HL'). set_solver.
Qed.
Lemma team_start_ok `{Codec} fuel retries p progs : proc_inv p →
  team_ok (mkTeam p ((λ cs, (0, calls_code (E := E) fuel retries whole_next_avail_fd cs)) <$> progs)).
Proof.
  intros Hi. constructor; [done|]. exists ((λ _, []) <$> progs). split_and!.
  - cbn. rewrite Forall2_fmap. apply Forall_Forall2_diag, Forall_true. intros cs. cbn. eapply holds_weaken; [|apply holds_calls].
    intros L' l (N & -> & Hd & Hs & _). split; [done|set_solver].
  - clear. induction progs; [constructor|exact IHprogs].
  - intros v Hv. exfalso. clear -Hv. induction progs; [by apply elem_of_nil in Hv|exact (IHprogs Hv)].
Qed.
End team.

(** ** Properties *)

(** C20. Threads and the descriptor pool, when no allocation is interrupted: in
    every interleaving, at each access to a global and each system call, of
    threads that run any socket calls, as long as [next_avail_fd] runs as a
    whole, the pool's invariant holds throughout, the descriptors that the
    threads' [socket] calls return are in the pool's range (by the assertion
    in [next_avail_fd]), and no two of them are the same, in one thread or in
    two. *)
Theorem serialized_threads_distinct {E} `{Glibc E} `{Codec} fuel retries (p : Proc E) (progs : list (list call)) (s : team E (list Z)) :
  proc_inv p → rtc tstep (mkTeam p ((λ cs, (0, calls_code fuel retries whole_next_avail_fd cs)) <$> progs)) s →
  proc_inv (memory s) ∧ g_startfd (memory s) = g_startfd p ∧ g_fd_count (memory s) = g_fd_count p ∧
  (∀ i en fds, crew s !! i = Some (en, CRet fds) → NoDup fds ∧ Forall (λ fd, is_assigned_by_velox p fd = true) fds) ∧
  (∀ i j en en' fds fds', i ≠ j → crew s !! i = Some (en, CRet fds) → crew s !! j = Some (en', CRet fds') → fds ## fds').
Proof.
  intros Hi Hr. destruct (team_run_ok _ _ Hr) as [I P]; [by apply team_start_ok|]. destruct P as [P1 P2 P3 P4 _ _]. cbn in *.
  split_and!; [done|done|done| |].
  - intros i en fds Hf. destruct (held_by _ I _ _ _ Hf) as (Hd & Hv). split; [done|]. apply Forall_forall. intros v Hin.
    apply is_assigned_spec. specialize (Hv v Hin). pose proof (inv_last _ P1). lia.
  - intros i j en en' fds fds' Hne Hf Hf'. by eapply held_apart.
Qed.

(** Two threads before [socket], and after [next_avail_fd]. *)
Definition two_sockets_code {E} `{Glibc E} `{Codec} (fuel retries : nat) (en en' : Z) (c c' : Z * Z) (p : Proc E) : team E Z :=
  mkTeam p [(en, socket_code fuel retries next_avail_fd_code AF_INET c.1 c.2); (en', socket_code fuel retries next_avail_fd_code AF_INET c'.1 c'.2)].
Definition two_rests {E} `{Glibc E} `{Codec} (fuel retries : nat) (en en' : Z) (c c' : Z * Z) (fd fd' : Z) (p : Proc E) : team E Z :=
  mkTeam p [(en, socket_rest fuel retries AF_INET c.1 c.2 fd); (en', socket_rest fuel retries AF_INET c'.1 c'.2 fd')].
Definition inet_type (t : Z) : Prop := has_bits t SOCK_STREAM || has_bits t SOCK_DGRAM = true.

Section race.
Context {E : Type} `{Glibc E} `{Codec}.
Context (fuel retries : nat).
Implicit Types p : Proc E.

Lemma socket_inet t pr : inet_type t →
  socket_code (E := E) fuel retries next_avail_fd_code AF_INET t pr = next_avail_fd_code ≫= socket_rest fuel retries AF_INET t pr.
Proof. unfold inet_type. intros Ht. unfold socket_code. cbn [Z.eqb AF_INET]. by rewrite <-negb_orb, Ht. Qed.

(** The assertion passes. *)
Lemma check_passes p : last_fd_assigned p < g_startfd p + g_fd_count p - 1 →
  (p ← get_st; assert_ (last_fd_assigned p <? g_startfd p + g_fd_count p - 1)) p = Ok (tt, p).
Proof. intros Hl. run_m. by rewrite (proj2 (Z.ltb_lt _ _) Hl). Qed.
Ltac moves Hl := repeat (erewrite run_team_cons; [|reflexivity|first [apply check_passes; exact Hl|reflexivity]]).

(** Both threads load before either stores. *)
Lemma race_same en en' c c' p : inet_type c.1 → inet_type c'.1 → last_fd_assigned p < g_startfd p + g_fd_count p - 1 →
  run_team [0; 1; 0; 1; 0; 1]%nat (two_sockets_code fuel retries en en' c c' p) =
    Ok (two_rests fuel retries en en' c c' (last_fd_assigned p + 1) (last_fd_assigned p + 1) (set_last (last_fd_assigned p + 1) p)).
Proof.
  intros Hc Hc' Hl. unfold two_sockets_code. rewrite !socket_inet by done. destruct p as [st n la tb pc er sp nm ev]. cbn in Hl.
  moves Hl. reflexivity.
Qed.
(** Both threads pass the assertion before either increments. *)
Lemma race_past_end en en' c c' p : inet_type c.1 → inet_type c'.1 → last_fd_assigned p < g_startfd p + g_fd_count p - 1 →
  run_team [0; 1; 0; 0; 1; 1]%nat (two_sockets_code fuel retries en en' c c' p) =
    Ok (two_rests fuel retries en en' c c' (last_fd_assigned p + 1) (last_fd_assigned p + 1 + 1) (set_last (last_fd_assigned p + 1 + 1) p)).
Proof.
  intros Hc Hc' Hl. unfold two_sockets_code. rewrite !socket_inet by done. destruct p as [st n la tb pc er sp nm ev]. cbn in Hl.
  moves Hl. reflexivity.
Qed.
End race.

(** C19. As it is written, [next_avail_fd] can be interrupted: when two threads
    call [socket] at the same time and the pool has a descriptor left, there is
    an interleaving after which both hold the same descriptor, so whatever
    happens next each call returns that descriptor or -1; and when exactly one is
    left, there is one in which both pass the assertion and the second thread
    gets the number behind the pool, whose store in [g_chan_table] is outside the
    array. *)
Theorem socket_race {E} `{Glibc E} `{Codec} fuel retries en en' c c' (p : Proc E) :
  proc_inv p → inet_type c.1 → inet_type c'.1 → last_fd_assigned p < g_startfd p + g_fd_count p - 1 →
  let fd := last_fd_assigned p + 1 in
  let s1 := two_rests fuel retries en en' c c' fd fd (set_last fd p) in
  let s2 := two_rests fuel retries en en' c c' fd (fd + 1) (set_last (fd + 1) p) in
  rtc tstep (two_sockets_code fuel retries en en' c c' p) s1 ∧
  (∀ s' i e v, rtc tstep s1 s' → crew s' !! i = Some (e, CRet v) → v = fd ∨ v = -1) ∧
  (fd = g_startfd p + g_fd_count p - 1 →
     rtc tstep (two_sockets_code fuel retries en en' c c' p) s2 ∧ is_assigned_by_velox (memory s2) (fd + 1) = false ∧
     ∀ ch, set_fd_chanmap (fd + 1) ch (memory s2) = Fault OutOfBounds).
Proof.
  intros Hi Hc Hc' Hl fd s1 s2. split_and!.
  - eapply run_team_rtc. by apply race_same.
  - intros s' i e v Hr Hv. assert (Forall (λ t, ends (λ v, v = fd ∨ v = -1) t.2) (crew s')) as Hends.
    { apply (ends_run _ s1 s' Hr). repeat constructor; apply ends_socket_rest. }
    rewrite Forall_lookup in Hends. exact (Hends i (e, CRet v) Hv).
  - intros Hlast. split_and!.
    + eapply run_team_rtc. by apply race_past_end.
    + apply not_true_iff_false. rewrite is_assigned_spec. cbn. lia.
    + intros ch. destruct (inv_table _ Hi) as (t & Ht & Hlen). unfold set_fd_chanmap, chan_index. cbn. rewrite Ht.
      replace (in_range _ _ _) with false; [done|]. symmetry. apply not_true_iff_false. rewrite in_range_true. lia.
Qed.

(** ** Concrete runs *)

(** A thread that opens a TCP socket beside one that opens a UDP socket. *)
Definition pool_answers : list Response := [answer (RetSocket (mkRet 0 None)); answer (RetSocket (mkRet 0 None)); answer (RetSocket (mkRet 0 None))].
Definition pool_memory : Proc script := sample_proc 4 4095 [0; 0; 0; 0] pool_answers.
Definition pool_programs : list (list call) := [[CSocket AF_INET SOCK_STREAM 0]; [CSocket AF_INET SOCK_DGRAM 0]].
(** The threads alternate. *)
Definition alternate (n : nat) : list nat := concat (replicate n [0; 1]%nat).
Definition team_of {A} (r : res (team script A)) (d : team script A) : team script A := match r with Ok s => s | Fault _ => d end.
Definition start_team : team script (list Z) := mkTeam pool_memory ((λ cs, (0, calls_code 0 0 whole_next_avail_fd cs)) <$> pool_programs).
Definition end_team : team script (list Z) := team_of (run_team (alternate 8) start_team) start_team.

Lemma serialized_threads_distinct_witness :
  crew end_team = [(0, CRet [4096]); (0, CRet [4097])] ∧ [4096] ## [4097] ∧ proc_inv (memory end_team).
Proof.
  assert (crew end_team = [(0, CRet [4096]); (0, CRet [4097])]) as Hc by (vm_compute; reflexivity). split; [exact Hc|].
  destruct (serialized_threads_distinct 0 0 pool_memory pool_programs end_team) as (Hi & _ & _ & _ & Hd).
  - split; cbn; [lia|lia|lia|eauto].
  - apply (run_team_rtc (alternate 8)). vm_compute. reflexivity.
  - split; [|exact Hi]. apply (Hd 0%nat 1%nat 0 0); [done|by rewrite Hc|by rewrite Hc].
Defined.

Definition racing : team script Z := two_sockets_code 0 0 0 0 (SOCK_STREAM, 0) (SOCK_DGRAM, 0) pool_memory.
Definition raced : team script Z := team_of (run_team (alternate 10) racing) racing.
Lemma socket_race_witness :
  crew raced = [(0, CRet 4096); (0, CRet 4096)] ∧ g_chan_table (memory raced) = Some [11; 0; 0; 0] ∧
  (∀ s' i e v, rtc tstep (two_rests 0 0 0 0 (SOCK_STREAM, 0) (SOCK_DGRAM, 0) 4096 4096 (set_last 4096 pool_memory)) s' → crew s' !! i = Some (e, CRet v) →
     v = 4096 ∨ v = -1).
Proof.
  split; [vm_compute; reflexivity|]. split; [vm_compute; reflexivity|].
  apply (socket_race 0 0 0 0 (SOCK_STREAM, 0) (SOCK_DGRAM, 0) pool_memory);
    [split; cbn; [lia|lia|lia|eauto]|reflexivity|reflexivity|cbn; lia].
Defined.
