(* ===== verification/InterceptorSpec.v ===== *)
(** * What the interposed calls do

    The functional behaviour of the calls of [Interceptor.v] against an
    environment described by what it answers: [exchange] says that the channel
    takes a request and delivers a response, possibly after failed reads and
    [WAIT_NEXT] messages.  The theorems cover pass-through, allocation, data
    transfer, teardown, [poll] and [select], on success and on error. *)

From S2P Require Import Prelude Rpc Glibc Script Channel FdPool Interceptor PoolInv.

Section spec.
Context {E : Type} `{Glibc E} `{Codec} `{!CodecLaws}.
Context (fuel retries : nat).

(** The channel [ch] takes the packed request whole and delivers [resp]. *)
Definition exchange (ch : Z) (req : Request) (e : E) (resp : Response) (e' : E) : Prop :=
  let bs := request_pack req in
  length bs ≤ RPC_MESSAGE_MAX_SIZE ∧
  ∃ en e1 k, g_write ch bs (length bs) e = ((Z.of_nat (length bs), en), e1) ∧
    delivers ch retries k e1 resp e' ∧ (k ≤ fuel)%nat.

Lemma send_recv_ok ch req (p : Proc E) resp e' :
  exchange ch req (env p) resp e' →
  ∃ p1 p2, chan_send ch req p = Ok (tt, p1) ∧ chan_recv fuel retries ch p1 = Ok (resp, p2) ∧
    same_globals p p1 ∧ same_globals p p2 ∧ env p2 = e'.
Proof.
  intros (Hlen & en & e1 & k & Hw & Hd & Hk).
  set (p1 := match en with Some n => set_errno n (set_env e1 p) | None => set_env e1 p end).
  assert (same_globals p p1 ∧ env p1 = e1) as [Hg1 He1] by (subst p1; by destruct en).
  destruct (chan_recv_loop_spec ch retries k e1 resp e' Hd fuel p1 Hk He1) as (p2 & Hr & Hg2 & He2).
  exists p1, p2. split_and!; [|done|done|by etrans|done].
  unfold chan_send. rewrite (proj2 (Z.leb_le _ _) Hlen).
  rewrite (M_bind_ok _ _ _ tt p); [|done].
  mstep (syscall_eq _ _ _ _ _ Hw). by rewrite Z.eqb_refl.
Qed.

Lemma rpc_ok fd ch c (p : Proc E) resp e' :
  proc_inv p → chan_of p fd = Some ch →
  exchange ch (mkRequest (self_pid p) (Some c)) (env p) resp e' →
  ∃ p', rpc fuel retries fd c p = Ok (resp, p') ∧ same_globals p p' ∧ env p' = e'.
Proof.
  intros Hi Hc Hx. destruct (send_recv_ok _ _ _ _ _ Hx) as (p1 & p2 & Hs & Hr & Hg1 & Hg2 & He).
  exists p2. split; [|done]. unfold rpc.
  rewrite (M_bind_ok _ _ _ (self_pid p) p) by done.
  mstep (fd_chanmap_ok _ _ _ Hi Hc).
  mstep Hs.
  assert (fd_chanmap fd p1 = Ok (ch, p1)) as Hc1.
  { apply fd_chanmap_ok; [by eapply proc_inv_same|]. by rewrite <-(chan_of_same _ _ _ Hg1). }
  by mstep Hc1.
Qed.

Lemma chan_of_assigned (p : Proc E) fd ch : chan_of p fd = Some ch → is_assigned_by_velox p fd = true.
Proof. unfold chan_of. by destruct (is_assigned_by_velox p fd). Qed.

(** [return_ret_errno] on the two kinds of answer. *)
Lemma return_ok r (p : Proc E) : ret r ≠ -1 → return_ret_errno r p = Ok (ret r, p).
Proof. intros Hr. unfold return_ret_errno. by rewrite (proj2 (Z.eqb_neq _ _) Hr). Qed.
Lemma return_error r e (p : Proc E) : ret r = -1 → errno_ r = Some e →
  return_ret_errno r p = Ok (-1, set_errno e p).
Proof. intros Hr He. unfold return_ret_errno. rewrite Hr, He. done. Qed.

(** The common outcome of an answered call: what [return_ret_errno] gives. *)
Lemma return_ret_errno_spec r (p : Proc E) :
  (ret r = -1 → is_Some (errno_ r)) →
  ∃ p', return_ret_errno r p = Ok (ret r, p') ∧ same_globals p p' ∧ env p' = env p ∧
        (ret r = -1 → errno_ r = Some (errno p')).
Proof.
  intros Hw. destruct (decide (ret r = -1)) as [Hr|Hr].
  - destruct (Hw Hr) as [e He]. exists (set_errno e p). rewrite (return_error _ _ _ Hr He), Hr. done.
  - exists p. rewrite return_ok by done. done.
Qed.

Ltac start_call Hc :=
  mstep (eq_refl : get_st _ = Ok (_, _));
  rewrite ?(chan_of_assigned _ _ _ Hc); cbn [negb].

Lemma connect_ok fd ch (p : Proc E) addr r e' :
  proc_inv p → chan_of p fd = Some ch → length addr = 16%nat →
  exchange ch (mkRequest (self_pid p) (Some (CallConnect addr))) (env p)
    (mkResponse (Some RC_OK) (Some (RetConnect r))) e' →
  (ret r = -1 → is_Some (errno_ r)) →
  ∃ p', connect fuel retries fd addr 16 p = Ok (ret r, p') ∧ same_globals p p' ∧ env p' = e' ∧
        (ret r = -1 → errno_ r = Some (errno p')).
Proof.
  intros Hi Hc Hlen Hx Hw. destruct (rpc_ok _ _ _ _ _ _ Hi Hc Hx) as (p1 & Hr & Hg & He).
  destruct (return_ret_errno_spec r p1 Hw) as (p2 & Hret & Hg2 & He2 & Herr).
  exists p2. split_and!; [|by etrans|congruence|done].
  unfold connect. start_call Hc.
  rewrite (M_bind_ok _ _ _ tt p) by done.
  rewrite (M_bind_ok _ _ _ addr p).
  2: { replace (slice addr 0 16) with (Some addr); [done|]. symmetry. apply slice_Some.
       split_and!; [lia|lia|lia|]. change (Z.to_nat 16) with 16%nat.
       rewrite drop_0, <-Hlen. by rewrite firstn_all. }
  by mstep Hr.
Qed.

Lemma recvfrom_rpc fd ch (p : Proc E) cap len flags src addrlen resp e' :
  proc_inv p → chan_of p fd = Some ch → len ≠ 0 →
  exchange ch (mkRequest (self_pid p) (Some (CallRecvfrom (i32 len) flags (bool_decide (is_Some src)))))
    (env p) resp e' →
  ∃ p1, same_globals p p1 ∧ env p1 = e' ∧
    rpc fuel retries fd (CallRecvfrom (i32 len) flags (bool_decide (is_Some src))) p = Ok (resp, p1) ∧
    recvfrom fuel retries fd (Some cap) len flags src addrlen p =
      match returning resp with
      | Some (RetRecvfrom r rbuf raddr) =>
          (data ← (if 0 <? ret r then
                    let d := default [] rbuf in
                    if Z.of_nat (length d) <=? cap then mret d else fail OutOfBounds
                  else mret []);
           '(a, l) ← match src, raddr with
                    | Some acap, Some ab =>
                        if 0 <? ret r then
                          ab ← lift_res (of_option OutOfBounds (slice ab 0 sizeof_sockaddr_in));
                          if sizeof_sockaddr_in <=? acap then
                            match addrlen with
                            | None => fail NullDeref
                            | Some _ => mret (Some ab, Some sizeof_sockaddr_in)
                            end
                          else fail OutOfBounds
                        else mret (None, addrlen)
                    | _, _ => mret (None, addrlen)
                    end;
           v ← return_ret_errno r; mret (mkRecv v data a l)) p1
      | _ => Fault AssertFail
      end.
Proof.
  intros Hi Hc Hl Hx. destruct (rpc_ok _ _ _ _ _ _ Hi Hc Hx) as (p1 & Hr & Hg & He).
  exists p1. split_and!; try done.
  unfold recvfrom, recvfrom_result. start_call Hc. rewrite (proj2 (Z.eqb_neq _ _) Hl).
  mstep Hr. by destruct (returning resp) as [[]|].
Qed.
End spec.

(** ** Properties *)

(** C31. Transparency: every interposed call on a descriptor outside the pool
    is exactly the glibc call with the same arguments (result, [errno] and
    environment), and so is [socket] for any domain but [AF_INET]. *)
Theorem passthrough {E} `{Glibc E} `{Codec} fuel retries (p : Proc E) fd :
  is_assigned_by_velox p fd = false →
  (∀ addr l, connect fuel retries fd addr l p = syscall (g_connect fd addr l) p) ∧
  (∀ n, close fuel retries n fd p = syscall (g_close fd) p) ∧
  (∀ b n, read fuel retries fd b n p = syscall (g_read fd b n) p) ∧
  (∀ b n, write fuel retries fd (Some b) n p = syscall (g_write fd b n) p) ∧
  (∀ b n f, send fuel retries fd (Some b) n f p = syscall (g_send fd b n f) p) ∧
  (∀ b n f a l, sendto fuel retries fd (Some b) n f a l p = syscall (g_sendto fd b n f a l) p) ∧
  (∀ b n f, recv fuel retries fd b n f p = syscall (g_recv fd b n f) p) ∧
  (∀ b n f a l, recvfrom fuel retries fd b n f a l p = syscall (g_recvfrom fd b n f a l) p) ∧
  (∀ a l, getpeername fuel retries fd a l p = syscall (g_getpeername fd a l) p) ∧
  (∀ a l, getsockname fuel retries fd a l p = syscall (g_getsockname fd a l) p) ∧
  (∀ l o v n, setsockopt fd l o v n p = syscall (g_setsockopt fd l o v n) p) ∧
  (∀ l o v n, getsockopt fd l o v n p = syscall (g_getsockopt fd l o v n) p) ∧
  (∀ c a, fcntl fd c a p = syscall (g_fcntl fd c a) p) ∧
  (∀ d t pr, d ≠ AF_INET → socket fuel retries d t pr p = syscall (g_socket d t pr) p).
Proof.
  intros Hfd. split_and!; intros;
    unfold connect, read, write, send, sendto, recv, recvfrom, getpeername, getsockname,
      setsockopt, getsockopt, fcntl; try (destruct n; cbn [close]);
    try (rewrite (M_bind_ok _ _ _ p p) by done; rewrite ?Hfd; done).
  unfold socket. by rewrite (proj2 (Z.eqb_neq _ _)).
Qed.

Lemma passthrough_witness :
  is_assigned_by_velox pool_proc 5 = false ∧
  close 0 0 0 5 pool_proc = syscall (g_close 5) pool_proc.
Proof.
  split; [reflexivity|]. apply (passthrough 0 0 pool_proc 5 eq_refl).
Defined.

(** Waiting is invisible to the caller: [chan_recv] skips any number [k]
    of [WAIT_NEXT] messages and any number of failed reads before each message
    (up to its fuel) and returns the first other message, leaving the
    interceptor's globals as they were. *)
Theorem recv_skips_wait_next {E} `{Glibc E} `{Codec} `{!CodecLaws} fuel retries k ch (p : Proc E) resp e' :
  delivers ch retries k (env p) resp e' → (k ≤ fuel)%nat →
  ∃ p', chan_recv fuel retries ch p = Ok (resp, p') ∧ same_globals p p' ∧ env p' = e'.
Proof. intros Hd Hk. by eapply chan_recv_loop_spec. Qed.

Definition waiting_proc : Proc script :=
  sample_proc 4 4096 [10; 0; 0; 0]
    [wait_next (RetRecvfrom (mkRet 0 None) None None); answer (RetRecvfrom (mkRet 2 None) (Some [7; 8]) None)].

Lemma waiting_proc_inv : proc_inv waiting_proc.
Proof. split; cbn; [lia|lia|lia|eauto]. Qed.

Lemma waiting_delivers : ∃ e', delivers 10 0 1 (env waiting_proc)
  (answer (RetRecvfrom (mkRet 2 None) (Some [7; 8]) None)) e'.
Proof.
  eexists. eapply (delivers_wait 10 0 0 0 _ (wait_next (RetRecvfrom (mkRet 0 None) None None))); [lia| | |reflexivity|].
  - apply reads_now. exists None, None, None. reflexivity.
  - split; [by eexists|]. cbn. unfold ret_wf, in_i32. cbn. lia.
  - eapply (delivers_last _ _ 0%nat); [lia| | |reflexivity].
    + apply reads_now. exists None, None, None. reflexivity.
    + split; [by eexists|]. cbn. unfold ret_wf, in_i32, blob_ok. cbn.
      split_and!; try lia. repeat constructor; done.
Qed.

Lemma recv_skips_wait_next_witness :
  ∃ p', chan_recv 1 0 10 waiting_proc = Ok (answer (RetRecvfrom (mkRet 2 None) (Some [7; 8]) None), p').
Proof.
  destruct waiting_delivers as [e' Hd].
  destruct (recv_skips_wait_next 1 0 1 10 waiting_proc _ e' Hd) as (p' & Hr & _); [lia|].
  exists p'. exact Hr.
Defined.

(** A read that keeps failing never ends: when the environment answers
    every read of the channel with -1, whatever the error number (not only
    [EINTR]), [chan_recv] returns with no amount of fuel. *)
Theorem recv_error_never_returns {E} `{Glibc E} `{Codec} fuel retries ch (p : Proc E) :
  (∀ e, ∃ out en e', g_read ch (Some RPC_MESSAGE_MAX_SIZE) RPC_MESSAGE_MAX_SIZE e = ((out, en), e') ∧
     r_ret out = -1) →
  chan_recv fuel retries ch p = Fault OutOfFuel.
Proof.
  intros Hfail. assert (∀ n q, read_retry n ch q = Fault OutOfFuel) as Hr.
  { induction n as [|n IH]; intros q; destruct (Hfail (env q)) as (out & en & e' & Hg & Hm1);
      cbn [read_retry]; rewrite (M_bind_ok _ _ _ _ _ (syscall_eq _ _ _ _ _ Hg)), Hm1; [done|].
    apply IH. }
  unfold chan_recv. destruct fuel; cbn [chan_recv_loop]; by rewrite (M_bind_fault _ _ _ _ (Hr retries p)).
Qed.

(** A process whose channel was reset: every read fails with [ECONNRESET]. *)
Definition broken_glibc : Glibc unit := {|
  g_socket := λ _ _ _ e, ((-1, Some 104), e); g_connect := λ _ _ _ e, ((-1, Some 104), e);
  g_close := λ _ e, ((0, None), e); g_read := λ _ _ _ e, ((mkRecv (-1) [] None None, Some 104), e);
  g_write := λ _ _ _ e, ((-1, Some 104), e); g_send := λ _ _ _ _ e, ((-1, Some 104), e);
  g_sendto := λ _ _ _ _ _ _ e, ((-1, Some 104), e); g_recv := λ _ _ _ _ e, ((mkRecv (-1) [] None None, Some 104), e);
  g_recvfrom := λ _ _ _ _ _ _ e, ((mkRecv (-1) [] None None, Some 104), e);
  g_poll := λ fds _ _ e, ((0, fds, None), e); g_select := λ _ _ _ _ _ e, ((no_select, None), e);
  g_getpeername := λ _ _ l e, ((mkName (-1) [] l, Some 104), e); g_getsockname := λ _ _ l e, ((mkName (-1) [] l, Some 104), e);
  g_getsockopt := λ _ _ _ _ l e, ((mkOpt (-1) None l, Some 104), e); g_setsockopt := λ _ _ _ _ _ e, ((-1, Some 104), e);
  g_fcntl := λ _ _ _ e, ((-1, Some 104), e); g_malloc := λ _ e, (true, e)
|}.

Lemma recv_error_never_returns_witness :
  chan_recv (H := broken_glibc) 1000 1000 10 (mkProc 4096 4 4095 (Some [10; 0; 0; 0]) 3 0 77 [] tt) = Fault OutOfFuel.
Proof.
  apply (@recv_error_never_returns unit broken_glibc _ 1000 1000 10).
  intros e. eexists _, _, _. split; [reflexivity|done].
Defined.

Lemma recvfrom_ok {E} `{Glibc E} `{Codec} `{!CodecLaws} fuel retries (p : Proc E)
    fd ch cap len flags src addrlen d raddr e' :
  proc_inv p → chan_of p fd = Some ch → len ≠ 0 →
  exchange fuel retries ch
    (mkRequest (self_pid p) (Some (CallRecvfrom (i32 len) flags (bool_decide (is_Some src)))))
    (env p) (answer (RetRecvfrom (mkRet (length d) None) (Some d) raddr)) e' →
  d ≠ [] → length d ≤ cap →
  (is_Some src → is_Some addrlen) → opt_ok (λ c, 16 ≤ c) src → opt_ok (λ a, length a = 16%nat) raddr →
  ∃ p', same_globals p p' ∧ env p' = e' ∧
    recvfrom fuel retries fd (Some cap) len flags src addrlen p =
      Ok (match src, raddr with
          | Some _, Some a => mkRecv (length d) d (Some a) (Some 16)
          | _, _ => mkRecv (length d) d None addrlen
          end, p').
Proof.
  intros Hi Hc Hl Hx Hd Hcap Hal Hs Ha.
  destruct (recvfrom_rpc fuel retries fd ch p cap len flags src addrlen _ e' Hi Hc Hl Hx)
    as (p1 & Hg & He & _ & Hr).
  exists p1. split_and!; [done|done|]. rewrite Hr. cbn [returning answer ret from_option id]; cbv zeta.
  assert (0 < length d) by (destruct d; cbn; [done|lia]).
  rewrite (proj2 (Z.ltb_lt _ _)), (proj2 (Z.leb_le _ _) Hcap) by done.
  rewrite (M_bind_ok _ _ _ d p1) by done.
  assert (∀ q : Proc E, return_ret_errno (mkRet (length d) None) q = Ok (Z.of_nat (length d), q)) as Hret.
  { intros q. apply return_ok. cbn. lia. }
  destruct src as [acap|], raddr as [a|]; cbn in Hs, Ha;
    try (rewrite (M_bind_ok _ _ _ (None, addrlen) p1) by done; by rewrite (M_bind_ok _ _ _ _ _ (Hret p1))).
  destruct (Hal ltac:(by eexists)) as [al ->].
  replace (slice a 0 sizeof_sockaddr_in) with (Some a).
  2: { symmetry. apply slice_Some. unfold sizeof_sockaddr_in. split_and!; [lia|lia|lia|].
       change (Z.to_nat 16) with 16%nat. rewrite drop_0, <-Ha. by rewrite firstn_all. }
  unfold sizeof_sockaddr_in in *. rewrite (proj2 (Z.leb_le _ _) Hs).
  rewrite (M_bind_ok _ _ _ (Some a, Some 16) p1) by done. by mstep (Hret p1).
Qed.

(** Data arrives: a [recvfrom] on a pool descriptor answered with [d] (the
    response's [ret] is its length) returns that length and stores exactly [d]
    in the caller's buffer when it fits, and the sender's 16-byte address with
    [*addrlen = 16] when the caller asked for it and the daemon sent one. *)
Theorem recvfrom_data {E} `{Glibc E} `{Codec} `{!CodecLaws} fuel retries (p : Proc E)
    fd ch cap len flags src addrlen d raddr e' :
  proc_inv p → chan_of p fd = Some ch → len ≠ 0 →
  exchange fuel retries ch
    (mkRequest (self_pid p) (Some (CallRecvfrom (i32 len) flags (bool_decide (is_Some src)))))
    (env p) (answer (RetRecvfrom (mkRet (length d) None) (Some d) raddr)) e' →
  d ≠ [] → length d ≤ cap →
  (is_Some src → is_Some addrlen) → opt_ok (λ c, 16 ≤ c) src → opt_ok (λ a, length a = 16%nat) raddr →
  ∃ p', same_globals p p' ∧ env p' = e' ∧
    recvfrom fuel retries fd (Some cap) len flags src addrlen p =
      Ok (match src, raddr with
          | Some _, Some a => mkRecv (length d) d (Some a) (Some 16)
          | _, _ => mkRecv (length d) d None addrlen
          end, p').
Proof. apply recvfrom_ok. Qed.

(** The answer [waiting_proc] receives, as an exchange. *)
Lemma waiting_exchange : ∃ e', exchange 1 0 10
  (mkRequest (self_pid waiting_proc) (Some (CallRecvfrom (i32 2) 0 (bool_decide (is_Some (None : option Z))))))
  (env waiting_proc) (answer (RetRecvfrom (mkRet (length [7; 8]) None) (Some [7; 8]) None)) e'.
Proof.
  eexists. split; [vm_compute; discriminate|]. eexists _, _, 1%nat. split; [reflexivity|]. split; [|lia].
  eapply (delivers_wait 10 0 0 0 _ (wait_next (RetRecvfrom (mkRet 0 None) None None))); [lia| | |reflexivity|].
  - apply reads_now. exists None, None, None. reflexivity.
  - split; [by eexists|]. cbn. unfold ret_wf, in_i32. cbn. lia.
  - eapply (delivers_last _ _ 0%nat); [lia| | |reflexivity].
    + apply reads_now. exists None, None, None. reflexivity.
    + split; [by eexists|]. cbn. unfold ret_wf, in_i32, blob_ok. cbn.
      split_and!; try lia. repeat constructor; done.
Qed.

Lemma recvfrom_data_witness :
  ∃ p', recvfrom 1 0 4096 (Some 2) 2 0 None None waiting_proc = Ok (mkRecv 2 [7; 8] None None, p').
Proof.
  destruct waiting_exchange as [e' Hx].
  destruct (recvfrom_data 1 0 waiting_proc 4096 10 2 2 0 None None [7; 8] None e'
              waiting_proc_inv eq_refl ltac:(lia) Hx ltac:(done) ltac:(cbn; lia)
              ltac:(by intros [? ?]) I I) as (p' & _ & _ & Hr).
  exists p'. exact Hr.
Defined.

(** C40. The copy into the caller's buffer is not bounded by its length: when
    the daemon answers with more bytes than the buffer holds, [recvfrom] writes
    past its end ([memcpy] uses the message's length, not [len]). *)
Theorem recvfrom_overflow {E} `{Glibc E} `{Codec} `{!CodecLaws} fuel retries (p : Proc E)
    fd ch cap len flags src addrlen d raddr e' :
  proc_inv p → chan_of p fd = Some ch → len ≠ 0 →
  exchange fuel retries ch
    (mkRequest (self_pid p) (Some (CallRecvfrom (i32 len) flags (bool_decide (is_Some src)))))
    (env p) (answer (RetRecvfrom (mkRet (length d) None) (Some d) raddr)) e' →
  0 ≤ cap < length d →
  recvfrom fuel retries fd (Some cap) len flags src addrlen p = Fault OutOfBounds.
Proof.
  intros Hi Hc Hl Hx Hcap.
  destruct (recvfrom_rpc fuel retries fd ch p cap len flags src addrlen _ e' Hi Hc Hl Hx)
    as (p1 & Hg & He & _ & Hr).
  rewrite Hr. cbn [returning answer ret from_option id]; cbv zeta.
  rewrite (proj2 (Z.ltb_lt _ _)), (proj2 (Z.leb_gt _ _)) by lia. done.
Qed.

Lemma recvfrom_overflow_witness :
  recvfrom 1 0 4096 (Some 1) 2 0 None None waiting_proc = Fault OutOfBounds.
Proof.
  destruct waiting_exchange as [e' Hx].
  exact (recvfrom_overflow 1 0 waiting_proc 4096 10 1 2 0 None None [7; 8] None e'
           waiting_proc_inv eq_refl ltac:(lia) Hx ltac:(cbn; lia)).
Defined.
