(* ===== verification/MessagesSpec.v ===== *)
(** * Every response is freed once

    The calls over the heap of messages (Messages.v) compute what the calls of
    Interceptor.v compute and give back every message they unpacked. *)

From stdpp Require Import strings.
From S2P Require Import Prelude Rpc Wire Descriptors Glibc Channel FdPool Interceptor Messages.

Section spec.
Context {E : Type} `{Glibc E} `{Codec}.
Context (fuel retries : nat).
Implicit Types s : CProc E.

(** Identifiers not yet given out are free. *)
Definition heap_wf s : Prop := ∀ i, is_Some (cells s !! i) → (i < next_cell s)%nat.

(** [mc] does to the process what [m] does, and changes the live messages by
    [f]. *)
Definition acts {A} (P : gmap nat CMessage → Prop) (f : gmap nat CMessage → gmap nat CMessage) (mc : C E A) (m : M (Proc E) A) : Prop :=
  ∀ s, heap_wf s → P (cells s) →
  match m (proc s) with
  | Ok (a, p') => ∃ n, mc s = Ok (a, mkCProc p' (f (cells s)) n) ∧ (next_cell s ≤ n)%nat
  | Fault x => mc s = Fault x
  end.
(** No message more, none less. *)
Definition implements {A} (mc : C E A) (m : M (Proc E) A) : Prop := acts (λ _, True) (λ h, h) mc m.
(** The message [i], which holds the response [r], is live before and freed
    after. *)
Definition frees {A} (i : nat) (r : Response) (mc : C E A) (m : M (Proc E) A) : Prop :=
  acts (λ h, h !! i = Some (mkCMessage (m_sizeof response__descriptor) (inr r))) (delete i) mc m.

Lemma implements_lift {A} (m : M (Proc E) A) : implements (lift m) m.
Proof. intros s Hw _. unfold lift. destruct (m (proc s)) as [[a p']|]; [|done]. by eexists. Qed.
Lemma implements_ret {A} (a : A) : implements (mret a) (mret a).
Proof. intros s Hw _. cbn. exists (next_cell s). by destruct s. Qed.
Lemma implements_fail {A} f : implements (fail f : C E A) (fail f).
Proof. by intros s Hw _. Qed.
Lemma implements_lift_res {A} (r : res A) : implements (lift_res r) (lift_res r).
Proof. intros s Hw _. destruct r; [|done]. exists (next_cell s). by destruct s. Qed.
Lemma implements_assert b : implements (assert_ b) (assert_ b).
Proof. destruct b; [apply implements_ret|apply implements_fail]. Qed.

(** Sequencing: a step that keeps the messages first. *)
Lemma acts_bind {A B} P f (mc : C E A) m (kc : A → C E B) k :
  implements mc m → (∀ a, acts P f (kc a) (k a)) → acts P f (mc ≫= kc) (m ≫= k).
Proof.
  intros Hm Hk s Hw HP. specialize (Hm s Hw I). cbn beta in Hm. unfold mbind, M_bind. destruct (m (proc s)) as [[a p']|x]; [|by rewrite Hm].
  destruct Hm as (n & -> & Hn). assert (heap_wf (mkCProc p' (cells s) n)) as Hw' by (intros i Hi; cbn; pose proof (Hw i Hi); lia).
  specialize (Hk a _ Hw' HP). cbn in Hk. destruct (k a p') as [[b p'']|]; [|done]. destruct Hk as (n' & -> & Hn'). exists n'. split; [done|lia].
Qed.
(** ... or a step that frees the message first. *)
Lemma frees_bind {A B} i r (mc : C E A) m (kc : A → C E B) k :
  frees i r mc m → (∀ a, implements (kc a) (k a)) → frees i r (mc ≫= kc) (m ≫= k).
Proof.
  intros Hm Hk s Hw HP. specialize (Hm s Hw HP). unfold mbind, M_bind. destruct (m (proc s)) as [[a p']|x]; [|by rewrite Hm].
  destruct Hm as (n & -> & Hn). assert (heap_wf (mkCProc p' (delete i (cells s)) n)) as Hw'.
  { intros j Hj. cbn in *. apply lookup_delete_is_Some in Hj as [_ Hj]. pose proof (Hw j Hj). lia. }
  specialize (Hk a _ Hw' I). cbn beta in Hk. cbn in Hk. destruct (k a p') as [[b p'']|]; [|done]. destruct Hk as (n' & -> & Hn'). exists n'. split; [done|lia].
Qed.
Lemma frees_fail {A} i r f : frees i r (fail f : C E A) (fail f).
Proof. by intros s Hw _. Qed.
Lemma frees_read {A} i r (kc : Response → C E A) m : frees i r (kc r) m → frees i r (response_at (Some i) ≫= kc) m.
Proof. intros Hk s Hw HP. specialize (Hk s Hw HP). unfold response_at, message_at, mbind, M_bind. by rewrite HP. Qed.
Lemma frees_free i r : frees i r (response__free_unpacked (Some i)) (mret tt).
Proof.
  intros s Hw HP. unfold response__free_unpacked, message_at, check_descriptor, mbind, M_bind. rewrite HP. cbn.
  exists (next_cell s). by split.
Qed.
Lemma frees_member {A B} i r (sel : Returning → option A) (kc : A → C E B) m :
  (∀ a, returning r ≫= sel = Some a → frees i r (kc a) m) → (returning r ≫= sel = None → m = fail AssertFail) →
  frees i r (member sel (Some i) ≫= kc) m.
Proof.
  intros Hs Hn s Hw HP.
  assert (member sel (Some i) s = match returning r ≫= sel with Some a => Ok (a, s) | None => Fault AssertFail end) as Hm.
  { unfold member. rewrite (M_bind_ok _ _ s r s); [by destruct (returning r ≫= sel)|]. unfold response_at.
    rewrite (M_bind_ok _ _ s (mkCMessage (m_sizeof response__descriptor) (inr r)) s); [done|]. unfold message_at. by rewrite HP. }
  destruct (returning r ≫= sel) as [a|].
  - rewrite (M_bind_ok _ _ _ _ _ Hm). exact (Hs a eq_refl s Hw HP).
  - rewrite (M_bind_fault _ _ _ _ Hm). by rewrite (Hn eq_refl).
Qed.

Lemma acts_ok {A B} P f (a : A) (kc : A → C E B) m : acts P f (kc a) m → acts P f (lift_res (Ok a) ≫= kc) m.
Proof. intros Hk s Hw HP. rewrite (M_bind_ok _ _ s a s) by done. by apply Hk. Qed.
Lemma acts_proper {A} P f (mc mc' : C E A) m m' : (∀ s, mc s = mc' s) → (∀ p, m p = m' p) → acts P f mc' m' → acts P f mc m.
Proof. intros Hc Hm Ha s Hw HP. rewrite Hc, Hm. by apply Ha. Qed.
Lemma bind_bind {S A B B'} (m : M S A) (f : A → M S B) (g : B → M S B') x : ((m ≫= f) ≫= g) x = (m ≫= λ a, f a ≫= g) x.
Proof. unfold mbind, M_bind. by destruct (m x) as [[]|]. Qed.
Lemma acts_assoc {A B B' A0 B0} P f (mc : C E A) (gc : A → C E B) (kc : B → C E B') (m : M (Proc E) A0) (g : A0 → M (Proc E) B0) (k : B0 → M (Proc E) B') :
  acts P f (mc ≫= λ a, gc a ≫= kc) (m ≫= λ a, g a ≫= k) → acts P f ((mc ≫= gc) ≫= kc) ((m ≫= g) ≫= k).
Proof. apply acts_proper; intros; apply bind_bind. Qed.

Lemma frees_then {A} i r (kc : unit → C E A) m : implements (kc tt) m → frees i r (response__free_unpacked (Some i) ≫= kc) m.
Proof.
  intros Hk. apply (acts_proper _ _ _ (response__free_unpacked (Some i) ≫= kc) m (mret tt ≫= λ _, m)); [done|done|].
  apply frees_bind; [apply frees_free|]. by intros [].
Qed.

(** ** Sending and receiving *)

Lemma implements_send ch pid c : implements (chan_send_c ch (fill_request pid c REQUEST__INIT)) (chan_send ch (mkRequest pid (Some c))).
Proof.
  unfold chan_send_c, chan_send, request__get_packed_size, request__pack, check_descriptor, fill_request, protobuf_c_message_pack. cbn [base_descriptor contents].
  rewrite decide_True by done. apply acts_ok, acts_bind; [apply implements_assert|]. intros _. apply acts_ok.
  apply acts_bind; [apply implements_lift|]. intros n. apply implements_assert.
Qed.

(** A message is unpacked and what follows frees it. *)
Lemma implements_unpack {B} bs (kc : option nat → C E B) (k : Response → M (Proc E) B) :
  (∀ i r, frees i r (kc (Some i)) (k r)) → (∀ s, kc None s = Fault NullDeref) →
  implements (response__unpack bs ≫= kc) (deref (response_unpack bs) ≫= k).
Proof.
  intros Hk Hn s Hw _. unfold response__unpack, protobuf_c_message_unpack. rewrite decide_False by done.
  destruct (response_unpack bs) as [r|]; cbn [fmap option_fmap option_map].
  - rewrite (M_bind_ok (deref _) _ _ r (proc s)) by done. set (i := next_cell s). set (m := mkCMessage _ _).
    rewrite (M_bind_ok _ _ s (Some i) (mkCProc (proc s) (<[i := m]> (cells s)) (S i))) by done.
    assert (cells s !! i = None) as Hi by (apply eq_None_not_Some; intros Hi%Hw; unfold i in Hi; lia).
    assert (heap_wf (mkCProc (proc s) (<[i := m]> (cells s)) (S i))) as Hw'.
    { intros j Hj. cbn in *. apply lookup_insert_is_Some in Hj as [->|[_ Hj]]; [lia|]. pose proof (Hw j Hj). unfold i. lia. }
    specialize (Hk i r _ Hw'). cbn [cells proc next_cell] in Hk. specialize (Hk (lookup_insert_eq _ _ _)).
    rewrite delete_insert_id in Hk by done. destruct (k r (proc s)) as [[b p']|]; [|done]. destruct Hk as (n & -> & Hle). exists n. split; [done|lia].
  - rewrite (M_bind_fault (deref _) _ _ NullDeref) by done. by rewrite (M_bind_ok _ _ s None s).
Qed.

(** One round of [chan_recv], followed by [next] after a [WAIT_NEXT]. *)
Lemma implements_round {B} ch (kc : option nat → C E B) (k : Response → M (Proc E) B) next_c next :
  (∀ i r, frees i r (kc (Some i)) (k r)) → (∀ i r, frees i r (next_c (Some i) ≫= kc) (next ≫= k)) →
  implements ((r ← lift (read_retry retries ch); _ ← assert_ (negb (r_ret r =? 0));
               resp ← response__unpack (take (Z.to_nat (r_ret r)) (r_data r)); m ← response_at resp;
               if is_wait_next m then next_c resp else mret resp) ≫= kc)
             ((r ← read_retry retries ch; _ ← assert_ (negb (r_ret r =? 0));
               resp ← deref (response_unpack (take (Z.to_nat (r_ret r)) (r_data r)));
               if is_wait_next resp then next else mret resp) ≫= k).
Proof.
  intros Hk Hnext. apply acts_assoc, acts_bind; [apply implements_lift|]. intros x.
  apply acts_assoc, acts_bind; [apply implements_assert|]. intros _. apply acts_assoc, implements_unpack; [|done].
  intros i r. eapply acts_proper; [intros; apply bind_bind|done|]. apply frees_read. destruct (is_wait_next r); [apply Hnext|apply Hk].
Qed.
Lemma implements_recv {B} ch (kc : option nat → C E B) (k : Response → M (Proc E) B) : (∀ i r, frees i r (kc (Some i)) (k r)) →
  ∀ n, implements (chan_recv_c retries n ch None ≫= kc) (chan_recv_loop n retries ch ≫= k) ∧
       ∀ i r, frees i r (chan_recv_c retries n ch (Some i) ≫= kc) (chan_recv_loop n retries ch ≫= k).
Proof.
  intros Hk n. induction n as [|n [_ IH]]; cbn [chan_recv_c chan_recv_loop]; split.
  - apply (implements_round ch kc k (λ _, fail OutOfFuel) (fail OutOfFuel)); [done|]. intros i r. by intros s Hw _.
  - intros i r. eapply acts_proper; [intros; apply bind_bind|done|]. apply frees_then.
    apply (implements_round ch kc k (λ _, fail OutOfFuel) (fail OutOfFuel)); [done|]. intros j r'. by intros s Hw _.
  - by apply (implements_round ch kc k (chan_recv_c retries n ch) (chan_recv_loop n retries ch)).
  - intros i r. eapply acts_proper; [intros; apply bind_bind|done|]. apply frees_then.
    by apply (implements_round ch kc k (chan_recv_c retries n ch) (chan_recv_loop n retries ch)).
Qed.
Lemma implements_chan_recv {B} ch (kc : option nat → C E B) k : (∀ i r, frees i r (kc (Some i)) (k r)) →
  implements (chan_recv_c retries fuel ch None ≫= kc) (chan_recv fuel retries ch ≫= k).
Proof. intros Hk. by apply implements_recv. Qed.
Lemma implements_rpc {B} fd c (kc : option nat → C E B) k : (∀ i r, frees i r (kc (Some i)) (k r)) →
  implements (rpc_c fuel retries fd c ≫= kc) (rpc fuel retries fd c ≫= k).
Proof.
  intros Hk. unfold rpc_c, rpc. do 2 (apply acts_assoc, acts_bind; [apply implements_lift|]; intros ?).
  apply acts_assoc, acts_bind; [apply implements_send|]. intros _. apply acts_assoc, acts_bind; [apply implements_lift|]. intros ch'.
  by apply implements_chan_recv.
Qed.

(** ** The calls *)

Lemma frees_return i r x ok : frees i r (return_ret_errno_c x ok (Some i))
  (if negb (ret x =? -1) then mret ok else match errno_ x with None => fail AssertFail | Some e => _ ← modify (set_errno e); mret (-1) end).
Proof.
  unfold return_ret_errno_c. destruct (negb _); [apply frees_then, implements_ret|]. destruct (errno_ x) as [e|]; [|apply frees_fail].
  apply frees_then. apply acts_bind; [apply implements_lift|]. intros _. apply implements_ret.
Qed.
Lemma implements_socket domain type protocol : implements (socket_c fuel retries domain type protocol) (socket fuel retries domain type protocol).
Proof.
  unfold socket_c, socket. destruct (negb _); [apply implements_lift|]. destruct (_ && _); [apply implements_lift|].
  do 4 (apply acts_bind; [apply implements_lift|]; intros ?). apply acts_bind; [apply implements_send|]. intros _.
  apply implements_chan_recv. intros i r. apply frees_member; destruct (returning r) as [[]|]; cbn; try done. intros x [= <-]. apply frees_return.
Qed.
Lemma implements_connect fd addr len : implements (connect_c fuel retries fd addr len) (connect fuel retries fd addr len).
Proof.
  unfold connect_c, connect. apply acts_bind; [apply implements_lift|]. intros p. destruct (negb _); [apply implements_lift|].
  apply acts_bind; [apply implements_assert|]. intros _. apply acts_bind; [apply implements_lift_res|]. intros bs. apply implements_rpc.
  intros i r. apply frees_member; destruct (returning r) as [[]|]; cbn; try done. intros x [= <-]. apply frees_return.
Qed.
Lemma implements_close n fd : implements (close_c fuel retries n fd) (close fuel retries n fd).
Proof.
  revert fd. induction n as [|n IH]; intros fd; cbn [close_c close]; (apply acts_bind; [apply implements_lift|]); intros p;
    (destruct (negb _); [apply implements_lift|]); apply implements_rpc; intros i r;
    (apply frees_member; destruct (returning r) as [[]|]; cbn; try done); intros x [= <-];
    do 3 (apply acts_bind; [apply implements_lift|]; intros ?); (apply acts_bind; [first [apply implements_fail|apply IH]|]); intros _; apply frees_return.
Qed.
Lemma implements_sendto fd buf len fl addr alen : implements (sendto_c fuel retries fd buf len fl addr alen) (sendto fuel retries fd buf len fl addr alen).
Proof.
  unfold sendto_c, sendto. apply acts_bind; [apply implements_lift|]. intros p. destruct (negb _); [apply implements_lift|].
  destruct buf as [buf|]; [|apply implements_ret]. destruct (len =? 0); [apply implements_ret|].
  apply acts_bind; [apply implements_lift_res|]. intros data. apply acts_bind.
  { destruct addr as [a|]; [|apply implements_ret]. apply acts_bind; [apply implements_assert|]. intros _.
    apply acts_bind; [apply implements_lift_res|]. intros a'. apply implements_ret. }
  intros a. apply implements_rpc. intros i r. apply frees_member; destruct (returning r) as [[]|]; cbn; try done. intros x [= <-]. apply frees_return.
Qed.
Lemma implements_recvfrom fd buf len fl addr alen : implements (recvfrom_c fuel retries fd buf len fl addr alen) (recvfrom fuel retries fd buf len fl addr alen).
Proof.
  unfold recvfrom_c, recvfrom, recvfrom_result. apply acts_bind; [apply implements_lift|]. intros p. destruct (negb _); [apply implements_lift|].
  destruct buf as [cap|]; [|apply implements_ret]. destruct (len =? 0); [apply implements_ret|].
  apply implements_rpc. intros i r. apply frees_member; destruct (returning r) as [[]|]; cbn; try done. intros ? [= <-].
  apply acts_bind; [repeat case_match; apply implements_ret || apply implements_fail|]. intros data. apply acts_bind.
  { destruct addr as [acap|]; [|apply implements_ret]. destruct addr0 as [ab|]; [|apply implements_ret].
    destruct (0 <? _); [|apply implements_ret]. apply acts_bind; [apply implements_lift_res|]. intros ab'.
    repeat case_match; apply implements_ret || apply implements_fail. }
  intros [a l]. apply frees_bind; [apply frees_return|]. intros v. apply implements_ret.
Qed.
Lemma frees_name i r x name addr alen : frees i r (return_name_c x name addr alen (Some i)) (return_name x name addr alen).
Proof.
  unfold return_name_c, return_name. apply acts_bind; [repeat case_match; apply implements_ret || apply implements_fail|]. intros data.
  destruct alen; [|apply frees_fail]. apply frees_bind; [apply frees_return|]. intros v. apply implements_ret.
Qed.
Lemma implements_getpeername fd addr alen : implements (getpeername_c fuel retries fd addr alen) (getpeername fuel retries fd addr alen).
Proof.
  unfold getpeername_c, getpeername. apply acts_bind; [apply implements_lift|]. intros p. destruct (negb _); [apply implements_lift|].
  apply implements_rpc. intros i r. apply frees_member; destruct (returning r) as [[]|]; cbn; try done. intros ? [= <-]. apply frees_name.
Qed.
Lemma implements_getsockname fd addr alen : implements (getsockname_c fuel retries fd addr alen) (getsockname fuel retries fd addr alen).
Proof.
  unfold getsockname_c, getsockname. apply acts_bind; [apply implements_lift|]. intros p. destruct (negb _); [apply implements_lift|].
  apply implements_rpc. intros i r. apply frees_member; destruct (returning r) as [[]|]; cbn; try done. intros ? [= <-]. apply frees_name.
Qed.
Lemma implements_ask : implements (ask_veloxd_fd_range_c fuel retries) (ask_veloxd_fd_range fuel retries).
Proof.
  unfold ask_veloxd_fd_range_c, ask_veloxd_fd_range. do 2 (apply acts_bind; [apply implements_lift|]; intros ?).
  apply acts_bind; [apply implements_send|]. intros _. apply implements_chan_recv. intros i r. apply frees_read.
  destruct (returning r) as [[]|]; try apply frees_fail. apply acts_bind; [apply implements_lift|]. intros _.
  do 2 (apply acts_bind; [apply implements_assert|]; intros _). apply frees_then, implements_lift.
Qed.
End spec.

(** ** Property *)

(** C30. Every call of the interceptor that talks to the daemon frees each
    response it unpacks exactly once: on any heap of messages it returns what
    Interceptor.v says, sets [errno] likewise, and leaves the same messages live
    as before, on every path that returns: the [WAIT_NEXT] answers it skips, the
    successful return and the error return.  No path uses a response after it is
    freed, and a path that stops does so for the reason Interceptor.v gives. *)
Theorem responses_freed_once {E} `{Glibc E} `{Codec} fuel retries :
  (∀ domain type protocol, implements (E := E) (socket_c fuel retries domain type protocol) (socket fuel retries domain type protocol)) ∧
  (∀ fd addr len, implements (E := E) (connect_c fuel retries fd addr len) (connect fuel retries fd addr len)) ∧
  (∀ n fd, implements (E := E) (close_c fuel retries n fd) (close fuel retries n fd)) ∧
  (∀ fd buf len fl addr alen, implements (E := E) (sendto_c fuel retries fd buf len fl addr alen) (sendto fuel retries fd buf len fl addr alen)) ∧
  (∀ fd buf len fl addr alen, implements (E := E) (recvfrom_c fuel retries fd buf len fl addr alen) (recvfrom fuel retries fd buf len fl addr alen)) ∧
  (∀ fd addr alen, implements (E := E) (getpeername_c fuel retries fd addr alen) (getpeername fuel retries fd addr alen)) ∧
  (∀ fd addr alen, implements (E := E) (getsockname_c fuel retries fd addr alen) (getsockname fuel retries fd addr alen)) ∧
  implements (E := E) (ask_veloxd_fd_range_c fuel retries) (ask_veloxd_fd_range fuel retries).
Proof.
  split_and!; intros.
  - apply implements_socket.
  - apply implements_connect.
  - apply implements_close.
  - apply implements_sendto.
  - apply implements_recvfrom.
  - apply implements_getpeername.
  - apply implements_getsockname.
  - apply implements_ask.
Qed.
