(* ===== verification/PollSpec.v ===== *)
(** * [poll] and [select]

    The three loops of [poll] against a one-pass reference ([poll_merge]), and
    [select] against set operations, with its behaviour on descriptors an
    [fd_set] cannot hold. *)

From S2P Require Import Prelude Rpc Glibc Script Channel FdPool Interceptor PoolInv.

Section poll.
Context {E : Type} `{Glibc E} `{Codec}.
Implicit Types p : Proc E.

Definition velox_events : Z := Z.lor (Z.lor POLLIN POLLOUT) POLLHUP.

(** Reference: one pass over the array, taking the kernel's answers in order
    for the descriptors outside the pool; [None] answers stand for a kernel
    call that reported nothing. *)
Fixpoint poll_merge p (fds polled : list pollfd) : list pollfd :=
  match fds with
  | [] => []
  | f :: fds =>
      if is_assigned_by_velox p (p_fd f)
      then set_revents (Z.land (p_events f) velox_events) f :: poll_merge p fds polled
      else match polled with
           | k :: polled => set_revents (p_revents k) f :: poll_merge p fds polled
           | [] => set_revents 0 f :: poll_merge p fds []
           end
  end.

Definition ready_count (fds : list pollfd) : Z :=
  length (filter (λ f, truth (p_revents f) = true) fds).

Definition non_velox p (f : pollfd) : Prop := is_assigned_by_velox p (p_fd f) = false.
#[global] Instance non_velox_dec p f : Decision (non_velox p f).
Proof. unfold non_velox. apply _. Defined.

Lemma ready_count_nil : ready_count [] = 0.
Proof. done. Qed.
Lemma ready_count_cons f fds :
  ready_count (f :: fds) = (if truth (p_revents f) then 1 else 0) + ready_count fds.
Proof.
  unfold ready_count. rewrite filter_cons. destruct (truth (p_revents f)); cbn [decide].
  - rewrite decide_True by done. cbn [length]. lia.
  - rewrite decide_False by done. lia.
Qed.

(** The partition clears [revents] and collects the descriptors outside the
    pool, in order, with their indices. *)
Lemma poll_partition_fst p i fds : (poll_partition p i fds).1 = set_revents 0 <$> fds.
Proof.
  revert i. induction fds as [|f fds IH]; intros i; cbn; [done|].
  specialize (IH (S i)). destruct (poll_partition p (S i) fds). cbn in *. by rewrite IH.
Qed.

Lemma poll_partition_snd p i fds :
  snd <$> (poll_partition p i fds).2 = set_revents 0 <$> filter (non_velox p) fds.
Proof.
  revert i. induction fds as [|f fds IH]; intros i; [done|]. cbn [poll_partition].
  specialize (IH (S i)). destruct (poll_partition p (S i) fds) as [fds' nv]. cbn [snd] in *.
  rewrite filter_cons. cbn [p_fd set_revents].
  destruct (is_assigned_by_velox p (p_fd f)) eqn:Ef; cbn [negb].
  - by rewrite decide_False by (unfold non_velox; congruence).
  - rewrite decide_True by done. cbn. by rewrite IH.
Qed.

Lemma filter_non_velox p fds : Forall (non_velox p) fds → filter (non_velox p) fds = fds.
Proof. induction 1; [done|]. rewrite filter_cons_True by done. by f_equal. Qed.

Lemma poll_partition_length p i fds :
  length (poll_partition p i fds).2 = length (filter (non_velox p) fds).
Proof.
  pose proof (f_equal length (poll_partition_snd p i fds)) as Hl.
  by rewrite !length_fmap in Hl.
Qed.

(** What the copy-back loop leaves: the kernel's answer outside the pool, zero
    on the pool's descriptors. *)
Fixpoint copied p (fds polled : list pollfd) : list pollfd :=
  match fds with
  | [] => []
  | f :: fds =>
      if is_assigned_by_velox p (p_fd f) then set_revents 0 f :: copied p fds polled
      else match polled with
           | k :: polled => set_revents (p_revents k) f :: copied p fds polled
           | [] => set_revents 0 f :: copied p fds []
           end
  end.

Lemma copied_nil p fds : copied p fds [] = set_revents 0 <$> fds.
Proof. induction fds as [|f fds IH]; cbn; [done|]. rewrite IH. by destruct (is_assigned_by_velox _ _). Qed.

Lemma poll_copy_back_spec p fds : ∀ pre polled n,
  poll_copy_back (fst <$> (poll_partition p (length pre) fds).2) polled
    (pre ++ (set_revents 0 <$> fds)) n =
  (pre ++ copied p fds polled,
   n + ready_count (take (length (filter (non_velox p) fds)) polled)).
Proof.
  induction fds as [|f fds IH]; intros pre polled n.
  { cbn. rewrite take_0, ready_count_nil. f_equal. lia. }
  cbn [poll_partition copied fmap list_fmap].
  destruct (poll_partition p (S (length pre)) fds) as [fds' nv] eqn:Hpart.
  assert (∀ x polled n,
    poll_copy_back (fst <$> nv) polled (pre ++ x :: (set_revents 0 <$> fds)) n =
    (pre ++ x :: copied p fds polled,
     n + ready_count (take (length (filter (non_velox p) fds)) polled))) as IH'.
  { intros x polled' n'. specialize (IH (pre ++ [x]) polled' n').
    rewrite length_app, Nat.add_1_r, Hpart, <-!app_assoc in IH. exact IH. }
  cbn [snd p_fd set_revents]. rewrite filter_cons.
  destruct (is_assigned_by_velox p (p_fd f)) eqn:Ef; cbn [negb].
  - rewrite decide_False by (unfold non_velox; congruence). apply IH'.
  - rewrite decide_True by done. cbn [length fmap list_fmap fst].
    destruct polled as [|k polled]; cbn [poll_copy_back].
    + rewrite take_nil, copied_nil, ready_count_nil. f_equal. lia.
    + rewrite <-(Nat.add_0_r (length pre)), alter_app_r. cbn [alter list_alter].
      rewrite Nat.add_0_r || idtac. rewrite IH'. cbn [take]. rewrite ready_count_cons.
      f_equal. destruct (truth (p_revents k)); lia.
Qed.

Lemma poll_velox_spec p fds polled n :
  poll_velox p (copied p fds polled) n =
  (poll_merge p fds polled,
   n + ready_count (filter (λ f, is_assigned_by_velox p (p_fd f) = true) (poll_merge p fds polled))).
Proof.
  revert polled n. induction fds as [|f fds IH]; intros polled n; [cbn; rewrite ready_count_nil; f_equal; lia|].
  cbn [copied poll_merge]. destruct (is_assigned_by_velox p (p_fd f)) eqn:Ef.
  - cbn [poll_velox p_fd set_revents]. rewrite Ef, IH. fold velox_events.
    rewrite filter_cons, decide_True, ready_count_cons by done. cbn [p_revents set_revents p_events].
    f_equal. destruct (truth _); lia.
  - destruct polled as [|k polled]; cbn [poll_velox p_fd set_revents]; rewrite Ef, IH;
      by rewrite filter_cons, decide_False by (cbn; congruence).
Qed.

Lemma merge_non_velox_count p fds : ∀ polled,
  ready_count (filter (non_velox p) (poll_merge p fds polled)) =
  ready_count (take (length (filter (non_velox p) fds)) polled).
Proof.
  induction fds as [|f fds IH]; intros polled; [done|]. cbn [poll_merge]. rewrite (filter_cons _ f).
  destruct (is_assigned_by_velox p (p_fd f)) eqn:Ef.
  - rewrite decide_False, filter_cons, decide_False by (unfold non_velox; cbn; congruence). apply IH.
  - rewrite decide_True by done. destruct polled as [|k polled].
    + rewrite filter_cons, decide_True, ready_count_cons by done. cbn [p_revents set_revents truth].
      rewrite IH, !take_nil. done.
    + rewrite filter_cons, decide_True, ready_count_cons by done. cbn [length take].
      rewrite ready_count_cons, IH. done.
Qed.

Lemma ready_count_split p fds :
  ready_count fds = ready_count (filter (non_velox p) fds) +
                    ready_count (filter (λ f, is_assigned_by_velox p (p_fd f) = true) fds).
Proof.
  induction fds as [|f fds IH]; [done|]. rewrite ready_count_cons, !filter_cons.
  destruct (is_assigned_by_velox p (p_fd f)) eqn:Ef.
  - rewrite decide_False by (unfold non_velox; congruence).
    rewrite decide_True, ready_count_cons by done. lia.
  - rewrite decide_True by done. rewrite decide_False, ready_count_cons by congruence. lia.
Qed.

(** Both loops read only the pool's range. *)
Lemma assigned_env p e fd : is_assigned_by_velox (set_env e p) fd = is_assigned_by_velox p fd.
Proof. done. Qed.
Lemma poll_partition_env p e i fds : poll_partition (set_env e p) i fds = poll_partition p i fds.
Proof. revert i. induction fds as [|f fds IH]; intros i; cbn; [done|]. by rewrite IH. Qed.
Lemma poll_velox_env p e fds n : poll_velox (set_env e p) fds n = poll_velox p fds n.
Proof.
  revert n. induction fds as [|f fds IH]; intros n; cbn [poll_velox]; [done|].
  rewrite assigned_env. by destruct (is_assigned_by_velox p (p_fd f)); rewrite IH.
Qed.

(** The value of [poll] when the pool has a descriptor in the array. *)
Lemma poll_mixed_eq fds timeout p e1 e2 :
  g_malloc (u64 (length fds * 8)) (env p) = (true, e1) →
  g_malloc (u64 (length fds * 8)) e1 = (true, e2) →
  Exists (λ f, is_assigned_by_velox p (p_fd f) = true) fds →
  ∃ p' polled, same_globals p p' ∧
    poll fds timeout p = Ok ((ready_count (poll_merge p fds polled), poll_merge p fds polled), p') ∧
    match filter (non_velox p) fds with
    | [] => polled = []
    | _ => ∃ r answer en, g_poll (set_revents 0 <$> filter (non_velox p) fds)
             (length (filter (non_velox p) fds)) 0 e2 = ((r, answer, en), env p') ∧
           polled = if 0 <? r then answer else []
    end.
Proof.
  intros Hm1 Hm2 Hex. set (p2 := set_env e2 p).
  assert (malloc_ok (u64 (length fds * 8)) p = Ok (true, set_env e1 p)) as H1
    by (unfold malloc_ok; by rewrite Hm1).
  assert (malloc_ok (u64 (length fds * 8)) (set_env e1 p) = Ok (true, p2)) as H2
    by (unfold malloc_ok; cbn; by rewrite Hm2).
  assert (length (filter (non_velox p) fds) < length fds)%nat as Hlt.
  { clear -Hex. induction Hex as [f fds Hf|f fds Hf IH]; rewrite filter_cons; cbn [length].
    - rewrite decide_False by (unfold non_velox; congruence). pose proof (length_filter (non_velox p) fds). lia.
    - case_decide; cbn; lia. }
  assert (∀ polled : list pollfd,
    (let '(fds, nready) := poll_velox p (copied p fds polled) (ready_count (take (length (filter (non_velox p) fds)) polled))
     in (nready, fds)) = (ready_count (poll_merge p fds polled), poll_merge p fds polled)) as Hv.
  { intros polled. rewrite poll_velox_spec. f_equal.
    rewrite (ready_count_split p (poll_merge p fds polled)), merge_non_velox_count. done. }
  pose proof (poll_copy_back_spec p fds []) as Hcb. cbn [length app] in Hcb.
  pose proof (poll_partition_fst p 0 fds) as Hpf. pose proof (poll_partition_snd p 0 fds) as Hps.
  pose proof (poll_partition_length p 0 fds) as Hpl.
  unfold poll. rewrite (M_bind_ok _ _ _ _ _ H1), (M_bind_ok _ _ _ _ _ H2). cbn [andb negb].
  rewrite (M_bind_ok _ _ _ p2 p2) by done. subst p2. rewrite poll_partition_env. set (p2 := set_env e2 p).
  destruct (poll_partition p 0 fds) as [fds' nv]. cbn [fst snd] in *. subst fds'.
  rewrite (proj2 (Z.eqb_neq _ _)) by lia.
  destruct (filter (non_velox p) fds) as [|f0 nvs] eqn:Hf0.
  - cbn [length] in Hpl. rewrite Hpl. cbn [Nat.ltb Nat.leb].
    exists p2, []. split; [done|]. split; [|done].
    rewrite (M_bind_ok _ _ _ (set_revents 0 <$> fds, 0) p2) by done.
    specialize (Hv []). rewrite copied_nil, take_nil in Hv. change (ready_count []) with 0 in Hv.
    subst p2. rewrite poll_velox_env. destruct (poll_velox p (set_revents 0 <$> fds) 0). run_m. by simplify_eq.
  - rewrite <-Hf0 in Hv, Hcb, Hps, Hpl. rewrite Hps, Hpl.
    assert (0 < length (filter (non_velox p) fds))%nat as Hpos by (rewrite Hf0; cbn; lia).
    rewrite (proj2 (Nat.ltb_lt _ _) Hpos).
    destruct (g_poll (set_revents 0 <$> filter (non_velox p) fds) (length (filter (non_velox p) fds)) 0 e2)
      as [[[r answer] en] e3] eqn:Hg.
    set (p3 := match en with Some n => set_errno n (set_env e3 p) | None => set_env e3 p end).
    assert (syscall (g_poll (set_revents 0 <$> filter (non_velox p) fds)
              (length (filter (non_velox p) fds)) 0) p2 = Ok ((r, answer), p3)) as Hsys.
    { rewrite (syscall_eq _ p2 _ _ _ Hg). by destruct en. }
    set (polled := if 0 <? r then answer else []).
    exists p3, polled. split; [by subst p3; destruct en|]. split.
    2: { exists r, answer, en. split; [|done]. rewrite <-Hf0, Hg. by subst p3; destruct en. }
    assert (('(r0, polled0) ← syscall (g_poll (set_revents 0 <$> filter (non_velox p) fds)
               (length (filter (non_velox p) fds)) 0);
             if 0 <? r0 then mret (poll_copy_back nv.*1 polled0 (set_revents 0 <$> fds) 0)
             else mret (set_revents 0 <$> fds, 0)) p2 =
            Ok ((copied p fds polled, ready_count (take (length (filter (non_velox p) fds)) polled)), p3)) as Hmid.
    { mstep Hsys. subst polled. destruct (0 <? r).
      - rewrite Hcb. done.
      - rewrite copied_nil, take_nil. done. }
    mstep Hmid. subst p2. rewrite poll_velox_env.
    specialize (Hv polled). destruct (poll_velox p _ _). run_m. by simplify_eq.
Qed.
End poll.

(** ** [select] *)

Section select.
Context {E : Type} `{Glibc E} `{Codec}.
Implicit Types p : Proc E.

(** On descriptors an [fd_set] holds, the scan of one descriptor succeeds and
    only a pool descriptor can set [has_velox]. *)
Lemma select_scan_fd_ok p fd r w e a :
  0 ≤ fd < FD_SETSIZE →
  ∃ a', select_scan_fd p fd r w e a = Ok a' ∧
        (is_assigned_by_velox p fd = false → has_velox a' = has_velox a).
Proof.
  intros Hr. assert (fd_in_set_range fd = true) as Hf.
  { unfold fd_in_set_range. rewrite andb_true_iff, Z.leb_le, Z.ltb_lt. lia. }
  unfold select_scan_fd, FD_ISSET, FD_SET. rewrite Hf. run_m.
  destruct (is_assigned_by_velox p fd), (bool_decide (fd ∈ r)), (bool_decide (fd ∈ w)),
    (bool_decide (fd ∈ e)); cbn; by eexists.
Qed.

Lemma select_scan_low p r w e : ∀ (n : nat) fd a,
  0 ≤ fd → fd + n ≤ FD_SETSIZE → (∀ x, fd ≤ x < fd + n → is_assigned_by_velox p x = false) →
  ∃ a', select_scan p n fd r w e a = Ok a' ∧ has_velox a' = has_velox a.
Proof.
  induction n as [|n IH]; intros fd a Hfd Hn Hx; [by eexists|]. cbn [select_scan].
  destruct (select_scan_fd_ok p fd r w e a ltac:(unfold FD_SETSIZE in *; lia)) as (a1 & H1 & Hv1).
  destruct (IH (fd + 1) a1) as (a2 & H2 & Hv2); [lia|lia|intros; apply Hx; lia|].
  exists a2. rewrite H1. run_m. rewrite H2. split; [done|]. rewrite Hv2. apply Hv1, Hx. lia.
Qed.

(** The scan of a larger [nfds] reads past the end of the set. *)
Lemma select_scan_high p r w e : ∀ (n : nat) fd a,
  0 ≤ fd ≤ FD_SETSIZE → FD_SETSIZE < fd + n → select_scan p n fd r w e a = Fault OutOfBounds.
Proof.
  induction n as [|n IH]; intros fd a Hfd Hn; [lia|]. cbn [select_scan].
  destruct (decide (fd = FD_SETSIZE)) as [->|].
  - unfold select_scan_fd, FD_ISSET. by run_m.
  - destruct (select_scan_fd_ok p fd r w e a ltac:(lia)) as (a1 & H1 & _). rewrite H1. run_m.
    apply IH; lia.
Qed.

(** The descriptors of a set inside a window that satisfy [P]. *)
Definition window (P : Z → bool) (fd n : Z) (s : fd_set) : fd_set :=
  filter (λ x, fd ≤ x < fd + n ∧ P x = true) s.

Lemma elem_window P fd n s x : x ∈ window P fd n s ↔ (fd ≤ x < fd + n ∧ P x = true) ∧ x ∈ s.
Proof. unfold window. by rewrite elem_of_filter. Qed.
Lemma window_0 P fd s : window P fd 0 s = ∅.
Proof. apply set_eq. intros x. rewrite elem_window. set_solver by lia. Qed.
Lemma window_step P fd (n : nat) s :
  window P fd (S n) s = (if P fd && bool_decide (fd ∈ s) then {[fd]} else ∅) ∪ window P (fd + 1) n s.
Proof.
  apply set_eq. intros x. rewrite elem_of_union, !elem_window. split.
  - intros [[Hx HP] Hs]. destruct (decide (x = fd)) as [->|].
    + left. rewrite HP, bool_decide_true by done. set_solver.
    + right. split; [|done]. split; [lia|done].
  - intros [Hx|[[Hx HP] Hs]]; [|split; [split; [lia|done]|done]].
    destruct (P fd) eqn:HP; [|set_solver]. case_bool_decide; [|set_solver].
    apply elem_of_singleton in Hx as ->. split; [split; [lia|done]|done].
Qed.
Lemma size_window_step P fd (n : nat) s :
  Z.of_nat (size (window P fd (S n) s)) =
  (if P fd && bool_decide (fd ∈ s) then 1 else 0) + size (window P (fd + 1) n s).
Proof.
  rewrite window_step. destruct (P fd && _).
  - rewrite size_union, size_singleton; [lia|]. intros x ->%elem_of_singleton [[? _] _]%elem_window. lia.
  - by rewrite union_empty_l_L.
Qed.

(** Reporting the descriptors [src] into a set the caller may have left out. *)
Definition report (s : fd_set) (dst : option fd_set) : option fd_set := (λ d, s ∪ d) <$> dst.

Lemma select_mark_ok fd src dst :
  0 ≤ fd < FD_SETSIZE → (dst = None → src = ∅) →
  select_mark fd src dst =
    Ok (report (if bool_decide (fd ∈ src) then {[fd]} else ∅) dst, bool_decide (fd ∈ src)).
Proof.
  intros Hr He. assert (fd_in_set_range fd = true) as Hf.
  { unfold fd_in_set_range. rewrite andb_true_iff, Z.leb_le, Z.ltb_lt. lia. }
  unfold select_mark, FD_ISSET, FD_SET. rewrite Hf. destruct dst as [d|]; run_m.
  - case_bool_decide; cbn; [done|]. by rewrite union_empty_l_L.
  - rewrite (He eq_refl), bool_decide_false by set_solver. done.
Qed.

Lemma report_report a b dst : report a (report b dst) = report (b ∪ a) dst.
Proof. destruct dst; cbn; [|done]. f_equal. set_solver. Qed.
Lemma report_None s dst : report s dst = None ↔ dst = None.
Proof. by destruct dst. Qed.

Lemma select_velox_spec p or ow oe : ∀ (n : nat) fd r w e k,
  0 ≤ fd → fd + n ≤ FD_SETSIZE → (r = None → or = ∅) → (w = None → ow = ∅) → (e = None → oe = ∅) →
  let W := window (is_assigned_by_velox p) fd n in
  select_velox p n fd or ow oe (r, w, e) k =
    Ok (report (W or) r, report (W ow) w, report (W oe) e, k + size (W (or ∪ ow ∪ oe))).
Proof.
  induction n as [|n IH]; intros fd r w e k Hfd Hn Hr Hw He W; subst W; cbn [select_velox].
  { rewrite !window_0, size_empty. destruct r, w, e; cbn; rewrite ?union_empty_l_L; do 3 f_equal; lia. }
  rewrite size_window_step, !window_step.
  destruct (is_assigned_by_velox p fd) eqn:Hv; cbn [andb].
  - rewrite !select_mark_ok by (done || lia). run_m.
    rewrite IH; [|lia|lia|by rewrite report_None..]. rewrite !report_report. do 2 f_equal.
    repeat case_bool_decide; cbn [orb]; set_solver by lia.
  - rewrite IH by (done || lia). by rewrite !union_empty_l_L.
Qed.

Lemma select_mark_fst fd src dst :
  0 ≤ fd < FD_SETSIZE →
  ∃ b, select_mark fd src dst = Ok (report (if bool_decide (fd ∈ src) then {[fd]} else ∅) dst, b).
Proof.
  intros Hr. destruct dst as [d|]; [|by eexists]. eexists. by apply select_mark_ok.
Qed.

Lemma select_copy_spec kr kw ke : ∀ (n : nat) fd r w e,
  0 ≤ fd → fd + n ≤ FD_SETSIZE →
  let W := window (λ _, true) fd n in
  select_copy n fd kr kw ke (r, w, e) = Ok (report (W kr) r, report (W kw) w, report (W ke) e).
Proof.
  induction n as [|n IH]; intros fd r w e Hfd Hn W; subst W; cbn [select_copy].
  { rewrite !window_0. destruct r, w, e; cbn; by rewrite ?union_empty_l_L. }
  destruct (select_mark_fst fd kr r ltac:(lia)) as [b1 ->].
  destruct (select_mark_fst fd kw w ltac:(lia)) as [b2 ->].
  destruct (select_mark_fst fd ke e ltac:(lia)) as [b3 ->]. run_m.
  rewrite IH by lia. by rewrite !report_report, !window_step.
Qed.

Lemma union_swap (A B C : fd_set) : B ∪ (A ∪ C) = A ∪ B ∪ C.
Proof. set_solver. Qed.

Lemma singleton_union_ne (x : Z) (A : fd_set) : {[x]} ∪ A ≠ ∅.
Proof. apply (non_empty_inhabited_L x). set_solver. Qed.

(** What the scan collects: the descriptors outside the pool, whether the pool
    has one, and the largest one outside the pool. *)
Lemma select_scan_spec p r w e : ∀ (n : nat) fd a,
  0 ≤ fd → fd + n ≤ FD_SETSIZE → max_nv_fd a < fd →
  let N := window (λ x, negb (is_assigned_by_velox p x)) fd n in
  let V := window (is_assigned_by_velox p) fd n in
  ∃ m, select_scan p n fd r w e a =
         Ok (mkScan (N r ∪ nv_r a) (N w ∪ nv_w a) (N e ∪ nv_e a)
               (bool_decide (V (r ∪ w ∪ e) ≠ ∅) || has_velox a) m) ∧
       (∀ x, x ∈ N (r ∪ w ∪ e) → x ≤ m) ∧ (m = max_nv_fd a ∨ m ∈ N (r ∪ w ∪ e)) ∧ max_nv_fd a ≤ m.
Proof.
  induction n as [|n IH]; intros fd a Hfd Hn Hm N V; subst N V; cbn [select_scan].
  { exists (max_nv_fd a). rewrite !window_0, !union_empty_l_L. split_and!; [by destruct a|set_solver|by left|lia]. }
  assert (fd_in_set_range fd = true) as Hf.
  { unfold fd_in_set_range. rewrite andb_true_iff, Z.leb_le, Z.ltb_lt. lia. }
  set (any := bool_decide (fd ∈ r) || bool_decide (fd ∈ w) || bool_decide (fd ∈ e)).
  assert (any = bool_decide (fd ∈ r ∪ w ∪ e)) as Hany.
  { subst any. symmetry. repeat case_bool_decide; cbn; try done; set_solver. }
  set (mark := λ s : fd_set, if negb (is_assigned_by_velox p fd) && bool_decide (fd ∈ s) then {[fd]} else ∅ : fd_set).
  set (a1 := mkScan (mark r ∪ nv_r a) (mark w ∪ nv_w a) (mark e ∪ nv_e a)
               (is_assigned_by_velox p fd && any || has_velox a)
               (if negb (is_assigned_by_velox p fd) && any then fd else max_nv_fd a)).
  assert (select_scan_fd p fd r w e a = Ok a1) as ->.
  { subst a1 mark any. unfold select_scan_fd, FD_ISSET, FD_SET. rewrite Hf. run_m.
    rewrite (proj2 (Z.ltb_lt _ _) Hm).
    destruct a, (is_assigned_by_velox p fd), (bool_decide (fd ∈ r)), (bool_decide (fd ∈ w)),
      (bool_decide (fd ∈ e)); cbn; by rewrite ?union_empty_l_L. }
  run_m. assert (max_nv_fd a1 < fd + 1 ∧ max_nv_fd a ≤ max_nv_fd a1) as [Hm1 Hm2]
    by (subst a1; cbn; destruct (_ && any); lia).
  destruct (IH (fd + 1) a1) as (m & Hs & Hle & Hmem & Hge); [lia|lia|done|].
  exists m. rewrite Hs, !window_step, <-Hany. subst a1. cbn [nv_r nv_w nv_e has_velox max_nv_fd] in *.
  split_and!.
  - f_equal. f_equal; [apply union_swap..|].
    destruct (is_assigned_by_velox p fd && any); cbn [orb].
    + rewrite (bool_decide_true ({[fd]} ∪ _ ≠ ∅)) by apply singleton_union_ne.
      cbn [orb]. apply orb_true_r.
    + by rewrite union_empty_l_L.
  - intros x [Hx|Hx]%elem_of_union; [|by apply Hle].
    destruct (_ && any); [apply elem_of_singleton in Hx as ->; lia|by apply not_elem_of_empty in Hx].
  - destruct Hmem as [->|]; [|by right; apply elem_of_union_r].
    destruct (_ && any); [right; by apply elem_of_union_l, elem_of_singleton|by left].
  - lia.
Qed.
(** [select] after the scan found a pool descriptor. *)
Lemma select_velox_part nfds r w e p m V N asked :
  0 ≤ nfds ≤ FD_SETSIZE →
  asked = default ∅ r ∪ default ∅ w ∪ default ∅ e →
  V = window (is_assigned_by_velox p) 0 nfds →
  N = window (λ x, negb (is_assigned_by_velox p x)) 0 nfds →
  (∀ x, x ∈ N asked → x ≤ m) → (m = -1 ∨ m ∈ N asked) → -1 ≤ m →
  ∃ n kr kw ke p', same_globals p p' ∧
   ('(s, nready) ← (if 0 <=? m then
                    k ← syscall (g_select (m + 1) (Some (N (default ∅ r))) (Some (N (default ∅ w)))
                                   (Some (N (default ∅ e))) (Some 0));
                    if 0 <? s_ret k then
                      s ← lift_res (select_copy (Z.to_nat (m + 1)) 0 (default ∅ (s_read k))
                                      (default ∅ (s_write k)) (default ∅ (s_except k))
                                      ((λ _, ∅) <$> r, (λ _, ∅) <$> w, (λ _, ∅) <$> e));
                      mret (s, s_ret k)
                    else mret ((λ _, ∅) <$> r, (λ _, ∅) <$> w, (λ _, ∅) <$> e, 0)
                  else mret ((λ _, ∅) <$> r, (λ _, ∅) <$> w, (λ _, ∅) <$> e, 0));
    '(r, w, e, nready) ← lift_res (select_velox p (Z.to_nat nfds) 0 (default ∅ r) (default ∅ w)
                                     (default ∅ e) s nready);
    mret (mkSelect nready r w e)) p =
     Ok (mkSelect (n + size (V asked)) ((λ s, V s ∪ kr) <$> r) ((λ s, V s ∪ kw) <$> w)
           ((λ s, V s ∪ ke) <$> e), p') ∧
   (N asked = ∅ ∧ n = 0 ∧ kr = ∅ ∧ kw = ∅ ∧ ke = ∅ ∨
    ∃ m k en, m ∈ N asked ∧ (∀ x, x ∈ N asked → x ≤ m) ∧
      g_select (m + 1) (Some (N (default ∅ r))) (Some (N (default ∅ w))) (Some (N (default ∅ e)))
        (Some 0) (env p) = ((k, en), env p') ∧
      let K := λ s, if 0 <? s_ret k then window (λ _, true) 0 (m + 1) (default ∅ s) else ∅ in
      n = Z.max 0 (s_ret k) ∧ kr = K (s_read k) ∧ kw = K (s_write k) ∧ ke = K (s_except k)).
Proof.
  intros Hn -> -> -> Hle Hmem Hge. set (asked := default ∅ r ∪ default ∅ w ∪ default ∅ e) in *.
  set (N := window _ 0 nfds) in *.
  set (V := window (is_assigned_by_velox p) 0 nfds).
  (* the last loop, on sets that hold exactly the kernel's answer *)
  assert (∀ kr kw ke n (q : Proc E), lift_res (select_velox p (Z.to_nat nfds) 0 (default ∅ r) (default ∅ w)
            (default ∅ e) ((λ _, kr) <$> r, (λ _, kw) <$> w, (λ _, ke) <$> e) n) q =
          Ok (((λ s, V s ∪ kr) <$> r, (λ s, V s ∪ kw) <$> w, (λ s, V s ∪ ke) <$> e, n + size (V asked)), q)) as Hlast.
  { intros kr kw ke n q. rewrite select_velox_spec; [|lia|lia|by destruct r|by destruct w|by destruct e].
    rewrite Z2Nat.id by lia. cbn. do 2 f_equal. destruct r, w, e; done. }
  destruct (decide (m = -1)) as [->|Hm].
  - exists 0, ∅, ∅, ∅, p. split; [done|]. split.
    + rewrite (M_bind_ok _ _ _ ((λ _, ∅) <$> r, (λ _, ∅) <$> w, (λ _, ∅) <$> e, 0) p) by done.
      by mstep (Hlast _ _ _ _ _).
    + left. split; [|done]. apply set_eq. intros x. split; [|by intros ?%not_elem_of_empty].
      intros Hx. pose proof (Hle x Hx). apply elem_window in Hx as [[? _] _]. lia.
  - assert (m ∈ N asked) as HmN by tauto. pose proof HmN as [[Hmr _] _]%elem_window.
    rewrite (proj2 (Z.leb_le 0 m)) by lia.
    destruct (g_select (m + 1) (Some (N (default ∅ r))) (Some (N (default ∅ w))) (Some (N (default ∅ e)))
        (Some 0) (env p)) as [[k en] e'] eqn:Hg.
    set (p' := match en with Some v => set_errno v (set_env e' p) | None => set_env e' p end).
    set (K := λ s, if 0 <? s_ret k then window (λ _, true) 0 (m + 1) (default ∅ s) else ∅).
    exists (Z.max 0 (s_ret k)), (K (s_read k)), (K (s_write k)), (K (s_except k)), p'.
    split; [by subst p'; destruct en|]. split.
    2: { right. exists m, k, en. split_and!; try done. rewrite Hg. by subst p'; destruct en. }
    rewrite (M_bind_ok _ _ _ ((λ _, K (s_read k)) <$> r, (λ _, K (s_write k)) <$> w,
               (λ _, K (s_except k)) <$> e, Z.max 0 (s_ret k)) p').
    { by mstep (Hlast _ _ _ _ _). }
    mstep (syscall_eq _ p _ _ _ Hg). fold p'. subst K. cbn beta.
    destruct (0 <? s_ret k) eqn:Hk.
    + rewrite select_copy_spec by (unfold FD_SETSIZE in *; lia). rewrite Z2Nat.id by lia. run_m.
      rewrite Z.max_r by lia. do 2 f_equal. f_equal. destruct r, w, e; cbn; by rewrite ?union_empty_r_L.
    + run_m. by rewrite Z.max_l by lia.
Qed.
End select.

(** ** Properties *)

(** C25. [poll] on an array that mixes pool and other descriptors is a single
    merge: every pool descriptor reports the events asked for among
    [POLLIN | POLLOUT | POLLHUP], every other one takes the kernel's answer (a
    zero-timeout [poll] of those alone, in order), and the value is the number
    of entries left with a non-zero [revents].  Without a pool descriptor the
    call is glibc's, on the array with [revents] cleared. *)
Theorem poll_merges {E} `{Glibc E} `{Codec} fds timeout (p : Proc E) e1 e2 :
  g_malloc (u64 (length fds * 8)) (env p) = (true, e1) →
  g_malloc (u64 (length fds * 8)) e1 = (true, e2) →
  (Forall (non_velox p) fds →
     poll fds timeout p = syscall (g_poll (set_revents 0 <$> fds) (length fds) timeout) (set_env e2 p)) ∧
  (¬ Forall (non_velox p) fds →
     ∃ p' polled, same_globals p p' ∧
       poll fds timeout p = Ok ((ready_count (poll_merge p fds polled), poll_merge p fds polled), p') ∧
       match filter (non_velox p) fds with
       | [] => polled = []
       | nv => ∃ r answer en,
           g_poll (set_revents 0 <$> nv) (length nv) 0 e2 = ((r, answer, en), env p') ∧
           polled = if 0 <? r then answer else []
       end).
Proof.
  intros Hm1 Hm2. split.
  - intros Hall. unfold poll, malloc_ok. run_m. rewrite Hm1. cbn [env set_env]. rewrite Hm2. cbn [andb].
    change (set_env e2 (set_env e1 p)) with (set_env e2 p).
    rewrite ?poll_partition_env.
    pose proof (poll_partition_fst p 0 fds) as Hf. pose proof (poll_partition_length p 0 fds) as Hl.
    destruct (poll_partition p 0 fds) as [fds' nv]. cbn in Hf, Hl. subst fds'.
    rewrite filter_non_velox in Hl by done. rewrite Hl, Z.eqb_refl. done.
  - intros Hn. assert (Exists (λ f, is_assigned_by_velox p (p_fd f) = true) fds) as Hex.
    2: { destruct (poll_mixed_eq fds timeout p e1 e2 Hm1 Hm2 Hex) as (p' & polled & Hg & Hp & Hk).
         exists p', polled. split_and!; [done|done|]. by destruct (filter (non_velox p) fds). }
    apply not_Forall_Exists in Hn; [|apply _]. eapply Exists_impl; [exact Hn|].
    unfold compose, non_velox. intros f. by destruct (is_assigned_by_velox p (p_fd f)).
Qed.

(** A pool descriptor asked for [POLLIN | POLLPRI] beside descriptor 5, which
    the kernel reports writable. *)
Definition mixed_fds : list pollfd := [mkPollfd 4096 3 0; mkPollfd 5 4 7].
Definition polling_proc : Proc script :=
  mkProc 4096 4 4096 (Some [10; 0; 0; 0]) 3 0 77 []
    (mkScript [] [] 10 (1, [mkPollfd 5 4 4]) no_select).

Lemma poll_merges_witness :
  ∃ p', poll mixed_fds (-1) polling_proc = Ok ((2, [mkPollfd 4096 3 1; mkPollfd 5 4 4]), p').
Proof.
  pose proof (poll_merges mixed_fds (-1) polling_proc (env polling_proc) (env polling_proc)) as Hpm.
  destruct (Hpm eq_refl eq_refl) as [_ Hmix].
  destruct Hmix as (p' & polled & _ & Hp & Hpolled).
  { intros Hall. inversion Hall as [|f l Hf]; subst. vm_compute in Hf. discriminate Hf. }
  vm_compute in Hpolled. destruct Hpolled as (r & answer & en & Hg & Hpl).
  injection Hg as <- <- <- Hg. cbn in Hpl. subst polled. exists p'. exact Hp.
Defined.

(** [select] as set algebra, for [nfds] within an [fd_set]: if no pool
    descriptor below [nfds] is in a set, the call is glibc's unchanged.
    Otherwise every pool descriptor asked for is reported ready in each of its
    sets, the others take the kernel's answer to a zero-timeout [select] over
    exactly the requested descriptors outside the pool, and the value adds the
    number of pool descriptors to the kernel's count.  A pool that begins below
    [FD_SETSIZE] is not one the daemon assigns ([select_high_pool]). *)
Theorem select_merges {E} `{Glibc E} `{Codec} nfds r w e timeout (p : Proc E) :
  0 ≤ nfds ≤ FD_SETSIZE →
  let asked := default ∅ r ∪ default ∅ w ∪ default ∅ e in
  let V := window (is_assigned_by_velox p) 0 nfds in
  let N := window (λ x, negb (is_assigned_by_velox p x)) 0 nfds in
  (V asked = ∅ → select nfds r w e timeout p = syscall (g_select nfds r w e timeout) p) ∧
  (V asked ≠ ∅ → ∃ n kr kw ke p', same_globals p p' ∧
     select nfds r w e timeout p =
       Ok (mkSelect (n + size (V asked)) ((λ s, V s ∪ kr) <$> r) ((λ s, V s ∪ kw) <$> w)
             ((λ s, V s ∪ ke) <$> e), p') ∧
     (N asked = ∅ ∧ n = 0 ∧ kr = ∅ ∧ kw = ∅ ∧ ke = ∅ ∨
      ∃ m k en, m ∈ N asked ∧ (∀ x, x ∈ N asked → x ≤ m) ∧
        g_select (m + 1) (Some (N (default ∅ r))) (Some (N (default ∅ w))) (Some (N (default ∅ e)))
          (Some 0) (env p) = ((k, en), env p') ∧
        let K := λ s, if 0 <? s_ret k then window (λ _, true) 0 (m + 1) (default ∅ s) else ∅ in
        n = Z.max 0 (s_ret k) ∧ kr = K (s_read k) ∧ kw = K (s_write k) ∧ ke = K (s_except k))).
Proof.
  intros Hn asked V N.
  assert (∀ P, window P 0 (Z.to_nat nfds) = window P 0 nfds) as HW by (intros P; by rewrite Z2Nat.id by lia).
  destruct (select_scan_spec p (default ∅ r) (default ∅ w) (default ∅ e) (Z.to_nat nfds) 0
              (mkScan ∅ ∅ ∅ false (-1))) as (m & Hs & Hle & Hmem & Hge); [lia|lia|done|].
  rewrite !HW in Hs, Hle, Hmem. cbn [nv_r nv_w nv_e has_velox max_nv_fd] in *.
  rewrite !union_empty_r_L, orb_false_r in Hs. fold asked V N in Hs, Hle, Hmem.
  unfold select. rewrite (M_bind_ok _ _ _ p p) by done. cbv zeta. rewrite Hs.
  rewrite (M_bind_ok _ _ _ _ p (eq_refl : lift_res (Ok _) p = Ok (_, _))). cbn [has_velox max_nv_fd nv_r nv_w nv_e].
  split; intros HV.
  - by rewrite bool_decide_false by (rewrite HW; intros Hne; exact (Hne HV)).
  - rewrite bool_decide_true by (rewrite HW; exact HV). cbn [negb]. cbv zeta.
    by apply select_velox_part.
Qed.

(** A pool that starts inside an [fd_set]: descriptors 40 (pool) and 5. *)
Definition selecting_proc : Proc script :=
  mkProc 40 4 40 (Some [10; 0; 0; 0]) 3 0 77 []
    (mkScript [] [] 10 (0, []) (mkSelect 1 (Some {[5]}) None None)).

Lemma select_merges_witness :
  ∃ p', select 50 (Some {[5; 40]}) None None None selecting_proc =
          Ok (mkSelect 2 (Some {[5; 40]}) None None, p').
Proof.
  pose proof (select_merges 50 (Some {[5; 40]}) None None None selecting_proc) as Hsm.
  destruct Hsm as [_ Hsel]; [unfold FD_SETSIZE; lia|].
  destruct Hsel as (n & kr & kw & ke & p' & _ & Hs & Hk).
  { intros HV. vm_compute in HV. discriminate HV. }
  destruct Hk as [[HN _]|(m & k & en & Hm & _ & Hg & Hn & Hkr & _ & _)].
  { vm_compute in HN. discriminate HN. }
  assert (m = 5) as ->.
  { apply elem_window in Hm as [[_ Hv] Hm]. cbn [default from_option id] in Hm.
    rewrite !elem_of_union, !elem_of_singleton in Hm.
    destruct Hm as [[[Hm|Hm]|Hm]|Hm]; [exact Hm| |destruct (not_elem_of_empty _ Hm)..].
    rewrite Hm in Hv. vm_compute in Hv. discriminate Hv. }
  injection Hg as <- _ _. exists p'. rewrite Hs, Hn, Hkr. vm_compute. reflexivity.
Defined.

(** C26. Descriptors beyond [FD_SETSIZE] cannot be selected: with a pool that
    starts at or above 1024, as the one the daemon assigns (4096 to 5119), [select] with [nfds <= 1024] is glibc's call
    unchanged, and with a larger [nfds] (needed to name a pool descriptor) the
    scan reads past the end of the caller's sets. *)
Theorem select_high_pool {E} `{Glibc E} `{Codec} nfds r w e timeout (p : Proc E) :
  FD_SETSIZE ≤ g_startfd p →
  (nfds ≤ FD_SETSIZE → select nfds r w e timeout p = syscall (g_select nfds r w e timeout) p) ∧
  (FD_SETSIZE < nfds → select nfds r w e timeout p = Fault OutOfBounds).
Proof.
  intros Hst. unfold select. rewrite (M_bind_ok _ _ _ p p) by done. cbv zeta. split; intros Hn.
  - destruct (select_scan_low p (default ∅ r) (default ∅ w) (default ∅ e) (Z.to_nat nfds) 0
                (mkScan ∅ ∅ ∅ false (-1))) as (a & Ha & Hv); [lia|unfold FD_SETSIZE in *; lia| |].
    { intros x Hx. destruct (is_assigned_by_velox p x) eqn:Hx'; [|done]. apply is_assigned_spec in Hx'.
      unfold FD_SETSIZE in *. lia. }
    rewrite Ha, (M_bind_ok _ _ _ _ p (eq_refl : lift_res (Ok _) p = Ok (_, _))), Hv. done.
  - rewrite select_scan_high; [done|unfold FD_SETSIZE in *; lia|unfold FD_SETSIZE in *; lia].
Qed.

Lemma select_high_pool_witness :
  select 4097 (Some {[4096]}) None None None polling_proc = Fault OutOfBounds.
Proof. apply (select_high_pool 4097 (Some {[4096]}) None None None polling_proc); unfold FD_SETSIZE; cbn; lia. Defined.
