(* ===== verification/SocketSpec.v ===== *)
(** * The life of a pool descriptor

    Start-up, [socket], [sendto] and [close] of the interceptor against an
    environment described by its answers ([opens] and [exchange]). *)

From S2P Require Import Prelude Rpc Wire Glibc Script Channel FdPool Interceptor PoolInv InterceptorSpec.

Section spec.
Context {E : Type} `{Glibc E} `{Codec} `{!CodecLaws}.
Context (fuel retries : nat).

(** Glibc opens a socket [ch] and connects it to the daemon. *)
Definition opens (e : E) (ch : Z) (e' : E) : Prop :=
  ch ≠ -1 ∧ ∃ en e1 r en1, g_socket AF_UNIX SOCK_SEQPACKET 0 e = ((ch, en), e1) ∧
    g_connect ch master_addr 110 e1 = ((r, en1), e') ∧ r ≠ -1.

Lemma open_chan_ok (p : Proc E) ch e' : opens (env p) ch e' →
  ∃ p', open_chan p = Ok (ch, p') ∧ same_globals p p' ∧ env p' = e'.
Proof.
  intros (Hne & en & e1 & r & en1 & Hs & Hc & Hr). unfold open_chan. mstep (syscall_eq _ _ _ _ _ Hs).
  rewrite (proj2 (Z.eqb_neq ch (-1)) Hne). set (p1 := match en with Some _ => _ | None => _ end).
  assert (same_globals p p1 ∧ env p1 = e1) as [Hg1 He1] by (subst p1; by destruct en).
  rewrite <-He1 in Hc. mstep (syscall_eq _ _ _ _ _ Hc). rewrite (proj2 (Z.eqb_neq r (-1)) Hr).
  eexists. split; [reflexivity|]. split; [|by destruct en1].
  etrans; [exact Hg1|]. by destruct en1.
Qed.

(** ** Start-up *)

Lemma start_up_ok (p : Proc E) ch e1 s n e2 e3 :
  opens (env p) ch e1 →
  exchange fuel retries ch (mkRequest (self_pid p) (Some (CallAtstart (short_name p)))) e1
    (answer (RetAtstart s (Some n))) e2 →
  0 < s → 0 < n → g_malloc (u64 (4 * n)) e2 = (true, e3) →
  ∃ p', interceptor_init fuel retries p = Ok (tt, p') ∧ proc_inv p' ∧
    g_startfd p' = s ∧ g_fd_count p' = n ∧ last_fd_assigned p' = s - 1 ∧ g_proc_chan p' = ch ∧
    g_chan_table p' = Some (replicate (Z.to_nat n) 0) ∧ env p' = e3.
Proof.
  intros Ho Hx Hs Hn Hm. destruct (open_chan_ok p ch e1 Ho) as (p1 & Hop & Hg1 & He1).
  unfold interceptor_init, chanmap_init. mstep Hop. set (p2 := set_proc_chan ch p1).
  rewrite (M_bind_ok _ _ p1 tt p2) by done. unfold ask_veloxd_fd_range, get_proc_chan.
  rewrite (M_bind_ok _ _ p2 ch p2) by done. rewrite (M_bind_ok _ _ p2 p2 p2) by done.
  destruct Hg1 as (_ & _ & _ & _ & _ & Hpid & Hname).
  assert (exchange fuel retries ch (mkRequest (self_pid p2) (Some (CallAtstart (short_name p2)))) (env p2)
            (answer (RetAtstart s (Some n))) e2) as Hx2.
  { cbn. by rewrite <-Hpid, <-Hname, He1. }
  destruct (send_recv_ok fuel retries _ _ _ _ _ Hx2) as (p3 & p4 & Hs3 & Hr4 & _ & Hg4 & He4).
  cbv zeta. mstep Hs3. mstep Hr4. cbn [returning answer default from_option id].
  set (p5 := set_range s n (s - 1) p4). rewrite (M_bind_ok _ _ p4 tt p5) by done.
  rewrite (proj2 (Z.eqb_neq s 0)), (proj2 (Z.eqb_neq n 0)) by lia. cbn [negb].
  rewrite (M_bind_ok _ _ p5 tt p5) by done. rewrite (M_bind_ok _ _ p5 tt p5) by done.
  unfold reserve_fd_range. rewrite (M_bind_ok _ _ p5 p5 p5) by done.
  rewrite (M_bind_ok _ _ p5 true (set_env e3 p5)).
  2: { unfold malloc_ok. cbn. by rewrite He4, Hm. }
  destruct Hg4 as (_ & _ & _ & _ & Hch & _ & _).
  eexists. split; [reflexivity|]. split; [|split_and!; try done; by cbn in *; rewrite <-Hch].
  split; cbn; [lia|lia|lia|]. eexists. split; [reflexivity|]. rewrite length_replicate. lia.
Qed.

(** ** [socket] *)

Lemma socket_ok (p : Proc E) type protocol ch e1 r e2 :
  proc_inv p → has_bits type SOCK_STREAM || has_bits type SOCK_DGRAM = true →
  last_fd_assigned p < g_startfd p + g_fd_count p - 1 →
  opens (env p) ch e1 →
  exchange fuel retries ch (mkRequest (self_pid p) (Some (CallSocket AF_INET type protocol))) e1
    (answer (RetSocket r)) e2 →
  (ret r = -1 → is_Some (errno_ r)) →
  ∃ p', socket fuel retries AF_INET type protocol p =
          Ok (if ret r =? -1 then -1 else last_fd_assigned p + 1, p') ∧
    proc_inv p' ∧ last_fd_assigned p' = last_fd_assigned p + 1 ∧
    chan_of p' (last_fd_assigned p + 1) = Some ch ∧
    (∀ fd, fd ≠ last_fd_assigned p + 1 → chan_of p' fd = chan_of p fd) ∧ env p' = e2 ∧
    (ret r = -1 → errno_ r = Some (errno p')).
Proof.
  intros Hi Ht Hl Ho Hx Hw. unfold socket. rewrite Z.eqb_refl. cbn [negb].
  replace (negb (has_bits type SOCK_STREAM) && negb (has_bits type SOCK_DGRAM)) with false
    by (destruct (has_bits type SOCK_STREAM), (has_bits type SOCK_DGRAM); done).
  pose proof (next_avail_fd_eq p) as Hn. rewrite (proj2 (Z.ltb_lt _ _) Hl) in Hn. mstep Hn.
  destruct (next_avail_fd_inv _ _ _ Hi Hn) as (Hi1 & _ & Hl1 & Ha1 & Hc1 & He1').
  set (fd := last_fd_assigned p + 1) in *. set (p1 := set_last fd p) in *.
  destruct (open_chan_ok p1 ch e1 Ho) as (p2 & Hop & Hg2 & He2). mstep Hop.
  pose proof (proc_inv_same _ _ Hg2 Hi1) as Hi2.
  assert (is_assigned_by_velox p2 fd = true) as Ha2.
  { destruct Hg2 as (E1 & E2 & _). unfold is_assigned_by_velox in *. by rewrite <-E1, <-E2. }
  destruct (set_fd_chanmap_ok p2 fd ch Hi2 Ha2) as (p3 & Hset & Hi3 & Hc3 & Ho3 & He3 & Hl3 & Hpid3 & _ & _).
  mstep Hset. rewrite (M_bind_ok _ _ p3 (self_pid p3) p3) by done.
  assert (exchange fuel retries ch (mkRequest (self_pid p3) (Some (CallSocket AF_INET type protocol))) (env p3)
            (answer (RetSocket r)) e2) as Hx3.
  { rewrite He3, He2, Hpid3. destruct Hg2 as (_ & _ & _ & _ & _ & <- & _). done. }
  destruct (send_recv_ok fuel retries _ _ _ _ _ Hx3) as (p4 & p5 & Hs & Hr & _ & Hg5 & He5).
  mstep Hs. mstep Hr. cbn [returning answer].
  pose proof (proc_inv_same _ _ Hg5 Hi3) as Hi5.
  assert (last_fd_assigned p5 = fd) as Hl5.
  { destruct Hg5 as (_ & _ & <- & _). rewrite Hl3. by destruct Hg2 as (_ & _ & <- & _). }
  assert (∀ x, chan_of p5 x = chan_of p3 x) as Hco5 by (intros x; symmetry; by apply chan_of_same).
  assert (∀ x, x ≠ fd → chan_of p3 x = chan_of p x) as Hco3.
  { intros x Hx0. rewrite Ho3 by done. rewrite <-(chan_of_same _ _ x Hg2). apply Hc1. }
  destruct (decide (ret r = -1)) as [Hm|Hm].
  - destruct (Hw Hm) as [en Hen]. rewrite Hm, Hen. cbn.
    eexists. split; [reflexivity|].
    split_and!; [by apply (proc_inv_same p5)|done|by rewrite <-Hc3, <-Hco5| |done|done].
    intros x Hx0. rewrite <-Hco3 by done. rewrite <-Hco5. done.
  - rewrite (proj2 (Z.eqb_neq _ _) Hm). cbn [negb]. exists p5.
    split_and!; [done|done|done|by rewrite Hco5| |done|done]. intros x Hx0. rewrite Hco5. by apply Hco3.
Qed.
(** ** [sendto] *)

Lemma sendto_ok (p : Proc E) fd ch buf len flags dest r e' :
  proc_inv p → chan_of p fd = Some ch → 0 < len ≤ length buf → opt_ok (λ a, length a = 16%nat) dest →
  exchange fuel retries ch (mkRequest (self_pid p) (Some (CallSendto (take (Z.to_nat len) buf) flags dest)))
    (env p) (answer (RetSendto r)) e' →
  (ret r = -1 → is_Some (errno_ r)) →
  ∃ p', sendto fuel retries fd (Some buf) len flags dest 16 p = Ok (ret r, p') ∧ same_globals p p' ∧ env p' = e' ∧
        (ret r = -1 → errno_ r = Some (errno p')).
Proof.
  intros Hi Hc Hl Hd Hx Hw. destruct (rpc_ok fuel retries _ _ _ _ _ _ Hi Hc Hx) as (p1 & Hr & Hg & He).
  destruct (return_ret_errno_spec r p1 Hw) as (p2 & Hret & Hg2 & He2 & Herr).
  exists p2. split_and!; [|by etrans|congruence|done].
  unfold sendto. rewrite (M_bind_ok _ _ p p p) by done. rewrite (chan_of_assigned _ _ _ Hc). cbn [negb].
  rewrite (proj2 (Z.eqb_neq len 0)) by lia.
  rewrite (M_bind_ok _ _ p (take (Z.to_nat len) buf) p).
  2: { replace (slice buf 0 len) with (Some (take (Z.to_nat len) buf)); [done|]. symmetry. apply slice_Some.
       split_and!; [lia|lia|lia|]. by rewrite drop_0. }
  rewrite (M_bind_ok _ _ p dest p).
  2: { destruct dest as [a|]; [|done]. cbn in Hd. rewrite (M_bind_ok _ _ p tt p) by done.
       replace (slice a 0 16) with (Some a); [done|]. symmetry. apply slice_Some.
       split_and!; [lia|lia|lia|]. change (Z.to_nat 16) with 16%nat. rewrite drop_0, <-Hd. by rewrite firstn_all. }
  by mstep Hr.
Qed.

(** Without an address its length is not looked at. *)
Lemma sendto_no_address (p : Proc E) fd buf len flags n m : is_assigned_by_velox p fd = true →
  sendto fuel retries fd buf len flags None n p = sendto fuel retries fd buf len flags None m p.
Proof. intros Hf. unfold sendto. rewrite !(M_bind_ok _ _ p p p) by done. by rewrite Hf. Qed.

(** ** [close] *)

Lemma close_ok n (p : Proc E) fd ch r e1 v en e2 :
  proc_inv p → chan_of p fd = Some ch → is_assigned_by_velox p ch = false →
  exchange fuel retries ch (mkRequest (self_pid p) (Some CallClose)) (env p) (answer (RetClose r)) e1 →
  g_close ch e1 = ((v, en), e2) → (ret r = -1 → is_Some (errno_ r)) →
  ∃ p', close fuel retries (S n) fd p = Ok (ret r, p') ∧ proc_inv p' ∧ env p' = e2 ∧
    is_assigned_by_velox p' fd = true ∧ fd_chanmap fd p' = Ok (0, p') ∧
    (∀ fd', fd' ≠ fd → chan_of p' fd' = chan_of p fd').
Proof.
  intros Hi Hc Hnv Hx Hg Hw. destruct (rpc_ok fuel retries fd ch CallClose p _ e1 Hi Hc Hx) as (p1 & Hr & Hg1 & He1).
  pose proof (chan_of_assigned _ _ _ Hc) as Ha. pose proof (proc_inv_same _ _ Hg1 Hi) as Hi1.
  assert (chan_of p1 fd = Some ch) as Hc1 by (by rewrite <-(chan_of_same _ _ _ Hg1)).
  pose proof (chan_of_assigned _ _ _ Hc1) as Ha1.
  destruct (unset_fd_chanmap_ok p1 fd ch Hi1 Ha1) as (p2 & Hun & Hi2 & Hc2 & Ho2 & He2 & _ & _ & Hs2 & Hn2 & _).
  assert (is_assigned_by_velox p2 ch = false) as Hnv2.
  { destruct Hg1 as (E1 & E2 & _). unfold is_assigned_by_velox in *. by rewrite Hs2, Hn2, <-E1, <-E2. }
  assert (∃ p3, close fuel retries n ch p2 = Ok (v, p3) ∧ same_globals p2 p3 ∧ env p3 = e2) as (p3 & Hcl & Hg3 & He3).
  { rewrite <-He1, <-He2 in Hg. eexists. split.
    - destruct n; cbn [close]; rewrite (M_bind_ok _ _ p2 p2 p2) by done; rewrite Hnv2; cbn [negb];
        apply (syscall_eq _ _ _ _ _ Hg).
    - by destruct en. }
  destruct (return_ret_errno_spec r p3 Hw) as (p4 & Hret & Hg4 & He4 & _).
  assert (same_globals p2 p4) as Hg24 by (by etrans).
  pose proof (proc_inv_same _ _ Hg24 Hi2) as Hi4.
  assert (∀ x, chan_of p4 x = chan_of p2 x) as Hco by (intros x; symmetry; by apply chan_of_same).
  exists p4. split_and!.
  - cbn [close]. rewrite (M_bind_ok _ _ p p p) by done. rewrite Ha. cbn [negb]. mstep Hr. cbn [returning answer].
    mstep (fd_chanmap_ok _ _ _ Hi1 Hc1). mstep (fd_chanmap_ok _ _ _ Hi1 Hc1). mstep Hun. by mstep Hcl.
  - done.
  - congruence.
  - by apply (chan_of_assigned p4 fd 0); rewrite Hco.
  - apply fd_chanmap_ok; [done|]. by rewrite Hco.
  - intros fd' Hne. rewrite Hco, Ho2 by done. symmetry. by apply chan_of_same.
Qed.
End spec.

(** ** Properties *)

(** Start-up of the interceptor: after the daemon's answer with a positive
    start and count, the pool is exactly that range, no descriptor is assigned
    yet, the channel table has one zeroed entry per descriptor, and the pool
    invariant holds. *)
Theorem interceptor_start_up {E} `{Glibc E} `{Codec} `{!CodecLaws} fuel retries (p : Proc E) ch e1 s n e2 e3 :
  opens (env p) ch e1 →
  exchange fuel retries ch (mkRequest (self_pid p) (Some (CallAtstart (short_name p)))) e1
    (answer (RetAtstart s (Some n))) e2 →
  0 < s → 0 < n → g_malloc (u64 (4 * n)) e2 = (true, e3) →
  ∃ p', interceptor_init fuel retries p = Ok (tt, p') ∧ proc_inv p' ∧
    (∀ fd, is_assigned_by_velox p' fd = true ↔ s ≤ fd < s + n) ∧ last_fd_assigned p' = s - 1 ∧
    (∀ fd, s ≤ fd < s + n → chan_of p' fd = Some 0) ∧ g_proc_chan p' = ch ∧ env p' = e3.
Proof.
  intros Ho Hx Hs Hn Hm.
  destruct (start_up_ok fuel retries p ch e1 s n e2 e3 Ho Hx Hs Hn Hm)
    as (p' & Hr & Hi & Hst & Hc & Hl & Hp & Ht & He).
  assert (∀ fd, is_assigned_by_velox p' fd = true ↔ s ≤ fd < s + n) as Ha
    by (intros fd; by rewrite is_assigned_spec, Hst, Hc).
  exists p'. split_and!; try done. intros fd Hfd. unfold chan_of. rewrite (proj2 (Ha fd) Hfd), Ht. cbn.
  rewrite Hst. apply lookup_replicate. split; [done|lia].
Qed.

(** [socket(AF_INET, ...)] on a pool that is not exhausted takes the
    descriptor after the last one assigned, opens a channel of its own for it
    and records it, leaves every other descriptor's channel alone, and returns
    the descriptor, or -1 with the daemon's [errno] (the descriptor is used up
    all the same); on an exhausted pool the process stops on an assertion. *)
Theorem socket_result {E} `{Glibc E} `{Codec} `{!CodecLaws} fuel retries (p : Proc E) type protocol ch e1 r e2 :
  proc_inv p → has_bits type SOCK_STREAM || has_bits type SOCK_DGRAM = true →
  opens (env p) ch e1 →
  exchange fuel retries ch (mkRequest (self_pid p) (Some (CallSocket AF_INET type protocol))) e1
    (answer (RetSocket r)) e2 →
  (ret r = -1 → is_Some (errno_ r)) →
  if last_fd_assigned p <? g_startfd p + g_fd_count p - 1 then
    ∃ p', socket fuel retries AF_INET type protocol p =
            Ok (if ret r =? -1 then -1 else last_fd_assigned p + 1, p') ∧
      proc_inv p' ∧ last_fd_assigned p' = last_fd_assigned p + 1 ∧
      chan_of p' (last_fd_assigned p + 1) = Some ch ∧
      (∀ fd, fd ≠ last_fd_assigned p + 1 → chan_of p' fd = chan_of p fd) ∧ env p' = e2 ∧
      (ret r = -1 → errno_ r = Some (errno p'))
  else socket fuel retries AF_INET type protocol p = Fault AssertFail.
Proof.
  intros Hi Ht Ho Hx Hw. destruct (Z.ltb_spec (last_fd_assigned p) (g_startfd p + g_fd_count p - 1)) as [Hl|Hl].
  - by apply (socket_ok fuel retries p type protocol ch e1 r e2).
  - unfold socket. rewrite Z.eqb_refl. cbn [negb].
    replace (negb (has_bits type SOCK_STREAM) && negb (has_bits type SOCK_DGRAM)) with false
      by (destruct (has_bits type SOCK_STREAM), (has_bits type SOCK_DGRAM); done).
    apply M_bind_fault. rewrite next_avail_fd_eq. by rewrite (proj2 (Z.ltb_ge _ _) Hl).
Qed.

(** [close] on a pool descriptor: the daemon is told, the channel is closed
    with glibc's [close], and the table entry is cleared; but the descriptor
    stays in the pool's range and its entry is 0, so a later call on it is sent
    to descriptor 0 instead of being refused. *)
Theorem close_result {E} `{Glibc E} `{Codec} `{!CodecLaws} fuel retries n (p : Proc E) fd ch r e1 v en e2 :
  proc_inv p → chan_of p fd = Some ch → is_assigned_by_velox p ch = false →
  exchange fuel retries ch (mkRequest (self_pid p) (Some CallClose)) (env p) (answer (RetClose r)) e1 →
  g_close ch e1 = ((v, en), e2) → (ret r = -1 → is_Some (errno_ r)) →
  ∃ p', close fuel retries (S n) fd p = Ok (ret r, p') ∧ proc_inv p' ∧ env p' = e2 ∧
    is_assigned_by_velox p' fd = true ∧ fd_chanmap fd p' = Ok (0, p') ∧
    (∀ fd', fd' ≠ fd → chan_of p' fd' = chan_of p fd').
Proof. apply close_ok. Qed.

(** [sendto] on a pool descriptor sends the daemon one request with exactly
    the [len] bytes of the caller's buffer and the destination (if any), and
    returns the daemon's value, with its [errno] on -1. *)
Theorem sendto_data {E} `{Glibc E} `{Codec} `{!CodecLaws} fuel retries (p : Proc E) fd ch buf len flags dest r e' :
  proc_inv p → chan_of p fd = Some ch → 0 < len ≤ length buf → opt_ok (λ a, length a = 16%nat) dest →
  exchange fuel retries ch (mkRequest (self_pid p) (Some (CallSendto (take (Z.to_nat len) buf) flags dest)))
    (env p) (answer (RetSendto r)) e' →
  (ret r = -1 → is_Some (errno_ r)) →
  ∃ p', sendto fuel retries fd (Some buf) len flags dest 16 p = Ok (ret r, p') ∧ same_globals p p' ∧ env p' = e' ∧
        (ret r = -1 → errno_ r = Some (errno p')).
Proof. apply sendto_ok. Qed.

(** ** Concrete runs *)

(** The scripted environment delivers its next message. *)
Lemma script_exchange fuel ch req resp rest (e : script) :
  sc_reads e = response_pack resp :: rest → length (request_pack req) ≤ RPC_MESSAGE_MAX_SIZE →
  response_wf resp → is_wait_next resp = false → ∃ e', exchange fuel 0 ch req e resp e'.
Proof.
  intros Hr Hl Hw Hn. eexists. split; [exact Hl|]. eexists _, _, 0%nat. split; [reflexivity|]. split; [|lia].
  eapply (delivers_last _ _ 0%nat); [lia| |exact Hw|exact Hn].
  apply reads_now. exists None, None, None. cbn. unfold sc_read_bytes. cbn. rewrite Hr. reflexivity.
Qed.

Lemma script_opens (e : script) : sc_next_fd e ≠ -1 → ∃ e', opens e (sc_next_fd e) e' ∧ sc_reads e' = sc_reads e.
Proof. intros Hn. eexists. split; [split; [done|]; eexists _, _, _, _; split; [reflexivity|]; split; [reflexivity|done]|done]. Qed.

Ltac small_wf := split; [by eexists|]; cbn; unfold ret_wf, in_i32; cbn; lia.

(** A process before start-up; the daemon offers 1024 descriptors from 4096. *)
Definition new_proc : Proc script :=
  mkProc 0 0 0 None 0 0 77 [99; 117; 114; 108]
    (mkScript [response_pack (answer (RetAtstart 4096 (Some 1024)))] [] 10 (0, []) no_select).

Lemma interceptor_start_up_witness :
  ∃ p', interceptor_init 0 0 new_proc = Ok (tt, p') ∧ chan_of p' 4096 = Some 0 ∧ last_fd_assigned p' = 4095.
Proof.
  destruct (script_opens (env new_proc)) as (e1 & Ho & Hr1); [done|].
  destruct (script_exchange 0 10 (mkRequest 77 (Some (CallAtstart [99; 117; 114; 108])))
              (answer (RetAtstart 4096 (Some 1024))) [] e1) as (e2 & Hx);
    [by rewrite Hr1|vm_compute; discriminate|small_wf|done|].
  destruct (interceptor_start_up 0 0 new_proc 10 e1 4096 1024 e2 e2 Ho Hx) as (p' & Hp & _ & _ & Hl & Hc & _);
    [lia|lia|reflexivity|].
  exists p'. split_and!; [exact Hp|apply Hc; lia|exact Hl].
Defined.

Lemma socket_result_witness :
  ∃ p', socket 0 0 AF_INET SOCK_DGRAM 0 pool_proc = Ok (4096, p') ∧ chan_of p' 4096 = Some 10.
Proof.
  destruct (script_opens (env pool_proc)) as (e1 & Ho & Hr1); [done|].
  destruct (script_exchange 0 10 (mkRequest 77 (Some (CallSocket AF_INET SOCK_DGRAM 0)))
              (answer (RetSocket (mkRet 0 None))) [response_pack (answer (RetSocket (mkRet 0 None)))] e1) as (e2 & Hx);
    [by rewrite Hr1|vm_compute; discriminate|small_wf|done|].
  destruct (socket_result 0 0 pool_proc SOCK_DGRAM 0 10 e1 (mkRet 0 None) e2 pool_proc_inv eq_refl Ho Hx)
    as (p' & Hp & _ & _ & Hc & _); [done|].
  exists p'. split; [exact Hp|exact Hc].
Defined.

(** Descriptor 4096 is open on channel 10. *)
Definition open_proc (r : Returning) : Proc script := sample_proc 4 4096 [10; 0; 0; 0] [answer r].
Lemma open_proc_inv r : proc_inv (open_proc r).
Proof. split; cbn; [lia|lia|lia|eauto]. Qed.

Lemma close_result_witness :
  ∃ p', close 0 0 1 4096 (open_proc (RetClose (mkRet 0 None))) = Ok (0, p') ∧ fd_chanmap 4096 p' = Ok (0, p').
Proof.
  destruct (script_exchange 0 10 (mkRequest 77 (Some CallClose)) (answer (RetClose (mkRet 0 None))) []
              (env (open_proc (RetClose (mkRet 0 None))))) as (e1 & Hx);
    [done|vm_compute; discriminate|small_wf|done|].
  destruct (close_result 0 0 0 (open_proc (RetClose (mkRet 0 None))) 4096 10 (mkRet 0 None) e1 0 None e1
              (open_proc_inv _) eq_refl eq_refl Hx eq_refl) as (p' & Hp & _ & _ & _ & Hc & _); [done|].
  exists p'. split; [exact Hp|exact Hc].
Defined.

Lemma sendto_data_witness :
  ∃ p', sendto 0 0 4096 (Some [7; 8; 9]) 2 0 None 16 (open_proc (RetSendto (mkRet 2 None))) = Ok (2, p').
Proof.
  destruct (script_exchange 0 10 (mkRequest 77 (Some (CallSendto [7; 8] 0 None))) (answer (RetSendto (mkRet 2 None))) []
              (env (open_proc (RetSendto (mkRet 2 None))))) as (e1 & Hx);
    [done|vm_compute; discriminate|small_wf|done|].
  destruct (sendto_data 0 0 (open_proc (RetSendto (mkRet 2 None))) 4096 10 [7; 8; 9] 2 0 None (mkRet 2 None) e1
              (open_proc_inv _) eq_refl ltac:(cbn; lia) I Hx) as (p' & Hp & _); [done|].
  exists p'. exact Hp.
Defined.
