(* ===== verification/World.v ===== *)
(** * The daemon's state

    The singletons of veloxd (src/src/veloxd) and the objects they own, as one
    record.  An object managed by [shared_ptr]/[unique_ptr] is a cell of a heap
    (a finite map from identifiers); a raw pointer, a [shared_ptr] and a
    [weak_ptr] are all the identifier, and using one whose cell is gone is a
    use after free ([weak_ptr::lock] tests it instead).  Callbacks are
    defunctionalised: a [std::function] is the constructor of [callback] that
    names the lambda and what it captured.  The kernel is the class [Kernel]
    over an abstract environment. *)

From S2P Require Import Prelude Frame Session.

(** ** Constants *)

Definition AF_INET : Z := 2.
Definition SOCK_STREAM : Z := 1.
Definition SOCK_DGRAM : Z := 2.
Definition SOCK_NONBLOCK : Z := 2048.
Definition POLLIN : Z := 1.
Definition POLLPRI : Z := 2.
Definition POLLOUT : Z := 4.
Definition POLLERR : Z := 8.
Definition POLLHUP : Z := 16.
Definition POLLNVAL : Z := 32.
Definition POLLRDHUP : Z := 8192.

(** ** The kernel *)

Inductive epoll_op : Set := EPOLL_CTL_ADD | EPOLL_CTL_DEL | EPOLL_CTL_MOD.

(** The system calls the daemon makes while it runs, over an environment [E].
    A call that can fail returns -1 and the new [errno]. *)
Class Kernel (E : Type) := {
  k_pipe2 : E → (Z * Z) * E;                          (* the two descriptors *)
  k_getfl : Z → E → Z * E;                            (* fcntl(fd, F_GETFL) *)
  k_setfl : Z → Z → E → E;                            (* fcntl(fd, F_SETFL, flags) *)
  k_read : Z → Z → E → (Z * list Z * Z) * E;          (* value, bytes stored, errno *)
  k_write : Z → list Z → E → Z * E;
  k_writev : Z → list (list Z) → E → Z * E;
  k_close : Z → E → E;
  k_accept : Z → E → (Z * Z) * E;                     (* descriptor or -1, errno *)
  k_epoll_ctl : epoll_op → Z → Z → option nat → E → Z * E;
  k_epoll_wait : Z → Z → E → (Z * list (Z * nat)) * E; (* count, events with data.ptr *)
  k_listen : Z → Z → E → Z * E;
  (* start-up *)
  k_mkdir : list Z → E → E;
  k_unlink : list Z → E → E;
  k_socket : Z → Z → Z → E → Z * E;
  k_bind : Z → list Z → E → Z * E;                    (* an AF_UNIX path *)
  k_open : list Z → Z → E → Z * E;
  k_tunsetiff : Z → Z → E → (Z * list Z) * E;         (* value, ifr_name *)
  k_system : list Z → E → E
}.

(** ** Configuration *)

(** [struct Conf]: src/src/veloxd/Conf.h:30-56; strings as their bytes. *)
Record Conf := mkConf {
  logging_level : list Z;
  logging_to_stdout : bool;
  logging_dir : list Z;
  tundev_name : list Z;
  tundev_addr_cidr : list Z;
  stack_addr : list Z;
  conf_file : list Z
}.

(** ** Event handles *)

(** The lambdas given to [setOnReadCB] and [setOnCloseCB], with what they
    capture: those of [AgentHub::AgentHub] (AgentHub.cpp, line 84),
    [AgentChannel::AgentChannel], [Endpoint::Endpoint] and
    [TcpSession::TcpSession]. *)
Inductive callback : Type :=
  | CbHubReadReady
  | CbChannelReadReady (ch : nat)
  | CbChannelPeerClose (ch : nat)
  | CbEndpointReadReady (ep : nat)
  | CbSessionEstab (pcb : nat).

(** [IoHandle::Impl]: src/src/veloxd/arbiter/reactor/IoHandle.cpp:36-50.  There is
    one [EventReactor], so [ownerLoop] is whether it is set. *)
Record IoHandle := mkIoHandle {
  io_fd : Z;
  io_interested : Z;   (* eventsInterested *)
  io_received : Z;   (* eventsReceived *)
  io_handling : bool;   (* handlingEvents *)
  io_owner : bool;   (* ownerLoop is set *)
  io_onRead : option callback;
  io_onWrite : option callback;
  io_onClose : option callback;
  io_onError : option callback
}.
Definition set_io_interested (v : Z) (h : IoHandle) : IoHandle :=
  mkIoHandle (io_fd h) v (io_received h) (io_handling h) (io_owner h) (io_onRead h) (io_onWrite h) (io_onClose h) (io_onError h).
Definition set_io_received (v : Z) (h : IoHandle) : IoHandle :=
  mkIoHandle (io_fd h) (io_interested h) v (io_handling h) (io_owner h) (io_onRead h) (io_onWrite h) (io_onClose h) (io_onError h).
Definition set_io_handling (v : bool) (h : IoHandle) : IoHandle :=
  mkIoHandle (io_fd h) (io_interested h) (io_received h) v (io_owner h) (io_onRead h) (io_onWrite h) (io_onClose h) (io_onError h).
Definition set_io_owner (v : bool) (h : IoHandle) : IoHandle :=
  mkIoHandle (io_fd h) (io_interested h) (io_received h) (io_handling h) v (io_onRead h) (io_onWrite h) (io_onClose h) (io_onError h).
Definition set_io_onRead (v : option callback) (h : IoHandle) : IoHandle :=
  mkIoHandle (io_fd h) (io_interested h) (io_received h) (io_handling h) (io_owner h) v (io_onWrite h) (io_onClose h) (io_onError h).
Definition set_io_onWrite (v : option callback) (h : IoHandle) : IoHandle :=
  mkIoHandle (io_fd h) (io_interested h) (io_received h) (io_handling h) (io_owner h) (io_onRead h) v (io_onClose h) (io_onError h).
Definition set_io_onClose (v : option callback) (h : IoHandle) : IoHandle :=
  mkIoHandle (io_fd h) (io_interested h) (io_received h) (io_handling h) (io_owner h) (io_onRead h) (io_onWrite h) v (io_onError h).
Definition set_io_onError (v : option callback) (h : IoHandle) : IoHandle :=
  mkIoHandle (io_fd h) (io_interested h) (io_received h) (io_handling h) (io_owner h) (io_onRead h) (io_onWrite h) (io_onClose h) v.

(** ** Sessions *)

(** [TcpState]: src/src/veloxd/tcp/TcpHdr.h:30-49. *)
Inductive TcpState : Set :=
  | TCP_STATE__CLOSED
  | TCP_STATE__LISTEN
  | TCP_STATE__SYN_SENT
  | TCP_STATE__SYN_RECEIVED
  | TCP_STATE__ESTABLISHED
  | TCP_STATE__FIN_WAIT_1
  | TCP_STATE__FIN_WAIT_2
  | TCP_STATE__CLOSING
  | TCP_STATE__TIME_WAIT
  | TCP_STATE__CLOSE_WAIT
  | TCP_STATE__LAST_ACK.

#[global] Instance TcpState_eq_dec : EqDecision TcpState.
Proof. solve_decision. Defined.

(** The members [TcpSession] adds to [Session]:
    src/src/veloxd/tcp/TcpSession.h:29-75 (those it uses).  The sequence
    numbers have no initialiser; every state but [CLOSED] has set them. *)
Record Tcb := mkTcb {
  conn_state : TcpState;
  estab_notify_pipe : Z * Z;
  onConnEstabCB : option nat;   (* the lambda of connectCall, with its channel *)
  t_sChannel : nat;
  send_unack : Z;
  send_next : Z;
  irs : Z;
  recv_next : Z
}.
Definition set_conn_state (v : TcpState) (t : Tcb) : Tcb :=
  mkTcb v (estab_notify_pipe t) (onConnEstabCB t) (t_sChannel t) (send_unack t) (send_next t) (irs t) (recv_next t).
Definition set_onConnEstabCB (v : option nat) (t : Tcb) : Tcb :=
  mkTcb (conn_state t) (estab_notify_pipe t) v (t_sChannel t) (send_unack t) (send_next t) (irs t) (recv_next t).
Definition set_send_unack (v : Z) (t : Tcb) : Tcb :=
  mkTcb (conn_state t) (estab_notify_pipe t) (onConnEstabCB t) (t_sChannel t) v (send_next t) (irs t) (recv_next t).
Definition set_send_next (v : Z) (t : Tcb) : Tcb :=
  mkTcb (conn_state t) (estab_notify_pipe t) (onConnEstabCB t) (t_sChannel t) (send_unack t) v (irs t) (recv_next t).
Definition set_irs (v : Z) (t : Tcb) : Tcb :=
  mkTcb (conn_state t) (estab_notify_pipe t) (onConnEstabCB t) (t_sChannel t) (send_unack t) (send_next t) v (recv_next t).
Definition set_recv_next (v : Z) (t : Tcb) : Tcb :=
  mkTcb (conn_state t) (estab_notify_pipe t) (onConnEstabCB t) (t_sChannel t) (send_unack t) (send_next t) (irs t) v.

(** A [UdpSession] (src/src/veloxd/udp/UdpSession.h:26-40) or a [TcpSession]. *)
Record Pcb := mkPcb {
  p_base : Session;   (* the [Session] subobject *)
  p_tcb : option Tcb   (* [Some] in a [TcpSession], [None] in a [UdpSession] *)
}.
Definition set_p_base (v : Session) (p : Pcb) : Pcb :=
  mkPcb v (p_tcb p).
Definition set_p_tcb (v : option Tcb) (p : Pcb) : Pcb :=
  mkPcb (p_base p) v.

(** ** Endpoints and channels *)

(** [Endpoint::Type]: src/src/veloxd/arbiter/Endpoint.h:35-39. *)
Inductive EndpointType : Set := EP_UDP | EP_TCP.

#[global] Instance EndpointType_eq_dec : EqDecision EndpointType.
Proof. solve_decision. Defined.

(** The functions [std::bind] gives to [setOnAsyncNewPacketCB]:
    src/src/veloxd/arbiter/RpcDispatch.cpp:428-439. *)
Inductive packet_cb : Type :=
  | onAsyncNewUdpPacket_cb (ch : nat) (require_addr : bool)
  | onAsyncNewTcpPacket_cb (ch : nat).

(** [Endpoint::Impl]: src/src/veloxd/arbiter/Endpoint.cpp:47-69. *)
Record Endpoint := mkEndpoint {
  ep_type : EndpointType;
  ep_nonblocking : bool;
  new_packet_notify_pipe : Z * Z;
  waiting : bool;
  onAsyncNewPacket : option packet_cb;
  ep_sChannel : nat;
  ep_rrChannel : option nat;   (* weak *)
  ep_pcb : option nat;   (* owned *)
  recvQ : list (list Z * nat)   (* [sockaddr_in] bytes and frame *)
}.
Definition recvQlimit : Z := 128.
Definition set_waiting (v : bool) (s : Endpoint) : Endpoint :=
  mkEndpoint (ep_type s) (ep_nonblocking s) (new_packet_notify_pipe s) v (onAsyncNewPacket s) (ep_sChannel s) (ep_rrChannel s) (ep_pcb s) (recvQ s).
Definition set_onAsyncNewPacket (v : option packet_cb) (s : Endpoint) : Endpoint :=
  mkEndpoint (ep_type s) (ep_nonblocking s) (new_packet_notify_pipe s) (waiting s) v (ep_sChannel s) (ep_rrChannel s) (ep_pcb s) (recvQ s).
Definition set_ep_rrChannel (v : option nat) (s : Endpoint) : Endpoint :=
  mkEndpoint (ep_type s) (ep_nonblocking s) (new_packet_notify_pipe s) (waiting s) (onAsyncNewPacket s) (ep_sChannel s) v (ep_pcb s) (recvQ s).
Definition set_ep_pcb (v : option nat) (s : Endpoint) : Endpoint :=
  mkEndpoint (ep_type s) (ep_nonblocking s) (new_packet_notify_pipe s) (waiting s) (onAsyncNewPacket s) (ep_sChannel s) (ep_rrChannel s) v (recvQ s).
Definition set_recvQ (v : list (list Z * nat)) (s : Endpoint) : Endpoint :=
  mkEndpoint (ep_type s) (ep_nonblocking s) (new_packet_notify_pipe s) (waiting s) (onAsyncNewPacket s) (ep_sChannel s) (ep_rrChannel s) (ep_pcb s) v.

(** [AgentChannel::Impl]: src/src/veloxd/arbiter/agent/AgentChannel.cpp:43-69;
    [onNewRequestFunc] is always the lambda of [Arbiter::init]. *)
Record AgentChannel := mkChannel {
  ch_fd : Z;
  ch_sChannel : nat;   (* owned *)
  ch_peer : list Z;
  ch_peerPid : option Z;
  ch_socket : option nat   (* owned *)
}.
Definition set_ch_peer (v : list Z) (c : AgentChannel) : AgentChannel :=
  mkChannel (ch_fd c) (ch_sChannel c) v (ch_peerPid c) (ch_socket c).
Definition set_ch_peerPid (v : option Z) (c : AgentChannel) : AgentChannel :=
  mkChannel (ch_fd c) (ch_sChannel c) (ch_peer c) v (ch_socket c).
Definition set_ch_socket (v : option nat) (c : AgentChannel) : AgentChannel :=
  mkChannel (ch_fd c) (ch_sChannel c) (ch_peer c) (ch_peerPid c) v.

(** ** Reassembly *)

(** [FragGroup]: src/src/veloxd/ip/reassembly/FragGroup.h:30-42; the timer is
    libev's. *)
Record FragGroup := mkFragGroup {
  ip_id : Z;
  ip_protocol : Z;
  ip_saddr : Z;
  ip_daddr : Z;
  fg_first : option nat
}.

(** ** The whole daemon *)

(** The [Impl] structs of [Ip] (src/src/veloxd/ip/Ip.cpp, from line 42), [Interface],
    [Tcp], [Udp], [Arbiter], [EventReactor], [AgentHub] and [Veloxd], and the
    heaps of the objects they share. *)
Record Daemon (E : Type) := mkDaemon {
  conf : Conf;   (* Conf::get() *)
  frames : gmap nat FrameBuf;
  handles : gmap nat IoHandle;
  sessions : gmap nat Pcb;
  endpoints : gmap nat Endpoint;
  channels : gmap nat AgentChannel;
  next_id : nat;   (* allocation counter of every heap *)
  tcp_pcbs : list nat;   (* Tcp::Impl::pcbs *)
  udp_pcbs : list nat;   (* Udp::Impl::pcbs *)
  tcp_port : Z;   (* static port of TcpSession.cpp *)
  udp_port : Z;   (* static port of UdpSession.cpp *)
  rxQ : list (option nat);   (* Ip::Impl::rxQ *)
  ip_stopflag : bool;
  idgenerator : option IpIdGenerator;
  defragCtxList : option (list FragGroup);   (* Ip::Impl::defrager *)
  if_stopflag : bool;   (* Interface::Impl::stopflag *)
  tunDev : option Z;   (* descriptor of the TUN device *)
  devname : option (list Z);   (* TunIface::_devname *)
  hub : option (Z * nat);   (* AgentHub: fd and listenChannel *)
  rrChannels : list nat;
  loop_channels : list nat;   (* EventReactor::Impl::channels *)
  loop_stopflag : bool;
  loop_handing : bool;   (* handingEvents *)
  running : bool;   (* Veloxd::Impl::running *)
  env : E
}.
Arguments mkDaemon {E}.
Arguments conf {E}. Arguments frames {E}. Arguments handles {E}. Arguments sessions {E}. Arguments endpoints {E}. Arguments channels {E}. Arguments next_id {E}. Arguments tcp_pcbs {E}. Arguments udp_pcbs {E}. Arguments tcp_port {E}. Arguments udp_port {E}. Arguments rxQ {E}. Arguments ip_stopflag {E}. Arguments idgenerator {E}. Arguments defragCtxList {E}. Arguments if_stopflag {E}. Arguments tunDev {E}. Arguments devname {E}. Arguments hub {E}. Arguments rrChannels {E}. Arguments loop_channels {E}. Arguments loop_stopflag {E}. Arguments loop_handing {E}. Arguments running {E}. Arguments env {E}.
Definition set_conf {E} (v : Conf) (d : Daemon E) : Daemon E :=
  mkDaemon v (frames d) (handles d) (sessions d) (endpoints d) (channels d) (next_id d) (tcp_pcbs d) (udp_pcbs d) (tcp_port d) (udp_port d) (rxQ d) (ip_stopflag d) (idgenerator d) (defragCtxList d) (if_stopflag d) (tunDev d) (devname d) (hub d) (rrChannels d) (loop_channels d) (loop_stopflag d) (loop_handing d) (running d) (env d).
Definition set_frames {E} (v : gmap nat FrameBuf) (d : Daemon E) : Daemon E :=
  mkDaemon (conf d) v (handles d) (sessions d) (endpoints d) (channels d) (next_id d) (tcp_pcbs d) (udp_pcbs d) (tcp_port d) (udp_port d) (rxQ d) (ip_stopflag d) (idgenerator d) (defragCtxList d) (if_stopflag d) (tunDev d) (devname d) (hub d) (rrChannels d) (loop_channels d) (loop_stopflag d) (loop_handing d) (running d) (env d).
Definition set_handles {E} (v : gmap nat IoHandle) (d : Daemon E) : Daemon E :=
  mkDaemon (conf d) (frames d) v (sessions d) (endpoints d) (channels d) (next_id d) (tcp_pcbs d) (udp_pcbs d) (tcp_port d) (udp_port d) (rxQ d) (ip_stopflag d) (idgenerator d) (defragCtxList d) (if_stopflag d) (tunDev d) (devname d) (hub d) (rrChannels d) (loop_channels d) (loop_stopflag d) (loop_handing d) (running d) (env d).
Definition set_sessions {E} (v : gmap nat Pcb) (d : Daemon E) : Daemon E :=
  mkDaemon (conf d) (frames d) (handles d) v (endpoints d) (channels d) (next_id d) (tcp_pcbs d) (udp_pcbs d) (tcp_port d) (udp_port d) (rxQ d) (ip_stopflag d) (idgenerator d) (defragCtxList d) (if_stopflag d) (tunDev d) (devname d) (hub d) (rrChannels d) (loop_channels d) (loop_stopflag d) (loop_handing d) (running d) (env d).
Definition set_endpoints {E} (v : gmap nat Endpoint) (d : Daemon E) : Daemon E :=
  mkDaemon (conf d) (frames d) (handles d) (sessions d) v (channels d) (next_id d) (tcp_pcbs d) (udp_pcbs d) (tcp_port d) (udp_port d) (rxQ d) (ip_stopflag d) (idgenerator d) (defragCtxList d) (if_stopflag d) (tunDev d) (devname d) (hub d) (rrChannels d) (loop_channels d) (loop_stopflag d) (loop_handing d) (running d) (env d).
Definition set_channels {E} (v : gmap nat AgentChannel) (d : Daemon E) : Daemon E :=
  mkDaemon (conf d) (frames d) (handles d) (sessions d) (endpoints d) v (next_id d) (tcp_pcbs d) (udp_pcbs d) (tcp_port d) (udp_port d) (rxQ d) (ip_stopflag d) (idgenerator d) (defragCtxList d) (if_stopflag d) (tunDev d) (devname d) (hub d) (rrChannels d) (loop_channels d) (loop_stopflag d) (loop_handing d) (running d) (env d).
Definition set_next_id {E} (v : nat) (d : Daemon E) : Daemon E :=
  mkDaemon (conf d) (frames d) (handles d) (sessions d) (endpoints d) (channels d) v (tcp_pcbs d) (udp_pcbs d) (tcp_port d) (udp_port d) (rxQ d) (ip_stopflag d) (idgenerator d) (defragCtxList d) (if_stopflag d) (tunDev d) (devname d) (hub d) (rrChannels d) (loop_channels d) (loop_stopflag d) (loop_handing d) (running d) (env d).
Definition set_tcp_pcbs {E} (v : list nat) (d : Daemon E) : Daemon E :=
  mkDaemon (conf d) (frames d) (handles d) (sessions d) (endpoints d) (channels d) (next_id d) v (udp_pcbs d) (tcp_port d) (udp_port d) (rxQ d) (ip_stopflag d) (idgenerator d) (defragCtxList d) (if_stopflag d) (tunDev d) (devname d) (hub d) (rrChannels d) (loop_channels d) (loop_stopflag d) (loop_handing d) (running d) (env d).
Definition set_udp_pcbs {E} (v : list nat) (d : Daemon E) : Daemon E :=
  mkDaemon (conf d) (frames d) (handles d) (sessions d) (endpoints d) (channels d) (next_id d) (tcp_pcbs d) v (tcp_port d) (udp_port d) (rxQ d) (ip_stopflag d) (idgenerator d) (defragCtxList d) (if_stopflag d) (tunDev d) (devname d) (hub d) (rrChannels d) (loop_channels d) (loop_stopflag d) (loop_handing d) (running d) (env d).
Definition set_tcp_port {E} (v : Z) (d : Daemon E) : Daemon E :=
  mkDaemon (conf d) (frames d) (handles d) (sessions d) (endpoints d) (channels d) (next_id d) (tcp_pcbs d) (udp_pcbs d) v (udp_port d) (rxQ d) (ip_stopflag d) (idgenerator d) (defragCtxList d) (if_stopflag d) (tunDev d) (devname d) (hub d) (rrChannels d) (loop_channels d) (loop_stopflag d) (loop_handing d) (running d) (env d).
Definition set_udp_port {E} (v : Z) (d : Daemon E) : Daemon E :=
  mkDaemon (conf d) (frames d) (handles d) (sessions d) (endpoints d) (channels d) (next_id d) (tcp_pcbs d) (udp_pcbs d) (tcp_port d) v (rxQ d) (ip_stopflag d) (idgenerator d) (defragCtxList d) (if_stopflag d) (tunDev d) (devname d) (hub d) (rrChannels d) (loop_channels d) (loop_stopflag d) (loop_handing d) (running d) (env d).
Definition set_rxQ {E} (v : list (option nat)) (d : Daemon E) : Daemon E :=
  mkDaemon (conf d) (frames d) (handles d) (sessions d) (endpoints d) (channels d) (next_id d) (tcp_pcbs d) (udp_pcbs d) (tcp_port d) (udp_port d) v (ip_stopflag d) (idgenerator d) (defragCtxList d) (if_stopflag d) (tunDev d) (devname d) (hub d) (rrChannels d) (loop_channels d) (loop_stopflag d) (loop_handing d) (running d) (env d).
Definition set_ip_stopflag {E} (v : bool) (d : Daemon E) : Daemon E :=
  mkDaemon (conf d) (frames d) (handles d) (sessions d) (endpoints d) (channels d) (next_id d) (tcp_pcbs d) (udp_pcbs d) (tcp_port d) (udp_port d) (rxQ d) v (idgenerator d) (defragCtxList d) (if_stopflag d) (tunDev d) (devname d) (hub d) (rrChannels d) (loop_channels d) (loop_stopflag d) (loop_handing d) (running d) (env d).
Definition set_idgenerator {E} (v : option IpIdGenerator) (d : Daemon E) : Daemon E :=
  mkDaemon (conf d) (frames d) (handles d) (sessions d) (endpoints d) (channels d) (next_id d) (tcp_pcbs d) (udp_pcbs d) (tcp_port d) (udp_port d) (rxQ d) (ip_stopflag d) v (defragCtxList d) (if_stopflag d) (tunDev d) (devname d) (hub d) (rrChannels d) (loop_channels d) (loop_stopflag d) (loop_handing d) (running d) (env d).
Definition set_defragCtxList {E} (v : option (list FragGroup)) (d : Daemon E) : Daemon E :=
  mkDaemon (conf d) (frames d) (handles d) (sessions d) (endpoints d) (channels d) (next_id d) (tcp_pcbs d) (udp_pcbs d) (tcp_port d) (udp_port d) (rxQ d) (ip_stopflag d) (idgenerator d) v (if_stopflag d) (tunDev d) (devname d) (hub d) (rrChannels d) (loop_channels d) (loop_stopflag d) (loop_handing d) (running d) (env d).
Definition set_if_stopflag {E} (v : bool) (d : Daemon E) : Daemon E :=
  mkDaemon (conf d) (frames d) (handles d) (sessions d) (endpoints d) (channels d) (next_id d) (tcp_pcbs d) (udp_pcbs d) (tcp_port d) (udp_port d) (rxQ d) (ip_stopflag d) (idgenerator d) (defragCtxList d) v (tunDev d) (devname d) (hub d) (rrChannels d) (loop_channels d) (loop_stopflag d) (loop_handing d) (running d) (env d).
Definition set_tunDev {E} (v : option Z) (d : Daemon E) : Daemon E :=
  mkDaemon (conf d) (frames d) (handles d) (sessions d) (endpoints d) (channels d) (next_id d) (tcp_pcbs d) (udp_pcbs d) (tcp_port d) (udp_port d) (rxQ d) (ip_stopflag d) (idgenerator d) (defragCtxList d) (if_stopflag d) v (devname d) (hub d) (rrChannels d) (loop_channels d) (loop_stopflag d) (loop_handing d) (running d) (env d).
Definition set_devname {E} (v : option (list Z)) (d : Daemon E) : Daemon E :=
  mkDaemon (conf d) (frames d) (handles d) (sessions d) (endpoints d) (channels d) (next_id d) (tcp_pcbs d) (udp_pcbs d) (tcp_port d) (udp_port d) (rxQ d) (ip_stopflag d) (idgenerator d) (defragCtxList d) (if_stopflag d) (tunDev d) v (hub d) (rrChannels d) (loop_channels d) (loop_stopflag d) (loop_handing d) (running d) (env d).
Definition set_hub {E} (v : option (Z * nat)) (d : Daemon E) : Daemon E :=
  mkDaemon (conf d) (frames d) (handles d) (sessions d) (endpoints d) (channels d) (next_id d) (tcp_pcbs d) (udp_pcbs d) (tcp_port d) (udp_port d) (rxQ d) (ip_stopflag d) (idgenerator d) (defragCtxList d) (if_stopflag d) (tunDev d) (devname d) v (rrChannels d) (loop_channels d) (loop_stopflag d) (loop_handing d) (running d) (env d).
Definition set_rrChannels {E} (v : list nat) (d : Daemon E) : Daemon E :=
  mkDaemon (conf d) (frames d) (handles d) (sessions d) (endpoints d) (channels d) (next_id d) (tcp_pcbs d) (udp_pcbs d) (tcp_port d) (udp_port d) (rxQ d) (ip_stopflag d) (idgenerator d) (defragCtxList d) (if_stopflag d) (tunDev d) (devname d) (hub d) v (loop_channels d) (loop_stopflag d) (loop_handing d) (running d) (env d).
Definition set_loop_channels {E} (v : list nat) (d : Daemon E) : Daemon E :=
  mkDaemon (conf d) (frames d) (handles d) (sessions d) (endpoints d) (channels d) (next_id d) (tcp_pcbs d) (udp_pcbs d) (tcp_port d) (udp_port d) (rxQ d) (ip_stopflag d) (idgenerator d) (defragCtxList d) (if_stopflag d) (tunDev d) (devname d) (hub d) (rrChannels d) v (loop_stopflag d) (loop_handing d) (running d) (env d).
Definition set_loop_stopflag {E} (v : bool) (d : Daemon E) : Daemon E :=
  mkDaemon (conf d) (frames d) (handles d) (sessions d) (endpoints d) (channels d) (next_id d) (tcp_pcbs d) (udp_pcbs d) (tcp_port d) (udp_port d) (rxQ d) (ip_stopflag d) (idgenerator d) (defragCtxList d) (if_stopflag d) (tunDev d) (devname d) (hub d) (rrChannels d) (loop_channels d) v (loop_handing d) (running d) (env d).
Definition set_loop_handing {E} (v : bool) (d : Daemon E) : Daemon E :=
  mkDaemon (conf d) (frames d) (handles d) (sessions d) (endpoints d) (channels d) (next_id d) (tcp_pcbs d) (udp_pcbs d) (tcp_port d) (udp_port d) (rxQ d) (ip_stopflag d) (idgenerator d) (defragCtxList d) (if_stopflag d) (tunDev d) (devname d) (hub d) (rrChannels d) (loop_channels d) (loop_stopflag d) v (running d) (env d).
Definition set_running {E} (v : bool) (d : Daemon E) : Daemon E :=
  mkDaemon (conf d) (frames d) (handles d) (sessions d) (endpoints d) (channels d) (next_id d) (tcp_pcbs d) (udp_pcbs d) (tcp_port d) (udp_port d) (rxQ d) (ip_stopflag d) (idgenerator d) (defragCtxList d) (if_stopflag d) (tunDev d) (devname d) (hub d) (rrChannels d) (loop_channels d) (loop_stopflag d) (loop_handing d) v (env d).
Definition set_env {E} (v : E) (d : Daemon E) : Daemon E :=
  mkDaemon (conf d) (frames d) (handles d) (sessions d) (endpoints d) (channels d) (next_id d) (tcp_pcbs d) (udp_pcbs d) (tcp_port d) (udp_port d) (rxQ d) (ip_stopflag d) (idgenerator d) (defragCtxList d) (if_stopflag d) (tunDev d) (devname d) (hub d) (rrChannels d) (loop_channels d) (loop_stopflag d) (loop_handing d) (running d) v.

(** ** Heap access *)

Section heap.
Context {E : Type}.

Notation D := (M (Daemon E)).

(** Read a cell through a pointer. *)
Definition read_cell {A} (heap : Daemon E → gmap nat A) (i : nat) : D A := λ d,
  match heap d !! i with Some a => Ok (a, d) | None => Fault UseAfterFree end.

Definition the_frame : nat → D FrameBuf := read_cell frames.
Definition the_handle : nat → D IoHandle := read_cell handles.
Definition the_pcb : nat → D Pcb := read_cell sessions.
Definition the_endpoint : nat → D Endpoint := read_cell endpoints.
Definition the_channel : nat → D AgentChannel := read_cell channels.

Definition put_frame (i : nat) (f : FrameBuf) : D unit := modify (λ d, set_frames (<[i := f]> (frames d)) d).
Definition put_handle (i : nat) (h : IoHandle) : D unit := modify (λ d, set_handles (<[i := h]> (handles d)) d).
Definition put_pcb (i : nat) (p : Pcb) : D unit := modify (λ d, set_sessions (<[i := p]> (sessions d)) d).
Definition put_endpoint (i : nat) (s : Endpoint) : D unit := modify (λ d, set_endpoints (<[i := s]> (endpoints d)) d).
Definition put_channel (i : nat) (c : AgentChannel) : D unit := modify (λ d, set_channels (<[i := c]> (channels d)) d).

(** Update a cell in place. *)
Definition upd_handle (i : nat) (f : IoHandle → IoHandle) : D unit := h ← the_handle i; put_handle i (f h).
Definition upd_pcb (i : nat) (f : Pcb → Pcb) : D unit := p ← the_pcb i; put_pcb i (f p).
Definition upd_endpoint (i : nat) (f : Endpoint → Endpoint) : D unit := s ← the_endpoint i; put_endpoint i (f s).
Definition upd_channel (i : nat) (f : AgentChannel → AgentChannel) : D unit := c ← the_channel i; put_channel i (f c).

Definition del_handle (i : nat) : D unit := modify (λ d, set_handles (delete i (handles d)) d).
Definition del_pcb (i : nat) : D unit := modify (λ d, set_sessions (delete i (sessions d)) d).
Definition del_endpoint (i : nat) : D unit := modify (λ d, set_endpoints (delete i (endpoints d)) d).
Definition del_channel (i : nat) : D unit := modify (λ d, set_channels (delete i (channels d)) d).

(** A new cell's identifier. *)
Definition fresh : D nat := λ d, Ok (next_id d, set_next_id (S (next_id d)) d).

(** A system call. *)
Definition kcall {A} (f : E → A * E) : D A := λ d,
  let '(a, e) := f (env d) in Ok (a, set_env e d).
Definition kcall_ (f : E → E) : D unit := modify (λ d, set_env (f (env d)) d).

(** [make_shared<FrameBuf>()]. *)
Definition make_FrameBuf : D nat := i ← fresh; _ ← put_frame i new_FrameBuf; mret i.

(** Stores through a pointer into a frame. *)
Definition upd_frame (i : nat) (f : FrameBuf → res FrameBuf) : D unit :=
  b ← the_frame i; b ← lift_res (f b); put_frame i b.
Definition get_frame {A} (i : nat) (f : FrameBuf → res A) : D A :=
  b ← the_frame i; lift_res (f b).
End heap.

Notation D E := (M (Daemon E)).
