(* ===== verification/DScript.v ===== *)
(** * A scripted kernel

    A concrete instance of [Kernel] for the witnesses: reads, accepted
    connections and epoll events come from scripts, writes and [epoll_ctl]
    calls are logged, everything else succeeds. *)

From S2P Require Import Prelude Frame Session World Rpc Wire.

Record dscript := mkDScript {
  ds_next_fd : Z;
  ds_reads : list (Z * list Z * Z);
  ds_writes : list (Z * list Z);
  ds_accepts : list Z;
  ds_events : list (Z * list (Z * nat));
  ds_epoll : list (epoll_op * Z * option nat)
}.

#[global] Instance dscript_kernel : Kernel dscript := {
  k_pipe2 := λ e, ((ds_next_fd e, ds_next_fd e + 1),
    mkDScript (ds_next_fd e + 2) (ds_reads e) (ds_writes e) (ds_accepts e) (ds_events e) (ds_epoll e));
  k_getfl := λ _ e, (2, e);
  k_setfl := λ _ _ e, e;
  k_read := λ _ _ e,
    match ds_reads e with
    | [] => ((-1, [], 11), e)
    | r :: rs => (r, mkDScript (ds_next_fd e) rs (ds_writes e) (ds_accepts e) (ds_events e) (ds_epoll e))
    end;
  k_write := λ fd bs e, (Z.of_nat (length bs),
    mkDScript (ds_next_fd e) (ds_reads e) (ds_writes e ++ [(fd, bs)]) (ds_accepts e) (ds_events e) (ds_epoll e));
  k_writev := λ fd bss e, (Z.of_nat (length (concat bss)),
    mkDScript (ds_next_fd e) (ds_reads e) (ds_writes e ++ [(fd, concat bss)]) (ds_accepts e) (ds_events e) (ds_epoll e));
  k_close := λ _ e, e;
  k_accept := λ _ e,
    match ds_accepts e with
    | [] => ((-1, 11), e)
    | fd :: fds => ((fd, 0), mkDScript (ds_next_fd e) (ds_reads e) (ds_writes e) fds (ds_events e) (ds_epoll e))
    end;
  k_epoll_ctl := λ op fd _ p e, (0,
    mkDScript (ds_next_fd e) (ds_reads e) (ds_writes e) (ds_accepts e) (ds_events e) (ds_epoll e ++ [(op, fd, p)]));
  k_epoll_wait := λ _ _ e,
    match ds_events e with
    | [] => ((-1, []), e)
    | ev :: evs => (ev, mkDScript (ds_next_fd e) (ds_reads e) (ds_writes e) (ds_accepts e) evs (ds_epoll e))
    end;
  k_listen := λ _ _ e, (0, e);
  k_mkdir := λ _ e, e;
  k_unlink := λ _ e, e;
  k_socket := λ _ _ _ e, (ds_next_fd e,
    mkDScript (ds_next_fd e + 1) (ds_reads e) (ds_writes e) (ds_accepts e) (ds_events e) (ds_epoll e));
  k_bind := λ _ _ e, (0, e);
  k_open := λ _ _ e, (ds_next_fd e,
    mkDScript (ds_next_fd e + 1) (ds_reads e) (ds_writes e) (ds_accepts e) (ds_events e) (ds_epoll e));
  k_tunsetiff := λ _ _ e, ((0, [116; 117; 110; 48]), e);
  k_system := λ _ e, e
}.

Definition quiet : dscript := mkDScript 10 [] [] [] [] [].

(** The configuration's stack address, 192.168.168.10, as text and as the raw
    word [inet_pton] stores. *)
Definition sample_conf : Conf :=
  mkConf [100] false [] [] [] [49;57;50;46;49;54;56;46;49;54;56;46;49;48] [].

(** A daemon with the given sessions and endpoints, TUN device 5, and no
    frames. *)
Definition sample_daemon (ss : gmap nat Pcb) (eps : gmap nat Endpoint) (chs : gmap nat AgentChannel)
    (hs : gmap nat IoHandle) (e : dscript) : Daemon dscript :=
  mkDaemon sample_conf ∅ hs ss eps chs 100 [] [] 1024 1024 [] false (Some (mkIdGen 0)) (Some []) false
    (Some 5) None None [] [] false false true e.

(** The log of a run's writes. *)
Definition written {A} (r : res (A * Daemon dscript)) : option (list (Z * list Z)) :=
  match r with Ok (_, d) => Some (ds_writes (env d)) | Fault _ => None end.
