(* ===== verification/Reactor.v ===== *)
(** * The event reactor

    [IoHandle], [SysPoller] and [EventReactor] (src/src/veloxd/arbiter/reactor):
    a handle is the reactor's view of a descriptor and its callbacks; the poller
    keeps the kernel's interest list through [epoll_ctl]; one turn of the loop
    waits for events and runs the callbacks of each active handle. *)

From S2P Require Import Prelude Frame Session World.

(** [EventMasks]: src/src/veloxd/arbiter/reactor/IoHandle.cpp:29-34. *)
Definition noneEvent : Z := 0.
Definition readEvent : Z := Z.lor POLLIN POLLPRI.
Definition writeEvent : Z := POLLOUT.
Definition O_NONBLOCK : Z := 2048.

Section reactor.
Context {E : Type} `{Kernel E}.

(** ** [SysPoller] *)

(** [SysPoller::addChannel]: src/src/veloxd/arbiter/reactor/SysPoller.cpp:59-75;
    a failure is only logged. *)
Definition SysPoller_addChannel (c : nat) : D E unit :=
  h ← the_handle c;
  _ ← kcall (k_epoll_ctl EPOLL_CTL_ADD (io_fd h) (io_interested h) (Some c));
  mret tt.

(** [SysPoller::removeChannel]: src/src/veloxd/arbiter/reactor/SysPoller.cpp:78-87. *)
Definition SysPoller_removeChannel (c : nat) : D E unit :=
  h ← the_handle c;
  _ ← kcall (k_epoll_ctl EPOLL_CTL_DEL (io_fd h) 0 None);
  mret tt.

(** [SysPoller::updateChannel]: src/src/veloxd/arbiter/reactor/SysPoller.cpp:90-103. *)
Definition SysPoller_updateChannel (c : nat) : D E unit :=
  h ← the_handle c;
  _ ← kcall (k_epoll_ctl EPOLL_CTL_MOD (io_fd h) (io_interested h) (Some c));
  mret tt.

(** [maxEventsReceivedEachPoll]: src/src/veloxd/arbiter/reactor/SysPoller.cpp:39-40. *)
Definition maxEventsReceivedEachPoll : Z := 64.

(** The two loops over the received events: the first reads the descriptor of
    every handle for the log, the second stores the events and collects the
    handles. *)
Fixpoint poll_fds (evs : list (Z * nat)) : D E unit :=
  match evs with
  | [] => mret tt
  | (_, c) :: evs => _ ← the_handle c; poll_fds evs
  end.
Fixpoint poll_deliver (evs : list (Z * nat)) : D E (list nat) :=
  match evs with
  | [] => mret []
  | (ev, c) :: evs =>
      _ ← upd_handle c (set_io_received ev);
      cs ← poll_deliver evs;
      mret (c :: cs)
  end.

(** [SysPoller::poll]: src/src/veloxd/arbiter/reactor/SysPoller.cpp:106-146.
    After a failed [epoll_wait] the vector of descriptors is empty and
    [active_fds.end() - 1] and [active_fds.back()] are outside it. *)
Definition SysPoller_poll (timeoutMs : Z) : D E (list nat) :=
  '(nevents, evs) ← kcall (k_epoll_wait maxEventsReceivedEachPoll timeoutMs);
  if nevents =? 0 then mret [] else
  if nevents <? 0 then fail OutOfBounds else
  _ ← poll_fds evs;
  poll_deliver evs.

(** ** [EventReactor] *)

(** [EventReactor::hasChannel]: src/src/veloxd/arbiter/reactor/EventReactor.cpp:98-106. *)
Definition EventReactor_hasChannel (c : nat) : D E bool :=
  gets (λ d, bool_decide (c ∈ loop_channels d)).

(** [EventReactor::addChannel]: src/src/veloxd/arbiter/reactor/EventReactor.cpp:53-64. *)
Definition EventReactor_addChannel (c : nat) : D E unit :=
  b ← EventReactor_hasChannel c;
  if negb b then
    _ ← SysPoller_addChannel c;
    modify (λ d, set_loop_channels (loop_channels d ++ [c]) d)
  else mret tt.

(** [channels.erase(std::find(..., c))]: the first occurrence. *)
Fixpoint erase_first (c : nat) (l : list nat) : list nat :=
  match l with
  | [] => []
  | x :: l => if decide (x = c) then l else x :: erase_first c l
  end.

(** [EventReactor::removeChannel]: src/src/veloxd/arbiter/reactor/EventReactor.cpp:67-82. *)
Definition EventReactor_removeChannel (c : nat) : D E unit :=
  b ← EventReactor_hasChannel c;
  if b : bool then
    _ ← SysPoller_removeChannel c;
    modify (λ d, set_loop_channels (erase_first c (loop_channels d)) d)
  else mret tt.

(** [EventReactor::updateChannel]: src/src/veloxd/arbiter/reactor/EventReactor.cpp:85-95. *)
Definition EventReactor_updateChannel (c : nat) : D E unit :=
  b ← EventReactor_hasChannel c;
  if b : bool then SysPoller_updateChannel c else mret tt.

(** [EventReactor::stop]: src/src/veloxd/arbiter/reactor/EventReactor.cpp:126-129. *)
Definition EventReactor_stop : D E unit := modify (set_loop_stopflag true).

(** ** [IoHandle] *)

(** [IoHandle::IoHandle]: src/src/veloxd/arbiter/reactor/IoHandle.cpp:52-60. *)
Definition IoHandle_new (fd : Z) : D E nat :=
  fflags ← kcall (k_getfl fd);
  _ ← kcall_ (k_setfl fd (Z.lor fflags O_NONBLOCK));
  i ← fresh;
  _ ← put_handle i (mkIoHandle fd noneEvent noneEvent false false None None None None);
  mret i.

(** [IoHandle::~IoHandle]: src/src/veloxd/arbiter/reactor/IoHandle.cpp:62-68. *)
Definition IoHandle_delete (i : nat) : D E unit :=
  h ← the_handle i;
  _ ← (if io_owner h then EventReactor_removeChannel i else mret tt);
  del_handle i.

(** [IoHandle::setOnReadCB]: src/src/veloxd/arbiter/reactor/IoHandle.cpp:71-74. *)
Definition IoHandle_setOnReadCB (cb : callback) (i : nat) : D E unit := upd_handle i (set_io_onRead (Some cb)).
(** [IoHandle::setOnWriteCB]: src/src/veloxd/arbiter/reactor/IoHandle.cpp:77-80. *)
Definition IoHandle_setOnWriteCB (cb : callback) (i : nat) : D E unit := upd_handle i (set_io_onWrite (Some cb)).
(** [IoHandle::setOnCloseCB]: src/src/veloxd/arbiter/reactor/IoHandle.cpp:83-86. *)
Definition IoHandle_setOnCloseCB (cb : callback) (i : nat) : D E unit := upd_handle i (set_io_onClose (Some cb)).
(** [IoHandle::setOnErrorCB]: src/src/veloxd/arbiter/reactor/IoHandle.cpp:89-92. *)
Definition IoHandle_setOnErrorCB (cb : callback) (i : nat) : D E unit := upd_handle i (set_io_onError (Some cb)).

(** The shape of the five functions below: change [eventsInterested], then tell
    the loop if there is one. *)
Definition change_interest (f : Z → Z) (i : nat) : D E unit :=
  _ ← upd_handle i (λ h, set_io_interested (f (io_interested h)) h);
  h ← the_handle i;
  if io_owner h then EventReactor_updateChannel i else mret tt.

(** [IoHandle::enableReading]: src/src/veloxd/arbiter/reactor/IoHandle.cpp:95-101. *)
Definition IoHandle_enableReading := change_interest (λ e, Z.lor e readEvent).
(** [IoHandle::disableReading]: src/src/veloxd/arbiter/reactor/IoHandle.cpp:104-110:
    the mask is [noneEvent], not the complement of [readEvent]. *)
Definition IoHandle_disableReading := change_interest (λ e, Z.land e noneEvent).
(** [IoHandle::enableWriting]: src/src/veloxd/arbiter/reactor/IoHandle.cpp:113-119. *)
Definition IoHandle_enableWriting := change_interest (λ e, Z.lor e writeEvent).
(** [IoHandle::disableWriting]: src/src/veloxd/arbiter/reactor/IoHandle.cpp:122-128. *)
Definition IoHandle_disableWriting := change_interest (λ e, Z.land e (Z.lnot writeEvent)).
(** [IoHandle::disableAll]: src/src/veloxd/arbiter/reactor/IoHandle.cpp:131-137. *)
Definition IoHandle_disableAll := change_interest (λ e, Z.land e noneEvent).

(** [IoHandle::setOwnerEventReactor] with the loop: src/src/veloxd/arbiter/reactor/IoHandle.cpp:140-143. *)
Definition IoHandle_setOwnerEventReactor (i : nat) : D E unit := upd_handle i (set_io_owner true).

(** [IoHandle::unregisterSelf]: src/src/veloxd/arbiter/reactor/IoHandle.cpp:146-152. *)
Definition IoHandle_unregisterSelf (i : nat) : D E unit :=
  h ← the_handle i;
  _ ← (if io_owner h then EventReactor_removeChannel i else mret tt);
  upd_handle i (set_io_owner false).

(** ** Running callbacks *)

Context (run_cb : callback → D E unit).

(** [if (_pImpl->onXFunc) _pImpl->onXFunc();]: the member is read again at
    every test. *)
Definition fire (get : IoHandle → option callback) (i : nat) : D E unit :=
  h ← the_handle i;
  match get h with Some cb => run_cb cb | None => mret tt end.

(** [IoHandle::handleEventsReceived]: src/src/veloxd/arbiter/reactor/IoHandle.cpp:167-200. *)
Definition IoHandle_handleEventsReceived (i : nat) : D E unit :=
  _ ← upd_handle i (set_io_handling true);
  h ← the_handle i;
  let revents := io_received h in
  _ ← (if has_bits revents POLLHUP && negb (has_bits revents POLLIN)
       then fire io_onClose i else mret tt);
  _ ← (if has_bits revents (Z.lor POLLERR POLLNVAL) then fire io_onError i else mret tt);
  _ ← (if has_bits revents (Z.lor (Z.lor POLLIN POLLPRI) POLLRDHUP)
       then fire io_onRead i else mret tt);
  _ ← (if has_bits revents POLLOUT then fire io_onWrite i else mret tt);
  upd_handle i (set_io_handling false).

Fixpoint handle_actives (cs : list nat) : D E unit :=
  match cs with
  | [] => mret tt
  | c :: cs => _ ← IoHandle_handleEventsReceived c; handle_actives cs
  end.

(** The body of the loop: src/src/veloxd/arbiter/reactor/EventReactor.cpp:113-122;
    the timeout is -1. *)
Definition EventReactor_turn : D E unit :=
  actives ← SysPoller_poll (-1);
  _ ← modify (set_loop_handing true);
  _ ← handle_actives actives;
  modify (set_loop_handing false).

(** [EventReactor::loop]: src/src/veloxd/arbiter/reactor/EventReactor.cpp:109-123,
    for [n] turns. *)
Fixpoint loop_turns (n : nat) : D E unit :=
  match n with
  | O => fail OutOfFuel
  | S n => b ← gets loop_stopflag;
           if b : bool then mret tt else _ ← EventReactor_turn; loop_turns n
  end.
Definition EventReactor_loop (n : nat) : D E unit :=
  _ ← modify (set_loop_stopflag false); loop_turns n.
End reactor.
