(* ===== verification/Net.v ===== *)
(** * The interface and the sending half of the IP layer

    [TunIface] and [Interface] (src/src/veloxd/interface) move frames between
    the TUN device and the stack; [Ip::tx] and [Ip::enRxQue]
    (src/src/veloxd/ip/Ip.cpp) are the layer above them.  The receiving loop of
    the IP layer is in IpRx.v. *)

From S2P Require Import Prelude Csum16 Frame Session World.

Section net.
Context {E : Type} `{Kernel E}.

(** ** [TunIface] *)

(** One [struct iovec]: base pointer (with the frame it belongs to) and length. *)
Record iovec := mkIov { iov_frame : FrameBuf; iov_base : ptr; iov_len : Z }.

Definition iovcnt_max : Z := 32.   (* struct iovec buffers[32] *)

(** The loop over the chain: src/src/veloxd/interface/TunIface.cpp:93-108.  Two
    entries per frame, so the 17th frame is already outside [buffers]. *)
Fixpoint tx_gather (n : nat) (curr : option nat) (buffers : list iovec) : D E (list iovec) :=
  match curr with
  | None => mret buffers
  | Some i =>
      match n with
      | O => fail OutOfFuel
      | S n =>
          f ← the_frame i;
          _ ← assert_ (negb (is_null (hdrs_begin f)) && negb (is_null (hdrs_end f)) &&
                       negb (is_null (user_payload_begin f)) && negb (is_null (user_payload_end f)));
          if iovcnt_max <=? length buffers + 1 then fail OutOfBounds else
          hlen ← lift_res (ptr_diff (hdrs_end f) (hdrs_begin f));
          plen ← lift_res (ptr_diff (user_payload_end f) (user_payload_begin f));
          tx_gather n (next f)
            (buffers ++ [mkIov f (hdrs_begin f) hlen; mkIov f (user_payload_begin f) plen])
      end
  end.

Definition tx_fuel : nat := 17.

(** What [writev] reads through the vector; a negative length is a huge
    [size_t], which the kernel refuses. *)
Fixpoint iov_bytes (l : list iovec) : res (option (list (list Z))) :=
  match l with
  | [] => Ok (Some [])
  | v :: l =>
      if iov_len v <? 0 then Ok None else
      b ← ld_bytes (iov_frame v) (iov_base v) (iov_len v);
      bs ← iov_bytes l;
      Ok (option_map (cons b) bs)
  end.

(** [TunIface::tx]: src/src/veloxd/interface/TunIface.cpp:86-122; the result is
    [nwritten], which is only logged. *)
Definition TunIface_tx (fd : Z) (skbuf_head : nat) : D E Z :=
  buffers ← tx_gather tx_fuel (Some skbuf_head) [];
  bs ← lift_res (iov_bytes buffers);
  match bs with
  | None => mret (-1)
  | Some bs => kcall (k_writev fd bs)
  end.

(** [TunIface::rx]: src/src/veloxd/interface/TunIface.cpp:64-83.  On a read
    error the daemon stops and exits. *)
Definition TunIface_rx (fd : Z) (skbuf : nat) : D E unit :=
  '(rc, bs, _) ← kcall (k_read fd maxRawBytesSize);
  if rc =? -1 then fail ExitFailure else
  upd_frame skbuf (λ f,
    l ← of_option OutOfBounds (store (rawBytes f) 0 bs);
    let f := set_rawBytes l f in
    let f := set_network_hdr (raw 0) f in
    let f := set_hdrs_begin (raw 0) f in
    Ok (set_user_payload_end (ptr_add (hdrs_begin f) rc) f)).

(** [TunIface::close]: src/src/veloxd/interface/TunIface.cpp:125-130. *)
Definition TunIface_close (fd : Z) : D E unit :=
  if negb (fd =? 0) then kcall_ (k_close fd) else mret tt.

(** ** [Interface] *)

(** [Interface::tx]: src/src/veloxd/interface/Interface.cpp:88-91. *)
Definition Interface_tx (skbuf : nat) : D E unit :=
  t ← gets tunDev;
  fd ← deref t;
  _ ← TunIface_tx fd skbuf;
  mret tt.

(** [Interface::stop]: src/src/veloxd/interface/Interface.cpp:81-85. *)
Definition Interface_stop : D E unit := modify (set_if_stopflag true).

(** ** [Ip] *)

(** [Ip::init]: src/src/veloxd/ip/Ip.cpp:62-66. *)
Definition Ip_init : D E unit :=
  _ ← modify (set_defragCtxList (Some []));
  modify (set_idgenerator (Some (mkIdGen 0))).

(** [Ip::stop]: src/src/veloxd/ip/Ip.cpp:166-170. *)
Definition Ip_stop : D E unit := modify (set_ip_stopflag true).

(** [Ip::enRxQue]: src/src/veloxd/ip/Ip.cpp:173-184.  The queue is the
    third-party [BlockingConcurrentQueue], a FIFO. *)
Definition Ip_enRxQue (skbuf : nat) : D E unit :=
  v ← get_frame skbuf (λ f, ld_version f (network_hdr f));
  if negb (v =? 4) then mret tt
  else modify (λ d, set_rxQ (rxQ d ++ [Some skbuf]) d).

(** The header part of [Ip::tx]: src/src/veloxd/ip/Ip.cpp:196-200. *)
Definition ip_header (id : Z) (f : FrameBuf) : res FrameBuf :=
  let iphdr := network_hdr f in
  f ← st_version f iphdr 4;
  f ← st_ihl f iphdr 5;
  f ← st16 f iphdr iphdr_id id;
  ihl ← ld_ihl f iphdr;
  '(l, o) ← of_option NullDeref (target f iphdr);
  check ← checksum (drop (Z.to_nat o) l) (ihl * 4) 0;
  st16 f iphdr iphdr_check check.

(** [Ip::tx]: src/src/veloxd/ip/Ip.cpp:187-211. *)
Definition Ip_tx (skbuf_head : nat) (user_payload : list Z) : D E unit :=
  f ← the_frame skbuf_head;
  _ ← assert_ (negb (is_null (hdrs_begin f)) && negb (is_null (hdrs_end f)));
  g ← gets idgenerator;
  g ← deref g;
  let '(id, g) := IpIdGenerator_next g in
  _ ← modify (set_idgenerator (Some g));
  f ← lift_res (ip_header id f);
  let f := set_user_payload_begin (str user_payload 0) f in
  let f := set_user_payload_end (str user_payload (length user_payload)) f in
  _ ← put_frame skbuf_head f;
  Interface_tx skbuf_head.

(** The body of the interface's receive loop:
    src/src/veloxd/interface/Interface.cpp:70-74. *)
Definition Interface_turn : D E unit :=
  skbuf ← make_FrameBuf;
  t ← gets tunDev;
  fd ← deref t;
  _ ← TunIface_rx fd skbuf;
  Ip_enRxQue skbuf.
End net.
