(* ===== verification/Agent.v ===== *)
(** * Endpoints and channels

    [Endpoint] (src/src/veloxd/arbiter/Endpoint.cpp), the daemon's side of a
    socket with its receive queue, and [AgentChannel]
    (src/src/veloxd/arbiter/agent/AgentChannel.cpp), the connection to one
    interceptor descriptor.  A channel owns its endpoint, an endpoint its
    session: destructors run in that order. *)

From S2P Require Import Prelude Frame Session World Reactor Rpc.

Section agent.
Context {E : Type} `{Kernel E} `{Codec}.

(** ** Sessions: construction and destruction *)

(** [TcpSession::TcpSession]: src/src/veloxd/tcp/TcpSession.cpp:54-68. *)
Definition TcpSession_new : D E nat :=
  c ← gets conf;
  pipe ← kcall k_pipe2;
  h ← IoHandle_new pipe.1;
  _ ← IoHandle_enableReading h;
  i ← fresh;
  _ ← IoHandle_setOnReadCB (CbSessionEstab i) h;
  _ ← put_pcb i (mkPcb (Session_new (stack_addr c)) (Some (mkTcb TCP_STATE__CLOSED pipe None h 0 0 0 0)));
  mret i.

(** [make_shared<UdpSession>()]. *)
Definition UdpSession_new : D E nat :=
  c ← gets conf;
  i ← fresh;
  _ ← put_pcb i (mkPcb (Session_new (stack_addr c)) None);
  mret i.

(** [Tcp::newSession]: src/src/veloxd/tcp/Tcp.cpp:70-76. *)
Definition Tcp_newSession : D E nat :=
  i ← TcpSession_new; _ ← modify (λ d, set_tcp_pcbs (tcp_pcbs d ++ [i]) d); mret i.

(** [Udp::newSession]: src/src/veloxd/udp/Udp.cpp:72-79. *)
Definition Udp_newSession : D E nat :=
  i ← UdpSession_new; _ ← modify (λ d, set_udp_pcbs (udp_pcbs d ++ [i]) d); mret i.

(** The destructor of a session: a [TcpSession] owns a handle. *)
Definition Session_delete (i : nat) : D E unit :=
  p ← the_pcb i;
  _ ← match p_tcb p with Some t => IoHandle_delete (t_sChannel t) | None => mret tt end;
  del_pcb i.

(** ** [Endpoint] *)

(** [Endpoint::Endpoint]: src/src/veloxd/arbiter/Endpoint.cpp:71-90. *)
Definition Endpoint_new (t : EndpointType) (isnonblocking : bool) : D E nat :=
  pipe ← kcall k_pipe2;
  h ← IoHandle_new pipe.1;
  _ ← IoHandle_enableReading h;
  i ← fresh;
  _ ← IoHandle_setOnReadCB (CbEndpointReadReady i) h;
  _ ← put_endpoint i (mkEndpoint t isnonblocking pipe false None h None None []);
  mret i.

(** The destructor: the members of [Impl] in reverse order of declaration
    (src/src/veloxd/arbiter/Endpoint.cpp:47-69), [pcb] before [sChannel]. *)
Definition Endpoint_delete (i : nat) : D E unit :=
  s ← the_endpoint i;
  _ ← match ep_pcb s with Some p => Session_delete p | None => mret tt end;
  _ ← IoHandle_delete (ep_sChannel s);
  del_endpoint i.

(** [Endpoint::setWaiting]: src/src/veloxd/arbiter/Endpoint.cpp:118-130. *)
Definition Endpoint_setWaiting (v : bool) (i : nat) : D E unit := upd_endpoint i (set_waiting v).

(** [Endpoint::setOnAsyncNewPacketCB]: src/src/veloxd/arbiter/Endpoint.cpp:133-137. *)
Definition Endpoint_setOnAsyncNewPacketCB (cb : packet_cb) (i : nat) : D E unit :=
  upd_endpoint i (set_onAsyncNewPacket (Some cb)).

(** [Endpoint::setAgentChannel]: src/src/veloxd/arbiter/Endpoint.cpp:177-181. *)
Definition Endpoint_setAgentChannel (ch i : nat) : D E unit := upd_endpoint i (set_ep_rrChannel (Some ch)).

(** [Endpoint::setSession]: src/src/veloxd/arbiter/Endpoint.cpp:190-194. *)
Definition Endpoint_setSession (p i : nat) : D E unit := upd_endpoint i (set_ep_pcb (Some p)).

(** [Endpoint::Impl::markSChannelAsReadable]: src/src/veloxd/arbiter/Endpoint.cpp:197-200. *)
Definition Endpoint_markSChannelAsReadable (i : nat) : D E unit :=
  s ← the_endpoint i;
  _ ← kcall (k_write (new_packet_notify_pipe s).2 [49]);
  mret tt.

(** [Endpoint::putToRecvQ]: src/src/veloxd/arbiter/Endpoint.cpp:140-150;
    [size_approx] is the queue's length. *)
Definition Endpoint_putToRecvQ (peeraddr : list Z) (skbuf i : nat) : D E unit :=
  s ← the_endpoint i;
  if recvQlimit <? length (recvQ s) then mret tt else
  _ ← put_endpoint i (set_recvQ (recvQ s ++ [(peeraddr, skbuf)]) s);
  Endpoint_markSChannelAsReadable i.

(** [Endpoint::try_takeFromRecvQ]: src/src/veloxd/arbiter/Endpoint.cpp:162-168. *)
Definition Endpoint_try_takeFromRecvQ (i : nat) : D E (option (list Z * nat)) :=
  s ← the_endpoint i;
  match recvQ s with
  | [] => mret None
  | x :: q => _ ← put_endpoint i (set_recvQ q s); mret (Some x)
  end.

(** [Endpoint::takeFromRecvQ]: src/src/veloxd/arbiter/Endpoint.cpp:153-159;
    [wait_dequeue] on an empty queue puts the calling thread to sleep. *)
Definition Endpoint_takeFromRecvQ (i : nat) : D E (list Z * nat) :=
  x ← Endpoint_try_takeFromRecvQ i;
  match x with Some x => mret x | None => fail Sleeps end.

(** [while (::read(pipe[0], readbuf, 8) != -1);] as in
    src/src/veloxd/arbiter/Endpoint.cpp:207-208. *)
Fixpoint drain_pipe (fuel : nat) (fd : Z) : D E unit :=
  '(n, _, _) ← kcall (k_read fd 8);
  if n =? -1 then mret tt else
  match fuel with O => fail OutOfFuel | S fuel => drain_pipe fuel fd end.

(** ** [AgentChannel] *)

(** [AgentChannel::AgentChannel]: src/src/veloxd/arbiter/agent/AgentChannel.cpp:71-90. *)
Definition AgentChannel_new (fd : Z) : D E nat :=
  h ← IoHandle_new fd;
  _ ← IoHandle_enableReading h;
  i ← fresh;
  _ ← IoHandle_setOnReadCB (CbChannelReadReady i) h;
  _ ← IoHandle_setOnCloseCB (CbChannelPeerClose i) h;
  _ ← put_channel i (mkChannel fd h [] None None);
  mret i.

(** [AgentChannel::~AgentChannel]: src/src/veloxd/arbiter/agent/AgentChannel.cpp:92-100,
    then the members of [Impl], [socket] before [sChannel]. *)
Definition AgentChannel_delete (i : nat) : D E unit :=
  c ← the_channel i;
  _ ← IoHandle_unregisterSelf (ch_sChannel c);
  _ ← kcall_ (k_close (ch_fd c));
  _ ← match ch_socket c with Some s => Endpoint_delete s | None => mret tt end;
  _ ← IoHandle_delete (ch_sChannel c);
  del_channel i.

(** [AgentChannel::setPeerName]: src/src/veloxd/arbiter/agent/AgentChannel.cpp:124-127. *)
Definition AgentChannel_setPeerName (p : list Z) (i : nat) : D E unit := upd_channel i (set_ch_peer p).
(** [AgentChannel::setPeerPid]: src/src/veloxd/arbiter/agent/AgentChannel.cpp:130-133. *)
Definition AgentChannel_setPeerPid (p : Z) (i : nat) : D E unit := upd_channel i (set_ch_peerPid (Some p)).

(** [AgentChannel::setSocket]: src/src/veloxd/arbiter/agent/AgentChannel.cpp:148-151;
    an endpoint the channel owned before is destroyed. *)
Definition AgentChannel_setSocket (s i : nat) : D E unit :=
  c ← the_channel i;
  _ ← put_channel i (set_ch_socket (Some s) c);
  match ch_socket c with Some old => Endpoint_delete old | None => mret tt end.

(** [AgentChannel::Impl::write]: src/src/veloxd/arbiter/agent/AgentChannel.cpp:219-250. *)
Definition AgentChannel_write (resp : Response) (i : nat) : D E unit :=
  _ ← assert_ (IsInitialized resp);
  let bs := response_pack resp in
  _ ← assert_ (Z.of_nat (length bs) <=? RPC_MESSAGE_MAX_SIZE);
  c ← the_channel i;
  nwritten ← kcall (k_write (ch_fd c) bs);
  if nwritten =? -1 then IoHandle_unregisterSelf (ch_sChannel c) else mret tt.

(** [AgentChannel::socket], dereferenced: src/src/veloxd/arbiter/agent/AgentChannel.cpp:141-145. *)
Definition channel_socket (i : nat) : D E nat := c ← the_channel i; deref (ch_socket c).
(** [Endpoint::pcb], dereferenced: src/src/veloxd/arbiter/Endpoint.cpp:183-187. *)
Definition endpoint_pcb (i : nat) : D E nat := s ← the_endpoint i; deref (ep_pcb s).

(** [Session::socket] and its [lock()], dereferenced: null when the endpoint is
    gone: src/src/veloxd/Session.cpp:132-136. *)
Definition lock_endpoint (so : option nat) : D E nat :=
  d ← get_st;
  deref (i ← so; _ ← endpoints d !! i; Some i).

(** The lambda [connectCall] registers:
    src/src/veloxd/arbiter/RpcDispatch.cpp:251-268. *)
Definition connEstab (ch : nat) : D E unit :=
  d ← get_st;
  match channels d !! ch with
  | None => mret tt
  | Some _ =>
      so ← channel_socket ch;
      pcb ← endpoint_pcb so;
      p ← the_pcb pcb;
      t ← deref (p_tcb p);
      _ ← IoHandle_unregisterSelf (t_sChannel t);
      AgentChannel_write (mkResponse (Some RC_OK) (Some (RetConnect (mkRet 0 None)))) ch
  end.
End agent.
