(* ===== verification/Udp.v ===== *)
(** * UDP (src/src/veloxd/udp)

    [UdpSession] builds a datagram in a fresh frame and hands it to the IP
    layer; [Udp::rx] finds the session of an incoming one and queues it at the
    session's endpoint. *)

From S2P Require Import Prelude Csum16 Frame Session World Reactor Rpc Net Agent.

Section udp.
Context {E : Type} `{Kernel E} `{Codec}.

(** The datagram's frame, before the IP layer:
    src/src/veloxd/udp/UdpSession.cpp:65-117. *)
Definition udp_frame (s : Session) (len : Z) (f : FrameBuf) : res FrameBuf :=
  (* bzero(skbuf_head->rawBytes, 68) and the header pointers *)
  l ← of_option OutOfBounds (store (rawBytes f) 0 (replicate 68 0));
  let f := set_rawBytes l f in
  let f := set_hdrs_begin (raw 40) f in
  let f := set_network_hdr (hdrs_begin f) f in
  let f := set_transport_hdr (ptr_add (network_hdr f) 20) f in
  let f := set_hdrs_end (ptr_add (hdrs_begin f) 28) f in
  let ipovly := network_hdr f in
  let udphdr := transport_hdr f in
  (* IP fields of the pseudo header *)
  f ← st8 f ipovly PseudoHdr_protocol 17;
  f ← st16 f ipovly PseudoHdr_protocol_len (bswap16 (u16 (len + 8)));
  f ← st32 f ipovly PseudoHdr_saddr (laddr s);
  f ← st32 f ipovly PseudoHdr_daddr (faddr s);
  (* UDP header *)
  f ← st16 f udphdr udphdr_source (lport s);
  f ← st16 f udphdr udphdr_dest (fport s);
  f ← st16 f udphdr udphdr_len (bswap16 (u16 (len + 8)));
  f ← st16 f udphdr udphdr_check 0;
  (* the other IP fields *)
  f ← st8 f ipovly PseudoHdr_ttl 64;
  f ← st8 f ipovly PseudoHdr_tos 0;
  f ← st16 f ipovly PseudoHdr_len (bswap16 (u16 (len + 28)));
  st16 f ipovly PseudoHdr_protocol_len 0.

(** Run a method of the [Session] base class on the session [i], with the
    port counter of UdpSession.cpp. *)
Definition udp_base (f : Session → Z → Z * Session * Z) (i : nat) : D E Z :=
  p ← the_pcb i;
  port ← gets udp_port;
  let '(r, s, port) := f (p_base p) port in
  _ ← put_pcb i (set_p_base s p);
  _ ← modify (set_udp_port port);
  mret r.

(** [UdpSession::send(buf)]: src/src/veloxd/udp/UdpSession.cpp:55-122; the value
    of [Session::send] is dropped. *)
Definition UdpSession_send (buf : list Z) (i : nat) : D E Z :=
  _ ← udp_base Session_send i;
  p ← the_pcb i;
  skbuf_head ← make_FrameBuf;
  _ ← upd_frame skbuf_head (udp_frame (p_base p) (length buf));
  _ ← Ip_tx skbuf_head buf;
  mret (i32 (length buf)).

(** [UdpSession::send(faddr, fport, buf)]: src/src/veloxd/udp/UdpSession.cpp:125-136. *)
Definition UdpSession_send_to (a p : Z) (buf : list Z) (i : nat) : D E Z :=
  _ ← udp_base (Session_send_to a p) i;
  _ ← udp_base (Session_connect a p) i;
  r ← UdpSession_send buf i;
  _ ← upd_pcb i (λ q, set_p_base (Session_disconnect (p_base q)) q);
  mret r.

(** [UdpSession::recv]: src/src/veloxd/udp/UdpSession.cpp:138-148. *)
Definition UdpSession_recv (peeraddr : list Z) (skbuf i : nat) : D E unit :=
  _ ← upd_frame skbuf (λ f, Ok (set_user_payload_begin (ptr_add (transport_hdr f) 8) f));
  p ← the_pcb i;
  so ← lock_endpoint (s_socket (p_base p));
  Endpoint_putToRecvQ peeraddr skbuf so.

(** A [sockaddr_in] with family [AF_INET]: family, port, address, zeros. *)
Definition sockaddr_in (port addr : Z) : list Z :=
  le_bytes 2 AF_INET ++ le_bytes 2 port ++ le_bytes 4 addr ++ replicate 8 0.

(** [weak_ptr<Session>::lock] on an element of a [pcbs] list. *)
Definition lock_session (d : Daemon E) (i : nat) : option Session := p_base <$> sessions d !! i.

(** [Udp::rx]: src/src/veloxd/udp/Udp.cpp:87-133. *)
Definition Udp_rx (skbuf_head : nat) : D E unit :=
  f ← the_frame skbuf_head;
  let iphdr_ovly := network_hdr f in
  let udphdr := transport_hdr f in
  fa ← lift_res (ld32 f iphdr_ovly PseudoHdr_saddr);
  la ← lift_res (ld32 f iphdr_ovly PseudoHdr_daddr);
  fp ← lift_res (ld16 f udphdr udphdr_source);
  lp ← lift_res (ld16 f udphdr udphdr_dest);
  d ← get_st;
  match Sessions_find (lock_session d) fa fp la lp (udp_pcbs d) with
  | None => mret tt
  | Some pcb =>
      a ← lift_res (ld32 f iphdr_ovly PseudoHdr_saddr);
      p ← lift_res (ld16 f udphdr udphdr_source);
      UdpSession_recv (sockaddr_in p a) skbuf_head pcb
  end.
End udp.
