(* ===== verification/Tcp.v ===== *)
(** * TCP (src/src/veloxd/tcp)

    [TcpSession]: the client half of the three-way handshake, segments out with
    their checksum, segments in with their acknowledgement; [Tcp::rx]
    demultiplexes.  Sequence numbers are 32-bit words. *)

From S2P Require Import Prelude Csum16 Frame Session World Reactor Rpc Net Agent Udp.

Definition iss : Z := 1.

Section tcp.
Context {E : Type} `{Kernel E} `{Codec}.
Context (indet : list Z).   (* the bytes of an uninitialised sockaddr_in *)

Definition the_tcb (i : nat) : D E Tcb := p ← the_pcb i; deref (p_tcb p).
Definition upd_tcb (i : nat) (f : Tcb → Tcb) : D E unit :=
  p ← the_pcb i; t ← deref (p_tcb p); put_pcb i (set_p_tcb (Some (f t)) p).

(** Run a method of the [Session] base class, with the port counter of
    TcpSession.cpp. *)
Definition tcp_base (f : Session → Z → Z * Session * Z) (i : nat) : D E Z :=
  p ← the_pcb i;
  port ← gets tcp_port;
  let '(r, s, port) := f (p_base p) port in
  _ ← put_pcb i (set_p_base s p);
  _ ← modify (set_tcp_port port);
  mret r.

(** The frame of [TcpSession::socketBufferOfTcpTempl]:
    src/src/veloxd/tcp/TcpSession.cpp:208-240. *)
Definition tcp_template (s : Session) (f : FrameBuf) : res FrameBuf :=
  l ← of_option OutOfBounds (store (rawBytes f) 0 (replicate 120 0));
  let f := set_rawBytes l f in
  let f := set_hdrs_begin (raw 40) f in
  let f := set_network_hdr (hdrs_begin f) f in
  let f := set_transport_hdr (ptr_add (network_hdr f) 20) f in
  let f := set_hdrs_end (ptr_add (transport_hdr f) 20) f in
  let tcphdr := transport_hdr f in
  f ← st16 f tcphdr tcphdr_source (lport s);
  f ← st16 f tcphdr tcphdr_dest (fport s);
  f ← st_doff f tcphdr 5;
  st16 f tcphdr tcphdr_window (bswap16 4096).

Definition TcpSession_socketBufferOfTcpTempl (i : nat) : D E nat :=
  p ← the_pcb i;
  skbuf_head ← make_FrameBuf;
  _ ← upd_frame skbuf_head (tcp_template (p_base p));
  mret skbuf_head.

(** The stores of [TcpSession::prepareBeforeIpTx]:
    src/src/veloxd/tcp/TcpSession.cpp:243-309.  The inner loop over [buf] is the
    one of [Csum16::checksum] without the fold. *)
Definition tcp_finish (s : Session) (buf : list Z) (f : FrameBuf) : res FrameBuf :=
  let ipovly := network_hdr f in
  let tcphdr := transport_hdr f in
  f ← st8 f ipovly PseudoHdr_protocol 6;
  f ← st16 f ipovly PseudoHdr_protocol_len (bswap16 (u16 (length buf + 20)));
  f ← st32 f ipovly PseudoHdr_saddr (laddr s);
  f ← st32 f ipovly PseudoHdr_daddr (faddr s);
  sum ← (if truth (length buf) then csum_sum buf (i32 (length buf)) 0 else Ok 0);
  doff ← ld_doff f tcphdr;
  '(l, o) ← of_option NullDeref (target f ipovly);
  check ← checksum (drop (Z.to_nat o) l) (doff * 4 + 20) (i32 sum);
  f ← st16 f tcphdr tcphdr_check check;
  f ← st8 f ipovly PseudoHdr_ttl 64;
  f ← st8 f ipovly PseudoHdr_tos 0;
  f ← st16 f ipovly PseudoHdr_len (bswap16 (u16 (length buf + 40)));
  st16 f ipovly PseudoHdr_protocol_len 0.

Definition TcpSession_prepareBeforeIpTx (skbuf_head : nat) (buf : list Z) (i : nat) : D E unit :=
  p ← the_pcb i;
  upd_frame skbuf_head (tcp_finish (p_base p) buf).

(** [TcpSession::ack2peer]: src/src/veloxd/tcp/TcpSession.cpp:312-324. *)
Definition TcpSession_ack2peer (value : Z) (i : nat) : D E unit :=
  skbuf_head ← TcpSession_socketBufferOfTcpTempl i;
  t ← the_tcb i;
  _ ← upd_frame skbuf_head (λ f,
        f ← st_tcp_flag tcp_ack_bit f (transport_hdr f);
        f ← st32 f (transport_hdr f) tcphdr_ack_seq (bswap32 value);
        st32 f (transport_hdr f) tcphdr_seq (bswap32 (send_next t)));
  _ ← TcpSession_prepareBeforeIpTx skbuf_head [] i;
  Ip_tx skbuf_head [].

(** [TcpSession::send]'s case of a closed connection:
    src/src/veloxd/tcp/TcpSession.cpp:119-125. *)
Definition TcpSession_send_closed (skbuf_head i : nat) : D E unit :=
  _ ← upd_tcb i (λ t, set_send_next iss (set_send_unack iss t));
  t ← the_tcb i;
  _ ← upd_frame skbuf_head (λ f, st32 f (transport_hdr f) tcphdr_seq (bswap32 (send_next t)));
  _ ← upd_tcb i (λ t, set_send_next (u32 (send_next t + 1)) t);
  _ ← upd_frame skbuf_head (λ f, st_tcp_flag tcp_syn_bit f (transport_hdr f));
  upd_tcb i (set_conn_state TCP_STATE__SYN_SENT).

(** [TcpSession::send]'s case of an established connection:
    src/src/veloxd/tcp/TcpSession.cpp:126-131. *)
Definition TcpSession_send_estab (buf : list Z) (skbuf_head i : nat) : D E unit :=
  t ← the_tcb i;
  _ ← upd_frame skbuf_head (λ f, st32 f (transport_hdr f) tcphdr_seq (bswap32 (send_next t)));
  _ ← upd_tcb i (λ t, set_send_next (u32 (send_next t + length buf)) t);
  _ ← upd_frame skbuf_head (λ f, st_tcp_flag tcp_ack_bit f (transport_hdr f));
  upd_frame skbuf_head (λ f, st32 f (transport_hdr f) tcphdr_ack_seq (bswap32 (recv_next t))).

(** [TcpSession::send]: src/src/veloxd/tcp/TcpSession.cpp:108-145. *)
Definition TcpSession_send (buf : list Z) (i : nat) : D E Z :=
  _ ← tcp_base Session_send i;
  skbuf_head ← TcpSession_socketBufferOfTcpTempl i;
  t ← the_tcb i;
  let finish :=
    _ ← TcpSession_prepareBeforeIpTx skbuf_head buf i;
    _ ← Ip_tx skbuf_head buf;
    mret (i32 (length buf)) in
  match conn_state t with
  | TCP_STATE__CLOSED => _ ← TcpSession_send_closed skbuf_head i; finish
  | TCP_STATE__ESTABLISHED => _ ← TcpSession_send_estab buf skbuf_head i; finish
  | _ => mret 0
  end.

(** [TcpSession::connect]: src/src/veloxd/tcp/TcpSession.cpp:77-87. *)
Definition TcpSession_connect (a p : Z) (i : nat) : D E Z :=
  _ ← tcp_base (Session_connect a p) i;
  _ ← TcpSession_send [] i;
  mret 0.

(** [TcpSession::setOnConnEstabCB]: src/src/veloxd/tcp/TcpSession.cpp:90-93. *)
Definition TcpSession_setOnConnEstabCB (ch i : nat) : D E unit := upd_tcb i (set_onConnEstabCB (Some ch)).

(** [if (onConnEstabCB) onConnEstabCB();] *)
Definition TcpSession_fireConnEstab (i : nat) : D E unit :=
  t ← the_tcb i;
  match onConnEstabCB t with Some ch => connEstab ch | None => mret tt end.

(** The [SYN_SENT] case of [TcpSession::recv]:
    src/src/veloxd/tcp/TcpSession.cpp:153-174. *)
Definition TcpSession_recv_syn_sent (f : FrameBuf) (i : nat) : D E unit :=
  syn ← lift_res (ld_tcp_flag tcp_syn_bit f (transport_hdr f));
  ack ← lift_res (ld_tcp_flag tcp_ack_bit f (transport_hdr f));
  _ ← assert_ (syn && ack);
  seq ← lift_res (ld32 f (transport_hdr f) tcphdr_seq);
  _ ← upd_tcb i (λ t, set_recv_next (u32 (bswap32 seq + 1)) (set_irs (bswap32 seq) t));
  _ ← upd_tcb i (λ t, set_send_unack (u32 (send_unack t + 1)) t);
  _ ← upd_tcb i (set_conn_state TCP_STATE__ESTABLISHED);
  t ← the_tcb i;
  _ ← TcpSession_ack2peer (recv_next t) i;
  TcpSession_fireConnEstab i.

(** The [ESTABLISHED] case: src/src/veloxd/tcp/TcpSession.cpp:175-196. *)
Definition TcpSession_recv_estab (skbuf i : nat) : D E unit :=
  f ← the_frame skbuf;
  let tcphdr := transport_hdr f in
  ack ← lift_res (ld_tcp_flag tcp_ack_bit f tcphdr);
  _ ← (if ack : bool then
         k ← lift_res (ld32 f tcphdr tcphdr_ack_seq);
         upd_tcb i (λ t, if send_unack t <? bswap32 k then set_send_unack (bswap32 k) t else t)
       else mret tt);
  doff ← lift_res (ld_doff f tcphdr);
  let f := set_user_payload_begin (ptr_add tcphdr (doff * 4)) f in
  _ ← put_frame skbuf f;
  n ← lift_res (ptr_diff (user_payload_end f) (user_payload_begin f));
  if truth n then
    p ← the_pcb i;
    so ← lock_endpoint (s_socket (p_base p));
    _ ← Endpoint_putToRecvQ indet skbuf so;
    seq ← lift_res (ld32 f tcphdr tcphdr_seq);
    _ ← upd_tcb i (set_recv_next (u32 (bswap32 seq + n)));
    t ← the_tcb i;
    TcpSession_ack2peer (recv_next t) i
  else mret tt.

(** [TcpSession::recv]: src/src/veloxd/tcp/TcpSession.cpp:148-205. *)
Definition TcpSession_recv (skbuf i : nat) : D E unit :=
  f ← the_frame skbuf;
  t ← the_tcb i;
  match conn_state t with
  | TCP_STATE__SYN_SENT => TcpSession_recv_syn_sent f i
  | TCP_STATE__ESTABLISHED => TcpSession_recv_estab skbuf i
  | _ => mret tt
  end.

(** [Tcp::rx]: src/src/veloxd/tcp/Tcp.cpp:85-125. *)
Definition Tcp_rx (skbuf_head : nat) : D E unit :=
  f ← the_frame skbuf_head;
  let iphdr_ovly := network_hdr f in
  let tcphdr := transport_hdr f in
  fa ← lift_res (ld32 f iphdr_ovly PseudoHdr_saddr);
  la ← lift_res (ld32 f iphdr_ovly PseudoHdr_daddr);
  fp ← lift_res (ld16 f tcphdr tcphdr_source);
  lp ← lift_res (ld16 f tcphdr tcphdr_dest);
  d ← get_st;
  match Sessions_find (lock_session d) fa fp la lp (tcp_pcbs d) with
  | None => mret tt
  | Some pcb => TcpSession_recv skbuf_head pcb
  end.
End tcp.
