(* ===== verification/Reassembly.v ===== *)
(** * IP reassembly (src/src/veloxd/ip/reassembly/Reassembler.cpp)

    The fragments of a datagram are a chain of frames linked through [next],
    sorted by offset, kept in a [FragGroup].  [defrag] adds one fragment and
    returns the whole datagram when it is complete.  Chains live in the shared
    heap of frames, so the loops below follow [next] pointers; a loop over a
    chain without repetition visits at most the number of frames of the heap,
    which is its fuel. *)

From S2P Require Import Prelude Frame Session World.

Section reassembly.
Context {E : Type} `{Kernel E}.

(** Steps a walk along [next] may need. *)
Definition chain_fuel (d : Daemon E) : nat := S (size (frames d)).

(** A field of the header of frame [i], through [network_hdr]. *)
Definition hdr16 (off : Z) (i : nat) : D E Z := get_frame i (λ f, ld16 f (network_hdr f) off).
Definition hdr_ihl (i : nat) : D E Z := get_frame i (λ f, ld_ihl f (network_hdr f)).

(** [__be16_to_cpu(iphdr->frag_off) & IP_OFF_MASK]. *)
Definition frag_offset (i : nat) : D E Z :=
  fo ← hdr16 iphdr_frag_off i; mret (Z.land (bswap16 fo) IP_OFF_MASK).

Definition set_first (v : option nat) (c : FragGroup) : FragGroup :=
  mkFragGroup (ip_id c) (ip_protocol c) (ip_saddr c) (ip_daddr c) v.

(** The test of the search loop: src/src/veloxd/ip/reassembly/Reassembler.cpp:96-102. *)
Definition same_packet (id proto sa da : Z) (c : FragGroup) : bool :=
  (ip_id c =? id) && (ip_protocol c =? proto) && (ip_saddr c =? sa) && (ip_daddr c =? da).

(** The index of the first group that passes. *)
Fixpoint find_group (id proto sa da : Z) (l : list FragGroup) : option nat :=
  match l with
  | [] => None
  | c :: l => if same_packet id proto sa da c then Some O else S <$> find_group id proto sa da l
  end.

(** [while (curr && ours_off > offset(curr)) { prev = curr; curr = curr->next; }]:
    src/src/veloxd/ip/reassembly/Reassembler.cpp:138-144. *)
Fixpoint insert_walk (fuel : nat) (ours_off : Z) (prev curr : option nat) : D E (option nat * option nat) :=
  match curr with
  | None => mret (prev, None)
  | Some c =>
      o ← frag_offset c;
      if o <? ours_off then
        match fuel with
        | O => fail OutOfFuel
        | S fuel => f ← the_frame c; insert_walk fuel ours_off (Some c) (next f)
        end
      else mret (prev, curr)
  end.

(** Step 3, insertion: src/src/veloxd/ip/reassembly/Reassembler.cpp:124-149.
    [ours_off] is taken from the field without the byte swap.  The result is
    the group's new [first]. *)
Definition defrag_insert (first : option nat) (skbuf : nat) : D E (option nat) :=
  front ← match first with
          | None => mret true
          | Some i => a ← frag_offset i; b ← frag_offset skbuf; mret (b <? a)
          end;
  if front : bool then
    f ← the_frame skbuf;
    _ ← put_frame skbuf (set_next first f);
    mret (Some skbuf)
  else
    fo ← hdr16 iphdr_frag_off skbuf;
    fuel ← gets chain_fuel;
    '(prev, curr) ← insert_walk fuel (Z.land fo IP_OFF_MASK) None first;
    p ← deref prev;
    f ← the_frame p;
    _ ← put_frame p (set_next (Some skbuf) f);
    f ← the_frame skbuf;
    _ ← put_frame skbuf (set_next curr f);
    mret first.

(** The contiguity check: src/src/veloxd/ip/reassembly/Reassembler.cpp:160-168. *)
Fixpoint contiguous (fuel : nat) (curr : option nat) (expectedOff : Z) : D E bool :=
  match curr with
  | None => mret true
  | Some c =>
      match fuel with
      | O => fail OutOfFuel
      | S fuel =>
          o ← frag_offset c;
          if negb (o * 8 =? expectedOff) then mret false else
          tot ← hdr16 iphdr_tot_len c;
          ihl ← hdr_ihl c;
          f ← the_frame c;
          contiguous fuel (next f) (o * 8 + bswap16 tot - ihl * 4)
      end
  end.

(** [for (curr = first; curr->next; curr = curr->next);]:
    src/src/veloxd/ip/reassembly/Reassembler.cpp:171-172. *)
Fixpoint last_of (fuel : nat) (curr : nat) : D E nat :=
  f ← the_frame curr;
  match next f with
  | None => mret curr
  | Some n => match fuel with O => fail OutOfFuel | S fuel => last_of fuel n end
  end.

(** The loop that adjusts the following fragments:
    src/src/veloxd/ip/reassembly/Reassembler.cpp:192-198; [ihl] is not
    multiplied by 4. *)
Fixpoint adjust_rest (fuel : nat) (curr : option nat) : D E unit :=
  match curr with
  | None => mret tt
  | Some c =>
      match fuel with
      | O => fail OutOfFuel
      | S fuel =>
          ihl ← hdr_ihl c;
          f ← the_frame c;
          _ ← put_frame c (set_user_payload_begin (raw ihl) (set_network_hdr nullptr f));
          adjust_rest fuel (next f)
      end
  end.

(** Steps 4 and 5 on a group's chain:
    src/src/veloxd/ip/reassembly/Reassembler.cpp:151-203.  [true]: complete,
    and the headers have been adjusted. *)
Definition defrag_complete (first : nat) : D E bool :=
  fuel ← gets chain_fuel;
  ok ← contiguous fuel (Some first) 0;
  if negb ok then mret false else
  l ← last_of fuel first;
  fo ← hdr16 iphdr_frag_off l;
  let frag_off := bswap16 fo in
  if has_bits frag_off IP_MF_MASK then mret false else
  tot ← hdr16 iphdr_tot_len l;
  ihl ← hdr_ihl l;
  let payloadlen := u16 (Z.land frag_off IP_OFF_MASK * 8 + bswap16 tot - ihl * 4) in
  ihl ← hdr_ihl first;
  _ ← upd_frame first (λ f, st16 f (network_hdr f) iphdr_tot_len (bswap16 (u16 (payloadlen + ihl * 4))));
  f ← the_frame first;
  _ ← adjust_rest fuel (next f);
  mret true.

(** [Reassembler::defrag]: src/src/veloxd/ip/reassembly/Reassembler.cpp:84-222. *)
Definition Reassembler_defrag (skbuf : nat) : D E (option nat) :=
  id ← hdr16 iphdr_id skbuf;
  proto ← get_frame skbuf (λ f, ld8 f (network_hdr f) iphdr_protocol);
  sa ← get_frame skbuf (λ f, ld32 f (network_hdr f) iphdr_saddr);
  da ← get_frame skbuf (λ f, ld32 f (network_hdr f) iphdr_daddr);
  groups ← gets defragCtxList;
  groups ← deref groups;
  let '(groups, k) := match find_group id proto sa da groups with
                      | Some k => (groups, k)
                      | None => (groups ++ [mkFragGroup id proto sa da None], length groups)
                      end in
  c ← deref (groups !! k);
  first ← defrag_insert (fg_first c) skbuf;
  let groups := <[k := set_first first c]> groups in
  _ ← modify (set_defragCtxList (Some groups));
  i ← deref first;
  ok ← defrag_complete i;
  if ok : bool then
    _ ← modify (set_defragCtxList (Some (delete k groups)));
    mret (Some i)
  else mret None.

(** [timeout_cb], for the group at position [k]:
    src/src/veloxd/ip/reassembly/Reassembler.cpp:42-65. *)
Definition timeout_cb (k : nat) : D E unit :=
  l ← gets defragCtxList;
  l ← deref l;
  modify (set_defragCtxList (Some (delete k l))).
End reassembly.
