(* ===== verification/IpRx.v ===== *)
(** * The receiving loop of the IP layer (src/src/veloxd/ip/Ip.cpp)

    One turn of the loop of [Ip::start]: take a frame from the queue, check it,
    reassemble if it is a fragment, and hand it to its transport. *)

From S2P Require Import Prelude Csum16 Frame Session World Reactor Rpc Net Agent Udp Tcp Reassembly.

Section iprx.
Context {E : Type} `{Kernel E} `{Codec}.
Context (indet : list Z).

(** [iphdr] points into the frame taken from the queue also after
    reassembly, when [skbuf] is the first fragment:
    src/src/veloxd/ip/Ip.cpp:126-155. *)
Definition Ip_demultiplex (arrived skbuf : nat) (iphdr : ptr) : D E unit :=
  ihl ← get_frame arrived (λ f, ld_ihl f iphdr);
  _ ← upd_frame skbuf (λ f, Ok (set_transport_hdr (ptr_add (network_hdr f) (ihl * 4)) f));
  proto ← get_frame arrived (λ f, IpHdrs_protocol f iphdr);
  match proto with
  | PX_UDP => Udp_rx skbuf
  | PX_TCP => Tcp_rx indet skbuf
  | PX_IP | PX_ICMP | PX_IGMP => mret tt
  end.

(** Steps 1 to 3 on a frame: src/src/veloxd/ip/Ip.cpp:91-159. *)
Definition Ip_process (skbuf : nat) : D E unit :=
  f ← the_frame skbuf;
  _ ← assert_ (negb (is_null (hdrs_begin f)) && negb (is_null (user_payload_end f)) &&
               negb (is_null (network_hdr f)));
  n ← lift_res (ptr_diff (user_payload_end f) (hdrs_begin f));
  if (n <? 20) || negb (IpHdrs_checksum f nullptr) then mret tt else
  let iphdr := network_hdr f in
  frag ← lift_res (IpHdrs_isFrag f iphdr);
  packet ← (if frag : bool then Reassembler_defrag skbuf else mret (Some skbuf));
  match packet with
  | None => mret tt
  | Some packet => Ip_demultiplex skbuf packet iphdr
  end.

(** The body of the loop: src/src/veloxd/ip/Ip.cpp:82-160.  [wait_dequeue]
    sleeps on an empty queue. *)
Definition Ip_turn : D E unit :=
  q ← gets rxQ;
  match q with
  | [] => fail Sleeps
  | skbuf :: q =>
      _ ← modify (set_rxQ q);
      match skbuf with
      | None => mret tt
      | Some skbuf => Ip_process skbuf
      end
  end.
End iprx.
