(* ===== verification/Dispatch.v ===== *)
(** * Request dispatch (src/src/veloxd/arbiter/RpcDispatch.cpp)

    One definition per handler; [handleRequest] chooses by the request's
    [oneof].  A handler fills a response that starts empty: a field it does not
    set stays unset, which [AgentChannel::write] checks. *)

From S2P Require Import Prelude Csum16 Frame Session World Reactor Rpc Net Agent Udp Tcp.

Section dispatch.
Context {E : Type} `{Kernel E} `{Codec}.
Context (indet : list Z).

(** [drain_skbuf_chain]: src/src/veloxd/arbiter/RpcDispatch.cpp:50-58. *)
Fixpoint drain_skbuf_chain (fuel : nat) (head : option nat) (out : list Z) : D E (list Z) :=
  match head with
  | None => mret out
  | Some i =>
      match fuel with
      | O => fail OutOfFuel
      | S fuel =>
          f ← the_frame i;
          len ← lift_res (ptr_diff (user_payload_end f) (user_payload_begin f));
          bs ← (if 0 <? len then lift_res (ld_bytes f (user_payload_begin f) len) else mret []);
          drain_skbuf_chain fuel (next f) (out ++ bs)
      end
  end.

Definition drain (head : nat) : D E (list Z) :=
  fuel ← gets (λ d, S (size (frames d)));
  drain_skbuf_chain fuel (Some head) [].

(** Register a handle with the event loop: [eventloop->addChannel(c);
    c->setOwnerEventReactor(eventloop);]. *)
Definition register (c : nat) : D E unit :=
  _ ← EventReactor_addChannel c; IoHandle_setOwnerEventReactor c.

(** [RpcDispatch::socketCall]: src/src/veloxd/arbiter/RpcDispatch.cpp:129-186. *)
Definition socketCall (ch : nat) (domain type : Z) : D E Response :=
  _ ← assert_ (domain =? AF_INET);
  _ ← assert_ (has_bits type SOCK_STREAM || has_bits type SOCK_DGRAM);
  let nonblocking := has_bits type SOCK_NONBLOCK in
  '(so, pcb) ← (if has_bits type SOCK_STREAM then
                  so ← Endpoint_new EP_TCP nonblocking; pcb ← Tcp_newSession; mret (so, pcb)
                else
                  so ← Endpoint_new EP_UDP nonblocking; pcb ← Udp_newSession; mret (so, pcb));
  _ ← upd_pcb pcb (λ p, set_p_base (Session_setSocket (Some so) (p_base p)) p);
  _ ← Endpoint_setSession pcb so;
  _ ← Endpoint_setAgentChannel ch so;
  _ ← AgentChannel_setSocket so ch;
  s ← the_endpoint so;
  _ ← register (ep_sChannel s);
  p ← the_pcb pcb;
  _ ← match p_tcb p with Some t => register (t_sChannel t) | None => mret tt end;
  mret (mkResponse (Some RC_OK) (Some (RetSocket (mkRet 0 None)))).

(** [memcpy(&destAddr, s.c_str(), sizeof(struct sockaddr_in))] and its fields
    [sin_addr] and [sin_port]; [c_str] is the bytes and a final 0. *)
Definition destAddr (addr : list Z) : res (Z * Z) :=
  b ← of_option OutOfBounds (slice (addr ++ [0]) 0 16);
  p ← of_option OutOfBounds (load16 b 2);
  a ← of_option OutOfBounds (load32 b 4);
  Ok (a, p).

(** [pcb->connect(...)], virtual. *)
Definition Session_connect_v (a p : Z) (pcb : nat) : D E Z :=
  q ← the_pcb pcb;
  match p_tcb q with
  | Some _ => TcpSession_connect a p pcb
  | None => udp_base (Session_connect a p) pcb
  end.

(** [pcb->setOnConnEstabCB(...)], virtual: the base class ignores it. *)
Definition Session_setOnConnEstabCB_v (ch pcb : nat) : D E unit :=
  q ← the_pcb pcb;
  match p_tcb q with Some _ => TcpSession_setOnConnEstabCB ch pcb | None => mret tt end.

(** [RpcDispatch::connectCall]: src/src/veloxd/arbiter/RpcDispatch.cpp:189-272. *)
Definition connectCall (ch : nat) (addr : list Z) : D E Response :=
  '(a, p) ← lift_res (destAddr addr);
  so ← channel_socket ch;
  s ← the_endpoint so;
  pcb ← endpoint_pcb so;
  match ep_type s with
  | EP_UDP =>
      r ← Session_connect_v a p pcb;
      mret (mkResponse None (Some (RetConnect (if r =? 0 then mkRet 0 None else mkRet (-1) (Some r)))))
  | EP_TCP =>
      if ep_nonblocking s
      then mret (mkResponse (Some RC_OK) (Some (RetRecvfrom (mkRet EINPROGRESS None) None None)))
      else
        _ ← Session_setOnConnEstabCB_v ch pcb;
        _ ← Session_connect_v a p pcb;
        mret (mkResponse (Some RC_WAIT_NEXT) None)
  end.

(** [RpcDispatch::closeCall]: src/src/veloxd/arbiter/RpcDispatch.cpp:275-293. *)
Definition closeCall (ch : nat) : D E Response :=
  mret (mkResponse (Some RC_OK) (Some (RetClose (mkRet 0 None)))).

(** [pcb->send(buf)], virtual. *)
Definition Session_send_v (buf : list Z) (pcb : nat) : D E Z :=
  q ← the_pcb pcb;
  match p_tcb q with Some _ => TcpSession_send buf pcb | None => UdpSession_send buf pcb end.

(** [pcb->send(addr, port, buf)], virtual: [TcpSession] does not override it. *)
Definition Session_send_to_v (a p : Z) (buf : list Z) (pcb : nat) : D E Z :=
  q ← the_pcb pcb;
  match p_tcb q with
  | Some _ => tcp_base (Session_send_to a p) pcb
  | None => UdpSession_send_to a p buf pcb
  end.

(** [RpcDispatch::sendtoCall]: src/src/veloxd/arbiter/RpcDispatch.cpp:296-336. *)
Definition sendtoCall (ch : nat) (buf : list Z) (addr : option (list Z)) : D E Response :=
  so ← channel_socket ch;
  s ← the_endpoint so;
  pcb ← endpoint_pcb so;
  nwritten ← match ep_type s with
             | EP_UDP =>
                 match addr with
                 | Some addr => '(a, p) ← lift_res (destAddr addr); Session_send_to_v a p buf pcb
                 | None => Session_send_v buf pcb
                 end
             | EP_TCP => Session_send_v buf pcb
             end;
  mret (mkResponse (Some RC_OK) (Some (RetSendto (mkRet nwritten None)))).

(** [RpcDispatch::recvfromCall]: src/src/veloxd/arbiter/RpcDispatch.cpp:339-439;
    [len] and [flags] of the request are not used. *)
Definition recvfromCall (ch : nat) (require_addr : bool) : D E Response :=
  so ← channel_socket ch;
  s ← the_endpoint so;
  x ← Endpoint_try_takeFromRecvQ so;
  match x with
  | Some (peeraddr, skbuf_head) =>
      buf ← drain skbuf_head;
      mret (mkResponse (Some RC_OK)
              (Some (RetRecvfrom (mkRet (i32 (length buf)) None) (Some buf)
                       (if require_addr then Some peeraddr else None))))
  | None =>
      if ep_nonblocking s
      then mret (mkResponse (Some RC_OK) (Some (RetRecvfrom (mkRet EAGAIN None) None None)))
      else
        _ ← Endpoint_setOnAsyncNewPacketCB
              (match ep_type s with
               | EP_UDP => onAsyncNewUdpPacket_cb ch require_addr
               | EP_TCP => onAsyncNewTcpPacket_cb ch
               end) so;
        _ ← Endpoint_setWaiting true so;
        mret (mkResponse (Some RC_WAIT_NEXT) None)
  end.

(** [RpcDispatch::getpeernameCall]: src/src/veloxd/arbiter/RpcDispatch.cpp:456-484. *)
Definition getpeernameCall (ch : nat) : D E Response :=
  so ← channel_socket ch;
  pcb ← endpoint_pcb so;
  p ← the_pcb pcb;
  mret (mkResponse (Some RC_OK) (Some (RetGetpeername (mkRet 0 None)
          (Some (sockaddr_in (fport (p_base p)) (faddr (p_base p))))))).

(** [RpcDispatch::getsocknameCall]: src/src/veloxd/arbiter/RpcDispatch.cpp:487-515. *)
Definition getsocknameCall (ch : nat) : D E Response :=
  so ← channel_socket ch;
  pcb ← endpoint_pcb so;
  p ← the_pcb pcb;
  mret (mkResponse (Some RC_OK) (Some (RetGetsockname (mkRet 0 None)
          (Some (sockaddr_in (lport (p_base p)) (laddr (p_base p))))))).

(** [RpcDispatch::getsockoptCall]: src/src/veloxd/arbiter/RpcDispatch.cpp:518-531. *)
Definition getsockoptCall : D E Response :=
  mret (mkResponse (Some RC_OK) (Some (RetGetsockopt (mkRet 0 None)))).

(** [RpcDispatch::setsockoptCall]: src/src/veloxd/arbiter/RpcDispatch.cpp:534-539. *)
Definition setsockoptCall : D E Response := mret (mkResponse None None).

(** [RpcDispatch::fcntlCall]: src/src/veloxd/arbiter/RpcDispatch.cpp:542-555. *)
Definition fcntlCall : D E Response :=
  mret (mkResponse (Some RC_OK) (Some (RetFcntl (mkRet 0 None)))).

(** [RpcDispatch::atstartAction]: src/src/veloxd/arbiter/RpcDispatch.cpp:558-578. *)
Definition atstartAction (ch : nat) (pid : Z) (progname : list Z) : D E Response :=
  _ ← AgentChannel_setPeerName progname ch;
  _ ← AgentChannel_setPeerPid (i32 pid) ch;
  mret (mkResponse (Some RC_OK) (Some (RetAtstart 4096 (Some 1024)))).

(** [RpcDispatch::pollCall]: src/src/veloxd/arbiter/RpcDispatch.cpp:441-446. *)
Definition pollCall : D E Response := mret (mkResponse None None).
(** [RpcDispatch::selectCall]: src/src/veloxd/arbiter/RpcDispatch.cpp:448-453. *)
Definition selectCall : D E Response := mret (mkResponse None None).

(** [RpcDispatch::handleRequest]: src/src/veloxd/arbiter/RpcDispatch.cpp:61-126. *)
Definition handleRequest (ch : nat) (req : Request) : D E Response :=
  match calling req with
  | Some (CallSocket domain type _) => socketCall ch domain type
  | Some (CallConnect addr) => connectCall ch addr
  | Some CallClose => closeCall ch
  | Some (CallRecvfrom _ _ require_addr) => recvfromCall ch require_addr
  | Some (CallSendto buf _ addr) => sendtoCall ch buf addr
  | Some CallPoll => pollCall
  | Some CallSelect => selectCall
  | Some CallGetpeername => getpeernameCall ch
  | Some CallGetsockname => getsocknameCall ch
  | Some CallGetsockopt => getsockoptCall
  | Some CallSetsockopt => setsockoptCall
  | Some CallFcntl => fcntlCall
  | Some (CallAtstart progname) => atstartAction ch (pid req) progname
  | None => mret (mkResponse None None)
  end.

(** The body shared by the two functions below, after the channel is locked. *)
Definition answer_packet (ch : nat) (require_addr : bool) : D E unit :=
  so ← channel_socket ch;
  '(peeraddr, skbuf_head) ← Endpoint_takeFromRecvQ so;
  buf ← drain skbuf_head;
  AgentChannel_write
    (mkResponse (Some RC_OK) (Some (RetRecvfrom (mkRet (i32 (length buf)) None) (Some buf)
       (if require_addr then Some peeraddr else None)))) ch.

(** [RpcDispatch::onAsyncNewUdpPacket]: src/src/veloxd/arbiter/RpcDispatch.cpp:581-612. *)
Definition onAsyncNewUdpPacket (ch : nat) (require_addr : bool) : D E unit :=
  d ← get_st;
  if decide (is_Some (channels d !! ch)) then answer_packet ch require_addr else mret tt.

(** [RpcDispatch::onAsyncNewTcpPacket]: src/src/veloxd/arbiter/RpcDispatch.cpp:615-640. *)
Definition onAsyncNewTcpPacket (ch : nat) : D E unit :=
  d ← get_st;
  if decide (is_Some (channels d !! ch)) then answer_packet ch false else mret tt.

Definition run_packet_cb (cb : packet_cb) : D E unit :=
  match cb with
  | onAsyncNewUdpPacket_cb ch require_addr => onAsyncNewUdpPacket ch require_addr
  | onAsyncNewTcpPacket_cb ch => onAsyncNewTcpPacket ch
  end.

(** [Endpoint::Impl::sChannelReadCb]: src/src/veloxd/arbiter/Endpoint.cpp:203-224. *)
Definition Endpoint_sChannelReadCb (fuel : nat) (i : nat) : D E unit :=
  s ← the_endpoint i;
  _ ← drain_pipe fuel (new_packet_notify_pipe s).1;
  s ← the_endpoint i;
  if negb (waiting s) then mret tt else
  _ ← match onAsyncNewPacket s with Some cb => run_packet_cb cb | None => mret tt end;
  upd_endpoint i (set_waiting false).
End dispatch.
