(* ===== verification/Arbiter.v ===== *)
(** * The arbiter (src/src/veloxd/arbiter)

    [AgentHub] accepts interceptor connections, [Arbiter] keeps the list that
    owns the channels, and [AgentChannel::Impl::onReadReady] turns one message
    into one request and one response.  [run_cb] runs the lambda a handle
    carries; [dstep] is one step of the daemon: a turn of one of its three
    threads. *)

From S2P Require Import Prelude Csum16 Frame Session World Reactor Rpc Net Agent Udp Tcp Reassembly IpRx Dispatch.

Section arbiter.
Context {E : Type} `{Kernel E} `{Codec}.
Context (indet : list Z).
Context (parse_partial : list Z → Request).   (* what a failed ParseFromArray leaves in the message *)
Context (fuel : nat).                         (* reads and accepts until -1, in one callback *)

(** [Arbiter::addRRChannel]: src/src/veloxd/arbiter/Arbiter.cpp:133-137. *)
Definition Arbiter_addRRChannel (ch : nat) : D E unit :=
  modify (λ d, set_rrChannels (rrChannels d ++ [ch]) d).

(** [Arbiter::removeRRChannel]: src/src/veloxd/arbiter/Arbiter.cpp:140-150; the
    caller still holds a [shared_ptr], so nothing is destroyed here. *)
Definition Arbiter_removeRRChannel (ch : nat) : D E unit :=
  modify (λ d, set_rrChannels (filter (λ c, c ≠ ch) (rrChannels d)) d).

(** The [shared_ptr] a callback held goes away: the channel dies with it if the
    arbiter no longer lists it. *)
Definition release_channel (ch : nat) : D E unit :=
  l ← gets rrChannels;
  if decide (ch ∈ l) then mret tt else AgentChannel_delete ch.

(** [AgentChannel::Impl::onReadReady]:
    src/src/veloxd/arbiter/agent/AgentChannel.cpp:154-210. *)
Definition AgentChannel_onReadReady (ch : nat) : D E unit :=
  c ← the_channel ch;
  '(nread, rdbuf, errno) ← kcall (k_read (ch_fd c) RPC_MESSAGE_MAX_SIZE);
  if (nread =? -1) && (errno =? EAGAIN) then mret tt else
  if nread =? 0 then Arbiter_removeRRChannel ch else
  let req := if nread =? -1 then parse_partial []
             else default (parse_partial rdbuf) (request_unpack rdbuf) in
  resp ← handleRequest ch req;
  AgentChannel_write resp ch.

(** [AgentChannel::Impl::onPeerWritingClose]:
    src/src/veloxd/arbiter/agent/AgentChannel.cpp:213-216. *)
Definition AgentChannel_onPeerWritingClose (ch : nat) : D E unit := Arbiter_removeRRChannel ch.

(** The lambda given to [onNewConnection]: src/src/veloxd/arbiter/Arbiter.cpp:68-93. *)
Definition Arbiter_onNewConnection (connfd : Z) : D E unit :=
  ch ← AgentChannel_new connfd;
  _ ← Arbiter_addRRChannel ch;
  c ← the_channel ch;
  register (ch_sChannel c).

(** The accept loop of [AgentHub::Impl::onReadReady]:
    src/src/veloxd/arbiter/agent/AgentHub.cpp:131-136. *)
Fixpoint accept_loop (n : nat) (listenfd : Z) : D E unit :=
  '(connfd, _) ← kcall (k_accept listenfd);
  if connfd =? -1 then mret tt else
  _ ← Arbiter_onNewConnection connfd;
  match n with O => fail OutOfFuel | S n => accept_loop n listenfd end.

(** [AgentHub::Impl::onReadReady]: src/src/veloxd/arbiter/agent/AgentHub.cpp:123-144. *)
Definition AgentHub_onReadReady : D E unit :=
  h ← gets hub; h ← deref h; accept_loop fuel h.1.

(** The lambda of [TcpSession::TcpSession]: src/src/veloxd/tcp/TcpSession.cpp:60-67. *)
Definition TcpSession_onEstabPipe (pcb : nat) : D E unit :=
  t ← the_tcb pcb;
  _ ← drain_pipe fuel (estab_notify_pipe t).1;
  TcpSession_fireConnEstab pcb.

(** The callbacks. *)
Definition run_cb (cb : callback) : D E unit :=
  match cb with
  | CbHubReadReady => AgentHub_onReadReady
  | CbChannelReadReady ch => _ ← AgentChannel_onReadReady ch; release_channel ch
  | CbChannelPeerClose ch => _ ← AgentChannel_onPeerWritingClose ch; release_channel ch
  | CbEndpointReadReady ep => Endpoint_sChannelReadCb fuel ep
  | CbSessionEstab pcb => TcpSession_onEstabPipe pcb
  end.

(** ** The daemon as a transition system *)

(** A thread's next turn, while its stop flag is clear. *)
Inductive dstep : Daemon E → Daemon E → Prop :=
  | step_interface d d' : if_stopflag d = false → Interface_turn d = Ok (tt, d') → dstep d d'
  | step_ip d d' : ip_stopflag d = false → Ip_turn indet d = Ok (tt, d') → dstep d d'
  | step_reactor d d' : loop_stopflag d = false → EventReactor_turn run_cb d = Ok (tt, d') → dstep d d'.
End arbiter.
