(* ===== verification/Alive.v ===== *)
(** * Live objects

    A program logic for the absence of dangling pointers.  [doms d] is what is
    alive in a state: the identifiers of its frames, handles, channels,
    endpoints and sessions; [closed d] says that every pointer stored in a live
    object, in a queue or in a group of fragments leads to a live one.  [keep A
    m Q]: run where [A] is alive, [m] never uses freed memory, and when it
    returns, [A] is still exactly what is alive, the state is closed and the
    result satisfies [Q].  [grow A m Q] is the same for programs that create
    objects. *)

From S2P Require Import Prelude Csum16 Frame Session World Reactor Rpc Net Agent Udp Tcp Reassembly IpRx Dispatch Arbiter.

(** ** Results without a dangling access *)

Definition pres {A} (Q : A → Prop) (r : res A) : Prop :=
  match r with Ok a => Q a | Fault f => f ≠ UseAfterFree end.
Notation clean := (pres (λ _, True)).

Lemma pres_bind {A B} (Q : A → Prop) (R : B → Prop) (r : res A) k : pres Q r → (∀ a, Q a → pres R (k a)) → pres R (r ≫= k).
Proof. destruct r as [a|f]; cbn; [|done]. intros Ha Hk. by apply Hk. Qed.
Lemma pres_weaken {A} (Q R : A → Prop) (r : res A) : pres Q r → (∀ a, Q a → R a) → pres R r.
Proof. destruct r as [a|f]; cbn; [|done]. auto. Qed.
Lemma pres_option {A} f (o : option A) : f ≠ UseAfterFree → clean (of_option f o).
Proof. by destruct o. Qed.
Lemma clean_ok {A} (a : A) : clean (Ok a).
Proof. done. Qed.

Create HintDb clean discriminated.
#[export] Hint Resolve clean_ok : clean.
#[export] Hint Extern 1 (clean (of_option _ _)) => by apply pres_option : clean.

(** Walk a pure program; what each step establishes is a hint. *)
Ltac clean_steps :=
  repeat first
    [ progress intros; cbv beta in *
    | solve [eauto with clean]
    | match goal with
      | |- pres _ (Ok _) => by cbn
      | |- pres _ (Fault _) => by cbn
      | |- pres _ (match ?x with _ => _ end) => destruct x
      | |- pres _ (mbind _ (of_option _ _)) => eapply (pres_bind (λ _, True)); [by apply pres_option|]
      | |- pres _ (mbind _ _) => eapply pres_bind; [solve [eauto with clean]|]
      | |- pres _ (mbind _ _) => eapply (pres_bind (λ _, True))
      end ].

Lemma clean_ld w f p off : clean (ld w f p off).
Proof. unfold ld. clean_steps. Qed.
Lemma clean_ld8 f p off : clean (ld8 f p off).
Proof. apply clean_ld. Qed.
Lemma clean_ld16 f p off : clean (ld16 f p off).
Proof. apply clean_ld. Qed.
Lemma clean_ld32 f p off : clean (ld32 f p off).
Proof. apply clean_ld. Qed.
Lemma clean_ld_bytes f p n : clean (ld_bytes f p n).
Proof. unfold ld_bytes. clean_steps. Qed.
Lemma clean_ptr_diff p q : clean (ptr_diff p q).
Proof. unfold ptr_diff. clean_steps. Qed.
#[export] Hint Resolve clean_ld8 clean_ld16 clean_ld32 clean_ld_bytes clean_ptr_diff : clean.

(** A store keeps the frame's [next]. *)
Lemma clean_st w f p off v : pres (λ f', next f' = next f) (st w f p off v).
Proof. unfold st. destruct p; [done| |done]. by destruct (w _ _ _). Qed.
Lemma clean_st8 f p off v n : next f = n → pres (λ f', next f' = n) (st8 f p off v).
Proof. intros <-. apply clean_st. Qed.
Lemma clean_st16 f p off v n : next f = n → pres (λ f', next f' = n) (st16 f p off v).
Proof. intros <-. apply clean_st. Qed.
Lemma clean_st32 f p off v n : next f = n → pres (λ f', next f' = n) (st32 f p off v).
Proof. intros <-. apply clean_st. Qed.
#[export] Hint Resolve clean_st8 clean_st16 clean_st32 : clean.
#[export] Hint Extern 3 (next _ = _) => reflexivity : clean.
#[export] Hint Extern 2 (next _ = _) => assumption : clean.

Lemma clean_ihl f p : clean (ld_ihl f p).
Proof. unfold ld_ihl. clean_steps. Qed.
Lemma clean_version f p : clean (ld_version f p).
Proof. unfold ld_version. clean_steps. Qed.
Lemma clean_doff f p : clean (ld_doff f p).
Proof. unfold ld_doff. clean_steps. Qed.
Lemma clean_tcp_flag b f p : clean (ld_tcp_flag b f p).
Proof. unfold ld_tcp_flag. clean_steps. Qed.
Lemma clean_isFrag f p : clean (IpHdrs_isFrag f p).
Proof. unfold IpHdrs_isFrag. clean_steps. Qed.
Lemma clean_protocol f p : clean (IpHdrs_protocol f p).
Proof. unfold IpHdrs_protocol. clean_steps. Qed.
Lemma clean_destAddr a : clean (destAddr a).
Proof. unfold destAddr. clean_steps. Qed.
#[export] Hint Resolve clean_ihl clean_version clean_doff clean_tcp_flag clean_isFrag clean_protocol clean_destAddr : clean.

Lemma clean_csum_loop n mem p c s : clean (csum_loop n mem p c s).
Proof. revert p c s. induction n as [|n IH]; intros p c s; cbn [csum_loop]; clean_steps. Qed.
Lemma clean_csum_fold n s : clean (csum_fold n s).
Proof. revert s. induction n as [|n IH]; intros s; cbn [csum_fold]; clean_steps. Qed.
#[export] Hint Resolve clean_csum_loop clean_csum_fold : clean.
Lemma clean_csum_sum mem c s : clean (csum_sum mem c s).
Proof. unfold csum_sum. clean_steps. Qed.
#[export] Hint Resolve clean_csum_sum : clean.
Lemma clean_checksum mem c s : clean (checksum mem c s).
Proof. unfold checksum. clean_steps. Qed.
#[export] Hint Resolve clean_checksum : clean.
Lemma clean_iov_bytes l : clean (iov_bytes l).
Proof. induction l as [|v l IH]; cbn [iov_bytes]; clean_steps. Qed.
#[export] Hint Resolve clean_iov_bytes : clean.

Lemma clean_st_ihl f p v n : next f = n → pres (λ f', next f' = n) (st_ihl f p v).
Proof. unfold st_ihl. clean_steps. Qed.
Lemma clean_st_version f p v n : next f = n → pres (λ f', next f' = n) (st_version f p v).
Proof. unfold st_version. clean_steps. Qed.
Lemma clean_st_doff f p v n : next f = n → pres (λ f', next f' = n) (st_doff f p v).
Proof. unfold st_doff. clean_steps. Qed.
Lemma clean_st_flag b f p n : next f = n → pres (λ f', next f' = n) (st_tcp_flag b f p).
Proof. unfold st_tcp_flag. clean_steps. Qed.
#[export] Hint Resolve clean_st_ihl clean_st_version clean_st_doff clean_st_flag : clean.

Lemma clean_udp_frame s n f : pres (λ f', next f' = next f) (udp_frame s n f).
Proof. unfold udp_frame. clean_steps. Qed.
Lemma clean_tcp_template s f : pres (λ f', next f' = next f) (tcp_template s f).
Proof. unfold tcp_template. clean_steps. Qed.
Lemma clean_tcp_finish s buf f : pres (λ f', next f' = next f) (tcp_finish s buf f).
Proof. unfold tcp_finish. clean_steps. Qed.
Lemma clean_ip_header id f : pres (λ f', next f' = next f) (ip_header id f).
Proof. unfold ip_header. clean_steps. Qed.
#[export] Hint Resolve clean_udp_frame clean_tcp_template clean_tcp_finish clean_ip_header : clean.

(** ** What is alive, and what must be *)

Record Doms := mkDoms { fr : gset nat; hs : gset nat; cs : gset nat; es : gset nat; ss : gset nat }.

Definition doms {E} (d : Daemon E) : Doms :=
  mkDoms (dom (frames d)) (dom (handles d)) (dom (channels d)) (dom (endpoints d)) (dom (sessions d)).

Definition within (A B : Doms) : Prop := fr A ⊆ fr B ∧ hs A ⊆ hs B ∧ cs A ⊆ cs B ∧ es A ⊆ es B ∧ ss A ⊆ ss B.
#[global] Instance within_preorder : PreOrder within.
Proof. unfold within. split; [by intros|]. intros ? ? ? (?&?&?&?&?) (?&?&?&?&?). split_and!; by etrans. Qed.

(** The pointers of an object. *)
Definition opt_in (o : option nat) (X : gset nat) : Prop := ∀ i, o = Some i → i ∈ X.
Definition frame_live (A : Doms) (f : FrameBuf) : Prop := opt_in (next f) (fr A).
Definition pcb_live (A : Doms) (p : Pcb) : Prop := ∀ t, p_tcb p = Some t → t_sChannel t ∈ hs A.
Definition queue_live (A : Doms) (q : list (list Z * nat)) : Prop := ∀ x, x ∈ q → x.2 ∈ fr A.
Definition ep_live (A : Doms) (s : Endpoint) : Prop :=
  ep_sChannel s ∈ hs A ∧ opt_in (ep_pcb s) (ss A) ∧ queue_live A (recvQ s).
Definition ch_live (A : Doms) (c : AgentChannel) : Prop := ch_sChannel c ∈ hs A ∧ opt_in (ch_socket c) (es A).

Record closed_in {E} (A : Doms) (d : Daemon E) : Prop := {
  cl_frame : ∀ i f, frames d !! i = Some f → frame_live A f;
  cl_pcb : ∀ i p, sessions d !! i = Some p → pcb_live A p;
  cl_endpoint : ∀ i s, endpoints d !! i = Some s → ep_live A s;
  cl_channel : ∀ i c, channels d !! i = Some c → ch_live A c;
  cl_rxQ : ∀ k, Some k ∈ rxQ d → k ∈ fr A;
  cl_groups : ∀ gs g, defragCtxList d = Some gs → g ∈ gs → opt_in (fg_first g) (fr A)
}.
Definition closed {E} (d : Daemon E) : Prop := closed_in (doms d) d.

Lemma opt_in_mono o X Y : X ⊆ Y → opt_in o X → opt_in o Y.
Proof. intros Hs Ho i Hi. apply Hs. by apply Ho. Qed.
Lemma queue_live_mono A B q : within A B → queue_live A q → queue_live B q.
Proof. intros (Hs & _) Hq x Hx. apply Hs. by apply Hq. Qed.
Lemma closed_mono {E} A B (d : Daemon E) : within A B → closed_in A d → closed_in B d.
Proof.
  intros Hw [H1 H2 H3 H4 H5 H6]. pose proof Hw as (W1 & W2 & W3 & W4 & W5). constructor.
  - intros i f Hi. eapply opt_in_mono; [done|by eapply H1].
  - intros i p Hi t Ht. apply W2. by eapply H2.
  - intros i s Hi. destruct (H3 i s Hi) as (? & ? & ?). split_and!; [by apply W2|by eapply opt_in_mono|by eapply queue_live_mono].
  - intros i c Hi. destruct (H4 i c Hi). split; [by apply W2|by eapply opt_in_mono].
  - intros k Hk. apply W1. by apply H5.
  - intros gs g Hgs Hg. eapply opt_in_mono; [done|by eapply H6].
Qed.

(** ** The triples *)

Section triples.
Context {E : Type} `{Kernel E}.
Implicit Types (d : Daemon E) (A B : Doms).

Definition keep {X} A (m : D E X) (Q : X → Prop) : Prop := ∀ d, doms d = A → closed_in A d →
  match m d with Ok (a, d') => doms d' = A ∧ closed_in A d' ∧ Q a | Fault f => f ≠ UseAfterFree end.
Definition grow {X} A (m : D E X) (Q : X → Doms → Prop) : Prop := ∀ d, doms d = A → closed_in A d →
  match m d with Ok (a, d') => within A (doms d') ∧ closed d' ∧ Q a (doms d') | Fault f => f ≠ UseAfterFree end.

Lemma keep_bind {X Y} A (m : D E X) (k : X → D E Y) Q R :
  keep A m Q → (∀ a, Q a → keep A (k a) R) → keep A (m ≫= k) R.
Proof.
  intros Hm Hk d Hd Hc. specialize (Hm d Hd Hc). unfold mbind, M_bind. destruct (m d) as [[a d1]|f]; [|done].
  destruct Hm as (? & ? & Ha). by apply (Hk a Ha d1).
Qed.
Lemma keep_weaken {X} A (m : D E X) (Q R : X → Prop) : keep A m Q → (∀ a, Q a → R a) → keep A m R.
Proof. intros Hm HQ d Hd Hc. specialize (Hm d Hd Hc). destruct (m d) as [[a d1]|f]; [|done]. naive_solver. Qed.
Lemma keep_true {X} A (m : D E X) Q : keep A m Q → keep A m (λ _, True).
Proof. intros Hm. by eapply keep_weaken. Qed.
Lemma keep_grow {X} A (m : D E X) Q (R : X → Doms → Prop) : keep A m Q → (∀ a, Q a → R a A) → grow A m R.
Proof.
  intros Hm HR d Hd Hc. specialize (Hm d Hd Hc). destruct (m d) as [[a d1]|f]; [|done]. destruct Hm as (He & ? & ?).
  unfold closed. rewrite He. split_and!; auto. done.
Qed.
Lemma grow_bind {X Y} A (m : D E X) (k : X → D E Y) (Q : X → Doms → Prop) R :
  grow A m Q → (∀ a B, within A B → Q a B → grow B (k a) R) → grow A (m ≫= k) R.
Proof.
  intros Hm Hk d Hd Hc. specialize (Hm d Hd Hc). unfold mbind, M_bind. destruct (m d) as [[a d1]|f]; [|done].
  destruct Hm as (Hw & Hc1 & Ha). specialize (Hk a _ Hw Ha d1 eq_refl Hc1). destruct (k a d1) as [[b d2]|f]; [|done].
  destruct Hk as (? & ? & ?). split_and!; [by etrans|done|done].
Qed.
Lemma grow_weaken {X} A (m : D E X) (Q R : X → Doms → Prop) : grow A m Q → (∀ a B, within A B → Q a B → R a B) → grow A m R.
Proof. intros Hm HQ d Hd Hc. specialize (Hm d Hd Hc). destruct (m d) as [[a d1]|f]; [|done]. naive_solver. Qed.

(** ** Primitive operations *)

Lemma keep_ret {X} A (a : X) (Q : X → Prop) : Q a → keep A (mret a : D E X) Q.
Proof. by intros Ha d Hd Hc. Qed.
Lemma keep_fail {X} A f (Q : X → Prop) : f ≠ UseAfterFree → keep A (fail f : D E X) Q.
Proof. by intros Hf d Hd Hc. Qed.
Lemma keep_assert A b : keep A (assert_ b : D E unit) (λ _, b = true).
Proof. destruct b; [by apply keep_ret|by apply keep_fail]. Qed.
Lemma keep_lift {X} A (r : res X) Q : pres Q r → keep A (lift_res r : D E X) Q.
Proof. intros Hr d Hd Hc. unfold lift_res. by destruct r. Qed.
Lemma keep_deref {X} A (o : option X) : keep A (deref o : D E X) (λ a, o = Some a).
Proof. apply keep_lift. by destruct o. Qed.
Lemma keep_gets {X} A (f : Daemon E → X) : keep A (gets f) (λ _, True).
Proof. by intros d Hd Hc. Qed.
Lemma keep_get_st {Y} A (k : Daemon E → D E Y) R :
  (∀ d, doms d = A → closed_in A d → keep A (k d) R) → keep A (get_st ≫= k) R.
Proof. intros Hk d Hd Hc. exact (Hk d Hd Hc d Hd Hc). Qed.
Lemma keep_gets_bind {X Y} A (f : Daemon E → X) (k : X → D E Y) R :
  (∀ d, doms d = A → closed_in A d → keep A (k (f d)) R) → keep A (gets f ≫= k) R.
Proof. intros Hk d Hd Hc. exact (Hk d Hd Hc d Hd Hc). Qed.
(** A change of anything but heaps, queue and groups. *)
Lemma closed_same A d d' : frames d' = frames d → handles d' = handles d → channels d' = channels d → endpoints d' = endpoints d →
  sessions d' = sessions d → rxQ d' = rxQ d → defragCtxList d' = defragCtxList d →
  doms d = A → closed_in A d → doms d' = A ∧ closed_in A d'.
Proof.
  intros Hf Hh Hc He Hs Hr Hg <- [? ? ? ? ? ?]. unfold doms. rewrite Hf, Hh, Hc, He, Hs. split; [done|].
  constructor; rewrite ?Hf, ?Hh, ?Hc, ?He, ?Hs, ?Hr, ?Hg; done.
Qed.
Lemma keep_kcall {X} A (f : E → X * E) : keep A (kcall f) (λ _, True).
Proof. intros d Hd Hc. unfold kcall. destruct (f (env d)) as [a e]. by destruct (closed_same A d (set_env e d)). Qed.
Lemma keep_kcall_ A (f : E → E) : keep A (kcall_ f) (λ _, True).
Proof. intros d Hd Hc. by destruct (closed_same A d (set_env (f (env d)) d)). Qed.
Lemma keep_fresh A : keep A (fresh : D E nat) (λ _, True).
Proof. intros d Hd Hc. by destruct (closed_same A d (set_next_id (S (next_id d)) d)). Qed.
Lemma keep_modify A f : (∀ d, doms d = A → closed_in A d → doms (f d) = A ∧ closed_in A (f d)) → keep A (modify f : D E unit) (λ _, True).
Proof. intros Hf d Hd Hc. cbn. destruct (Hf d Hd Hc). done. Qed.

Lemma dom_lookup {X} (m : gmap nat X) i : i ∈ dom m → ∃ x, m !! i = Some x.
Proof. intros Hi. by apply elem_of_dom in Hi. Qed.
Ltac read_tac Hi cl :=
  let d := fresh "d" in let Hd := fresh "Hd" in let Hc := fresh "Hc" in let x := fresh "x" in let Hx := fresh "Hx" in
  intros d Hd Hc; rewrite <-Hd in Hi; destruct (dom_lookup _ _ Hi) as [x Hx]; unfold read_cell; rewrite Hx;
  split_and!; [done|done|first [exact I|eapply cl; [exact Hc|exact Hx]]].
Lemma keep_the_frame A i : i ∈ fr A → keep A (the_frame i : D E _) (frame_live A).
Proof. intros Hi. unfold the_frame. read_tac Hi @cl_frame. Qed.
Lemma keep_the_handle A i : i ∈ hs A → keep A (the_handle i : D E _) (λ _, True).
Proof. intros Hi. unfold the_handle. read_tac Hi @cl_frame. Qed.
Lemma keep_the_pcb A i : i ∈ ss A → keep A (the_pcb i : D E _) (pcb_live A).
Proof. intros Hi. unfold the_pcb. read_tac Hi @cl_pcb. Qed.
Lemma keep_the_endpoint A i : i ∈ es A → keep A (the_endpoint i : D E _) (ep_live A).
Proof. intros Hi. unfold the_endpoint. read_tac Hi @cl_endpoint. Qed.
Lemma keep_the_channel A i : i ∈ cs A → keep A (the_channel i : D E _) (ch_live A).
Proof. intros Hi. unfold the_channel. read_tac Hi @cl_channel. Qed.

(** Storing an object whose pointers are alive. *)
Lemma dom_put {X} (m : gmap nat X) i x : i ∈ dom m → dom (<[i := x]> m) = dom m.
Proof. intros Hi. rewrite dom_insert_L. set_solver. Qed.
Lemma put_inv {X} (m : gmap nat X) i x (P : X → Prop) : (∀ j y, m !! j = Some y → P y) → P x →
  ∀ j y, <[i := x]> m !! j = Some y → P y.
Proof. intros Hm Hx j y [[-> <-]|[_ Hj]]%lookup_insert_Some; [done|by eapply Hm]. Qed.

Lemma keep_put_frame A i f : i ∈ fr A → frame_live A f → keep A (put_frame i f : D E _) (λ _, True).
Proof.
  intros Hi Hf. apply keep_modify. intros d <- [? ? ? ? ? ?]. cbn in Hi. unfold doms at 1. cbn. rewrite dom_put by done. split; [done|].
  constructor; try done. cbn. by apply put_inv.
Qed.
Lemma keep_put_handle A i h : i ∈ hs A → keep A (put_handle i h : D E _) (λ _, True).
Proof.
  intros Hi. apply keep_modify. intros d <- [? ? ? ? ? ?]. cbn in Hi. unfold doms at 1. cbn. rewrite dom_put by done. by split.
Qed.
Lemma keep_put_pcb A i p : i ∈ ss A → pcb_live A p → keep A (put_pcb i p : D E _) (λ _, True).
Proof.
  intros Hi Hp. apply keep_modify. intros d <- [? ? ? ? ? ?]. cbn in Hi. unfold doms at 1. cbn. rewrite dom_put by done. split; [done|].
  constructor; try done. cbn. by apply put_inv.
Qed.
Lemma keep_put_endpoint A i s : i ∈ es A → ep_live A s → keep A (put_endpoint i s : D E _) (λ _, True).
Proof.
  intros Hi Hs. apply keep_modify. intros d <- [? ? ? ? ? ?]. cbn in Hi. unfold doms at 1. cbn. rewrite dom_put by done. split; [done|].
  constructor; try done. cbn. by apply put_inv.
Qed.
Lemma keep_put_channel A i c : i ∈ cs A → ch_live A c → keep A (put_channel i c : D E _) (λ _, True).
Proof.
  intros Hi Hs. apply keep_modify. intros d <- [? ? ? ? ? ?]. cbn in Hi. unfold doms at 1. cbn. rewrite dom_put by done. split; [done|].
  constructor; try done. cbn. by apply put_inv.
Qed.

Lemma keep_upd_handle A i f : i ∈ hs A → keep A (upd_handle i f : D E _) (λ _, True).
Proof. intros Hi. eapply keep_bind; [by apply keep_the_handle|]. intros h _. by apply keep_put_handle. Qed.
Lemma keep_upd_pcb A i f : i ∈ ss A → (∀ p, pcb_live A p → pcb_live A (f p)) → keep A (upd_pcb i f : D E _) (λ _, True).
Proof. intros Hi Hf. eapply keep_bind; [by apply keep_the_pcb|]. intros p Hp. apply keep_put_pcb; auto. Qed.
Lemma keep_upd_endpoint A i f : i ∈ es A → (∀ s, ep_live A s → ep_live A (f s)) → keep A (upd_endpoint i f : D E _) (λ _, True).
Proof. intros Hi Hf. eapply keep_bind; [by apply keep_the_endpoint|]. intros p Hp. apply keep_put_endpoint; auto. Qed.
Lemma keep_upd_channel A i f : i ∈ cs A → (∀ s, ch_live A s → ch_live A (f s)) → keep A (upd_channel i f : D E _) (λ _, True).
Proof. intros Hi Hf. eapply keep_bind; [by apply keep_the_channel|]. intros p Hp. apply keep_put_channel; auto. Qed.
Lemma keep_upd_frame A i g : i ∈ fr A → (∀ f, pres (λ f', next f' = next f) (g f)) → keep A (upd_frame i g : D E _) (λ _, True).
Proof.
  intros Hi Hg. eapply keep_bind; [by apply keep_the_frame|]. intros f Hf. eapply keep_bind; [apply keep_lift, Hg|].
  intros f' Hn. apply keep_put_frame; [done|]. unfold frame_live. by rewrite Hn.
Qed.
Lemma keep_get_frame {X} A i (g : FrameBuf → res X) : i ∈ fr A → (∀ f, clean (g f)) → keep A (get_frame i g : D E _) (λ _, True).
Proof. intros Hi Hg. eapply keep_bind; [by apply keep_the_frame|]. intros f Hf. apply keep_lift, Hg. Qed.

(** A new frame. *)
Lemma grow_make_FrameBuf A : grow A (make_FrameBuf : D E _) (λ k B, k ∈ fr B).
Proof.
  intros d <- Hc. set (d' := set_frames (<[next_id d := new_FrameBuf]> (frames d)) (set_next_id (S (next_id d)) d)).
  change (make_FrameBuf d) with (Ok (next_id d, d')).
  assert (within (doms d) (doms d')) as Hw by (unfold within; cbn; rewrite dom_insert_L; set_solver).
  split_and!; [done| |cbn; rewrite dom_insert_L; set_solver]. destruct (closed_mono _ _ _ Hw Hc) as [C1 C2 C3 C4 C5 C6].
  constructor; try done. cbn. by apply put_inv.
Qed.
End triples.

Create HintDb keep discriminated.
#[export] Hint Resolve keep_assert keep_deref keep_gets keep_kcall keep_kcall_ keep_fresh keep_the_frame keep_the_handle keep_the_pcb
  keep_the_endpoint keep_the_channel keep_upd_handle keep_put_handle : keep.
#[export] Hint Extern 2 (keep _ (put_frame _ _) _) => apply keep_put_frame : keep.
#[export] Hint Extern 2 (keep _ (upd_frame _ _) _) => apply keep_upd_frame; [|intros; solve [clean_steps]] : keep.
#[export] Hint Extern 2 (keep _ (get_frame _ _) _) => apply keep_get_frame; [|intros; solve [clean_steps]] : keep.
#[export] Hint Extern 2 (keep _ (lift_res _) _) => apply keep_lift; solve [eauto with clean] : keep.
#[export] Hint Extern 2 (keep _ (fail _) _) => by apply keep_fail : keep.
(** Facts about what is alive, from what is known of an object. *)
#[export] Hint Extern 1 (_ ∈ _) => assumption : keep.
#[export] Hint Extern 2 (_ ∈ _) => match goal with H : opt_in ?o ?X, He : ?o = Some ?i |- ?i ∈ ?X => exact (H i He) end : keep.
#[export] Hint Extern 2 (_ ∈ _) => match goal with H : pcb_live ?A ?p, He : p_tcb ?p = Some ?t |- t_sChannel ?t ∈ hs ?A => exact (H t He) end : keep.
#[export] Hint Extern 2 (opt_in _ _) => assumption : keep.
#[export] Hint Extern 2 (opt_in _ _) =>
  match goal with Hn : next ?f = _, Ho : opt_in ?o ?X |- opt_in _ ?X => rewrite <-Hn in Ho; exact Ho end : keep.
#[export] Hint Extern 3 (frame_live _ _) => unfold frame_live : keep.
#[export] Hint Extern 2 (keep _ (modify _) _) => apply keep_modify; let d := fresh "d" in intros d; by apply (closed_same _ d) : keep.

(** Take apart what a step established. *)
Ltac keep_facts :=
  cbv beta in *;
  repeat match goal with
  | H : ep_live _ _ |- _ => destruct H as (? & ? & ?)
  | H : ch_live _ _ |- _ => destruct H as [? ?]
  | H : frame_live _ _ |- _ => unfold frame_live in H
  | H : True |- _ => clear H
  end.
Ltac keep_steps :=
  repeat first
    [ progress intros; keep_facts
    | solve [eauto with keep]
    | apply keep_ret; solve [auto with keep]
    | match goal with
      | |- keep _ (match ?x with _ => _ end) _ => destruct x eqn:?
      | |- keep _ (mbind _ (match ?x with _ => _ end)) _ => destruct x eqn:?
      | |- keep _ (mbind _ (mret _)) _ => eapply (keep_bind _ _ _ (λ _, True)); [by apply keep_ret|]
      | |- keep _ (mbind _ _) _ => eapply keep_bind; [solve [eauto with keep]|]
      | |- keep _ (mbind _ (mbind _ _)) _ => eapply (keep_bind _ _ _ (λ _, True))
      end ].
