(* ===== verification/AliveLayers.v ===== *)
(** * The layers use no freed memory

    Every function of the daemon that creates or destroys nothing but frames,
    from the interface to the request handlers, run on live arguments. *)

From S2P Require Import Prelude Csum16 Frame Session World Reactor Rpc Net Agent Udp Tcp Reassembly IpRx Dispatch Arbiter Alive.

Section layers.
Context {E : Type} `{Kernel E} `{Codec}.
Notation D := (D E).
Implicit Types A : Doms.

(** ** Interface and IP, sending *)

Lemma keep_tx_gather A n curr bs : opt_in curr (fr A) → keep A (tx_gather n curr bs : D _) (λ _, True).
Proof.
  revert curr bs. induction n as [|n IH]; intros [i|] bs Ho; cbn [tx_gather]; keep_steps.
Qed.
Hint Resolve keep_tx_gather : keep.
Lemma opt_in_some i (X : gset nat) : i ∈ X → opt_in (Some i) X.
Proof. by intros Hi j [= <-]. Qed.
Lemma opt_in_none (X : gset nat) : opt_in None X.
Proof. done. Qed.
Hint Resolve opt_in_some opt_in_none : keep.
Lemma keep_Ip_tx A k buf : k ∈ fr A → keep A (Ip_tx k buf : D _) (λ _, True).
Proof.
  intros Hk. unfold Ip_tx, Interface_tx, TunIface_tx. keep_steps.
Qed.
Hint Resolve keep_Ip_tx : keep.

(** ** The event loop's bookkeeping, endpoints and channels *)

Lemma keep_removeChannel A c : c ∈ hs A → keep A (EventReactor_removeChannel c : D _) (λ _, True).
Proof. intros Hc. unfold EventReactor_removeChannel, EventReactor_hasChannel, SysPoller_removeChannel. keep_steps. Qed.
Hint Resolve keep_removeChannel : keep.
Lemma keep_unregister A c : c ∈ hs A → keep A (IoHandle_unregisterSelf c : D _) (λ _, True).
Proof. intros Hc. unfold IoHandle_unregisterSelf. keep_steps. Qed.
Lemma keep_register A c : c ∈ hs A → keep A (register c : D _) (λ _, True).
Proof.
  intros Hc. unfold register, EventReactor_addChannel, EventReactor_hasChannel, SysPoller_addChannel, IoHandle_setOwnerEventReactor.
  keep_steps.
Qed.
Hint Resolve keep_unregister keep_register : keep.
Lemma keep_write A resp i : i ∈ cs A → keep A (AgentChannel_write resp i : D _) (λ _, True).
Proof. intros Hi. unfold AgentChannel_write. keep_steps. Qed.
Lemma keep_channel_socket A i : i ∈ cs A → keep A (channel_socket i : D _) (λ e, e ∈ es A).
Proof.
  intros Hi. unfold channel_socket. keep_steps. eapply keep_weaken; [apply keep_deref|]. cbn. eauto with keep.
Qed.
Lemma keep_endpoint_pcb A i : i ∈ es A → keep A (endpoint_pcb i : D _) (λ p, p ∈ ss A).
Proof.
  intros Hi. unfold endpoint_pcb. keep_steps. eapply keep_weaken; [apply keep_deref|]. cbn. eauto with keep.
Qed.
Lemma keep_lock_endpoint A so : keep A (lock_endpoint so : D _) (λ e, e ∈ es A).
Proof.
  unfold lock_endpoint. apply keep_get_st. intros d Hd _. eapply keep_weaken; [apply keep_deref|]. intros e He.
  destruct so as [i|]; [|done]. cbn in He. destruct (endpoints d !! i) as [s|] eqn:Hi; [|done]. injection He as <-.
  rewrite <-Hd. by apply elem_of_dom.
Qed.
Hint Resolve keep_write keep_channel_socket keep_endpoint_pcb keep_lock_endpoint : keep.

Lemma keep_putToRecvQ A a k i : i ∈ es A → k ∈ fr A → keep A (Endpoint_putToRecvQ a k i : D _) (λ _, True).
Proof.
  intros Hi Hk. unfold Endpoint_putToRecvQ, Endpoint_markSChannelAsReadable. keep_steps.
  eapply keep_bind; [apply keep_put_endpoint; [done|]|keep_steps]. split_and!; [done|done|].
  intros x [Hx|Hx]%elem_of_app; [auto|]. apply list_elem_of_singleton in Hx as ->. done.
Qed.
Lemma keep_try_take A i : i ∈ es A → keep A (Endpoint_try_takeFromRecvQ i : D _) (λ o, ∀ x, o = Some x → x.2 ∈ fr A).
Proof.
  intros Hi. unfold Endpoint_try_takeFromRecvQ. eapply keep_bind; [by apply keep_the_endpoint|]. intros s (H1 & H2 & Hq).
  destruct (recvQ s) as [|x q] eqn:He; [by apply keep_ret|]. eapply keep_bind; [apply keep_put_endpoint; [done|]|].
  - split_and!; [done|done|]. intros y Hy. apply Hq. cbn in Hy. set_solver.
  - intros _ _. apply keep_ret. intros y [= <-]. apply Hq. set_solver.
Qed.
Lemma keep_take A i : i ∈ es A → keep A (Endpoint_takeFromRecvQ i : D _) (λ x, x.2 ∈ fr A).
Proof.
  intros Hi. unfold Endpoint_takeFromRecvQ. eapply keep_bind; [by apply keep_try_take|]. intros [x|] Hx; [|by apply keep_fail].
  apply keep_ret. by apply Hx.
Qed.
Hint Resolve keep_putToRecvQ : keep.
Lemma keep_drain_pipe A n fd : keep A (drain_pipe n fd : D _) (λ _, True).
Proof. induction n as [|n IH]; cbn [drain_pipe]; keep_steps. Qed.
Lemma keep_drain A k : k ∈ fr A → keep A (drain k : D _) (λ _, True).
Proof.
  intros Hk. unfold drain. eapply keep_bind; [apply keep_gets|]. intros n _.
  apply opt_in_some in Hk. revert Hk. generalize (@nil Z) as out. generalize (Some k) as h.
  induction n as [|n IH]; intros [i|] out Ho; cbn [drain_skbuf_chain]; keep_steps.
Qed.
Hint Resolve keep_drain_pipe keep_drain : keep.

(** ** Sessions *)

Lemma keep_udp_base A f i : i ∈ ss A → keep A (udp_base f i : D _) (λ _, True).
Proof.
  intros Hi. unfold udp_base. eapply keep_bind; [by apply keep_the_pcb|]. intros p Hp. keep_steps.
  eapply keep_bind; [apply (keep_put_pcb _ _ _ Hi); exact Hp|]. keep_steps.
Qed.
Lemma keep_tcp_base A f i : i ∈ ss A → keep A (tcp_base f i : D _) (λ _, True).
Proof.
  intros Hi. unfold tcp_base. eapply keep_bind; [by apply keep_the_pcb|]. intros p Hp. keep_steps.
  eapply keep_bind; [apply (keep_put_pcb _ _ _ Hi); exact Hp|]. keep_steps.
Qed.
Lemma keep_the_tcb A i : i ∈ ss A → keep A (the_tcb i : D _) (λ t, t_sChannel t ∈ hs A).
Proof.
  intros Hi. unfold the_tcb. eapply keep_bind; [by apply keep_the_pcb|]. intros p Hp.
  eapply keep_weaken; [apply keep_deref|]. intros t Ht. by apply Hp.
Qed.
Lemma keep_upd_tcb A i f : i ∈ ss A → (∀ t, t_sChannel (f t) = t_sChannel t) → keep A (upd_tcb i f : D _) (λ _, True).
Proof.
  intros Hi Hf. unfold upd_tcb. eapply keep_bind; [by apply keep_the_pcb|]. intros p Hp.
  eapply keep_bind; [apply keep_deref|]. intros t Ht. apply keep_put_pcb; [done|]. intros t' [= <-]. rewrite Hf. by apply Hp.
Qed.
Hint Resolve keep_udp_base keep_tcp_base keep_the_tcb : keep.
Hint Extern 2 (keep _ (upd_tcb _ _) _) => apply keep_upd_tcb; [|done] : keep.
Lemma keep_prepare A k buf i : k ∈ fr A → i ∈ ss A → keep A (TcpSession_prepareBeforeIpTx k buf i : D _) (λ _, True).
Proof. intros Hk Hi. unfold TcpSession_prepareBeforeIpTx. keep_steps. Qed.
Hint Resolve keep_prepare : keep.

(** A program that creates a frame and then only uses it. *)
Lemma grow_frame {X} A (k : nat → D X) : (∀ i B, within A B → i ∈ fr B → keep B (k i) (λ _, True)) →
  grow A (make_FrameBuf ≫= k) (λ _ _, True).
Proof.
  intros Hk. eapply grow_bind; [apply grow_make_FrameBuf|]. intros i B Hw Hi. apply (keep_grow B (k i) (λ _, True)); [by apply Hk|done].
Qed.
Lemma grow_after {X Y} A (m : D X) (k : X → D Y) Q R : keep A m Q → (∀ a, Q a → grow A (k a) R) → grow A (m ≫= k) R.
Proof.
  intros Hm Hk d Hd Hc. specialize (Hm d Hd Hc). unfold mbind, M_bind. destruct (m d) as [[a d1]|f]; [|done].
  destruct Hm as (? & ? & Ha). by apply (Hk a Ha d1).
Qed.
Lemma grow_get_st {Y} A (k : Daemon E → D Y) R :
  (∀ d, doms d = A → closed_in A d → grow A (k d) R) → grow A (get_st ≫= k) R.
Proof. intros Hk d Hd Hc. exact (Hk d Hd Hc d Hd Hc). Qed.
Lemma grow_gets_bind {X Y} A (f : Daemon E → X) (k : X → D Y) R :
  (∀ d, doms d = A → closed_in A d → grow A (k (f d)) R) → grow A (gets f ≫= k) R.
Proof. intros Hk d Hd Hc. exact (Hk d Hd Hc d Hd Hc). Qed.
Lemma within_ss A B i : within A B → i ∈ ss A → i ∈ ss B.
Proof. intros (_ & _ & _ & _ & Hs). apply Hs. Qed.
Lemma within_cs A B i : within A B → i ∈ cs A → i ∈ cs B.
Proof. intros (_ & _ & Hs & _). apply Hs. Qed.
Lemma within_es A B i : within A B → i ∈ es A → i ∈ es B.
Proof. intros (_ & _ & _ & Hs & _). apply Hs. Qed.

Lemma grow_UdpSession_send A buf i : i ∈ ss A → grow A (UdpSession_send buf i : D _) (λ _ _, True).
Proof.
  intros Hi. unfold UdpSession_send. eapply grow_after; [by apply keep_udp_base|]. intros _ _.
  eapply grow_after; [by apply keep_the_pcb|]. intros p Hp. apply grow_frame. intros k B Hw Hk. keep_steps.
Qed.
Lemma grow_UdpSession_send_to A a p buf i : i ∈ ss A → grow A (UdpSession_send_to a p buf i : D _) (λ _ _, True).
Proof.
  intros Hi. unfold UdpSession_send_to. do 2 (eapply grow_after; [by apply keep_udp_base|]; intros _ _).
  eapply grow_bind; [by apply grow_UdpSession_send|]. intros r B Hw _. apply (keep_grow B _ (λ _, True)); [|done].
  apply (within_ss _ _ _ Hw) in Hi. eapply keep_bind; [apply (keep_upd_pcb _ _ _ Hi); intros q Hq; exact Hq|]. keep_steps.
Qed.
Lemma grow_templ A i : i ∈ ss A → grow A (TcpSession_socketBufferOfTcpTempl i : D _) (λ k B, k ∈ fr B).
Proof.
  intros Hi. unfold TcpSession_socketBufferOfTcpTempl. eapply grow_after; [by apply keep_the_pcb|]. intros p Hp.
  eapply grow_bind; [apply grow_make_FrameBuf|]. intros k B Hw Hk. apply (keep_grow B _ (λ k, k ∈ fr B)); [|done].
  eapply keep_bind; [apply (keep_upd_frame B k); [done|intros; solve [clean_steps]]|]. intros _ _. by apply keep_ret.
Qed.
Lemma grow_ack2peer A v i : i ∈ ss A → grow A (TcpSession_ack2peer v i : D _) (λ _ _, True).
Proof.
  intros Hi. unfold TcpSession_ack2peer. eapply grow_bind; [by apply grow_templ|]. intros k B Hw Hk.
  apply (within_ss _ _ _ Hw) in Hi. apply (keep_grow B _ (λ _, True)); [|done]. keep_steps.
Qed.
Lemma grow_TcpSession_send A buf i : i ∈ ss A → grow A (TcpSession_send buf i : D _) (λ _ _, True).
Proof.
  intros Hi. unfold TcpSession_send. eapply grow_after; [by apply keep_tcp_base|]. intros _ _.
  eapply grow_bind; [by apply grow_templ|]. intros k B Hw Hk. apply (within_ss _ _ _ Hw) in Hi.
  apply (keep_grow B _ (λ _, True)); [|done]. unfold TcpSession_send_closed, TcpSession_send_estab. keep_steps.
Qed.
Lemma grow_TcpSession_connect A a p i : i ∈ ss A → grow A (TcpSession_connect a p i : D _) (λ _ _, True).
Proof.
  intros Hi. unfold TcpSession_connect. eapply grow_after; [by apply keep_tcp_base|]. intros _ _.
  eapply grow_bind; [by apply grow_TcpSession_send|]. intros r B Hw _. apply (keep_grow B _ (λ _, True)); [|done]. keep_steps.
Qed.
Lemma keep_connEstab A ch : keep A (connEstab ch : D _) (λ _, True).
Proof.
  unfold connEstab. apply keep_get_st. intros d Hd _. destruct (channels d !! ch) as [c|] eqn:Hc; [|keep_steps].
  assert (ch ∈ cs A) as Hch by (rewrite <-Hd; by apply elem_of_dom). keep_steps.
Qed.
Hint Resolve keep_connEstab : keep.
Lemma keep_fireConnEstab A i : i ∈ ss A → keep A (TcpSession_fireConnEstab i : D _) (λ _, True).
Proof. intros Hi. unfold TcpSession_fireConnEstab. keep_steps. Qed.
Hint Resolve keep_fireConnEstab : keep.
Lemma grow_recv_syn_sent A f i : i ∈ ss A → grow A (TcpSession_recv_syn_sent f i : D _) (λ _ _, True).
Proof.
  intros Hi. unfold TcpSession_recv_syn_sent. repeat (eapply grow_after; [solve [eauto with keep]|]; intros ? _).
  eapply grow_bind; [by apply grow_ack2peer|]. intros r B Hw _. apply (within_ss _ _ _ Hw) in Hi.
  apply (keep_grow B _ (λ _, True)); [|done]. keep_steps.
Qed.
Lemma grow_recv_estab A indet k i : k ∈ fr A → i ∈ ss A → grow A (TcpSession_recv_estab indet k i : D _) (λ _ _, True).
Proof.
  intros Hk Hi. unfold TcpSession_recv_estab. eapply grow_after; [by apply keep_the_frame|]. intros f Hf. cbv zeta.
  eapply grow_after; [solve [eauto with keep]|]. intros ack _.
  eapply (grow_after _ _ _ (λ _, True)).
  { destruct ack; [|keep_steps]. eapply keep_bind; [solve [eauto with keep]|]. intros v _. apply keep_upd_tcb; [done|].
    intros t. by destruct (send_unack t <? bswap32 v). }
  intros _ _. eapply grow_after; [solve [eauto with keep]|]. intros doff _.
  eapply grow_after; [apply keep_put_frame; [done|exact Hf]|]. intros _ _.
  eapply grow_after; [solve [eauto with keep]|]. intros n _.
  destruct (truth n); [|apply (keep_grow A _ (λ _, True)); [keep_steps|done]].
  eapply grow_after; [by apply keep_the_pcb|]. intros p Hp. eapply grow_after; [apply keep_lock_endpoint|]. intros so Hso.
  repeat (eapply grow_after; [solve [eauto with keep]|]; intros ? _). by apply grow_ack2peer.
Qed.

(** ** Receiving *)

Lemma found_alive A fa fp la lp (l : list nat) (d : Daemon E) i : doms d = A →
  Sessions_find (lock_session d) fa fp la lp l = Some i → i ∈ ss A.
Proof.
  intros <- Hf. unfold Sessions_find in Hf.
  destruct (find_loop_spec (lock_session d) fa fp la lp l None (-1)) as [[_ Hn]|(pre & j & post & k & _ & Hj & _ & _ & _ & Hs)].
  - by rewrite Hf in Hn.
  - rewrite Hf in Hs. injection Hs as ->. unfold score_of, lock_session in Hj. cbn in *.
    destruct (sessions d !! j) as [p|] eqn:Hp; [|done]. by apply elem_of_dom.
Qed.
Lemma keep_Udp_rx A k : k ∈ fr A → keep A (Udp_rx k : D _) (λ _, True).
Proof.
  intros Hk. unfold Udp_rx. eapply keep_bind; [by apply keep_the_frame|]. intros f Hf. cbv zeta.
  do 4 (eapply keep_bind; [solve [eauto with keep]|]; intros ? _). apply keep_get_st. intros d Hd _.
  destruct (Sessions_find _ _ _ _ _ _) as [i|] eqn:Hi; [|keep_steps]. apply (found_alive A) in Hi; [|done].
  unfold UdpSession_recv. keep_steps.
Qed.
Lemma grow_Tcp_rx A indet k : k ∈ fr A → grow A (Tcp_rx indet k : D _) (λ _ _, True).
Proof.
  intros Hk. unfold Tcp_rx. eapply grow_after; [by apply keep_the_frame|]. intros f Hf. cbv zeta.
  do 4 (eapply grow_after; [solve [eauto with keep]|]; intros ? _). apply grow_get_st. intros d Hd _.
  destruct (Sessions_find _ _ _ _ _ _) as [i|] eqn:Hi; [|apply (keep_grow A _ (λ _, True)); [keep_steps|done]].
  apply (found_alive A) in Hi; [|done]. unfold TcpSession_recv.
  eapply grow_after; [by apply keep_the_frame|]. intros f1 _. eapply grow_after; [by apply keep_the_tcb|]. intros t _.
  destruct (conn_state t); try (apply (keep_grow A _ (λ _, True)); [solve [keep_steps]|done]).
  - by apply grow_recv_syn_sent.
  - by apply grow_recv_estab.
Qed.
Hint Resolve keep_Udp_rx : keep.

(** ** Reassembly *)

Lemma keep_frag_offset A i : i ∈ fr A → keep A (frag_offset i : D _) (λ _, True).
Proof. intros Hi. unfold frag_offset, hdr16. keep_steps. Qed.
Hint Resolve keep_frag_offset : keep.
Lemma keep_insert_walk A n o prev curr : opt_in prev (fr A) → opt_in curr (fr A) →
  keep A (insert_walk n o prev curr : D _) (λ r, opt_in r.1 (fr A) ∧ opt_in r.2 (fr A)).
Proof.
  revert prev curr. induction n as [|n IH]; intros prev [c|] Hp Hc; cbn [insert_walk]; try (by apply keep_ret).
  - eapply keep_bind; [apply keep_frag_offset, Hc; reflexivity|]. intros v _. destruct (v <? o); [by apply keep_fail|by apply keep_ret].
  - assert (c ∈ fr A) as Hf by (by apply Hc). eapply keep_bind; [by apply keep_frag_offset|]. intros v _.
    destruct (v <? o); [|by apply keep_ret]. eapply keep_bind; [by apply keep_the_frame|]. intros f Hn.
    apply IH; [by apply opt_in_some|exact Hn].
Qed.
Lemma keep_defrag_insert A first k : opt_in first (fr A) → k ∈ fr A →
  keep A (defrag_insert first k : D _) (λ o, opt_in o (fr A)).
Proof.
  intros Ho Hk. unfold defrag_insert. eapply (keep_bind _ _ _ (λ _, True)).
  { destruct first as [i|]; [|keep_steps]. assert (i ∈ fr A) by (by apply Ho). keep_steps. }
  intros front _. destruct front.
  - eapply keep_bind; [by apply keep_the_frame|]. intros f Hf. eapply keep_bind; [by apply keep_put_frame|].
    intros _ _. apply keep_ret. by apply opt_in_some.
  - unfold hdr16. do 2 (eapply keep_bind; [solve [eauto with keep]|]; intros ? _).
    eapply keep_bind; [by apply keep_insert_walk|]. intros [prev curr] [Hp Hc]. cbn in Hp, Hc.
    eapply keep_bind; [apply keep_deref|]. intros p ->. assert (p ∈ fr A) as Hpf by (by apply Hp).
    eapply keep_bind; [by apply keep_the_frame|]. intros f Hf.
    eapply keep_bind; [apply keep_put_frame; [done|by apply opt_in_some]|]. intros _ _.
    eapply keep_bind; [by apply keep_the_frame|]. intros g Hg. eapply keep_bind; [by apply keep_put_frame|].
    intros _ _. by apply keep_ret.
Qed.
Lemma keep_contiguous A n curr o : opt_in curr (fr A) → keep A (contiguous n curr o : D _) (λ _, True).
Proof.
  revert curr o. induction n as [|n IH]; intros [c|] o Hc; cbn [contiguous]; try (by apply keep_ret); [by apply keep_fail|].
  assert (c ∈ fr A) by (by apply Hc). unfold hdr16, hdr_ihl. keep_steps.
Qed.
Lemma keep_last_of A n i : i ∈ fr A → keep A (last_of n i : D _) (λ r, r ∈ fr A).
Proof.
  revert i. induction n as [|n IH]; intros i Hi; cbn [last_of]; (eapply keep_bind; [by apply keep_the_frame|]; intros f Hf);
    destruct (next f) as [j|] eqn:Hn; try (by apply keep_ret); [by apply keep_fail|]. apply IH. by apply Hf.
Qed.
Lemma keep_adjust_rest A n curr : opt_in curr (fr A) → keep A (adjust_rest n curr : D _) (λ _, True).
Proof.
  revert curr. induction n as [|n IH]; intros [c|] Hc; cbn [adjust_rest]; try (by apply keep_ret); [by apply keep_fail|].
  assert (c ∈ fr A) by (by apply Hc). unfold hdr_ihl. keep_steps.
Qed.
Hint Resolve keep_contiguous keep_last_of keep_adjust_rest : keep.
Lemma keep_defrag_complete A i : i ∈ fr A → keep A (defrag_complete i : D _) (λ _, True).
Proof. intros Hi. unfold defrag_complete, hdr16, hdr_ihl. keep_steps. Qed.
Hint Resolve keep_defrag_complete : keep.

Definition groups_ok A (gs : list FragGroup) : Prop := ∀ g, g ∈ gs → opt_in (fg_first g) (fr A).
Lemma keep_set_groups A gs : groups_ok A gs → keep A (modify (set_defragCtxList (Some gs)) : D _) (λ _, True).
Proof.
  intros Hg. apply keep_modify. intros d Hd [? ? ? ? ? ?]. split; [exact Hd|]. constructor; try done.
  intros gs' g [= <-]. apply Hg.
Qed.
Lemma keep_defrag A k : k ∈ fr A → keep A (Reassembler_defrag k : D _) (λ o, opt_in o (fr A)).
Proof.
  intros Hk. unfold Reassembler_defrag, hdr16. do 4 (eapply keep_bind; [solve [eauto with keep]|]; intros ? _).
  apply keep_gets_bind. intros d Hd Hcl. eapply keep_bind; [apply keep_deref|]. intros gs Hgs.
  assert (groups_ok A gs) as Hok by (intros g Hg; by apply (cl_groups A d Hcl gs g)).
  destruct (match find_group a a0 a1 a2 gs with Some k => _ | None => _ end) as [gs' n] eqn:Hf.
  assert (groups_ok A gs') as Hok'.
  { destruct (find_group a a0 a1 a2 gs); injection Hf as <- _; [done|]. intros g [Hg|Hg]%elem_of_app; [by apply Hok|].
    apply list_elem_of_singleton in Hg as ->. apply opt_in_none. }
  eapply keep_bind; [apply keep_deref|]. intros c Hc.
  eapply keep_bind; [apply keep_defrag_insert; [|done]|].
  { apply Hok'. by apply (list_elem_of_lookup_2 _ n). }
  intros first Hfirst. cbv zeta. assert (groups_ok A (<[n := set_first first c]> gs')) as Hins.
  { intros g Hg. apply list_elem_of_lookup in Hg as [j [(_ & <- & _)|[_ Hj]]%list_lookup_insert_Some]; [done|].
    apply Hok'. by apply (list_elem_of_lookup_2 _ j). }
  eapply keep_bind; [by apply keep_set_groups|]. intros _ _. eapply keep_bind; [apply keep_deref|]. intros i ->.
  assert (i ∈ fr A) as Hi by (by apply Hfirst). eapply keep_bind; [by apply keep_defrag_complete|]. intros ok _.
  destruct ok; [|apply keep_ret, opt_in_none]. eapply keep_bind; [apply keep_set_groups|].
  - intros g Hg. apply Hins. by eapply list_elem_of_delete_inv.
  - intros _ _. apply keep_ret. by apply opt_in_some.
Qed.

Lemma grow_demultiplex A indet k packet p : k ∈ fr A → packet ∈ fr A → grow A (Ip_demultiplex indet k packet p : D _) (λ _ _, True).
Proof.
  intros Hk Hp. unfold Ip_demultiplex. do 3 (eapply grow_after; [solve [eauto with keep]|]; intros ? _).
  destruct a1; try (apply (keep_grow A _ (λ _, True)); [solve [keep_steps]|done]). by apply grow_Tcp_rx.
Qed.
Lemma keep_set_rxQ A q : (∀ k, Some k ∈ q → k ∈ fr A) → keep A (modify (set_rxQ q) : D _) (λ _, True).
Proof. intros Hq. apply keep_modify. intros d Hd [? ? ? ? ? ?]. split; [exact Hd|]. by constructor. Qed.
Lemma grow_Ip_turn A indet : grow A (Ip_turn indet : D _) (λ _ _, True).
Proof.
  unfold Ip_turn. apply grow_gets_bind. intros d Hd Hc. pose proof (cl_rxQ _ _ Hc) as Hrx.
  destruct (rxQ d) as [|o q]; [by apply (keep_grow A _ (λ _, True)); [apply keep_fail|]|].
  eapply grow_after; [apply keep_set_rxQ; intros k Hk; apply Hrx; set_solver|]. intros _ _.
  destruct o as [k|]; [|apply (keep_grow A _ (λ _, True)); [keep_steps|done]].
  assert (k ∈ fr A) as Hk by (apply Hrx; set_solver). unfold Ip_process.
  eapply grow_after; [by apply keep_the_frame|]. intros f Hf. do 2 (eapply grow_after; [solve [eauto with keep]|]; intros ? _).
  case_match; [apply (keep_grow A _ (λ _, True)); [keep_steps|done]|]. cbv zeta.
  eapply grow_after; [solve [eauto with keep]|]. intros frag _.
  eapply (grow_after _ _ _ (λ o, opt_in o (fr A))).
  { destruct frag; [by apply keep_defrag|apply keep_ret; by apply opt_in_some]. }
  intros [packet|] Hp; [|apply (keep_grow A _ (λ _, True)); [keep_steps|done]]. apply grow_demultiplex; [done|by apply Hp].
Qed.
Lemma grow_Interface_turn A : grow A (Interface_turn : D _) (λ _ _, True).
Proof.
  unfold Interface_turn. apply grow_frame. intros k B Hw Hk. unfold TunIface_rx, Ip_enRxQue. keep_steps.
  apply keep_modify. intros d Hd [? ? ? ? ? ?]. split; [exact Hd|]. constructor; try done. cbn. intros j. set_solver.
Qed.

(** ** Requests that create no endpoint *)

Lemma keep_setOnConnEstab A ch i : i ∈ ss A → keep A (Session_setOnConnEstabCB_v ch i : D _) (λ _, True).
Proof. intros Hi. unfold Session_setOnConnEstabCB_v, TcpSession_setOnConnEstabCB. keep_steps. Qed.
Lemma grow_connect_v A a p i : i ∈ ss A → grow A (Session_connect_v a p i : D _) (λ _ _, True).
Proof.
  intros Hi. unfold Session_connect_v. eapply grow_after; [by apply keep_the_pcb|]. intros q _.
  destruct (p_tcb q); [by apply grow_TcpSession_connect|apply (keep_grow A _ (λ _, True)); [keep_steps|done]].
Qed.
Lemma grow_send_v A buf i : i ∈ ss A → grow A (Session_send_v buf i : D _) (λ _ _, True).
Proof.
  intros Hi. unfold Session_send_v. eapply grow_after; [by apply keep_the_pcb|]. intros q _.
  destruct (p_tcb q); [by apply grow_TcpSession_send|by apply grow_UdpSession_send].
Qed.
Lemma grow_send_to_v A a p buf i : i ∈ ss A → grow A (Session_send_to_v a p buf i : D _) (λ _ _, True).
Proof.
  intros Hi. unfold Session_send_to_v. eapply grow_after; [by apply keep_the_pcb|]. intros q _.
  destruct (p_tcb q); [apply (keep_grow A _ (λ _, True)); [keep_steps|done]|by apply grow_UdpSession_send_to].
Qed.
(** The end of a handler that has created a frame. *)
Lemma grow_then_ret {X Y} A (m : D X) (g : X → Y) : grow A m (λ _ _, True) → grow A (x ← m; mret (g x)) (λ _ _, True).
Proof.
  intros Hm. eapply grow_bind; [exact Hm|]. intros x B _ _. apply (keep_grow B _ (λ _, True)); [by apply keep_ret|done].
Qed.
Lemma grow_connectCall A ch addr : ch ∈ cs A → grow A (connectCall ch addr : D _) (λ _ _, True).
Proof.
  intros Hch. unfold connectCall. eapply grow_after; [solve [eauto with keep]|]. intros [a p] _.
  eapply grow_after; [by apply keep_channel_socket|]. intros so Hso. eapply grow_after; [by apply keep_the_endpoint|]. intros s _.
  eapply grow_after; [by apply keep_endpoint_pcb|]. intros i Hi. destruct (ep_type s).
  - apply grow_then_ret. by apply grow_connect_v.
  - destruct (ep_nonblocking s); [apply (keep_grow A _ (λ _, True)); [keep_steps|done]|].
    eapply grow_after; [by apply keep_setOnConnEstab|]. intros _ _. apply grow_then_ret. by apply grow_connect_v.
Qed.
Lemma grow_sendtoCall A ch buf addr : ch ∈ cs A → grow A (sendtoCall ch buf addr : D _) (λ _ _, True).
Proof.
  intros Hch. unfold sendtoCall. eapply grow_after; [by apply keep_channel_socket|]. intros so Hso.
  eapply grow_after; [by apply keep_the_endpoint|]. intros s _. eapply grow_after; [by apply keep_endpoint_pcb|]. intros i Hi.
  apply grow_then_ret. destruct (ep_type s), addr as [addr|]; try by apply grow_send_v.
  eapply grow_after; [solve [eauto with keep]|]. intros [a p] _. by apply grow_send_to_v.
Qed.
Lemma keep_recvfromCall A ch ra : ch ∈ cs A → keep A (recvfromCall ch ra : D _) (λ _, True).
Proof.
  intros Hch. unfold recvfromCall, Endpoint_setOnAsyncNewPacketCB, Endpoint_setWaiting.
  eapply keep_bind; [by apply keep_channel_socket|]. intros so Hso. eapply keep_bind; [by apply keep_the_endpoint|]. intros s _.
  eapply keep_bind; [by apply keep_try_take|]. intros [[a k]|] Hx.
  - assert (k ∈ fr A) by (apply (Hx (a, k)); done). keep_steps.
  - destruct (ep_nonblocking s); [keep_steps|].
    do 2 (eapply keep_bind; [apply (keep_upd_endpoint _ _ _ Hso); intros p Hp; exact Hp|]; intros _ _). keep_steps.
Qed.
Lemma keep_atstart A ch pid n : ch ∈ cs A → keep A (atstartAction ch pid n : D _) (λ _, True).
Proof.
  intros Hch. unfold atstartAction, AgentChannel_setPeerName, AgentChannel_setPeerPid.
  do 2 (eapply keep_bind; [apply (keep_upd_channel _ _ _ Hch); intros p Hp; exact Hp|]; intros _ _). keep_steps.
Qed.
Lemma grow_handleRequest A ch req : ch ∈ cs A → (∀ dom ty pr, calling req ≠ Some (CallSocket dom ty pr)) →
  grow A (handleRequest ch req : D _) (λ _ _, True).
Proof.
  intros Hch Hreq. unfold handleRequest. destruct (calling req) as [[]|]; try (by exfalso; eapply Hreq);
    try (by apply grow_connectCall); try (by apply grow_sendtoCall);
    (apply (keep_grow A _ (λ _, True)); [|done]); try (by apply keep_recvfromCall); try (by apply keep_atstart).
  all: unfold closeCall, getpeernameCall, getsocknameCall, getsockoptCall, pollCall, selectCall, setsockoptCall, fcntlCall; keep_steps.
Qed.

(** ** Callbacks of endpoints and sessions *)

Lemma keep_answer_packet A ch ra : ch ∈ cs A → keep A (answer_packet ch ra : D _) (λ _, True).
Proof.
  intros Hch. unfold answer_packet. eapply keep_bind; [by apply keep_channel_socket|]. intros so Hso.
  eapply keep_bind; [by apply keep_take|]. intros [a k] Hk. cbn in Hk. keep_steps.
Qed.
Lemma keep_packet_cb A cb : keep A (run_packet_cb cb : D _) (λ _, True).
Proof.
  unfold run_packet_cb, onAsyncNewUdpPacket, onAsyncNewTcpPacket. destruct cb; apply keep_get_st; intros d Hd _; case_decide as Hc;
    try (by apply keep_ret); apply keep_answer_packet; rewrite <-Hd; by apply elem_of_dom.
Qed.
Lemma keep_endpoint_cb A n i : i ∈ es A → keep A (Endpoint_sChannelReadCb n i : D _) (λ _, True).
Proof.
  intros Hi. unfold Endpoint_sChannelReadCb. eapply keep_bind; [by apply keep_the_endpoint|]. intros s _.
  eapply keep_bind; [apply keep_drain_pipe|]. intros _ _. eapply keep_bind; [by apply keep_the_endpoint|]. intros s1 _.
  destruct (negb (waiting s1)); [by apply keep_ret|]. eapply (keep_bind _ _ _ (λ _, True)).
  - destruct (onAsyncNewPacket s1); [apply keep_packet_cb|by apply keep_ret].
  - intros _ _. by apply keep_upd_endpoint.
Qed.
Lemma keep_estab_cb A fuel p : p ∈ ss A → keep A (TcpSession_onEstabPipe fuel p : D _) (λ _, True).
Proof. intros Hp. unfold TcpSession_onEstabPipe. keep_steps. Qed.
End layers.
