(* ===== verification/Boot.v ===== *)
(** * Start-up and shutdown

    [CfgParser] (src/src/veloxd/CfgParser.cpp) over the options boost parsed,
    the log level of [LoggingInitializer] (src/src/veloxd/Logging.cpp), the TUN
    device and the listening socket, and [Veloxd::init]/[stop]/[exit]
    (src/src/veloxd/Veloxd.cpp). *)

From stdpp Require Import strings.
From S2P Require Import Prelude Csum16 Frame Session World Reactor Rpc Net Agent Dispatch.

(** The bytes of a string literal. *)
Definition text (s : string) : list Z := (λ c, Z.of_N (Ascii.N_of_ascii c)) <$> String.list_ascii_of_string s.

(** ** Configuration *)

(** The initialisers of [struct Conf]: src/src/veloxd/Conf.h:34-53. *)
Definition default_Conf : Conf :=
  mkConf (text "debug") false (text "/var/log/veloxd") [] (text "192.168.168.8/24")
    (text "192.168.168.10") (text "/etc/veloxd/veloxd.conf").

(** [Veloxd::exit_status]: src/src/veloxd/Veloxd.h:31-37. *)
Inductive exit_status : Set := SUCCESS | FAILURE | BAD_CMDLINE | BAD_CONF_FILE.

(** The options [readCmdLine] declares: src/src/veloxd/CfgParser.cpp:39-59. *)
Inductive cmd_option : Set :=
  | OptHelp | OptVersion | OptVerbose | OptConfig | OptLoggingLevel | OptLoggingDir
  | OptLoggingToStdout | OptTundevName | OptTundevAddr | OptStackAddr.

#[global] Instance cmd_option_eq_dec : EqDecision cmd_option.
Proof. solve_decision. Defined.

(** [po::variables_map]: the value of each option present ([count] is whether
    there is one). *)
Notation variables_map := (cmd_option → option (list Z)).

Definition set_logging_level (v : list Z) (c : Conf) : Conf :=
  mkConf v (logging_to_stdout c) (logging_dir c) (tundev_name c) (tundev_addr_cidr c) (stack_addr c) (conf_file c).
Definition set_logging_to_stdout (v : bool) (c : Conf) : Conf :=
  mkConf (logging_level c) v (logging_dir c) (tundev_name c) (tundev_addr_cidr c) (stack_addr c) (conf_file c).
Definition set_tundev_name (v : list Z) (c : Conf) : Conf :=
  mkConf (logging_level c) (logging_to_stdout c) (logging_dir c) v (tundev_addr_cidr c) (stack_addr c) (conf_file c).
Definition set_tundev_addr (v : list Z) (c : Conf) : Conf :=
  mkConf (logging_level c) (logging_to_stdout c) (logging_dir c) (tundev_name c) v (stack_addr c) (conf_file c).
Definition set_stack_addr (v : list Z) (c : Conf) : Conf :=
  mkConf (logging_level c) (logging_to_stdout c) (logging_dir c) (tundev_name c) (tundev_addr_cidr c) v (conf_file c).

(** [if (options.count(o)) ... = options[o].as<string>();] *)
Definition when (options : variables_map) (o : cmd_option) (f : list Z → Conf → Conf) (c : Conf) : Conf :=
  match options o with Some v => f v c | None => c end.

(** [CfgParser::readCmdLine] after parsing: src/src/veloxd/CfgParser.cpp:67-104. *)
Definition CfgParser_readCmdLine (options : variables_map) (c : Conf) : exit_status + Conf :=
  if bool_decide (is_Some (options OptHelp)) then inl SUCCESS else
  if bool_decide (is_Some (options OptVersion)) then inl SUCCESS else
  let c := when options OptLoggingLevel set_logging_level c in
  let c := when options OptLoggingToStdout (λ _, set_logging_to_stdout true) c in
  let c := when options OptTundevName set_tundev_name c in
  let c := when options OptTundevAddr set_tundev_addr c in
  let c := when options OptStackAddr set_stack_addr c in
  inr c.

(** [CfgParser::readConfFile]: src/src/veloxd/CfgParser.cpp:106-109. *)
Definition CfgParser_readConfFile (c : Conf) : Conf := c.

(** [Veloxd::readConf]: src/src/veloxd/Veloxd.cpp:105-118; [None]: boost threw. *)
Definition Veloxd_readConf (options : option variables_map) (c : Conf) : exit_status + Conf :=
  match options with
  | None => inl FAILURE
  | Some options =>
      match CfgParser_readCmdLine options c with
      | inl e => inl e
      | inr c => inr (CfgParser_readConfFile c)
      end
  end.

(** ** Logging *)

(** The severities the daemon uses, in order. *)
Inductive severity : Set := debug | info | warning | error | fatal.

(** [switch ( *lstr )] of [LoggingInitializer::run]:
    src/src/veloxd/Logging.cpp:140-163; [None]: it throws. *)
Definition logging_filter (level : list Z) : option severity :=
  match hd 0 level with
  | 100 => Some debug
  | 105 => Some info
  | 119 => Some warning
  | 101 => Some error
  | 102 => Some fatal
  | _ => None
  end.

(** Whether [c] is one of the separators of [path_to_filename]: slash and
    backslash. *)
Definition is_sep (c : Z) : bool := (c =? 47) || (c =? 92).

(** [details::path_to_filename]: src/src/veloxd/Logging.cpp:115-119: what
    follows the last separator. *)
Fixpoint path_to_filename (path : list Z) : list Z :=
  match path with
  | [] => []
  | c :: rest =>
      if existsb is_sep rest then path_to_filename rest
      else if is_sep c then rest else path
  end.

(** ** Shell commands *)

(** [ShellOp::ShellOp]: src/src/veloxd/base/ShellOp.cpp:29-36: [vsnprintf] into
    128 bytes keeps at most 127 characters of the formatted command. *)
Definition ShellOp_new (formatted : list Z) : list Z := take 127 formatted.

Section boot.
Context {E : Type} `{Kernel E}.

(** [ShellOp::run]: src/src/veloxd/base/ShellOp.cpp:39-47; the status of
    [system] is ignored. *)
Definition ShellOp_run (buf : list Z) : D E unit := kcall_ (k_system buf).

(** ** The TUN device *)

Definition O_RDWR : Z := 2.
Definition IFF_TUN : Z := 1.
Definition IFF_NO_PI : Z := 4096.

(** [TunIface::allocateTun]: src/src/veloxd/interface/TunIface.cpp:133-178.
    [_devname] is still null when a configured name is copied into it. *)
Definition TunIface_allocateTun : D E unit :=
  fd ← kcall (k_open (text "/dev/net/tun") O_RDWR);
  if fd <? 0 then fail ExitFailure else
  d ← get_st;
  _ ← (if negb (bool_decide (tundev_name (conf d) = []))
       then match devname d with None => fail NullDeref | Some _ => mret tt end
       else mret tt);
  '(rc, ifr_name) ← kcall (k_tunsetiff fd (Z.lor IFF_TUN IFF_NO_PI));
  if rc <? 0 then fail ExitFailure else
  _ ← modify (set_devname (Some ifr_name));
  modify (set_tunDev (Some fd)).

(** [TunIface::setIfUp]: src/src/veloxd/interface/TunIface.cpp:181-192. *)
Definition TunIface_setIfUp : D E unit :=
  n ← gets devname; n ← deref n;
  ShellOp_run (ShellOp_new (text "ip link set dev " ++ n ++ text " up")).

(** [TunIface::setIfAddr]: src/src/veloxd/interface/TunIface.cpp:195-207. *)
Definition TunIface_setIfAddr : D E unit :=
  n ← gets devname; n ← deref n;
  c ← gets conf;
  ShellOp_run (ShellOp_new (text "ip addr add dev " ++ n ++ text " local " ++ tundev_addr_cidr c)).

(** [TunIface::init]: src/src/veloxd/interface/TunIface.cpp:54-61. *)
Definition TunIface_init : D E unit :=
  _ ← TunIface_allocateTun; _ ← TunIface_setIfUp; TunIface_setIfAddr.

(** ** The listening socket *)

Definition AF_UNIX : Z := 1.
Definition SOCK_SEQPACKET : Z := 5.

Definition master_socket : list Z := text "/run/veloxd/master.socket".

(** [AgentHub::AgentHub]: src/src/veloxd/arbiter/agent/AgentHub.cpp:46-88. *)
Definition AgentHub_new : D E unit :=
  _ ← kcall_ (k_mkdir (text "/run/veloxd"));
  _ ← kcall_ (k_unlink master_socket);
  listenfd ← kcall (k_socket AF_UNIX (Z.lor SOCK_SEQPACKET SOCK_NONBLOCK) 0);
  ret ← kcall (k_bind listenfd master_socket);
  if ret =? -1 then fail ExitFailure else
  h ← IoHandle_new listenfd;
  _ ← IoHandle_setOnReadCB CbHubReadReady h;
  _ ← IoHandle_enableReading h;
  modify (set_hub (Some (listenfd, h))).

(** [AgentHub::listen]: src/src/veloxd/arbiter/agent/AgentHub.cpp:98-108. *)
Definition AgentHub_listen : D E unit :=
  h ← gets hub; h ← deref h;
  ret ← kcall (k_listen h.1 20);
  if ret =? -1 then fail ExitFailure else mret tt.

(** [Arbiter::init]: src/src/veloxd/arbiter/Arbiter.cpp:63-108. *)
Definition Arbiter_init : D E unit :=
  _ ← AgentHub_new;
  h ← gets hub; h ← deref h;
  register h.2.

(** ** [Veloxd] *)

(** [Veloxd::init] after [readConf]: src/src/veloxd/Veloxd.cpp:50-62;
    [initLogging] (lines 126-142) exits when the level is refused. *)
Definition Veloxd_init : D E unit :=
  c ← gets conf;
  match logging_filter (logging_level c) with
  | None => fail ExitFailure
  | Some _ =>
      _ ← TunIface_init;
      _ ← Ip_init;
      Arbiter_init
  end.

(** [Veloxd::stop]: src/src/veloxd/Veloxd.cpp:79-88. *)
Definition Veloxd_stop : D E unit :=
  _ ← Interface_stop; _ ← Ip_stop; _ ← EventReactor_stop; modify (set_running false).

(** [Arbiter::start] up to the turns of the loop:
    src/src/veloxd/arbiter/Arbiter.cpp:110-124. *)
Definition Arbiter_start : D E unit :=
  _ ← AgentHub_listen;
  modify (set_loop_stopflag false).

(** [Veloxd::run] up to the loops of the three threads:
    src/src/veloxd/Veloxd.cpp:65-76. *)
Definition Veloxd_run : D E unit :=
  _ ← modify (set_running true);
  Arbiter_start.

(** [Veloxd::exit]: src/src/veloxd/Veloxd.cpp:91-103: the process status. *)
Definition Veloxd_exit (e : exit_status) : D E Z :=
  r ← gets running;
  _ ← (if r : bool then Veloxd_stop else mret tt);
  mret (match e with SUCCESS => 0 | _ => 1 end).
End boot.

(** The state before [Veloxd::init]. *)
Definition fresh_daemon {E} (c : Conf) (e : E) : Daemon E :=
  mkDaemon c ∅ ∅ ∅ ∅ ∅ 0 [] [] 1024 1024 [] false None None false None None None [] [] false false false e.
