(* ===== verification/Process.v ===== *)
(** * The process

    [main] (src/src/veloxd/main.cpp), [Veloxd::init] and [Veloxd::run]
    (src/src/veloxd/Veloxd.cpp), and the life of the three threads
    [Interface::start], [Ip::start] and [Arbiter::start] create: when each
    begins, what it does before its first turn, when it ends, and how an exit
    in any of them ends the process. *)

From S2P Require Import Prelude Csum16 Frame Session World Reactor Rpc Net Agent Udp Tcp Reassembly IpRx Dispatch Arbiter Boot.

(** The points of [Veloxd::init] and [Veloxd::run] [main] can be at: before
    [Veloxd::init]; before each [start] of [Veloxd::run] (src/src/veloxd/Veloxd.cpp:65-76) that creates a thread (those
    of [Tcp] and [Udp] are empty); after [pthread_exit]. *)
Inductive main_pc : Set := MInit | MStartInterface | MStartIp | MStartArbiter | MExited.

(** A thread: not created; created, before its loop; about to test its stop
    flag; past the test, in the turn that starts with a call that may sleep;
    ended. *)
Inductive thread_state : Set := TAbsent | TCreated | THead | TBody | TEnded.

(** The event loop's thread is also found handling what epoll reported, with
    the handles that remain. *)
Inductive loop_state : Set := LThread (t : thread_state) | LHandling (cs : list nat).

Inductive who : Set := WMain | WInterface | WIp | WLoop.

#[global] Instance who_eq_dec : EqDecision who.
Proof. solve_decision. Defined.
#[global] Instance main_pc_eq_dec : EqDecision main_pc.
Proof. solve_decision. Defined.
#[global] Instance thread_state_eq_dec : EqDecision thread_state.
Proof. solve_decision. Defined.
#[global] Instance loop_state_eq_dec : EqDecision loop_state.
Proof. solve_decision. Defined.

(** The process; [status] is what it exited with. *)
Record Process (E : Type) : Type := mkProcess {
  main : main_pc;
  ifThread : thread_state;
  ipThread : thread_state;
  loopThread : loop_state;
  status : option Z;
  daemon : Daemon E
}.
Arguments mkProcess {E}. Arguments main {E}. Arguments ifThread {E}. Arguments ipThread {E}.
Arguments loopThread {E}. Arguments status {E}. Arguments daemon {E}.

(** [Veloxd::Veloxd], with the initialisers of [struct Conf] and no thread: the
    process the shell starts (src/src/veloxd/Veloxd.cpp:37-45), no thread. *)
Definition launch {E} (e : E) : Process E := mkProcess MInit TAbsent TAbsent (LThread TAbsent) None (fresh_daemon default_Conf e).

Section process.
Context {E : Type} `{Kernel E} `{Codec}.
Implicit Types p : Process E.

Definition with_daemon (d : Daemon E) p : Process E := mkProcess (main p) (ifThread p) (ipThread p) (loopThread p) (status p) d.
Definition with_main (m : main_pc) p : Process E := mkProcess m (ifThread p) (ipThread p) (loopThread p) (status p) (daemon p).
Definition with_if (t : thread_state) p : Process E := mkProcess (main p) t (ipThread p) (loopThread p) (status p) (daemon p).
Definition with_ip (t : thread_state) p : Process E := mkProcess (main p) (ifThread p) t (loopThread p) (status p) (daemon p).
Definition with_loop (t : loop_state) p : Process E := mkProcess (main p) (ifThread p) (ipThread p) t (status p) (daemon p).
Definition with_status (z : Z) p : Process E := mkProcess (main p) (ifThread p) (ipThread p) (loopThread p) (Some z) (daemon p).

(** [Veloxd::exit] in the daemon's state [d]: the process ends with its status. *)
Definition exit_process (e : exit_status) p : res (option (Process E)) :=
  '(z, d) ← Veloxd_exit e (daemon p);
  Ok (Some (with_status z (with_daemon d p))).

(** What a piece of a thread's code did: [Veloxd::exit(FAILURE)] inside it ends
    the process; a thread that would sleep in [wait_dequeue] does not move now.
    When the queue is filled the piece runs as a whole: of the event loop's
    callbacks only the reads that empty the notification pipe come before the
    sleep, and the model makes them after it. *)
Definition after_run (r : res (unit * Daemon E)) (k : Daemon E → Process E) p : res (option (Process E)) :=
  match r with
  | Ok (_, d) => Ok (Some (k d))
  | Fault ExitFailure => exit_process FAILURE p
  | Fault Sleeps => Ok None
  | Fault f => Fault f
  end.

(** [Veloxd::init]: src/src/veloxd/Veloxd.cpp:50-62; [options] is what boost
    parsed, or [None] where it threw. *)
Definition main_init (options : option (cmd_option → option (list Z))) p : res (option (Process E)) :=
  match Veloxd_readConf options (conf (daemon p)) with
  | inl e => exit_process e p
  | inr c => after_run (Veloxd_init (set_conf c (daemon p))) (λ d, with_main MStartInterface (with_daemon d p)) p
  end.

(** [main]: src/src/veloxd/main.cpp:22-30, with [Veloxd::run]:
    src/src/veloxd/Veloxd.cpp:65-76. *)
Definition main_step (options : option (cmd_option → option (list Z))) p : res (option (Process E)) :=
  match main p with
  | MInit => main_init options p
  | MStartInterface => Ok (Some (with_main MStartIp (with_if TCreated (with_daemon (set_running true (daemon p)) p))))
  | MStartIp => Ok (Some (with_main MStartArbiter (with_ip TCreated p)))
  | MStartArbiter => Ok (Some (with_main MExited (with_loop (LThread TCreated) p)))
  | MExited => Ok None
  end.

(** [while (!stopflag)]. *)
Definition loop_head (stopflag : bool) : thread_state := if stopflag then TEnded else TBody.

(** The thread of [Interface::start]: src/src/veloxd/interface/Interface.cpp:61-78. *)
Definition interface_step p : res (option (Process E)) :=
  match ifThread p with
  | TCreated => Ok (Some (with_if THead p))
  | THead => Ok (Some (with_if (loop_head (if_stopflag (daemon p))) p))
  | TBody => after_run (Interface_turn (daemon p)) (λ d, with_if THead (with_daemon d p)) p
  | _ => Ok None
  end.

Context (indet : list Z) (parse_partial : list Z → Request) (fuel : nat).

(** The thread of [Ip::start]: src/src/veloxd/ip/Ip.cpp:69-84, 159-163; it sleeps
    while the queue is empty. *)
Definition ip_step p : res (option (Process E)) :=
  match ipThread p with
  | TCreated => Ok (Some (with_ip THead p))
  | THead => Ok (Some (with_ip (loop_head (ip_stopflag (daemon p))) p))
  | TBody => after_run (Ip_turn indet (daemon p)) (λ d, with_ip THead (with_daemon d p)) p
  | _ => Ok None
  end.

(** The thread of [Arbiter::start]: src/src/veloxd/arbiter/Arbiter.cpp:111-124,
    with the body of [EventReactor::loop]: the poll, then one handle after the
    other, between which the other threads run.  [cbs] runs a callback while
    the handles it is given are being handled. *)
Definition loop_step (cbs : list nat → callback → D E unit) p : res (option (Process E)) :=
  match loopThread p with
  | LThread TCreated => after_run (Arbiter_start (daemon p)) (λ d, with_loop (LThread THead) (with_daemon d p)) p
  | LThread THead => Ok (Some (with_loop (LThread (loop_head (loop_stopflag (daemon p)))) p))
  | LThread TBody =>
      match SysPoller_poll (-1) (daemon p) with
      | Ok (actives, d) => Ok (Some (with_loop (LHandling actives) (with_daemon (set_loop_handing true d) p)))
      | Fault f => Fault f
      end
  | LHandling (c :: cs) =>
      after_run (IoHandle_handleEventsReceived (cbs (c :: cs)) c (daemon p)) (λ d, with_loop (LHandling cs) (with_daemon d p)) p
  | LHandling [] => Ok (Some (with_loop (LThread THead) (with_daemon (set_loop_handing false (daemon p)) p)))
  | _ => Ok None
  end.

(** One step of a thread of a live process; [None]: it has nothing to do. *)
Definition step_with (cbs : list nat → callback → D E unit) (options : option (cmd_option → option (list Z))) (w : who) p :
    res (option (Process E)) :=
  if bool_decide (is_Some (status p)) then Ok None else
  match w with
  | WMain => main_step options p
  | WInterface => interface_step p
  | WIp => ip_step p
  | WLoop => loop_step cbs p
  end.
Definition process_step : option (cmd_option → option (list Z)) → who → Process E → res (option (Process E)) :=
  step_with (λ _, run_cb parse_partial fuel).

(** The thread is in a call that returns when something happens outside the
    process: [read] on the TUN device, [epoll_wait] with timeout -1.  Its step is
    that call's return and what follows it; until then it sleeps, for ever if
    nothing happens. *)
Definition in_call (w : who) p : bool :=
  match w with
  | WInterface => bool_decide (ifThread p = TBody)
  | WLoop => bool_decide (loopThread p = LThread TBody)
  | _ => false
  end.
(** Nothing moves while the calls of the threads in [asleep] do not return. *)
Definition at_rest (options : option (cmd_option → option (list Z))) (asleep : who → bool) p : Prop :=
  ∀ w, process_step options w p = Ok None ∨ in_call w p = true ∧ asleep w = true.

(** [Veloxd::stop], called by some thread. *)
Definition stop_process p : res (Process E) :=
  '(_, d) ← Veloxd_stop (daemon p); Ok (with_daemon d p).

Inductive pstep (options : option (cmd_option → option (list Z))) : Process E → Process E → Prop :=
  | pstep_thread w p p' : process_step options w p = Ok (Some p') → pstep options p p'.

(** The threads take steps in the given order. *)
Fixpoint run_threads (options : option (cmd_option → option (list Z))) (ws : list who) p : res (Process E) :=
  match ws with
  | [] => Ok p
  | w :: ws => p' ← process_step options w p; match p' with Some p' => run_threads options ws p' | None => Fault OutOfFuel end
  end.
Lemma run_threads_rtc options ws p p' : run_threads options ws p = Ok p' → rtc (pstep options) p p'.
Proof.
  revert p. induction ws as [|w ws IH]; intros p Hr; cbn in Hr; [by injection Hr as ->|].
  destruct (process_step options w p) as [[p1|]|] eqn:Hs; [|done..]. eapply rtc_l; [by econstructor|by apply IH].
Qed.
End process.
