(* ===== verification/Flags.v ===== *)
(** * What no turn changes

    The stop flags of the three threads and [Veloxd::Impl::running] are written
    by start-up and [Veloxd::stop] only: every callback, handler and layer
    leaves them as they are. *)

From S2P Require Import Prelude Csum16 Frame Session World Reactor Rpc Net Agent Udp Tcp Reassembly IpRx Dispatch Arbiter Boot.

Section flagfix.
Context {E : Type}.
Implicit Types d : Daemon E.

Definition flags d : bool * bool * bool * bool := (if_stopflag d, ip_stopflag d, loop_stopflag d, running d).
Definition flagfix {A} (m : D E A) : Prop := ∀ d a d', m d = Ok (a, d') → flags d' = flags d.

Lemma flagfix_bind {A B} (m : D E A) (k : A → D E B) : flagfix m → (∀ a, flagfix (k a)) → flagfix (m ≫= k).
Proof. intros Hm Hk d b d' Hr. apply M_bind_inv in Hr as (a & d1 & H1 & H2). etrans; [by eapply Hk|by eapply Hm]. Qed.
Lemma flagfix_read {A} (m : D E A) : (∀ d a d', m d = Ok (a, d') → d' = d) → flagfix m.
Proof. by intros Hm d a d' ->%Hm. Qed.
Lemma flagfix_modify f : (∀ d, flags (f d) = flags d) → flagfix (modify f).
Proof. intros Hf d a d' [= _ <-]. apply Hf. Qed.
Lemma flagfix_lift {A} (r : res A) : flagfix (lift_res r).
Proof. apply flagfix_read. intros d a d'. unfold lift_res. destruct r; [|done]. by intros [= _ <-]. Qed.
Lemma flagfix_read_cell {A} (heap : Daemon E → gmap nat A) i : flagfix (read_cell heap i).
Proof. apply flagfix_read. intros d a d'. unfold read_cell. destruct (heap d !! i); [|done]. by intros [= _ <-]. Qed.
Lemma flagfix_kcall {A} (f : E → A * E) : flagfix (kcall f).
Proof. intros d a d'. unfold kcall. destruct (f (env d)). by intros [= _ <-]. Qed.
Lemma flagfix_fresh : flagfix fresh.
Proof. by intros d a d' [= _ <-]. Qed.
Lemma flagfix_ret {A} (a : A) : flagfix (mret a).
Proof. by intros d a' d' [= _ <-]. Qed.
Lemma flagfix_fail {A} f : flagfix (fail f : D E A).
Proof. by intros d a' d'. Qed.
Lemma flagfix_gets {A} (f : Daemon E → A) : flagfix (gets f).
Proof. by intros d a' d' [= _ <-]. Qed.
Lemma flagfix_get : flagfix get_st.
Proof. by intros d a' d' [= _ <-]. Qed.
End flagfix.

Create HintDb flagfix discriminated.
#[export] Hint Resolve flagfix_lift flagfix_read_cell flagfix_kcall flagfix_fresh flagfix_ret flagfix_fail flagfix_gets flagfix_get : flagfix.

(** Walk through a program, unfolding the definitions it calls. *)
Ltac flagfix :=
  repeat (intros; first
    [ solve [auto 1 with flagfix]
    | apply flagfix_modify; by intros ?
    | lazymatch goal with
      | |- flagfix (match ?x with _ => _ end) => destruct x
      | |- flagfix (mbind _ (match ?x with _ => _ end)) => destruct x
      | |- flagfix (mbind _ _) => apply flagfix_bind
      | |- flagfix ?m => let h := head_of m in progress unfold h
      end ]).

Section layers.
Context {E : Type} `{Kernel E} `{Codec}.
Notation D := (D E).

Lemma flagfix_tx_gather n curr bs : flagfix (tx_gather n curr bs : D _).
Proof. revert curr bs. induction n as [|n IH]; intros; cbn [tx_gather]; flagfix. Qed.
Hint Resolve flagfix_tx_gather : flagfix.
Lemma flagfix_drain_pipe n fd : flagfix (drain_pipe n fd : D _).
Proof. induction n as [|n IH]; cbn [drain_pipe]; flagfix. Qed.
Hint Resolve flagfix_drain_pipe : flagfix.
Lemma flagfix_insert_walk n o a b : flagfix (insert_walk n o a b : D _).
Proof. revert a b. induction n as [|n IH]; intros; cbn [insert_walk]; flagfix. Qed.
Lemma flagfix_contiguous n c o : flagfix (contiguous n c o : D _).
Proof. revert c o. induction n as [|n IH]; intros; cbn [contiguous]; flagfix. Qed.
Lemma flagfix_last_of n c : flagfix (last_of n c : D _).
Proof. revert c. induction n as [|n IH]; intros; cbn [last_of]; flagfix. Qed.
Lemma flagfix_adjust_rest n c : flagfix (adjust_rest n c : D _).
Proof. revert c. induction n as [|n IH]; intros; cbn [adjust_rest]; flagfix. Qed.
Lemma flagfix_drain_chain n h out : flagfix (drain_skbuf_chain n h out : D _).
Proof. revert h out. induction n as [|n IH]; intros; cbn [drain_skbuf_chain]; flagfix. Qed.
Hint Resolve flagfix_insert_walk flagfix_contiguous flagfix_last_of flagfix_adjust_rest flagfix_drain_chain : flagfix.

Lemma flagfix_Ip_tx k buf : flagfix (Ip_tx k buf : D _).
Proof. flagfix. Qed.
Hint Resolve flagfix_Ip_tx : flagfix.
Lemma flagfix_register c : flagfix (register c : D _).
Proof. flagfix. Qed.
Lemma flagfix_unregister c : flagfix (IoHandle_unregisterSelf c : D _).
Proof. flagfix. Qed.
Lemma flagfix_handle_delete c : flagfix (IoHandle_delete c : D _).
Proof. flagfix. Qed.
Lemma flagfix_write r ch : flagfix (AgentChannel_write r ch : D _).
Proof. flagfix. Qed.
Hint Resolve flagfix_register flagfix_unregister flagfix_handle_delete flagfix_write : flagfix.
Lemma flagfix_handleRequest ch req : flagfix (handleRequest ch req : D _).
Proof. flagfix. Qed.
Hint Resolve flagfix_handleRequest : flagfix.
Lemma flagfix_accept_loop n fd : flagfix (accept_loop n fd : D _).
Proof. induction n as [|n IH]; cbn [accept_loop]; flagfix. Qed.
Hint Resolve flagfix_accept_loop : flagfix.
Lemma flagfix_run_cb parse_partial fuel cb : flagfix (run_cb parse_partial fuel cb : D _).
Proof. flagfix. Qed.
Hint Resolve flagfix_run_cb : flagfix.
Lemma flagfix_poll_fds evs : flagfix (poll_fds evs : D _).
Proof. induction evs as [|[]]; cbn [poll_fds]; flagfix. Qed.
Lemma flagfix_poll_deliver evs : flagfix (poll_deliver evs : D _).
Proof. induction evs as [|[]]; cbn [poll_deliver]; flagfix. Qed.
Hint Resolve flagfix_poll_fds flagfix_poll_deliver : flagfix.

Lemma flagfix_poll n : flagfix (SysPoller_poll n : D _).
Proof. flagfix. Qed.
Lemma flagfix_handleEvents parse_partial fuel i : flagfix (IoHandle_handleEventsReceived (run_cb parse_partial fuel) i : D _).
Proof. flagfix. Qed.
Lemma flagfix_Interface_turn : flagfix (Interface_turn : D _).
Proof. flagfix. Qed.
Lemma flagfix_Ip_turn indet : flagfix (Ip_turn indet : D _).
Proof. flagfix. Qed.
Lemma flagfix_Veloxd_init : flagfix (Veloxd_init : D _).
Proof. flagfix. Qed.
End layers.
