(* ===== verification/Wakeful.v ===== *)
(** * Where a thread sleeps

    [wait_dequeue] is the one call of the daemon's code that sleeps on a queue:
    [Ip_turn] sleeps exactly when the IP layer's queue is empty, and nothing else
    the interface and IP threads do sleeps, nor does any request handler. *)

From S2P Require Import Prelude Csum16 Frame Session World Reactor Rpc Net Agent Udp Tcp Reassembly IpRx Dispatch.

Definition wakeful {A} (r : res A) : Prop := r ≠ Fault Sleeps.
Definition awake {E A} (m : D E A) : Prop := ∀ d, wakeful (m d).

Lemma wakeful_ok {A} (a : A) : wakeful (Ok a).
Proof. done. Qed.
Lemma wakeful_fault {A} f : f ≠ Sleeps → wakeful (Fault f : res A).
Proof. by intros Hf [= ->]. Qed.
Lemma wakeful_option {A} f (o : option A) : f ≠ Sleeps → wakeful (of_option f o).
Proof. intros Hf. destruct o; [done|by apply wakeful_fault]. Qed.
Lemma wakeful_bind {A B} (r : res A) (k : A → res B) : wakeful r → (∀ a, wakeful (k a)) → wakeful (r ≫= k).
Proof. intros Hr Hk. destruct r as [a|f]; [apply Hk|]. intros [= ->]. by apply Hr. Qed.

Section awake.
Context {E : Type}.
Lemma awake_bind {A B} (m : D E A) (k : A → D E B) : awake m → (∀ a, awake (k a)) → awake (m ≫= k).
Proof.
  intros Hm Hk d. unfold mbind, M_bind. specialize (Hm d). destruct (m d) as [[a d']|f]; [apply Hk|]. intros [= ->]. by apply Hm.
Qed.
Lemma awake_lift {A} (r : res A) : wakeful r → awake (lift_res r : D E A).
Proof. intros Hr d. unfold lift_res. destruct r; [done|]. intros [= ->]. by apply Hr. Qed.
Lemma awake_fail {A} f : f ≠ Sleeps → awake (fail f : D E A).
Proof. intros Hf d [= ->]. done. Qed.
Lemma awake_read_cell {A} (heap : Daemon E → gmap nat A) i : awake (read_cell heap i).
Proof. intros d. unfold read_cell. by destruct (heap d !! i). Qed.
Lemma awake_kcall {A} (f : E → A * E) : awake (kcall f).
Proof. intros d. unfold kcall. by destruct (f (env d)). Qed.
Lemma awake_ok {A} (m : D E A) : (∀ d, ∃ x, m d = Ok x) → awake m.
Proof. intros Hm d. by destruct (Hm d) as [x ->]. Qed.
End awake.

Create HintDb awake discriminated.
#[export] Hint Resolve wakeful_ok awake_read_cell awake_kcall : awake.
#[export] Hint Extern 1 (wakeful (of_option _ _)) => by apply wakeful_option : awake.
#[export] Hint Extern 1 (wakeful (Fault _)) => by apply wakeful_fault : awake.
#[export] Hint Extern 1 (awake (fail _)) => by apply awake_fail : awake.

(** Walk through a program, unfolding the definitions it calls. *)
Ltac awake :=
  repeat (intros; first
    [ solve [auto 1 with awake]
    | solve [apply awake_ok; intros ?; eexists; reflexivity]
    | lazymatch goal with
      | |- awake (lift_res _) => apply awake_lift
      | |- awake (match ?x with _ => _ end) => destruct x
      | |- awake (mbind _ (match ?x with _ => _ end)) => destruct x
      | |- awake (mbind _ _) => apply awake_bind
      | |- wakeful (match ?x with _ => _ end) => destruct x
      | |- wakeful (mbind _ _) => apply wakeful_bind
      | |- wakeful ?r => let h := head_of r in progress unfold h
      | |- awake ?m => let h := head_of m in progress unfold h
      end ]).

Section layers.
Context {E : Type} `{Kernel E} `{Codec}.
Notation D := (D E).

Lemma wakeful_csum_loop n mem p c s : wakeful (csum_loop n mem p c s).
Proof. revert p c s. induction n as [|n IH]; intros; cbn [csum_loop]; awake. Qed.
Lemma wakeful_csum_fold n s : wakeful (csum_fold n s).
Proof. revert s. induction n as [|n IH]; intros; cbn [csum_fold]; awake. Qed.
Hint Resolve wakeful_csum_loop wakeful_csum_fold : awake.
Lemma wakeful_iov_bytes l : wakeful (iov_bytes l).
Proof. induction l; cbn [iov_bytes]; awake. Qed.
Hint Resolve wakeful_iov_bytes : awake.
Lemma awake_tx_gather n curr bs : awake (tx_gather n curr bs : D _).
Proof. revert curr bs. induction n as [|n IH]; intros; cbn [tx_gather]; awake. Qed.
Hint Resolve awake_tx_gather : awake.
Lemma awake_insert_walk n o a b : awake (insert_walk n o a b : D _).
Proof. revert a b. induction n as [|n IH]; intros; cbn [insert_walk]; awake. Qed.
Lemma awake_contiguous n c o : awake (contiguous n c o : D _).
Proof. revert c o. induction n as [|n IH]; intros; cbn [contiguous]; awake. Qed.
Lemma awake_last_of n c : awake (last_of n c : D _).
Proof. revert c. induction n as [|n IH]; intros; cbn [last_of]; awake. Qed.
Lemma awake_adjust_rest n c : awake (adjust_rest n c : D _).
Proof. revert c. induction n as [|n IH]; intros; cbn [adjust_rest]; awake. Qed.
Hint Resolve awake_insert_walk awake_contiguous awake_last_of awake_adjust_rest : awake.
Lemma awake_Ip_tx k buf : awake (Ip_tx k buf : D _).
Proof. awake. Qed.
Hint Resolve awake_Ip_tx : awake.
Lemma awake_Ip_process indet k : awake (Ip_process indet k : D _).
Proof. awake. Qed.
Lemma awake_Interface_turn : awake (Interface_turn : D _).
Proof. awake. Qed.

Lemma awake_drain_chain n h out : awake (drain_skbuf_chain n h out : D _).
Proof. revert h out. induction n as [|n IH]; intros; cbn [drain_skbuf_chain]; awake. Qed.
Hint Resolve awake_drain_chain : awake.
Lemma awake_handleRequest ch req : awake (handleRequest ch req : D _).
Proof. awake. Qed.
Lemma awake_write resp ch : awake (AgentChannel_write resp ch : D _).
Proof. awake. Qed.

Lemma Ip_turn_sleeps indet d : Ip_turn indet d = Fault Sleeps ↔ rxQ d = [].
Proof.
  unfold Ip_turn. rewrite (M_bind_ok _ _ d (rxQ d) d) by done. destruct (rxQ d) as [|[k|] q]; [done| |done].
  split; [|done]. rewrite (M_bind_ok _ _ d tt (set_rxQ q d)) by done. intros Hs. by apply awake_Ip_process in Hs.
Qed.
End layers.
