(* ===== verification/Logging.v ===== *)
(** * Logging

    [VELOXD_LOG] (src/src/veloxd/Logging.h) and the record format
    (src/src/veloxd/Logging.cpp): the attributes of the calling thread, the
    severity filter, and the column with the source file and line, which the
    daemon writes into a buffer of its own.  Boost.Log's core is behind the
    class [LogCore]. *)

From stdpp Require Import strings.
From S2P Require Import Prelude World Boot.

(** ** Decimal digits, as [%d] prints them *)

Fixpoint digits_aux (fuel : nat) (n : Z) (acc : list Z) : list Z :=
  let acc := 48 + n mod 10 :: acc in
  if n <? 10 then acc else
  match fuel with
  | O => acc
  | S fuel => digits_aux fuel (n / 10) acc
  end.
(** A 32-bit number has at most ten digits. *)
Definition digits (n : Z) : list Z := digits_aux 10 n [].
Definition print_d (n : Z) : list Z := if n <? 0 then 45 :: digits (- n) else digits n.

(** [snprintf(buf + off, size, "%s", s)]: at most [size] - 1 characters and a
    NUL; the length it would have needed. *)
Definition snprintf (buf : list Z) (off : Z) (size : nat) (s : list Z) : res (Z * list Z) :=
  buf ← of_option OutOfBounds (store buf off (take (size - 1) s ++ [0]));
  Ok (Z.of_nat (length s), buf).

(** [constexpr int maxlen]: src/src/veloxd/Logging.cpp:84-85. *)
Definition maxlen : nat := 18 + 1 + 4.

(** [file_lineno_with_padding]: src/src/veloxd/Logging.cpp:74-109; [junk] is the
    byte [memset] leaves uninitialised. *)
Definition file_lineno_with_padding (junk : Z) (filename : list Z) (lineno : Z) : res (list Z) :=
  let padded := replicate maxlen 32 ++ [junk] in
  let nbytes_to_copy := Nat.min (length filename) 18 in
  padded ← of_option OutOfBounds (store padded 0 (take nbytes_to_copy filename));
  let i := Z.of_nat nbytes_to_copy in
  '(n, padded) ← snprintf padded i 6 (58 :: print_d lineno);
  let i := i + n in
  padded ← of_option OutOfBounds (store padded i [32]);
  let len := if 17 <? i then i else 17 in
  of_option OutOfBounds (slice padded 0 len).

(** ** The thread's attributes *)

(** The values the daemon stores: [mutable_constant<std::string>],
    [mutable_constant<int>], [constant<long>]. *)
Inductive attr : Set := AString (s : list Z) | AInt (n : Z) | ALong (n : Z).

(** What the daemon uses of [logging::core]: the attribute set of the calling
    thread, the filter, and the sink's formatter. *)
Class LogCore (L : Type) := {
  add_thread_attribute : string → attr → L → L;
  thread_attribute : string → L → option attr;
  set_attribute : string → attr → L → L;      (* through the shared [mutable_constant] *)
  set_filter : severity → L → L;
  passes : severity → L → bool;
  emit : list Z → L → L;                        (* a formatted record reaches the sink *)
  emitted : L → list (list Z);
  line_id : L → list Z;                         (* the next LineID, in decimal *)
  time_stamp : L → list Z
}.

(** [severity] as the formatter prints it, and its order. *)
Definition severity_name (s : severity) : list Z :=
  match s with debug => text "debug" | info => text "info" | warning => text "warning" | error => text "error" | fatal => text "fatal" end.
Definition severity_rank (s : severity) : nat := match s with debug => 1 | info => 2 | warning => 3 | error => 4 | fatal => 5 end.

(** Boost's documentation of these: adding an attribute whose name is in the
    set changes nothing; a filter is a threshold; only [emit] changes the sink. *)
Class LogCoreLaws (L : Type) `{LogCore L} := {
  add_same n a l : thread_attribute n (add_thread_attribute n a l) = Some (default a (thread_attribute n l));
  add_other n n' a l : n ≠ n' → thread_attribute n' (add_thread_attribute n a l) = thread_attribute n' l;
  add_passes n a s l : passes s (add_thread_attribute n a l) = passes s l;
  add_emitted n a l : emitted (add_thread_attribute n a l) = emitted l;
  set_same n a l : is_Some (thread_attribute n l) → thread_attribute n (set_attribute n a l) = Some a;
  set_other n n' a l : n ≠ n' → thread_attribute n' (set_attribute n a l) = thread_attribute n' l;
  set_passes n a s l : passes s (set_attribute n a l) = passes s l;
  set_emitted n a l : emitted (set_attribute n a l) = emitted l;
  filter_attribute n t l : thread_attribute n (set_filter t l) = thread_attribute n l;
  filter_passes s t l : passes s (set_filter t l) = (severity_rank t <=? severity_rank s)%nat;
  filter_emitted t l : emitted (set_filter t l) = emitted l;
  emit_emitted r l : emitted (emit r l) = emitted l ++ [r];
  emit_attribute n r l : thread_attribute n (emit r l) = thread_attribute n l;
  emit_passes s r l : passes s (emit r l) = passes s l
}.

Section logging.
Context {L : Type} `{LogCore L}.

(** [set_get_attrib<std::string>] and [set_get_attrib<int>]:
    src/src/veloxd/Logging.h:92-101.  [attribute_cast] of an absent attribute or
    of another type is an empty handle, and [set] goes through it. *)
Definition set_get_attrib (name : string) (value : attr) : M L attr := λ l,
  match thread_attribute name l, value with
  | Some (AString _), AString _ | Some (AInt _), AInt _ =>
      let l := set_attribute name value l in
      match thread_attribute name l with Some a => Ok (a, l) | None => Fault NullDeref end
  | _, _ => Fault NullDeref
  end.

(** [LoggingThreadInitializer::run]: src/src/veloxd/Logging.cpp:211-220. *)
Definition LoggingThreadInitializer_run (tid : Z) : M L unit := λ l,
  Ok (tt, add_thread_attribute "NativeThreadID" (ALong tid)
            (add_thread_attribute "Line" (AInt 0) (add_thread_attribute "File" (AString []) l))).

(** [LoggingInitializer::run], attributes and filter:
    src/src/veloxd/Logging.cpp:123-165; an unknown level throws. *)
Definition LoggingInitializer_run (level : list Z) (tid : Z) : M L unit := λ l,
  let l := add_thread_attribute "NativeThreadID" (ALong tid)
             (add_thread_attribute "Line" (AInt 0) (add_thread_attribute "File" (AString []) l)) in
  match logging_filter level with
  | Some t => Ok (tt, set_filter t l)
  | None => Fault ExitFailure
  end.

(** [Veloxd::initLogging]: src/src/veloxd/Veloxd.cpp:126-142; the exception of
    an unknown level is caught, and the process exits. *)
Definition Veloxd_initLogging (level : list Z) (tid : Z) : M L unit :=
  _ ← LoggingInitializer_run level tid; LoggingThreadInitializer_run tid.

(** [get_native_process_id]: src/src/veloxd/Logging.cpp:65-72. *)
Definition get_native_process_id (pid : option Z) : Z := default 0 pid.

(** The format [%1% [%2%] [P%3% T%4%] [%5%] <%6%> %7%]:
    src/src/veloxd/Logging.cpp:169-187. *)
Definition log_format (lineid stamp : list Z) (pid tid : option Z) (column : list Z) (sev : severity) (message : list Z) : list Z :=
  lineid ++ text " [" ++ stamp ++ text "] [P" ++ print_d (get_native_process_id pid) ++ text " T" ++ default [] (print_d <$> tid) ++
  text "] [" ++ column ++ text "] <" ++ severity_name sev ++ text "> " ++ message.

(** The record is opened, formatted and sent to the sink when the filter lets
    it pass. *)
Definition push_record (junk : Z) (pid : option Z) (sev : severity) (message : list Z) : M L unit := λ l,
  if passes sev l then
    match thread_attribute "File" l, thread_attribute "Line" l with
    | Some (AString f), Some (AInt n) =>
        column ← file_lineno_with_padding junk f n;
        let tid := match thread_attribute "NativeThreadID" l with Some (ALong t) => Some t | _ => None end in
        Ok (tt, emit (log_format (line_id l) (time_stamp l) pid tid column sev message) l)
    | _, _ => Fault NullDeref
    end
  else Ok (tt, l).

(** [VELOXD_LOG(sev) << message] at [__FILE__], [__LINE__]:
    src/src/veloxd/Logging.h:50-57.  The attributes are set first, in this order,
    whether or not the record passes the filter. *)
Definition VELOXD_LOG (junk : Z) (pid : option Z) (path : list Z) (line : Z) (sev : severity) (message : list Z) : M L unit :=
  _ ← set_get_attrib "File" (AString (path_to_filename path));
  _ ← set_get_attrib "Line" (AInt line);
  push_record junk pid sev message.
End logging.
