(* ===== verification/ReactorSpec.v ===== *)
(** * The reactor's operations

    The cell accesses every proof about the daemon runs, and the effect of the
    reactor's operations on the list of registered handles and on the kernel's
    interest list. *)

From S2P Require Import Prelude Frame Session World DScript Reactor.

(** Run the first (the last) action of a sequence by its lemma, the object's
    cell found in the state. *)
Ltac cell :=
  match goal with
  | |- _ !! _ = Some _ => first [eassumption | apply lookup_insert_eq]
  | |- p_tcb _ = Some _ => first [eassumption | reflexivity]
  end.
Tactic Notation "mrun" uconstr(lem) := erewrite M_bind_ok; [|eapply lem; [cell|try cell..]]; cycle 1.
Tactic Notation "mlast" uconstr(lem) := erewrite lem; [|cell|try cell..]; cycle 1.

Section reactor.
Context {E : Type} `{Kernel E}.
Implicit Types d : Daemon E.

(** ** Cells *)

Lemma read_cell_ok {A} (heap : Daemon E → gmap nat A) i a d :
  heap d !! i = Some a → read_cell heap i d = Ok (a, d).
Proof. intros Hi. unfold read_cell. by rewrite Hi. Qed.

Lemma lift_res_ok {A} (r : res A) a d : r = Ok a → lift_res r d = Ok (a, d).
Proof. by intros ->. Qed.

Lemma kcall_ok {A} (f : E → A * E) d : kcall f d = Ok ((f (env d)).1, set_env (f (env d)).2 d).
Proof. unfold kcall. by destruct (f (env d)). Qed.

Lemma upd_handle_ok i f h d : handles d !! i = Some h →
  upd_handle i f d = Ok (tt, set_handles (<[i := f h]> (handles d)) d).
Proof. intros Hi. unfold upd_handle. by mstep (read_cell_ok handles i h d Hi). Qed.

(** ** Registration *)

Definition epoll_del (fd : Z) d : Daemon E := set_env (k_epoll_ctl EPOLL_CTL_DEL fd 0 None (env d)).2 d.
Definition epoll_add (fd ev : Z) (c : nat) d : Daemon E :=
  set_env (k_epoll_ctl EPOLL_CTL_ADD fd ev (Some c) (env d)).2 d.

Lemma addChannel_eq c h d : handles d !! c = Some h →
  EventReactor_addChannel c d =
    Ok (tt, if decide (c ∈ loop_channels d) then d
            else set_loop_channels (loop_channels d ++ [c]) (epoll_add (io_fd h) (io_interested h) c d)).
Proof.
  intros Hc. unfold EventReactor_addChannel, EventReactor_hasChannel, SysPoller_addChannel.
  mstep (eq_refl : gets _ d = Ok (_, d)).
  destruct (decide (c ∈ loop_channels d)) as [Hin|Hin].
  - by rewrite bool_decide_eq_true_2.
  - rewrite bool_decide_eq_false_2 by done. cbn [negb].
    rewrite (M_bind_ok _ _ d tt (epoll_add (io_fd h) (io_interested h) c d)); [done|].
    mstep (read_cell_ok handles c h d Hc). by mstep (kcall_ok _ d).
Qed.

Lemma removeChannel_eq c h d : handles d !! c = Some h →
  EventReactor_removeChannel c d =
    Ok (tt, if decide (c ∈ loop_channels d)
            then set_loop_channels (erase_first c (loop_channels d)) (epoll_del (io_fd h) d) else d).
Proof.
  intros Hc. unfold EventReactor_removeChannel, EventReactor_hasChannel, SysPoller_removeChannel.
  mstep (eq_refl : gets _ d = Ok (_, d)).
  destruct (decide (c ∈ loop_channels d)) as [Hin|Hin].
  - rewrite bool_decide_eq_true_2 by done.
    rewrite (M_bind_ok _ _ d tt (epoll_del (io_fd h) d)); [done|].
    mstep (read_cell_ok handles c h d Hc). by mstep (kcall_ok _ d).
  - by rewrite bool_decide_eq_false_2.
Qed.

(** The state in which the handle [c] no longer belongs to the loop. *)
Definition detached (c : nat) (h : IoHandle) d : Daemon E :=
  if io_owner h then
    if decide (c ∈ loop_channels d)
    then set_loop_channels (erase_first c (loop_channels d)) (epoll_del (io_fd h) d) else d
  else d.

Lemma unregister_eq c h d : handles d !! c = Some h →
  IoHandle_unregisterSelf c d =
    Ok (tt, set_handles (<[c := set_io_owner false h]> (handles d)) (detached c h d)).
Proof.
  intros Hc. unfold IoHandle_unregisterSelf, detached.
  mstep (read_cell_ok handles c h d Hc). destruct (io_owner h).
  - mstep (removeChannel_eq c h d Hc).
    destruct (decide (c ∈ loop_channels d)); by rewrite (upd_handle_ok _ _ h).
  - rewrite (M_bind_ok _ _ d tt d) by done. by rewrite (upd_handle_ok _ _ h).
Qed.

Lemma delete_eq c h d : handles d !! c = Some h →
  IoHandle_delete c d = Ok (tt, set_handles (delete c (handles d)) (detached c h d)).
Proof.
  intros Hc. unfold IoHandle_delete, detached.
  mstep (read_cell_ok handles c h d Hc). destruct (io_owner h); [|done].
  mstep (removeChannel_eq c h d Hc). by destruct (decide (c ∈ loop_channels d)).
Qed.

Lemma detached_rest c h d :
  sessions (detached c h d) = sessions d ∧ endpoints (detached c h d) = endpoints d ∧
  channels (detached c h d) = channels d ∧ frames (detached c h d) = frames d ∧
  handles (detached c h d) = handles d ∧ next_id (detached c h d) = next_id d.
Proof. unfold detached. destruct (io_owner h); [|done]. by destruct (decide (c ∈ loop_channels d)). Qed.

Lemma elem_of_erase_first c x l : NoDup l → x ∈ erase_first c l ↔ x ∈ l ∧ x ≠ c.
Proof.
  induction 1 as [|y l Hy Hl IH]; [cbn; set_solver|]. cbn [erase_first].
  destruct (decide (y = c)) as [->|]; set_solver.
Qed.
Lemma NoDup_erase_first c l : NoDup l → NoDup (erase_first c l).
Proof.
  induction 1 as [|y l Hy Hl IH]; [constructor|]. cbn [erase_first].
  destruct (decide (y = c)) as [->|]; [done|]. constructor; [|done].
  by rewrite elem_of_erase_first; [naive_solver|].
Qed.
End reactor.
