(* ===== verification/AgentSpec.v ===== *)
(** * Endpoints and channels: the effect of each operation

    What putting a frame in an endpoint's queue and answering a channel do to
    the daemon, as equations the theorems about whole calls rewrite with. *)

From S2P Require Import Prelude Frame Session World Reactor Rpc Agent ReactorSpec.

Section agent.
Context {E : Type} `{Kernel E} `{Codec}.
Implicit Types d : Daemon E.

Definition with_pcb (i : nat) (p : Pcb) d : Daemon E := set_sessions (<[i := p]> (sessions d)) d.
Definition with_frame (k : nat) (f : FrameBuf) d : Daemon E := set_frames (<[k := f]> (frames d)) d.

Lemma with_pcb_id i p d : sessions d !! i = Some p → with_pcb i p d = d.
Proof. intros Hp. unfold with_pcb. rewrite insert_id by done. by destruct d. Qed.

Lemma upd_frame_ok k g f f' d : frames d !! k = Some f → g f = Ok f' →
  upd_frame k g d = Ok (tt, with_frame k f' d).
Proof.
  intros Hf Hg. unfold upd_frame. mstep (read_cell_ok frames k _ d Hf).
  by rewrite Hg.
Qed.

(** ** Answering a channel *)

(** The write of a response that is complete and fits. *)
Definition respond (resp : Response) (c : AgentChannel) : D E unit :=
  n ← kcall (k_write (ch_fd c) (response_pack resp));
  if n =? -1 then IoHandle_unregisterSelf (ch_sChannel c) else mret tt.

Lemma write_ok resp ch c d :
  channels d !! ch = Some c → is_Some (retcode resp) →
  length (response_pack resp) ≤ RPC_MESSAGE_MAX_SIZE →
  AgentChannel_write resp ch d = respond resp c d.
Proof.
  intros Hc Hr Hl. unfold AgentChannel_write, respond, IsInitialized.
  rewrite bool_decide_eq_true_2 by done.
  rewrite (M_bind_ok _ _ d tt d) by done. rewrite (M_bind_ok _ _ d tt d).
  2: { unfold assert_. by rewrite (proj2 (Z.leb_le _ _)). }
  by mstep (read_cell_ok channels ch c d Hc).
Qed.

(** ** The receive queue *)

(** [Endpoint::putToRecvQ] on an endpoint whose queue is not full, and on a
    full one. *)
Definition enqueued (so : nat) (ep : Endpoint) (x : list Z * nat) d : Daemon E :=
  if recvQlimit <? length (recvQ ep) then d else
  set_env (k_write (new_packet_notify_pipe ep).2 [49] (env d)).2
    (set_endpoints (<[so := set_recvQ (recvQ ep ++ [x]) ep]> (endpoints d)) d).

Lemma putToRecvQ_ok a k so ep d : endpoints d !! so = Some ep →
  Endpoint_putToRecvQ a k so d = Ok (tt, enqueued so ep (a, k) d).
Proof.
  intros Hep. unfold Endpoint_putToRecvQ, enqueued. mstep (read_cell_ok endpoints so ep d Hep).
  destruct (recvQlimit <? length (recvQ ep)); [done|].
  rewrite (M_bind_ok _ _ d tt (set_endpoints (<[so := set_recvQ (recvQ ep ++ [(a, k)]) ep]> (endpoints d)) d)) by done.
  unfold Endpoint_markSChannelAsReadable.
  erewrite M_bind_ok; [|apply read_cell_ok, lookup_insert_eq]. by mstep (kcall_ok _ _).
Qed.

Lemma enqueued_rest so ep x d :
  sessions (enqueued so ep x d) = sessions d ∧ idgenerator (enqueued so ep x d) = idgenerator d ∧
  tunDev (enqueued so ep x d) = tunDev d ∧ channels (enqueued so ep x d) = channels d ∧
  handles (enqueued so ep x d) = handles d ∧ frames (enqueued so ep x d) = frames d.
Proof. unfold enqueued. by destruct (recvQlimit <? length (recvQ ep)). Qed.

Lemma lock_endpoint_ok so d : is_Some (endpoints d !! so) → lock_endpoint (Some so) d = Ok (so, d).
Proof. intros [ep Hep]. unfold lock_endpoint. mstep (eq_refl : get_st d = Ok (d, d)). cbn. by rewrite Hep. Qed.
End agent.
