(* ===== verification/PacketSpec.v ===== *)
(** * What goes out on the wire

    The bytes the sessions hand to the TUN device, in closed form: a sent
    datagram or segment is one [writev] of a header with exactly the fields of
    RFC 791, 768 and 793 followed by the payload, and its checksums verify.  The
    stores into a frame are reduced to stores into the header alone (a window
    of the frame's bytes), which compute. *)

From S2P Require Import Prelude Csum16 Frame Session World DScript Reactor Rpc Net Agent Udp Tcp ReactorSpec.

(** ** Stores through a window *)

(** A frame's bytes with the header [h] at offset 40. *)
Definition wrap (h post : list Z) : list Z := replicate 40 0 ++ h ++ post.

Lemma store_window pre h post k bs h' :
  0 ≤ k → store h k bs = Some h' → store (pre ++ h ++ post) (length pre + k) bs = Some (pre ++ h' ++ post).
Proof.
  intros Hk (Ho & Hle & ->)%store_Some. apply store_Some.
  split; [lia|]. split; [rewrite !length_app; lia|].
  replace (Z.to_nat (length pre + k)) with (length pre + Z.to_nat k)%nat by lia.
  rewrite take_app_add, (take_app_le h) by lia.
  rewrite <-Nat.add_assoc, drop_app_add, (drop_app_le h) by lia.
  by rewrite <-!app_assoc.
Qed.

Lemma slice_window pre h post k n b :
  0 ≤ k → slice h k n = Some b → slice (pre ++ h ++ post) (length pre + k) n = Some b.
Proof.
  intros Hk (Hn & Ho & Hle & ->)%slice_Some. apply slice_Some.
  split; [done|]. split; [lia|]. split; [rewrite !length_app; lia|].
  replace (Z.to_nat (length pre + k)) with (length pre + Z.to_nat k)%nat by lia.
  rewrite drop_app_add, drop_app_le by lia. rewrite take_app_le; [done|]. rewrite length_drop. lia.
Qed.

Lemma wrap_store h post k bs h' :
  0 ≤ k → store h k bs = Some h' → store (wrap h post) (40 + k) bs = Some (wrap h' post).
Proof.
  intros Hk Hs. change 40 with (Z.of_nat (length (replicate 40 0))). by apply store_window.
Qed.

Lemma wrap_slice h post k n b : 0 ≤ k → slice h k n = Some b → slice (wrap h post) (40 + k) n = Some b.
Proof.
  intros Hk Hs. change 40 with (Z.of_nat (length (replicate 40 0))). by apply slice_window.
Qed.

Lemma drop_wrap h post : drop (Z.to_nat 40) (wrap h post) = h ++ post.
Proof. reflexivity. Qed.

Section wrap.
Context (x : option nat) (t nh b e ub ue : ptr) (h post : list Z).
Notation frame h := (mkFrame x t nh b e ub ue (wrap h post)).

(** A store through a pointer to [raw o] is one into the header. *)
Lemma st_wrap (w n : nat) o off v :
  o + off = 40 + n → Nat.leb (n + w) (length h) = true →
  st (λ l o v, store l o (le_bytes w v)) (frame h) (raw o) off v =
    Ok (frame (take n h ++ le_bytes w v ++ drop (n + w) h)).
Proof.
  intros He Hn%Nat.leb_le. unfold st. cbn [rawBytes]. rewrite He.
  rewrite (wrap_store h post n (le_bytes w v) (take n h ++ le_bytes w v ++ drop (n + w) h)); [done|lia|].
  apply store_Some. rewrite length_le_bytes, Nat2Z.id. split_and!; [lia|lia|done].
Qed.

Lemma st8_wrap (n : nat) o off v : o + off = 40 + n → Nat.leb (n + 1) (length h) = true →
  st8 (frame h) (raw o) off v = Ok (frame (take n h ++ le_bytes 1 v ++ drop (n + 1) h)).
Proof. apply (st_wrap 1). Qed.
Lemma st16_wrap (n : nat) o off v : o + off = 40 + n → Nat.leb (n + 2) (length h) = true →
  st16 (frame h) (raw o) off v = Ok (frame (take n h ++ le_bytes 2 v ++ drop (n + 2) h)).
Proof. apply (st_wrap 2). Qed.
Lemma st32_wrap (n : nat) o off v : o + off = 40 + n → Nat.leb (n + 4) (length h) = true →
  st32 (frame h) (raw o) off v = Ok (frame (take n h ++ le_bytes 4 v ++ drop (n + 4) h)).
Proof. apply (st_wrap 4). Qed.

Lemma ld8_wrap o off k v : o + off = 40 + k → 0 ≤ k → load8 h k = Some v →
  ld8 (frame h) (raw o) off = Ok v.
Proof.
  intros He Hk (bs & Hs & ->)%fmap_Some. unfold ld8, ld, load8.
  cbn [target rawBytes of_option mbind res_bind]. by rewrite He, (wrap_slice _ _ _ _ _ Hk Hs).
Qed.
End wrap.

(** Run one store or load of the code on a concrete header. *)
Ltac frame_step :=
  match goal with
  | |- context [st8 (mkFrame _ _ _ _ _ _ _ (wrap ?h _)) (raw ?o) ?off ?v] =>
      let n := eval vm_compute in (Z.to_nat (o + off - 40)) in
      rewrite (st8_wrap _ _ _ _ _ _ _ h _ n o off v eq_refl eq_refl)
  | |- context [st16 (mkFrame _ _ _ _ _ _ _ (wrap ?h _)) (raw ?o) ?off ?v] =>
      let n := eval vm_compute in (Z.to_nat (o + off - 40)) in
      rewrite (st16_wrap _ _ _ _ _ _ _ h _ n o off v eq_refl eq_refl)
  | |- context [st32 (mkFrame _ _ _ _ _ _ _ (wrap ?h _)) (raw ?o) ?off ?v] =>
      let n := eval vm_compute in (Z.to_nat (o + off - 40)) in
      rewrite (st32_wrap _ _ _ _ _ _ _ h _ n o off v eq_refl eq_refl)
  | |- context [ld8 (mkFrame _ _ _ _ _ _ _ (wrap ?h _)) (raw ?o) ?off] =>
      let k := eval vm_compute in (o + off - 40) in
      let r := eval vm_compute in (default 0 (load8 h k)) in
      rewrite (ld8_wrap _ _ _ _ _ _ _ h _ o off k r) by (reflexivity || done)
  end; cbn [mbind res_bind take drop app le_bytes Nat.add].

(** The two bytes of a 16-bit field in network order. *)
Definition be16 (v : Z) : list Z := le_bytes 2 (bswap16 (u16 v)).

(** ** UDP *)

(** The 28 bytes of IPv4 and UDP headers; addresses, ports and identification
    are the raw words the stack keeps. *)
Definition udp_header (id check : Z) (s : Session) (len : Z) : list Z :=
  [69; 0] ++ be16 (len + 28) ++ le_bytes 2 id ++ [0; 0; 64; 17] ++ le_bytes 2 check ++
  le_bytes 4 (laddr s) ++ le_bytes 4 (faddr s) ++
  le_bytes 2 (lport s) ++ le_bytes 2 (fport s) ++ be16 (len + 8) ++ [0; 0].

(** The frame [UdpSession::send] builds: its bytes. *)
Definition udp_buf (h : list Z) : FrameBuf :=
  mkFrame None (raw 60) (raw 40) (raw 40) (raw 68) nullptr nullptr (wrap h (replicate 1450 0)).

Lemma udp_frame_eq s len :
  udp_frame s len new_FrameBuf = Ok (udp_buf (0 :: drop 1 (udp_header 0 0 s len))).
Proof.
  unfold udp_frame, udp_buf.
  replace (store (rawBytes new_FrameBuf) 0 (replicate 68 0)) with (Some (wrap (replicate 28 0) (replicate 1450 0)))
    by (vm_compute; reflexivity).
  generalize (replicate 1450 0) as post. intros post. cbn [of_option mbind res_bind].
  change (replicate 28 0) with [0;0;0;0;0;0;0;0;0;0;0;0;0;0;0;0;0;0;0;0;0;0;0;0;0;0;0;0].
  cbv [set_rawBytes set_hdrs_begin set_network_hdr set_transport_hdr set_hdrs_end hdrs_begin
       network_hdr transport_hdr hdrs_end next user_payload_begin user_payload_end new_FrameBuf rawBytes ptr_add].
  do 12 frame_step. reflexivity.
Qed.

(** ** The IP header *)

(** The check field of a 20-byte header whose check field is zero. *)
Definition ip_check (h20 : list Z) : Z := 4294967295 - ones_rep (u32 (wsum h20)).

Lemma ip_header_eq id x t b e ub ue b1 b2 b3 b6 b7 b8 b9 s0 s1 s2 s3 d0 d1 d2 d3 post :
  let c := ip_check [69; b1; b2; b3; id mod 256; id / 256 mod 256; b6; b7; b8; b9; 0; 0;
                     s0; s1; s2; s3; d0; d1; d2; d3] in
  ip_header id (mkFrame x t (raw 40) b e ub ue
    (wrap [0; b1; b2; b3; 0; 0; b6; b7; b8; b9; 0; 0; s0; s1; s2; s3; d0; d1; d2; d3] post)) =
  Ok (mkFrame x t (raw 40) b e ub ue
    (wrap [69; b1; b2; b3; id mod 256; id / 256 mod 256; b6; b7; b8; b9;
           c mod 256; c / 256 mod 256; s0; s1; s2; s3; d0; d1; d2; d3] post)).
Proof.
  intros c. unfold ip_header, st_version, st_ihl, ld_ihl. cbn [network_hdr].
  do 6 frame_step. cbn [target rawBytes of_option mbind res_bind].
  match goal with |- context [checksum _ ?n 0] => change n with 20 end.
  rewrite checksum_eq by (rewrite drop_wrap, length_app; cbn [length]; lia).
  rewrite drop_wrap. cbn [mbind res_bind]. frame_step. done.
Qed.

Lemma ip_check_u16 h20 : bytes_ok h20 → length h20 = 20%nat →
  u16 (ip_check h20) = 65535 - ones_rep (wsum h20).
Proof.
  intros Hok Hl. unfold ip_check. pose proof (wsum_range h20 Hok) as Hr. rewrite Hl in Hr.
  change ((20%nat + 1) / 2) with 10 in Hr. rewrite u32_small by (unfold_ints; lia).
  pose proof (ones_rep_range (wsum h20)). int_lia.
Qed.

(** Filling the check field makes the header verify. *)
Lemma ip_check_valid b0 b1 b2 b3 b4 b5 b6 b7 b8 b9 s0 s1 s2 s3 d0 d1 d2 d3 :
  let h20 c0 c1 := [b0; b1; b2; b3; b4; b5; b6; b7; b8; b9; c0; c1; s0; s1; s2; s3; d0; d1; d2; d3] in
  let c := ip_check (h20 0 0) in
  bytes_ok (h20 0 0) → 0 < b0 → csum_valid (h20 (c mod 256) (c / 256 mod 256)).
Proof.
  intros h20 c Hok Hb0. unfold csum_valid.
  replace (wsum (h20 (c mod 256) (c / 256 mod 256))) with (wsum (h20 0 0) + u16 c)
    by (subst h20; cbn [wsum]; int_lia).
  subst c. rewrite ip_check_u16 by done. apply csum_fill.
  assert (bytes_ok (drop 1 (h20 0 0))) as Hok1 by (by apply Forall_drop).
  subst h20. cbn [wsum drop] in *. repeat (apply Forall_cons in Hok as [? Hok]). unfold in_u8 in *. lia.
Qed.

(** ** Handing a frame to the device *)

Section tx.
Context {E : Type} `{Kernel E}.

(** A frame without a successor goes out as one [writev] of its header and its
    payload. *)
Lemma TunIface_tx_single fd i t nh hdr post payload (d : Daemon E) :
  frames d !! i = Some (mkFrame None t nh (raw 40) (raw (40 + length hdr)) (str payload 0)
                          (str payload (length payload)) (wrap hdr post)) →
  TunIface_tx fd i d = kcall (k_writev fd [hdr; payload]) d.
Proof.
  intros Hf. unfold TunIface_tx, tx_fuel.
  rewrite (M_bind_ok _ _ d [mkIov (mkFrame None t nh (raw 40) (raw (40 + length hdr)) (str payload 0)
             (str payload (length payload)) (wrap hdr post)) (raw 40) (length hdr);
           mkIov (mkFrame None t nh (raw 40) (raw (40 + length hdr)) (str payload 0)
             (str payload (length payload)) (wrap hdr post)) (str payload 0) (length payload)] d).
  - rewrite (M_bind_ok _ _ d (Some [hdr; payload]) d); [done|].
    cbn [iov_bytes iov_len iov_frame iov_base]. unfold ld_bytes. cbn [target rawBytes].
    rewrite !(proj2 (Z.ltb_ge _ 0)) by lia. cbn [of_option mbind res_bind].
    rewrite <-(Z.add_0_r 40), (wrap_slice hdr post 0 (length hdr) hdr); [|done|].
    2: { apply slice_Some. split_and!; [lia|done|lia|]. by rewrite drop_0, Nat2Z.id, firstn_all. }
    cbn [of_option mbind res_bind].
    replace (slice payload 0 (length payload)) with (Some payload); [done|].
    symmetry. apply slice_Some. split_and!; [lia|done|lia|]. by rewrite drop_0, Nat2Z.id, firstn_all.
  - cbn [tx_gather]. mstep (read_cell_ok frames i _ d Hf).
    cbn [hdrs_begin hdrs_end user_payload_begin user_payload_end is_null negb andb].
    rewrite (M_bind_ok _ _ d tt d) by done. cbn [length app].
    change (iovcnt_max <=? 0%nat + 1) with false. cbv iota.
    cbn [ptr_diff]. rewrite (M_bind_ok _ _ d (Z.of_nat (length hdr)) d).
    2: { unfold lift_res. do 3 f_equal. lia. }
    rewrite decide_True by done.
    rewrite (M_bind_ok _ _ d (Z.of_nat (length payload)) d).
    2: { unfold lift_res. do 3 f_equal. lia. }
    done.
Qed.

(** [Ip::tx] on a frame whose IP header is filled in but for version, length,
    identification and check field. *)
Lemma Ip_tx_single i t f h h' post payload g fd (d : Daemon E) :
  f = mkFrame None t (raw 40) (raw 40) (raw (40 + length h)) nullptr nullptr (wrap h post) →
  frames d !! i = Some f → idgenerator d = Some g → tunDev d = Some fd →
  ip_header (IpIdGenerator_next g).1 f =
    Ok (mkFrame None t (raw 40) (raw 40) (raw (40 + length h)) nullptr nullptr (wrap h' post)) →
  length h' = length h →
  Ip_tx i payload d =
    Ok (tt, set_env (k_writev fd [h'; payload] (env d)).2
         (set_frames (<[i := mkFrame None t (raw 40) (raw 40) (raw (40 + length h)) (str payload 0)
                               (str payload (length payload)) (wrap h' post)]> (frames d))
         (set_idgenerator (Some (IpIdGenerator_next g).2) d))).
Proof.
  intros Hfe Hf Hg Ht Hh Hl. unfold Ip_tx.
  mstep (read_cell_ok frames i _ d Hf).
  rewrite (M_bind_ok _ _ d tt d) by (rewrite Hfe; done).
  rewrite (M_bind_ok _ _ d (Some g) d) by (by rewrite <-Hg).
  rewrite (M_bind_ok _ _ d g d) by done.
  destruct (IpIdGenerator_next g) as [id g'] eqn:Hn. cbn [fst snd] in *.
  rewrite (M_bind_ok _ _ d tt (set_idgenerator (Some g') d)) by done.
  set (d1 := set_idgenerator (Some g') d).
  rewrite Hh, (M_bind_ok _ _ d1 _ d1 (eq_refl : lift_res (Ok _) d1 = Ok (_, _))).
  cbv zeta. set (f2 := mkFrame None t (raw 40) (raw 40) (raw (40 + length h)) (str payload 0)
                               (str payload (length payload)) (wrap h' post)).
  rewrite (M_bind_ok _ _ d1 tt (set_frames (<[i := f2]> (frames d)) d1)) by done.
  set (d2 := set_frames (<[i := f2]> (frames d)) d1).
  unfold Interface_tx. rewrite (M_bind_ok _ _ d2 (Some fd) d2) by (by rewrite <-Ht).
  rewrite (M_bind_ok _ _ d2 fd d2) by done.
  assert (frames d2 !! i = Some f2) as Hf2 by apply lookup_insert_eq.
  unfold f2 in Hf2. rewrite <-Hl in Hf2.
  pose proof (TunIface_tx_single fd i _ _ h' post payload d2 Hf2) as Htx.
  unfold kcall in Htx. destruct (k_writev fd [h'; payload] (env d2)) as [n e'] eqn:Hw.
  mstep Htx. change (env d2) with (env d) in Hw. rewrite Hw. done.
Qed.
End tx.

Section udp.
Context {E : Type} `{Kernel E}.

Lemma udp_header_split id c s len : ∃ h8, udp_header id c s len = take 20 (udp_header id c s len) ++ h8.
Proof. eexists. symmetry. apply (take_drop 20). Qed.

(** The check field of a datagram's IP header. *)
Definition udp_check (id : Z) (s : Session) (len : Z) : Z := ip_check (take 20 (udp_header id 0 s len)).

Lemma udp_ip_header id s len :
  ip_header id (udp_buf (0 :: drop 1 (udp_header 0 0 s len))) =
    Ok (udp_buf (udp_header id (udp_check id s len) s len)).
Proof.
  unfold udp_buf. unfold wrap.
  change (0 :: drop 1 (udp_header 0 0 s len)) with
    (take 20 (0 :: drop 1 (udp_header 0 0 s len)) ++ drop 20 (udp_header 0 0 s len)).
  rewrite <-(app_assoc (take 20 _)).
  exact (ip_header_eq id None (raw 60) (raw 40) (raw 68) nullptr nullptr _ _ _ _ _ _ _ _ _ _ _ _ _ _ _
           (drop 20 (udp_header 0 0 s len) ++ replicate 1450 0)).
Qed.

Lemma udp_header_valid id s len :
  csum_valid (take 20 (udp_header id (udp_check id s len) s len)).
Proof.
  unfold udp_check. apply (ip_check_valid 69); [|lia].
  repeat (apply Forall_cons; split; [unfold in_u8; first [lia|apply Z.mod_pos_bound; lia]|]). apply Forall_nil_2.
Qed.

Lemma udp_base_eq (f : Session → Z → Z * Session * Z) i p (d : Daemon E) :
  sessions d !! i = Some p →
  udp_base f i d =
    let '(r, s, port) := f (p_base p) (udp_port d) in
    Ok (r, set_udp_port port (set_sessions (<[i := set_p_base s p]> (sessions d)) d)).
Proof.
  intros Hp. unfold udp_base. mstep (read_cell_ok sessions i _ d Hp).
  rewrite (M_bind_ok _ _ d (udp_port d) d) by done. by destruct (f (p_base p) (udp_port d)) as [[r s] port].
Qed.

(** The state after a datagram of [buf] went out for the session [i] whose
    base is now [s]. *)
Definition udp_sent (i : nat) (s : Session) (port : Z) (p : Pcb) (g : IpIdGenerator) (fd : Z)
    (buf : list Z) (d : Daemon E) : Daemon E :=
  let hdr := udp_header (IpIdGenerator_next g).1 (udp_check (IpIdGenerator_next g).1 s (length buf)) s (length buf) in
  set_env (k_writev fd [hdr; buf] (env d)).2
  (set_frames (<[next_id d := mkFrame None (raw 60) (raw 40) (raw 40) (raw 68) (str buf 0)
                                 (str buf (length buf)) (wrap hdr (replicate 1450 0))]> (frames d))
  (set_idgenerator (Some (IpIdGenerator_next g).2)
  (set_next_id (S (next_id d))
  (set_udp_port port (set_sessions (<[i := set_p_base s p]> (sessions d)) d))))).

Lemma UdpSession_send_eq buf i p g fd (d : Daemon E) r s port :
  sessions d !! i = Some p → idgenerator d = Some g → tunDev d = Some fd →
  Session_send (p_base p) (udp_port d) = (r, s, port) →
  UdpSession_send buf i d = Ok (i32 (length buf), udp_sent i s port p g fd buf d).
Proof.
  intros Hp Hg Ht Hs. unfold UdpSession_send.
  pose proof (udp_base_eq Session_send i p d Hp) as Hb. rewrite Hs in Hb.
  mstep Hb.
  set (d1 := set_udp_port port (set_sessions (<[i := set_p_base s p]> (sessions d)) d)).
  rewrite (M_bind_ok _ _ d1 (set_p_base s p) d1).
  2: { apply read_cell_ok. apply lookup_insert_eq. }
  set (d2 := set_frames (<[next_id d := new_FrameBuf]> (frames d)) (set_next_id (S (next_id d)) d1)).
  rewrite (M_bind_ok _ _ d1 (next_id d) d2) by done.
  cbn [p_base set_p_base].
  set (f := udp_buf (0 :: drop 1 (udp_header 0 0 s (length buf)))).
  set (d3 := set_frames (<[next_id d := f]> (frames d2)) d2).
  rewrite (M_bind_ok _ _ d2 tt d3).
  2: { unfold upd_frame. rewrite (M_bind_ok _ _ d2 new_FrameBuf d2).
       2: { apply read_cell_ok, lookup_insert_eq. }
       rewrite udp_frame_eq. done. }
  assert (frames d3 !! next_id d = Some f) as Hf by apply lookup_insert_eq.
  pose proof (Ip_tx_single (next_id d) (raw 60) f (0 :: drop 1 (udp_header 0 0 s (length buf))) 
    (udp_header (IpIdGenerator_next g).1 (udp_check (IpIdGenerator_next g).1 s (length buf)) s (length buf))
    (replicate 1450 0) buf g fd d3 eq_refl Hf Hg Ht (udp_ip_header _ s (length buf)) eq_refl) as Htx.
  mstep Htx. unfold mret, M_ret. do 2 f_equal.
  unfold udp_sent, d3, d2, d1. cbn [frames set_frames]. rewrite !insert_insert_eq. done.
Qed.
End udp.

(** ** TCP *)

(** The 20 bytes of a TCP header without options. *)
Definition tcp_header (check : Z) (s : Session) (seq ack flags : Z) : list Z :=
  le_bytes 2 (lport s) ++ le_bytes 2 (fport s) ++ le_bytes 4 (bswap32 seq) ++ le_bytes 4 (bswap32 ack) ++
  [80; flags] ++ le_bytes 2 (bswap16 4096) ++ le_bytes 2 check ++ [0; 0].

(** The IPv4 header in front of it. *)
Definition ip_tcp_header (id check : Z) (s : Session) (len : Z) : list Z :=
  [69; 0] ++ be16 (len + 40) ++ le_bytes 2 id ++ [0; 0; 64; 6] ++ le_bytes 2 check ++
  le_bytes 4 (laddr s) ++ le_bytes 4 (faddr s).

(** The pseudo header the TCP checksum covers (RFC 793), in the shape the code
    lays it out over the IP header. *)
Definition tcp_pseudo (s : Session) (len : Z) : list Z :=
  [0; 0; 0; 0; 0; 0; 0; 0; 0; 6] ++ be16 (len + 20) ++ le_bytes 4 (laddr s) ++ le_bytes 4 (faddr s).

Definition tcp_buf (ip tcp : list Z) : FrameBuf :=
  mkFrame None (raw 60) (raw 40) (raw 40) (raw 80) nullptr nullptr (wrap (ip ++ tcp) (replicate 1438 0)).

Definition zeros20 : list Z := [0;0;0;0;0;0;0;0;0;0;0;0;0;0;0;0;0;0;0;0].

Lemma tcp_template_eq s : tcp_template s new_FrameBuf = Ok (tcp_buf zeros20 (tcp_header 0 s 0 0 0)).
Proof.
  unfold tcp_template, tcp_buf.
  replace (store (rawBytes new_FrameBuf) 0 (replicate 120 0))
    with (Some (wrap (zeros20 ++ zeros20) (replicate 1438 0))) by (vm_compute; reflexivity).
  generalize (replicate 1438 0) as post. intros post. cbn [of_option mbind res_bind app zeros20].
  cbv [set_rawBytes set_hdrs_begin set_network_hdr set_transport_hdr set_hdrs_end hdrs_begin st_doff
       network_hdr transport_hdr hdrs_end next user_payload_begin user_payload_end new_FrameBuf rawBytes ptr_add].
  do 5 frame_step. reflexivity.
Qed.

(** The sum over the payload. *)
Lemma tcp_payload_sum buf : length buf < 2147483648 →
  (if truth (length buf) then csum_sum buf (i32 (length buf)) 0 else Ok 0) = Ok (u32 (wsum buf)).
Proof.
  intros Hl. destruct buf as [|b buf]; [done|]. set (bs := b :: buf) in *.
  replace (truth (length bs)) with true by done.
  rewrite i32_small by (unfold in_i32; lia). change 0 with (u32 0) at 1.
  rewrite csum_sum_spec by lia. by rewrite Nat2Z.id, firstn_all.
Qed.

(** The check field of a segment. *)
Definition tcp_check (s : Session) (seq ack flags : Z) (buf : list Z) : Z :=
  4294967295 - ones_rep (u32 (wsum (tcp_pseudo s (length buf) ++ tcp_header 0 s seq ack flags) + wsum buf)).

Lemma tcp_finish_eq s seq ack flags buf :
  length buf < 2147483648 →
  tcp_finish s buf (tcp_buf zeros20 (tcp_header 0 s seq ack flags)) =
    Ok (tcp_buf (0 :: drop 1 (ip_tcp_header 0 0 s (length buf)))
         (tcp_header (tcp_check s seq ack flags buf) s seq ack flags)).
Proof.
  intros Hl. unfold tcp_finish. rewrite tcp_payload_sum by done.
  unfold tcp_buf. generalize (replicate 1438 0) as post. intros post.
  cbn [network_hdr transport_hdr app zeros20 tcp_header le_bytes].
  do 4 frame_step. unfold ld_doff. frame_step. cbn [target rawBytes of_option mbind res_bind].
  match goal with |- context [checksum _ ?n _] => change n with 40 end.
  rewrite checksum_eq by (rewrite drop_wrap, length_app; cbn [length]; lia).
  rewrite drop_wrap.
  match goal with
  | |- context [4294967295 - ones_rep (u32 (i32 (u32 (wsum buf)) + wsum ?l))] =>
      change l with (tcp_pseudo s (length buf) ++ tcp_header 0 s seq ack flags)
  end.
  rewrite <-u32_add_l, u32_i32, u32_add_l by apply u32_range.
  rewrite (Z.add_comm (wsum buf)). fold (tcp_check s seq ack flags buf). cbn [mbind res_bind].
  do 5 frame_step. reflexivity.
Qed.

(** The check field of a segment's IP header, and the header itself. *)
Definition ip_tcp_check (id : Z) (s : Session) (len : Z) : Z := ip_check (ip_tcp_header id 0 s len).
Definition tcp_full_header (id : Z) (s : Session) (seq ack flags : Z) (buf : list Z) : list Z :=
  ip_tcp_header id (ip_tcp_check id s (length buf)) s (length buf) ++
  tcp_header (tcp_check s seq ack flags buf) s seq ack flags.

Lemma tcp_ip_header id s len tcp :
  ip_header id (tcp_buf (0 :: drop 1 (ip_tcp_header 0 0 s len)) tcp) =
    Ok (tcp_buf (ip_tcp_header id (ip_tcp_check id s len) s len) tcp).
Proof.
  unfold tcp_buf, wrap. rewrite <-!(app_assoc _ tcp).
  exact (ip_header_eq id None (raw 60) (raw 40) (raw 80) nullptr nullptr _ _ _ _ _ _ _ _ _ _ _ _ _ _ _
           (tcp ++ replicate 1438 0)).
Qed.

(** Both checksums of an emitted segment verify. *)
Lemma ip_tcp_valid id s len : csum_valid (ip_tcp_header id (ip_tcp_check id s len) s len).
Proof.
  apply (ip_check_valid 69); [|lia].
  repeat (apply Forall_cons; split; [unfold in_u8; first [lia|apply Z.mod_pos_bound; lia]|]). apply Forall_nil_2.
Qed.

Lemma tcp_valid s seq ack flags buf :
  bytes_ok buf → length buf ≤ 65535 → in_u8 flags →
  csum_valid (tcp_pseudo s (length buf) ++
              tcp_header (tcp_check s seq ack flags buf) s seq ack flags ++ buf).
Proof.
  intros Hb Hl Hfl. set (c := tcp_check s seq ack flags buf).
  set (h0 := tcp_pseudo s (length buf) ++ tcp_header 0 s seq ack flags).
  assert (wsum (tcp_pseudo s (length buf) ++ tcp_header c s seq ack flags ++ buf) = wsum h0 + wsum buf + u16 c) as Hw.
  { rewrite app_assoc, (wsum_app _ buf 20) by done.
    assert (wsum (tcp_pseudo s (length buf) ++ tcp_header c s seq ack flags) = wsum h0 + u16 c) as ->; [|lia].
    subst h0. unfold tcp_pseudo, tcp_header, be16. cbn [app le_bytes wsum]. int_lia. }
  assert (bytes_ok h0) as Hok.
  { repeat (apply Forall_cons; split; [first [exact Hfl|unfold in_u8; first [lia|apply Z.mod_pos_bound; lia]]|]).
    apply Forall_nil_2. }
  pose proof (wsum_range h0 Hok) as Hr. change (length h0) with 40%nat in Hr.
  change ((40%nat + 1) / 2) with 20 in Hr. pose proof (wsum_range buf Hb) as Hr2.
  assert (0 < wsum h0) as Hpos.
  { assert (bytes_ok (drop 10 h0)) as Hd by (by apply Forall_drop).
    pose proof (wsum_range _ Hd). change h0 with ([0;0;0;0;0;0;0;0;0;6] ++ drop 10 h0).
    rewrite (wsum_app _ _ 5) by done. cbn [wsum]. lia. }
  assert (65535 * ((length buf + 1) / 2) ≤ 65535 * 32768) as Hr3 by (dm_lia).
  unfold csum_valid. rewrite Hw. replace (u16 c) with (65535 - ones_rep (wsum h0 + wsum buf)).
  { apply csum_fill. lia. }
  subst c. unfold tcp_check. fold h0. rewrite u32_small by (unfold_ints; lia).
  pose proof (ones_rep_range (wsum h0 + wsum buf)). int_lia.
Qed.

(** ** Properties *)

(** What a UDP send puts on the wire: for a live UDP session, with the TUN
    device open, [UdpSession::send(buf)] returns the length of [buf] and makes
    one [writev] on the device of a 28-byte header and [buf].  The header has
    version 4, the total length, the generator's next identification, TTL 64,
    protocol 17, the session's addresses and ports (a local port is taken from
    the counter when there was none), the UDP length, a UDP check field of zero,
    and an IP checksum that verifies.  Nothing else of the daemon changes but
    the frame heap and the identification counter. *)
Theorem udp_datagram {E} `{Kernel E} buf i p g fd (d : Daemon E) :
  sessions d !! i = Some p → idgenerator d = Some g → tunDev d = Some fd → length buf < 2147483648 →
  ∃ hdr check d', 
    let '(_, s, port) := Session_send (p_base p) (udp_port d) in
    UdpSession_send buf i d = Ok (Z.of_nat (length buf), d') ∧
    env d' = (k_writev fd [hdr; buf] (env d)).2 ∧
    hdr = udp_header (IpIdGenerator_next g).1 check s (length buf) ∧ csum_valid (take 20 hdr) ∧
    sessions d' = <[i := set_p_base s p]> (sessions d) ∧ udp_port d' = port ∧
    endpoints d' = endpoints d ∧ channels d' = channels d ∧ handles d' = handles d ∧ rxQ d' = rxQ d.
Proof.
  intros Hp Hg Ht Hl. destruct (Session_send (p_base p) (udp_port d)) as [[r s] port] eqn:Hs.
  eexists _, _, _. rewrite (UdpSession_send_eq buf i p g fd d r s port Hp Hg Ht Hs).
  rewrite i32_small by (unfold in_i32; lia). split; [reflexivity|].
  split; [reflexivity|]. split; [reflexivity|]. split; [apply udp_header_valid|]. done.
Qed.

(** A session bound to 10.0.0.1:1234 that talks to 10.0.0.2:53. *)
Definition sample_session : Session := mkSession (le_val [10;0;0;2]) (le_val [0;53]) (le_val [10;0;0;1]) (le_val [4;210]) (Some 2%nat).

Lemma udp_datagram_witness :
  ∃ hdr d', UdpSession_send [104; 105] 1 (sample_daemon {[1%nat := mkPcb sample_session None]} ∅ ∅ ∅ quiet)
              = Ok (2, d') ∧
    hdr = [69;0;0;30;0;1;0;0;64;17;102;204;10;0;0;1;10;0;0;2;4;210;0;53;0;10;0;0] ∧
    ds_writes (env d') = [(5, hdr ++ [104; 105])].
Proof.
  destruct (udp_datagram [104; 105] 1 (mkPcb sample_session None) (mkIdGen 0) 5
              (sample_daemon {[1%nat := mkPcb sample_session None]} ∅ ∅ ∅ quiet))
    as (hdr & check & d' & Hs & He & _ & _); [reflexivity..|cbn; lia|].
  vm_compute in Hs. injection Hs as <-.
  eexists _, _. split; [vm_compute; reflexivity|]. split; [reflexivity|]. vm_compute. reflexivity.
Defined.
