(* ===== verification/TcpSpec.v ===== *)
(** * The TCP client

    The session's state machine over whole calls: what [connect], [send] and
    the arrival of a segment do to the control block, to the wire and to the
    waiting process.  Segments are the ones of PacketSpec.v, so every emitted
    header verifies. *)

From S2P Require Import Prelude Csum16 Frame Session World DScript Reactor Rpc Wire Net Agent Udp Tcp ReactorSpec AgentSpec PacketSpec.

Section tcp.
Context {E : Type} `{Kernel E} `{Codec}.
Implicit Types d : Daemon E.

Lemma the_tcb_ok i p t d : sessions d !! i = Some p → p_tcb p = Some t → the_tcb i d = Ok (t, d).
Proof.
  intros Hp Ht. unfold the_tcb. mstep (read_cell_ok sessions i _ d Hp).
  by rewrite Ht.
Qed.

Lemma upd_tcb_ok i f p t d : sessions d !! i = Some p → p_tcb p = Some t →
  upd_tcb i f d = Ok (tt, with_pcb i (set_p_tcb (Some (f t)) p) d).
Proof.
  intros Hp Ht. unfold upd_tcb. mstep (read_cell_ok sessions i _ d Hp).
  by rewrite Ht.
Qed.

Lemma tcp_base_eq (f : Session → Z → Z * Session * Z) i p d :
  sessions d !! i = Some p →
  tcp_base f i d =
    let '(r, s, port) := f (p_base p) (tcp_port d) in
    Ok (r, set_tcp_port port (with_pcb i (set_p_base s p) d)).
Proof.
  intros Hp. unfold tcp_base. mstep (read_cell_ok sessions i _ d Hp).
  rewrite (M_bind_ok _ _ d (tcp_port d) d) by done. by destruct (f (p_base p) (tcp_port d)) as [[r s] port].
Qed.

(** ** Building a segment *)

(** A segment's frame before [prepareBeforeIpTx]. *)
Definition seg (s : Session) (seq ack flags : Z) : FrameBuf := tcp_buf zeros20 (tcp_header 0 s seq ack flags).

Lemma templ_ok i p d : sessions d !! i = Some p →
  TcpSession_socketBufferOfTcpTempl i d =
    Ok (next_id d, with_frame (next_id d) (seg (p_base p) 0 0 0) (set_next_id (S (next_id d)) d)).
Proof.
  intros Hp. unfold TcpSession_socketBufferOfTcpTempl.
  mstep (read_cell_ok sessions i _ d Hp).
  set (d1 := with_frame (next_id d) new_FrameBuf (set_next_id (S (next_id d)) d)).
  rewrite (M_bind_ok _ _ d (next_id d) d1) by done.
  mstep (upd_frame_ok _ _ new_FrameBuf _ d1 (lookup_insert_eq _ _ _) (tcp_template_eq _)).
  unfold mret, M_ret, with_frame, d1. cbn. by rewrite insert_insert_eq.
Qed.

Lemma seg_seq s seq ack flags v :
  st32 (seg s seq ack flags) (raw 60) tcphdr_seq (bswap32 v) = Ok (seg s v ack flags).
Proof.
  unfold seg, tcp_buf. generalize (replicate 1438 0) as post. intros post.
  cbn [app zeros20 tcp_header le_bytes]. frame_step. reflexivity.
Qed.
Lemma seg_ack s seq ack flags v :
  st32 (seg s seq ack flags) (raw 60) tcphdr_ack_seq (bswap32 v) = Ok (seg s seq v flags).
Proof.
  unfold seg, tcp_buf. generalize (replicate 1438 0) as post. intros post.
  cbn [app zeros20 tcp_header le_bytes]. frame_step. reflexivity.
Qed.
Lemma seg_flag bit s seq ack :
  bit = tcp_syn_bit ∨ bit = tcp_ack_bit →
  st_tcp_flag bit (seg s seq ack 0) (raw 60) = Ok (seg s seq ack bit).
Proof.
  intros Hb. unfold st_tcp_flag, seg, tcp_buf. generalize (replicate 1438 0) as post. intros post.
  cbn [app zeros20 tcp_header le_bytes]. frame_step. destruct Hb as [->| ->]; frame_step; reflexivity.
Qed.

(** The state after a segment went out. *)
Definition emitted (k : nat) (s : Session) (seq ack flags : Z) (buf : list Z) (g : IpIdGenerator) (fd : Z) d
    : Daemon E :=
  let hdr := tcp_full_header (IpIdGenerator_next g).1 s seq ack flags buf in
  set_env (k_writev fd [hdr; buf] (env d)).2
  (with_frame k (mkFrame None (raw 60) (raw 40) (raw 40) (raw 80) (str buf 0) (str buf (length buf))
                   (wrap hdr (replicate 1438 0)))
  (set_idgenerator (Some (IpIdGenerator_next g).2) d)).

Lemma emit_then {A} (K : D E A) k i p s seq ack flags buf g fd d :
  sessions d !! i = Some p → p_base p = s →
  frames d !! k = Some (seg s seq ack flags) →
  idgenerator d = Some g → tunDev d = Some fd → length buf < 2147483648 →
  (_ ← TcpSession_prepareBeforeIpTx k buf i; _ ← Ip_tx k buf; K) d = K (emitted k s seq ack flags buf g fd d).
Proof.
  intros Hp <- Hf Hg Ht Hl. set (s := p_base p) in *.
  set (f1 := tcp_buf (0 :: drop 1 (ip_tcp_header 0 0 s (length buf)))
               (tcp_header (tcp_check s seq ack flags buf) s seq ack flags)).
  rewrite (M_bind_ok _ _ d tt (with_frame k f1 d)).
  2: { unfold TcpSession_prepareBeforeIpTx.
       mstep (read_cell_ok sessions i _ d Hp).
       apply (upd_frame_ok _ _ _ _ _ Hf). by apply tcp_finish_eq. }
  erewrite M_bind_ok; [|apply (Ip_tx_single k (raw 60) f1
    ((0 :: drop 1 (ip_tcp_header 0 0 s (length buf))) ++ tcp_header (tcp_check s seq ack flags buf) s seq ack flags)
    (tcp_full_header (IpIdGenerator_next g).1 s seq ack flags buf)
    (replicate 1438 0) buf g fd (with_frame k f1 d) eq_refl (lookup_insert_eq _ _ _) Hg Ht
    (tcp_ip_header _ _ _ _) eq_refl)].
  unfold emitted, with_frame. cbn [frames set_frames]. by rewrite insert_insert_eq.
Qed.

(** ** The sending half of the state machine *)

(** The control block after a [SYN], and after [n] bytes of data. *)
Definition tcb_syn_sent (t : Tcb) : Tcb :=
  set_conn_state TCP_STATE__SYN_SENT (set_send_next 2 (set_send_unack 1 t)).
Definition tcb_sent (n : Z) (t : Tcb) : Tcb := set_send_next (u32 (send_next t + n)) t.

Lemma send_closed_ok k i p t s d :
  sessions d !! i = Some p → p_tcb p = Some t → frames d !! k = Some (seg s 0 0 0) →
  TcpSession_send_closed k i d =
    Ok (tt, with_frame k (seg s 1 0 2) (with_pcb i (set_p_tcb (Some (tcb_syn_sent t)) p) d)).
Proof.
  intros Hp Ht Hf. unfold TcpSession_send_closed.
  mrun upd_tcb_ok. mrun the_tcb_ok. mrun upd_frame_ok; [apply seg_seq|].
  mrun upd_tcb_ok. mrun upd_frame_ok; [by apply seg_flag; left|].
  mlast upd_tcb_ok. unfold with_frame, with_pcb. cbn. by rewrite !insert_insert_eq.
Qed.

Lemma send_estab_ok buf k i p t s d :
  sessions d !! i = Some p → p_tcb p = Some t → frames d !! k = Some (seg s 0 0 0) →
  TcpSession_send_estab buf k i d =
    Ok (tt, with_frame k (seg s (send_next t) (recv_next t) 16)
              (with_pcb i (set_p_tcb (Some (tcb_sent (length buf) t)) p) d)).
Proof.
  intros Hp Ht Hf. unfold TcpSession_send_estab.
  mrun the_tcb_ok. mrun upd_frame_ok; [apply seg_seq|]. mrun upd_tcb_ok.
  mrun upd_frame_ok; [by apply seg_flag; right|].
  mlast upd_frame_ok; [apply seg_ack|]. unfold with_frame, with_pcb. cbn. by rewrite !insert_insert_eq.
Qed.

(** What the session [i] looks like once [TcpSession::send] has run its base
    method: bound, and with a template frame. *)
Definition send_base (i : nat) (p : Pcb) d : Daemon E :=
  let '(_, s, port) := Session_send (p_base p) (tcp_port d) in
  set_tcp_port port (with_pcb i (set_p_base s p) d).
Definition bound (p : Pcb) d : Session := (Session_send (p_base p) (tcp_port d)).1.2.
Lemma bound_eq p d : bound p d =
  let s := p_base p in
  mkSession (faddr s) (fport s) (laddr s) (if lport s =? 0 then bswap16 (u16 (tcp_port d + 1)) else lport s) (s_socket s).
Proof. unfold bound, Session_send. rewrite bind_eq. by destruct (p_base p) as [fa fp la lp so], (lp =? 0) eqn:Hl; cbn; rewrite Hl. Qed.

Lemma send_prefix {A} (K : nat → D E A) i p d :
  sessions d !! i = Some p →
  (_ ← tcp_base Session_send i; k ← TcpSession_socketBufferOfTcpTempl i; K k) d =
    K (next_id d) (with_frame (next_id d) (seg (bound p d) 0 0 0)
                     (set_next_id (S (next_id d)) (send_base i p d))).
Proof.
  intros Hp. unfold send_base, bound. pose proof (tcp_base_eq Session_send i p d Hp) as Hb.
  destruct (Session_send (p_base p) (tcp_port d)) as [[r s] port]. mstep Hb.
  by mrun templ_ok.
Qed.

Lemma sessions_send_base i p d :
  sessions (send_base i p d) = <[i := set_p_base (bound p d) p]> (sessions d).
Proof. unfold send_base, bound. by destruct (Session_send (p_base p) (tcp_port d)) as [[r s] port]. Qed.
Lemma send_base_rest i p d :
  env (send_base i p d) = env d ∧ idgenerator (send_base i p d) = idgenerator d ∧
  tunDev (send_base i p d) = tunDev d ∧ endpoints (send_base i p d) = endpoints d ∧
  channels (send_base i p d) = channels d ∧ handles (send_base i p d) = handles d ∧
  frames (send_base i p d) = frames d ∧ next_id (send_base i p d) = next_id d.
Proof. unfold send_base. by destruct (Session_send (p_base p) (tcp_port d)) as [[r s] port]. Qed.

(** The daemon after one segment of [s] went out: the control block is [t'],
    and nothing else but the counters and the frame heap changed, which keeps
    the frames it had. *)
Definition after_segment (i : nat) (s : Session) (t' : Tcb) (seq ack flags : Z) (buf : list Z)
    (g : IpIdGenerator) (fd : Z) d d' : Prop :=
  env d' = (k_writev fd [tcp_full_header (IpIdGenerator_next g).1 s seq ack flags buf; buf] (env d)).2 ∧
  sessions d' = <[i := mkPcb s (Some t')]> (sessions d) ∧
  idgenerator d' = Some (IpIdGenerator_next g).2 ∧ tunDev d' = Some fd ∧
  endpoints d' = endpoints d ∧ channels d' = channels d ∧ handles d' = handles d ∧
  ∀ k, (k < next_id d)%nat → frames d' !! k = frames d !! k.

Lemma TcpSession_send_ok buf i p t t' seq ack flags g fd d :
  sessions d !! i = Some p → p_tcb p = Some t →
  idgenerator d = Some g → tunDev d = Some fd → length buf < 2147483648 →
  (conn_state t = TCP_STATE__CLOSED ∧ t' = tcb_syn_sent t ∧ seq = 1 ∧ ack = 0 ∧ flags = 2 ∨
   conn_state t = TCP_STATE__ESTABLISHED ∧ t' = tcb_sent (length buf) t ∧
     seq = send_next t ∧ ack = recv_next t ∧ flags = 16) →
  ∃ d', TcpSession_send buf i d = Ok (Z.of_nat (length buf), d') ∧
        after_segment i (bound p d) t' seq ack flags buf g fd d d'.
Proof.
  intros Hp Ht Hg Htun Hl Hcase. unfold TcpSession_send. rewrite (send_prefix _ i p d Hp).
  destruct (send_base_rest i p d) as (He & Hg' & Ht' & Hep & Hch & Hh & Hfr & _).
  set (d1 := with_frame _ _ _).
  assert (sessions d1 !! i = Some (set_p_base (bound p d) p)) as Hp1.
  { subst d1. cbn. rewrite sessions_send_base. apply lookup_insert_eq. }
  mrun the_tcb_ok.
  assert (∀ k f pcb, sessions (with_frame k f (with_pcb i pcb d1)) = <[i := pcb]> (sessions d)) as Hs.
  { intros. subst d1. cbn. by rewrite sessions_send_base, insert_insert_eq. }
  assert (idgenerator d1 = Some g ∧ tunDev d1 = Some fd) as [Hg1 Ht1] by (subst d1; cbn; by rewrite Hg', Ht').
  destruct Hcase as [(Hc & -> & -> & -> & ->)|(Hc & -> & -> & -> & ->)]; rewrite Hc;
    [mrun send_closed_ok|mrun send_estab_ok].
  all: erewrite emit_then; [|cell|reflexivity|cell|done..]; eexists;
    (split; [unfold mret, M_ret; by rewrite i32_small by (unfold in_i32; lia)|]);
    unfold after_segment, emitted; cbn -[d1]; rewrite <-(Hs 0%nat (seg (bound p d) 0 0 0));
    subst d1; cbn; rewrite He, Ht', Hep, Hch, Hh, Hfr; split_and!; try done;
    intros k Hk; by rewrite !lookup_insert_ne by lia.
Qed.

(** In every other state [send] puts nothing on the wire and returns 0. *)
Lemma TcpSession_send_other buf i p t d :
  sessions d !! i = Some p → p_tcb p = Some t →
  conn_state t ≠ TCP_STATE__CLOSED → conn_state t ≠ TCP_STATE__ESTABLISHED →
  ∃ d', TcpSession_send buf i d = Ok (0, d') ∧ env d' = env d ∧
        sessions d' = <[i := set_p_base (bound p d) p]> (sessions d).
Proof.
  intros Hp Ht Hc He. unfold TcpSession_send. rewrite (send_prefix _ i p d Hp).
  destruct (send_base_rest i p d) as (Hev & _).
  set (d1 := with_frame _ _ _).
  assert (sessions d1 = <[i := set_p_base (bound p d) p]> (sessions d)) as Hs1
    by (subst d1; cbn; apply sessions_send_base).
  assert (sessions d1 !! i = Some (set_p_base (bound p d) p)) as Hp1 by (rewrite Hs1; apply lookup_insert_eq).
  mrun the_tcb_ok. exists d1. destruct (conn_state t); done.
Qed.

(** ** The receiving half *)

Lemma ack2peer_ok value i p t g fd d :
  sessions d !! i = Some p → p_tcb p = Some t → idgenerator d = Some g → tunDev d = Some fd →
  ∃ d', TcpSession_ack2peer value i d = Ok (tt, d') ∧
        after_segment i (p_base p) t (send_next t) value 16 [] g fd d d'.
Proof.
  intros Hp Ht Hg Htun. unfold TcpSession_ack2peer. mrun templ_ok. mrun the_tcb_ok.
  erewrite M_bind_ok; [|eapply upd_frame_ok; [cell|]]; cycle 1.
  { erewrite seg_flag by (by right). cbn [mbind res_bind]. erewrite seg_ack. cbn [mbind res_bind]. apply seg_seq. }
  set (d1 := with_frame _ _ _).
  assert (frames d1 !! next_id d = Some (seg (p_base p) (send_next t) value 16)) as Hf1 by apply lookup_insert_eq.
  pose proof (emit_then (mret tt) (next_id d) i p (p_base p) (send_next t) value 16 [] g fd d1
                Hp eq_refl Hf1 Hg Htun ltac:(cbn; lia)) as Hem.
  eexists. split.
  - revert Hem. unfold mbind, M_bind, mret, M_ret.
    destruct (TcpSession_prepareBeforeIpTx (next_id d) [] i d1) as [[[] d2]|]; [|done].
    by destruct (Ip_tx (next_id d) [] d2) as [[[] d3]|].
  - unfold after_segment. split_and!; try done.
    + cbn. rewrite insert_id; [done|]. rewrite Hp. f_equal. destruct p as [b tc]; cbn in *. by subst.
    + intros k Hk. cbn. by rewrite !lookup_insert_ne by lia.
Qed.

(** The control block of [SYN_SENT] after the peer's [SYN]+[ACK] of raw
    sequence number [w]. *)
Definition tcb_established (w : Z) (t : Tcb) : Tcb :=
  set_conn_state TCP_STATE__ESTABLISHED (set_send_unack (u32 (send_unack t + 1))
    (set_recv_next (u32 (bswap32 w + 1)) (set_irs (bswap32 w) t))).

Lemma recv_syn_sent_ok f i p t w g fd d :
  sessions d !! i = Some p → p_tcb p = Some t → idgenerator d = Some g → tunDev d = Some fd →
  ld_tcp_flag tcp_syn_bit f (transport_hdr f) = Ok true →
  ld_tcp_flag tcp_ack_bit f (transport_hdr f) = Ok true →
  ld32 f (transport_hdr f) tcphdr_seq = Ok w →
  ∃ d1, after_segment i (p_base p) (tcb_established w t) (send_next t) (u32 (bswap32 w + 1)) 16 [] g fd d d1 ∧
        TcpSession_recv_syn_sent f i d =
          match onConnEstabCB t with Some ch => connEstab ch d1 | None => Ok (tt, d1) end.
Proof.
  intros Hp Ht Hg Htun Hsyn Hack Hw. unfold TcpSession_recv_syn_sent.
  mstep (lift_res_ok _ _ d Hsyn). mstep (lift_res_ok _ _ d Hack).
  mstep (eq_refl : assert_ (true && true) d = Ok (tt, d)). mstep (lift_res_ok _ _ d Hw).
  mrun upd_tcb_ok. mrun upd_tcb_ok. mrun upd_tcb_ok. mrun the_tcb_ok. set (d0 := with_pcb i _ _).
  set (p' := set_p_tcb (Some (tcb_established w t)) p).
  assert (sessions d0 = <[i := p']> (sessions d)) as Hs0
    by (subst d0; unfold with_pcb; cbn; by rewrite !insert_insert_eq).
  assert (sessions d0 !! i = Some p') as Hp0 by (rewrite Hs0; apply lookup_insert_eq).
  edestruct (ack2peer_ok (u32 (bswap32 w + 1)) i p' _ g fd d0 Hp0 eq_refl Hg Htun)
    as (d1 & He & (Hen & Hs & Hg' & Ht' & Hep & Hch & Hh)).
  assert (sessions d1 = <[i := mkPcb (p_base p) (Some (tcb_established w t))]> (sessions d)) as Hs1
    by (rewrite Hs, Hs0; cbn; by rewrite insert_insert_eq).
  exists d1. split; [done|].
  assert (sessions d1 !! i = Some (mkPcb (p_base p) (Some (tcb_established w t)))) as Hp1
    by (rewrite Hs1; apply lookup_insert_eq).
  mstep He. unfold TcpSession_fireConnEstab. mrun the_tcb_ok. cbn. by destruct (onConnEstabCB t).
Qed.


Definition connected : Response := mkResponse (Some RC_OK) (Some (RetConnect (mkRet 0 None))).

Lemma connEstab_ok ch c so ep i p t h d :
  channels d !! ch = Some c → ch_socket c = Some so → endpoints d !! so = Some ep →
  ep_pcb ep = Some i → sessions d !! i = Some p → p_tcb p = Some t → handles d !! t_sChannel t = Some h →
  length (response_pack connected) ≤ RPC_MESSAGE_MAX_SIZE →
  connEstab ch d =
    respond connected c (set_handles (<[t_sChannel t := set_io_owner false h]> (handles d))
                           (detached (t_sChannel t) h d)).
Proof.
  intros Hc Hso Hep Hpcb Hp Ht Hh Hl. unfold connEstab, channel_socket, endpoint_pcb.
  mstep (eq_refl : get_st d = Ok (d, d)). rewrite Hc.
  rewrite (M_bind_ok _ _ d so d) by (mstep (read_cell_ok channels ch c d Hc); by rewrite Hso).
  rewrite (M_bind_ok _ _ d i d) by (mstep (read_cell_ok endpoints so ep d Hep); by rewrite Hpcb).
  mstep (read_cell_ok sessions i p d Hp). rewrite Ht. rewrite (M_bind_ok _ _ d t d) by done.
  mstep (unregister_eq _ h d Hh). apply write_ok; [|done|done].
  cbn [channels set_handles]. by destruct (detached_rest (t_sChannel t) h d) as (_ & _ & -> & _).
Qed.

(** The control block after a data segment: the acknowledgement [ack] it
    carries (if it has one), then the next byte expected. *)
Definition tcb_acked (ack : option Z) (t : Tcb) : Tcb :=
  match ack with
  | Some a => if send_unack t <? bswap32 a then set_send_unack (bswap32 a) t else t
  | None => t
  end.

Lemma recv_estab_ok indet k f i p t ack w doff n so ep g fd d :
  frames d !! k = Some f → sessions d !! i = Some p → p_tcb p = Some t →
  idgenerator d = Some g → tunDev d = Some fd →
  ld_tcp_flag tcp_ack_bit f (transport_hdr f) = Ok (bool_decide (is_Some ack)) →
  (∀ a, ack = Some a → ld32 f (transport_hdr f) tcphdr_ack_seq = Ok a) →
  ld_doff f (transport_hdr f) = Ok doff →
  ptr_diff (user_payload_end f) (ptr_add (transport_hdr f) (doff * 4)) = Ok n → n ≠ 0 →
  ld32 f (transport_hdr f) tcphdr_seq = Ok w →
  s_socket (p_base p) = Some so → endpoints d !! so = Some ep →
  let d1 := enqueued so ep (indet, k) (with_frame k (set_user_payload_begin (ptr_add (transport_hdr f) (doff * 4)) f) d) in
  let t' := set_recv_next (u32 (bswap32 w + n)) (tcb_acked ack t) in
  ∃ d', TcpSession_recv_estab indet k i d = Ok (tt, d') ∧
        after_segment i (p_base p) t' (send_next t) (u32 (bswap32 w + n)) 16 [] g fd d1 d'.
Proof.
  intros Hf Hp Ht Hg Htun Hack Hackv Hdoff Hn Hn0 Hw Hso Hep d1 t'. unfold TcpSession_recv_estab.
  mstep (read_cell_ok frames k f d Hf). mstep (lift_res_ok _ _ d Hack).
  set (p0 := set_p_tcb (Some (tcb_acked ack t)) p). set (d0 := with_pcb i p0 d).
  rewrite (M_bind_ok _ _ d tt d0).
  2: { destruct ack as [a|]; cbn [tcb_acked] in *.
       - rewrite bool_decide_eq_true_2 by done. mstep (lift_res_ok _ _ d (Hackv a eq_refl)). by mlast upd_tcb_ok.
       - rewrite bool_decide_eq_false_2 by (by intros [? ?]). 
         subst d0. rewrite with_pcb_id; [done|]. subst p0. rewrite <-Ht. by destruct p. }
  mstep (lift_res_ok _ _ d0 Hdoff). cbv zeta. set (f' := set_user_payload_begin _ f) in *.
  rewrite (M_bind_ok _ _ d0 tt (with_frame k f' d0)) by done.
  mstep (lift_res_ok _ _ _ Hn). replace (truth n) with true by (symmetry; unfold truth; by rewrite (proj2 (Z.eqb_neq n 0))).
  assert (sessions (with_frame k f' d0) !! i = Some p0) as Hp0 by apply lookup_insert_eq.
  mstep (read_cell_ok sessions i p0 _ Hp0). change (p_base p0) with (p_base p). rewrite Hso.
  mstep (lock_endpoint_ok so (with_frame k f' d0) (mk_is_Some _ _ Hep)).
  mstep (putToRecvQ_ok indet k so ep (with_frame k f' d0) Hep). mstep (lift_res_ok _ _ _ Hw).
  assert (enqueued so ep (indet, k) (with_frame k f' d0) = with_pcb i p0 d1) as ->
    by (subst d1; unfold enqueued; by destruct (recvQlimit <? length (recvQ ep))).
  mrun upd_tcb_ok. mrun the_tcb_ok.
  destruct (enqueued_rest so ep (indet, k) (with_frame k f' d)) as (Hs1 & Hg1 & Ht1 & _). fold d1 in Hs1, Hg1, Ht1.
  set (p1 := set_p_tcb _ _). set (d2 := with_pcb i p1 _).
  assert (sessions d2 !! i = Some p1) as Hp2 by apply lookup_insert_eq.
  destruct (ack2peer_ok (u32 (bswap32 w + n)) i p1 t' g fd d2 Hp2 eq_refl
              (eq_trans Hg1 Hg) (eq_trans Ht1 Htun)) as (d' & Hd' & Hen & Hs & Hrest).
  exists d'. split; [exact Hd'|]. unfold after_segment. split; [|split; [|exact Hrest]].
  - rewrite Hen. cbn. subst t'. cbn. by destruct ack; cbn; [destruct (send_unack t <? bswap32 z)|].
  - rewrite Hs. subst d2. unfold with_pcb. cbn. by rewrite !insert_insert_eq.
Qed.
End tcp.

(** ** Properties *)

(** Both checksums of an outgoing segment verify: the IP header's, and the TCP
    one over pseudo header, TCP header and data. *)
Definition segment_valid (s : Session) (hdr buf : list Z) : Prop :=
  csum_valid (take 20 hdr) ∧ csum_valid (tcp_pseudo s (length buf) ++ drop 20 hdr ++ buf).

Lemma full_header_valid id s seq ack flags buf :
  bytes_ok buf → length buf ≤ 65535 → in_u8 flags →
  segment_valid s (tcp_full_header id s seq ack flags buf) buf.
Proof.
  intros Hb Hl Hf. split; [apply ip_tcp_valid|]. by apply tcp_valid.
Qed.

(** The session [connect] leaves: the peer's address, and a local port that is
    not zero even when the counter wraps. *)
Lemma connect_bound a q s port s1 port1 :
  (Session_connect a q s port).1.2 = s1 → (Session_connect a q s port).2 = port1 →
  let s2 := (Session_send s1 port1).1.2 in
  faddr s2 = a ∧ fport s2 = q ∧ laddr s2 = laddr s ∧ lport s2 ≠ 0 ∧ (lport s ≠ 0 → lport s2 = lport s).
Proof.
  intros <- <-. unfold Session_connect, Session_send, Session_bind, nextAvailPort. cbn.
  destruct (Z.eqb_spec (lport s) 0) as [H0|H0]; cbn.
  - assert (u16 (u16 (port + 1) + 1) = 1 ∨ bswap16 (u16 (port + 1)) ≠ 0) as Hnz.
    { pose proof (u16_range (port + 1)). destruct (Z.eq_dec (u16 (port + 1)) 0) as [->|]; [by left|right].
      intros Hz. apply (bswap16_inj _ 0) in Hz; [done|done|unfold in_u16; lia]. }
    destruct (Z.eqb_spec (bswap16 (u16 (port + 1))) 0) as [Hz|Hz]; cbn; split_and!; try done.
    destruct Hnz as [->|]; done.
  - rewrite (proj2 (Z.eqb_neq _ _) H0). done.
Qed.

(** The session while [connect] runs: connected to the peer, and bound. *)
Definition connecting (a q : Z) (s : Session) (port : Z) : Session :=
  let '(_, s1, port1) := Session_connect a q s port in (Session_send s1 port1).1.2.
Lemma connecting_eq a q s port : connecting a q s port = mkSession a q (laddr s) (source_port s port) (s_socket s).
Proof. apply connect_send_eq. Qed.

Lemma TcpSession_connect_ok {E} `{Kernel E} a q i p t g fd (d : Daemon E) :
  sessions d !! i = Some p → p_tcb p = Some t → conn_state t = TCP_STATE__CLOSED →
  idgenerator d = Some g → tunDev d = Some fd →
  ∃ d', TcpSession_connect a q i d = Ok (0, d') ∧
    after_segment i (connecting a q (p_base p) (tcp_port d)) (tcb_syn_sent t) 1 0 2 [] g fd d d'.
Proof.
  intros Hp Ht Hc Hg Htun. unfold TcpSession_connect, connecting.
  pose proof (tcp_base_eq (Session_connect a q) i p d Hp) as Hb.
  destruct (Session_connect a q (p_base p) (tcp_port d)) as [[r s1] port1] eqn:Hs1.
  mstep Hb. set (d1 := set_tcp_port port1 _). set (p1 := set_p_base s1 p).
  assert (sessions d1 !! i = Some p1) as Hp1 by apply lookup_insert_eq.
  destruct (TcpSession_send_ok [] i p1 t (tcb_syn_sent t) 1 0 2 g fd d1 Hp1 Ht Hg Htun ltac:(cbn; lia)
              ltac:(left; done)) as (d' & Hd' & Hen & Hs & Hrest).
  mstep Hd'. exists d'. split; [done|]. split; [done|]. split; [|done]. rewrite Hs. cbn. by rewrite insert_insert_eq.
Qed.

(** Opening a connection: [TcpSession::connect] on a [CLOSED] session
    records the peer, binds a non-zero local port if there is none, and puts
    exactly one segment on the wire, a [SYN] with sequence number 1 and no data
    whose checksums verify; the session is then in [SYN_SENT] with
    [send_unack] = 1 and [send_next] = 2. *)
Theorem tcp_connect_syn {E} `{Kernel E} a q i p t g fd (d : Daemon E) :
  sessions d !! i = Some p → p_tcb p = Some t → conn_state t = TCP_STATE__CLOSED →
  idgenerator d = Some g → tunDev d = Some fd →
  ∃ s d', TcpSession_connect a q i d = Ok (0, d') ∧
    faddr s = a ∧ fport s = q ∧ laddr s = laddr (p_base p) ∧ lport s ≠ 0 ∧
    (lport (p_base p) ≠ 0 → lport s = lport (p_base p)) ∧
    after_segment i s (tcb_syn_sent t) 1 0 2 [] g fd d d' ∧
    segment_valid s (tcp_full_header (IpIdGenerator_next g).1 s 1 0 2 []) [].
Proof.
  intros Hp Ht Hc Hg Htun. destruct (TcpSession_connect_ok a q i p t g fd d Hp Ht Hc Hg Htun) as (d' & Hd' & Ha).
  exists (connecting a q (p_base p) (tcp_port d)), d'. split; [done|]. unfold connecting in *.
  destruct (Session_connect a q (p_base p) (tcp_port d)) as [[r s1] port1] eqn:Hs1.
  pose proof (connect_bound a q (p_base p) (tcp_port d) s1 port1 ltac:(by rewrite Hs1) ltac:(by rewrite Hs1))
    as (? & ? & ? & ? & ?).
  split_and!; try done. apply full_header_valid; [apply Forall_nil_2|cbn; lia|unfold in_u8; lia].
Qed.

(** Sending: in [ESTABLISHED], [TcpSession::send(buf)] puts one segment on
    the wire with sequence number [send_next], the acknowledgement of
    everything received, the [ACK] flag and the data, with checksums that
    verify, advances [send_next] by the length modulo 2^32 and returns the
    length; in any other state but [CLOSED] it returns 0 and nothing is
    written. *)
Theorem tcp_send_data {E} `{Kernel E} buf i p t g fd (d : Daemon E) :
  sessions d !! i = Some p → p_tcb p = Some t → conn_state t ≠ TCP_STATE__CLOSED →
  idgenerator d = Some g → tunDev d = Some fd → bytes_ok buf → length buf ≤ 65495 →
  ∃ d', if decide (conn_state t = TCP_STATE__ESTABLISHED) then
      TcpSession_send buf i d = Ok (Z.of_nat (length buf), d') ∧
      after_segment i (bound p d) (tcb_sent (length buf) t) (send_next t) (recv_next t) 16 buf g fd d d' ∧
      segment_valid (bound p d)
        (tcp_full_header (IpIdGenerator_next g).1 (bound p d) (send_next t) (recv_next t) 16 buf) buf
    else TcpSession_send buf i d = Ok (0, d') ∧ env d' = env d ∧
         sessions d' = <[i := set_p_base (bound p d) p]> (sessions d).
Proof.
  intros Hp Ht Hc Hg Htun Hb Hl. destruct (decide (conn_state t = TCP_STATE__ESTABLISHED)) as [He|He].
  - destruct (TcpSession_send_ok buf i p t _ (send_next t) (recv_next t) 16 g fd d Hp Ht Hg Htun
                ltac:(lia) (or_intror (conj He (conj eq_refl (conj eq_refl (conj eq_refl eq_refl))))))
      as (d' & Hd' & Ha).
    exists d'. split; [done|]. split; [done|]. apply full_header_valid; [done|lia|unfold in_u8; lia].
  - by apply TcpSession_send_other with t.
Qed.

Lemma handshake_ok {E} `{Kernel E} `{Codec} indet k f i p t w ch c so ep h g fd (d : Daemon E) :
  frames d !! k = Some f → sessions d !! i = Some p → p_tcb p = Some t →
  conn_state t = TCP_STATE__SYN_SENT → idgenerator d = Some g → tunDev d = Some fd →
  ld_tcp_flag tcp_syn_bit f (transport_hdr f) = Ok true →
  ld_tcp_flag tcp_ack_bit f (transport_hdr f) = Ok true →
  ld32 f (transport_hdr f) tcphdr_seq = Ok w →
  onConnEstabCB t = Some ch → channels d !! ch = Some c → ch_socket c = Some so →
  endpoints d !! so = Some ep → ep_pcb ep = Some i → handles d !! t_sChannel t = Some h →
  length (response_pack connected) ≤ RPC_MESSAGE_MAX_SIZE →
  ∃ d1, after_segment i (p_base p) (tcb_established w t) (send_next t) (u32 (bswap32 w + 1)) 16 [] g fd d d1 ∧
    segment_valid (p_base p)
      (tcp_full_header (IpIdGenerator_next g).1 (p_base p) (send_next t) (u32 (bswap32 w + 1)) 16 []) [] ∧
    TcpSession_recv indet k i d =
      respond connected c (set_handles (<[t_sChannel t := set_io_owner false h]> (handles d1))
                             (detached (t_sChannel t) h d1)).
Proof.
  intros Hf Hp Ht Hs Hg Htun Hsyn Hack Hw Hcb Hc Hso Hep Hpcb Hh Hl. unfold TcpSession_recv.
  mstep (read_cell_ok frames k f d Hf). mrun the_tcb_ok. rewrite Hs.
  destruct (recv_syn_sent_ok f i p t w g fd d Hp Ht Hg Htun Hsyn Hack Hw) as (d1 & Ha & ->).
  pose proof Ha as (_ & Hss & _ & _ & He1 & Hc1 & Hh1 & _). rewrite Hcb.
  exists d1. split; [exact Ha|]. split; [apply full_header_valid; [apply Forall_nil_2|cbn; lia|unfold in_u8; lia]|].
  apply (connEstab_ok ch c so ep i (mkPcb (p_base p) (Some (tcb_established w t))) (tcb_established w t) h);
    rewrite ?Hc1, ?He1, ?Hss, ?Hh1; try done. apply lookup_insert_eq.
Qed.

(** C24. The handshake completes: when the segment that answers the [SYN] has
    [SYN] and [ACK] set, the session becomes [ESTABLISHED], expects the byte
    after the peer's initial sequence number, and acknowledges it with one
    [ACK] segment; then the process that waits in [connect] is answered: the
    establishment handle is taken off the event loop and the channel's
    descriptor gets one response, [ret] = 0. *)
Theorem tcp_handshake {E} `{Kernel E} `{Codec} indet k f i p t w ch c so ep h g fd (d : Daemon E) :
  frames d !! k = Some f → sessions d !! i = Some p → p_tcb p = Some t →
  conn_state t = TCP_STATE__SYN_SENT → idgenerator d = Some g → tunDev d = Some fd →
  ld_tcp_flag tcp_syn_bit f (transport_hdr f) = Ok true →
  ld_tcp_flag tcp_ack_bit f (transport_hdr f) = Ok true →
  ld32 f (transport_hdr f) tcphdr_seq = Ok w →
  onConnEstabCB t = Some ch → channels d !! ch = Some c → ch_socket c = Some so →
  endpoints d !! so = Some ep → ep_pcb ep = Some i → handles d !! t_sChannel t = Some h →
  length (response_pack connected) ≤ RPC_MESSAGE_MAX_SIZE →
  ∃ d1, after_segment i (p_base p) (tcb_established w t) (send_next t) (u32 (bswap32 w + 1)) 16 [] g fd d d1 ∧
    segment_valid (p_base p)
      (tcp_full_header (IpIdGenerator_next g).1 (p_base p) (send_next t) (u32 (bswap32 w + 1)) 16 []) [] ∧
    TcpSession_recv indet k i d =
      respond connected c (set_handles (<[t_sChannel t := set_io_owner false h]> (handles d1))
                             (detached (t_sChannel t) h d1)).
Proof. apply handshake_ok. Qed.

(** C38. Anything else a peer sends to a connecting session stops the daemon: a
    segment for a [SYN_SENT] session without [SYN] or without [ACK], such as
    the [RST] of a closed port, fails the assertion of [TcpSession::recv] (in a
    build with assertions). *)
Theorem tcp_refused_aborts {E} `{Kernel E} `{Codec} indet k f i p t syn ack (d : Daemon E) :
  frames d !! k = Some f → sessions d !! i = Some p → p_tcb p = Some t →
  conn_state t = TCP_STATE__SYN_SENT →
  ld_tcp_flag tcp_syn_bit f (transport_hdr f) = Ok syn →
  ld_tcp_flag tcp_ack_bit f (transport_hdr f) = Ok ack → syn && ack = false →
  TcpSession_recv indet k i d = Fault AssertFail.
Proof.
  intros Hf Hp Ht Hs Hsyn Hack Hb. unfold TcpSession_recv, TcpSession_recv_syn_sent.
  mstep (read_cell_ok frames k f d Hf). mrun the_tcb_ok. rewrite Hs.
  mstep (lift_res_ok _ _ d Hsyn). mstep (lift_res_ok _ _ d Hack). by rewrite Hb.
Qed.

(** Receiving data: a segment with [n] bytes of payload for an
    [ESTABLISHED] session is put at the end of the endpoint's queue (with the
    notification that wakes the reader), [recv_next] becomes the byte after it,
    and exactly one [ACK] for that byte goes out; an acknowledgement above
    [send_unack] is recorded.  The acknowledgement goes out also when the queue
    is over its limit of 128 frames and the segment is not kept. *)
Theorem tcp_receive_data {E} `{Kernel E} `{Codec} indet k f i p t ack w doff n so ep g fd (d : Daemon E) :
  frames d !! k = Some f → sessions d !! i = Some p → p_tcb p = Some t →
  conn_state t = TCP_STATE__ESTABLISHED → idgenerator d = Some g → tunDev d = Some fd →
  ld_tcp_flag tcp_ack_bit f (transport_hdr f) = Ok (bool_decide (is_Some ack)) →
  (∀ a, ack = Some a → ld32 f (transport_hdr f) tcphdr_ack_seq = Ok a) →
  ld_doff f (transport_hdr f) = Ok doff →
  ptr_diff (user_payload_end f) (ptr_add (transport_hdr f) (doff * 4)) = Ok n → n ≠ 0 →
  ld32 f (transport_hdr f) tcphdr_seq = Ok w →
  s_socket (p_base p) = Some so → endpoints d !! so = Some ep →
  let d1 := enqueued so ep (indet, k)
              (with_frame k (set_user_payload_begin (ptr_add (transport_hdr f) (doff * 4)) f) d) in
  ∃ d', TcpSession_recv indet k i d = Ok (tt, d') ∧
    after_segment i (p_base p) (set_recv_next (u32 (bswap32 w + n)) (tcb_acked ack t))
      (send_next t) (u32 (bswap32 w + n)) 16 [] g fd d1 d' ∧
    endpoints d' !! so =
      Some (if recvQlimit <? length (recvQ ep) then ep else set_recvQ (recvQ ep ++ [(indet, k)]) ep).
Proof.
  intros Hf Hp Ht Hs Hg Htun Hack Hackv Hdoff Hn Hn0 Hw Hso Hep d1. unfold TcpSession_recv.
  mstep (read_cell_ok frames k f d Hf). mrun the_tcb_ok. rewrite Hs.
  destruct (recv_estab_ok indet k f i p t ack w doff n so ep g fd d Hf Hp Ht Hg Htun Hack Hackv Hdoff Hn Hn0
              Hw Hso Hep) as (d' & Hd' & Ha).
  exists d'. split; [done|]. split; [done|]. destruct Ha as (_ & _ & _ & _ & -> & _). unfold enqueued.
  destruct (recvQlimit <? length (recvQ ep)); cbn; [done|apply lookup_insert_eq].
Qed.

(** ** Concrete runs *)

(** Channel 3 owns endpoint 2, which owns the session 1 in state [st]; its
    establishment handle is 4.  Frame 7 holds an incoming segment of the peer
    with the given flags, sequence number and data. *)
Definition sample_tcb (st : TcpState) : Tcb := mkTcb st (20, 21) (Some 3%nat) 4 1 2 0 0.
Definition sample_endpoint (ty : EndpointType) (q : list (list Z * nat)) : Endpoint :=
  mkEndpoint ty false (30, 31) false None 5 (Some 3%nat) (Some 1%nat) q.
Definition sample_segment (flags seq : Z) (data : list Z) : FrameBuf :=
  mkFrame None (raw 60) (raw 40) (raw 40) nullptr nullptr (raw (80 + length data))
    (wrap (replicate 20 0 ++ [0; 53; 4; 210] ++ le_bytes 4 (bswap32 seq) ++ le_bytes 4 (bswap32 2) ++
           [80; flags; 16; 0; 0; 0; 0; 0] ++ data) (replicate 100 0)).
Definition sample_tcp (st : TcpState) (f : FrameBuf) : Daemon dscript :=
  with_frame 7 f
    (sample_daemon {[1%nat := mkPcb sample_session (Some (sample_tcb st))]} {[2%nat := sample_endpoint EP_TCP []]}
       {[3%nat := mkChannel 9 6 [] None (Some 2%nat)]}
       {[4%nat := mkIoHandle 20 3 0 false false (Some (CbSessionEstab 1)) None None None]} quiet).

Lemma tcp_connect_syn_witness :
  (∃ d', TcpSession_connect (le_val [10;0;0;9]) (le_val [0;80]) 1 (sample_tcp TCP_STATE__CLOSED new_FrameBuf)
     = Ok (0, d')) ∧
  written (TcpSession_connect (le_val [10;0;0;9]) (le_val [0;80]) 1 (sample_tcp TCP_STATE__CLOSED new_FrameBuf)) =
    Some [(5, [69;0;0;40;0;1;0;0;64;6;102;198;10;0;0;1;10;0;0;9;
               4;210;0;80;0;0;0;1;0;0;0;0;80;2;16;0;134;182;0;0])].
Proof.
  split; [|vm_compute; reflexivity].
  destruct (tcp_connect_syn (le_val [10;0;0;9]) (le_val [0;80]) 1
              (mkPcb sample_session (Some (sample_tcb TCP_STATE__CLOSED))) (sample_tcb TCP_STATE__CLOSED)
              (mkIdGen 0) 5 (sample_tcp TCP_STATE__CLOSED new_FrameBuf))
    as (s & d' & Hd & _); [reflexivity..|]. by exists d'.
Defined.

Lemma tcp_send_data_witness :
  (∃ d', TcpSession_send [104; 105] 1 (sample_tcp TCP_STATE__ESTABLISHED new_FrameBuf) = Ok (2, d')) ∧
  written (TcpSession_send [104; 105] 1 (sample_tcp TCP_STATE__ESTABLISHED new_FrameBuf)) =
    Some [(5, [69;0;0;42;0;1;0;0;64;6;102;203;10;0;0;1;10;0;0;2;
               4;210;0;53;0;0;0;2;0;0;0;0;80;16;16;0;30;94;0;0; 104;105])].
Proof.
  split; [|vm_compute; reflexivity].
  destruct (tcp_send_data [104; 105] 1 (mkPcb sample_session (Some (sample_tcb TCP_STATE__ESTABLISHED)))
              (sample_tcb TCP_STATE__ESTABLISHED) (mkIdGen 0) 5 (sample_tcp TCP_STATE__ESTABLISHED new_FrameBuf))
    as (d' & Hd); [reflexivity|reflexivity|done|reflexivity|reflexivity| |cbn; lia|].
  { repeat first [apply Forall_nil_2 | apply Forall_cons; split; [unfold in_u8; lia|]]. }
  destruct Hd as (Hd & _). by exists d'.
Defined.

Lemma tcp_handshake_witness :
  (∃ d1, TcpSession_recv (H0 := wire_codec) [] 7 1 (sample_tcp TCP_STATE__SYN_SENT (sample_segment 18 4096 []))
     = respond (H0 := wire_codec) connected (mkChannel 9 6 [] None (Some 2%nat)) d1) ∧
  written (TcpSession_recv (H0 := wire_codec) [] 7 1 (sample_tcp TCP_STATE__SYN_SENT (sample_segment 18 4096 []))) =
    Some [(5, [69;0;0;40;0;1;0;0;64;6;102;205;10;0;0;1;10;0;0;2;
               4;210;0;53;0;0;0;2;0;0;16;1;80;16;16;0;118;200;0;0]);
          (9, [18;2;8;0;120;0])].
Proof.
  split; [|vm_compute; reflexivity].
  destruct (tcp_handshake (H0 := wire_codec) [] 7 (sample_segment 18 4096 []) 1
              (mkPcb sample_session (Some (sample_tcb TCP_STATE__SYN_SENT))) (sample_tcb TCP_STATE__SYN_SENT)
              (bswap32 4096) 3 (mkChannel 9 6 [] None (Some 2%nat)) 2 (sample_endpoint EP_TCP [])
              (mkIoHandle 20 3 0 false false (Some (CbSessionEstab 1)) None None None) (mkIdGen 0) 5
              (sample_tcp TCP_STATE__SYN_SENT (sample_segment 18 4096 [])))
    as (d1 & _ & _ & Hr); [reflexivity..| |].
  { vm_compute. discriminate. }
  eexists. exact Hr.
Defined.

(** A [RST]+[ACK]. *)
Lemma tcp_refused_aborts_witness :
  TcpSession_recv (H0 := wire_codec) [] 7 1 (sample_tcp TCP_STATE__SYN_SENT (sample_segment 20 0 [])) = Fault AssertFail.
Proof.
  apply (tcp_refused_aborts (H0 := wire_codec) [] 7 (sample_segment 20 0 []) 1
           (mkPcb sample_session (Some (sample_tcb TCP_STATE__SYN_SENT))) (sample_tcb TCP_STATE__SYN_SENT)
           false true); reflexivity.
Defined.

Lemma tcp_receive_data_witness :
  (∃ d', TcpSession_recv (H0 := wire_codec) [] 7 1 (sample_tcp TCP_STATE__ESTABLISHED (sample_segment 16 4096 [104; 105]))
     = Ok (tt, d') ∧ endpoints d' !! 2%nat = Some (sample_endpoint EP_TCP [([], 7%nat)])) ∧
  written (TcpSession_recv (H0 := wire_codec) [] 7 1
             (sample_tcp TCP_STATE__ESTABLISHED (sample_segment 16 4096 [104; 105]))) =
    Some [(31, [49]);
          (5, [69;0;0;40;0;1;0;0;64;6;102;205;10;0;0;1;10;0;0;2;
               4;210;0;53;0;0;0;2;0;0;16;2;80;16;16;0;118;199;0;0])].
Proof.
  split; [|vm_compute; reflexivity].
  destruct (tcp_receive_data (H0 := wire_codec) [] 7 (sample_segment 16 4096 [104; 105]) 1
              (mkPcb sample_session (Some (sample_tcb TCP_STATE__ESTABLISHED))) (sample_tcb TCP_STATE__ESTABLISHED)
              (Some (bswap32 2)) (bswap32 4096) 5 2 2 (sample_endpoint EP_TCP []) (mkIdGen 0) 5
              (sample_tcp TCP_STATE__ESTABLISHED (sample_segment 16 4096 [104; 105])))
    as (d' & Hd & _ & He); [reflexivity..| |reflexivity|reflexivity|done|reflexivity|reflexivity|reflexivity|].
  { intros a [= <-]. reflexivity. }
  exists d'. split; [exact Hd|exact He].
Defined.
