(* ===== verification/UdpSpec.v ===== *)
(** * Datagrams from the wire to the process

    A datagram that arrives is queued at the endpoint of the session that
    matches it best; a process that asks is given it at once, or waits and is
    given it when it comes; and what one stack sends, another delivers with the
    same bytes and the sender's address. *)

From S2P Require Import Prelude Csum16 Frame Session World DScript Reactor Rpc Wire Net Agent Udp Tcp Reassembly IpRx Dispatch ReactorSpec AgentSpec PacketSpec TcpSpec.

(** ** The payload of a chain of frames *)

(** The bytes between the payload pointers of a frame. *)
Definition frame_payload (f : FrameBuf) : res (list Z) :=
  len ← ptr_diff (user_payload_end f) (user_payload_begin f);
  if 0 <? len then ld_bytes f (user_payload_begin f) len else Ok [].

Section chain.
Context {E : Type}.
Implicit Types d : Daemon E.

(** [chain d head l bs]: from [head], the [next] pointers visit the frames [l]
    and end; [bs] is their payloads in order. *)
Inductive chain d : option nat → list nat → list Z → Prop :=
  | chain_nil : chain d None [] []
  | chain_cons i f l bs rest :
      frames d !! i = Some f → frame_payload f = Ok bs → chain d (next f) l rest →
      chain d (Some i) (i :: l) (bs ++ rest).

Lemma chain_det d h l bs : chain d h l bs → ∀ l' bs', chain d h l' bs' → l = l'.
Proof.
  induction 1 as [|i f l bs rest Hf Hp Hc IH]; inversion 1; subst; [done|]. simplify_eq. f_equal. by eapply IH.
Qed.

Lemma chain_suffix d h l bs i : chain d h l bs → i ∈ l →
  ∃ l' bs', chain d (Some i) l' bs' ∧ (length l' ≤ length l)%nat.
Proof.
  induction 1 as [|j f l bs rest Hf Hp Hc IH]; [set_solver|].
  intros [->|Hi]%elem_of_cons.
  - exists (j :: l), (bs ++ rest). split; [by econstructor|done].
  - destruct (IH Hi) as (l' & bs' & ? & ?). exists l', bs'. cbn. split; [done|lia].
Qed.

(** A chain that ends visits no frame twice, so it is no longer than the heap. *)
Lemma chain_NoDup d h l bs : chain d h l bs → NoDup l.
Proof.
  intros Hc. induction Hc as [|i f l bs rest Hf Hp Hc IH]; constructor; [|done].
  intros Hi. destruct (chain_suffix _ _ _ _ _ Hc Hi) as (l' & bs' & Hc' & Hle).
  rewrite <-(chain_det _ _ _ _ (chain_cons _ _ _ _ _ _ Hf Hp Hc) _ _ Hc') in Hle. cbn in Hle. lia.
Qed.

Lemma chain_frames d h l bs : chain d h l bs → ∀ i, i ∈ l → i ∈ dom (frames d).
Proof. induction 1; intros j Hj; [set_solver|]. apply elem_of_cons in Hj as [->|]; [by eapply elem_of_dom_2|eauto]. Qed.

Lemma chain_bound d h l bs : chain d h l bs → (length l ≤ size (frames d))%nat.
Proof.
  intros Hc. rewrite <-size_dom, <-(size_list_to_set (C := gset nat)) by (by eapply chain_NoDup).
  apply subseteq_size. intros i Hi. eapply chain_frames; [done|]. set_solver.
Qed.

Lemma drain_chain d h l bs : chain d h l bs → ∀ fuel out, (length l ≤ fuel)%nat →
  drain_skbuf_chain fuel h out d = Ok (out ++ bs, d).
Proof.
  induction 1 as [|i f l bs rest Hf Hp Hc IH]; intros fuel out Hl.
  - destruct fuel; by rewrite app_nil_r.
  - destruct fuel as [|fuel]; [cbn in Hl; lia|]. cbn [drain_skbuf_chain].
    mstep (read_cell_ok frames i f d Hf). unfold frame_payload in Hp.
    destruct (ptr_diff _ _) as [len|] eqn:Hd; [|done]. cbn [mbind res_bind] in Hp.
    mstep (lift_res_ok (Ok len) len d eq_refl).
    erewrite M_bind_ok. 2: { destruct (0 <? len); [by apply lift_res_ok|]. injection Hp as <-. reflexivity. }
    rewrite IH by (cbn in Hl; lia). by rewrite app_assoc.
Qed.

Lemma drain_ok d i l bs : chain d (Some i) l bs → drain i d = Ok (bs, d).
Proof.
  intros Hc. unfold drain. mstep (eq_refl : gets _ d = Ok (_, d)).
  rewrite (drain_chain _ _ _ _ Hc); [done|]. pose proof (chain_bound _ _ _ _ Hc). lia.
Qed.

(** The chain only reads the frames. *)
Lemma chain_frames_eq d d' h l bs : frames d' = frames d → chain d h l bs → chain d' h l bs.
Proof. intros He. induction 1; econstructor; rewrite ?He; eauto. Qed.
End chain.

(** ** Asking for data *)

Section recvfrom.
Context {E : Type} `{Kernel E} `{Codec}.
Implicit Types d : Daemon E.

(** The response that carries a datagram or a piece of a stream. *)
Definition data_response (buf : list Z) (addr : option (list Z)) : Response :=
  mkResponse (Some RC_OK) (Some (RetRecvfrom (mkRet (i32 (length buf)) None) (Some buf) addr)).

Definition with_endpoint (so : nat) (ep : Endpoint) d : Daemon E :=
  set_endpoints (<[so := ep]> (endpoints d)) d.

Lemma drain_with_endpoint so ep d k l bs : chain d (Some k) l bs →
  drain k (with_endpoint so ep d) = Ok (bs, with_endpoint so ep d).
Proof. intros Hch. apply (drain_ok _ _ l). by apply (chain_frames_eq d). Qed.

Lemma channel_socket_ok ch c so d :
  channels d !! ch = Some c → ch_socket c = Some so → channel_socket ch d = Ok (so, d).
Proof. intros Hc Hs. unfold channel_socket. mstep (read_cell_ok channels ch c d Hc). by rewrite Hs. Qed.

Lemma upd_endpoint_ok so f ep d : endpoints d !! so = Some ep →
  upd_endpoint so f d = Ok (tt, with_endpoint so (f ep) d).
Proof. intros He. unfold upd_endpoint. by mstep (read_cell_ok endpoints so ep d He). Qed.

Lemma try_take_ok so ep d : endpoints d !! so = Some ep →
  Endpoint_try_takeFromRecvQ so d =
    match recvQ ep with
    | [] => Ok (None, d)
    | x :: q => Ok (Some x, with_endpoint so (set_recvQ q ep) d)
    end.
Proof.
  intros He. unfold Endpoint_try_takeFromRecvQ. mstep (read_cell_ok endpoints so ep d He). by destruct (recvQ ep).
Qed.

(** The callback [recvfromCall] leaves at a waiting endpoint. *)
Definition waiting_cb (ch : nat) (ty : EndpointType) (require_addr : bool) : packet_cb :=
  match ty with EP_UDP => onAsyncNewUdpPacket_cb ch require_addr | EP_TCP => onAsyncNewTcpPacket_cb ch end.

Lemma recvfromCall_data ch c so ep a k q l bs (require_addr : bool) d :
  channels d !! ch = Some c → ch_socket c = Some so → endpoints d !! so = Some ep →
  recvQ ep = (a, k) :: q → chain d (Some k) l bs →
  recvfromCall ch require_addr d =
    Ok (data_response bs (if require_addr then Some a else None), with_endpoint so (set_recvQ q ep) d).
Proof.
  intros Hc Hs He Hq Hch. unfold recvfromCall. mstep (channel_socket_ok ch c so d Hc Hs).
  mstep (read_cell_ok endpoints so ep d He).
  pose proof (try_take_ok so ep d He) as Ht. rewrite Hq in Ht. mstep Ht.
  by mstep (drain_with_endpoint so (set_recvQ q ep) d k l bs Hch).
Qed.

Lemma recvfromCall_empty ch c so ep require_addr d :
  channels d !! ch = Some c → ch_socket c = Some so → endpoints d !! so = Some ep → recvQ ep = [] →
  recvfromCall ch require_addr d =
    if ep_nonblocking ep
    then Ok (mkResponse (Some RC_OK) (Some (RetRecvfrom (mkRet EAGAIN None) None None)), d)
    else Ok (mkResponse (Some RC_WAIT_NEXT) None,
             with_endpoint so (set_waiting true (set_onAsyncNewPacket (Some (waiting_cb ch (ep_type ep) require_addr)) ep)) d).
Proof.
  intros Hc Hs He Hq. unfold recvfromCall. mstep (channel_socket_ok ch c so d Hc Hs).
  mstep (read_cell_ok endpoints so ep d He).
  pose proof (try_take_ok so ep d He) as Ht. rewrite Hq in Ht. mstep Ht.
  destruct (ep_nonblocking ep); [done|]. unfold Endpoint_setOnAsyncNewPacketCB, Endpoint_setWaiting.
  mstep (upd_endpoint_ok so (set_onAsyncNewPacket _) ep d He).
  erewrite M_bind_ok; [|apply upd_endpoint_ok, lookup_insert_eq].
  unfold with_endpoint. cbn. by rewrite insert_insert_eq.
Qed.

(** One read that finds the notifications, one that finds the pipe empty. *)
Lemma drain_pipe_ok fuel fd b e1 e2 n1 x1 b2 x2 d :
  k_read fd 8 (env d) = ((n1, b, x1), e1) → n1 ≠ -1 → k_read fd 8 e1 = ((-1, b2, x2), e2) →
  drain_pipe (S fuel) fd d = Ok (tt, set_env e2 d).
Proof.
  intros H1 Hn H2. cbn [drain_pipe].
  rewrite (M_bind_ok (kcall (k_read fd 8)) _ d (n1, b, x1) (set_env e1 d)) by (unfold kcall; by rewrite H1).
  rewrite (proj2 (Z.eqb_neq n1 (-1)) Hn). destruct fuel; cbn [drain_pipe];
  rewrite (M_bind_ok (kcall (k_read fd 8)) _ (set_env e1 d) (-1, b2, x2) (set_env e2 d)) by (unfold kcall; cbn; by rewrite H2); done.
Qed.

Lemma answer_packet_ok ch c so ep a k q l bs (require_addr : bool) n e' d :
  channels d !! ch = Some c → ch_socket c = Some so → endpoints d !! so = Some ep →
  recvQ ep = (a, k) :: q → chain d (Some k) l bs →
  let resp := data_response bs (if require_addr then Some a else None) in
  length (response_pack resp) ≤ RPC_MESSAGE_MAX_SIZE →
  k_write (ch_fd c) (response_pack resp) (env d) = (n, e') → n ≠ -1 →
  answer_packet ch require_addr d = Ok (tt, set_env e' (with_endpoint so (set_recvQ q ep) d)).
Proof.
  intros Hc Hs He Hq Hch resp Hl Hw Hn. unfold answer_packet. mstep (channel_socket_ok ch c so d Hc Hs).
  unfold Endpoint_takeFromRecvQ. pose proof (try_take_ok so ep d He) as Ht. rewrite Hq in Ht.
  rewrite (M_bind_ok _ _ d (a, k) (with_endpoint so (set_recvQ q ep) d)) by (by mstep Ht).
  mstep (drain_with_endpoint so (set_recvQ q ep) d k l bs Hch).
  fold (data_response bs (if require_addr then Some a else None)). fold resp.
  rewrite (write_ok resp ch c) by done. unfold respond. mstep (kcall_ok _ _). cbn [env with_endpoint set_endpoints].
  rewrite Hw. cbn [fst snd]. by rewrite (proj2 (Z.eqb_neq n (-1)) Hn).
Qed.
End recvfrom.

(** ** Frames from the device *)

(** The frame [TunIface::rx] leaves for the packet [pkt]. *)
Definition rx_frame (t : ptr) (ub : ptr) (pkt : list Z) : FrameBuf :=
  mkFrame None t (raw 0) (raw 0) nullptr ub (raw (length pkt))
    (pkt ++ replicate (1518 - length pkt) 0).

(** Loads from the front of a frame's bytes. *)
Lemma ld_front (n : nat) f h post o off bs :
  rawBytes f = h ++ post → 0 ≤ o + off → slice h (o + off) n = Some bs →
  ld (λ l o, le_val <$> slice l o n) f (raw o) off = Ok (le_val bs).
Proof.
  intros Hr Ho Hs. unfold ld. cbn [target of_option mbind res_bind]. rewrite Hr.
  pose proof (slice_window [] h post (o + off) n bs Ho Hs) as Hw. cbn [app length] in Hw.
  rewrite Z.add_0_l in Hw. by rewrite Hw.
Qed.

Section rx.
Context {E : Type} `{Kernel E} `{Codec}.
Implicit Types d : Daemon E.

Lemma TunIface_rx_ok fd k pkt x e' d :
  frames d !! k = Some new_FrameBuf → (length pkt ≤ 1518)%nat →
  k_read fd maxRawBytesSize (env d) = ((Z.of_nat (length pkt), pkt, x), e') →
  TunIface_rx fd k d = Ok (tt, with_frame k (rx_frame nullptr nullptr pkt) (set_env e' d)).
Proof.
  intros Hf Hl Hr. unfold TunIface_rx.
  rewrite (M_bind_ok (kcall (k_read fd maxRawBytesSize)) _ d (Z.of_nat (length pkt), pkt, x) (set_env e' d))
    by (unfold kcall; by rewrite Hr).
  rewrite (proj2 (Z.eqb_neq (Z.of_nat (length pkt)) (-1))) by lia.
  rewrite (upd_frame_ok k _ new_FrameBuf (rx_frame nullptr nullptr pkt)); [done|exact Hf|].
  assert (store (rawBytes new_FrameBuf) 0 pkt = Some (pkt ++ replicate (1518 - length pkt) 0)) as ->; [|done].
  apply store_Some. cbn [rawBytes new_FrameBuf]. change (Z.to_nat maxRawBytesSize) with 1518%nat.
  rewrite length_replicate. split_and!; [done|lia|]. by rewrite drop_replicate.
Qed.

Lemma Interface_turn_ok fd pkt v x e' d :
  tunDev d = Some fd → (0 < length pkt ≤ 1518)%nat →
  k_read fd maxRawBytesSize (env d) = ((Z.of_nat (length pkt), pkt, x), e') →
  hd 0 pkt = v → Z.shiftr v 4 = 4 →
  Interface_turn d = Ok (tt, set_rxQ (rxQ d ++ [Some (next_id d)])
    (with_frame (next_id d) (rx_frame nullptr nullptr pkt) (set_env e' (set_next_id (S (next_id d)) d)))).
Proof.
  intros Ht Hl Hr Hv Hs. unfold Interface_turn.
  set (d1 := with_frame (next_id d) new_FrameBuf (set_next_id (S (next_id d)) d)).
  rewrite (M_bind_ok _ _ d (next_id d) d1) by done.
  rewrite (M_bind_ok _ _ d1 (Some fd) d1) by (by rewrite <-Ht).
  rewrite (M_bind_ok _ _ d1 fd d1) by done.
  mstep (TunIface_rx_ok fd (next_id d) pkt x e' d1 (lookup_insert_eq _ _ _) ltac:(lia) Hr).
  unfold Ip_enRxQue, get_frame. erewrite M_bind_ok.
  2: { erewrite M_bind_ok; [|apply read_cell_ok, lookup_insert_eq]. apply lift_res_ok.
       unfold ld_version. destruct pkt as [|b pkt]; [cbn in Hl; lia|]. cbn in Hv. subst b.
       unfold ld8, load8. rewrite (ld_front 1 _ [v] (pkt ++ replicate (1518 - S (length pkt)) 0) 0 0 [v]); done. }
  cbn [le_val]. rewrite Z.mul_0_r, Z.add_0_r, Hs. cbn.
  unfold modify, with_frame. cbn. by rewrite insert_insert_eq.
Qed.

(** ** [Udp::rx] *)

Lemma Udp_rx_ok k f fa la fp lp i p so ep d :
  frames d !! k = Some f →
  ld32 f (network_hdr f) PseudoHdr_saddr = Ok fa → ld32 f (network_hdr f) PseudoHdr_daddr = Ok la →
  ld16 f (transport_hdr f) udphdr_source = Ok fp → ld16 f (transport_hdr f) udphdr_dest = Ok lp →
  Sessions_find (lock_session d) fa fp la lp (udp_pcbs d) = Some i →
  sessions d !! i = Some p → s_socket (p_base p) = Some so → endpoints d !! so = Some ep →
  Udp_rx k d = Ok (tt, enqueued so ep (sockaddr_in fp fa, k)
                     (with_frame k (set_user_payload_begin (ptr_add (transport_hdr f) 8) f) d)).
Proof.
  intros Hf Hfa Hla Hfp Hlp Hfind Hp Hso Hep. unfold Udp_rx. mstep (read_cell_ok frames k f d Hf).
  mstep (lift_res_ok _ _ d Hfa). mstep (lift_res_ok _ _ d Hla).
  mstep (lift_res_ok _ _ d Hfp). mstep (lift_res_ok _ _ d Hlp).
  mstep (eq_refl : get_st d = Ok (d, d)). rewrite Hfind.
  mstep (lift_res_ok _ _ d Hfa). mstep (lift_res_ok _ _ d Hfp). unfold UdpSession_recv.
  mrun upd_frame_ok; [reflexivity|]. set (d1 := with_frame k _ d).
  mstep (read_cell_ok sessions i p d1 Hp). rewrite Hso.
  mstep (lock_endpoint_ok so d1 (mk_is_Some _ _ Hep)). by apply putToRecvQ_ok.
Qed.

Lemma Udp_rx_none k f fa la fp lp d :
  frames d !! k = Some f →
  ld32 f (network_hdr f) PseudoHdr_saddr = Ok fa → ld32 f (network_hdr f) PseudoHdr_daddr = Ok la →
  ld16 f (transport_hdr f) udphdr_source = Ok fp → ld16 f (transport_hdr f) udphdr_dest = Ok lp →
  Sessions_find (lock_session d) fa fp la lp (udp_pcbs d) = None →
  Udp_rx k d = Ok (tt, d).
Proof.
  intros Hf Hfa Hla Hfp Hlp Hfind. unfold Udp_rx. mstep (read_cell_ok frames k f d Hf).
  mstep (lift_res_ok _ _ d Hfa). mstep (lift_res_ok _ _ d Hla).
  mstep (lift_res_ok _ _ d Hfp). mstep (lift_res_ok _ _ d Hlp).
  mstep (eq_refl : get_st d = Ok (d, d)). by rewrite Hfind.
Qed.

(** ** A datagram through the receiving path *)

Definition session_words (s : Session) : Prop :=
  in_u32 (faddr s) ∧ in_u32 (laddr s) ∧ in_u16 (fport s) ∧ in_u16 (lport s).

(** A packet that begins with [h] is an unfragmented IPv4 packet without options,
    of the protocol [proto], from [s]'s local to its remote address and port; the
    other fields of [h] are arbitrary. *)
Record carries (proto : Z) (s : Session) (h : list Z) : Prop := {
  ca_version : slice h 0 1 = Some [69];
  ca_whole : slice h 6 2 = Some [0; 0] ∨ slice h 6 2 = Some [64; 0];
  ca_proto : slice h 9 1 = Some [proto];
  ca_source : slice h 12 4 = Some (le_bytes 4 (laddr s));
  ca_dest : slice h 16 4 = Some (le_bytes 4 (faddr s));
  ca_sport : slice h 20 2 = Some (le_bytes 2 (lport s));
  ca_dport : slice h 22 2 = Some (le_bytes 2 (fport s))
}.
(** The two headers of a datagram. *)
Definition datagram_header (s : Session) (h : list Z) : Prop := carries 17 s h ∧ length h = 28%nat.
Lemma udp_header_form id c s len : datagram_header s (udp_header id c s len).
Proof. split; [|done]. by constructor; first [left|idtac]. Qed.
Lemma carries_first proto s h buf : carries proto s h → hd 0 (h ++ buf) = 69.
Proof. intros [Hv _ _ _ _ _ _]. apply slice_Some in Hv as (_ & _ & _ & Hv). destruct h; [done|]. by injection Hv. Qed.

Lemma header_loads proto s h buf t ub : session_words s → carries proto s h →
  let f := rx_frame t ub (h ++ buf) in
  (∀ n o off bs, 0 ≤ o + off → slice h (o + off) (Z.of_nat n) = Some bs →
     ld (λ l o, le_val <$> slice l o (Z.of_nat n)) f (raw o) off = Ok (le_val bs)) ∧
  ld32 f (raw 0) PseudoHdr_saddr = Ok (laddr s) ∧ ld32 f (raw 0) PseudoHdr_daddr = Ok (faddr s) ∧
  ld16 f (raw 20) udphdr_source = Ok (lport s) ∧ ld16 f (raw 20) udphdr_dest = Ok (fport s) ∧
  ld_ihl f (raw 0) = Ok 5 ∧ IpHdrs_isFrag f (raw 0) = Ok false ∧ ld8 f (raw 0) iphdr_protocol = Ok (le_val [proto]).
Proof.
  intros (Hfa & Hla & Hfp & Hlp) [Cv Cf Cp Cs Cd Csp Cdp] f.
  assert (∀ n o off bs, 0 ≤ o + off → slice h (o + off) (Z.of_nat n) = Some bs →
    ld (λ l o, le_val <$> slice l o (Z.of_nat n)) f (raw o) off = Ok (le_val bs)) as Hld.
  { intros n o off bs. apply ld_front with (post := buf ++ replicate (1518 - length (h ++ buf)) 0).
    subst f. unfold rx_frame. cbn [rawBytes]. by rewrite <-app_assoc. }
  assert (∀ n o off v, 0 ≤ o + off → slice h (o + off) (Z.of_nat n) = Some (le_bytes n v) →
    0 ≤ v < 256 ^ Z.of_nat n → ld (λ l o, le_val <$> slice l o (Z.of_nat n)) f (raw o) off = Ok v) as Hw.
  { intros n o off v Ho Hs Hv. rewrite (Hld n o off _ Ho Hs), le_val_bytes. by rewrite Z.mod_small. }
  split; [exact Hld|]. split_and!.
  - exact (Hw 4%nat 0 12 (laddr s) ltac:(done) Cs Hla).
  - exact (Hw 4%nat 0 16 (faddr s) ltac:(done) Cd Hfa).
  - exact (Hw 2%nat 20 0 (lport s) ltac:(done) Csp Hlp).
  - exact (Hw 2%nat 20 2 (fport s) ltac:(done) Cdp Hfp).
  - unfold ld_ihl. replace (ld8 f (raw 0) 0) with (Ok 69); [done|]. symmetry. exact (Hld 1%nat 0 0 [69] ltac:(done) Cv).
  - unfold IpHdrs_isFrag. destruct Cf as [Cf|Cf].
    + replace (ld16 f (raw 0) iphdr_frag_off) with (Ok 0); [done|]. symmetry. exact (Hld 2%nat 0 6 [0; 0] ltac:(done) Cf).
    + replace (ld16 f (raw 0) iphdr_frag_off) with (Ok 64); [done|]. symmetry. exact (Hld 2%nat 0 6 [64; 0] ltac:(done) Cf).
  - exact (Hld 1%nat 0 9 [proto] ltac:(done) Cp).
Qed.

Lemma Ip_turn_udp indet k s hdr buf i p so ep q d : datagram_header s hdr →
  rxQ d = Some k :: q → frames d !! k = Some (rx_frame nullptr nullptr (hdr ++ buf)) → session_words s →
  Sessions_find (lock_session d) (laddr s) (lport s) (faddr s) (fport s) (udp_pcbs d) = Some i →
  sessions d !! i = Some p → s_socket (p_base p) = Some so → endpoints d !! so = Some ep →
  Ip_turn indet d = Ok (tt, enqueued so ep (sockaddr_in (lport s) (laddr s), k)
    (with_frame k (rx_frame (raw 20) (raw 28) (hdr ++ buf)) (set_rxQ q d))).
Proof.
  intros [Hdg Hlen] Hq Hf Hs Hfind Hp Hso Hep. unfold Ip_turn.
  rewrite (M_bind_ok _ _ d (Some k :: q) d) by (unfold gets; by rewrite Hq).
  set (d1 := set_rxQ q d). rewrite (M_bind_ok _ _ d tt d1) by done.
  unfold Ip_process. mstep (read_cell_ok frames k _ d1 Hf).
  rewrite (M_bind_ok _ _ d1 tt d1) by done.
  set (f := rx_frame nullptr nullptr (hdr ++ buf)) in *.
  pose proof (header_loads 17 s hdr buf nullptr nullptr Hs Hdg) as (_ & _ & _ & _ & _ & Hihl & Hfrag & _). fold f in Hihl, Hfrag.
  rewrite (M_bind_ok _ _ d1 (Z.of_nat (length (hdr ++ buf)) - 0) d1) by done.
  rewrite (proj2 (Z.ltb_ge _ 20)) by (rewrite length_app; lia). cbn [orb negb IpHdrs_checksum].
  change (network_hdr f) with (raw 0). mstep (lift_res_ok _ _ d1 Hfrag).
  rewrite (M_bind_ok _ _ d1 (Some k) d1) by done. unfold Ip_demultiplex, get_frame.
  rewrite (M_bind_ok _ _ d1 5 d1) by (mstep (read_cell_ok frames k f d1 Hf); by apply lift_res_ok).
  mrun upd_frame_ok; [reflexivity|]. set (f1 := set_transport_hdr _ f). set (d2 := with_frame k f1 d1).
  change f1 with (rx_frame (raw 20) nullptr (hdr ++ buf)) in *.
  pose proof (header_loads 17 s hdr buf (raw 20) nullptr Hs Hdg) as (_ & Hsa & Hda & Hsp & Hdp & _ & _ & Hproto).
  rewrite (M_bind_ok _ _ d2 PX_UDP d2).
  2: { erewrite M_bind_ok; [|apply read_cell_ok, lookup_insert_eq]. unfold IpHdrs_protocol. by rewrite Hproto. }
  rewrite (Udp_rx_ok k _ (laddr s) (faddr s) (lport s) (fport s) i p so ep d2 (lookup_insert_eq _ _ _)
             Hsa Hda Hsp Hdp Hfind Hp Hso Hep).
  unfold d2, with_frame, enqueued. cbn. rewrite !insert_insert_eq. done.
Qed.

(** The payload of a received frame is what is behind its headers. *)
Lemma rx_payload hdr buf t : frame_payload (rx_frame t (raw (length hdr)) (hdr ++ buf)) = Ok buf.
Proof.
  unfold frame_payload, rx_frame. generalize (replicate (1518 - length (hdr ++ buf)) 0) as pad.
  intros pad. cbn [user_payload_begin user_payload_end ptr_diff mbind res_bind].
  rewrite length_app. replace (Z.of_nat (length hdr + length buf) - length hdr) with (Z.of_nat (length buf)) by lia.
  destruct (Z.ltb_spec 0 (length buf)) as [Hl|Hl].
  - unfold ld_bytes. cbn [target rawBytes of_option mbind res_bind].
    pose proof (slice_window hdr buf pad 0 (length buf) buf ltac:(done)) as Hw. rewrite Z.add_0_r in Hw.
    rewrite <-app_assoc, Hw; [done|]. apply slice_Some. split_and!; [lia|done|lia|]. by rewrite drop_0, Nat2Z.id, firstn_all.
  - destruct buf; [done|cbn in Hl; lia].
Qed.
Lemma udp_rx_payload hdr buf t : length hdr = 28%nat → frame_payload (rx_frame t (raw 28) (hdr ++ buf)) = Ok buf.
Proof. intros Hl. pose proof (rx_payload hdr buf t) as Hp. by rewrite Hl in Hp. Qed.
End rx.

(** ** Properties *)

(** C28. A datagram is delivered to the session that matches it: [Udp::rx]
    appends it, with the sender's address and port, to the queue of the
    endpoint of the session [Sessions::find] chooses and notifies the endpoint
    (unless the queue is over its limit of 128, when it is dropped), and does
    nothing when no session matches. *)
Theorem udp_delivery {E} `{Kernel E} k f fa la fp lp (d : Daemon E) :
  frames d !! k = Some f →
  ld32 f (network_hdr f) PseudoHdr_saddr = Ok fa → ld32 f (network_hdr f) PseudoHdr_daddr = Ok la →
  ld16 f (transport_hdr f) udphdr_source = Ok fp → ld16 f (transport_hdr f) udphdr_dest = Ok lp →
  match Sessions_find (lock_session d) fa fp la lp (udp_pcbs d) with
  | None => Udp_rx k d = Ok (tt, d)
  | Some i => ∀ p so ep,
      sessions d !! i = Some p → s_socket (p_base p) = Some so → endpoints d !! so = Some ep →
      ∃ d', Udp_rx k d = Ok (tt, d') ∧
        endpoints d' = (if recvQlimit <? length (recvQ ep) then endpoints d
                        else <[so := set_recvQ (recvQ ep ++ [(sockaddr_in fp fa, k)]) ep]> (endpoints d)) ∧
        frames d' = <[k := set_user_payload_begin (ptr_add (transport_hdr f) 8) f]> (frames d) ∧
        env d' = (if recvQlimit <? length (recvQ ep) then env d
                  else (k_write (new_packet_notify_pipe ep).2 [49] (env d)).2) ∧
        sessions d' = sessions d ∧ channels d' = channels d
  end.
Proof.
  intros Hf Hfa Hla Hfp Hlp. destruct (Sessions_find _ fa fp la lp _) as [i|] eqn:Hfind.
  - intros p so ep Hp Hso Hep. rewrite (Udp_rx_ok k f fa la fp lp i p so ep d); try done.
    eexists. split; [done|]. unfold enqueued. by destruct (recvQlimit <? length (recvQ ep)).
  - by apply (Udp_rx_none k f fa la fp lp).
Qed.

(** C29. [recvfrom] on the daemon's side: with something in the queue the
    oldest entry is taken and answered at once, its payload (that of the whole
    chain of frames, which the fuel always covers) complete and in order, with
    the peer's address if it was asked for; with an empty queue a blocking
    caller is told to wait and the endpoint remembers it; a non-blocking one is
    told [EAGAIN] in [ret], with no [errno]. *)
Theorem recvfrom_answer {E} `{Kernel E} `{Codec} ch c so ep (require_addr : bool) (d : Daemon E) :
  channels d !! ch = Some c → ch_socket c = Some so → endpoints d !! so = Some ep →
  match recvQ ep with
  | (a, k) :: q => ∀ l bs, chain d (Some k) l bs →
      recvfromCall ch require_addr d =
        Ok (data_response bs (if require_addr then Some a else None), with_endpoint so (set_recvQ q ep) d)
  | [] =>
      recvfromCall ch require_addr d =
        if ep_nonblocking ep
        then Ok (mkResponse (Some RC_OK) (Some (RetRecvfrom (mkRet EAGAIN None) None None)), d)
        else Ok (mkResponse (Some RC_WAIT_NEXT) None,
               with_endpoint so (set_waiting true
                 (set_onAsyncNewPacket (Some (waiting_cb ch (ep_type ep) require_addr)) ep)) d)
  end.
Proof.
  intros Hc Hs He. destruct (recvQ ep) as [|[a k] q] eqn:Hq.
  - by apply (recvfromCall_empty ch c).
  - intros l bs Hch. by apply (recvfromCall_data ch c so ep a k q l).
Qed.

(** The callback of an endpoint that waits, with something in its queue. *)
Lemma waiting_callback {E} `{Kernel E} `{Codec} fuel ch c so ep a k q l bs (require_addr : bool) e2 r e3 (d : Daemon E) :
  channels d !! ch = Some c → ch_socket c = Some so → endpoints d !! so = Some ep →
  waiting ep = true → onAsyncNewPacket ep = Some (waiting_cb ch (ep_type ep) require_addr) →
  recvQ ep = (a, k) :: q → chain d (Some k) l bs →
  drain_pipe fuel (new_packet_notify_pipe ep).1 d = Ok (tt, set_env e2 d) →
  let addr := match ep_type ep with EP_UDP => if require_addr then Some a else None | EP_TCP => None end in
  length (response_pack (data_response bs addr)) ≤ RPC_MESSAGE_MAX_SIZE →
  k_write (ch_fd c) (response_pack (data_response bs addr)) e2 = (r, e3) → r ≠ -1 →
  Endpoint_sChannelReadCb fuel so d =
    Ok (tt, set_env e3 (with_endpoint so (set_waiting false (set_recvQ q ep)) d)).
Proof.
  intros Hc Hs He Hw Hcb Hq Hch Hdr addr Hl Hwr Hr. unfold Endpoint_sChannelReadCb.
  mstep (read_cell_ok endpoints so ep d He). mstep Hdr. set (d1 := set_env e2 d).
  mstep (read_cell_ok endpoints so ep d1 He). rewrite Hw, Hcb. cbn [negb].
  assert (run_packet_cb (waiting_cb ch (ep_type ep) require_addr) d1 =
            Ok (tt, set_env e3 (with_endpoint so (set_recvQ q ep) d1))) as Hrun.
  { unfold addr, waiting_cb in *. destruct (ep_type ep); cbn [run_packet_cb];
      unfold onAsyncNewUdpPacket, onAsyncNewTcpPacket; mstep (eq_refl : get_st d1 = Ok (d1, d1));
      rewrite decide_True by (by exists c).
    - eapply (answer_packet_ok ch c so ep a k q l bs require_addr r e3); try done. by apply (chain_frames_eq d).
    - eapply (answer_packet_ok ch c so ep a k q l bs false r e3); try done. by apply (chain_frames_eq d). }
  mstep Hrun. unfold upd_endpoint.
  rewrite (M_bind_ok _ _ _ (set_recvQ q ep) (set_env e3 (with_endpoint so (set_recvQ q ep) d1))).
  2: { apply read_cell_ok, lookup_insert_eq. }
  unfold put_endpoint, modify, with_endpoint. cbn. by rewrite insert_insert_eq.
Qed.

(** A waiting reader is answered: when the notification pipe of an
    endpoint that waits becomes readable and its queue is not empty, the
    callback empties the pipe, takes the oldest entry, writes exactly one
    response with its payload to the channel, and the endpoint no longer
    waits. *)
Theorem waiting_reader_answered {E} `{Kernel E} `{Codec}
    fuel ch c so ep a k q l bs (require_addr : bool) n b x e1 b2 x2 e2 r e3 (d : Daemon E) :
  channels d !! ch = Some c → ch_socket c = Some so → endpoints d !! so = Some ep →
  waiting ep = true → onAsyncNewPacket ep = Some (waiting_cb ch (ep_type ep) require_addr) →
  recvQ ep = (a, k) :: q → chain d (Some k) l bs →
  k_read (new_packet_notify_pipe ep).1 8 (env d) = ((n, b, x), e1) → n ≠ -1 →
  k_read (new_packet_notify_pipe ep).1 8 e1 = ((-1, b2, x2), e2) →
  let addr := match ep_type ep with EP_UDP => if require_addr then Some a else None | EP_TCP => None end in
  length (response_pack (data_response bs addr)) ≤ RPC_MESSAGE_MAX_SIZE →
  k_write (ch_fd c) (response_pack (data_response bs addr)) e2 = (r, e3) → r ≠ -1 →
  Endpoint_sChannelReadCb (S fuel) so d =
    Ok (tt, set_env e3 (with_endpoint so (set_waiting false (set_recvQ q ep)) d)).
Proof.
  intros Hc Hs He Hw Hcb Hq Hch Hr1 Hn Hr2 addr Hl Hwr Hr.
  apply (waiting_callback (S fuel) ch c so ep a k q l bs require_addr e2 r e3); try done. by eapply drain_pipe_ok.
Qed.

Lemma Session_send_words s port : session_words s → session_words (Session_send s port).1.2.
Proof.
  intros (Hfa & Hla & Hfp & Hlp). unfold Session_send, Session_bind, nextAvailPort.
  destruct (lport s =? 0); [|done]. split_and!; [done|done|done|apply bswap16_range].
Qed.

(** End to end: what [UdpSession::send(buf)] hands to the sender's TUN
    device is a packet that, read from its own TUN device by another daemon
    with a matching session, goes through the interface's turn and the IP
    layer's turn into the matching endpoint's queue, from where [recvfrom]
    returns [buf] unchanged with the sender's address and port. *)
Theorem udp_end_to_end {E1 E2} `{Kernel E1} `{Kernel E2} `{Codec} indet buf j pj g fdj (dj : Daemon E1)
    ch c i p so ep fd x e' (d : Daemon E2) :
  (* the sender *)
  sessions dj !! j = Some pj → idgenerator dj = Some g → tunDev dj = Some fdj → session_words (p_base pj) →
  Z.of_nat (length buf) ≤ 1490 →
  let s := (Session_send (p_base pj) (udp_port dj)).1.2 in
  let hdr := udp_header (IpIdGenerator_next g).1 (udp_check (IpIdGenerator_next g).1 s (length buf)) s (length buf) in
  (* the receiver *)
  channels d !! ch = Some c → ch_socket c = Some so → endpoints d !! so = Some ep → recvQ ep = [] →
  sessions d !! i = Some p → s_socket (p_base p) = Some so →
  Sessions_find (lock_session d) (laddr s) (lport s) (faddr s) (fport s) (udp_pcbs d) = Some i →
  rxQ d = [] → tunDev d = Some fd →
  k_read fd maxRawBytesSize (env d) = ((Z.of_nat (length (hdr ++ buf)), hdr ++ buf, x), e') →
  (∃ dj', UdpSession_send buf j dj = Ok (Z.of_nat (length buf), dj') ∧
          env dj' = (k_writev fdj [hdr; buf] (env dj)).2) ∧
  ∃ d1 d2 d3, Interface_turn d = Ok (tt, d1) ∧ Ip_turn indet d1 = Ok (tt, d2) ∧
    recvfromCall ch true d2 = Ok (data_response buf (Some (sockaddr_in (lport s) (laddr s))), d3).
Proof.
  intros Hpj Hg Htj Hwords Hlen s hdr Hc Hcs Hep Hq Hp Hso Hfind Hrx Ht Hread. split.
  - destruct (Session_send (p_base pj) (udp_port dj)) as [[r s'] port] eqn:Hs.
    rewrite (UdpSession_send_eq buf j pj g fdj dj r s' port Hpj Hg Htj Hs).
    rewrite i32_small by (unfold in_i32; lia). eexists. split; [reflexivity|]. done.
  - assert (session_words s) as Hsw by (by apply Session_send_words).
    assert (length (hdr ++ buf) = (28 + length buf)%nat) as Hl by (by rewrite length_app).
    pose proof (Interface_turn_ok fd (hdr ++ buf) 69 x e' d Ht ltac:(lia) Hread eq_refl eq_refl) as Hif.
    rewrite Hrx in Hif. set (k := next_id d) in *. eexists. 
    set (d1 := set_rxQ _ _) in Hif.
    pose proof (Ip_turn_udp indet k s hdr buf i p so ep [] d1 (udp_header_form _ _ _ _) eq_refl (lookup_insert_eq _ _ _) Hsw Hfind Hp Hso Hep) as Hip.
    unfold enqueued in Hip. rewrite Hq in Hip. cbn [length app] in Hip. change (recvQlimit <? 0%nat) with false in Hip.
    eexists _, _. split; [exact Hif|]. split; [exact Hip|].
    set (a := sockaddr_in (lport s) (laddr s)) in *.
    apply (recvfromCall_data ch c so (set_recvQ [(a, k)] ep) a k [] [k] buf true); [exact Hc|exact Hcs|apply lookup_insert_eq|reflexivity|].
    eassert (chain _ (Some k) [k] (buf ++ [])) as Hch; [|by rewrite app_nil_r in Hch].
    econstructor; [apply lookup_insert_eq|by apply udp_rx_payload|constructor].
Qed.

(** ** Concrete runs *)

(** The datagram "hi" of [sample_session], and a daemon at 10.0.0.2 whose
    session 1 is bound to port 53 for channel 3. *)
Definition sample_packet : list Z :=
  udp_header (bswap16 1) (udp_check (bswap16 1) sample_session 2) sample_session 2 ++ [104; 105].
Definition dns_session : Session := mkSession 0 0 (le_val [10;0;0;2]) (le_val [0;53]) (Some 2%nat).
Definition sample_udp (ep : Endpoint) (e : dscript) : Daemon dscript :=
  with_frame 7 (rx_frame (raw 20) (raw 28) sample_packet)
    (set_udp_pcbs [1%nat] (sample_daemon {[1%nat := mkPcb dns_session None]} {[2%nat := ep]}
       {[3%nat := mkChannel 9 6 [] None (Some 2%nat)]} ∅ e)).
Definition peer_10_0_0_1 : list Z := sockaddr_in (le_val [4;210]) (le_val [10;0;0;1]).

Lemma sample_chain ep e : chain (sample_udp ep e) (Some 7%nat) [7%nat] [104; 105].
Proof.
  change [104; 105] with ([104; 105] ++ []).
  apply (chain_cons _ 7 (rx_frame (raw 20) (raw 28) sample_packet)); [reflexivity| |constructor].
  by apply (udp_rx_payload _ [104; 105]).
Defined.

Lemma udp_delivery_witness :
  ∃ d', Udp_rx 7 (sample_udp (sample_endpoint EP_UDP []) quiet) = Ok (tt, d') ∧
    endpoints d' = <[2%nat := sample_endpoint EP_UDP [(peer_10_0_0_1, 7%nat)]]>
                     (endpoints (sample_udp (sample_endpoint EP_UDP []) quiet)).
Proof.
  pose proof (udp_delivery 7 (rx_frame (raw 20) (raw 28) sample_packet) (le_val [10;0;0;1]) (le_val [10;0;0;2])
                (le_val [4;210]) (le_val [0;53]) (sample_udp (sample_endpoint EP_UDP []) quiet)
                eq_refl eq_refl eq_refl eq_refl eq_refl) as Hd.
  destruct (Hd (mkPcb dns_session None) 2%nat (sample_endpoint EP_UDP []) eq_refl eq_refl eq_refl)
    as (d' & Hr & He & _).
  exists d'. split; [exact Hr|exact He].
Defined.

Lemma recvfrom_answer_witness :
  ∃ d', recvfromCall 3 true (sample_udp (sample_endpoint EP_UDP [(peer_10_0_0_1, 7%nat)]) quiet) =
    Ok (data_response [104; 105] (Some peer_10_0_0_1), d').
Proof.
  eexists. apply (recvfrom_answer (H0 := wire_codec) 3 (mkChannel 9 6 [] None (Some 2%nat)) 2
    (sample_endpoint EP_UDP [(peer_10_0_0_1, 7%nat)]) true
    (sample_udp (sample_endpoint EP_UDP [(peer_10_0_0_1, 7%nat)]) quiet) eq_refl eq_refl eq_refl [7%nat] [104; 105]).
  apply sample_chain.
Defined.

Definition waiting_endpoint : Endpoint :=
  set_waiting true (set_onAsyncNewPacket (Some (onAsyncNewUdpPacket_cb 3 true))
    (sample_endpoint EP_UDP [(peer_10_0_0_1, 7%nat)])).

Lemma waiting_reader_answered_witness :
  ∃ d', Endpoint_sChannelReadCb (H0 := wire_codec) 1 2
          (sample_udp waiting_endpoint (mkDScript 10 [(1, [49], 0)] [] [] [] [])) = Ok (tt, d') ∧
    ds_writes (env d') = [(9, response_pack (Codec := wire_codec) (data_response [104; 105] (Some peer_10_0_0_1)))].
Proof.
  eexists. split.
  - eapply (waiting_reader_answered (H0 := wire_codec) 0 3 (mkChannel 9 6 [] None (Some 2%nat)) 2 waiting_endpoint
      peer_10_0_0_1 7 [] [7%nat] [104; 105] true 1 [49] 0 _ [] 11);
      [reflexivity..|apply sample_chain|reflexivity|done|reflexivity|vm_compute; discriminate|reflexivity|done].
  - vm_compute. reflexivity.
Defined.

Lemma udp_end_to_end_witness :
  let d := sample_udp (sample_endpoint EP_UDP []) (mkDScript 10 [(30, sample_packet, 0)] [] [] [] []) in
  ∃ d1 d2 d3, Interface_turn d = Ok (tt, d1) ∧ Ip_turn (H0 := wire_codec) [] d1 = Ok (tt, d2) ∧
    recvfromCall 3 true d2 = Ok (data_response [104; 105] (Some peer_10_0_0_1), d3).
Proof.
  intros d. refine (proj2 (udp_end_to_end (H1 := wire_codec) [] [104; 105] 1 (mkPcb sample_session None) (mkIdGen 0) 5
    (sample_daemon {[1%nat := mkPcb sample_session None]} ∅ ∅ ∅ quiet)
    3 (mkChannel 9 6 [] None (Some 2%nat)) 1 (mkPcb dns_session None) 2 (sample_endpoint EP_UDP []) 5 0 _ d
    eq_refl eq_refl eq_refl _ _ eq_refl eq_refl eq_refl eq_refl eq_refl eq_refl eq_refl eq_refl eq_refl eq_refl)).
  - vm_compute. intuition discriminate.
  - cbn. lia.
Defined.
