(* ===== verification/DispatchSpec.v ===== *)
(** * Requests and their answers

    Every message an interceptor sends is answered by one response, except the
    ones whose handler leaves the required [retCode] unset: those stop the
    daemon. *)

From S2P Require Import Prelude Csum16 Frame Session World DScript Reactor Rpc Wire Net Agent Udp Tcp Reassembly IpRx Dispatch Arbiter ReactorSpec AgentSpec PacketSpec TcpSpec UdpSpec.

Section dispatch.
Context {E : Type} `{Kernel E} `{Codec}.
Implicit Types d : Daemon E.

(** The requests whose handler never sets [retCode]; [ty] is the type of the
    endpoint the channel owns, if any. *)
Definition unanswerable (ty : option EndpointType) (req : Request) : bool :=
  match calling req with
  | None | Some CallPoll | Some CallSelect | Some CallSetsockopt => true
  | Some (CallConnect _) => bool_decide (ty = Some EP_UDP)
  | _ => false
  end.

(** The type of the endpoint of a channel. *)
Definition channel_type d (ch : nat) : option EndpointType :=
  c ← channels d !! ch; so ← ch_socket c; ep_type <$> endpoints d !! so.

Lemma channel_socket_inv ch so d d' : channel_socket ch d = Ok (so, d') →
  d' = d ∧ ∃ c, channels d !! ch = Some c ∧ ch_socket c = Some so.
Proof.
  unfold channel_socket. intros Hr. apply M_bind_inv in Hr as (c & d1 & Hc & Hr).
  unfold the_channel, read_cell in Hc. destruct (channels d !! ch) as [c'|] eqn:Hl; [|done].
  injection Hc as -> ->. unfold deref, of_option, lift_res in Hr. destruct (ch_socket c) as [so'|] eqn:Hs; [|done].
  injection Hr as -> ->. eauto.
Qed.

Lemma the_endpoint_inv so ep d d' : the_endpoint so d = Ok (ep, d') → d' = d ∧ endpoints d !! so = Some ep.
Proof.
  unfold the_endpoint, read_cell. destruct (endpoints d !! so) as [ep'|] eqn:Hl; [|done]. by intros [= -> ->].
Qed.

Lemma connectCall_retcode ch addr resp d d' :
  connectCall ch addr d = Ok (resp, d') →
  (retcode resp = None ↔ channel_type d ch = Some EP_UDP).
Proof.
  unfold connectCall. intros Hr.
  apply M_bind_inv in Hr as ([a p] & d1 & Ha & Hr). unfold lift_res in Ha.
  destruct (destAddr addr) as [ap|]; [|done]. injection Ha as -> ->.
  apply M_bind_inv in Hr as (so & d2 & Hso & Hr). apply channel_socket_inv in Hso as (-> & c & Hc & Hcs).
  apply M_bind_inv in Hr as (ep & d2 & Hep & Hr). apply the_endpoint_inv in Hep as (-> & Hep).
  apply M_bind_inv in Hr as (pcb & d2 & _ & Hr).
  assert (channel_type d1 ch = Some (ep_type ep)) as ->.
  { unfold channel_type. rewrite Hc. cbn. rewrite Hcs. cbn. by rewrite Hep. }
  destruct (ep_type ep).
  - apply M_bind_inv in Hr as (r & d3 & _ & [= <- _]). done.
  - destruct (ep_nonblocking ep); [by injection Hr as <- _|].
    apply M_bind_inv in Hr as (? & d3 & _ & Hr). apply M_bind_inv in Hr as (? & d4 & _ & [= <- _]). done.
Qed.

(** [answers m]: when [m] returns, the response has its [retCode]. *)
Definition answers (m : D E Response) : Prop := ∀ d r d', m d = Ok (r, d') → is_Some (retcode r).
Lemma answers_ret c r : answers (mret (mkResponse (Some c) r)).
Proof. by intros d ? ? [= <- _]. Qed.
Lemma answers_bind {A} (m : D E A) k : (∀ a, answers (k a)) → answers (m ≫= k).
Proof. intros Hk d r d' Hr. apply M_bind_inv in Hr as (a & d1 & _ & Hr). by eapply Hk. Qed.

Lemma handleRequest_retcode ch req resp d d' :
  handleRequest ch req d = Ok (resp, d') →
  (retcode resp = None ↔ unanswerable (channel_type d ch) req = true).
Proof.
  intros Hr. destruct (calling req) as [[]|] eqn:Hc; unfold unanswerable; rewrite Hc;
    unfold handleRequest in Hr; rewrite Hc in Hr;
    try (by injection Hr as <- _);
    try (rewrite bool_decide_eq_true; by eapply connectCall_retcode).
  all: assert (is_Some (retcode resp)) as [rc ->]; [|done].
  all: revert Hr; match goal with |- ?m _ = _ → _ => enough (answers m) as Ha by apply Ha end.
  all: unfold socketCall, sendtoCall, recvfromCall, getpeernameCall, getsocknameCall, atstartAction, closeCall,
         getsockoptCall, fcntlCall;
    repeat first [apply answers_ret | apply answers_bind; intros | case_match].
Qed.

(** One message: read, handled, answered. *)
Lemma onReadReady_message parse ch c nread rdbuf errno e' d :
  channels d !! ch = Some c → k_read (ch_fd c) RPC_MESSAGE_MAX_SIZE (env d) = ((nread, rdbuf, errno), e') →
  0 < nread →
  AgentChannel_onReadReady parse ch d =
    (resp ← handleRequest ch (default (parse rdbuf) (request_unpack rdbuf)); AgentChannel_write resp ch) (set_env e' d).
Proof.
  intros Hc Hr Hn. unfold AgentChannel_onReadReady. mstep (read_cell_ok channels ch c d Hc).
  rewrite (M_bind_ok (kcall (k_read (ch_fd c) RPC_MESSAGE_MAX_SIZE)) _ d (nread, rdbuf, errno) (set_env e' d))
    by (unfold kcall; by rewrite Hr).
  rewrite (proj2 (Z.eqb_neq nread (-1))) by lia. cbn [andb]. by rewrite (proj2 (Z.eqb_neq nread 0)) by lia.
Qed.

Lemma write_incomplete resp ch d : retcode resp = None → AgentChannel_write resp ch d = Fault AssertFail.
Proof. intros Hr. unfold AgentChannel_write, IsInitialized. by rewrite Hr. Qed.
End dispatch.

(** ** Properties *)

(** C27. One request, one answer: when a message arrives on a channel and its
    handler returns, the daemon writes the handler's response to the channel,
    once; but for an empty request, a poll, select or setsockopt request, and a
    connect request on a UDP socket, whose handlers leave the required
    [retCode] unset, it stops on the assertion of [AgentChannel::write] (in a
    build with assertions). *)
Theorem request_response {E} `{Kernel E} `{Codec} parse ch c c' nread rdbuf errno e' resp (d d1 : Daemon E) :
  let req := default (parse rdbuf) (request_unpack rdbuf) in
  channels d !! ch = Some c → k_read (ch_fd c) RPC_MESSAGE_MAX_SIZE (env d) = ((nread, rdbuf, errno), e') →
  0 < nread → handleRequest ch req (set_env e' d) = Ok (resp, d1) →
  channels d1 !! ch = Some c' → length (response_pack resp) ≤ RPC_MESSAGE_MAX_SIZE →
  AgentChannel_onReadReady parse ch d =
    if unanswerable (channel_type d ch) req then Fault AssertFail else respond resp c' d1.
Proof.
  intros req Hc Hr Hn Hh Hc' Hl. rewrite (onReadReady_message parse ch c nread rdbuf errno e') by done.
  fold req. mstep Hh. pose proof (handleRequest_retcode ch req resp _ _ Hh) as Hrc.
  change (channel_type (set_env e' d) ch) with (channel_type d ch) in Hrc.
  destruct (unanswerable (channel_type d ch) req).
  - by apply write_incomplete, Hrc.
  - apply write_ok; [done| |done]. destruct (retcode resp) as [rc|]; [by exists rc|]. by destruct Hrc as [Hrc _]; specialize (Hrc eq_refl).
Qed.

(** ** Concrete runs *)

(** Channel 3 reads one message. *)
Definition sample_message (c : Calling) : list Z := request_pack (Codec := wire_codec) (mkRequest 77 (Some c)).
Definition reading (ty : EndpointType) (c : Calling) : Daemon dscript :=
  sample_udp (sample_endpoint ty []) (mkDScript 10 [(Z.of_nat (length (sample_message c)), sample_message c, 0)] [] [] [] []).
Definition no_request : list Z → Request := λ _, mkRequest 0 None.

Definition dns_sockname : Response :=
  mkResponse (Some RC_OK) (Some (RetGetsockname (mkRet 0 None) (Some (sockaddr_in (le_val [0;53]) (le_val [10;0;0;2]))))).

Lemma request_response_witness :
  AgentChannel_onReadReady (H0 := wire_codec) no_request 3 (reading EP_UDP (CallConnect peer_10_0_0_1)) = Fault AssertFail ∧
  written (AgentChannel_onReadReady (H0 := wire_codec) no_request 3 (reading EP_UDP CallGetsockname)) =
    Some [(9, response_pack (Codec := wire_codec) dns_sockname)].
Proof.
  split.
  - erewrite (request_response (H0 := wire_codec) no_request 3 (mkChannel 9 6 [] None (Some 2%nat))
      (mkChannel 9 6 [] None (Some 2%nat)) _ (sample_message (CallConnect peer_10_0_0_1)) 0);
      [reflexivity|reflexivity|reflexivity|done|vm_compute; reflexivity|vm_compute; reflexivity|vm_compute; discriminate].
  - erewrite (request_response (H0 := wire_codec) no_request 3 (mkChannel 9 6 [] None (Some 2%nat))
      (mkChannel 9 6 [] None (Some 2%nat)) _ (sample_message CallGetsockname) 0);
      [|reflexivity|reflexivity|done|vm_compute; reflexivity|vm_compute; reflexivity|vm_compute; discriminate].
    vm_compute. reflexivity.
Defined.
