(* ===== verification/Invariant.v ===== *)
(** * What is true in every reachable state

    One invariant of the whole daemon, preserved by every operation and so by
    every turn of every thread: the reactor's list of handles has no
    duplicates and is exactly the set of live handles that believe they are
    registered (the kernel's interest list holds no dangling pointer between
    turns), receive queues are bounded, frames keep their size, and ports,
    identifications and sequence numbers stay within their width.

    [dkeeps Q m] says that [m] preserves the invariant and that what it returns
    satisfies [Q]; the hint database [dkeeps] has one lemma per operation. *)

From S2P Require Import Prelude Csum16 Frame Session World DScript Reactor Rpc Wire Net Agent Udp Tcp Reassembly IpRx Dispatch Arbiter Boot ReactorSpec AgentSpec.

(** ** The invariant *)

Definition frame_ok (f : FrameBuf) : Prop := Z.of_nat (length (rawBytes f)) = maxRawBytesSize.
Definition endpoint_ok (ep : Endpoint) : Prop := length (recvQ ep) ≤ recvQlimit + 1.
Definition tcb_ok (t : Tcb) : Prop :=
  in_u32 (send_unack t) ∧ in_u32 (send_next t) ∧ in_u32 (irs t) ∧ in_u32 (recv_next t).
Definition pcb_ok (p : Pcb) : Prop := in_u16 (lport (p_base p)) ∧ opt_ok tcb_ok (p_tcb p).

Section inv.
Context {E : Type} `{Kernel E} `{Codec}.
Implicit Types d : Daemon E.

(** Whether the handle [c] is live and believes it is registered. *)
Definition registered d (c : nat) : Prop := ∃ h, handles d !! c = Some h ∧ io_owner h = true.

Record dinv d : Prop := {
  inv_frames : map_Forall (λ _, frame_ok) (frames d);
  inv_endpoints : map_Forall (λ _, endpoint_ok) (endpoints d);
  inv_sessions : map_Forall (λ _, pcb_ok) (sessions d);
  inv_ports : in_u16 (tcp_port d) ∧ in_u16 (udp_port d);
  inv_ids : opt_ok (λ g, in_u16 (last_id g)) (idgenerator d);
  inv_nodup : NoDup (loop_channels d);
  inv_registered : ∀ c, c ∈ loop_channels d ↔ registered d c;
  inv_fresh : ∀ c h, handles d !! c = Some h → (c < next_id d)%nat
}.

(** ** Programs that keep it *)

Definition dkeeps {A} (Q : A → Prop) (m : D E A) : Prop :=
  ∀ d, dinv d → match m d with Ok (a, d') => dinv d' ∧ Q a | Fault _ => True end.
Notation any := (λ _, True).

Lemma dkeeps_bind {A B} (Q : A → Prop) (R : B → Prop) (m : D E A) k :
  dkeeps Q m → (∀ a, Q a → dkeeps R (k a)) → dkeeps R (m ≫= k).
Proof.
  intros Hm Hk d Hd. unfold mbind, M_bind. specialize (Hm d Hd).
  destruct (m d) as [[a d1]|]; [|done]. destruct Hm as [Hd1 Ha]. by apply Hk.
Qed.
Lemma dkeeps_any {A} (Q : A → Prop) (m : D E A) : dkeeps Q m → dkeeps any m.
Proof. intros Hm d Hd. specialize (Hm d Hd). destruct (m d) as [[]|]; naive_solver. Qed.
Lemma dkeeps_ret {A} (Q : A → Prop) a : Q a → dkeeps Q (mret a).
Proof. intros Ha d Hd. done. Qed.
Lemma dkeeps_fail {A} (Q : A → Prop) f : dkeeps Q (fail f : D E A).
Proof. done. Qed.
Lemma dkeeps_lift {A} (Q : A → Prop) (r : res A) : (∀ a, r = Ok a → Q a) → dkeeps Q (lift_res r).
Proof. intros Hr d Hd. unfold lift_res. destruct r; [|done]. split; [done|by apply Hr]. Qed.
Lemma dkeeps_lift_any {A} (r : res A) : dkeeps any (lift_res r).
Proof. by apply dkeeps_lift. Qed.
Lemma dkeeps_deref {A} (o : option A) : dkeeps (λ a, o = Some a) (deref o).
Proof. apply dkeeps_lift. intros a Ha. destruct o; by simplify_eq/=. Qed.
Lemma dkeeps_assert b : dkeeps any (assert_ b : D E unit).
Proof. by destruct b. Qed.
Lemma dkeeps_gets {A} (f : Daemon E → A) : dkeeps any (gets f).
Proof. done. Qed.
Lemma dkeeps_get : dkeeps any (get_st : D E _).
Proof. done. Qed.
Lemma dkeeps_modify f : (∀ d, dinv d → dinv (f d)) → dkeeps any (modify f).
Proof. intros Hf d Hd. split; [by apply Hf|done]. Qed.
Lemma dkeeps_kcall {A} (f : E → A * E) : dkeeps any (kcall f).
Proof. intros d Hd. rewrite kcall_ok. split; [|done]. by destruct Hd; constructor. Qed.
Lemma dkeeps_kcall_ (f : E → E) : dkeeps any (kcall_ f).
Proof. apply dkeeps_modify. by intros d []; constructor. Qed.
Lemma dkeeps_fresh : dkeeps any fresh.
Proof.
  intros d Hd. split; [|done]. destruct Hd as [? ? ? ? ? ? ? Hf]; constructor; try done.
  intros c h Hc. cbn. specialize (Hf c h Hc). lia.
Qed.

(** Cells. *)
Lemma dkeeps_the_frame i : dkeeps frame_ok (the_frame i).
Proof. intros d Hd. unfold the_frame, read_cell. destruct (frames d !! i) eqn:Hi; [|done]. split; [done|]. by eapply inv_frames. Qed.
Lemma dkeeps_the_endpoint i : dkeeps endpoint_ok (the_endpoint i).
Proof. intros d Hd. unfold the_endpoint, read_cell. destruct (endpoints d !! i) eqn:Hi; [|done]. split; [done|]. by eapply inv_endpoints. Qed.
Lemma dkeeps_the_pcb i : dkeeps pcb_ok (the_pcb i).
Proof. intros d Hd. unfold the_pcb, read_cell. destruct (sessions d !! i) eqn:Hi; [|done]. split; [done|]. by eapply inv_sessions. Qed.
Lemma dkeeps_the_channel i : dkeeps any (the_channel i).
Proof. intros d Hd. unfold the_channel, read_cell. by destruct (channels d !! i). Qed.
Lemma dkeeps_the_handle i : dkeeps any (the_handle i).
Proof. intros d Hd. unfold the_handle, read_cell. by destruct (handles d !! i). Qed.
Lemma dkeeps_put_frame i f : frame_ok f → dkeeps any (put_frame i f).
Proof. intros Hf. apply dkeeps_modify. intros d []; constructor; try done. by apply map_Forall_insert_2. Qed.
Lemma dkeeps_put_endpoint i s : endpoint_ok s → dkeeps any (put_endpoint i s).
Proof. intros Hf. apply dkeeps_modify. intros d []; constructor; try done. by apply map_Forall_insert_2. Qed.
Lemma dkeeps_put_pcb i p : pcb_ok p → dkeeps any (put_pcb i p).
Proof. intros Hf. apply dkeeps_modify. intros d []; constructor; try done. by apply map_Forall_insert_2. Qed.
Lemma dkeeps_put_channel i c : dkeeps any (put_channel i c).
Proof. apply dkeeps_modify. by intros d []; constructor. Qed.
Lemma dkeeps_del_pcb i : dkeeps any (del_pcb i).
Proof. apply dkeeps_modify. intros d []; constructor; try done. by apply map_Forall_delete. Qed.
Lemma dkeeps_del_endpoint i : dkeeps any (del_endpoint i).
Proof. apply dkeeps_modify. intros d []; constructor; try done. by apply map_Forall_delete. Qed.
Lemma dkeeps_del_channel i : dkeeps any (del_channel i).
Proof. apply dkeeps_modify. by intros d []; constructor. Qed.
End inv.
Notation any := (λ _, True).

Create HintDb dkeeps discriminated.
#[export] Hint Resolve dkeeps_lift_any dkeeps_deref dkeeps_assert dkeeps_gets dkeeps_get dkeeps_kcall dkeeps_kcall_
  dkeeps_fresh dkeeps_the_frame dkeeps_the_endpoint dkeeps_the_pcb dkeeps_the_channel dkeeps_the_handle
  dkeeps_put_frame dkeeps_put_endpoint dkeeps_put_pcb dkeeps_put_channel dkeeps_del_pcb dkeeps_del_endpoint
  dkeeps_del_channel : dkeeps.

(** Walk through a program: binds by the operation's lemma, cases by case. *)
Ltac dkeeps_step :=
  first
    [ progress intros
    | apply dkeeps_ret; try done
    | apply dkeeps_fail
    | solve [eauto with dkeeps]
    | eapply dkeeps_any; solve [eauto with dkeeps]
    | eapply dkeeps_bind; [solve [eauto with dkeeps]|]
    | match goal with
      | |- dkeeps _ (match ?x with _ => _ end) => destruct x eqn:?
      | |- dkeeps _ ((match ?x with _ => _ end) ≫= _) => destruct x eqn:?
      | |- dkeeps _ (mbind _ (mbind _ _)) => eapply (dkeeps_bind any)
      end ].
Ltac dkeeps := repeat dkeeps_step.

(** A change of fields the invariant does not mention. *)
Ltac dkeeps_modify_tac := apply dkeeps_modify; let d := fresh "d" in intros d []; by constructor.

Section reactor.
Context {E : Type} `{Kernel E} `{Codec}.
Implicit Types d : Daemon E.

(** ** Handles *)

Lemma dinv_handles (i : nat) (h h' : IoHandle) d :
  dinv d → handles d !! i = Some h → io_owner h' = io_owner h →
  dinv (set_handles (<[i := h']> (handles d)) d).
Proof.
  intros [? ? ? ? ? ? Hr Hf] Hi Ho. constructor; try done.
  - intros c. cbn. rewrite Hr. unfold registered. cbn.
    destruct (decide (c = i)) as [->|Hne]; [rewrite lookup_insert_eq|by rewrite lookup_insert_ne].
    rewrite Hi. split; intros (x & [= <-] & ?); eexists; (split; [done|congruence]).
  - intros c h0. cbn. destruct (decide (c = i)) as [->|Hne]; [by eauto|rewrite lookup_insert_ne by done; eauto].
Qed.

Lemma dkeeps_upd_handle i f : (∀ h, io_owner (f h) = io_owner h) → dkeeps any (upd_handle i f : D E unit).
Proof.
  intros Hf d Hd. unfold upd_handle, mbind, M_bind, the_handle, read_cell.
  destruct (handles d !! i) as [h|] eqn:Hi; [|done]. split; [|done]. by eapply dinv_handles.
Qed.

Lemma dinv_env e d : dinv d → dinv (set_env e d).
Proof. by intros []; constructor. Qed.

(** Registration: [addChannel] and [setOwnerEventReactor] together. *)
Lemma dkeeps_register c : dkeeps any (register c : D E unit).
Proof.
  intros d Hd. unfold register. destruct (handles d !! c) as [h|] eqn:Hc.
  2: { unfold mbind, M_bind. destruct (EventReactor_addChannel c d) as [[u d1]|] eqn:He; [|done].
       unfold EventReactor_addChannel in He. apply M_bind_inv in He as (b & d2 & Hb & He).
       injection Hb as <- <-.
       unfold IoHandle_setOwnerEventReactor, upd_handle, the_handle, read_cell, mbind, M_bind.
       destruct (bool_decide (c ∈ loop_channels d)) eqn:Hin; cbn [negb] in He.
       - injection He as <- <-. by rewrite Hc.
       - unfold SysPoller_addChannel, the_handle, read_cell, mbind, M_bind in He. by rewrite Hc in He. }
  mstep (addChannel_eq c h d Hc). unfold IoHandle_setOwnerEventReactor.
  destruct (decide (c ∈ loop_channels d)) as [Hin|Hin].
  - rewrite (upd_handle_ok c _ h d Hc). split; [|done]. apply dinv_handles with h; [done|done|].
    apply inv_registered in Hin as (h' & Hh' & Ho); [|done]. cbn. congruence.
  - rewrite (upd_handle_ok c _ h (set_loop_channels (loop_channels d ++ [c])
               (epoll_add (io_fd h) (io_interested h) c d)) Hc). split; [|done].
    destruct Hd as [? ? ? ? ? Hn Hr Hf]. constructor; try done.
    + cbn. apply NoDup_app. split_and!; [done|set_solver|]. apply NoDup_singleton.
    + intros x. cbn. rewrite elem_of_app, Hr, list_elem_of_singleton. unfold registered. cbn.
      destruct (decide (x = c)) as [->|Hne]; [rewrite lookup_insert_eq|rewrite lookup_insert_ne by done; naive_solver].
      split; [intros _|by right]. eexists. split; [done|done].
    + intros x h0. cbn. destruct (decide (x = c)) as [->|Hne]; [by eauto|rewrite lookup_insert_ne by done; eauto].
Qed.

(** Taking the handle off the loop, and then changing or deleting it. *)
Lemma dinv_detach c h d (hs : gmap nat IoHandle) :
  dinv d → handles d !! c = Some h →
  (∀ x, x ≠ c → hs !! x = handles d !! x) → (∀ h', hs !! c = Some h' → io_owner h' = false) →
  dinv (set_handles hs (detached c h d)).
Proof.
  intros Hd Hc Hne Hoff. destruct Hd as [? ? ? ? ? Hn Hr Hf].
  assert (∀ x, x ∈ erase_first c (loop_channels d) ↔ registered (set_handles hs d) x) as Hreg.
  { intros x. rewrite elem_of_erase_first by done. rewrite Hr. unfold registered. cbn.
    destruct (decide (x = c)) as [->|Hx].
    - split; [naive_solver|]. intros (h' & Hh' & Ho). specialize (Hoff h' Hh'). congruence.
    - rewrite (Hne x Hx). naive_solver. }
  assert (∀ x h', hs !! x = Some h' → (x < next_id d)%nat) as Hfr.
  { intros x h' Hx. destruct (decide (x = c)) as [->|Hxc]; [by eauto|]. rewrite (Hne x Hxc) in Hx. eauto. }
  unfold detached. destruct (io_owner h) eqn:Ho.
  - rewrite decide_True by (apply Hr; by exists h). constructor; try done. by apply NoDup_erase_first.
  - constructor; try done. intros x. rewrite <-Hreg. rewrite elem_of_erase_first by done.
    split; [|naive_solver]. intros Hx. split; [done|]. intros ->.
    apply Hr in Hx as (h' & Hh' & Ho'). congruence.
Qed.

Lemma dkeeps_unregister c : dkeeps any (IoHandle_unregisterSelf c : D E unit).
Proof.
  intros d Hd. destruct (handles d !! c) as [h|] eqn:Hc.
  - rewrite (unregister_eq c h d Hc). split; [|done]. apply dinv_detach; try done.
    + intros x Hx. by rewrite lookup_insert_ne.
    + intros h'. rewrite lookup_insert_eq. by intros [= <-].
  - unfold IoHandle_unregisterSelf, the_handle, read_cell, mbind, M_bind. by rewrite Hc.
Qed.

Lemma dkeeps_handle_delete c : dkeeps any (IoHandle_delete c : D E unit).
Proof.
  intros d Hd. destruct (handles d !! c) as [h|] eqn:Hc.
  - rewrite (delete_eq c h d Hc). split; [|done]. apply dinv_detach; try done.
    + intros x Hx. by rewrite lookup_delete_ne.
    + intros h'. by rewrite lookup_delete_eq.
  - unfold IoHandle_delete, the_handle, read_cell, mbind, M_bind. by rewrite Hc.
Qed.
End reactor.
#[export] Hint Extern 1 (dkeeps _ (upd_handle _ _)) => by apply dkeeps_upd_handle : dkeeps.
#[export] Hint Resolve dkeeps_register dkeeps_unregister dkeeps_handle_delete : dkeeps.

Section ops.
Context {E : Type} `{Kernel E} `{Codec}.
Implicit Types d : Daemon E.
Notation D := (D E).

(** ** The reactor's operations *)

Lemma dkeeps_new_cell fd : dkeeps any
  (i ← fresh; _ ← put_handle i (mkIoHandle fd noneEvent noneEvent false false None None None None); mret i : D nat).
Proof.
  intros d Hd. split; [|done]. destruct Hd as [? ? ? ? ? Hn Hr Hf]. constructor; try done.
  - intros c. cbn. rewrite Hr. unfold registered. cbn.
    destruct (decide (c = next_id d)) as [->|Hne]; [|by rewrite lookup_insert_ne].
    rewrite lookup_insert_eq. split; [|by intros (? & [= <-] & ?)].
    intros (h & Hh & _). apply Hf in Hh. lia.
  - intros c h. cbn. destruct (decide (c = next_id d)) as [->|Hne]; [lia|].
    rewrite lookup_insert_ne by done. intros Hh. apply Hf in Hh. lia.
Qed.
Lemma dkeeps_IoHandle_new fd : dkeeps any (IoHandle_new fd : D nat).
Proof.
  unfold IoHandle_new. eapply dkeeps_bind; [apply dkeeps_kcall|]. intros fl _.
  eapply dkeeps_bind; [apply dkeeps_kcall_|]. intros _ _. apply dkeeps_new_cell.
Qed.

Lemma dkeeps_setOnReadCB cb i : dkeeps any (IoHandle_setOnReadCB cb i : D unit).
Proof. by apply dkeeps_upd_handle. Qed.
Lemma dkeeps_setOnCloseCB cb i : dkeeps any (IoHandle_setOnCloseCB cb i : D unit).
Proof. by apply dkeeps_upd_handle. Qed.
Lemma dkeeps_updateChannel c : dkeeps any (EventReactor_updateChannel c : D unit).
Proof. unfold EventReactor_updateChannel, EventReactor_hasChannel, SysPoller_updateChannel. dkeeps. Qed.
Hint Resolve dkeeps_updateChannel : dkeeps.
Lemma dkeeps_enableReading i : dkeeps any (IoHandle_enableReading i : D unit).
Proof. unfold IoHandle_enableReading, change_interest. dkeeps. Qed.
Lemma dkeeps_poll_fds evs : dkeeps any (poll_fds evs : D unit).
Proof. induction evs as [|[ev c] evs IH]; cbn [poll_fds]; dkeeps. Qed.
Lemma dkeeps_poll_deliver evs : dkeeps any (poll_deliver evs : D _).
Proof.
  induction evs as [|[ev c] evs IH]; cbn [poll_deliver]; dkeeps.
Qed.
Hint Resolve dkeeps_poll_fds dkeeps_poll_deliver : dkeeps.
Lemma dkeeps_poll t : dkeeps any (SysPoller_poll t : D _).
Proof. unfold SysPoller_poll. dkeeps. Qed.

Section turn.
Context (run_cb : callback → D unit) (Hcb : ∀ cb, dkeeps any (run_cb cb)).
Lemma dkeeps_fire get i : dkeeps any (fire run_cb get i).
Proof. unfold fire. dkeeps. Qed.
Hint Resolve dkeeps_fire : dkeeps.
Lemma dkeeps_handleEvents i : dkeeps any (IoHandle_handleEventsReceived run_cb i).
Proof. unfold IoHandle_handleEventsReceived. dkeeps. Qed.
Hint Resolve dkeeps_handleEvents : dkeeps.
Lemma dkeeps_handle_actives cs : dkeeps any (handle_actives run_cb cs).
Proof. induction cs as [|c cs IH]; cbn [handle_actives]; dkeeps. Qed.
Lemma dkeeps_turn : dkeeps any (EventReactor_turn run_cb).
Proof.
  unfold EventReactor_turn. eapply dkeeps_bind; [apply dkeeps_poll|]. intros cs _.
  eapply dkeeps_bind; [dkeeps_modify_tac|]. intros _ _.
  eapply dkeeps_bind; [apply dkeeps_handle_actives|]. intros _ _. dkeeps_modify_tac.
Qed.
End turn.
End ops.
#[export] Hint Resolve dkeeps_IoHandle_new dkeeps_setOnReadCB dkeeps_setOnCloseCB dkeeps_enableReading : dkeeps.

(** ** Stores keep a frame's size *)

Definition rkeeps (r : res FrameBuf) : Prop := ∀ f, r = Ok f → frame_ok f.

Lemma rkeeps_bind (r : res FrameBuf) k : rkeeps r → (∀ f, frame_ok f → rkeeps (k f)) → rkeeps (r ≫= k).
Proof. intros Hr Hk f. destruct r as [f0|]; [|done]. cbn. by apply Hk, Hr. Qed.
Lemma rkeeps_bind_val {A} (r : res A) (k : A → res FrameBuf) : (∀ a, rkeeps (k a)) → rkeeps (r ≫= k).
Proof. intros Hk f. destruct r as [a|]; [|done]. apply Hk. Qed.
Lemma rkeeps_ok f : frame_ok f → rkeeps (Ok f).
Proof. by intros Hf ? [= <-]. Qed.
Lemma rkeeps_st (w : list Z → Z → Z → option (list Z)) f p off v :
  (∀ l o v l', w l o v = Some l' → length l' = length l) → frame_ok f → rkeeps (st w f p off v).
Proof.
  intros Hw Hf f'. unfold st. destruct p as [|o|]; [done| |done].
  destruct (w (rawBytes f) (o + off) v) as [l|] eqn:Hs; [|done]. cbn. intros [= <-].
  unfold frame_ok in *. cbn. by rewrite (Hw _ _ _ _ Hs).
Qed.
Lemma rkeeps_st8 f p off v : frame_ok f → rkeeps (st8 f p off v).
Proof. apply rkeeps_st. intros ? ? ? ?. apply store_length. Qed.
Lemma rkeeps_st16 f p off v : frame_ok f → rkeeps (st16 f p off v).
Proof. apply rkeeps_st. intros ? ? ? ?. apply store_length. Qed.
Lemma rkeeps_st32 f p off v : frame_ok f → rkeeps (st32 f p off v).
Proof. apply rkeeps_st. intros ? ? ? ?. apply store_length. Qed.
Lemma rkeeps_store f o bs (k : list Z → res FrameBuf) : frame_ok f →
  (∀ l, frame_ok (set_rawBytes l f) → rkeeps (k l)) → rkeeps (l ← of_option OutOfBounds (store (rawBytes f) o bs); k l).
Proof.
  intros Hf Hk f'. destruct (store (rawBytes f) o bs) as [l|] eqn:Hs; [|done]. apply Hk.
  unfold frame_ok in *. cbn. by rewrite (store_length _ _ _ _ Hs).
Qed.

#[export] Hint Resolve rkeeps_st8 rkeeps_st16 rkeeps_st32 rkeeps_ok : dkeeps.
Ltac rkeeps :=
  repeat first
    [ progress intros
    | apply rkeeps_store; [done|]
    | solve [eauto with dkeeps]
    | apply rkeeps_bind; [solve [eauto with dkeeps]|]
    | apply rkeeps_bind_val
    | match goal with |- rkeeps (match ?x with _ => _ end) => destruct x eqn:? end ].

Lemma new_frame_ok : frame_ok new_FrameBuf.
Proof. unfold frame_ok. cbn [rawBytes new_FrameBuf]. by rewrite length_replicate. Qed.
Lemma rkeeps_flag b f p : frame_ok f → rkeeps (st_tcp_flag b f p).
Proof. unfold st_tcp_flag. rkeeps. Qed.
Lemma rkeeps_doff f p v : frame_ok f → rkeeps (st_doff f p v).
Proof. unfold st_doff. rkeeps. Qed.
Lemma rkeeps_ihl f p v : frame_ok f → rkeeps (st_ihl f p v).
Proof. unfold st_ihl. rkeeps. Qed.
Lemma rkeeps_version f p v : frame_ok f → rkeeps (st_version f p v).
Proof. unfold st_version. rkeeps. Qed.
#[export] Hint Resolve rkeeps_flag rkeeps_doff rkeeps_ihl rkeeps_version : dkeeps.
Lemma rkeeps_udp_frame s len f : frame_ok f → rkeeps (udp_frame s len f).
Proof. unfold udp_frame. rkeeps. Qed.
Lemma rkeeps_template s f : frame_ok f → rkeeps (tcp_template s f).
Proof. unfold tcp_template. rkeeps. Qed.
Lemma rkeeps_finish s buf f : frame_ok f → rkeeps (tcp_finish s buf f).
Proof. unfold tcp_finish. rkeeps. Qed.
Lemma rkeeps_ip_header id f : frame_ok f → rkeeps (ip_header id f).
Proof. unfold ip_header. rkeeps. Qed.
#[export] Hint Resolve rkeeps_udp_frame rkeeps_template rkeeps_finish rkeeps_ip_header : dkeeps.

Section net.
Context {E : Type} `{Kernel E} `{Codec}.
Notation D := (D E).

Lemma dkeeps_lift_frame (r : res FrameBuf) : rkeeps r → dkeeps frame_ok (lift_res r : D _).
Proof. intros Hr. by apply dkeeps_lift. Qed.
Lemma dkeeps_upd_frame i g : (∀ f, frame_ok f → rkeeps (g f)) → dkeeps any (upd_frame i g : D unit).
Proof.
  intros Hg. unfold upd_frame. eapply dkeeps_bind; [apply dkeeps_the_frame|]. intros f Hf.
  eapply dkeeps_bind; [by apply dkeeps_lift_frame, Hg|]. intros f' Hf'. by apply dkeeps_put_frame.
Qed.
Lemma dkeeps_get_frame {A} i (g : FrameBuf → res A) : dkeeps any (get_frame i g : D A).
Proof. unfold get_frame. dkeeps. Qed.
Lemma dkeeps_make_FrameBuf : dkeeps any (make_FrameBuf : D nat).
Proof. unfold make_FrameBuf. pose proof new_frame_ok. dkeeps. Qed.
End net.
#[export] Hint Extern 1 (dkeeps _ (upd_frame _ _)) => apply dkeeps_upd_frame; rkeeps : dkeeps.
#[export] Hint Resolve dkeeps_get_frame dkeeps_make_FrameBuf : dkeeps.

Section layers.
Context {E : Type} `{Kernel E} `{Codec}.
Context (indet : list Z).
Notation D := (D E).

(** ** Interface and IP *)

Lemma dkeeps_tx_gather n curr bs : dkeeps any (tx_gather n curr bs : D _).
Proof. revert curr bs. induction n as [|n IH]; intros [i|] bs; cbn [tx_gather]; dkeeps. Qed.
Hint Resolve dkeeps_tx_gather : dkeeps.
Lemma dkeeps_TunIface_tx fd k : dkeeps any (TunIface_tx fd k : D _).
Proof. unfold TunIface_tx. dkeeps. Qed.
Hint Resolve dkeeps_TunIface_tx : dkeeps.
Lemma dkeeps_Interface_tx k : dkeeps any (Interface_tx k : D _).
Proof. unfold Interface_tx. dkeeps. Qed.
Hint Resolve dkeeps_Interface_tx : dkeeps.
Lemma dkeeps_TunIface_rx fd k : dkeeps any (TunIface_rx fd k : D _).
Proof. unfold TunIface_rx. dkeeps. Qed.
Hint Resolve dkeeps_TunIface_rx : dkeeps.
Lemma dkeeps_enRxQue k : dkeeps any (Ip_enRxQue k : D _).
Proof. unfold Ip_enRxQue. dkeeps. dkeeps_modify_tac. Qed.
Hint Resolve dkeeps_enRxQue : dkeeps.
Lemma dkeeps_Interface_turn : dkeeps any (Interface_turn : D _).
Proof. unfold Interface_turn. dkeeps. Qed.

Lemma next_id_ok g : in_u16 (last_id (IpIdGenerator_next g).2).
Proof. apply u16_range. Qed.
Lemma dkeeps_set_idgen g : dkeeps any (modify (set_idgenerator (Some (IpIdGenerator_next g).2)) : D _).
Proof. apply dkeeps_modify. intros d []; constructor; try done. apply next_id_ok. Qed.

Lemma dkeeps_Ip_tx k buf : dkeeps any (Ip_tx k buf : D _).
Proof.
  unfold Ip_tx. dkeeps. eapply dkeeps_bind.
  { replace i with (IpIdGenerator_next a2).2 by (by rewrite Heqp). apply dkeeps_set_idgen. }
  intros _ _. eapply dkeeps_bind; [by apply dkeeps_lift_frame, rkeeps_ip_header|]. intros f Hf.
  eapply dkeeps_bind; [apply dkeeps_put_frame, Hf|]. dkeeps.
Qed.
Hint Resolve dkeeps_Ip_tx : dkeeps.

(** ** Endpoints and channels *)

Lemma dkeeps_upd_endpoint i f : (∀ s, endpoint_ok s → endpoint_ok (f s)) → dkeeps any (upd_endpoint i f : D _).
Proof. intros Hf. unfold upd_endpoint. dkeeps. Qed.
Lemma dkeeps_upd_pcb i f : (∀ p, pcb_ok p → pcb_ok (f p)) → dkeeps any (upd_pcb i f : D _).
Proof. intros Hf. unfold upd_pcb. dkeeps. Qed.
Lemma dkeeps_upd_channel i f : dkeeps any (upd_channel i f : D _).
Proof. unfold upd_channel. dkeeps. Qed.
Lemma dkeeps_putToRecvQ a k i : dkeeps any (Endpoint_putToRecvQ a k i : D _).
Proof.
  unfold Endpoint_putToRecvQ, Endpoint_markSChannelAsReadable. dkeeps_step. intros s Hs.
  destruct (Z.ltb_spec recvQlimit (length (recvQ s))); [dkeeps|].
  eapply dkeeps_bind; [apply dkeeps_put_endpoint|dkeeps].
  unfold endpoint_ok. cbn. rewrite length_app. cbn. lia.
Qed.
Lemma dkeeps_try_take i : dkeeps any (Endpoint_try_takeFromRecvQ i : D _).
Proof.
  unfold Endpoint_try_takeFromRecvQ. dkeeps_step. intros s Hs. destruct (recvQ s) as [|x q] eqn:Hq; [dkeeps|].
  eapply dkeeps_bind; [apply dkeeps_put_endpoint|dkeeps].
  unfold endpoint_ok in *. rewrite Hq in Hs. cbn in *. lia.
Qed.
Lemma dkeeps_drain_pipe n fd : dkeeps any (drain_pipe n fd : D _).
Proof. induction n as [|n IH]; cbn [drain_pipe]; dkeeps. Qed.
Lemma dkeeps_write resp i : dkeeps any (AgentChannel_write resp i : D _).
Proof. unfold AgentChannel_write. dkeeps. Qed.
Lemma dkeeps_lock_endpoint so : dkeeps any (lock_endpoint so : D _).
Proof. unfold lock_endpoint. dkeeps. Qed.
Lemma dkeeps_channel_socket i : dkeeps any (channel_socket i : D _).
Proof. unfold channel_socket. dkeeps. Qed.
Lemma dkeeps_endpoint_pcb i : dkeeps any (endpoint_pcb i : D _).
Proof. unfold endpoint_pcb. dkeeps. Qed.
Hint Resolve dkeeps_upd_channel dkeeps_putToRecvQ dkeeps_try_take dkeeps_drain_pipe dkeeps_write dkeeps_lock_endpoint
  dkeeps_channel_socket dkeeps_endpoint_pcb : dkeeps.
Lemma dkeeps_connEstab ch : dkeeps any (connEstab ch : D _).
Proof. unfold connEstab. dkeeps. Qed.
Hint Resolve dkeeps_connEstab : dkeeps.

Lemma new_session_ok a t : opt_ok tcb_ok t → pcb_ok (mkPcb (Session_new a) t).
Proof. intros Ht. split; [|done]. cbn. unfold in_u16. lia. Qed.
Lemma dkeeps_TcpSession_new : dkeeps any (TcpSession_new : D _).
Proof.
  unfold TcpSession_new. dkeeps. eapply dkeeps_bind; [apply dkeeps_put_pcb, new_session_ok|dkeeps].
  unfold opt_ok, tcb_ok, in_u32. cbn. lia.
Qed.
Lemma dkeeps_UdpSession_new : dkeeps any (UdpSession_new : D _).
Proof. unfold UdpSession_new. dkeeps. eapply dkeeps_bind; [by apply dkeeps_put_pcb, new_session_ok|dkeeps]. Qed.
Hint Resolve dkeeps_TcpSession_new dkeeps_UdpSession_new : dkeeps.
Lemma dkeeps_Tcp_newSession : dkeeps any (Tcp_newSession : D _).
Proof. unfold Tcp_newSession. dkeeps. eapply dkeeps_bind; [dkeeps_modify_tac|dkeeps]. Qed.
Lemma dkeeps_Udp_newSession : dkeeps any (Udp_newSession : D _).
Proof. unfold Udp_newSession. dkeeps. eapply dkeeps_bind; [dkeeps_modify_tac|dkeeps]. Qed.
Lemma dkeeps_Session_delete i : dkeeps any (Session_delete i : D _).
Proof. unfold Session_delete. dkeeps. Qed.
Lemma dkeeps_Endpoint_new ty nb : dkeeps any (Endpoint_new ty nb : D _).
Proof.
  unfold Endpoint_new. dkeeps. eapply dkeeps_bind; [apply dkeeps_put_endpoint|dkeeps]. unfold endpoint_ok, recvQlimit. cbn. lia.
Qed.
Hint Resolve dkeeps_Tcp_newSession dkeeps_Udp_newSession dkeeps_Session_delete dkeeps_Endpoint_new : dkeeps.
Lemma dkeeps_Endpoint_delete i : dkeeps any (Endpoint_delete i : D _).
Proof. unfold Endpoint_delete. dkeeps. Qed.
Hint Resolve dkeeps_Endpoint_delete : dkeeps.
Lemma dkeeps_AgentChannel_new fd : dkeeps any (AgentChannel_new fd : D _).
Proof. unfold AgentChannel_new. dkeeps. Qed.
Lemma dkeeps_AgentChannel_delete i : dkeeps any (AgentChannel_delete i : D _).
Proof. unfold AgentChannel_delete. dkeeps. Qed.
Lemma dkeeps_setSocket s i : dkeeps any (AgentChannel_setSocket s i : D _).
Proof. unfold AgentChannel_setSocket. dkeeps. Qed.
Hint Resolve dkeeps_AgentChannel_new dkeeps_AgentChannel_delete dkeeps_setSocket : dkeeps.

(** ** UDP *)

(** A base method keeps ports within 16 bits. *)
Definition base_ok (f : Session → Z → Z * Session * Z) : Prop :=
  ∀ s port, in_u16 (lport s) → in_u16 port → in_u16 (lport (f s port).1.2) ∧ in_u16 (f s port).2.
Lemma base_connect a p : base_ok (Session_connect a p).
Proof.
  intros s port Hs Hp. unfold Session_connect, Session_bind, nextAvailPort. cbn.
  destruct (lport s =? 0) eqn:Hl; cbn; rewrite ?Hl; [|done]. cbn. split; [apply bswap16_range|apply u16_range].
Qed.
Lemma base_send : base_ok Session_send.
Proof.
  intros s port Hs Hp. unfold Session_send, Session_bind, nextAvailPort.
  destruct (lport s =? 0) eqn:Hl; [|done]. cbn. split; [apply bswap16_range|apply u16_range].
Qed.
Lemma base_send_to a p : base_ok (Session_send_to a p).
Proof.
  intros s port Hs Hp. unfold Session_send_to, Session_bind, nextAvailPort.
  destruct (lport s =? 0) eqn:Hl; [|done]. cbn. split; [apply bswap16_range|apply u16_range].
Qed.

Lemma dkeeps_udp_base f i : base_ok f → dkeeps any (udp_base f i : D _).
Proof.
  intros Hf d Hd. unfold udp_base, mbind, M_bind, the_pcb, read_cell.
  destruct (sessions d !! i) as [p|] eqn:Hi; [|done].
  pose proof (inv_sessions _ Hd i p Hi) as [Hl Ht].
  specialize (Hf (p_base p) (udp_port d) Hl (proj2 (inv_ports _ Hd))). cbn.
  destruct (f (p_base p) (udp_port d)) as [[r s] port]. destruct Hf as [Hf1 Hf2]. split; [|done].
  destruct Hd; constructor; try done; [by apply map_Forall_insert_2|naive_solver].
Qed.
Lemma dkeeps_tcp_base f i : base_ok f → dkeeps any (tcp_base f i : D _).
Proof.
  intros Hf d Hd. unfold tcp_base, mbind, M_bind, the_pcb, read_cell.
  destruct (sessions d !! i) as [p|] eqn:Hi; [|done].
  pose proof (inv_sessions _ Hd i p Hi) as [Hl Ht].
  specialize (Hf (p_base p) (tcp_port d) Hl (proj1 (inv_ports _ Hd))). cbn.
  destruct (f (p_base p) (tcp_port d)) as [[r s] port]. destruct Hf as [Hf1 Hf2]. split; [|done].
  destruct Hd; constructor; try done; [by apply map_Forall_insert_2|naive_solver].
Qed.
Hint Resolve dkeeps_udp_base dkeeps_tcp_base base_connect base_send base_send_to : dkeeps.

Lemma dkeeps_UdpSession_send buf i : dkeeps any (UdpSession_send buf i : D _).
Proof. unfold UdpSession_send. dkeeps. Qed.
Hint Resolve dkeeps_UdpSession_send : dkeeps.
Lemma dkeeps_UdpSession_send_to a p buf i : dkeeps any (UdpSession_send_to a p buf i : D _).
Proof.
  unfold UdpSession_send_to. dkeeps. eapply dkeeps_bind; [by apply dkeeps_upd_pcb|dkeeps].
Qed.
Lemma dkeeps_UdpSession_recv a k i : dkeeps any (UdpSession_recv a k i : D _).
Proof. unfold UdpSession_recv. dkeeps. Qed.
Hint Resolve dkeeps_UdpSession_send_to dkeeps_UdpSession_recv : dkeeps.
Lemma dkeeps_Udp_rx k : dkeeps any (Udp_rx k : D _).
Proof. unfold Udp_rx. dkeeps. Qed.
Hint Resolve dkeeps_Udp_rx : dkeeps.

(** ** TCP *)

Lemma dkeeps_the_tcb i : dkeeps tcb_ok (the_tcb i : D _).
Proof.
  unfold the_tcb. eapply dkeeps_bind; [apply dkeeps_the_pcb|]. intros p [_ Hp]. apply dkeeps_lift.
  intros t Ht. destruct (p_tcb p); by simplify_eq/=.
Qed.
Lemma dkeeps_upd_tcb i f : (∀ t, tcb_ok t → tcb_ok (f t)) → dkeeps any (upd_tcb i f : D _).
Proof.
  intros Hf. unfold upd_tcb. eapply dkeeps_bind; [apply dkeeps_the_pcb|]. intros p [Hl Hp].
  eapply dkeeps_bind; [apply dkeeps_deref|]. intros t Ht. rewrite Ht in Hp. apply dkeeps_put_pcb.
  split; [done|]. by apply Hf.
Qed.
Lemma dkeeps_templ i : dkeeps any (TcpSession_socketBufferOfTcpTempl i : D _).
Proof. unfold TcpSession_socketBufferOfTcpTempl. dkeeps. Qed.
Lemma dkeeps_prepare k buf i : dkeeps any (TcpSession_prepareBeforeIpTx k buf i : D _).
Proof. unfold TcpSession_prepareBeforeIpTx. dkeeps. Qed.
Hint Resolve dkeeps_the_tcb dkeeps_templ dkeeps_prepare : dkeeps.
Lemma dkeeps_ack2peer v i : dkeeps any (TcpSession_ack2peer v i : D _).
Proof. unfold TcpSession_ack2peer. dkeeps. Qed.
Hint Resolve dkeeps_ack2peer : dkeeps.

(** Updates of the control block with words. *)
Ltac tcb := apply dkeeps_upd_tcb; intros ? (? & ? & ? & ?); try case_match; split_and!; cbn;
  first [done | apply u32_range | apply bswap32_range | unfold in_u32, iss; lia].
Hint Extern 1 (dkeeps _ (upd_tcb _ _)) => solve [tcb] : dkeeps.
Lemma dkeeps_send_closed k i : dkeeps any (TcpSession_send_closed k i : D _).
Proof. unfold TcpSession_send_closed. dkeeps. Qed.
Lemma dkeeps_send_estab buf k i : dkeeps any (TcpSession_send_estab buf k i : D _).
Proof. unfold TcpSession_send_estab. dkeeps. Qed.
Hint Resolve dkeeps_send_closed dkeeps_send_estab : dkeeps.
Lemma dkeeps_TcpSession_send buf i : dkeeps any (TcpSession_send buf i : D _).
Proof. unfold TcpSession_send. dkeeps. Qed.
Hint Resolve dkeeps_TcpSession_send : dkeeps.
Lemma dkeeps_TcpSession_connect a p i : dkeeps any (TcpSession_connect a p i : D _).
Proof. unfold TcpSession_connect. dkeeps. Qed.
Lemma dkeeps_setOnConnEstab ch i : dkeeps any (TcpSession_setOnConnEstabCB ch i : D _).
Proof. unfold TcpSession_setOnConnEstabCB. dkeeps. Qed.
Lemma dkeeps_fireConnEstab i : dkeeps any (TcpSession_fireConnEstab i : D _).
Proof. unfold TcpSession_fireConnEstab. dkeeps. Qed.
Hint Resolve dkeeps_TcpSession_connect dkeeps_setOnConnEstab dkeeps_fireConnEstab : dkeeps.
Lemma dkeeps_recv_syn_sent f i : dkeeps any (TcpSession_recv_syn_sent f i : D _).
Proof. unfold TcpSession_recv_syn_sent. dkeeps. Qed.
Lemma dkeeps_recv_estab k i : dkeeps any (TcpSession_recv_estab indet k i : D _).
Proof. unfold TcpSession_recv_estab. dkeeps. Qed.
Hint Resolve dkeeps_recv_syn_sent dkeeps_recv_estab : dkeeps.
Lemma dkeeps_TcpSession_recv k i : dkeeps any (TcpSession_recv indet k i : D _).
Proof. unfold TcpSession_recv. dkeeps. Qed.
Hint Resolve dkeeps_TcpSession_recv : dkeeps.
Lemma dkeeps_Tcp_rx k : dkeeps any (Tcp_rx indet k : D _).
Proof. unfold Tcp_rx. dkeeps. Qed.
Hint Resolve dkeeps_Tcp_rx : dkeeps.

(** ** Reassembly and the receiving loop *)

Lemma dkeeps_hdr16 off i : dkeeps any (hdr16 off i : D _).
Proof. unfold hdr16. dkeeps. Qed.
Lemma dkeeps_hdr_ihl i : dkeeps any (hdr_ihl i : D _).
Proof. unfold hdr_ihl. dkeeps. Qed.
Hint Resolve dkeeps_hdr16 dkeeps_hdr_ihl : dkeeps.
Lemma dkeeps_frag_offset i : dkeeps any (frag_offset i : D _).
Proof. unfold frag_offset. dkeeps. Qed.
Hint Resolve dkeeps_frag_offset : dkeeps.
Lemma dkeeps_insert_walk n o prev curr : dkeeps any (insert_walk n o prev curr : D _).
Proof. revert prev curr. induction n as [|n IH]; intros prev [c|]; cbn [insert_walk]; dkeeps. Qed.
Hint Resolve dkeeps_insert_walk : dkeeps.
Lemma dkeeps_defrag_insert first k : dkeeps any (defrag_insert first k : D _).
Proof. unfold defrag_insert. dkeeps. Qed.
Lemma dkeeps_contiguous n curr o : dkeeps any (contiguous n curr o : D _).
Proof. revert curr o. induction n as [|n IH]; intros [c|] o; cbn [contiguous]; dkeeps. Qed.
Lemma dkeeps_last_of n curr : dkeeps any (last_of n curr : D _).
Proof. revert curr. induction n as [|n IH]; intros curr; cbn [last_of]; dkeeps. Qed.
Lemma dkeeps_adjust_rest n curr : dkeeps any (adjust_rest n curr : D _).
Proof. revert curr. induction n as [|n IH]; intros [c|]; cbn [adjust_rest]; dkeeps. Qed.
Hint Resolve dkeeps_defrag_insert dkeeps_contiguous dkeeps_last_of dkeeps_adjust_rest : dkeeps.
Lemma dkeeps_defrag_complete first : dkeeps any (defrag_complete first : D _).
Proof. unfold defrag_complete. dkeeps. Qed.
Hint Resolve dkeeps_defrag_complete : dkeeps.
Lemma dkeeps_set_groups l : dkeeps any (modify (set_defragCtxList l) : D _).
Proof. dkeeps_modify_tac. Qed.
Hint Resolve dkeeps_set_groups : dkeeps.
Lemma dkeeps_defrag k : dkeeps any (Reassembler_defrag k : D _).
Proof. unfold Reassembler_defrag. dkeeps. Qed.
Hint Resolve dkeeps_defrag : dkeeps.
Lemma dkeeps_demultiplex a k p : dkeeps any (Ip_demultiplex indet a k p : D _).
Proof. unfold Ip_demultiplex. dkeeps. Qed.
Hint Resolve dkeeps_demultiplex : dkeeps.
Lemma dkeeps_Ip_process k : dkeeps any (Ip_process indet k : D _).
Proof. unfold Ip_process. dkeeps. Qed.
Hint Resolve dkeeps_Ip_process : dkeeps.
Lemma dkeeps_Ip_turn : dkeeps any (Ip_turn indet : D _).
Proof. unfold Ip_turn. dkeeps. eapply dkeeps_bind; [dkeeps_modify_tac|dkeeps]. Qed.

(** ** Requests *)

Lemma dkeeps_drain k : dkeeps any (drain k : D _).
Proof.
  unfold drain. eapply dkeeps_bind; [apply dkeeps_gets|]. intros n _.
  generalize (@nil Z) as out. generalize (Some k) as h. induction n as [|n IH]; intros [i|] out; cbn [drain_skbuf_chain]; dkeeps.
Qed.
Hint Resolve dkeeps_drain : dkeeps.
Lemma dkeeps_setters v : (∀ i, dkeeps any (Endpoint_setWaiting v i : D _)) ∧
  (∀ cb i, dkeeps any (Endpoint_setOnAsyncNewPacketCB cb i : D _)) ∧
  (∀ ch i, dkeeps any (Endpoint_setAgentChannel ch i : D _)) ∧ (∀ p i, dkeeps any (Endpoint_setSession p i : D _)).
Proof. split_and!; intros; by apply dkeeps_upd_endpoint. Qed.
Hint Extern 1 (dkeeps _ (Endpoint_setWaiting _ _)) => apply dkeeps_setters : dkeeps.
Hint Extern 1 (dkeeps _ (Endpoint_setOnAsyncNewPacketCB _ _)) => apply (dkeeps_setters true) : dkeeps.
Hint Extern 1 (dkeeps _ (Endpoint_setAgentChannel _ _)) => apply (dkeeps_setters true) : dkeeps.
Hint Extern 1 (dkeeps _ (Endpoint_setSession _ _)) => apply (dkeeps_setters true) : dkeeps.
Lemma dkeeps_socketCall ch dom ty : dkeeps any (socketCall ch dom ty : D _).
Proof. unfold socketCall. dkeeps. all: eapply dkeeps_bind; [by apply dkeeps_upd_pcb|dkeeps]. Qed.
Lemma dkeeps_connect_v a p i : dkeeps any (Session_connect_v a p i : D _).
Proof. unfold Session_connect_v. dkeeps. Qed.
Lemma dkeeps_estab_v ch i : dkeeps any (Session_setOnConnEstabCB_v ch i : D _).
Proof. unfold Session_setOnConnEstabCB_v. dkeeps. Qed.
Lemma dkeeps_send_v buf i : dkeeps any (Session_send_v buf i : D _).
Proof. unfold Session_send_v. dkeeps. Qed.
Lemma dkeeps_send_to_v a p buf i : dkeeps any (Session_send_to_v a p buf i : D _).
Proof. unfold Session_send_to_v. dkeeps. Qed.
Hint Resolve dkeeps_socketCall dkeeps_connect_v dkeeps_estab_v dkeeps_send_v dkeeps_send_to_v : dkeeps.
Lemma dkeeps_handleRequest ch req : dkeeps any (handleRequest ch req : D _).
Proof.
  unfold handleRequest, connectCall, closeCall, sendtoCall, recvfromCall, getpeernameCall, getsocknameCall,
    getsockoptCall, pollCall, selectCall, setsockoptCall, fcntlCall, atstartAction, AgentChannel_setPeerName, AgentChannel_setPeerPid.
  dkeeps.
Qed.
Hint Resolve dkeeps_handleRequest : dkeeps.
Lemma dkeeps_answer_packet ch b : dkeeps any (answer_packet ch b : D _).
Proof. unfold answer_packet, Endpoint_takeFromRecvQ. dkeeps. Qed.
Hint Resolve dkeeps_answer_packet : dkeeps.
Lemma dkeeps_packet_cb cb : dkeeps any (run_packet_cb cb : D _).
Proof. unfold run_packet_cb, onAsyncNewUdpPacket, onAsyncNewTcpPacket. dkeeps. Qed.
Hint Resolve dkeeps_packet_cb : dkeeps.
Lemma dkeeps_endpoint_cb n i : dkeeps any (Endpoint_sChannelReadCb n i : D _).
Proof. unfold Endpoint_sChannelReadCb. dkeeps. all: by apply dkeeps_upd_endpoint. Qed.
Hint Resolve dkeeps_endpoint_cb : dkeeps.

(** ** The callbacks *)

Context (parse_partial : list Z → Request) (fuel : nat).

Lemma dkeeps_set_channels f : dkeeps any (modify (λ d, set_rrChannels (f (rrChannels d)) d) : D _).
Proof. dkeeps_modify_tac. Qed.
Lemma dkeeps_release ch : dkeeps any (release_channel ch : D _).
Proof. unfold release_channel. dkeeps. Qed.
Lemma dkeeps_remove ch : dkeeps any (Arbiter_removeRRChannel ch : D _).
Proof. apply (dkeeps_set_channels (filter _)). Qed.
Lemma dkeeps_add ch : dkeeps any (Arbiter_addRRChannel ch : D _).
Proof. apply (dkeeps_set_channels (λ l, l ++ [ch])). Qed.
Hint Resolve dkeeps_release dkeeps_remove dkeeps_add : dkeeps.
Lemma dkeeps_onNewConnection fd : dkeeps any (Arbiter_onNewConnection fd : D _).
Proof. unfold Arbiter_onNewConnection. dkeeps. Qed.
Hint Resolve dkeeps_onNewConnection : dkeeps.
Lemma dkeeps_accept_loop n fd : dkeeps any (accept_loop n fd : D _).
Proof. induction n as [|n IH]; cbn [accept_loop]; dkeeps. Qed.
Hint Resolve dkeeps_accept_loop : dkeeps.
Lemma dkeeps_onReadReady ch : dkeeps any (AgentChannel_onReadReady parse_partial ch : D _).
Proof. unfold AgentChannel_onReadReady. dkeeps. Qed.
Hint Resolve dkeeps_onReadReady : dkeeps.
Lemma dkeeps_run_cb cb : dkeeps any (run_cb parse_partial fuel cb : D _).
Proof.
  unfold run_cb, AgentHub_onReadReady, AgentChannel_onPeerWritingClose, TcpSession_onEstabPipe. dkeeps.
Qed.

(** ** Start-up *)

Lemma dkeeps_set_if (v : option (list Z)) (w : option Z) :
  dkeeps any (modify (set_devname v) : D _) ∧ dkeeps any (modify (set_tunDev w) : D _).
Proof. split; dkeeps_modify_tac. Qed.
Lemma dkeeps_TunIface_init : dkeeps any (TunIface_init : D _).
Proof.
  unfold TunIface_init, TunIface_allocateTun, TunIface_setIfUp, TunIface_setIfAddr, ShellOp_run.
  pose proof (λ v, proj1 (dkeeps_set_if v None)). pose proof (λ w, proj2 (dkeeps_set_if None w)). dkeeps.
Qed.
Lemma dkeeps_Ip_init : dkeeps any (Ip_init : D _).
Proof.
  unfold Ip_init. dkeeps. apply dkeeps_modify. intros d []; by constructor.
Qed.
Lemma dkeeps_set_hub v : dkeeps any (modify (set_hub v) : D _).
Proof. dkeeps_modify_tac. Qed.
Hint Resolve dkeeps_TunIface_init dkeeps_Ip_init dkeeps_set_hub : dkeeps.
Lemma dkeeps_Veloxd_init : dkeeps any (Veloxd_init : D _).
Proof. unfold Veloxd_init, Arbiter_init, AgentHub_new. dkeeps. Qed.

Lemma fresh_dinv c e : dinv (fresh_daemon c e : Daemon E).
Proof.
  constructor; cbn; try apply map_Forall_empty; try done; [constructor|].
  intros x. split; [set_solver|]. by intros (h & Hh & _).
Qed.

Lemma dstep_dinv (d d' : Daemon E) : dstep indet parse_partial fuel d d' → dinv d → dinv d'.
Proof.
  intros [? ? _ Hs|? ? _ Hs|? ? _ Hs] Hd.
  - pose proof (dkeeps_Interface_turn _ Hd) as Hk. rewrite Hs in Hk. apply Hk.
  - pose proof (dkeeps_Ip_turn _ Hd) as Hk. rewrite Hs in Hk. apply Hk.
  - pose proof (dkeeps_turn _ dkeeps_run_cb _ Hd) as Hk. rewrite Hs in Hk. apply Hk.
Qed.
End layers.

(** ** Properties *)

(** C1. The daemon's invariant: from the state [Veloxd::init] leaves, through
    any interleaving of turns of the interface thread, the IP thread and the
    event loop, the reactor's list has no duplicate and lists exactly the live
    handles that believe they are registered, no receive queue holds more than
    129 entries, every frame keeps its 1518 bytes, and ports, the
    identification counter and the sequence numbers stay within 16 and 32
    bits. *)
Theorem daemon_invariant {E} `{Kernel E} `{Codec} indet parse_partial fuel c e (d0 d : Daemon E) :
  Veloxd_init (fresh_daemon c e) = Ok (tt, d0) →
  rtc (dstep indet parse_partial fuel) d0 d → dinv d.
Proof.
  intros Hi Hr. assert (dinv d0) as H0d.
  { pose proof (dkeeps_Veloxd_init _ (fresh_dinv c e)) as Hk. rewrite Hi in Hk. apply Hk. }
  clear Hi. induction Hr as [|d1 d2 d3 Hs _ IH]; [done|]. by apply IH, (dstep_dinv indet parse_partial fuel d1).
Qed.

(** ** Concrete runs *)

(** The value of a computation that succeeds on a given input. *)
Definition after {A} (r : res (A * Daemon dscript)) : Daemon dscript :=
  match r with Ok (_, d) => d | Fault _ => fresh_daemon default_Conf quiet end.

(** The listening socket becomes readable and one interceptor connects. *)
Definition one_client : dscript := mkDScript 10 [] [] [40] [(1, [(1, 0%nat)])] [].
Definition booted : Daemon dscript := after (Veloxd_init (fresh_daemon default_Conf one_client)).
Definition connected_client : Daemon dscript :=
  after (EventReactor_turn (run_cb (H0 := wire_codec) (λ _, mkRequest 0 None) 3) booted).

Lemma daemon_invariant_witness :
  dinv connected_client ∧ loop_channels connected_client = [0%nat; 1%nat] ∧ rrChannels connected_client = [2%nat].
Proof.
  split; [|vm_compute; done].
  apply (daemon_invariant (H0 := wire_codec) [] (λ _, mkRequest 0 None) 3 default_Conf one_client booted).
  - vm_compute. reflexivity.
  - apply rtc_once, step_reactor; vm_compute; reflexivity.
Defined.
