(* ===== verification/Interest.v ===== *)
(** * What epoll can report

    The kernel keeps, for each descriptor of the interest list, the pointer the
    daemon gave to [epoll_ctl], and hands it back with an event.  The daemon
    uses the pointer as an [IoHandle]: here, that every pointer in the interest
    list is a handle of the event loop, hence alive. *)

From S2P Require Import Prelude Csum16 Frame Session World DScript Reactor Rpc Net Agent Udp Tcp Reassembly IpRx Dispatch Arbiter Boot ReactorSpec Invariant.

(** epoll(7): the interest list maps descriptors to [data.ptr]; [ADD] and [MOD]
    set at most the entry of their descriptor, [DEL] removes it, no other call
    adds one, and [epoll_wait] reports at most [maxevents] entries of the list. *)
Class Epoll (E : Type) `{Kernel E} := {
  interest : E → gmap Z nat;
  interest_add fd ev c e : ∀ fd' i, interest (k_epoll_ctl EPOLL_CTL_ADD fd ev (Some c) e).2 !! fd' = Some i →
    interest e !! fd' = Some i ∨ fd' = fd ∧ i = c;
  interest_mod fd ev c e : ∀ fd' i, interest (k_epoll_ctl EPOLL_CTL_MOD fd ev (Some c) e).2 !! fd' = Some i →
    interest e !! fd' = Some i ∨ fd' = fd ∧ i = c;
  interest_del fd ev o e : interest (k_epoll_ctl EPOLL_CTL_DEL fd ev o e).2 ⊆ delete fd (interest e);
  wait_reports n t e : let '((_, evs), e') := k_epoll_wait n t e in
    (∀ x, x ∈ evs → ∃ fd, interest e !! fd = Some x.2) ∧ (length evs ≤ Z.to_nat n)%nat ∧ interest e' ⊆ interest e;
  interest_pipe2 e : interest (k_pipe2 e).2 ⊆ interest e;
  interest_getfl fd e : interest (k_getfl fd e).2 ⊆ interest e;
  interest_setfl fd v e : interest (k_setfl fd v e) ⊆ interest e;
  interest_read fd n e : interest (k_read fd n e).2 ⊆ interest e;
  interest_write fd bs e : interest (k_write fd bs e).2 ⊆ interest e;
  interest_writev fd bss e : interest (k_writev fd bss e).2 ⊆ interest e;
  interest_close fd e : interest (k_close fd e) ⊆ interest e;
  interest_accept fd e : interest (k_accept fd e).2 ⊆ interest e;
  interest_listen fd n e : interest (k_listen fd n e).2 ⊆ interest e;
  interest_mkdir p e : interest (k_mkdir p e) ⊆ interest e;
  interest_unlink p e : interest (k_unlink p e) ⊆ interest e;
  interest_socket a b c e : interest (k_socket a b c e).2 ⊆ interest e;
  interest_bind fd p e : interest (k_bind fd p e).2 ⊆ interest e;
  interest_open p fl e : interest (k_open p fl e).2 ⊆ interest e;
  interest_tunsetiff fd fl e : interest (k_tunsetiff fd fl e).2 ⊆ interest e;
  interest_system c e : interest (k_system c e) ⊆ interest e
}.

Section hearing.
Context {E : Type} `{Epoll E}.
Implicit Types d : Daemon E.

(** The reactor's part of the state: who is registered, and that the interest
    list names registered handles under their own descriptors. *)
Record heard d : Prop := {
  h_known : ∀ fd i, interest (env d) !! fd = Some i → i ∈ loop_channels d ∧ ∃ h, handles d !! i = Some h ∧ io_fd h = fd;
  h_registered : ∀ c, c ∈ loop_channels d ↔ registered d c;
  h_nodup : NoDup (loop_channels d);
  h_fresh : ∀ c h, handles d !! c = Some h → (c < next_id d)%nat
}.
Definition hearing {A} (m : D E A) : Prop := ∀ d a d', heard d → m d = Ok (a, d') → heard d'.

Lemma hearing_bind {A B} (m : D E A) (k : A → D E B) : hearing m → (∀ a, hearing (k a)) → hearing (m ≫= k).
Proof. intros Hm Hk d b d' Hd Hr. apply M_bind_inv in Hr as (a & d1 & H1 & H2). eapply Hk; [|exact H2]. by eapply Hm. Qed.
Lemma hearing_read {A} (m : D E A) : (∀ d a d', m d = Ok (a, d') → d' = d) → hearing m.
Proof. by intros Hm d a d' Hd ->%Hm. Qed.
Lemma hearing_ret {A} (a : A) : hearing (mret a).
Proof. apply hearing_read. by intros d x d' [= _ <-]. Qed.
Lemma hearing_fail {A} f : hearing (fail f : D E A).
Proof. by intros d a d'. Qed.
Lemma hearing_gets {A} (f : Daemon E → A) : hearing (gets f).
Proof. apply hearing_read. by intros d x d' [= _ <-]. Qed.
Lemma hearing_get : hearing get_st.
Proof. apply hearing_read. by intros d x d' [= _ <-]. Qed.
Lemma hearing_lift {A} (r : res A) : hearing (lift_res r).
Proof. apply hearing_read. intros d a d'. unfold lift_res. destruct r; [|done]. by intros [= _ <-]. Qed.
Lemma hearing_read_cell {A} (heap : Daemon E → gmap nat A) i : hearing (read_cell heap i).
Proof. apply hearing_read. intros d a d'. unfold read_cell. destruct (heap d !! i); [|done]. by intros [= _ <-]. Qed.
Lemma hearing_modify f : (∀ d, heard d → heard (f d)) → hearing (modify f).
Proof. intros Hf d a d' Hd [= _ <-]. by apply Hf. Qed.
Lemma hearing_fresh : hearing fresh.
Proof. intros d a d' [K R N F] [= _ <-]. constructor; try done. intros c h Hh. cbn. pose proof (F c h Hh). lia. Qed.
Lemma heard_env e d : interest e ⊆ interest (env d) → heard d → heard (set_env e d).
Proof. intros Hs [K R N F]. constructor; try done. intros fd i Hi. apply K. by eapply lookup_weaken. Qed.
Lemma hearing_kcall {A} (f : E → A * E) : (∀ e, interest (f e).2 ⊆ interest e) → hearing (kcall f).
Proof. intros Hf d a d' Hd. rewrite kcall_ok. intros [= _ <-]. by apply heard_env. Qed.
Lemma hearing_kcall_ (f : E → E) : (∀ e, interest (f e) ⊆ interest e) → hearing (kcall_ f).
Proof. intros Hf. apply hearing_modify. intros d. by apply heard_env. Qed.

(** ** The reactor's operations *)

(** One handle changes, but neither its descriptor nor its owner. *)
Lemma heard_handle i h h' d : heard d → handles d !! i = Some h → io_owner h' = io_owner h → io_fd h' = io_fd h →
  heard (set_handles (<[i := h']> (handles d)) d).
Proof.
  intros [K R N F] Hi Ho Hfd. constructor; cbn; try done.
  - intros fd c Hc. destruct (K fd c Hc) as (Hin & x & Hx & Hf). split; [done|]. destruct (decide (c = i)) as [->|Hne].
    + exists h'. rewrite lookup_insert_eq. split; [done|]. congruence.
    + exists x. by rewrite lookup_insert_ne.
  - intros c. rewrite R. unfold registered. cbn. destruct (decide (c = i)) as [->|Hne]; [rewrite lookup_insert_eq|by rewrite lookup_insert_ne].
    rewrite Hi. split; intros (x & [= <-] & ?); eexists; (split; [done|congruence]).
  - intros c x. destruct (decide (c = i)) as [->|Hne]; [by eauto|rewrite lookup_insert_ne by done; eauto].
Qed.
Lemma hearing_upd_handle i f : (∀ h, io_owner (f h) = io_owner h ∧ io_fd (f h) = io_fd h) → hearing (upd_handle i f).
Proof.
  intros Hf d a d' Hd Hr. apply M_bind_inv in Hr as (h & d1 & H1 & [= _ <-]). unfold the_handle, read_cell in H1.
  destruct (handles d !! i) as [x|] eqn:Hi; [|done]. injection H1 as <- <-. destruct (Hf x). by eapply heard_handle.
Qed.
Lemma hearing_IoHandle_new fd : hearing (IoHandle_new fd).
Proof.
  unfold IoHandle_new. apply hearing_bind; [apply hearing_kcall, interest_getfl|]. intros fl.
  apply hearing_bind; [apply hearing_kcall_, interest_setfl|]. intros _ d i d' [K R N F] [= <- <-]. constructor; cbn; try done.
  - intros fd' c Hc. destruct (K fd' c Hc) as (Hin & x & Hx & Hfd). split; [done|]. exists x. rewrite lookup_insert_ne; [done|].
    apply F in Hx. lia.
  - intros c. rewrite R. unfold registered. cbn. destruct (decide (c = next_id d)) as [->|Hne]; [|by rewrite lookup_insert_ne].
    rewrite lookup_insert_eq. split; [|by intros (? & [= <-] & ?)]. intros (h & Hh & _). apply F in Hh. lia.
  - intros c h. destruct (decide (c = next_id d)) as [->|Hne]; [lia|]. rewrite lookup_insert_ne by done. intros Hh%F. lia.
Qed.
Lemma hearing_register c : hearing (register c).
Proof.
  intros d a d' Hd Hr. unfold register, IoHandle_setOwnerEventReactor in Hr. apply M_bind_inv in Hr as (u & d1 & H1 & Hr).
  apply M_bind_inv in Hr as (h & d2 & H2 & [= _ <-]). unfold the_handle, read_cell in H2. destruct (handles d1 !! c) as [x|] eqn:Hx; [|done].
  injection H2 as <- <-. assert (handles d1 = handles d) as Hh.
  { unfold EventReactor_addChannel, EventReactor_hasChannel, SysPoller_addChannel in H1. apply M_bind_inv in H1 as (b & d3 & [= <- <-] & H1).
    destruct (negb _); [|by injection H1 as _ <-]. apply M_bind_inv in H1 as (v & d4 & H4 & [= _ <-]).
    apply M_bind_inv in H4 as (y & d5 & H5 & H4). unfold the_handle, read_cell in H5. destruct (handles d !! c); [|done]. injection H5 as _ <-.
    apply M_bind_inv in H4 as (z & d6 & H6 & [= _ <-]). rewrite kcall_ok in H6. by injection H6 as _ <-. }
  rewrite Hh in Hx. rewrite (addChannel_eq c x d Hx) in H1. injection H1 as _ <-. destruct (decide (c ∈ loop_channels d)) as [Hin|Hout].
  { apply (heard_handle c x); [done|done| |done]. apply (h_registered _ Hd) in Hin as (y & Hy & Ho). cbn. congruence. }
  destruct Hd as [K R N F]. constructor; cbn.
  - intros fd i [Hi|[-> ->]]%interest_add; [|split; [set_solver|]; eexists; rewrite lookup_insert_eq; by split].
    destruct (K fd i Hi) as (Hin & y & Hy & Hfd). split; [set_solver|]. exists y. rewrite lookup_insert_ne; [done|]. by intros ->.
  - intros i. rewrite elem_of_app, R, list_elem_of_singleton. unfold registered. cbn.
    destruct (decide (i = c)) as [->|Hne]; [rewrite lookup_insert_eq|rewrite lookup_insert_ne by done; naive_solver].
    split; [intros _|by right]. by eexists.
  - apply NoDup_app. split_and!; [done|set_solver|]. apply NoDup_singleton.
  - intros i y. destruct (decide (i = c)) as [->|Hne]; [by eauto|rewrite lookup_insert_ne by done; eauto].
Qed.
(** A handle leaves the loop, and is changed or destroyed. *)
Lemma heard_detach c h d (hs : gmap nat IoHandle) : heard d → handles d !! c = Some h →
  (∀ x, x ≠ c → hs !! x = handles d !! x) → (∀ h', hs !! c = Some h' → io_owner h' = false) → heard (set_handles hs (detached c h d)).
Proof.
  intros [K R N F] Hc Hne Hoff.
  assert (∀ x, x ∈ erase_first c (loop_channels d) ↔ registered (set_handles hs d) x) as Hreg.
  { intros x. rewrite elem_of_erase_first by done. rewrite R. unfold registered. cbn. destruct (decide (x = c)) as [->|Hx].
    - split; [naive_solver|]. intros (h' & Hh' & Ho). specialize (Hoff h' Hh'). congruence.
    - rewrite (Hne x Hx). naive_solver. }
  assert (∀ x h', hs !! x = Some h' → (x < next_id d)%nat) as Hfr.
  { intros x h' Hx. destruct (decide (x = c)) as [->|Hxc]; [by eauto|]. rewrite (Hne x Hxc) in Hx. eauto. }
  assert (∀ fd i, interest (env d) !! fd = Some i → i ≠ c → i ∈ erase_first c (loop_channels d) ∧ ∃ y, hs !! i = Some y ∧ io_fd y = fd) as Hk.
  { intros fd i Hi Hic. destruct (K fd i Hi) as (Hin & y & Hy & Hfd). split; [by apply elem_of_erase_first|]. exists y. by rewrite Hne. }
  unfold detached. destruct (io_owner h) eqn:Ho.
  - rewrite decide_True by (apply R; by exists h). constructor; cbn; try done; [|by apply NoDup_erase_first].
    intros fd i Hi. pose proof (lookup_weaken _ _ _ _ Hi (interest_del _ _ _ _)) as Hi'. apply lookup_delete_Some in Hi' as [Hfd Hi'].
    apply Hk; [done|]. intros ->. destruct (K fd c Hi') as (_ & y & Hy & Hyf). congruence.
  - assert (c ∉ loop_channels d) as Hout by (intros (h' & Hh' & Ho')%R; congruence).
    assert (∀ x, x ∈ erase_first c (loop_channels d) ↔ x ∈ loop_channels d) as Her by (intros x; rewrite elem_of_erase_first by done; naive_solver).
    constructor; cbn; try done; [|intros x; by rewrite <-Hreg, Her]. intros fd i Hi. rewrite <-Her. apply Hk; [done|]. intros ->. by apply K in Hi as [].
Qed.
Lemma hearing_unregister c : hearing (IoHandle_unregisterSelf c).
Proof.
  intros d a d' Hd Hr. destruct (handles d !! c) as [h|] eqn:Hc.
  - rewrite (unregister_eq c h d Hc) in Hr. injection Hr as _ <-. apply heard_detach; try done.
    + intros x Hx. by rewrite lookup_insert_ne.
    + intros h'. rewrite lookup_insert_eq. by intros [= <-].
  - unfold IoHandle_unregisterSelf, the_handle, read_cell, mbind, M_bind in Hr. by rewrite Hc in Hr.
Qed.
Lemma hearing_handle_delete c : hearing (IoHandle_delete c).
Proof.
  intros d a d' Hd Hr. destruct (handles d !! c) as [h|] eqn:Hc.
  - rewrite (delete_eq c h d Hc) in Hr. injection Hr as _ <-. apply heard_detach; try done.
    + intros x Hx. by rewrite lookup_delete_ne.
    + intros h'. by rewrite lookup_delete_eq.
  - unfold IoHandle_delete, the_handle, read_cell, mbind, M_bind in Hr. by rewrite Hc in Hr.
Qed.
Lemma hearing_updateChannel c : hearing (EventReactor_updateChannel c).
Proof.
  intros d a d' Hd Hr. unfold EventReactor_updateChannel, EventReactor_hasChannel, SysPoller_updateChannel in Hr.
  apply M_bind_inv in Hr as (b & d1 & [= <- <-] & Hr). case_bool_decide as Hin; [|by injection Hr as _ <-].
  apply M_bind_inv in Hr as (h & d2 & H2 & Hr). unfold the_handle, read_cell in H2. destruct (handles d !! c) as [x|] eqn:Hc; [|done].
  injection H2 as <- <-. apply M_bind_inv in Hr as (v & d3 & H3 & [= _ <-]). rewrite kcall_ok in H3. injection H3 as _ <-.
  destruct Hd as [K R N F]. constructor; try done. cbn. intros fd i [Hi|[-> ->]]%interest_mod; [by apply K|]. eauto.
Qed.
Lemma hearing_wait n t : hearing (kcall (k_epoll_wait n t)).
Proof. apply hearing_kcall. intros e. pose proof (wait_reports n t e) as Hw. destruct (k_epoll_wait n t e) as [[] e']. apply Hw. Qed.
End hearing.

Create HintDb hearing discriminated.
#[export] Hint Resolve hearing_ret hearing_fail hearing_gets hearing_get hearing_lift hearing_read_cell hearing_fresh
  hearing_IoHandle_new hearing_register hearing_unregister hearing_handle_delete hearing_updateChannel hearing_wait : hearing.
#[export] Hint Extern 1 (hearing (upd_handle _ _)) => by apply hearing_upd_handle : hearing.
#[export] Hint Extern 2 (hearing (kcall _)) => apply hearing_kcall; intros ?;
  first [apply interest_pipe2|apply interest_read|apply interest_write|apply interest_writev|apply interest_accept|apply interest_listen
        |apply interest_socket|apply interest_bind|apply interest_open|apply interest_tunsetiff] : hearing.
#[export] Hint Extern 2 (hearing (kcall_ _)) => apply hearing_kcall_; intros ?;
  first [apply interest_close|apply interest_mkdir|apply interest_unlink|apply interest_system] : hearing.
#[export] Hint Extern 3 (hearing (modify _)) => apply hearing_modify; intros ? []; by constructor : hearing.
(** Walk through a program, unfolding the definitions it calls. *)
Ltac hearing :=
  repeat (intros; first
    [ solve [auto 1 with hearing]
    | lazymatch goal with
      | |- hearing (match ?x with _ => _ end) => destruct x
      | |- hearing (mbind _ (match ?x with _ => _ end)) => destruct x
      | |- hearing (mbind _ _) => apply hearing_bind
      | |- hearing ?m => let h := head_of m in progress unfold h
      end ]).

Section layers.
Context {E : Type} `{Epoll E} `{Codec}.
Notation D := (D E).

Lemma hearing_tx_gather n curr bs : hearing (tx_gather n curr bs : D _).
Proof. revert curr bs. induction n as [|n IH]; intros; cbn [tx_gather]; hearing. Qed.
Lemma hearing_drain_pipe n fd : hearing (drain_pipe n fd : D _).
Proof. induction n as [|n IH]; cbn [drain_pipe]; hearing. Qed.
Lemma hearing_insert_walk n o a b : hearing (insert_walk n o a b : D _).
Proof. revert a b. induction n as [|n IH]; intros; cbn [insert_walk]; hearing. Qed.
Lemma hearing_contiguous n c o : hearing (contiguous n c o : D _).
Proof. revert c o. induction n as [|n IH]; intros; cbn [contiguous]; hearing. Qed.
Lemma hearing_last_of n c : hearing (last_of n c : D _).
Proof. revert c. induction n as [|n IH]; intros; cbn [last_of]; hearing. Qed.
Lemma hearing_adjust_rest n c : hearing (adjust_rest n c : D _).
Proof. revert c. induction n as [|n IH]; intros; cbn [adjust_rest]; hearing. Qed.
Lemma hearing_drain_chain n h out : hearing (drain_skbuf_chain n h out : D _).
Proof. revert h out. induction n as [|n IH]; intros; cbn [drain_skbuf_chain]; hearing. Qed.
Hint Resolve hearing_tx_gather hearing_drain_pipe hearing_insert_walk hearing_contiguous hearing_last_of hearing_adjust_rest hearing_drain_chain : hearing.
Lemma hearing_Ip_tx k buf : hearing (Ip_tx k buf : D _).
Proof. hearing. Qed.
Lemma hearing_write r ch : hearing (AgentChannel_write r ch : D _).
Proof. hearing. Qed.
Hint Resolve hearing_Ip_tx hearing_write : hearing.
Lemma hearing_handleRequest ch req : hearing (handleRequest ch req : D _).
Proof. hearing. Qed.
Hint Resolve hearing_handleRequest : hearing.
Lemma hearing_accept_loop n fd : hearing (accept_loop n fd : D _).
Proof. induction n as [|n IH]; cbn [accept_loop]; hearing. Qed.
Hint Resolve hearing_accept_loop : hearing.
Lemma hearing_run_cb parse_partial fuel cb : hearing (run_cb parse_partial fuel cb : D _).
Proof. hearing. Qed.
Hint Resolve hearing_run_cb : hearing.
Lemma hearing_poll_fds evs : hearing (poll_fds evs : D _).
Proof. induction evs as [|[]]; cbn [poll_fds]; hearing. Qed.
Lemma hearing_poll_deliver evs : hearing (poll_deliver evs : D _).
Proof. induction evs as [|[]]; cbn [poll_deliver]; hearing. Qed.
Hint Resolve hearing_poll_fds hearing_poll_deliver : hearing.
Lemma hearing_poll t : hearing (SysPoller_poll t : D _).
Proof. hearing. Qed.
Lemma hearing_handleEvents parse_partial fuel i : hearing (IoHandle_handleEventsReceived (run_cb parse_partial fuel) i : D _).
Proof. hearing. Qed.
Lemma hearing_Interface_turn : hearing (Interface_turn : D _).
Proof. hearing. Qed.
Lemma hearing_Ip_turn indet : hearing (Ip_turn indet : D _).
Proof. hearing. Qed.
Lemma hearing_Veloxd_init : hearing (Veloxd_init : D _).
Proof. hearing. Qed.
Lemma hearing_Arbiter_start : hearing (Arbiter_start : D _).
Proof. hearing. Qed.

(** What epoll reports is alive. *)
Lemma heard_wait n t k evs e' (d : Daemon E) : heard d → k_epoll_wait n t (env d) = ((k, evs), e') →
  (∀ i, i ∈ evs.*2 → is_Some (handles d !! i)) ∧ (length evs ≤ Z.to_nat n)%nat.
Proof.
  intros Hd Hw. pose proof (wait_reports n t (env d)) as Hr. rewrite Hw in Hr. destruct Hr as (Hr & Hn & _). split; [|done].
  intros i (x & -> & Hx)%list_elem_of_fmap. destruct (Hr x Hx) as [fd Hfd]. destruct (h_known _ Hd _ _ Hfd) as (_ & h & Hh & _). by exists h.
Qed.
End layers.

(** ** A kernel with an interest list *)

(** The scripted kernel of DScript.v, reporting only what is in the list. *)
Record escript := mkEScript { es_base : dscript; es_list : gmap Z nat }.
Definition es_call {A} (f : dscript → A * dscript) (e : escript) : A * escript :=
  let '(a, b) := f (es_base e) in (a, mkEScript b (es_list e)).
Definition es_call_ (f : dscript → dscript) (e : escript) : escript := mkEScript (f (es_base e)) (es_list e).
Definition es_ctl (op : epoll_op) (fd : Z) (o : option nat) (l : gmap Z nat) : gmap Z nat :=
  match op, o with
  | EPOLL_CTL_DEL, _ => delete fd l
  | EPOLL_CTL_ADD, Some c => <[fd := c]> l
  | EPOLL_CTL_MOD, Some c => if decide (is_Some (l !! fd)) then <[fd := c]> l else l
  | _, None => l
  end.
Definition es_wait (n t : Z) (e : escript) : (Z * list (Z * nat)) * escript :=
  let '((k, evs), b) := k_epoll_wait n t (es_base e) in
  let evs := take (Z.to_nat n) (filter (λ x, x.2 ∈ (map_to_list (es_list e)).*2) evs) in
  ((if k <? 0 then (k, []) else (Z.of_nat (length evs), evs)), mkEScript b (es_list e)).
#[global] Instance escript_kernel : Kernel escript := {|
  k_pipe2 := es_call k_pipe2; k_getfl fd := es_call (k_getfl fd); k_setfl fd v := es_call_ (k_setfl fd v);
  k_read fd n := es_call (k_read fd n); k_write fd bs := es_call (k_write fd bs); k_writev fd bss := es_call (k_writev fd bss);
  k_close fd := es_call_ (k_close fd); k_accept fd := es_call (k_accept fd);
  k_epoll_ctl op fd ev o e := let '(r, b) := k_epoll_ctl op fd ev o (es_base e) in (r, mkEScript b (es_ctl op fd o (es_list e)));
  k_epoll_wait := es_wait; k_listen fd n := es_call (k_listen fd n); k_mkdir q := es_call_ (k_mkdir q); k_unlink q := es_call_ (k_unlink q);
  k_socket a b c := es_call (k_socket a b c); k_bind fd q := es_call (k_bind fd q); k_open q fl := es_call (k_open q fl);
  k_tunsetiff fd fl := es_call (k_tunsetiff fd fl); k_system c := es_call_ (k_system c)
|}.
Lemma es_wait_reports n t e : let '((_, evs), e') := es_wait n t e in
  (∀ x, x ∈ evs → ∃ fd, es_list e !! fd = Some x.2) ∧ (length evs ≤ Z.to_nat n)%nat ∧ es_list e' ⊆ es_list e.
Proof.
  unfold es_wait. destruct (k_epoll_wait n t (es_base e)) as [[k evs] b]. destruct (k <? 0); split_and!; try done; [set_solver|cbn; lia| |].
  - intros x Hx%elem_of_take. destruct Hx as (j & Hx & _). apply list_elem_of_lookup_2, list_elem_of_filter in Hx as [Hx _].
    apply list_elem_of_fmap in Hx as ([fd i] & -> & Hi). exists fd. by apply elem_of_map_to_list.
  - rewrite length_take. lia.
Qed.
Lemma es_ctl_set op fd c l fd' i : op ≠ EPOLL_CTL_DEL → es_ctl op fd (Some c) l !! fd' = Some i → l !! fd' = Some i ∨ fd' = fd ∧ i = c.
Proof.
  intros Hop. assert (<[fd := c]> l !! fd' = Some i → l !! fd' = Some i ∨ fd' = fd ∧ i = c) as Hi.
  { intros [[-> ->]|[_ ?]]%lookup_insert_Some; auto. }
  unfold es_ctl. destruct op; [done|done|]. destruct (decide _); [done|auto].
Qed.
#[global] Instance escript_epoll : Epoll escript.
Proof.
  refine {| interest := es_list |}; try done; try (intros; cbn; done).
  - intros fd ev c e fd' i. by apply (es_ctl_set EPOLL_CTL_ADD).
  - intros fd ev c e fd' i. by apply (es_ctl_set EPOLL_CTL_MOD).
  - apply es_wait_reports.
  - intros fd n e. change (k_read fd n e) with (es_call (k_read fd n) e). unfold es_call. by destruct (k_read fd n (es_base e)).
  - intros fd e. change (k_accept fd e) with (es_call (k_accept fd) e). unfold es_call. by destruct (k_accept fd (es_base e)).
Defined.
