(* ===== verification/LoopSpec.v ===== *)
(** * A channel that closes

    What the event loop does when an interceptor goes away: the callback drops
    the last reference to the channel, whose destructor frees the handle whose
    events are being handled. *)

From S2P Require Import Prelude Csum16 Frame Session World DScript Reactor Rpc Wire Net Agent Udp Tcp Reassembly IpRx Dispatch Arbiter Boot ReactorSpec AgentSpec.

Section close.
Context {E : Type} `{Kernel E} `{Codec}.
Implicit Types d : Daemon E.

(** Once a channel is destroyed its handle is gone. *)
Lemma delete_handle_gone c d d' : IoHandle_delete c d = Ok (tt, d') → handles d' !! c = None.
Proof.
  destruct (handles d !! c) as [h|] eqn:Hc.
  - rewrite (delete_eq c h d Hc). intros [= <-]. cbn. apply lookup_delete_eq.
  - unfold IoHandle_delete, mbind, M_bind, the_handle, read_cell. by rewrite Hc.
Qed.
Lemma channel_delete_gone ch c d d' : channels d !! ch = Some c →
  AgentChannel_delete ch d = Ok (tt, d') → handles d' !! ch_sChannel c = None.
Proof.
  intros Hc. unfold AgentChannel_delete. mstep (read_cell_ok channels ch c d Hc). intros Hr.
  apply M_bind_inv in Hr as ([] & d1 & _ & Hr). apply M_bind_inv in Hr as ([] & d2 & _ & Hr).
  apply M_bind_inv in Hr as ([] & d3 & _ & Hr). apply M_bind_inv in Hr as ([] & d4 & Hd & Hr).
  injection Hr as <-. by apply delete_handle_gone in Hd.
Qed.

Lemma upd_handle_gone i f d : handles d !! i = None → upd_handle i f d = Fault UseAfterFree.
Proof. intros Hi. unfold upd_handle, mbind, M_bind, the_handle, read_cell. by rewrite Hi. Qed.
Lemma fire_gone cb get i d : handles d !! i = None → fire cb get i d = Fault UseAfterFree.
Proof. intros Hi. unfold fire, mbind, M_bind, the_handle, read_cell. by rewrite Hi. Qed.

(** The end of the stream: the channel leaves the arbiter's list and dies. *)
Lemma onReadReady_eof parse fuel ch c e' b x d d' :
  channels d !! ch = Some c → k_read (ch_fd c) RPC_MESSAGE_MAX_SIZE (env d) = ((0, b, x), e') →
  let d1 := set_rrChannels (filter (λ c, c ≠ ch) (rrChannels d)) (set_env e' d) in
  AgentChannel_delete ch d1 = Ok (tt, d') →
  run_cb parse fuel (CbChannelReadReady ch) d = Ok (tt, d').
Proof.
  intros Hc Hr d1 Hd. cbn [run_cb]. rewrite (M_bind_ok _ _ d tt d1).
  - unfold release_channel. mstep (eq_refl : gets rrChannels d1 = Ok (_, d1)). rewrite decide_False; [done|].
    intros Hin. cbn in Hin. apply list_elem_of_filter in Hin as [Hne _]. done.
  - unfold AgentChannel_onReadReady. mstep (read_cell_ok channels ch c d Hc).
    rewrite (M_bind_ok (kcall (k_read (ch_fd c) RPC_MESSAGE_MAX_SIZE)) _ d (0, b, x) (set_env e' d))
      by (unfold kcall; by rewrite Hr). done.
Qed.
End close.

(** ** Properties *)

(** A client that closes its channel makes the daemon use freed memory: when
    the channel's handle is readable, the read returns 0 and the destructors of
    the channel and what it owns run to completion,
    [IoHandle::handleEventsReceived] goes on to touch the handle that was just
    destroyed. *)
Theorem peer_close_use_after_free {E} `{Kernel E} `{Codec} parse fuel ch c h b x e' (d d' : Daemon E) :
  channels d !! ch = Some c → handles d !! ch_sChannel c = Some h →
  io_onRead h = Some (CbChannelReadReady ch) →
  io_received h = POLLIN ∨ io_received h = Z.lor POLLIN POLLHUP →
  k_read (ch_fd c) RPC_MESSAGE_MAX_SIZE (env d) = ((0, b, x), e') →
  let d0 := set_handles (<[ch_sChannel c := set_io_handling true h]> (handles d)) d in
  AgentChannel_delete ch (set_rrChannels (filter (λ c, c ≠ ch) (rrChannels d)) (set_env e' d0)) = Ok (tt, d') →
  IoHandle_handleEventsReceived (run_cb parse fuel) (ch_sChannel c) d = Fault UseAfterFree.
Proof.
  intros Hc Hh Hon Hev Hr d0 Hd. unfold IoHandle_handleEventsReceived. set (i := ch_sChannel c) in *.
  mstep (upd_handle_ok i _ h d Hh). fold d0.
  assert (handles d0 !! i = Some (set_io_handling true h)) as Hh0 by apply lookup_insert_eq.
  mstep (read_cell_ok handles i _ d0 Hh0). cbn [io_received set_io_handling].
  assert (handles d' !! i = None) as Hgone by (eapply channel_delete_gone; [|exact Hd]; exact Hc).
  assert (run_cb parse fuel (CbChannelReadReady ch) d0 = Ok (tt, d')) as Hcb
    by (by apply (onReadReady_eof parse fuel ch c e' b x d0)).
  assert (fire (run_cb parse fuel) io_onRead i d0 = Ok (tt, d')) as Hfire.
  { unfold fire. mstep (read_cell_ok handles i _ d0 Hh0). cbn [io_onRead set_io_handling]. by rewrite Hon. }
  assert (has_bits (io_received h) POLLHUP && negb (has_bits (io_received h) POLLIN) = false ∧
    has_bits (io_received h) (Z.lor POLLERR POLLNVAL) = false ∧
    has_bits (io_received h) (Z.lor (Z.lor POLLIN POLLPRI) POLLRDHUP) = true ∧
    has_bits (io_received h) POLLOUT = false) as (-> & -> & -> & ->) by (destruct Hev as [-> | ->]; done).
  rewrite (M_bind_ok _ _ d0 tt d0 eq_refl), (M_bind_ok _ _ d0 tt d0 eq_refl). mstep Hfire.
  rewrite (M_bind_ok _ _ d' tt d' eq_refl). by apply upd_handle_gone.
Qed.

(** The client of [booted] sends nothing and closes. *)
Definition lone_channel : AgentChannel := mkChannel 9 4 [] None None.
Definition lone_handle : IoHandle :=
  mkIoHandle 9 3 POLLIN false true (Some (CbChannelReadReady 3)) None (Some (CbChannelPeerClose 3)) None.
Definition lone_client : Daemon dscript :=
  set_rrChannels [3%nat] (set_loop_channels [4%nat]
    (sample_daemon ∅ ∅ {[3%nat := lone_channel]} {[4%nat := lone_handle]} (mkDScript 10 [(0, [], 0)] [] [] [] []))).

Lemma peer_close_use_after_free_witness :
  IoHandle_handleEventsReceived (run_cb (H0 := wire_codec) (λ _, mkRequest 0 None) 3) 4 lone_client = Fault UseAfterFree.
Proof.
  eapply (peer_close_use_after_free (H0 := wire_codec) (λ _, mkRequest 0 None) 3 3 lone_channel lone_handle [] 0);
    [reflexivity|reflexivity|reflexivity|by left|reflexivity|vm_compute; reflexivity].
Defined.
