(* ===== verification/ReassemblySpec.v ===== *)
(** * Reassembly: what arrives, what comes out

    The insertion of a fragment into its group, on the two cases that matter
    for a datagram of two fragments: the second one completes it, or takes the
    daemon down. *)

From S2P Require Import Prelude Csum16 Frame Session World DScript Reactor Rpc Wire Net Agent Udp Tcp Reassembly IpRx Dispatch ReactorSpec AgentSpec PacketSpec TcpSpec UdpSpec.

(** The raw [frag_off] and [tot_len] words and the header length of a frame. *)
Definition frag_view (f : FrameBuf) (fo tot ihl : Z) : Prop :=
  ld16 f (network_hdr f) iphdr_frag_off = Ok fo ∧ ld16 f (network_hdr f) iphdr_tot_len = Ok tot ∧
  ld_ihl f (network_hdr f) = Ok ihl.

(** The offset field, in units of 8 bytes, and the end of the fragment in bytes. *)
Definition offset_of (fo : Z) : Z := Z.land (bswap16 fo) IP_OFF_MASK.
Definition end_of (fo tot ihl : Z) : Z := offset_of fo * 8 + bswap16 tot - ihl * 4.

Lemma offset_nonneg fo : 0 ≤ offset_of fo.
Proof. unfold offset_of. apply Z.land_nonneg. right. done. Qed.

Section frag.
Context {E : Type} `{Kernel E}.
Implicit Types d : Daemon E.

Lemma hdr16_ok off i f v d : frames d !! i = Some f → ld16 f (network_hdr f) off = Ok v → hdr16 off i d = Ok (v, d).
Proof. intros Hf Hv. unfold hdr16, get_frame. mstep (read_cell_ok frames i f d Hf). by apply lift_res_ok. Qed.
Lemma hdr_ihl_ok i f v d : frames d !! i = Some f → ld_ihl f (network_hdr f) = Ok v → hdr_ihl i d = Ok (v, d).
Proof. intros Hf Hv. unfold hdr_ihl, get_frame. mstep (read_cell_ok frames i f d Hf). by apply lift_res_ok. Qed.
Lemma frag_offset_ok i f fo tot ihl d :
  frames d !! i = Some f → frag_view f fo tot ihl → frag_offset i d = Ok (offset_of fo, d).
Proof. intros Hf (Hv & _). unfold frag_offset. by mstep (hdr16_ok _ i f fo d Hf Hv). Qed.

(** The fields [defrag] identifies a datagram by. *)
Definition packet_key (f : FrameBuf) (id proto sa da : Z) : Prop :=
  ld16 f (network_hdr f) iphdr_id = Ok id ∧ ld8 f (network_hdr f) iphdr_protocol = Ok proto ∧
  ld32 f (network_hdr f) iphdr_saddr = Ok sa ∧ ld32 f (network_hdr f) iphdr_daddr = Ok da.

(** Up to the insertion, for a group that exists. *)
Lemma defrag_prefix b fb id proto sa da gs k c d :
  frames d !! b = Some fb → packet_key fb id proto sa da → defragCtxList d = Some gs →
  find_group id proto sa da gs = Some k → gs !! k = Some c →
  Reassembler_defrag b d =
    (first ← defrag_insert (fg_first c) b;
     let groups := <[k := set_first first c]> gs in
     _ ← modify (set_defragCtxList (Some groups));
     i ← deref first;
     ok ← defrag_complete i;
     if ok : bool then _ ← modify (set_defragCtxList (Some (delete k groups))); mret (Some i) else mret None) d.
Proof.
  intros Hb (Hid & Hpr & Hsa & Hda) Hg Hk Hc. unfold Reassembler_defrag, get_frame.
  mstep (hdr16_ok _ b fb id d Hb Hid).
  rewrite (M_bind_ok _ _ d proto d) by (mstep (read_cell_ok frames b fb d Hb); by apply lift_res_ok).
  rewrite (M_bind_ok _ _ d sa d) by (mstep (read_cell_ok frames b fb d Hb); by apply lift_res_ok).
  rewrite (M_bind_ok _ _ d da d) by (mstep (read_cell_ok frames b fb d Hb); by apply lift_res_ok).
  rewrite (M_bind_ok _ _ d (Some gs) d) by (unfold gets; by rewrite Hg).
  rewrite (M_bind_ok _ _ d gs d) by done. rewrite Hk. rewrite Hc. by rewrite (M_bind_ok _ _ d c d).
Qed.

(** The state after [b] was linked behind [a]. *)
Definition linked (a b : nat) (fa fb : FrameBuf) d : Daemon E :=
  with_frame b (set_next None fb) (with_frame a (set_next (Some b) fa) d).

(** The second fragment behind the first: the comparison uses the field
    without the byte swap. *)
Lemma insert_second a b fa fb foa tota ihla fob totb ihlb d :
  a ≠ b → frames d !! a = Some fa → frames d !! b = Some fb → next fa = None →
  frag_view fa foa tota ihla → frag_view fb fob totb ihlb → offset_of foa = 0 →
  defrag_insert (Some a) b d =
    if 0 <? Z.land fob IP_OFF_MASK then Ok (Some a, linked a b fa fb d) else Fault NullDeref.
Proof.
  intros Hab Ha Hb Hn Hva Hvb H0. unfold defrag_insert.
  erewrite M_bind_ok. 2: { mstep (frag_offset_ok a fa foa tota ihla d Ha Hva).
    mstep (frag_offset_ok b fb fob totb ihlb d Hb Hvb). reflexivity. }
  rewrite H0, (proj2 (Z.ltb_ge _ 0)) by apply offset_nonneg.
  mstep (hdr16_ok _ b fb fob d Hb (proj1 Hvb)). mstep (eq_refl : gets chain_fuel d = Ok (_, d)).
  unfold chain_fuel. generalize (Z.land fob IP_OFF_MASK) as o. intros o.
  destruct (0 <? o) eqn:Ho.
  - rewrite (M_bind_ok _ _ d (Some a, None) d).
    2: { cbn [insert_walk]. mstep (frag_offset_ok a fa foa tota ihla d Ha Hva). rewrite H0, Ho.
         mstep (read_cell_ok frames a fa d Ha). rewrite Hn. by destruct (size (frames d)). }
    rewrite (M_bind_ok _ _ d a d) by done. mstep (read_cell_ok frames a fa d Ha).
    set (d1 := with_frame a (set_next (Some b) fa) d). rewrite (M_bind_ok _ _ d tt d1) by done.
    assert (frames d1 !! b = Some fb) as Hb1 by (cbn; by rewrite lookup_insert_ne).
    by mstep (read_cell_ok frames b fb d1 Hb1).
  - rewrite (M_bind_ok _ _ d (None, Some a) d); [done|].
    cbn [insert_walk]. mstep (frag_offset_ok a fa foa tota ihla d Ha Hva). by rewrite H0, Ho.
Qed.
End frag.

(** ** Properties *)

(** C39. A remote peer can stop the daemon with one fragment: when the first
    fragment of a datagram is held and another one of the same datagram
    arrives whose [frag_off] word, read without the byte swap, has no offset
    bits (an offset of 256, 512, ..., 1792 bytes without more fragments to
    follow), [Reassembler::defrag] dereferences a null pointer. *)
Theorem defrag_null_deref {E} `{Kernel E} a b fa fb foa tota ihla fob totb ihlb id proto sa da gs k c (d : Daemon E) :
  a ≠ b → frames d !! a = Some fa → frames d !! b = Some fb → next fa = None →
  frag_view fa foa tota ihla → frag_view fb fob totb ihlb → offset_of foa = 0 →
  packet_key fb id proto sa da → defragCtxList d = Some gs →
  find_group id proto sa da gs = Some k → gs !! k = Some c → fg_first c = Some a →
  Z.land fob IP_OFF_MASK = 0 →
  Reassembler_defrag b d = Fault NullDeref.
Proof.
  intros Hab Ha Hb Hn Hva Hvb H0 Hkey Hg Hk Hc Hf Hz.
  rewrite (defrag_prefix b fb id proto sa da gs k c) by done. rewrite Hf.
  apply M_bind_fault. rewrite (insert_second a b fa fb foa tota ihla fob totb ihlb) by done. by rewrite Hz.
Qed.

Lemma delete_insert_same {A} (k : nat) (x : A) (l : list A) : delete k (<[k := x]> l) = delete k l.
Proof. revert k. induction l as [|y l IH]; intros [|k]; [done..|]. cbn. f_equal. apply IH. Qed.

(** A 16-bit field that can be read can be written. *)
Lemma st16_ok f o off v w : ld16 f (raw o) off = Ok v → ∃ l, st16 f (raw o) off w = Ok (set_rawBytes l f).
Proof.
  unfold ld16, ld, load16, st16, st, store16. cbn [target of_option mbind res_bind].
  destruct (slice (rawBytes f) (o + off) 2) as [bs|] eqn:Hs; [|done]. intros _.
  apply slice_Some in Hs as (_ & Ho & Hle & _).
  destruct (store (rawBytes f) (o + off) (le_bytes 2 w)) as [l|] eqn:Hst; [by exists l|].
  destruct (store_is_Some (rawBytes f) (o + off) (le_bytes 2 w)) as [l Hl]; [done| |congruence].
  rewrite length_le_bytes. lia.
Qed.

Section complete.
Context {E : Type} `{Kernel E}.
Implicit Types d : Daemon E.

(** The check and the adjustment of a chain of two. *)
Lemma complete_two a b fa fb o foa tota ihla fob totb ihlb d :
  a ≠ b → frames d !! a = Some fa → frames d !! b = Some fb →
  next fa = Some b → next fb = None → network_hdr fa = raw o →
  frag_view fa foa tota ihla → frag_view fb fob totb ihlb →
  offset_of foa = 0 → offset_of fob * 8 = end_of foa tota ihla → has_bits (bswap16 fob) IP_MF_MASK = false →
  ∃ l, st16 fa (raw o) iphdr_tot_len (bswap16 (u16 (u16 (end_of fob totb ihlb) + ihla * 4))) = Ok (set_rawBytes l fa) ∧
    defrag_complete a d = Ok (true,
      with_frame b (set_user_payload_begin (raw ihlb) (set_network_hdr nullptr fb))
        (with_frame a (set_rawBytes l fa) d)).
Proof.
  intros Hab Ha Hb Hna Hnb Hnet Hva Hvb H0 Hcont Hmf.
  destruct (st16_ok fa o iphdr_tot_len tota (bswap16 (u16 (u16 (end_of fob totb ihlb) + ihla * 4)))) as [l Hl].
  { rewrite <-Hnet. apply Hva. }
  exists l. split; [done|]. unfold defrag_complete, chain_fuel. mstep (eq_refl : gets _ d = Ok (_, d)).
  assert (∃ n, size (frames d) = S n) as [n ->].
  { destruct (size (frames d)) as [|n] eqn:Hs; [|by exists n]. apply map_size_empty_inv in Hs. by rewrite Hs in Ha. }
  rewrite (M_bind_ok _ _ d true d).
  2: { cbn [contiguous]. mstep (frag_offset_ok a fa foa tota ihla d Ha Hva). rewrite H0. change (negb (0 * 8 =? 0)) with false. cbv iota.
       mstep (hdr16_ok _ a fa tota d Ha (proj1 (proj2 Hva))). mstep (hdr_ihl_ok a fa ihla d Ha (proj2 (proj2 Hva))).
       mstep (read_cell_ok frames a fa d Ha). rewrite Hna.
       mstep (frag_offset_ok b fb fob totb ihlb d Hb Hvb).
       rewrite Hcont. unfold end_of. rewrite H0, Z.eqb_refl. cbn [negb].
       mstep (hdr16_ok _ b fb totb d Hb (proj1 (proj2 Hvb))). mstep (hdr_ihl_ok b fb ihlb d Hb (proj2 (proj2 Hvb))).
       mstep (read_cell_ok frames b fb d Hb). rewrite Hnb. by destruct n. }
  cbn [negb]. rewrite (M_bind_ok _ _ d b d).
  2: { cbn [last_of]. mstep (read_cell_ok frames a fa d Ha). rewrite Hna.
       mstep (read_cell_ok frames b fb d Hb). by rewrite Hnb. }
  mstep (hdr16_ok _ b fb fob d Hb (proj1 Hvb)). cbv zeta. rewrite Hmf.
  mstep (hdr16_ok _ b fb totb d Hb (proj1 (proj2 Hvb))). mstep (hdr_ihl_ok b fb ihlb d Hb (proj2 (proj2 Hvb))).
  mstep (hdr_ihl_ok a fa ihla d Ha (proj2 (proj2 Hva))).
  mrun upd_frame_ok; [rewrite Hnet; exact Hl|]. set (d1 := with_frame a _ d).
  assert (frames d1 !! a = Some (set_rawBytes l fa)) as Ha1 by apply lookup_insert_eq.
  mstep (read_cell_ok frames a _ d1 Ha1). change (next (set_rawBytes l fa)) with (next fa). rewrite Hna.
  assert (frames d1 !! b = Some fb) as Hb1 by (cbn; by rewrite lookup_insert_ne).
  rewrite (M_bind_ok _ _ d1 tt (with_frame b (set_user_payload_begin (raw ihlb) (set_network_hdr nullptr fb)) d1)); [done|].
  cbn [adjust_rest]. mstep (hdr_ihl_ok b fb ihlb d1 Hb1 (proj2 (proj2 Hvb))).
  mstep (read_cell_ok frames b fb d1 Hb1). rewrite Hnb. done.
Qed.
End complete.

(** A datagram of two fragments, the second arriving last: when it starts
    where the first one ends, is the last one, and its [frag_off] word has
    offset bits also without the byte swap, [Reassembler::defrag] returns the
    first frame with the second linked behind it, the first header's total
    length is that of the datagram, and the group is removed.  The payload of
    the second frame is made to begin [ihl] bytes into the frame, not
    [ihl * 4]. *)
Theorem defrag_two_fragments {E} `{Kernel E} a b fa fb o foa tota ihla fob totb ihlb id proto sa da gs k c (d : Daemon E) :
  a ≠ b → frames d !! a = Some fa → frames d !! b = Some fb → next fa = None → network_hdr fa = raw o →
  frag_view fa foa tota ihla → frag_view fb fob totb ihlb → offset_of foa = 0 →
  packet_key fb id proto sa da → defragCtxList d = Some gs →
  find_group id proto sa da gs = Some k → gs !! k = Some c → fg_first c = Some a →
  0 < Z.land fob IP_OFF_MASK → offset_of fob * 8 = end_of foa tota ihla → has_bits (bswap16 fob) IP_MF_MASK = false →
  ∃ l d', Reassembler_defrag b d = Ok (Some a, d') ∧
    st16 (set_next (Some b) fa) (raw o) iphdr_tot_len (bswap16 (u16 (u16 (end_of fob totb ihlb) + ihla * 4)))
      = Ok (set_rawBytes l (set_next (Some b) fa)) ∧
    frames d' !! a = Some (set_rawBytes l (set_next (Some b) fa)) ∧
    frames d' !! b = Some (set_user_payload_begin (raw ihlb) (set_network_hdr nullptr (set_next None fb))) ∧
    defragCtxList d' = Some (delete k gs).
Proof.
  intros Hab Ha Hb Hn Hnet Hva Hvb H0 Hkey Hg Hk Hc Hf Hz Hcont Hmf.
  rewrite (defrag_prefix b fb id proto sa da gs k c) by done. rewrite Hf.
  pose proof (insert_second a b fa fb foa tota ihla fob totb ihlb d Hab Ha Hb Hn Hva Hvb H0) as Hi.
  rewrite (proj2 (Z.ltb_lt 0 _) Hz) in Hi. mstep Hi. cbv zeta. clear Hi.
  set (d1 := set_defragCtxList (Some (<[k := set_first (Some a) c]> gs)) (linked a b fa fb d)).
  rewrite (M_bind_ok _ _ _ tt d1) by done. rewrite (M_bind_ok _ _ d1 a d1) by done.
  destruct (complete_two a b (set_next (Some b) fa) (set_next None fb) o foa tota ihla fob totb ihlb d1)
    as (l & Hl & Hcomp); try done.
  { cbn. rewrite lookup_insert_ne by done. apply lookup_insert_eq. }
  { apply lookup_insert_eq. }
  mstep Hcomp. eexists l, _. split; [reflexivity|]. split; [exact Hl|]. cbn. split_and!.
  - rewrite lookup_insert_ne by done. apply lookup_insert_eq.
  - apply lookup_insert_eq.
  - by rewrite delete_insert_same.
Qed.

(** ** Concrete runs *)

(** Fragments of a datagram from 10.0.0.1 to 10.0.0.2; [word] is the
    fragmentation word in host order. *)
Definition sample_fragment (word : Z) (data : list Z) : FrameBuf :=
  rx_frame nullptr nullptr
    ([69; 0] ++ be16 (20 + length data) ++ [0; 9] ++ be16 word ++ [64; 17; 0; 0; 10; 0; 0; 1; 10; 0; 0; 2] ++ data).
Definition sample_group : FragGroup :=
  mkFragGroup (le_val [0; 9]) 17 (le_val [10; 0; 0; 1]) (le_val [10; 0; 0; 2]) (Some 7%nat).
Definition fragments (f7 f8 : FrameBuf) : Daemon dscript :=
  set_defragCtxList (Some [sample_group]) (with_frame 8 f8 (with_frame 7 f7 (sample_daemon ∅ ∅ ∅ ∅ quiet))).

(** The second fragment at byte 256. *)
Lemma defrag_null_deref_witness :
  Reassembler_defrag 8 (fragments (sample_fragment 8192 [1]) (sample_fragment 32 [2])) = Fault NullDeref.
Proof.
  apply (defrag_null_deref 7 8 (sample_fragment 8192 [1]) (sample_fragment 32 [2])
    (bswap16 8192) (bswap16 21) 5 (bswap16 32) (bswap16 21) 5 (le_val [0; 9]) 17 (le_val [10; 0; 0; 1]) (le_val [10; 0; 0; 2])
    [sample_group] 0 sample_group); try done; vm_compute; done.
Defined.

Lemma defrag_two_fragments_witness :
  ∃ d', Reassembler_defrag 8 (fragments (sample_fragment 8192 [1;2;3;4;5;6;7;8]) (sample_fragment 1 [9; 10]))
    = Ok (Some 7%nat, d') ∧ user_payload_begin <$> frames d' !! 8%nat = Some (raw 5) ∧ defragCtxList d' = Some [].
Proof.
  destruct (defrag_two_fragments 7 8 (sample_fragment 8192 [1;2;3;4;5;6;7;8]) (sample_fragment 1 [9; 10]) 0
    (bswap16 8192) (bswap16 28) 5 (bswap16 1) (bswap16 22) 5 (le_val [0; 9]) 17 (le_val [10; 0; 0; 1]) (le_val [10; 0; 0; 2])
    [sample_group] 0 sample_group (fragments (sample_fragment 8192 [1;2;3;4;5;6;7;8]) (sample_fragment 1 [9; 10])))
    as (l & d' & Hr & _ & _ & Hb & Hg); try done; try (vm_compute; done).
  exists d'. split; [exact Hr|]. rewrite Hb. split; [reflexivity|exact Hg].
Defined.
