(* ===== verification/FragChainSpec.v ===== *)
(** * Reassembly of any number of fragments

    A group holds a chain of frames, linked through [next].  A fragment that
    arrives behind all of them is appended, and the datagram is returned as soon
    as the chain has no gap and ends. *)

From S2P Require Import Prelude Csum16 Frame Session World DScript Reactor Rpc Wire Net Agent Udp Tcp Reassembly IpRx Dispatch ReactorSpec AgentSpec PacketSpec TcpSpec UdpSpec ReassemblySpec.

(** A held fragment: its frame, and what [defrag] reads of its header. *)
Record frag := mkFrag { fi : nat; fr : FrameBuf; fo : Z; tot : Z; ihl : Z }.
Definition frag_ok (x : frag) : Prop := frag_view (fr x) (fo x) (tot x) (ihl x).
Definition offset (x : frag) : Z := offset_of (fo x).
Definition end_at (x : frag) : Z := end_of (fo x) (tot x) (ihl x).
Definition more (x : frag) : bool := has_bits (bswap16 (fo x)) IP_MF_MASK.
Definition link_to (n : option nat) (x : frag) : frag := mkFrag (fi x) (set_next n (fr x)) (fo x) (tot x) (ihl x).

(** Each fragment starts where the one before it ends. *)
Fixpoint no_gap (e : Z) (l : list frag) : bool :=
  match l with
  | [] => true
  | x :: l => (offset x * 8 =? e) && no_gap (end_at x) l
  end.
(** The chain with [b] behind it. *)
Fixpoint append (l : list frag) (b : frag) : list frag :=
  match l with
  | [] => [link_to None b]
  | [x] => [link_to (Some (fi b)) x; link_to None b]
  | x :: l => x :: append l b
  end.
(** What the adjustment makes of a fragment behind the first. *)
Definition adjusted (x : frag) : FrameBuf := set_user_payload_begin (raw (ihl x)) (set_network_hdr nullptr (fr x)).

Section chain.
Context {E : Type} `{Kernel E}.
Implicit Types d : Daemon E.

(** The frames of [l] are linked from [h] on. *)
Fixpoint held d (h : option nat) (l : list frag) : Prop :=
  match l with
  | [] => h = None
  | x :: l => h = Some (fi x) ∧ frames d !! fi x = Some (fr x) ∧ frag_ok x ∧ held d (next (fr x)) l
  end.

Lemma held_dom d h l : held d h l → ∀ i, i ∈ fi <$> l → i ∈ dom (frames d).
Proof.
  revert h. induction l as [|x l IH]; cbn; intros h Hl i Hi; [set_solver|]. destruct Hl as (_ & Hx & _ & Hl).
  apply elem_of_cons in Hi as [->|Hi]; [by apply elem_of_dom|by eapply IH].
Qed.
Lemma held_fuel d h l : held d h l → NoDup (fi <$> l) → (length l ≤ size (frames d))%nat.
Proof.
  intros Hl Hn. rewrite <-size_dom, <-(length_fmap fi). rewrite <-(size_list_to_set (C := gset nat)) by done.
  apply subseteq_size. intros i Hi. apply elem_of_list_to_set in Hi. by eapply held_dom.
Qed.

(** A chain whose frames another state also has. *)
Lemma held_frames d d' h l : (∀ x, x ∈ l → frames d' !! fi x = frames d !! fi x) → held d h l → held d' h l.
Proof.
  revert h. induction l as [|x l IH]; cbn; intros h He; [done|]. intros (? & Hx & ? & ?). split_and!; [done| |done|].
  - rewrite He by set_solver. done.
  - apply IH; [|done]. intros y Hy. apply He. set_solver.
Qed.

(** ** The loops *)

Lemma insert_walk_end fuel o prev h l d : held d h l → (∀ x, x ∈ l → offset x < o) → (length l ≤ fuel)%nat →
  insert_walk fuel o prev h d = Ok ((match last l with Some x => Some (fi x) | None => prev end, None), d).
Proof.
  revert fuel prev h. induction l as [|x l IH]; intros fuel prev h Hl Ho Hf; cbn in Hl.
  - subst h. by destruct fuel.
  - destruct Hl as (-> & Hx & Hv & Hl). destruct fuel as [|fuel]; [cbn in Hf; lia|]. cbn [insert_walk].
    mstep (frag_offset_ok _ _ _ _ _ _ Hx Hv). fold (offset x). rewrite (proj2 (Z.ltb_lt _ _)) by (apply Ho; set_solver).
    mstep (read_cell_ok frames _ _ _ Hx). rewrite (IH fuel (Some (fi x)) _ Hl) by (intros; try apply Ho; set_solver || (cbn in Hf; lia)).
    rewrite last_cons. by destruct (last l).
Qed.

Lemma contiguous_eq fuel e h l d : held d h l → (length l ≤ fuel)%nat → contiguous fuel h e d = Ok (no_gap e l, d).
Proof.
  revert fuel e h. induction l as [|x l IH]; intros fuel e h Hl Hf; cbn in Hl.
  - subst h. by destruct fuel.
  - destruct Hl as (-> & Hx & Hv & Hl). destruct fuel as [|fuel]; [cbn in Hf; lia|]. cbn [contiguous no_gap].
    mstep (frag_offset_ok _ _ _ _ _ _ Hx Hv). fold (offset x). destruct (offset x * 8 =? e); [|done]. cbn [negb andb].
    mstep (hdr16_ok _ _ _ _ d Hx (proj1 (proj2 Hv))). mstep (hdr_ihl_ok _ _ _ d Hx (proj2 (proj2 Hv))).
    mstep (read_cell_ok frames _ _ _ Hx). apply IH; [done|cbn in Hf; lia].
Qed.

Lemma last_of_eq fuel x l d : held d (Some (fi x)) (x :: l) → (length l ≤ fuel)%nat →
  last_of fuel (fi x) d = Ok (match last l with Some y => fi y | None => fi x end, d).
Proof.
  revert fuel x. induction l as [|y l IH]; intros fuel x (_ & Hx & _ & Hl) Hf.
  - cbn in Hl. destruct fuel; cbn [last_of]; mstep (read_cell_ok frames _ _ _ Hx); by rewrite Hl.
  - destruct fuel as [|fuel]; [cbn in Hf; lia|]. cbn [last_of]. mstep (read_cell_ok frames _ _ _ Hx).
    pose proof Hl as [Hn _]. rewrite Hn in Hl |- *. rewrite (IH fuel y Hl) by (cbn in Hf; lia). rewrite last_cons. by destruct (last l).
Qed.

Lemma adjust_rest_eq fuel h l d : held d h l → NoDup (fi <$> l) → (length l ≤ fuel)%nat →
  ∃ d', adjust_rest fuel h d = Ok (tt, d') ∧ (∀ x, x ∈ l → frames d' !! fi x = Some (adjusted x)) ∧
    (∀ i, i ∉ fi <$> l → frames d' !! i = frames d !! i) ∧ defragCtxList d' = defragCtxList d.
Proof.
  revert fuel h d. induction l as [|x l IH]; intros fuel h d Hl Hn Hf; cbn in Hl.
  - subst h. exists d. destruct fuel; (split_and!; [done|set_solver|done|done]).
  - destruct Hl as (-> & Hx & Hv & Hl). destruct fuel as [|fuel]; [cbn in Hf; lia|]. cbn [adjust_rest].
    mstep (hdr_ihl_ok _ _ _ d Hx (proj2 (proj2 Hv))). mstep (read_cell_ok frames _ _ _ Hx).
    set (d1 := with_frame (fi x) (adjusted x) d). rewrite (M_bind_ok _ _ d tt d1) by done. cbn [fmap list_fmap] in Hn.
    apply NoDup_cons in Hn as [Hnx Hn].
    destruct (IH fuel (next (fr x)) d1) as (d' & Hr & Ha & Ho & Hg); [|done|cbn in Hf; lia|].
    { apply (held_frames d); [|done]. intros y Hy. cbn. rewrite lookup_insert_ne; [done|]. intros Heq. apply Hnx. rewrite Heq. by apply list_elem_of_fmap_2. }
    exists d'. split; [exact Hr|]. split_and!; [|intros i Hi|exact Hg].
    + intros y [->|Hy]%elem_of_cons; [|by apply Ha]. rewrite Ho by done. apply lookup_insert_eq.
    + rewrite Ho by set_solver. cbn. rewrite lookup_insert_ne; [done|]. set_solver.
Qed.

(** ** Insertion behind the chain *)

Lemma append_ids l b : fi <$> append l b = (fi <$> l) ++ [fi b].
Proof. induction l as [|x [|y l] IH]; [done|done|]. cbn [append fmap list_fmap app] in *. by rewrite IH. Qed.
Lemma append_last l b : last (append l b) = Some (link_to None b).
Proof. induction l as [|x [|y l] IH]; [done|done|]. cbn [append] in *. rewrite last_cons. by rewrite IH. Qed.
Lemma append_head x l b : ∃ n l', append (x :: l) b = link_to n x :: l' ∧ l' ≠ [].
Proof.
  destruct l as [|y l]; [by eexists _, _|]. exists (next (fr x)), (append (y :: l) b). split.
  - cbn. destruct x as [i f ? ? ?]. by destruct f.
  - intros E1%(f_equal last). by rewrite append_last in E1.
Qed.
Lemma link_ok n x : frag_ok x → frag_ok (link_to n x).
Proof. done. Qed.

(** The state after [b] is linked behind [x], the last of the chain. *)
Definition appended (x b : frag) d : Daemon E := with_frame (fi b) (fr (link_to None b)) (with_frame (fi x) (fr (link_to (Some (fi b)) x)) d).
Lemma held_append l b h x d : held d h l → last l = Some x → NoDup (fi <$> l ++ [b]) → frag_ok b →
  held (appended x b d) h (append l b).
Proof.
  revert h. induction l as [|y [|z l] IH]; intros h Hl Hx Hn Hb; [done| |].
  - injection Hx as ->. destruct Hl as (-> & Hy & Hv & _). cbn in Hn. apply NoDup_cons in Hn as [Hn _].
    assert (fi x ≠ fi b) as Hne by set_solver. split; [done|]. split; [|split; [by apply link_ok|]].
    + cbn. rewrite lookup_insert_ne by done. apply lookup_insert_eq.
    + split_and!; [done|cbn; apply lookup_insert_eq|by apply link_ok|done].
  - destruct Hl as (-> & Hy & Hv & Hl). rewrite last_cons in Hx.
    change (fi <$> (y :: z :: l) ++ [b]) with (fi y :: (fi <$> (z :: l) ++ [b])) in Hn. apply NoDup_cons in Hn as [Hny Hn].
    assert (last (z :: l) = Some x) as Hlast by (destruct (last (z :: l)) as [w|] eqn:Hw; [done|by apply last_None in Hw]).
    cbn [append]. split; [done|]. split; [|split; [done|]].
    + cbn. rewrite !lookup_insert_ne; [done|..].
      * intros Heq. apply Hny. rewrite <-Heq. apply list_elem_of_fmap_2, elem_of_app. left.
        by apply last_Some_elem_of.
      * intros Heq. apply Hny. rewrite <-Heq. apply list_elem_of_fmap_2, elem_of_app. right. set_solver.
    + by apply IH.
Qed.

Lemma insert_behind x0 l b d : held d (Some (fi x0)) (x0 :: l) → NoDup (fi <$> (x0 :: l) ++ [b]) →
  frames d !! fi b = Some (fr b) → frag_ok b → offset x0 = 0 →
  (∀ x, x ∈ x0 :: l → offset x < Z.land (fo b) IP_OFF_MASK) →
  ∃ d', defrag_insert (Some (fi x0)) (fi b) d = Ok (Some (fi x0), d') ∧ held d' (Some (fi x0)) (append (x0 :: l) b) ∧
    defragCtxList d' = defragCtxList d.
Proof.
  intros Hl Hn Hb Hv H0 Ho. pose proof Hl as (_ & Hx & Hvx & _). unfold defrag_insert.
  erewrite M_bind_ok. 2: { mstep (frag_offset_ok _ _ _ _ _ _ Hx Hvx). mstep (frag_offset_ok _ _ _ _ _ _ Hb Hv). reflexivity. }
  fold (offset x0). rewrite H0, (proj2 (Z.ltb_ge _ 0)) by apply offset_nonneg.
  mstep (hdr16_ok _ _ _ _ d Hb (proj1 Hv)). mstep (eq_refl : gets chain_fuel d = Ok (_, d)).
  assert (NoDup (fi <$> x0 :: l)) as Hnl by (rewrite fmap_app in Hn; by apply NoDup_app in Hn as [? _]).
  pose proof (held_fuel d _ _ Hl Hnl) as Hsz.
  mstep (insert_walk_end (chain_fuel d) _ None _ _ d Hl Ho ltac:(unfold chain_fuel; lia)).
  destruct (last (x0 :: l)) as [x|] eqn:Hlast; [|by apply last_None in Hlast]. rewrite (M_bind_ok _ _ d (fi x) d) by done.
  assert (frames d !! fi x = Some (fr x)) as Hfx.
  { apply last_Some_elem_of in Hlast. clear -Hl Hlast. revert Hl. generalize (Some (fi x0)) as h. induction (x0 :: l) as [|y k IH]; [set_solver|].
    intros h (_ & Hy & _ & Hk). apply elem_of_cons in Hlast as [->|Hk']; [done|by eapply IH]. }
  mstep (read_cell_ok frames _ _ _ Hfx). set (d1 := with_frame (fi x) (fr (link_to (Some (fi b)) x)) d).
  rewrite (M_bind_ok _ _ d tt d1) by done.
  assert (fi x ≠ fi b) as Hne.
  { intros Heq. rewrite fmap_app in Hn. apply NoDup_app in Hn as (_ & Hdis & _). eapply (Hdis (fi x)).
    - by apply list_elem_of_fmap_2, last_Some_elem_of.
    - rewrite Heq. cbn. set_solver. }
  assert (frames d1 !! fi b = Some (fr b)) as Hb1 by (cbn; by rewrite lookup_insert_ne).
  mstep (read_cell_ok frames _ _ _ Hb1). exists (appended x b d). split; [done|]. split; [by apply held_append|done].
Qed.

(** ** Completion *)

Lemma held_elem d h l x : held d h l → x ∈ l → frames d !! fi x = Some (fr x) ∧ frag_ok x.
Proof.
  revert h. induction l as [|y l IH]; [set_solver|]. intros h (_ & Hy & Hv & Hl) [->|Hx]%elem_of_cons; [done|by eapply IH].
Qed.

Lemma complete_chain x r y o d : held d (Some (fi x)) (x :: r) → NoDup (fi <$> x :: r) → network_hdr (fr x) = raw o →
  last (x :: r) = Some y →
  if no_gap 0 (x :: r) && negb (more y) then
    ∃ bytes d', st16 (fr x) (raw o) iphdr_tot_len (bswap16 (u16 (u16 (end_at y) + ihl x * 4))) = Ok (set_rawBytes bytes (fr x)) ∧
      defrag_complete (fi x) d = Ok (true, d') ∧ frames d' !! fi x = Some (set_rawBytes bytes (fr x)) ∧
      (∀ z, z ∈ r → frames d' !! fi z = Some (adjusted z)) ∧ defragCtxList d' = defragCtxList d
  else defrag_complete (fi x) d = Ok (false, d).
Proof.
  intros Hl Hn Hnet Hy. pose proof (held_fuel d _ _ Hl Hn) as Hsz. cbn [length] in Hsz.
  pose proof Hl as (_ & Hx & Hvx & Hr). pose proof (held_elem d _ _ y Hl (last_Some_elem_of _ _ Hy)) as [Hfy Hvy].
  unfold defrag_complete. mstep (eq_refl : gets chain_fuel d = Ok (_, d)).
  mstep (contiguous_eq (chain_fuel d) 0 _ _ d Hl ltac:(unfold chain_fuel; cbn; lia)).
  destruct (no_gap 0 (x :: r)); [|done]. cbn [negb andb].
  assert (last_of (chain_fuel d) (fi x) d = Ok (fi y, d)) as Hlo.
  { rewrite (last_of_eq (chain_fuel d) x r d Hl) by (unfold chain_fuel; lia). rewrite last_cons in Hy.
    destruct (last r); by injection Hy as ->. }
  mstep Hlo. mstep (hdr16_ok _ _ _ _ d Hfy (proj1 Hvy)). cbv zeta. fold (more y). destruct (more y); [done|]. cbn [negb].
  mstep (hdr16_ok _ _ _ _ d Hfy (proj1 (proj2 Hvy))). mstep (hdr_ihl_ok _ _ _ d Hfy (proj2 (proj2 Hvy))).
  mstep (hdr_ihl_ok _ _ _ d Hx (proj2 (proj2 Hvx))).
  destruct (st16_ok (fr x) o iphdr_tot_len (tot x) (bswap16 (u16 (u16 (end_at y) + ihl x * 4)))) as [bytes Hst].
  { rewrite <-Hnet. apply Hvx. }
  mrun upd_frame_ok; [rewrite Hnet; exact Hst|]. set (d1 := with_frame (fi x) _ d).
  assert (frames d1 !! fi x = Some (set_rawBytes bytes (fr x))) as Hx1 by apply lookup_insert_eq.
  mstep (read_cell_ok frames _ _ d1 Hx1). change (next (set_rawBytes bytes (fr x))) with (next (fr x)).
  cbn [fmap list_fmap] in Hn. apply NoDup_cons in Hn as [Hnx Hn].
  destruct (adjust_rest_eq (chain_fuel d) (next (fr x)) r d1) as (d' & Hadj & Ha & Ho & Hg); [|done|unfold chain_fuel; lia|].
  { apply (held_frames d); [|done]. intros z Hz. cbn. rewrite lookup_insert_ne; [done|]. intros Heq. apply Hnx. rewrite Heq.
    by apply list_elem_of_fmap_2. }
  mstep Hadj. exists bytes, d'. split_and!; [exact Hst|done|by rewrite Ho|done|done].
Qed.
End chain.

(** ** Properties *)

(** C33. Reassembly, fragment by fragment: when a group holds a chain of any
    number of fragments that begins at offset 0, and a fragment arrives whose
    [frag_off] word, as the code compares it, lies behind all of them, it is
    linked behind them.  If the chain then has no gap and its last fragment
    announces no more, [Reassembler::defrag] returns the first frame with the
    others linked behind it, the first header has the datagram's total length,
    and the group is removed; the payloads of the others are made to begin
    [ihl] bytes into their frames, not [ihl * 4].  Otherwise nothing is
    returned and the longer chain is held. *)
Theorem defrag_in_order {E} `{Kernel E} x0 l b o id proto sa da gs k c (d : Daemon E) :
  held d (Some (fi x0)) (x0 :: l) → NoDup (fi <$> (x0 :: l) ++ [b]) → frames d !! fi b = Some (fr b) → frag_ok b →
  network_hdr (fr x0) = raw o → offset x0 = 0 → (∀ x, x ∈ x0 :: l → offset x < Z.land (fo b) IP_OFF_MASK) →
  packet_key (fr b) id proto sa da → defragCtxList d = Some gs → find_group id proto sa da gs = Some k →
  gs !! k = Some c → fg_first c = Some (fi x0) →
  let chain := append (x0 :: l) b in
  if no_gap 0 chain && negb (more b) then
    ∃ n bytes d', Reassembler_defrag (fi b) d = Ok (Some (fi x0), d') ∧
      st16 (set_next n (fr x0)) (raw o) iphdr_tot_len (bswap16 (u16 (u16 (end_at b) + ihl x0 * 4))) = Ok (set_rawBytes bytes (set_next n (fr x0))) ∧
      frames d' !! fi x0 = Some (set_rawBytes bytes (set_next n (fr x0))) ∧
      (∀ x, x ∈ tail chain → frames d' !! fi x = Some (adjusted x)) ∧ defragCtxList d' = Some (delete k gs)
  else ∃ d', Reassembler_defrag (fi b) d = Ok (None, d') ∧ held d' (Some (fi x0)) chain ∧ defragCtxList d' = Some gs.
Proof.
  intros Hl Hn Hb Hv Hnet H0 Ho Hkey Hg Hk Hc Hf chain.
  rewrite (defrag_prefix (fi b) (fr b) id proto sa da gs k c) by done. rewrite Hf.
  destruct (insert_behind x0 l b d Hl Hn Hb Hv H0 Ho) as (d1 & Hins & Hheld & _). mstep Hins. cbv zeta. fold chain in Hheld.
  assert (<[k := set_first (Some (fi x0)) c]> gs = gs) as Hgs.
  { apply list_insert_id. rewrite Hc. f_equal. destruct c. cbn in *. by subst. }
  rewrite Hgs. set (d2 := set_defragCtxList (Some gs) d1). rewrite (M_bind_ok _ _ d1 tt d2) by done.
  rewrite (M_bind_ok _ _ d2 (fi x0) d2) by done.
  destruct (append_head x0 l b) as (n & r & Hcons & _). fold chain in Hcons.
  assert (held d2 (Some (fi x0)) (link_to n x0 :: r)) as Hheld2 by (rewrite <-Hcons; by apply (held_frames d1)).
  assert (NoDup (fi <$> link_to n x0 :: r)) as Hnd by (rewrite <-Hcons; unfold chain; rewrite append_ids; rewrite fmap_app in Hn; exact Hn).
  pose proof (complete_chain (link_to n x0) r (link_to None b) o d2 Hheld2 Hnd Hnet ltac:(rewrite <-Hcons; apply append_last)) as Hcomp.
  rewrite <-Hcons in Hcomp. change (more (link_to None b)) with (more b) in Hcomp. destruct (no_gap 0 chain && negb (more b)).
  - destruct Hcomp as (bytes & d' & Hst & Hd' & Hx & Ha & _). change (fi (link_to n x0)) with (fi x0) in Hd', Hx. mstep Hd'.
    exists n, bytes. eexists. split; [reflexivity|]. split; [exact Hst|]. rewrite Hcons. by split_and!.
  - change (fi (link_to n x0)) with (fi x0) in Hcomp. mstep Hcomp. exists d2. split; [done|]. split; [by apply (held_frames d1)|done].
Qed.

(** ** A concrete run *)

(** Three fragments: the first two are held, the third arrives in frame 9. *)
Definition sample_first : frag :=
  mkFrag 7 (set_next (Some 8%nat) (sample_fragment 8192 [1;2;3;4;5;6;7;8])) (bswap16 8192) (bswap16 28) 5.
Definition sample_second : frag := mkFrag 8 (sample_fragment 8193 [9;10;11;12;13;14;15;16]) (bswap16 8193) (bswap16 28) 5.
Definition sample_third : frag := mkFrag 9 (sample_fragment 2 [17; 18]) (bswap16 2) (bswap16 22) 5.
Definition three_fragments : Daemon dscript :=
  with_frame 9 (fr sample_third) (fragments (fr sample_first) (fr sample_second)).

Lemma defrag_in_order_witness :
  ∃ d', Reassembler_defrag 9 three_fragments = Ok (Some 7%nat, d') ∧
    user_payload_begin <$> frames d' !! 9%nat = Some (raw 5) ∧ defragCtxList d' = Some [].
Proof.
  assert (Hr := defrag_in_order sample_first [sample_second] sample_third 0 (le_val [0; 9]) 17 (le_val [10; 0; 0; 1])
    (le_val [10; 0; 0; 2]) [sample_group] 0 sample_group three_fragments).
  destruct Hr as (n & l & d' & Hr & _ & _ & Hb & Hg).
  - by vm_compute.
  - apply (bool_decide_unpack _). by vm_compute.
  - by vm_compute.
  - by vm_compute.
  - by vm_compute.
  - by vm_compute.
  - apply Forall_forall. repeat constructor.
  - by vm_compute.
  - by vm_compute.
  - by vm_compute.
  - by vm_compute.
  - by vm_compute.
  - exists d'. split; [exact Hr|]. split; [|exact Hg]. pose proof (Hb (link_to None sample_third) ltac:(cbn; set_solver)) as Hl. change (fi _) with 9%nat in Hl. by rewrite Hl.
Defined.
