(* ===== verification/BootSpec.v ===== *)
(** * Start-up

    What the command line can change, and what [Veloxd::init] leaves behind
    when the system calls succeed. *)

From stdpp Require Import strings.
From S2P Require Import Prelude Csum16 Frame Session World DScript Reactor Rpc Net Agent Dispatch Boot ReactorSpec.

(** ** The command line *)

(** The options whose value reaches the configuration. *)
Definition effective (o : cmd_option) : bool :=
  match o with OptVerbose | OptConfig | OptLoggingDir => false | _ => true end.

(** ** Start-up *)

Section boot.
Context {E : Type} `{Kernel E}.
Implicit Types d : Daemon E.

(** The system calls of start-up that can fail, succeeding. *)
Class BootSucceeds : Prop := {
  open_ok path fl (e : E) : 0 ≤ (k_open path fl e).1;
  tunsetiff_ok fd fl (e : E) : 0 ≤ (k_tunsetiff fd fl e).1.1;
  bind_ok fd path (e : E) : (k_bind fd path e).1 ≠ -1
}.

Lemma kcall_any {A B} (f : E → A * E) (K : A → D E B) d :
  (kcall f ≫= K) d = K (f (env d)).1 (set_env (f (env d)).2 d).
Proof. by rewrite (M_bind_ok _ _ _ _ _ (kcall_ok f d)). Qed.

Lemma allocateTun_name d : BootSucceeds → tundev_name (conf d) ≠ [] → devname d = None →
  TunIface_allocateTun d = Fault NullDeref.
Proof.
  intros HB Hn Hd. unfold TunIface_allocateTun. rewrite kcall_any.
  rewrite (proj2 (Z.ltb_ge _ 0)) by apply open_ok.
  mstep (eq_refl : get_st (set_env _ d) = Ok (_, _)). cbn [conf devname set_env].
  rewrite bool_decide_eq_false_2 by done. cbn [negb]. by rewrite Hd.
Qed.

Lemma allocateTun_ok d : BootSucceeds → tundev_name (conf d) = [] →
  ∃ fd name e, TunIface_allocateTun d = Ok (tt, set_tunDev (Some fd) (set_devname (Some name) (set_env e d))).
Proof.
  intros HB Hn. unfold TunIface_allocateTun. rewrite kcall_any.
  rewrite (proj2 (Z.ltb_ge _ 0)) by apply open_ok.
  mstep (eq_refl : get_st (set_env _ d) = Ok (_, _)). cbn [conf devname set_env].
  rewrite bool_decide_eq_true_2 by done. cbn [negb]. set (d1 := set_env _ d).
  rewrite (M_bind_ok _ _ d1 tt d1) by done. rewrite kcall_any.
  pose proof (tunsetiff_ok (k_open (text "/dev/net/tun") O_RDWR (env d)).1 (Z.lor IFF_TUN IFF_NO_PI) (env d1)) as Ht.
  destruct (k_tunsetiff _ _ (env d1)) as [[rc name] e]. cbn [fst snd] in *.
  rewrite (proj2 (Z.ltb_ge rc 0)) by done. eexists _, name, e. reflexivity.
Qed.

(** The handle of the listening socket, once registered. *)
Definition hub_handle (listenfd : Z) : IoHandle :=
  mkIoHandle listenfd readEvent noneEvent false true (Some CbHubReadReady) None None None.

Lemma AgentHub_new_ok d : BootSucceeds →
  ∃ fd e, AgentHub_new d = Ok (tt, set_hub (Some (fd, next_id d))
    (set_handles (<[next_id d := set_io_owner false (hub_handle fd)]> (handles d))
    (set_next_id (S (next_id d)) (set_env e d)))).
Proof.
  intros HB. unfold AgentHub_new. set (e1 := k_unlink master_socket (k_mkdir (text "/run/veloxd") (env d))).
  rewrite (M_bind_ok _ _ d tt (set_env (k_mkdir (text "/run/veloxd") (env d)) d)) by done.
  rewrite (M_bind_ok _ _ _ tt (set_env e1 d)) by done. rewrite kcall_any.
  destruct (k_socket _ _ _ (env (set_env e1 d))) as [fd e2] eqn:Hs. cbn [fst snd]. rewrite kcall_any.
  pose proof (bind_ok fd master_socket e2) as Hb. cbn [env set_env].
  destruct (k_bind fd master_socket e2) as [r e3]. cbn [fst snd] in *. rewrite (proj2 (Z.eqb_neq r (-1)) Hb).
  unfold IoHandle_new. erewrite M_bind_ok; [|rewrite kcall_any; cbn [env set_env]; reflexivity].
  destruct (k_getfl fd e3) as [fl e4] eqn:Hg. cbn [fst snd].
  unfold IoHandle_setOnReadCB, IoHandle_enableReading, change_interest.
  erewrite M_bind_ok; [|apply upd_handle_ok, lookup_insert_eq].
  erewrite M_bind_ok.
  2: { erewrite M_bind_ok; [|apply upd_handle_ok, lookup_insert_eq].
       erewrite M_bind_ok; [|apply read_cell_ok, lookup_insert_eq]. reflexivity. }
  eexists fd, (k_setfl fd (Z.lor fl O_NONBLOCK) e4). unfold modify. do 2 f_equal. cbn. by rewrite !insert_insert_eq.
Qed.
End boot.

(** ** Properties *)

(** C34. Start-up: when the system calls succeed, [Veloxd::init] refuses an
    unknown log level; with the default empty device name it opens the TUN
    device, starts the IP layer with an empty reassembly list and the
    identification counter at 0, and leaves exactly one handle in the event
    loop, that of the listening socket, interested in reading; with a device
    name configured it copies the name through a null pointer. *)
Theorem boot_result {E} `{Kernel E} (HB : BootSucceeds) c (e : E) :
  match logging_filter (logging_level c) with
  | None => Veloxd_init (fresh_daemon c e) = Fault ExitFailure
  | Some _ =>
      if decide (tundev_name c = []) then
        ∃ d fd, Veloxd_init (fresh_daemon c e) = Ok (tt, d) ∧ is_Some (tunDev d) ∧
          idgenerator d = Some (mkIdGen 0) ∧ defragCtxList d = Some [] ∧ hub d = Some (fd, 0%nat) ∧
          loop_channels d = [0%nat] ∧ handles d = {[0%nat := hub_handle fd]} ∧ conf d = c
      else Veloxd_init (fresh_daemon c e) = Fault NullDeref
  end.
Proof.
  unfold Veloxd_init. rewrite (M_bind_ok _ _ (fresh_daemon c e) c (fresh_daemon c e)) by done.
  destruct (logging_filter (logging_level c)); [|done].
  destruct (decide (tundev_name c = [])) as [Hn|Hn].
  2: { apply M_bind_fault, M_bind_fault. by apply allocateTun_name. }
  destruct (allocateTun_ok (fresh_daemon c e) HB Hn) as (tfd & name & e1 & Ht).
  unfold TunIface_init, TunIface_setIfUp, TunIface_setIfAddr, ShellOp_run.
  erewrite M_bind_ok. 2: { mstep Ht. reflexivity. }
  erewrite M_bind_ok; [|reflexivity]. unfold Arbiter_init.
  match goal with |- context [(AgentHub_new ≫= _) ?d0] => destruct (AgentHub_new_ok d0 HB) as (fd & e2 & Hh) end.
  mstep Hh. erewrite M_bind_ok; [|reflexivity]. erewrite M_bind_ok; [|reflexivity]. unfold register.
  erewrite M_bind_ok; [|apply addChannel_eq, lookup_insert_eq].
  rewrite decide_False by (cbn; set_solver).
  unfold IoHandle_setOwnerEventReactor. erewrite upd_handle_ok; [|apply lookup_insert_eq].
  eexists _, fd. split; [reflexivity|]. cbn. rewrite insert_insert_eq. by split_and!.
Qed.

(** Three documented options do nothing: two command lines that agree on
    every option but [--verbose], [--config] and [--logging-dir] give the same
    configuration or the same exit, and the log directory and the configuration
    file stay the defaults. *)
Theorem options_ignored (o1 o2 : cmd_option → option (list Z)) c :
  (∀ o, effective o = true → o1 o = o2 o) →
  Veloxd_readConf (Some o1) c = Veloxd_readConf (Some o2) c ∧
  ∀ c', Veloxd_readConf (Some o1) c = inr c' → logging_dir c' = logging_dir c ∧ conf_file c' = conf_file c.
Proof.
  intros Ho. unfold Veloxd_readConf, CfgParser_readCmdLine, CfgParser_readConfFile, when.
  rewrite <-(Ho OptHelp), <-(Ho OptVersion), <-(Ho OptLoggingLevel), <-(Ho OptLoggingToStdout), <-(Ho OptTundevName),
    <-(Ho OptTundevAddr), <-(Ho OptStackAddr) by done. split; [done|]. intros c'.
  case_bool_decide; [done|]. case_bool_decide; [done|].
  intros [= <-]. repeat case_match; done.
Qed.

(** ** Concrete runs *)


(** A kernel in which every call succeeds. *)
Definition calm_kernel : Kernel unit := {|
  k_pipe2 := λ e, ((10, 11), e); k_getfl := λ _ e, (2, e); k_setfl := λ _ _ e, e;
  k_read := λ _ _ e, ((-1, [], 11), e); k_write := λ _ bs e, (Z.of_nat (length bs), e);
  k_writev := λ _ bss e, (Z.of_nat (length (concat bss)), e); k_close := λ _ e, e;
  k_accept := λ _ e, ((-1, 11), e); k_epoll_ctl := λ _ _ _ _ e, (0, e); k_epoll_wait := λ _ _ e, ((0, []), e);
  k_listen := λ _ _ e, (0, e); k_mkdir := λ _ e, e; k_unlink := λ _ e, e; k_socket := λ _ _ _ e, (6, e);
  k_bind := λ _ _ e, (0, e); k_open := λ _ _ e, (5, e); k_tunsetiff := λ _ _ e, ((0, [116; 117; 110; 48]), e);
  k_system := λ _ e, e
|}.

Lemma calm_boots : @BootSucceeds unit calm_kernel.
Proof. split; intros; cbn; lia. Qed.

Lemma boot_result_witness :
  (∃ d fd, @Veloxd_init unit calm_kernel (fresh_daemon default_Conf tt) = Ok (tt, d) ∧ is_Some (tunDev d) ∧
     idgenerator d = Some (mkIdGen 0) ∧ defragCtxList d = Some [] ∧ hub d = Some (fd, 0%nat) ∧
     loop_channels d = [0%nat] ∧ handles d = {[0%nat := hub_handle fd]} ∧ conf d = default_Conf) ∧
  @Veloxd_init unit calm_kernel (fresh_daemon (set_tundev_name (text "tun7") default_Conf) tt) = Fault NullDeref.
Proof.
  split.
  - exact (@boot_result unit calm_kernel calm_boots default_Conf tt).
  - exact (@boot_result unit calm_kernel calm_boots (set_tundev_name (text "tun7") default_Conf) tt).
Defined.

Lemma options_ignored_witness :
  let quiet_line := λ o : cmd_option, None : option (list Z) in
  let loud_line := λ o, match o with OptVerbose => Some [] | OptConfig => Some (text "/tmp/v.conf") | _ => None end in
  Veloxd_readConf (Some loud_line) default_Conf = Veloxd_readConf (Some quiet_line) default_Conf.
Proof. apply options_ignored. intros []; done. Defined.
