(* ===== verification/LoggingSpec.v ===== *)
(** * What the log says

    The digits of a line number, the file and line column for every input, and
    [VELOXD_LOG] in a thread with and without its attributes. *)

From stdpp Require Import strings.
From S2P Require Import Prelude World Boot Logging.

(** ** Digits *)

Definition dec_val (l : list Z) : Z := foldl (λ v d, 10 * v + (d - 48)) 0 l.

Lemma dec_val_app l l' v : foldl (λ v d, 10 * v + (d - 48)) v (l ++ l') = foldl (λ v d, 10 * v + (d - 48)) (foldl (λ v d, 10 * v + (d - 48)) v l) l'.
Proof. apply foldl_app. Qed.

Lemma digits_aux_app fuel n acc : digits_aux fuel n acc = digits_aux fuel n [] ++ acc.
Proof.
  revert n acc. induction fuel as [|fuel IH]; intros n acc; cbn [digits_aux]; destruct (n <? 10); try done.
  rewrite IH, (IH _ [_]). by rewrite <-app_assoc.
Qed.

Lemma digits_aux_val fuel n : 0 ≤ n < 10 ^ (Z.of_nat fuel + 1) → dec_val (digits_aux fuel n []) = n.
Proof.
  revert n. induction fuel as [|fuel IH]; intros n Hn; cbn [digits_aux]; destruct (Z.ltb_spec n 10) as [Hs|Hs].
  - unfold dec_val. cbn. rewrite Z.mod_small; lia.
  - cbn in Hn. lia.
  - unfold dec_val. cbn. rewrite Z.mod_small; lia.
  - rewrite digits_aux_app. unfold dec_val. rewrite dec_val_app. fold (dec_val (digits_aux fuel (n / 10) [])).
    rewrite IH; [cbn; pose proof (Z.div_mod n 10); lia|].
    replace (Z.of_nat (S fuel) + 1) with (Z.succ (Z.of_nat fuel + 1)) in Hn by lia. rewrite Z.pow_succ_r in Hn by lia.
    split; [apply Z.div_pos; lia|apply Z.div_lt_upper_bound; lia].
Qed.

Lemma digits_aux_length fuel n k : 0 ≤ n < 10 ^ Z.of_nat (S k) → (k ≤ fuel)%nat → (length (digits_aux fuel n []) ≤ S k)%nat.
Proof.
  revert n k. induction fuel as [|fuel IH]; intros n k Hn Hk; cbn [digits_aux]; destruct (Z.ltb_spec n 10) as [Hs|Hs]; cbn; try lia.
  destruct k as [|k]; [cbn in Hn; lia|]. rewrite digits_aux_app, length_app. cbn.
  rewrite Nat2Z.inj_succ, Z.pow_succ_r in Hn by lia.
  specialize (IH (n / 10) k). enough (length (digits_aux fuel (n / 10) []) ≤ S k)%nat by lia.
  apply IH; [split; [apply Z.div_pos; lia|apply Z.div_lt_upper_bound; lia]|lia].
Qed.

Lemma digits_aux_long fuel n k : 10 ^ Z.of_nat k ≤ n → (k ≤ fuel)%nat → (S k ≤ length (digits_aux fuel n []))%nat.
Proof.
  revert n k. induction fuel as [|fuel IH]; intros n k Hn Hk; cbn [digits_aux]; destruct (Z.ltb_spec n 10) as [Hs|Hs]; cbn; try lia.
  - destruct k as [|k]; [cbn; lia|]. rewrite Nat2Z.inj_succ, Z.pow_succ_r in Hn by lia. pose proof (Z.pow_pos_nonneg 10 (Z.of_nat k)). lia.
  - rewrite digits_aux_app, length_app. cbn. destruct k as [|k]; [lia|].
    rewrite Nat2Z.inj_succ, Z.pow_succ_r in Hn by lia.
    specialize (IH (n / 10) k). enough (S k ≤ length (digits_aux fuel (n / 10) []))%nat by lia.
    apply IH; [apply Z.div_le_lower_bound; lia|lia].
Qed.

Lemma digits_length n : 0 ≤ n < 2 ^ 31 → (1 ≤ length (digits n) ≤ 10)%nat ∧ ((length (digits n) ≤ 4)%nat ↔ n < 10000).
Proof.
  intros Hn. unfold digits. split; [split; [|apply (digits_aux_length 10 n 9); lia]|split].
  - destruct (decide (n < 1)); [by assert (n = 0) as -> by lia|]. apply (digits_aux_long 10 n 0); lia.
  - intros Hl. destruct (decide (n < 10000)); [done|]. pose proof (digits_aux_long 10 n 4 ltac:(lia) ltac:(lia)). lia.
  - intros Hs. apply (digits_aux_length 10 n 3); lia.
Qed.

(** ** The column *)

(** A text padded to 17 characters. *)
Definition pad17 (s : list Z) : list Z := s ++ replicate (17 - length s) 32.
(** What is left of [":%d"] in six bytes, with the NUL and the blanks after it. *)
Definition shown_line (d : list Z) : list Z :=
  58 :: if decide (length d ≤ 4)%nat then d else take 4 d ++ 0 :: replicate (length d - 5) 32.

Lemma store_at (pre rest bs : list Z) : (length bs ≤ length rest)%nat →
  store (pre ++ rest) (length pre) bs = Some (pre ++ bs ++ drop (length bs) rest).
Proof.
  intros Hl. unfold store. rewrite (proj2 (in_range_true _ _ _)) by (rewrite length_app; lia).
  rewrite Nat2Z.id, take_app_length. f_equal. do 2 f_equal.
  rewrite drop_app_ge by lia. f_equal. lia.
Qed.
Lemma store_out l off bs : Z.of_nat (length l) < off + length bs → store l off bs = None.
Proof.
  intros Ho. unfold store. destruct (in_range off (length bs) (length l)) eqn:E; [|done]. apply in_range_true in E. lia.
Qed.
Lemma drop_blanks n m junk : (n ≤ m)%nat → drop n (replicate m 32 ++ [junk]) = replicate (m - n) 32 ++ [junk].
Proof. intros Hn. rewrite drop_app_le by (rewrite length_replicate; lia). by rewrite drop_replicate. Qed.
Lemma blank_tail n m junk : (1 ≤ n ≤ S m)%nat → ∃ j, 32 :: drop n (replicate m 32 ++ [junk]) = replicate (S m - n) 32 ++ [j].
Proof.
  intros Hn. destruct (decide (n ≤ m)%nat) as [Hm|Hm].
  - exists junk. rewrite drop_blanks by lia. by replace (S m - n)%nat with (S (m - n)) by lia.
  - exists 32. rewrite drop_ge by (rewrite length_app, length_replicate; cbn [length]; lia). by replace (S m - n)%nat with 0%nat by lia.
Qed.
Lemma take_blanks (s : list Z) m junk len : (length s ≤ len ≤ length s + m)%nat →
  take len (s ++ replicate m 32 ++ [junk]) = s ++ replicate (len - length s) 32.
Proof.
  intros Hl. rewrite take_app_ge by lia. f_equal. rewrite take_app_le by (rewrite length_replicate; lia).
  rewrite take_replicate. f_equal. lia.
Qed.
Lemma slice_blanks (s : list Z) m junk (len : Z) : (length s ≤ Z.to_nat len ≤ length s + m)%nat → 0 ≤ len →
  slice (s ++ replicate m 32 ++ [junk]) 0 len = Some (s ++ replicate (Z.to_nat len - length s) 32).
Proof.
  intros Hl H0. unfold slice. rewrite (proj2 (Z.leb_le 0 len) H0).
  rewrite (proj2 (in_range_true _ _ _)) by (rewrite !length_app, length_replicate; cbn; lia).
  cbn [andb]. rewrite drop_0. by rewrite take_blanks.
Qed.

(** The buffer after the line number, and the blank over the NUL. *)
Definition column_buf (junk : Z) (name d : list Z) : list Z :=
  name ++ (take 5 (58 :: d) ++ [0]) ++ drop (length (take 5 (58 :: d)) + 1) (replicate (23 - length name) 32 ++ [junk]).
Lemma column_printed junk f line : 0 ≤ line →
  let name := take 18 f in
  let d := digits line in
  file_lineno_with_padding junk f line =
    (padded ← of_option OutOfBounds (store (column_buf junk name d) (length name + S (length d)) [32]);
     of_option OutOfBounds (slice padded 0 (Z.max (length name + S (length d)) 17))).
Proof.
  intros Hl name d. unfold file_lineno_with_padding, print_d. rewrite (proj2 (Z.ltb_ge line 0) Hl). fold d.
  assert (length name = length f `min` 18)%nat as Hn by (unfold name; rewrite length_take; lia).
  assert (take (length f `min` 18) f = name) as ->.
  { unfold name. destruct (decide (length f ≤ 18)%nat); [|f_equal; lia]. rewrite !take_ge by lia. done. }
  rewrite <-Hn. unfold maxlen. assert (length name ≤ 18)%nat as Hn18 by lia. clear Hn. clearbody name d.
  pose proof (store_at [] (replicate 23 32 ++ [junk]) name) as E1. change (Z.of_nat (length [])) with 0 in E1. cbn [app] in E1.
  change (18 + 1 + 4)%nat with 23%nat.
  rewrite E1 by (rewrite length_app, length_replicate; cbn; lia). rewrite drop_blanks by lia. cbn [of_option mbind res_bind].
  unfold snprintf. change (6 - 1)%nat with 5%nat. rewrite store_at.
  2: { rewrite !length_app, length_replicate, length_take. cbn [length]. lia. }
  cbn [of_option mbind res_bind length]. rewrite (length_app (take 5 _) [0]). fold (column_buf junk name d).
  replace (if _ : bool then _ else 17) with (Z.max (length name + S (length d)) 17); [reflexivity|].
  destruct (Z.ltb_spec 17 (length name + S (length d))); lia.
Qed.

(** The blank, when the number fits in its four digits. *)
Lemma column_short junk name d : (length name ≤ 18)%nat → (length d ≤ 4)%nat →
  (padded ← of_option OutOfBounds (store (column_buf junk name d) (length name + S (length d)) [32]);
   of_option OutOfBounds (slice padded 0 (Z.max (length name + S (length d)) 17))) =
  Ok (pad17 (name ++ 58 :: d)).
Proof.
  intros Hn H4.
  unfold column_buf.
  rewrite (take_ge (58 :: d)) by (cbn [length]; lia). set (R := drop _ _).
  assert (∃ j, 32 :: R = replicate (22 - length name - length d) 32 ++ [j]) as [j Hj].
  { destruct (blank_tail (length (58 :: d) + 1) (23 - length name) junk) as [j Hj]; [cbn [length]; lia|].
    exists j. unfold R. rewrite Hj. do 2 f_equal. cbn [length]. lia. }
  replace (name ++ _) with ((name ++ 58 :: d) ++ 0 :: R) by (by rewrite <-!app_assoc).
  assert (length (name ++ 58%Z :: d) = length name + S (length d))%nat as Hs by (rewrite length_app; done).
  replace (length name + S (length d)) with (Z.of_nat (length (name ++ 58 :: d))) by lia.
  rewrite store_at by (cbn [length]; lia). cbn [of_option mbind res_bind length drop app]. rewrite drop_0, Hj.
  rewrite slice_blanks by lia. cbn [of_option]. unfold pad17. do 3 f_equal. lia.
Qed.

(** The blank behind a longer number, inside or outside the buffer. *)
Lemma column_long junk name d : (length name ≤ 18)%nat → (4 < length d)%nat →
  (padded ← of_option OutOfBounds (store (column_buf junk name d) (length name + S (length d)) [32]);
   of_option OutOfBounds (slice padded 0 (Z.max (length name + S (length d)) 17))) =
  let s := name ++ 58 :: take 4 d ++ 0 :: replicate (length d - 5) 32 in
  if decide (length s ≤ maxlen)%nat then Ok (pad17 s) else Fault OutOfBounds.
Proof.
  intros Hn H4. cbv zeta.
  set (w := 58 :: take 4 d ++ [0]).
  assert (column_buf junk name d = (name ++ w) ++ drop 6 (replicate (23 - length name) 32 ++ [junk])) as ->.
  { unfold column_buf. change (take 5 (58 :: d)) with (58 :: take 4 d). rewrite <-(app_assoc name).
    by replace (length (58%Z :: take 4 d) + 1)%nat with 6%nat by (cbn [length]; rewrite length_take; lia). }
  assert (length (name ++ w) = length name + 6)%nat as Hw by (unfold w; rewrite length_app; cbn [length]; rewrite length_app, length_take; cbn [length]; lia).
  assert (length (name ++ 58%Z :: take 4 d ++ 0%Z :: replicate (length d - 5) 32%Z) = length name + S (length d))%nat as Hs.
  { rewrite length_app. cbn [length]. rewrite length_app, length_take. cbn [length]. rewrite length_replicate. lia. }
  rewrite Hs. destruct (decide (length name + S (length d) ≤ maxlen)%nat) as [Hm|Hm]; unfold maxlen in Hm.
  + rewrite drop_blanks by lia. replace (23 - length name - 6)%nat with (17 - length name)%nat by lia.
    replace (length name + S (length d)) with (Z.of_nat (length ((name ++ w) ++ replicate (length d - 5) 32))) by (rewrite length_app, length_replicate; lia).
    destruct (blank_tail (S (length d - 5)) (17 - length name) junk) as [j Hj]; [lia|].
    replace (replicate (17 - length name) 32 ++ [junk]) with (replicate (length d - 5) 32 ++ drop (length d - 5) (replicate (17 - length name) 32 ++ [junk])).
    2: { rewrite <-(take_drop (length d - 5) (replicate (17 - length name) 32 ++ [junk])) at 2. f_equal.
         rewrite take_app_le, take_replicate by (rewrite length_replicate; lia). f_equal. lia. }
    rewrite (app_assoc (name ++ w)), store_at.
    2: { rewrite length_drop, length_app, length_replicate. cbn [length]. lia. }
    rewrite drop_drop. cbn [length app]. replace (length d - 5 + 1)%nat with (S (length d - 5)) by lia. rewrite Hj.
    cbn [of_option mbind res_bind].
    assert (length ((name ++ w) ++ replicate (length d - 5) 32%Z) = length name + S (length d))%nat as Hr by (rewrite length_app, Hw, length_replicate; lia).
    rewrite slice_blanks by lia.
    cbn [of_option]. unfold pad17. rewrite Hs, Hr. unfold w. rewrite <-!app_assoc. cbn [app]. rewrite <-!app_assoc. cbn [app].
    by replace (Z.to_nat (Z.max (Z.of_nat (length name + S (length d))) 17) - (length name + S (length d)))%nat
      with (17 - (length name + S (length d)))%nat by lia.
  + rewrite store_out; [done|]. rewrite length_app, Hw, length_drop, length_app, length_replicate. cbn [length]. lia.
Qed.

Lemma column_cases junk f line : 0 ≤ line < 2 ^ 31 →
  file_lineno_with_padding junk f line =
    let s := take 18 f ++ shown_line (digits line) in
    if decide (length s ≤ maxlen)%nat then Ok (pad17 s) else Fault OutOfBounds.
Proof.
  intros Hl. rewrite column_printed by lia. cbv zeta. unfold shown_line.
  assert (length (take 18 f) ≤ 18)%nat as Hn by (rewrite length_take; lia).
  destruct (digits_length line Hl) as [Hd _]. destruct (decide (length (digits line) ≤ 4)%nat) as [H4|H4].
  - rewrite column_short by done. rewrite decide_True; [done|]. rewrite length_app. unfold maxlen. cbn [length]. lia.
  - by rewrite column_long by lia.
Qed.

(** ** A thread's log *)

Section thread.
Context {L : Type} `{LogCore L} `{!LogCoreLaws L}.

(** The thread has its three attributes. *)
Definition thread_ready (tid : Z) (l : L) : Prop :=
  (∃ f, thread_attribute "File" l = Some (AString f)) ∧ (∃ n, thread_attribute "Line" l = Some (AInt n)) ∧
  thread_attribute "NativeThreadID" l = Some (ALong tid).

Lemma thread_init_ok tid l : thread_attribute "File" l = None → thread_attribute "Line" l = None →
  thread_attribute "NativeThreadID" l = None →
  ∃ l', LoggingThreadInitializer_run tid l = Ok (tt, l') ∧ thread_ready tid l' ∧ emitted l' = emitted l ∧
    ∀ s, passes s l' = passes s l.
Proof.
  intros Hf Hn Ht. eexists. split; [reflexivity|]. unfold thread_ready.
  rewrite !add_emitted. repeat first [rewrite add_same|rewrite add_other by done]. rewrite Hf, Hn, Ht. cbn.
  split_and!; eauto. intros s. by rewrite !add_passes.
Qed.

Lemma set_get_ok n v w l : thread_attribute n l = Some v →
  match v, w with AString _, AString _ | AInt _, AInt _ => True | _, _ => False end →
  set_get_attrib n w l = Ok (w, set_attribute n w l).
Proof.
  intros Hv Hw. unfold set_get_attrib. rewrite Hv.
  destruct v, w; try done; cbv zeta; by rewrite set_same by (by rewrite Hv).
Qed.

(** The state after the two attributes are set. *)
Definition located (path : list Z) (line : Z) (l : L) : L :=
  set_attribute "Line" (AInt line) (set_attribute "File" (AString (path_to_filename path)) l).
Lemma located_ok tid path line l : thread_ready tid l →
  let l1 := located path line l in
  thread_attribute "File" l1 = Some (AString (path_to_filename path)) ∧ thread_attribute "Line" l1 = Some (AInt line) ∧
  thread_attribute "NativeThreadID" l1 = Some (ALong tid).
Proof.
  intros ([f Hf] & [n Hn] & Ht). cbv zeta. unfold located. split_and!.
  - rewrite set_other, set_same by (done || by rewrite Hf). done.
  - rewrite set_same; [done|]. by rewrite set_other, Hn by done.
  - by rewrite !set_other, Ht by done.
Qed.

Lemma VELOXD_LOG_eq junk pid tid path line sev msg l : thread_ready tid l →
  let l1 := located path line l in
  VELOXD_LOG junk pid path line sev msg l =
    if passes sev l then
      column ← file_lineno_with_padding junk (path_to_filename path) line;
      Ok (tt, emit (log_format (line_id l1) (time_stamp l1) pid (Some tid) column sev msg) l1)
    else Ok (tt, l1).
Proof.
  intros Hr l1. destruct (located_ok tid path line l Hr) as (Hf1 & Hn1 & Ht1). fold l1 in Hf1, Hn1, Ht1.
  destruct Hr as ([f Hf] & [n Hn] & Ht). unfold VELOXD_LOG. mstep (set_get_ok "File" _ (AString (path_to_filename path)) l Hf I).
  erewrite M_bind_ok; [|eapply (set_get_ok "Line"); [rewrite set_other by done; exact Hn|done]]. fold (located path line l). fold l1.
  unfold push_record. rewrite Hf1, Hn1, Ht1. unfold l1, located at 1. by rewrite !set_passes.
Qed.
End thread.

(** ** Properties *)

(** C36. The file and line column of a log record, for every file name and line
    number: at most 18 characters of the name, a colon and the decimal line
    number, padded to 17 characters.  Only four digits are kept: a longer number
    is cut, with a NUL byte in the text, and when name and number need more than
    23 characters the blank that should replace the NUL is written behind the
    end of the buffer. *)
Theorem log_column junk file line : 0 ≤ line < 2 ^ 31 →
  file_lineno_with_padding junk file line =
    (let s := take 18 file ++ shown_line (digits line) in
     if decide (length s ≤ maxlen)%nat then Ok (pad17 s) else Fault OutOfBounds) ∧
  dec_val (digits line) = line ∧
  (line < 10000 → shown_line (digits line) = 58 :: digits line ∧ (length (take 18 file ++ 58%Z :: digits line) ≤ maxlen)%nat).
Proof.
  intros Hl. split; [by apply column_cases|]. split; [apply digits_aux_val; cbn; lia|]. intros Hs.
  destruct (digits_length line Hl) as [_ [_ H4]]. specialize (H4 Hs). unfold shown_line. rewrite decide_True by done.
  split; [done|]. rewrite length_app, length_take. unfold maxlen. cbn [length]. lia.
Qed.

(** [VELOXD_LOG] in a thread that [LoggingThreadInitializer::run] prepared:
    below line 10000 it never fails; when the severity passes the filter
    exactly one record reaches the sink, with this statement's file, line,
    severity and message, and otherwise none; the thread stays prepared.  In a
    thread that was not prepared it goes through a null attribute. *)
Theorem log_record {L} `{LogCore L} `{!LogCoreLaws L} junk pid tid path line sev msg (l0 l : L) :
  thread_attribute "File" l0 = None → thread_attribute "Line" l0 = None → thread_attribute "NativeThreadID" l0 = None →
  LoggingThreadInitializer_run tid l0 = Ok (tt, l) → 0 ≤ line < 10000 →
  VELOXD_LOG junk pid path line sev msg l0 = Fault NullDeref ∧
  ∃ l', VELOXD_LOG junk pid path line sev msg l = Ok (tt, l') ∧ thread_ready tid l' ∧
    emitted l' = emitted l0 ++
      (if passes sev l0 then
         [log_format (line_id (located path line l)) (time_stamp (located path line l)) pid (Some tid)
            (pad17 (take 18 (path_to_filename path) ++ 58 :: digits line)) sev msg]
       else []).
Proof.
  intros Hf Hn Ht Hi Hline. destruct (thread_init_ok tid l0 Hf Hn Ht) as (l1 & Hi1 & Hr & He & Hp).
  assert (l1 = l) as -> by congruence. split.
  { unfold VELOXD_LOG. apply M_bind_fault. unfold set_get_attrib. by rewrite Hf. }
  rewrite (VELOXD_LOG_eq junk pid tid path line sev msg l Hr), Hp. set (l2 := located path line l).
  assert (emitted l2 = emitted l0) as He2 by (unfold l2, located; rewrite !set_emitted; done).
  destruct (located_ok tid path line l Hr) as (Hf2 & Hn2 & Ht2). fold l2 in Hf2, Hn2, Ht2.
  assert (2 ^ 31 = 2147483648) as E31 by done.
  rewrite (column_cases junk (path_to_filename path) line) by lia.
  destruct (digits_length line ltac:(lia)) as [_ [_ H4]]. specialize (H4 ltac:(lia)). unfold shown_line. rewrite (decide_True _ _ H4).
  cbv zeta. rewrite decide_True by (rewrite length_app, length_take; unfold maxlen; cbn [length]; lia).
  destruct (passes sev l0); cbn [mbind res_bind].
  - eexists. split; [reflexivity|]. unfold thread_ready. rewrite !emit_attribute, emit_emitted, He2. eauto 6.
  - eexists. split; [reflexivity|]. unfold thread_ready. rewrite He2, app_nil_r. eauto 6.
Qed.

(** ** A concrete core *)

Record ThreadLog := mkThreadLog { tl_attrs : gmap string attr; tl_level : severity; tl_sink : list (list Z) }.
#[global] Instance thread_log : LogCore ThreadLog := {
  add_thread_attribute := λ n a l, mkThreadLog (<[n := default a (tl_attrs l !! n)]> (tl_attrs l)) (tl_level l) (tl_sink l);
  thread_attribute := λ n l, tl_attrs l !! n;
  set_attribute := λ n a l, mkThreadLog (<[n := a]> (tl_attrs l)) (tl_level l) (tl_sink l);
  set_filter := λ t l, mkThreadLog (tl_attrs l) t (tl_sink l);
  passes := λ s l, (severity_rank (tl_level l) <=? severity_rank s)%nat;
  emit := λ r l, mkThreadLog (tl_attrs l) (tl_level l) (tl_sink l ++ [r]);
  emitted := tl_sink;
  line_id := λ l, print_d (length (tl_sink l));
  time_stamp := λ _, text "2026-01-01 00:00:00"
}.
#[global] Instance thread_log_laws : LogCoreLaws ThreadLog.
Proof.
  split; intros; cbn; try done.
  - apply lookup_insert_eq.
  - by apply lookup_insert_ne.
  - apply lookup_insert_eq.
  - by apply lookup_insert_ne.
Qed.

Lemma log_column_witness :
  file_lineno_with_padding 7 (text "EventReactor.cpp") 12345 = Ok (text "EventReactor.cpp:1234" ++ [0]) ∧
  file_lineno_with_padding 7 (text "Endpoint.cpp") 74 = Ok (text "Endpoint.cpp:74  ") ∧
  file_lineno_with_padding 7 (text "req-resp-channel.cpp") 12345 = Fault OutOfBounds.
Proof.
  assert (0 ≤ 12345 < 2 ^ 31 ∧ 0 ≤ 74 < 2 ^ 31) as [H5 H2] by lia.
  destruct (log_column 7 (text "EventReactor.cpp") 12345 H5) as [-> _]. destruct (log_column 7 (text "Endpoint.cpp") 74 H2) as [-> _].
  destruct (log_column 7 (text "req-resp-channel.cpp") 12345 H5) as [-> _]. split_and!; vm_compute; reflexivity.
Defined.

Definition quiet_log : ThreadLog := mkThreadLog ∅ info [].
Lemma quiet_log_bare n : thread_attribute n quiet_log = None.
Proof. apply lookup_empty. Qed.
Lemma log_record_witness :
  VELOXD_LOG 7 (Some 42) (text "src/veloxd/arbiter/Endpoint.cpp") 74 info (text "New Socket") quiet_log = Fault NullDeref ∧
  ∃ l', (_ ← LoggingThreadInitializer_run 43; VELOXD_LOG 7 (Some 42) (text "src/veloxd/arbiter/Endpoint.cpp") 74 info (text "New Socket"))
      quiet_log = Ok (tt, l') ∧
    emitted l' = [text "0 [2026-01-01 00:00:00] [P42 T43] [Endpoint.cpp:74  ] <info> New Socket"].
Proof.
  destruct (thread_init_ok 43 quiet_log (quiet_log_bare _) (quiet_log_bare _) (quiet_log_bare _)) as (l & Hi & _).
  destruct (log_record 7 (Some 42) 43 (text "src/veloxd/arbiter/Endpoint.cpp") 74 info (text "New Socket") quiet_log l
    (quiet_log_bare _) (quiet_log_bare _) (quiet_log_bare _) Hi ltac:(lia)) as [Hn (l' & Hr & _ & He)].
  split; [exact Hn|]. exists l'. split; [by mstep Hi|]. rewrite He. injection Hi as <-. vm_compute. reflexivity.
Defined.
