(* ===== verification/SocketCallSpec.v ===== *)
(** * Creating a socket in the daemon

    What a [socket] request builds: an endpoint and a session that know each
    other and their channel, with their handles in the event loop. *)

From S2P Require Import Prelude Frame Session World DScript Reactor Rpc Wire Net Agent Udp Tcp Dispatch Arbiter ReactorSpec AgentSpec UdpSpec BootSpec Invariant.

Section create.
Context {E : Type} `{Kernel E}.
Implicit Types d : Daemon E.

(** A new handle on [fd] that wants to read, with its callback. *)
Definition reader (fd : Z) (cb : callback) : IoHandle :=
  mkIoHandle fd readEvent noneEvent false false (Some cb) None None None.

(** The common start of the constructors of [Endpoint] and [TcpSession]: a pipe,
    a reading handle on it, and an identifier for the object. *)
Lemma notify_handle {A} (K : Z * Z → nat → nat → D E A) (cb : nat → callback) d :
  ∃ pipe e, ∀ n, n = next_id d →
    (pipe ← kcall k_pipe2; h ← IoHandle_new pipe.1; _ ← IoHandle_enableReading h; i ← fresh;
     _ ← IoHandle_setOnReadCB (cb i) h; K pipe h i) d =
    K pipe n (S n) (set_handles (<[n := reader pipe.1 (cb (S n))]> (handles d))
                      (set_next_id (S (S n)) (set_env e d))).
Proof.
  destruct (k_pipe2 (env d)) as [pipe e1] eqn:Hp. destruct (k_getfl pipe.1 e1) as [fl e2] eqn:Hg.
  exists pipe, (k_setfl pipe.1 (Z.lor fl O_NONBLOCK) e2). intros n ->.
  rewrite kcall_any, Hp. cbn [fst snd]. unfold IoHandle_new.
  erewrite M_bind_ok; [|rewrite kcall_any; cbn [env set_env]; rewrite Hg; reflexivity]. cbn [fst snd].
  unfold IoHandle_enableReading, change_interest, IoHandle_setOnReadCB.
  erewrite M_bind_ok.
  2: { erewrite M_bind_ok; [|apply upd_handle_ok, lookup_insert_eq].
       erewrite M_bind_ok; [|apply read_cell_ok, lookup_insert_eq]. reflexivity. }
  erewrite M_bind_ok; [|reflexivity]. erewrite M_bind_ok; [|apply upd_handle_ok, lookup_insert_eq].
  cbn. by rewrite !insert_insert_eq.
Qed.

Lemma Endpoint_new_ok ty nb d :
  ∃ pipe e, Endpoint_new ty nb d = Ok (S (next_id d),
    set_endpoints (<[S (next_id d) := mkEndpoint ty nb pipe false None (next_id d) None None []]> (endpoints d))
    (set_handles (<[next_id d := reader pipe.1 (CbEndpointReadReady (S (next_id d)))]> (handles d))
    (set_next_id (S (S (next_id d))) (set_env e d)))).
Proof.
  destruct (notify_handle (λ pipe h i, _ ← put_endpoint i (mkEndpoint ty nb pipe false None h None None []); mret i)
              CbEndpointReadReady d) as (pipe & e & Hn).
  exists pipe, e. unfold Endpoint_new. by rewrite (Hn _ eq_refl).
Qed.

Lemma Tcp_newSession_ok d :
  ∃ pipe e, Tcp_newSession d = Ok (S (next_id d),
    set_tcp_pcbs (tcp_pcbs d ++ [S (next_id d)])
    (set_sessions (<[S (next_id d) := mkPcb (Session_new (stack_addr (conf d)))
                       (Some (mkTcb TCP_STATE__CLOSED pipe None (next_id d) 0 0 0 0))]> (sessions d))
    (set_handles (<[next_id d := reader pipe.1 (CbSessionEstab (S (next_id d)))]> (handles d))
    (set_next_id (S (S (next_id d))) (set_env e d))))).
Proof.
  destruct (notify_handle (λ pipe h i, _ ← put_pcb i (mkPcb (Session_new (stack_addr (conf d)))
     (Some (mkTcb TCP_STATE__CLOSED pipe None h 0 0 0 0))); mret i) CbSessionEstab d) as (pipe & e & Hn).
  exists pipe, e. unfold Tcp_newSession, TcpSession_new.
  erewrite M_bind_ok. 2: { rewrite (M_bind_ok _ _ d (conf d) d) by done. rewrite (Hn _ eq_refl). reflexivity. }
  done.
Qed.

Lemma Udp_newSession_ok d :
  Udp_newSession d = Ok (next_id d,
    set_udp_pcbs (udp_pcbs d ++ [next_id d])
    (set_sessions (<[next_id d := mkPcb (Session_new (stack_addr (conf d))) None]> (sessions d))
    (set_next_id (S (next_id d)) d))).
Proof. reflexivity. Qed.

(** Registering a handle the loop does not know. *)
Lemma register_ok c h d : handles d !! c = Some h → c ∉ loop_channels d →
  register c d = Ok (tt, set_handles (<[c := set_io_owner true h]> (handles d))
    (set_loop_channels (loop_channels d ++ [c]) (epoll_add (io_fd h) (io_interested h) c d))).
Proof.
  intros Hc Hl. unfold register. mstep (addChannel_eq c h d Hc). rewrite decide_False by done.
  unfold IoHandle_setOwnerEventReactor. by rewrite (upd_handle_ok c _ h).
Qed.

(** The links between a new endpoint, its session and the channel, up to the
    registration of the handles. *)
Lemma socket_links {A} (K : Endpoint → D E A) so pcb ch c ep p d :
  channels d !! ch = Some c → ch_socket c = None →
  endpoints d !! so = Some ep → sessions d !! pcb = Some p →
  let ep' := set_ep_rrChannel (Some ch) (set_ep_pcb (Some pcb) ep) in
  (_ ← upd_pcb pcb (λ p, set_p_base (Session_setSocket (Some so) (p_base p)) p);
   _ ← Endpoint_setSession pcb so; _ ← Endpoint_setAgentChannel ch so; _ ← AgentChannel_setSocket so ch;
   s ← the_endpoint so; K s) d =
  K ep' (set_channels (<[ch := set_ch_socket (Some so) c]> (channels d))
        (set_endpoints (<[so := ep']> (endpoints d))
        (set_sessions (<[pcb := set_p_base (Session_setSocket (Some so) (p_base p)) p]> (sessions d)) d))).
Proof.
  intros Hc Hn Hep Hp ep'. unfold upd_pcb, Endpoint_setSession, Endpoint_setAgentChannel, AgentChannel_setSocket.
  erewrite M_bind_ok. 2: { mstep (read_cell_ok sessions pcb p d Hp). reflexivity. }
  set (d1 := set_sessions _ d).
  mstep (upd_endpoint_ok so (set_ep_pcb (Some pcb)) ep d1 Hep).
  erewrite M_bind_ok; [|apply upd_endpoint_ok, lookup_insert_eq]. set (d2 := with_endpoint so _ _).
  erewrite M_bind_ok. 2: { mstep (read_cell_ok channels ch c d2 Hc). rewrite Hn. reflexivity. }
  erewrite M_bind_ok. 2: { apply read_cell_ok. apply lookup_insert_eq. }
  subst d2 d1. unfold with_endpoint. cbn. by rewrite insert_insert_eq.
Qed.

(** The rest of [socketCall] once the two objects exist: links, registrations
    and the answer. *)
Lemma socket_tail so pcb ch c ep p h d :
  channels d !! ch = Some c → ch_socket c = None →
  endpoints d !! so = Some ep → sessions d !! pcb = Some p →
  handles d !! ep_sChannel ep = Some h → ep_sChannel ep ∉ loop_channels d →
  (∀ t, p_tcb p = Some t → is_Some (handles d !! t_sChannel t) ∧ t_sChannel t ∉ loop_channels d ∧
     t_sChannel t ≠ ep_sChannel ep) →
  let p' := set_p_base (Session_setSocket (Some so) (p_base p)) p in
  ∃ d',
    (_ ← upd_pcb pcb (λ p, set_p_base (Session_setSocket (Some so) (p_base p)) p);
     _ ← Endpoint_setSession pcb so; _ ← Endpoint_setAgentChannel ch so; _ ← AgentChannel_setSocket so ch;
     s ← the_endpoint so; _ ← register (ep_sChannel s); p ← the_pcb pcb;
     _ ← match p_tcb p with Some t => register (t_sChannel t) | None => mret tt end;
     mret (mkResponse (Some RC_OK) (Some (RetSocket (mkRet 0 None))))) d =
    Ok (mkResponse (Some RC_OK) (Some (RetSocket (mkRet 0 None))), d') ∧
    channels d' = <[ch := set_ch_socket (Some so) c]> (channels d) ∧
    endpoints d' = <[so := set_ep_rrChannel (Some ch) (set_ep_pcb (Some pcb) ep)]> (endpoints d) ∧
    sessions d' = <[pcb := p']> (sessions d) ∧
    tcp_pcbs d' = tcp_pcbs d ∧ udp_pcbs d' = udp_pcbs d ∧
    loop_channels d' = loop_channels d ++ ep_sChannel ep :: option_list (t_sChannel <$> p_tcb p).
Proof.
  intros Hc Hn Hep Hp Hh Hl Ht p'. rewrite (socket_links _ so pcb ch c ep p d Hc Hn Hep Hp). set (d1 := set_channels _ _).
  mstep (register_ok (ep_sChannel ep) h d1 Hh Hl). set (d2 := set_handles _ (set_loop_channels _ _)).
  assert (sessions d2 !! pcb = Some p') as Hp2 by apply lookup_insert_eq.
  mstep (read_cell_ok sessions pcb p' d2 Hp2). cbn [p_tcb p' set_p_base].
  destruct (p_tcb p) as [t|]; [|by eexists].
  destruct (Ht t eq_refl) as ([h2 Hh2] & Hl2 & Hne).
  assert (handles d2 !! t_sChannel t = Some h2) as Hh3 by (cbn; by rewrite lookup_insert_ne).
  mstep (register_ok (t_sChannel t) h2 d2 Hh3 ltac:(cbn; set_solver)).
  eexists. split_and!; try reflexivity. cbn. by rewrite <-app_assoc.
Qed.
Lemma socketCall_creates ch c type d :
  dinv d → channels d !! ch = Some c → ch_socket c = None →
  let tcp := has_bits type SOCK_STREAM in
  if tcp || has_bits type SOCK_DGRAM then
    ∃ so pcb ep p d',
      socketCall ch AF_INET type d = Ok (mkResponse (Some RC_OK) (Some (RetSocket (mkRet 0 None))), d') ∧
      (next_id d ≤ so)%nat ∧ (next_id d ≤ pcb)%nat ∧
      channels d' = <[ch := set_ch_socket (Some so) c]> (channels d) ∧
      endpoints d' = <[so := ep]> (endpoints d) ∧ sessions d' = <[pcb := p]> (sessions d) ∧
      ep_type ep = (if tcp then EP_TCP else EP_UDP) ∧ ep_nonblocking ep = has_bits type SOCK_NONBLOCK ∧
      ep_pcb ep = Some pcb ∧ ep_rrChannel ep = Some ch ∧ recvQ ep = [] ∧ waiting ep = false ∧
      p_base p = Session_setSocket (Some so) (Session_new (stack_addr (conf d))) ∧
      conn_state <$> p_tcb p = (if tcp then Some TCP_STATE__CLOSED else None) ∧
      tcp_pcbs d' = tcp_pcbs d ++ (if tcp then [pcb] else []) ∧
      udp_pcbs d' = udp_pcbs d ++ (if tcp then [] else [pcb]) ∧
      loop_channels d' = loop_channels d ++ ep_sChannel ep :: option_list (t_sChannel <$> p_tcb p)
  else socketCall ch AF_INET type d = Fault AssertFail.
Proof.
  intros Hd Hc Hn tcp. unfold socketCall. rewrite Z.eqb_refl. rewrite (M_bind_ok _ _ d tt d) by done. fold tcp.
  destruct (tcp || has_bits type SOCK_DGRAM) eqn:Ht; [|done]. rewrite (M_bind_ok _ _ d tt d) by done.
  assert (∀ x, x ∈ loop_channels d → (x < next_id d)%nat) as Hlt.
  { intros x Hx. apply (inv_registered _ Hd) in Hx as (h & Hh & _). by eapply inv_fresh. }
  assert (∀ x, (next_id d ≤ x)%nat → x ∉ loop_channels d) as Hnew by (intros x Hx Hin; apply Hlt in Hin; lia).
  clearbody tcp. destruct tcp.
  - destruct (Endpoint_new_ok EP_TCP (has_bits type SOCK_NONBLOCK) d) as (pipe & e & He). set (d1 := set_endpoints _ _) in He.
    destruct (Tcp_newSession_ok d1) as (pipe2 & e2 & Hs). set (d2 := set_tcp_pcbs _ _) in Hs.
    erewrite M_bind_ok by (mstep He; mstep Hs; reflexivity). cbv beta iota.
    edestruct (socket_tail (S (next_id d)) (S (next_id d1)) ch c) with (d := d2) as (d' & Hr & Hch & Hep & Hss & Ht1 & Hu1 & Hlc);
      [exact Hc|exact Hn|apply lookup_insert_eq|apply lookup_insert_eq| | | |].
    + cbn. rewrite lookup_insert_ne by lia. apply lookup_insert_eq.
    + apply Hnew. cbn. lia.
    + intros t [= <-]. cbn. rewrite lookup_insert_eq. split_and!; [done|apply Hnew; lia|lia].
    + exists (S (next_id d)), (S (next_id d1)). do 2 eexists. exists d'. split; [exact Hr|]. rewrite Hch, Hep, Hss, Ht1, Hu1, Hlc. cbn. rewrite app_nil_r, !insert_insert_eq.
      split_and!; (reflexivity || lia).
  - destruct (Endpoint_new_ok EP_UDP (has_bits type SOCK_NONBLOCK) d) as (pipe & e & He). set (d1 := set_endpoints _ _) in He.
    pose proof (Udp_newSession_ok d1) as Hs. set (d2 := set_udp_pcbs _ _) in Hs.
    erewrite M_bind_ok by (mstep He; mstep Hs; reflexivity). cbv beta iota.
    edestruct (socket_tail (S (next_id d)) (next_id d1) ch c) with (d := d2) as (d' & Hr & Hch & Hep & Hss & Ht1 & Hu1 & Hlc);
      [exact Hc|exact Hn|apply lookup_insert_eq|apply lookup_insert_eq|apply lookup_insert_eq|by apply Hnew|done|].
    exists (S (next_id d)), (next_id d1). do 2 eexists. exists d'. split; [exact Hr|]. rewrite Hch, Hep, Hss, Ht1, Hu1, Hlc. cbn. rewrite app_nil_r, !insert_insert_eq.
    split_and!; (reflexivity || lia).
Qed.
End create.

(** ** Properties *)

(** A socket request builds a consistent object graph: on a channel without
    a socket, [socketCall] creates one endpoint of the requested kind and one
    session at the stack's address, fresh identifiers both, that point to each
    other and to the channel, lists the session with its transport only, adds
    exactly the new handles to the event loop, changes no other endpoint,
    session or channel, and answers [ret] = 0; a type that is neither stream nor
    datagram fails an assertion. *)
Theorem socket_created {E} `{Kernel E} ch c type (d : Daemon E) :
  dinv d → channels d !! ch = Some c → ch_socket c = None →
  let tcp := has_bits type SOCK_STREAM in
  if tcp || has_bits type SOCK_DGRAM then
    ∃ so pcb ep p d',
      socketCall ch AF_INET type d = Ok (mkResponse (Some RC_OK) (Some (RetSocket (mkRet 0 None))), d') ∧
      (next_id d ≤ so)%nat ∧ (next_id d ≤ pcb)%nat ∧
      channels d' = <[ch := set_ch_socket (Some so) c]> (channels d) ∧
      endpoints d' = <[so := ep]> (endpoints d) ∧ sessions d' = <[pcb := p]> (sessions d) ∧
      ep_type ep = (if tcp then EP_TCP else EP_UDP) ∧ ep_nonblocking ep = has_bits type SOCK_NONBLOCK ∧
      ep_pcb ep = Some pcb ∧ ep_rrChannel ep = Some ch ∧ recvQ ep = [] ∧ waiting ep = false ∧
      p_base p = Session_setSocket (Some so) (Session_new (stack_addr (conf d))) ∧
      conn_state <$> p_tcb p = (if tcp then Some TCP_STATE__CLOSED else None) ∧
      tcp_pcbs d' = tcp_pcbs d ++ (if tcp then [pcb] else []) ∧
      udp_pcbs d' = udp_pcbs d ++ (if tcp then [] else [pcb]) ∧
      loop_channels d' = loop_channels d ++ ep_sChannel ep :: option_list (t_sChannel <$> p_tcb p)
  else socketCall ch AF_INET type d = Fault AssertFail.
Proof. apply socketCall_creates. Qed.

(** A daemon with one channel that has no socket yet. *)
Definition fresh_client : Daemon dscript :=
  sample_daemon ∅ ∅ {[3%nat := mkChannel 9 4 [] None None]} {[4%nat := reader 9 (CbChannelReadReady 3)]} quiet.
Lemma fresh_client_inv : dinv fresh_client.
Proof.
  constructor; try (by apply map_Forall_empty); try done; try (by constructor).
  - intros c. split; [set_solver|]. intros (h & Hh & Ho). cbn in Hh. apply lookup_singleton_Some in Hh as [_ <-]. done.
  - intros c h Hh. cbn in Hh. apply lookup_singleton_Some in Hh as [<- _]. cbn. lia.
Qed.

Lemma socket_created_witness :
  ∃ so pcb ep p d', socketCall 3 AF_INET SOCK_STREAM fresh_client =
      Ok (mkResponse (Some RC_OK) (Some (RetSocket (mkRet 0 None))), d') ∧
    ep_pcb ep = Some pcb ∧ endpoints d' = {[so := ep]} ∧ sessions d' = {[pcb := p]}.
Proof.
  destruct (socket_created 3 (mkChannel 9 4 [] None None) SOCK_STREAM fresh_client fresh_client_inv eq_refl eq_refl)
    as (so & pcb & ep & p & d' & Hr & _ & _ & _ & He & Hs & _ & _ & Hp & _).
  exists so, pcb, ep, p, d'. split_and!; [exact Hr|exact Hp|exact He|exact Hs].
Defined.
