(* ===== verification/Ownership.v ===== *)
(** * Who owns what

    The daemon's objects form a graph of smart pointers and callbacks: the
    arbiter's list owns the channels, a channel its endpoint, an endpoint its
    session, and each of them the handle whose callback leads back to it
    (src/src/veloxd/arbiter).  [links] projects a state to that graph, [graph]
    says that every pointer ends in a live object and that every object has
    exactly one owner, and [neutral m] that [m] does not change the graph.  The
    theorem is that [graph] holds in every reachable state. *)

From S2P Require Import Prelude Csum16 Frame Session World DScript Reactor Rpc Wire Net Agent Udp Tcp Reassembly IpRx Dispatch Arbiter Boot ReactorSpec AgentSpec UdpSpec Invariant LoopSpec BootSpec SocketCallSpec.

(** ** The graph of a state *)

(** What a handle, a channel, an endpoint and a session point to. *)
Record hnode := mkHnode { hn_fd : Z; hn_read : option callback; hn_close : option callback; hn_other : option callback * option callback }.
Record cnode := mkCnode { cn_fd : Z; cn_handle : nat; cn_socket : option nat }.
Record enode := mkEnode { en_handle : nat; en_channel : option nat; en_session : option nat }.
Record snode := mkSnode { sn_socket : option nat; sn_handle : option nat }.

Definition node_handle (h : IoHandle) : hnode := mkHnode (io_fd h) (io_onRead h) (io_onClose h) (io_onWrite h, io_onError h).
Definition node_channel (c : AgentChannel) : cnode := mkCnode (ch_fd c) (ch_sChannel c) (ch_socket c).
Definition node_endpoint (s : Endpoint) : enode := mkEnode (ep_sChannel s) (ep_rrChannel s) (ep_pcb s).
Definition node_session (p : Pcb) : snode := mkSnode (s_socket (p_base p)) (t_sChannel <$> p_tcb p).

Record Links := mkLinks {
  l_handles : gmap nat hnode;
  l_channels : gmap nat cnode;
  l_endpoints : gmap nat enode;
  l_sessions : gmap nat snode;
  l_listed : list nat;          (* rrChannels *)
  l_hub : option (Z * nat)
}.

Definition links {E} (d : Daemon E) : Links :=
  mkLinks (node_handle <$> handles d) (node_channel <$> channels d) (node_endpoint <$> endpoints d)
    (node_session <$> sessions d) (rrChannels d) (hub d).

(** The object a handle's callbacks lead to owns that handle. *)
Definition owner (l : Links) (h : nat) (x : hnode) : Prop :=
  hn_other x = (None, None) ∧
  match hn_read x with
  | Some CbHubReadReady => l_hub l = Some (hn_fd x, h) ∧ hn_close x = None
  | Some (CbChannelReadReady ch) =>
      ∃ c, l_channels l !! ch = Some c ∧ cn_handle c = h ∧ cn_fd c = hn_fd x ∧ hn_close x = Some (CbChannelPeerClose ch)
  | Some (CbEndpointReadReady e) => hn_close x = None ∧ ∃ s, l_endpoints l !! e = Some s ∧ en_handle s = h
  | Some (CbSessionEstab p) => hn_close x = None ∧ ∃ q, l_sessions l !! p = Some q ∧ sn_handle q = Some h
  | _ => False
  end.

Definition below {A} (n : nat) (m : gmap nat A) : Prop := ∀ i, is_Some (m !! i) → (i < n)%nat.

Record graph (n : nat) (l : Links) : Prop := {
  g_handle : ∀ h x, l_handles l !! h = Some x → owner l h x;
  g_channel : ∀ ch c, l_channels l !! ch = Some c →
    ∃ x, l_handles l !! cn_handle c = Some x ∧ hn_read x = Some (CbChannelReadReady ch);
  g_endpoint : ∀ e s, l_endpoints l !! e = Some s →
    ∃ x, l_handles l !! en_handle s = Some x ∧ hn_read x = Some (CbEndpointReadReady e);
  g_session : ∀ p q h, l_sessions l !! p = Some q → sn_handle q = Some h →
    ∃ x, l_handles l !! h = Some x ∧ hn_read x = Some (CbSessionEstab p);
  g_socket_down : ∀ ch c e, l_channels l !! ch = Some c → cn_socket c = Some e →
    ∃ s, l_endpoints l !! e = Some s ∧ en_channel s = Some ch;
  g_socket_up : ∀ e s, l_endpoints l !! e = Some s →
    ∃ ch c, en_channel s = Some ch ∧ l_channels l !! ch = Some c ∧ cn_socket c = Some e;
  g_pcb_down : ∀ e s, l_endpoints l !! e = Some s →
    ∃ p q, en_session s = Some p ∧ l_sessions l !! p = Some q ∧ sn_socket q = Some e;
  g_pcb_up : ∀ p q, l_sessions l !! p = Some q →
    ∃ e s, sn_socket q = Some e ∧ l_endpoints l !! e = Some s ∧ en_session s = Some p;
  g_listed : ∀ ch, ch ∈ l_listed l ↔ is_Some (l_channels l !! ch);
  g_nodup : NoDup (l_listed l);
  g_below : below n (l_handles l) ∧ below n (l_channels l) ∧ below n (l_endpoints l) ∧ below n (l_sessions l)
}.

Section neutral.
Context {E : Type} `{Kernel E} `{Codec}.
Implicit Types d : Daemon E.

(** ** Programs that do not change it *)

Definition same_links d d' : Prop := links d' = links d ∧ (next_id d ≤ next_id d')%nat.

#[global] Instance same_links_preorder : PreOrder same_links.
Proof. unfold same_links. split; [done|]. intros ? ? ? [] []. split; [congruence|lia]. Qed.

Lemma graph_mono n m l : (n ≤ m)%nat → graph n l → graph m l.
Proof. intros Hnm [? ? ? ? ? ? ? ? ? ? (?&?&?&?)]; constructor; try done. split_and!; intros i Hi; eapply Nat.lt_le_trans; eauto. Qed.

Lemma graph_same d d' : same_links d d' → graph (next_id d) (links d) → graph (next_id d') (links d').
Proof. intros [-> Hn]. by apply graph_mono. Qed.

Definition neutral {A} (m : D E A) : Prop := ∀ d a d', m d = Ok (a, d') → same_links d d'.

Lemma neutral_bind {A B} (m : D E A) (k : A → D E B) : neutral m → (∀ a, neutral (k a)) → neutral (m ≫= k).
Proof. intros Hm Hk d b d' Hr. apply M_bind_inv in Hr as (a & d1 & H1 & H2). etrans; [by eapply Hm|by eapply Hk]. Qed.
Lemma neutral_ret {A} (a : A) : neutral (mret a : D E A).
Proof. by intros d ? d' [= <- <-]. Qed.
Lemma neutral_fail {A} f : neutral (fail f : D E A).
Proof. by intros d ? d'. Qed.
Lemma neutral_lift {A} (r : res A) : neutral (lift_res r : D E A).
Proof. intros d a d'. unfold lift_res. destruct r; [|done]. by intros [= <- <-]. Qed.
Lemma neutral_deref {A} (o : option A) : neutral (deref o : D E A).
Proof. apply neutral_lift. Qed.
Lemma neutral_assert b : neutral (assert_ b : D E unit).
Proof. destruct b; [apply neutral_ret|apply neutral_fail]. Qed.
Lemma neutral_gets {A} (f : Daemon E → A) : neutral (gets f).
Proof. by intros d ? d' [= <- <-]. Qed.
Lemma neutral_get : neutral (get_st : D E _).
Proof. by intros d ? d' [= <- <-]. Qed.
Lemma neutral_modify f : (∀ d, same_links d (f d)) → neutral (modify f : D E unit).
Proof. intros Hf d ? d' [= <- <-]. apply Hf. Qed.
Lemma neutral_kcall {A} (f : E → A * E) : neutral (kcall f).
Proof. intros d a d'. rewrite kcall_ok. by intros [= <- <-]. Qed.
Lemma neutral_kcall_ (f : E → E) : neutral (kcall_ f).
Proof. by apply neutral_modify. Qed.
Lemma neutral_read_cell {A} (heap : Daemon E → gmap nat A) i : neutral (read_cell heap i).
Proof. intros d a d'. unfold read_cell. destruct (heap d !! i); [|done]. by intros [= <- <-]. Qed.
Lemma neutral_the_frame i : neutral (the_frame i : D E _).
Proof. apply neutral_read_cell. Qed.
Lemma neutral_the_handle i : neutral (the_handle i : D E _).
Proof. apply neutral_read_cell. Qed.
Lemma neutral_the_pcb i : neutral (the_pcb i : D E _).
Proof. apply neutral_read_cell. Qed.
Lemma neutral_the_endpoint i : neutral (the_endpoint i : D E _).
Proof. apply neutral_read_cell. Qed.
Lemma neutral_the_channel i : neutral (the_channel i : D E _).
Proof. apply neutral_read_cell. Qed.
Lemma neutral_put_frame i f : neutral (put_frame i f : D E unit).
Proof. by apply neutral_modify. Qed.
Lemma neutral_make_FrameBuf : neutral (make_FrameBuf : D E _).
Proof. intros d a d' [= <- <-]. split; [done|]. cbn. lia. Qed.

(** Updates that keep the node. *)
Lemma upd_same {A B} (f : A → B) (m : gmap nat A) i (a a' : A) : m !! i = Some a → f a' = f a → f <$> <[i := a']> m = f <$> m.
Proof. intros Hi Hf. rewrite fmap_insert, Hf. apply insert_id. by rewrite lookup_fmap, Hi. Qed.

Lemma neutral_upd_handle i f : (∀ h, node_handle (f h) = node_handle h) → neutral (upd_handle i f : D E unit).
Proof.
  intros Hf d a d'. unfold upd_handle, mbind, M_bind, the_handle, read_cell. destruct (handles d !! i) as [h|] eqn:Hi; [|done].
  intros [= <- <-]. split; [|done]. unfold links. cbn. by rewrite (upd_same _ _ _ h).
Qed.
Lemma neutral_upd_pcb i f : (∀ p, node_session (f p) = node_session p) → neutral (upd_pcb i f : D E unit).
Proof.
  intros Hf d a d'. unfold upd_pcb, mbind, M_bind, the_pcb, read_cell. destruct (sessions d !! i) as [h|] eqn:Hi; [|done].
  intros [= <- <-]. split; [|done]. unfold links. cbn. by rewrite (upd_same _ _ _ h).
Qed.
Lemma neutral_upd_endpoint i f : (∀ s, node_endpoint (f s) = node_endpoint s) → neutral (upd_endpoint i f : D E unit).
Proof.
  intros Hf d a d'. unfold upd_endpoint, mbind, M_bind, the_endpoint, read_cell. destruct (endpoints d !! i) as [h|] eqn:Hi; [|done].
  intros [= <- <-]. split; [|done]. unfold links. cbn. by rewrite (upd_same _ _ _ h).
Qed.
Lemma neutral_upd_channel i f : (∀ s, node_channel (f s) = node_channel s) → neutral (upd_channel i f : D E unit).
Proof.
  intros Hf d a d'. unfold upd_channel, mbind, M_bind, the_channel, read_cell. destruct (channels d !! i) as [h|] eqn:Hi; [|done].
  intros [= <- <-]. split; [|done]. unfold links. cbn. by rewrite (upd_same _ _ _ h).
Qed.
Lemma neutral_upd_frame i g : neutral (upd_frame i g : D E unit).
Proof.
  unfold upd_frame. apply neutral_bind; [apply neutral_the_frame|]. intros f. apply neutral_bind; [apply neutral_lift|].
  intros f'. apply neutral_put_frame.
Qed.
Lemma neutral_get_frame {A} i (g : FrameBuf → res A) : neutral (get_frame i g : D E A).
Proof. unfold get_frame. apply neutral_bind; [apply neutral_the_frame|]. intros f. apply neutral_lift. Qed.
End neutral.

Create HintDb neutral discriminated.
#[export] Hint Resolve neutral_lift neutral_deref neutral_assert neutral_gets neutral_get neutral_kcall neutral_kcall_
  neutral_the_frame neutral_the_handle neutral_the_pcb neutral_the_endpoint neutral_the_channel neutral_put_frame
  neutral_make_FrameBuf neutral_upd_frame neutral_get_frame neutral_fail : neutral.
#[export] Hint Extern 1 (neutral (upd_handle _ _)) => by apply neutral_upd_handle : neutral.
#[export] Hint Extern 1 (neutral (upd_pcb _ _)) => by apply neutral_upd_pcb : neutral.
#[export] Hint Extern 1 (neutral (upd_endpoint _ _)) => by apply neutral_upd_endpoint : neutral.
#[export] Hint Extern 1 (neutral (upd_channel _ _)) => by apply neutral_upd_channel : neutral.
#[export] Hint Extern 2 (neutral (modify _)) => by apply neutral_modify : neutral.

(** Walk through a program. *)
Ltac neutral :=
  repeat first
    [ progress intros
    | apply neutral_ret
    | solve [eauto with neutral]
    | apply neutral_bind; [solve [eauto with neutral]|]
    | match goal with
      | |- neutral (match ?x with _ => _ end) => destruct x eqn:?
      | |- neutral ((match ?x with _ => _ end) ≫= _) => destruct x eqn:?
      | |- neutral (mbind _ (mbind _ _)) => apply neutral_bind
      end ].

Section layers.
Context {E : Type} `{Kernel E} `{Codec}.
Context (indet : list Z).
Notation D := (D E).

(** ** The layers below the requests *)

Lemma neutral_tx_gather n curr bs : neutral (tx_gather n curr bs : D _).
Proof. revert curr bs. induction n as [|n IH]; intros [i|] bs; cbn [tx_gather]; neutral. Qed.
Hint Resolve neutral_tx_gather : neutral.
Lemma neutral_Ip_tx k buf : neutral (Ip_tx k buf : D _).
Proof. unfold Ip_tx, Interface_tx, TunIface_tx. neutral. Qed.
Lemma neutral_Interface_turn : neutral (Interface_turn : D _).
Proof. unfold Interface_turn, TunIface_rx, Ip_enRxQue. neutral. Qed.
Hint Resolve neutral_Ip_tx : neutral.

Lemma neutral_put_endpoint i (k : Endpoint → Endpoint) {A} (r : D A) : (∀ s, node_endpoint (k s) = node_endpoint s) →
  neutral r → neutral (s ← the_endpoint i; _ ← put_endpoint i (k s); r).
Proof.
  intros Hk Hr d a d' Hx. apply M_bind_inv in Hx as (s & d1 & Hs & Hx). unfold the_endpoint, read_cell in Hs.
  destruct (endpoints d !! i) as [s'|] eqn:Hi; [|done]. injection Hs as -> <-.
  apply M_bind_inv in Hx as (u & d2 & Hp & Hx). injection Hp as <- <-. etrans; [|by eapply Hr].
  split; [|done]. unfold links. cbn. by rewrite (upd_same _ _ _ s).
Qed.
Lemma neutral_mark i : neutral (Endpoint_markSChannelAsReadable i : D _).
Proof. unfold Endpoint_markSChannelAsReadable. neutral. Qed.
Lemma neutral_putToRecvQ a k i : neutral (Endpoint_putToRecvQ a k i : D _).
Proof.
  intros d u d' Hr. unfold Endpoint_putToRecvQ in Hr. apply M_bind_inv in Hr as (s & d1 & Hs & Hr).
  destruct (recvQlimit <? length (recvQ s)).
  - injection Hr as <- <-. by eapply neutral_the_endpoint.
  - eapply (neutral_put_endpoint i (λ s, set_recvQ (recvQ s ++ [(a, k)]) s)); [done|apply neutral_mark|].
    unfold mbind, M_bind. rewrite Hs. exact Hr.
Qed.
Lemma neutral_try_take i : neutral (Endpoint_try_takeFromRecvQ i : D _).
Proof.
  intros d u d' Hr. unfold Endpoint_try_takeFromRecvQ in Hr. apply M_bind_inv in Hr as (s & d1 & Hs & Hr).
  destruct (recvQ s) as [|x q].
  - injection Hr as <- <-. by eapply neutral_the_endpoint.
  - eapply (neutral_put_endpoint i (λ s, set_recvQ q s) (mret (Some x))); [done|apply neutral_ret|].
    unfold mbind, M_bind. rewrite Hs. exact Hr.
Qed.
Lemma neutral_drain_pipe n fd : neutral (drain_pipe n fd : D _).
Proof. induction n as [|n IH]; cbn [drain_pipe]; neutral. Qed.
Lemma neutral_removeChannel c : neutral (EventReactor_removeChannel c : D _).
Proof. unfold EventReactor_removeChannel, EventReactor_hasChannel, SysPoller_removeChannel. neutral. Qed.
Lemma neutral_unregister c : neutral (IoHandle_unregisterSelf c : D _).
Proof. pose proof neutral_removeChannel. unfold IoHandle_unregisterSelf. neutral. Qed.
Lemma neutral_register c : neutral (register c : D _).
Proof. unfold register, EventReactor_addChannel, EventReactor_hasChannel, SysPoller_addChannel, IoHandle_setOwnerEventReactor. neutral. Qed.
Hint Resolve neutral_putToRecvQ neutral_try_take neutral_drain_pipe neutral_unregister neutral_register : neutral.
Lemma neutral_write resp i : neutral (AgentChannel_write resp i : D _).
Proof. unfold AgentChannel_write. neutral. Qed.
Hint Resolve neutral_write : neutral.
Lemma neutral_lock_endpoint so : neutral (lock_endpoint so : D _).
Proof. unfold lock_endpoint. neutral. Qed.
Lemma neutral_channel_socket i : neutral (channel_socket i : D _).
Proof. unfold channel_socket. neutral. Qed.
Lemma neutral_endpoint_pcb i : neutral (endpoint_pcb i : D _).
Proof. unfold endpoint_pcb. neutral. Qed.
Hint Resolve neutral_lock_endpoint neutral_channel_socket neutral_endpoint_pcb : neutral.
Lemma neutral_connEstab ch : neutral (connEstab ch : D _).
Proof. unfold connEstab. neutral. Qed.
Hint Resolve neutral_connEstab : neutral.

(** A method of the base class keeps the session's endpoint. *)
Definition base_socket (f : Session → Z → Z * Session * Z) : Prop := ∀ s port, s_socket (f s port).1.2 = s_socket s.
Lemma base_socket_connect a p : base_socket (Session_connect a p).
Proof. intros s port. unfold Session_connect, Session_bind. repeat (case_match; simplify_eq/=; try done). Qed.
Lemma base_socket_send : base_socket Session_send.
Proof. intros s port. unfold Session_send, Session_bind. repeat (case_match; simplify_eq/=; try done). Qed.
Lemma base_socket_send_to a p : base_socket (Session_send_to a p).
Proof. intros s port. unfold Session_send_to, Session_bind. repeat (case_match; simplify_eq/=; try done). Qed.
Lemma neutral_udp_base f i : base_socket f → neutral (udp_base f i : D _).
Proof.
  intros Hf d a d'. unfold udp_base, mbind, M_bind, the_pcb, read_cell.
  destruct (sessions d !! i) as [p|] eqn:Hi; [|done]. specialize (Hf (p_base p) (udp_port d)). cbn.
  destruct (f (p_base p) (udp_port d)) as [[r s] port]. cbn in Hf. intros [= <- <-]. split; [|done]. unfold links. cbn.
  rewrite (upd_same _ _ _ p); [done|done|]. unfold node_session. cbn. by rewrite Hf.
Qed.
Lemma neutral_tcp_base f i : base_socket f → neutral (tcp_base f i : D _).
Proof.
  intros Hf d a d'. unfold tcp_base, mbind, M_bind, the_pcb, read_cell.
  destruct (sessions d !! i) as [p|] eqn:Hi; [|done]. specialize (Hf (p_base p) (tcp_port d)). cbn.
  destruct (f (p_base p) (tcp_port d)) as [[r s] port]. cbn in Hf. intros [= <- <-]. split; [|done]. unfold links. cbn.
  rewrite (upd_same _ _ _ p); [done|done|]. unfold node_session. cbn. by rewrite Hf.
Qed.
Hint Resolve base_socket_connect base_socket_send base_socket_send_to neutral_udp_base neutral_tcp_base : neutral.

Lemma neutral_UdpSession_send buf i : neutral (UdpSession_send buf i : D _).
Proof. unfold UdpSession_send. neutral. Qed.
Hint Resolve neutral_UdpSession_send : neutral.
Lemma neutral_UdpSession_send_to a p buf i : neutral (UdpSession_send_to a p buf i : D _).
Proof. unfold UdpSession_send_to. neutral. Qed.
Lemma neutral_Udp_rx k : neutral (Udp_rx k : D _).
Proof. unfold Udp_rx, UdpSession_recv. neutral. Qed.
Hint Resolve neutral_UdpSession_send_to neutral_Udp_rx : neutral.

Lemma neutral_the_tcb i : neutral (the_tcb i : D _).
Proof. unfold the_tcb. neutral. Qed.
Lemma neutral_upd_tcb i f : (∀ t, t_sChannel (f t) = t_sChannel t) → neutral (upd_tcb i f : D _).
Proof.
  intros Hf d a d'. unfold upd_tcb, mbind, M_bind, the_pcb, read_cell.
  destruct (sessions d !! i) as [p|] eqn:Hi; [|done]. destruct (p_tcb p) as [t|] eqn:Ht; [|done].
  intros [= <- <-]. split; [|done]. unfold links. cbn. rewrite (upd_same _ _ _ p); [done|done|].
  unfold node_session. cbn. by rewrite Hf, Ht.
Qed.
Hint Extern 1 (neutral (upd_tcb _ _)) => apply neutral_upd_tcb; intros; try case_match; reflexivity : neutral.
Hint Resolve neutral_the_tcb : neutral.
Lemma neutral_templ i : neutral (TcpSession_socketBufferOfTcpTempl i : D _).
Proof. unfold TcpSession_socketBufferOfTcpTempl. neutral. Qed.
Lemma neutral_prepare k buf i : neutral (TcpSession_prepareBeforeIpTx k buf i : D _).
Proof. unfold TcpSession_prepareBeforeIpTx. neutral. Qed.
Hint Resolve neutral_templ neutral_prepare : neutral.
Lemma neutral_ack2peer v i : neutral (TcpSession_ack2peer v i : D _).
Proof. unfold TcpSession_ack2peer. neutral. Qed.
Lemma neutral_TcpSession_send buf i : neutral (TcpSession_send buf i : D _).
Proof. unfold TcpSession_send, TcpSession_send_closed, TcpSession_send_estab. neutral. Qed.
Hint Resolve neutral_ack2peer neutral_TcpSession_send : neutral.
Lemma neutral_TcpSession_connect a p i : neutral (TcpSession_connect a p i : D _).
Proof. unfold TcpSession_connect. neutral. Qed.
Lemma neutral_setOnConnEstab ch i : neutral (TcpSession_setOnConnEstabCB ch i : D _).
Proof. unfold TcpSession_setOnConnEstabCB. neutral. Qed.
Lemma neutral_fireConnEstab i : neutral (TcpSession_fireConnEstab i : D _).
Proof. unfold TcpSession_fireConnEstab. neutral. Qed.
Hint Resolve neutral_TcpSession_connect neutral_setOnConnEstab neutral_fireConnEstab : neutral.
Lemma neutral_Tcp_rx k : neutral (Tcp_rx indet k : D _).
Proof. unfold Tcp_rx, TcpSession_recv, TcpSession_recv_syn_sent, TcpSession_recv_estab. neutral. Qed.
Hint Resolve neutral_Tcp_rx : neutral.

Lemma neutral_insert_walk n o prev curr : neutral (insert_walk n o prev curr : D _).
Proof. revert prev curr. induction n as [|n IH]; intros prev [c|]; cbn [insert_walk]; unfold frag_offset, hdr16; neutral. Qed.
Lemma neutral_contiguous n curr o : neutral (contiguous n curr o : D _).
Proof. revert curr o. induction n as [|n IH]; intros [c|] o; cbn [contiguous]; unfold frag_offset, hdr16, hdr_ihl; neutral. Qed.
Lemma neutral_last_of n curr : neutral (last_of n curr : D _).
Proof. revert curr. induction n as [|n IH]; intros curr; cbn [last_of]; neutral. Qed.
Lemma neutral_adjust_rest n curr : neutral (adjust_rest n curr : D _).
Proof. revert curr. induction n as [|n IH]; intros [c|]; cbn [adjust_rest]; unfold hdr16, hdr_ihl; neutral. Qed.
Hint Resolve neutral_insert_walk neutral_contiguous neutral_last_of neutral_adjust_rest : neutral.
Lemma neutral_defrag k : neutral (Reassembler_defrag k : D _).
Proof. unfold Reassembler_defrag, defrag_insert, defrag_complete, frag_offset, hdr16, hdr_ihl. neutral. Qed.
Hint Resolve neutral_defrag : neutral.
Lemma neutral_Ip_turn : neutral (Ip_turn indet : D _).
Proof. unfold Ip_turn, Ip_process, Ip_demultiplex. neutral. Qed.
End layers.

(** ** Changes of the graph *)

Definition reader_node (fd : Z) (cb : callback) : hnode := mkHnode fd (Some cb) None (None, None).
Definition with_socket (v : option nat) (c : cnode) : cnode := mkCnode (cn_fd c) (cn_handle c) v.
Definition insert_opt {A} (o : option nat) (a : A) (m : gmap nat A) : gmap nat A := match o with Some i => <[i := a]> m | None => m end.
Definition delete_opt {A} (o : option nat) (m : gmap nat A) : gmap nat A := match o with Some i => delete i m | None => m end.

(** A channel gets an endpoint [so] with handle [he] and a session [pcb], with
    a handle for TCP. *)
Definition attach (ch so pcb he : nat) (ht : option nat) (fe ft : Z) (c : cnode) (l : Links) : Links :=
  mkLinks (insert_opt ht (reader_node ft (CbSessionEstab pcb)) (<[he := reader_node fe (CbEndpointReadReady so)]> (l_handles l)))
    (<[ch := with_socket (Some so) c]> (l_channels l)) (<[so := mkEnode he (Some ch) (Some pcb)]> (l_endpoints l))
    (<[pcb := mkSnode (Some so) ht]> (l_sessions l)) (l_listed l) (l_hub l).

(** A channel loses its endpoint. *)
Definition detach (ch e pcb he : nat) (ht : option nat) (c : cnode) (l : Links) : Links :=
  mkLinks (delete he (delete_opt ht (l_handles l))) (<[ch := with_socket None c]> (l_channels l))
    (delete e (l_endpoints l)) (delete pcb (l_sessions l)) (l_listed l) (l_hub l).

(** A new channel. *)
Definition connected_links (ch h : nat) (fd : Z) (l : Links) : Links :=
  mkLinks (<[h := mkHnode fd (Some (CbChannelReadReady ch)) (Some (CbChannelPeerClose ch)) (None, None)]> (l_handles l))
    (<[ch := mkCnode fd h None]> (l_channels l)) (l_endpoints l) (l_sessions l) (l_listed l ++ [ch]) (l_hub l).

Lemma below_ne {A} n (m : gmap nat A) i j a : below n m → m !! i = Some a → (n ≤ j)%nat → i ≠ j.
Proof. intros Hb Hi Hj ->. specialize (Hb j (mk_is_Some _ _ Hi)). lia. Qed.
Lemma below_insert {A} n k (m : gmap nat A) i a : below n m → (n ≤ k)%nat → (i < k)%nat → below k (<[i := a]> m).
Proof. intros Hb Hk Hi j [x Hx]. apply lookup_insert_Some in Hx as [[<- _]|[_ Hx]]; [done|]. apply Nat.lt_le_trans with n; [|done]. by apply Hb. Qed.
Lemma below_delete {A} n (m : gmap nat A) i : below n m → below n (delete i m).
Proof. intros Hb j [x Hx]. apply lookup_delete_Some in Hx as [_ Hx]. by apply Hb. Qed.

Lemma graph_connected n ch h fd l : graph n l → (n ≤ ch)%nat → (n ≤ h)%nat →
  graph (S (Nat.max ch h)) (connected_links ch h fd l).
Proof.
  intros [Hh Hc He Hs Hsd Hsu Hpd Hpu Hl Hn (B1 & B2 & B3 & B4)] Hch Hhh.
  assert (∀ i x, l_channels l !! i = Some x → ch ≠ i) as N2 by (intros i x Hi ->; by eapply (below_ne n _ i i x B2 Hi)).
  assert (∀ i x, l_handles l !! i = Some x → h ≠ i) as N1 by (intros i x Hi ->; by eapply (below_ne n _ i i x B1 Hi)).
  constructor; cbn.
  - intros i x Hx. apply lookup_insert_Some in Hx as [[<- <-]|[_ Hx]].
    + split; [done|]. cbn. eexists. by rewrite lookup_insert_eq.
    + destruct (Hh _ _ Hx) as [Ho Hr]. split; [done|]. destruct (hn_read x) as [[]|]; try done.
      destruct Hr as (c & Hc' & Hrest). exists c. cbn. by rewrite lookup_insert_ne by eauto.
  - intros i c Hx. apply lookup_insert_Some in Hx as [[<- <-]|[_ Hx]].
    + eexists. cbn. by rewrite lookup_insert_eq.
    + destruct (Hc _ _ Hx) as (x & Hx' & ?). exists x. by rewrite lookup_insert_ne by eauto.
  - intros e s Hx. destruct (He _ _ Hx) as (x & Hx' & ?). exists x. by rewrite lookup_insert_ne by eauto.
  - intros p q i Hx Hi. destruct (Hs _ _ _ Hx Hi) as (x & Hx' & ?). exists x. by rewrite lookup_insert_ne by eauto.
  - intros i c e Hx Hso. apply lookup_insert_Some in Hx as [[<- <-]|[_ Hx]]; [done|]. eauto.
  - intros e s Hx. destruct (Hsu _ _ Hx) as (i & c & ? & Hc' & ?). exists i, c. by rewrite lookup_insert_ne by eauto.
  - eauto.
  - eauto.
  - intros i. rewrite elem_of_app, list_elem_of_singleton, Hl, lookup_insert_is_Some. destruct (decide (ch = i)); naive_solver.
  - apply NoDup_app. split_and!; [done| |apply NoDup_singleton]. intros i Hi ->%list_elem_of_singleton.
    apply Hl in Hi as [x Hi]. by eapply N2.
  - split_and!; [eapply below_insert; [done|lia|lia]|eapply below_insert; [done|lia|lia]| |]; intros i Hi;
      [specialize (B3 i Hi)|specialize (B4 i Hi)]; lia.
Qed.

Lemma lookup_insert_opt_ne {A} (o : option nat) (a : A) m i : o ≠ Some i → insert_opt o a m !! i = m !! i.
Proof. intros Hi. destruct o; [|done]. cbn. rewrite lookup_insert_ne by congruence. done. Qed.

Section attach.
Context (n k ch so pcb he : nat) (ht : option nat) (fe ft : Z) (c : cnode) (l : Links).
Context (G : graph n l) (Hch : l_channels l !! ch = Some c) (Hno : cn_socket c = None)
  (Hso : (n ≤ so < k)%nat) (Hpcb : (n ≤ pcb < k)%nat) (Hhe : (n ≤ he < k)%nat)
  (Hht : ∀ h, ht = Some h → (n ≤ h < k)%nat ∧ h ≠ he).
Let l' := attach ch so pcb he ht fe ft c l.

(** Old objects stay, new ones are there. *)
Lemma attach_handle i x : l_handles l !! i = Some x → l_handles l' !! i = Some x.
Proof.
  intros Hi. pose proof (proj1 (g_below _ _ G) i (mk_is_Some _ _ Hi)). cbn.
  rewrite lookup_insert_opt_ne, lookup_insert_ne; [done|lia|]. intros Hti. apply Hht in Hti. lia.
Qed.
Lemma attach_endpoint i s : l_endpoints l !! i = Some s → l_endpoints l' !! i = Some s.
Proof.
  intros Hi. destruct (g_below _ _ G) as (_ & _ & B & _). pose proof (B i (mk_is_Some _ _ Hi)). cbn.
  rewrite lookup_insert_ne; [done|lia].
Qed.
Lemma attach_session i s : l_sessions l !! i = Some s → l_sessions l' !! i = Some s.
Proof.
  intros Hi. destruct (g_below _ _ G) as (_ & _ & _ & B). pose proof (B i (mk_is_Some _ _ Hi)). cbn.
  rewrite lookup_insert_ne; [done|lia].
Qed.
Lemma attach_channel i x : l_channels l !! i = Some x → ∃ x', l_channels l' !! i = Some x' ∧
  cn_fd x' = cn_fd x ∧ cn_handle x' = cn_handle x.
Proof.
  intros Hi. cbn. destruct (decide (ch = i)) as [<-|Hne].
  - rewrite lookup_insert_eq. eexists. split; [done|]. by simplify_eq.
  - rewrite lookup_insert_ne by done. eauto.
Qed.
Lemma attach_new_handle : l_handles l' !! he = Some (reader_node fe (CbEndpointReadReady so)).
Proof. cbn. rewrite lookup_insert_opt_ne; [apply lookup_insert_eq|]. intros Hti. by apply Hht in Hti as [_ []]. Qed.
Lemma attach_tcp_handle h : ht = Some h → l_handles l' !! h = Some (reader_node ft (CbSessionEstab pcb)).
Proof. intros Hth. unfold l', attach. rewrite Hth. cbn. apply lookup_insert_eq. Qed.

Lemma attach_owner i x : l_handles l' !! i = Some x → owner l' i x.
Proof.
  intros Hx. destruct (decide (ht = Some i)) as [Hi|Hi].
  { rewrite (attach_tcp_handle i Hi) in Hx. injection Hx as <-. split; [done|]. cbn. split; [done|]. eexists. by rewrite lookup_insert_eq. }
  destruct (decide (i = he)) as [->|Hne].
  { rewrite attach_new_handle in Hx. injection Hx as <-. split; [done|]. cbn. split; [done|]. eexists. by rewrite lookup_insert_eq. }
  cbn in Hx. rewrite lookup_insert_opt_ne, lookup_insert_ne in Hx by done.
  destruct (g_handle _ _ G _ _ Hx) as [Ho Hr]. split; [done|]. destruct (hn_read x) as [[]|]; try done.
  - destruct Hr as (c0 & Hc' & ? & ? & ?). destruct (attach_channel _ _ Hc') as (x' & Hx' & ? & ?). exists x'. split_and!; congruence.
  - destruct Hr as (? & s & Hs' & ?). split; [done|]. eauto using attach_endpoint.
  - destruct Hr as (? & q & Hq' & ?). split; [done|]. eauto using attach_session.
Qed.

Lemma graph_attach : graph k l'.
Proof.
  destruct G as [Hh Hc He Hs Hsd Hsu Hpd Hpu Hl Hn (B1 & B2 & B3 & B4)]. constructor.
  - apply attach_owner.
  - intros i x Hx. cbn in Hx. apply lookup_insert_Some in Hx as [[<- <-]|[_ Hx]];
      [destruct (Hc _ _ Hch) as (y & ? & ?)|destruct (Hc _ _ Hx) as (y & ? & ?)]; eauto using attach_handle.
  - intros e s Hx. cbn in Hx. apply lookup_insert_Some in Hx as [[<- <-]|[_ Hx]]; [eauto using attach_new_handle|].
    destruct (He _ _ Hx) as (y & ? & ?). eauto using attach_handle.
  - intros p q h Hx Hq. cbn in Hx. apply lookup_insert_Some in Hx as [[<- <-]|[_ Hx]]; [by eauto using attach_tcp_handle|].
    destruct (Hs _ _ _ Hx Hq) as (y & ? & ?). eauto using attach_handle.
  - intros i x e Hx Hxe. cbn in Hx. apply lookup_insert_Some in Hx as [[<- <-]|[Hne Hx]].
    + injection Hxe as <-. eexists. cbn. by rewrite lookup_insert_eq.
    + destruct (Hsd _ _ _ Hx Hxe) as (s & ? & ?). eauto using attach_endpoint.
  - intros e s Hx. cbn in Hx. apply lookup_insert_Some in Hx as [[<- <-]|[_ Hx]].
    + eexists ch, _. cbn. by rewrite lookup_insert_eq.
    + destruct (Hsu _ _ Hx) as (i & x & ? & Hxi & ?). exists i, x. split_and!; [done| |done].
      cbn. rewrite lookup_insert_ne; [done|]. intros <-. congruence.
  - intros e s Hx. cbn in Hx. apply lookup_insert_Some in Hx as [[<- <-]|[_ Hx]].
    + eexists pcb, _. cbn. by rewrite lookup_insert_eq.
    + destruct (Hpd _ _ Hx) as (p & q & ? & ? & ?). eauto 6 using attach_session.
  - intros p q Hx. cbn in Hx. apply lookup_insert_Some in Hx as [[<- <-]|[_ Hx]].
    + eexists so, _. cbn. by rewrite lookup_insert_eq.
    + destruct (Hpu _ _ Hx) as (e & s & ? & ? & ?). eauto 6 using attach_endpoint.
  - intros i. cbn. rewrite Hl, lookup_insert_is_Some. destruct (decide (ch = i)) as [<-|]; [|naive_solver].
    split; [by left|done].
  - done.
  - cbn. pose proof (B2 ch (mk_is_Some _ _ Hch)). split_and!; [|eapply below_insert; [done|lia|lia]..].
    assert (below k (<[he := reader_node fe (CbEndpointReadReady so)]> (l_handles l))) as Bh by (eapply below_insert; [done|lia|lia]).
    destruct ht as [h|]; [|done]. destruct (Hht h eq_refl). cbn. eapply (below_insert k k); [done|lia|lia].
Qed.
End attach.

Lemma lookup_delete_opt_ne {A} (o : option nat) (m : gmap nat A) i : o ≠ Some i → delete_opt o m !! i = m !! i.
Proof. intros Hi. destruct o; [|done]. cbn. rewrite lookup_delete_ne by congruence. done. Qed.
Lemma lookup_delete_opt_Some {A} (o : option nat) (m : gmap nat A) i a : delete_opt o m !! i = Some a → o ≠ Some i ∧ m !! i = Some a.
Proof. destruct o; [|done]. cbn. rewrite lookup_delete_Some. naive_solver. Qed.

Section detach.
Context (n ch e pcb : nat) (c : cnode) (s : enode) (q : snode) (l : Links).
Context (G : graph n l) (Hch : l_channels l !! ch = Some c) (Hso : cn_socket c = Some e)
  (Hep : l_endpoints l !! e = Some s) (Hpcb : en_session s = Some pcb) (Hq : l_sessions l !! pcb = Some q).
Let l' := detach ch e pcb (en_handle s) (sn_handle q) c l.

Lemma detach_handle i x cb : l_handles l !! i = Some x → hn_read x = Some cb →
  cb ≠ CbEndpointReadReady e → cb ≠ CbSessionEstab pcb → l_handles l' !! i = Some x.
Proof.
  intros Hi Hcb H1 H2. cbn. rewrite lookup_delete_ne, lookup_delete_opt_ne; [done| |].
  - intros Hqi. destruct (g_session _ _ G _ _ _ Hq Hqi) as (y & Hy & ?). congruence.
  - intros <-. destruct (g_endpoint _ _ G _ _ Hep) as (y & Hy & ?). congruence.
Qed.
Lemma detach_channel i x : l_channels l !! i = Some x → ∃ x', l_channels l' !! i = Some x' ∧
  cn_fd x' = cn_fd x ∧ cn_handle x' = cn_handle x ∧ (i ≠ ch → x' = x).
Proof.
  intros Hi. cbn. destruct (decide (ch = i)) as [<-|Hne].
  - rewrite lookup_insert_eq. eexists. split; [done|]. simplify_eq. by split_and!.
  - rewrite lookup_insert_ne by done. eauto.
Qed.
Lemma detach_owner i x : l_handles l' !! i = Some x → owner l' i x.
Proof.
  intros Hx. cbn in Hx. apply lookup_delete_Some in Hx as [Hne [Hnq Hx]%lookup_delete_opt_Some].
  destruct (g_handle _ _ G _ _ Hx) as [Ho Hr]. split; [done|]. destruct (hn_read x) as [[]|]; try done.
  - destruct Hr as (c0 & Hc' & ? & ? & ?). destruct (detach_channel _ _ Hc') as (x' & Hx' & ? & ? & _).
    exists x'. split_and!; congruence.
  - destruct Hr as (? & s0 & Hs' & ?). split; [done|]. exists s0. split; [|done]. cbn.
    apply lookup_delete_Some. split; [|done]. intros <-. congruence.
  - destruct Hr as (? & q0 & Hq' & ?). split; [done|]. exists q0. split; [|done]. cbn.
    apply lookup_delete_Some. split; [|done]. intros <-. congruence.
Qed.

Lemma graph_detach : graph n l'.
Proof.
  destruct G as [Hh Hc He Hs Hsd Hsu Hpd Hpu Hl Hn (B1 & B2 & B3 & B4)]. constructor.
  - apply detach_owner.
  - intros i x Hx. assert (∃ y, l_channels l !! i = Some y ∧ cn_handle y = cn_handle x) as (y & Hy & <-).
    { cbn in Hx. apply lookup_insert_Some in Hx as [[<- <-]|[_ Hx]]; eauto. }
    destruct (Hc _ _ Hy) as (z & ? & ?). exists z. split; [|done]. by eapply detach_handle.
  - intros i x Hx. cbn in Hx. apply lookup_delete_Some in Hx as [Hne Hx]. destruct (He _ _ Hx) as (z & ? & ?).
    exists z. split; [|done]. eapply detach_handle; [done|done|congruence|done].
  - intros i x h Hx Hh'. cbn in Hx. apply lookup_delete_Some in Hx as [Hne Hx]. destruct (Hs _ _ _ Hx Hh') as (z & ? & ?).
    exists z. split; [|done]. eapply detach_handle; [done|done|done|congruence].
  - intros i x e' Hx Hxe. cbn in Hx. apply lookup_insert_Some in Hx as [[<- <-]|[Hne Hx]]; [done|].
    destruct (Hsd _ _ _ Hx Hxe) as (s0 & Hs0 & ?). exists s0. split; [|done]. cbn. apply lookup_delete_Some. split; [|done].
    intros <-. destruct (Hsd _ _ _ Hch Hso) as (s1 & Hs1 & ?). congruence.
  - intros e' s0 Hx. cbn in Hx. apply lookup_delete_Some in Hx as [Hne Hx]. destruct (Hsu _ _ Hx) as (i & x & ? & ? & ?).
    exists i, x. split_and!; [done| |done]. cbn. rewrite lookup_insert_ne; [done|]. intros <-. congruence.
  - intros e' s0 Hx. cbn in Hx. apply lookup_delete_Some in Hx as [Hne Hx]. destruct (Hpd _ _ Hx) as (p & q0 & ? & ? & ?).
    exists p, q0. split_and!; [done| |done]. cbn. apply lookup_delete_Some. split; [|done]. intros <-.
    destruct (Hpd _ _ Hep) as (p1 & q1 & ? & ? & ?). congruence.
  - intros p q0 Hx. cbn in Hx. apply lookup_delete_Some in Hx as [Hne Hx]. destruct (Hpu _ _ Hx) as (e' & s0 & ? & ? & ?).
    exists e', s0. split_and!; [done| |done]. cbn. apply lookup_delete_Some. split; [|done]. intros <-. congruence.
  - intros i. cbn. rewrite Hl, lookup_insert_is_Some. destruct (decide (ch = i)) as [<-|]; [|naive_solver].
    split; [by left|done].
  - done.
  - cbn. split_and!; [apply below_delete; destruct (sn_handle q); [by apply below_delete|done]| |by apply below_delete..].
    eapply below_insert; [done|lia|]. apply B2. eauto.
Qed.
End detach.

Section steps.
Context {E : Type} `{Kernel E} `{Codec}.
Implicit Types d : Daemon E.

Definition ok_graph d : Prop := graph (next_id d) (links d).

(** ** Destructors *)

Lemma IoHandle_delete_links c d u d' : IoHandle_delete c d = Ok (u, d') →
  links d' = mkLinks (delete c (l_handles (links d))) (l_channels (links d)) (l_endpoints (links d))
               (l_sessions (links d)) (l_listed (links d)) (l_hub (links d)) ∧ next_id d' = next_id d.
Proof.
  destruct (handles d !! c) as [h|] eqn:Hc.
  - rewrite (delete_eq c h d Hc). intros [= <- <-]. unfold links, detached. cbn. rewrite fmap_delete.
    destruct (io_owner h); [|done]. by destruct (decide (c ∈ loop_channels d)).
  - unfold IoHandle_delete, the_handle, read_cell, mbind, M_bind. by rewrite Hc.
Qed.

Lemma links_del_pcb p d : links (set_sessions (delete p (sessions d)) d) =
  mkLinks (l_handles (links d)) (l_channels (links d)) (l_endpoints (links d)) (delete p (l_sessions (links d)))
    (l_listed (links d)) (l_hub (links d)).
Proof. unfold links. cbn. by rewrite fmap_delete. Qed.
Lemma links_del_endpoint e d : links (set_endpoints (delete e (endpoints d)) d) =
  mkLinks (l_handles (links d)) (l_channels (links d)) (delete e (l_endpoints (links d))) (l_sessions (links d))
    (l_listed (links d)) (l_hub (links d)).
Proof. unfold links. cbn. by rewrite fmap_delete. Qed.

Lemma Session_delete_links p q d u d' : sessions d !! p = Some q → Session_delete p d = Ok (u, d') →
  links d' = mkLinks (delete_opt (sn_handle (node_session q)) (l_handles (links d))) (l_channels (links d))
               (l_endpoints (links d)) (delete p (l_sessions (links d))) (l_listed (links d)) (l_hub (links d)) ∧
  next_id d' = next_id d.
Proof.
  intros Hq. unfold Session_delete. mstep (read_cell_ok sessions p q d Hq). intros Hr.
  apply M_bind_inv in Hr as (v & d1 & H1 & Hr). injection Hr as <- <-.
  destruct (p_tcb q) as [t|] eqn:Ht; unfold node_session; rewrite Ht; cbn [fmap option_fmap option_map sn_handle delete_opt].
  - apply IoHandle_delete_links in H1 as [Hl Hn]. split; [|exact Hn]. by rewrite links_del_pcb, Hl.
  - injection H1 as <- <-. split; [|done]. apply links_del_pcb.
Qed.

Lemma Endpoint_delete_links e s p q d u d' : endpoints d !! e = Some s → ep_pcb s = Some p → sessions d !! p = Some q →
  Endpoint_delete e d = Ok (u, d') →
  links d' = mkLinks (delete (ep_sChannel s) (delete_opt (sn_handle (node_session q)) (l_handles (links d))))
               (l_channels (links d)) (delete e (l_endpoints (links d))) (delete p (l_sessions (links d)))
               (l_listed (links d)) (l_hub (links d)) ∧ next_id d' = next_id d.
Proof.
  intros Hs Hp Hq. unfold Endpoint_delete. mstep (read_cell_ok endpoints e s d Hs). rewrite Hp. intros Hr.
  apply M_bind_inv in Hr as (v & d1 & H1 & Hr). apply M_bind_inv in Hr as (w & d2 & H2 & Hr). injection Hr as <- <-.
  apply (Session_delete_links p q) in H1 as [Hl1 Hn1]; [|done]. apply IoHandle_delete_links in H2 as [Hl2 Hn2].
  split; [|cbn; congruence]. by rewrite links_del_endpoint, Hl2, Hl1.
Qed.

(** ** A socket request *)

(** The links set before the channel's: endpoint, session and channel. *)
Lemma socket_setters {A} (K : D E A) so pcb ch ep p d : endpoints d !! so = Some ep → sessions d !! pcb = Some p →
  (_ ← upd_pcb pcb (λ p, set_p_base (Session_setSocket (Some so) (p_base p)) p);
   _ ← Endpoint_setSession pcb so; _ ← Endpoint_setAgentChannel ch so; K) d =
  K (set_endpoints (<[so := set_ep_rrChannel (Some ch) (set_ep_pcb (Some pcb) ep)]> (endpoints d))
       (set_sessions (<[pcb := set_p_base (Session_setSocket (Some so) (p_base p)) p]> (sessions d)) d)).
Proof.
  intros Hep Hp. unfold upd_pcb, Endpoint_setSession, Endpoint_setAgentChannel.
  erewrite M_bind_ok. 2: { mstep (read_cell_ok sessions pcb p d Hp). reflexivity. }
  set (d1 := set_sessions _ d).
  mstep (upd_endpoint_ok so (set_ep_pcb (Some pcb)) ep d1 Hep).
  erewrite M_bind_ok by apply upd_endpoint_ok, lookup_insert_eq. unfold with_endpoint. cbn. by rewrite insert_insert_eq.
Qed.

(** The new objects, before the channel knows them: an endpoint [so] with handle
    [he] and a session [pcb], with the handle [ht] for TCP. *)
Record socket_made (ch so pcb he : nat) (ht : option nat) (fe ft : Z) d d3 : Prop := {
  sm_links : ∀ c, attach ch so pcb he ht fe ft c (links d) =
    mkLinks (l_handles (links d3)) (<[ch := with_socket (Some so) c]> (l_channels (links d))) (l_endpoints (links d3))
      (l_sessions (links d3)) (l_listed (links d3)) (l_hub (links d3));
  sm_channels : channels d3 = channels d;
  sm_endpoints : ∃ ep, endpoints d3 = <[so := ep]> (endpoints d) ∧ recvQ ep = [];
  sm_sessions : ∃ p, sessions d3 = <[pcb := p]> (sessions d);
  sm_so : (next_id d ≤ so < next_id d3)%nat;
  sm_pcb : (next_id d ≤ pcb < next_id d3)%nat;
  sm_he : (next_id d ≤ he < next_id d3)%nat;
  sm_ht : ∀ h, ht = Some h → (next_id d ≤ h < next_id d3)%nat ∧ h ≠ he;
  sm_frames : frames d3 = frames d ∧ rxQ d3 = rxQ d ∧ defragCtxList d3 = defragCtxList d
}.
Lemma socket_objects ch type (K : nat * nat → D E Response) d :
  ∃ so pcb he ht fe ft d3, socket_made ch so pcb he ht fe ft d d3 ∧
  ('(so, pcb) ← (if has_bits type SOCK_STREAM then
                   so ← Endpoint_new EP_TCP (has_bits type SOCK_NONBLOCK); pcb ← Tcp_newSession; mret (so, pcb)
                 else so ← Endpoint_new EP_UDP (has_bits type SOCK_NONBLOCK); pcb ← Udp_newSession; mret (so, pcb));
   _ ← upd_pcb pcb (λ p, set_p_base (Session_setSocket (Some so) (p_base p)) p);
   _ ← Endpoint_setSession pcb so; _ ← Endpoint_setAgentChannel ch so; K (so, pcb)) d = K (so, pcb) d3.
Proof.
  destruct (has_bits type SOCK_STREAM).
  - destruct (Endpoint_new_ok EP_TCP (has_bits type SOCK_NONBLOCK) d) as (pipe & e & He). set (d1 := set_endpoints _ _) in He.
    destruct (Tcp_newSession_ok d1) as (pipe2 & e2 & Hs). set (d2 := set_tcp_pcbs _ _) in Hs.
    eexists (S (next_id d)), (S (next_id d1)), (next_id d), (Some (next_id d1)), pipe.1, pipe2.1, _. split.
    2: { erewrite M_bind_ok by (mstep He; mstep Hs; reflexivity). cbv beta iota.
         apply (socket_setters _ (S (next_id d)) (S (next_id d1)) ch _ _ d2 (lookup_insert_eq _ _ _) (lookup_insert_eq _ _ _)). }
    constructor; [|reflexivity|..|by split_and!]; try (cbn; lia).
    + intros c. unfold attach, links. cbn. by rewrite !insert_insert_eq, !fmap_insert.
    + eexists. cbn. by rewrite insert_insert_eq.
    + eexists. cbn. apply insert_insert_eq.
    + intros h [= <-]. cbn. lia.
  - destruct (Endpoint_new_ok EP_UDP (has_bits type SOCK_NONBLOCK) d) as (pipe & e & He). set (d1 := set_endpoints _ _) in He.
    pose proof (Udp_newSession_ok d1) as Hs. set (d2 := set_udp_pcbs _ _) in Hs.
    eexists (S (next_id d)), (next_id d1), (next_id d), None, pipe.1, 0, _. split.
    2: { erewrite M_bind_ok by (mstep He; mstep Hs; reflexivity). cbv beta iota.
         apply (socket_setters _ (S (next_id d)) (next_id d1) ch _ _ d2 (lookup_insert_eq _ _ _) (lookup_insert_eq _ _ _)). }
    constructor; [|reflexivity|..|by split_and!]; try (cbn; lia); [..|done].
    + intros c. unfold attach, links. cbn. by rewrite !insert_insert_eq, !fmap_insert.
    + eexists. cbn. by rewrite insert_insert_eq.
    + eexists. cbn. apply insert_insert_eq.
Qed.

(** The end of the request: only the channel's pointer changes the graph. *)
Definition socket_finish (ch so pcb : nat) : D E Response :=
  s ← the_endpoint so; _ ← register (ep_sChannel s); p ← the_pcb pcb;
  _ ← match p_tcb p with Some t => register (t_sChannel t) | None => mret tt end;
  mret (mkResponse (Some RC_OK) (Some (RetSocket (mkRet 0 None)))).
Lemma neutral_socket_finish ch so pcb : neutral (socket_finish ch so pcb).
Proof. pose proof neutral_register. unfold socket_finish. neutral. Qed.

Lemma links_put_channel ch c d : links (set_channels (<[ch := c]> (channels d)) d) =
  mkLinks (l_handles (links d)) (<[ch := node_channel c]> (l_channels (links d))) (l_endpoints (links d))
    (l_sessions (links d)) (l_listed (links d)) (l_hub (links d)).
Proof. unfold links. cbn. by rewrite fmap_insert. Qed.

(** Lookups in the graph of a state. *)
Lemma lookup_node {A B} (f : A → B) (m : gmap nat A) i b : (f <$> m) !! i = Some b → ∃ a, m !! i = Some a ∧ b = f a.
Proof. rewrite lookup_fmap_Some. naive_solver. Qed.
Lemma lookup_node_some {A B} (f : A → B) (m : gmap nat A) i a : m !! i = Some a → (f <$> m) !! i = Some (f a).
Proof. intros Hi. by rewrite lookup_fmap, Hi. Qed.

Lemma delete_insert_opt {A} i (o : option nat) (a : A) m : o ≠ Some i → delete i (insert_opt o a m) = insert_opt o a (delete i m).
Proof. intros Ho. destruct o as [j|]; [|done]. cbn. apply delete_insert_ne. congruence. Qed.

(** Replacing the endpoint of a channel is detaching the old one and attaching
    the new one. *)
Lemma attach_replaced n ch so pcb he ht fe ft c e s p q (l : Links) :
  graph n l → l_channels l !! ch = Some c → l_endpoints l !! e = Some s → en_session s = Some p → l_sessions l !! p = Some q →
  (n ≤ so)%nat → (n ≤ pcb)%nat → (n ≤ he)%nat → (∀ h, ht = Some h → (n ≤ h)%nat) →
  let l1 := attach ch so pcb he ht fe ft c l in
  mkLinks (delete (en_handle s) (delete_opt (sn_handle q) (l_handles l1))) (l_channels l1) (delete e (l_endpoints l1))
    (delete p (l_sessions l1)) (l_listed l1) (l_hub l1) =
  attach ch so pcb he ht fe ft (with_socket None c) (detach ch e p (en_handle s) (sn_handle q) c l).
Proof.
  intros G Hc Hs Hp Hq Hso Hpcb Hhe Hht l1. destruct (g_below _ _ G) as (B1 & B2 & B3 & B4).
  assert (∀ i, is_Some (l_handles l !! i) → he ≠ i ∧ ht ≠ Some i) as N1.
  { intros i Hi. specialize (B1 i Hi). split; [lia|]. intros Hti. specialize (Hht i Hti). lia. }
  destruct (g_endpoint _ _ G _ _ Hs) as (x & Hx & _). destruct (N1 _ (mk_is_Some _ _ Hx)).
  pose proof (B3 e (mk_is_Some _ _ Hs)). pose proof (B4 p (mk_is_Some _ _ Hq)).
  unfold l1, attach, detach. cbn. f_equal.
  - destruct (sn_handle q) as [hq|] eqn:Hhq; cbn.
    + destruct (g_session _ _ G _ _ _ Hq Hhq) as (y & Hy & _). destruct (N1 _ (mk_is_Some _ _ Hy)).
      by rewrite delete_insert_opt, delete_insert_ne, delete_insert_opt, delete_insert_ne by done.
    + by rewrite delete_insert_opt, delete_insert_ne by done.
  - by rewrite insert_insert_eq.
  - apply delete_insert_ne. lia.
  - apply delete_insert_ne. lia.
Qed.

Lemma assert_inv b u d d' : assert_ b d = Ok (u, d') → b = true ∧ d' = d.
Proof. destruct b; [|done]. by intros [= _ <-]. Qed.

(** A channel's descriptor and handle, which never change. *)
Definition keeps_channel ch d d' : Prop := ∀ c, channels d !! ch = Some c →
  ∃ c', channels d' !! ch = Some c' ∧ ch_fd c' = ch_fd c ∧ ch_sChannel c' = ch_sChannel c.
Lemma keeps_channel_node ch v c d d' : channels d !! ch = Some c →
  l_channels (links d') !! ch = Some (with_socket v (node_channel c)) → keeps_channel ch d d'.
Proof.
  intros Hc Hn c0 Hc0. simplify_eq. destruct (lookup_node _ _ _ _ Hn) as (c' & Hc' & Heq). injection Heq. eauto.
Qed.
Lemma keeps_channel_same ch d d' : same_links d d' → keeps_channel ch d d'.
Proof.
  intros [Hl _] c Hc. eapply (keeps_channel_node ch (ch_socket c) c d); [done| |done].
  rewrite Hl. by apply (lookup_node_some node_channel).
Qed.

(** The channel is given the endpoint; the one it had is destroyed. *)
Lemma put_socket_links ch so pcb he ht fe ft c d d3 : socket_made ch so pcb he ht fe ft d d3 → channels d !! ch = Some c →
  links (set_channels (<[ch := set_ch_socket (Some so) c]> (channels d3)) d3) = attach ch so pcb he ht fe ft (node_channel c) (links d).
Proof.
  intros S Hc. rewrite links_put_channel, (sm_links _ _ _ _ _ _ _ _ _ S). f_equal. cbn. by rewrite (sm_channels _ _ _ _ _ _ _ _ _ S).
Qed.
Lemma setSocket_graph ch so pcb he ht fe ft c u d d3 d4 : ok_graph d → channels d !! ch = Some c →
  socket_made ch so pcb he ht fe ft d d3 → AgentChannel_setSocket so ch d3 = Ok (u, d4) →
  ok_graph d4 ∧ l_channels (links d4) !! ch = Some (with_socket (Some so) (node_channel c)) ∧
  l_endpoints (links d4) !! so = Some (mkEnode he (Some ch) (Some pcb)).
Proof.
  intros G Hc S H4. pose proof (put_socket_links _ _ _ _ _ _ _ _ _ _ S Hc) as Hl.
  pose proof (lookup_node_some node_channel _ _ _ Hc) as Hcn.
  destruct S as [_ Hch (ep & Hep & _) (p & Hse) Hso Hpcb Hhe Hht _].
  unfold AgentChannel_setSocket in H4. rewrite <-Hch in Hc. rewrite (M_bind_ok _ _ _ _ _ (read_cell_ok channels ch c d3 Hc)) in H4.
  rewrite (M_bind_ok (put_channel _ _) _ d3 tt (set_channels (<[ch := set_ch_socket (Some so) c]> (channels d3)) d3)) in H4 by done.
  destruct (ch_socket c) as [e|] eqn:Hold.
  2: { injection H4 as _ <-. unfold ok_graph. rewrite Hl. split_and!; [by eapply graph_attach|apply lookup_insert_eq..]. }
  destruct (g_socket_down _ _ G ch _ e Hcn Hold) as (s & Hs & _).
  destruct (g_pcb_down _ _ G e s Hs) as (pq & q & Hpq & Hq & _). destruct (g_below _ _ G) as (_ & _ & B3 & B4).
  pose proof (B3 e (mk_is_Some _ _ Hs)). pose proof (B4 pq (mk_is_Some _ _ Hq)).
  destruct (lookup_node _ _ _ _ Hs) as (s' & Hs' & ->). destruct (lookup_node _ _ _ _ Hq) as (q' & Hq' & ->).
  apply (Endpoint_delete_links e s' pq q') in H4 as [Hl4 Hn4];
    [|cbn; rewrite Hep, lookup_insert_ne; [done|lia]|done|cbn; rewrite Hse, lookup_insert_ne; [done|lia]].
  unfold ok_graph. rewrite Hl4, Hn4, Hl.
  change (ep_sChannel s') with (en_handle (node_endpoint s')).
  rewrite (attach_replaced (next_id d) ch so pcb he ht fe ft (node_channel c) e (node_endpoint s') pq (node_session q') (links d));
    try done; try lia; [|intros h Hh; apply Hht in Hh; lia].
  split_and!; [|apply lookup_insert_eq..]. eapply graph_attach; [by apply graph_detach|apply lookup_insert_eq|done|done..].
Qed.

Lemma socketCall_graph ch dom type r d d' : ok_graph d → is_Some (channels d !! ch) →
  socketCall ch dom type d = Ok (r, d') → ok_graph d' ∧ keeps_channel ch d d'.
Proof.
  intros G [c Hc]. unfold socketCall. intros Hr. apply M_bind_inv in Hr as (u1 & d1 & H1 & Hr).
  apply M_bind_inv in Hr as (u2 & d2 & H2 & Hr). assert (d2 = d) as ->.
  { by apply assert_inv in H1 as [_ ->], H2 as [_ ->]. }
  destruct (socket_objects ch type (λ '(so, pcb), _ ← AgentChannel_setSocket so ch; socket_finish ch so pcb) d)
    as (so & pcb & he & ht & fe & ft & d3 & S & Hd3). apply (eq_trans (eq_sym Hd3)) in Hr. clear Hd3.
  apply M_bind_inv in Hr as (u4 & d4 & H4 & Hr). apply neutral_socket_finish in Hr as Hsame.
  destruct (setSocket_graph _ _ _ _ _ _ _ _ _ _ _ _ G Hc S H4) as (G4 & Hl4 & _).
  split; [by eapply graph_same|]. eapply keeps_channel_node; [exact Hc|]. destruct Hsame as [-> _]. exact Hl4.
Qed.

(** ** The other requests *)

Lemma neutral_drain k : neutral (drain k : D E _).
Proof.
  unfold drain. apply neutral_bind; [apply neutral_gets|]. intros n.
  generalize (@nil Z) as out. generalize (Some k) as h. induction n as [|n IH]; intros [i|] out; cbn [drain_skbuf_chain]; neutral.
Qed.
Hint Resolve neutral_drain neutral_channel_socket neutral_endpoint_pcb neutral_try_take neutral_write neutral_unregister
  neutral_connEstab neutral_drain_pipe neutral_Ip_tx neutral_UdpSession_send neutral_UdpSession_send_to neutral_TcpSession_send
  neutral_TcpSession_connect neutral_setOnConnEstab neutral_fireConnEstab neutral_the_tcb neutral_udp_base neutral_tcp_base
  base_socket_connect base_socket_send_to : neutral.

Lemma neutral_handleRequest ch req : (∀ dom ty pr, calling req ≠ Some (CallSocket dom ty pr)) → neutral (handleRequest ch req : D E _).
Proof.
  intros Hreq. unfold handleRequest, connectCall, closeCall, sendtoCall, recvfromCall, getpeernameCall, getsocknameCall,
    getsockoptCall, pollCall, selectCall, setsockoptCall, fcntlCall, atstartAction, AgentChannel_setPeerName, AgentChannel_setPeerPid,
    Session_connect_v, Session_setOnConnEstabCB_v, Session_send_v, Session_send_to_v,
    Endpoint_setOnAsyncNewPacketCB, Endpoint_setWaiting.
  destruct (calling req) as [[]|]; try (by exfalso; eapply Hreq); neutral.
Qed.

Lemma handleRequest_graph ch req r d d' : ok_graph d → is_Some (channels d !! ch) →
  handleRequest ch req d = Ok (r, d') → ok_graph d' ∧ keeps_channel ch d d'.
Proof.
  intros G Hc Hr. assert (same_links d d' → ok_graph d' ∧ keeps_channel ch d d') as Hn
    by (intros Hs; split; [by eapply graph_same|by apply keeps_channel_same]).
  destruct (calling req) as [c|] eqn:Hcall; [destruct c|]; try (apply Hn; eapply neutral_handleRequest; [|exact Hr]; intros; congruence).
  unfold handleRequest in Hr. rewrite Hcall in Hr. by eapply socketCall_graph.
Qed.

(** ** Callbacks *)

(** The descriptor is made non-blocking. *)
Definition nonblocking_env (fd : Z) (e : E) : E := k_setfl fd (Z.lor (k_getfl fd e).1 O_NONBLOCK) (k_getfl fd e).2.
Definition channel_handle (fd : Z) (ch : nat) : IoHandle :=
  mkIoHandle fd readEvent noneEvent false false (Some (CbChannelReadReady ch)) None (Some (CbChannelPeerClose ch)) None.

Lemma AgentChannel_new_ok fd d : AgentChannel_new fd d = Ok (S (next_id d),
  set_channels (<[S (next_id d) := mkChannel fd (next_id d) [] None None]> (channels d))
  (set_handles (<[next_id d := channel_handle fd (S (next_id d))]> (handles d))
  (set_next_id (S (S (next_id d))) (set_env (nonblocking_env fd (env d)) d)))).
Proof.
  unfold AgentChannel_new, IoHandle_new, IoHandle_setOnReadCB, IoHandle_setOnCloseCB.
  erewrite M_bind_ok; [|rewrite kcall_any; reflexivity].
  unfold IoHandle_enableReading, change_interest. erewrite M_bind_ok.
  2: { erewrite M_bind_ok; [|apply upd_handle_ok, lookup_insert_eq].
       erewrite M_bind_ok; [|apply read_cell_ok, lookup_insert_eq]. reflexivity. }
  erewrite M_bind_ok; [|reflexivity]. erewrite M_bind_ok; [|apply upd_handle_ok, lookup_insert_eq].
  erewrite M_bind_ok; [|apply upd_handle_ok, lookup_insert_eq]. cbn. by rewrite !insert_insert_eq.
Qed.

Lemma onNewConnection_graph fd u d d' : ok_graph d → Arbiter_onNewConnection fd d = Ok (u, d') → ok_graph d'.
Proof.
  intros G Hr. unfold Arbiter_onNewConnection in Hr. 
  rewrite (M_bind_ok _ _ _ _ _ (AgentChannel_new_ok fd d)) in Hr. apply M_bind_inv in Hr as ([] & d1 & H1 & Hr). injection H1 as <-.
  eapply graph_same; [eapply neutral_bind; [apply neutral_the_channel|intros; apply neutral_register|exact Hr]|].
  replace (next_id _) with (S (Nat.max (S (next_id d)) (next_id d))) by (cbn; lia).
  eapply (graph_connected _ _ _ fd) in G; [|apply Nat.le_succ_diag_r|done]. unfold connected_links in G. cbn in G.
  unfold links. cbn. rewrite !fmap_insert. exact G.
Qed.
Lemma accept_loop_graph n fd u d d' : ok_graph d → accept_loop n fd d = Ok (u, d') → ok_graph d'.
Proof.
  revert d. induction n as [|n IH]; intros d G Hr; cbn [accept_loop] in Hr; apply M_bind_inv in Hr as ([conn x] & d1 & H1 & Hr);
    (assert (ok_graph d1) as G1 by (eapply graph_same; [by eapply neutral_kcall|done]));
    (destruct (conn =? -1); [by injection Hr as _ <-|]); apply M_bind_inv in Hr as (v & d2 & H2 & Hr); [done|].
  eapply IH; [|exact Hr]. by eapply onNewConnection_graph.
Qed.

Lemma release_graph ch u d d' : ok_graph d → release_channel ch d = Ok (u, d') → d' = d.
Proof.
  intros G. unfold release_channel. rewrite (M_bind_ok (gets rrChannels) _ d (rrChannels d) d) by done.
  destruct (decide (ch ∈ rrChannels d)) as [Hin|Hin]; [by intros [= _ <-]|]. unfold AgentChannel_delete. intros Hr.
  apply M_bind_inv in Hr as (c & d1 & H1 & _). unfold the_channel, read_cell in H1.
  destruct (channels d !! ch) as [c'|] eqn:Hc; [|done]. exfalso. apply Hin. apply (g_listed _ _ G). cbn. rewrite lookup_fmap, Hc. done.
Qed.
Lemma removed_gone ch c u d d' : channels d !! ch = Some c →
  (_ ← Arbiter_removeRRChannel ch; release_channel ch) d = Ok (u, d') → handles d' !! ch_sChannel c = None.
Proof.
  intros Hc Hr. apply M_bind_inv in Hr as ([] & d1 & H1 & Hr). injection H1 as <-. unfold release_channel in Hr.
  rewrite (M_bind_ok (gets rrChannels) _ _ _ _ eq_refl) in Hr. rewrite decide_False in Hr.
  - destruct u. eapply channel_delete_gone; [|exact Hr]. exact Hc.
  - cbn. intros Hin. by apply list_elem_of_filter in Hin as [[] _].
Qed.

(** With the graph intact the destructors of a channel and of what it owns run
    to completion. *)
Lemma IoHandle_delete_ok c d : is_Some (handles d !! c) → ∃ d', IoHandle_delete c d = Ok (tt, d') ∧
  handles d' = delete c (handles d) ∧ sessions d' = sessions d ∧ endpoints d' = endpoints d ∧ channels d' = channels d.
Proof.
  intros [h Hc]. rewrite (delete_eq c h d Hc). destruct (detached_rest c h d) as (? & ? & ? & ? & ? & ?). eexists. by split_and!.
Qed.

(** A graph but for the arbiter's list. *)
Definition relist (l : list nat) (L : Links) : Links :=
  mkLinks (l_handles L) (l_channels L) (l_endpoints L) (l_sessions L) l (l_hub L).

Lemma Session_delete_ok n l e s p q d : graph n (relist l (links d)) → endpoints d !! e = Some s → ep_pcb s = Some p →
  sessions d !! p = Some q →
  ∃ d', Session_delete p d = Ok (tt, d') ∧
    ∀ i x, handles d !! i = Some x → io_onRead x ≠ Some (CbSessionEstab p) → handles d' !! i = Some x.
Proof.
  intros G He Hp Hq. unfold Session_delete. mstep (read_cell_ok sessions p q d Hq).
  destruct (p_tcb q) as [t|] eqn:Ht; [|by eexists]. pose proof (lookup_node_some node_session _ _ _ Hq) as Hn.
  assert (sn_handle (node_session q) = Some (t_sChannel t)) as Hst by (cbn; by rewrite Ht).
  destruct (g_session _ _ G _ _ _ Hn Hst) as (y & Hy & Hyr). destruct (lookup_node _ _ _ _ Hy) as (y' & Hy' & ->).
  destruct (IoHandle_delete_ok _ _ (mk_is_Some _ _ Hy')) as (d1 & Hd1 & Hdh & _). mstep Hd1.
  eexists. split; [reflexivity|]. intros i z Hz Hzr. cbn. rewrite Hdh, lookup_delete_ne; [done|].
  intros <-. cbn in Hyr. congruence.
Qed.

Lemma Endpoint_delete_ok n l e s d : graph n (relist l (links d)) → endpoints d !! e = Some s →
  ∃ d', Endpoint_delete e d = Ok (tt, d') ∧
    ∀ i x ch, handles d !! i = Some x → io_onRead x = Some (CbChannelReadReady ch) → handles d' !! i = Some x.
Proof.
  intros G He. pose proof (lookup_node_some node_endpoint _ _ _ He) as Hn.
  destruct (g_pcb_down _ _ G _ _ Hn) as (p & q & Hp & Hq & _). destruct (lookup_node _ _ _ _ Hq) as (q' & Hq' & ->).
  destruct (g_endpoint _ _ G _ _ Hn) as (x & Hx & Hxr). destruct (lookup_node _ _ _ _ Hx) as (x' & Hx' & ->). cbn in Hx', Hxr.
  destruct (Session_delete_ok n l e s p q' d G He Hp Hq') as (d1 & H1 & Hk1).
  unfold Endpoint_delete. mstep (read_cell_ok endpoints e s d He). cbn in Hp. rewrite Hp. mstep H1.
  assert (handles d1 !! ep_sChannel s = Some x') as Hx1 by (apply Hk1; [done|congruence]).
  destruct (IoHandle_delete_ok _ _ (mk_is_Some _ _ Hx1)) as (d2 & Hd2 & Hdh & _). mstep Hd2.
  eexists. split; [reflexivity|]. intros i y ch Hy Hyr. cbn. rewrite Hdh, lookup_delete_ne; [apply Hk1; [done|congruence]|].
  intros <-. congruence.
Qed.

Lemma AgentChannel_delete_ok ch c d l : ok_graph d → channels d !! ch = Some c →
  ∃ d', AgentChannel_delete ch (set_rrChannels l d) = Ok (tt, d').
Proof.
  intros G Hc. pose proof (lookup_node_some node_channel _ _ _ Hc) as Hn.
  destruct (g_channel _ _ G _ _ Hn) as (x & Hx & Hxr). destruct (lookup_node _ _ _ _ Hx) as (x' & Hx' & ->). cbn in Hx', Hxr.
  unfold AgentChannel_delete. set (d0 := set_rrChannels l d). mstep (read_cell_ok channels ch c d0 Hc).
  pose proof (unregister_eq (ch_sChannel c) x' d0 Hx') as Hu. mstep Hu. rewrite (M_bind_ok _ _ _ tt _ eq_refl). set (d1 := set_env _ _).
  destruct (neutral_unregister _ _ _ _ Hu) as [Hl _].
  assert (graph (next_id d) (relist (rrChannels d) (links d1))) as G1.
  { change (links d1) with (links (set_handles (<[ch_sChannel c := set_io_owner false x']> (handles d0)) (detached (ch_sChannel c) x' d0))).
    rewrite Hl. exact G. }
  assert (handles d1 !! ch_sChannel c = Some (set_io_owner false x')) as Hx1 by apply lookup_insert_eq.
  destruct (ch_socket c) as [e|] eqn:Hs.
  - destruct (g_socket_down _ _ G _ _ e Hn Hs) as (s & He & _).
    assert (l_endpoints (relist (rrChannels d) (links d1)) !! e = Some s) as He1 by (cbn; unfold links in Hl; injection Hl as _ _ -> _ _ _; exact He).
    destruct (lookup_node _ _ _ _ He1) as (s' & Hs' & _). destruct (Endpoint_delete_ok _ _ e s' d1 G1 Hs') as (d2 & H2 & Hk). mstep H2.
    specialize (Hk _ _ _ Hx1 Hxr). destruct (IoHandle_delete_ok _ _ (mk_is_Some _ _ Hk)) as (d3 & Hd3 & _). mstep Hd3. by eexists.
  - rewrite (M_bind_ok _ _ _ tt _ eq_refl).
    destruct (IoHandle_delete_ok _ _ (mk_is_Some _ _ Hx1)) as (d3 & Hd3 & _). mstep Hd3. by eexists.
Qed.

(** The channel of a callback is the one whose handle fires. *)
Lemma channel_of_handle i x ch d : ok_graph d → handles d !! i = Some x →
  io_onRead x = Some (CbChannelReadReady ch) ∨ io_onClose x = Some (CbChannelPeerClose ch) →
  ∃ c, channels d !! ch = Some c ∧ ch_sChannel c = i.
Proof.
  intros G Hi Hcb. destruct (g_handle _ _ G i (node_handle x)) as [_ Ho]; [by apply lookup_node_some|].
  assert (hn_read (node_handle x) = Some (CbChannelReadReady ch)) as Hr.
  { destruct Hcb as [Hcb|Hcb]; [done|]. cbn in *. destruct (io_onRead x) as [[]|]; try done; naive_solver. }
  rewrite Hr in Ho. destruct Ho as (c & Hc & Hh & _). destruct (lookup_node _ _ _ _ Hc) as (c' & Hc' & ->). eauto.
Qed.

Context (indet : list Z) (parse_partial : list Z → Request) (fuel : nat).
Notation run_cb := (run_cb parse_partial fuel).

Lemma neutral_endpoint_cb n i : neutral (Endpoint_sChannelReadCb n i : D E _).
Proof.
  unfold Endpoint_sChannelReadCb, run_packet_cb, onAsyncNewUdpPacket, onAsyncNewTcpPacket, answer_packet, Endpoint_takeFromRecvQ.
  neutral.
Qed.
Lemma neutral_estab_cb p : neutral (TcpSession_onEstabPipe fuel p : D E _).
Proof. unfold TcpSession_onEstabPipe. neutral. Qed.

Lemma onReadReady_graph ch c u d d' : ok_graph d → channels d !! ch = Some c →
  (_ ← AgentChannel_onReadReady parse_partial ch; release_channel ch) d = Ok (u, d') →
  ok_graph d' ∨ handles d' !! ch_sChannel c = None.
Proof.
  intros G Hc Hr. apply M_bind_inv in Hr as (v & d1 & H1 & Hr). unfold AgentChannel_onReadReady in H1.
  rewrite (M_bind_ok _ _ _ _ _ (read_cell_ok channels ch c d Hc)) in H1.
  apply M_bind_inv in H1 as ([[nread rdbuf] errno] & d2 & H2 & H1). rewrite kcall_ok in H2. injection H2 as _ <-.
  set (d2 := set_env _ d) in H1. assert (ok_graph d2) as G2 by (by eapply (graph_same d)).
  destruct ((nread =? -1) && (errno =? EAGAIN)).
  { injection H1 as _ <-. apply release_graph in Hr as ->; eauto. }
  destruct (nread =? 0).
  { right. eapply (removed_gone ch c u d2); [exact Hc|]. unfold mbind, M_bind. rewrite H1. exact Hr. }
  left. apply M_bind_inv in H1 as (resp & d3 & H3 & H1). apply handleRequest_graph in H3 as [H3 _]; [|done|by exists c].
  assert (ok_graph d1) as G1 by (eapply graph_same; [by eapply neutral_write|done]).
  by apply release_graph in Hr as ->.
Qed.

Lemma run_cb_graph i x cb u d d' : ok_graph d → handles d !! i = Some x → io_onRead x = Some cb ∨ io_onClose x = Some cb →
  run_cb cb d = Ok (u, d') → ok_graph d' ∨ handles d' !! i = None.
Proof.
  intros G Hi Hcb Hr. destruct cb as [|ch|ch|e|p]; cbn [Arbiter.run_cb] in Hr.
  - left. unfold AgentHub_onReadReady in Hr. apply M_bind_inv in Hr as (h & d1 & H1 & Hr). injection H1 as _ <-.
    apply M_bind_inv in Hr as (h' & d1 & H1 & Hr). eapply accept_loop_graph; [|exact Hr].
    eapply graph_same; [by eapply neutral_deref|done].
  - destruct (channel_of_handle i x ch d G Hi) as (c & Hc & <-).
    { destruct Hcb as [Hcb|Hcb]; [by left|]. destruct (g_handle _ _ G i (node_handle x)) as [_ Ho]; [by apply lookup_node_some|].
      cbn in Ho. rewrite Hcb in Ho. destruct (io_onRead x) as [[]|]; naive_solver. }
    by eapply onReadReady_graph.
  - right. destruct (channel_of_handle i x ch d G Hi) as (c & Hc & <-); [|by eapply removed_gone].
    destruct Hcb as [Hcb|Hcb]; [|by right]. destruct (g_handle _ _ G i (node_handle x)) as [_ Ho]; [by apply lookup_node_some|].
    cbn in Ho. by rewrite Hcb in Ho.
  - left. eapply graph_same; [|exact G]. by eapply neutral_endpoint_cb.
  - left. eapply graph_same; [|exact G]. by eapply neutral_estab_cb.
Qed.

(** ** A turn of the event loop *)

(** While the events of handle [i] are handled: the graph is intact or the
    handle is gone, and then the next access to it faults. *)
Definition intact (i : nat) d : Prop := ok_graph d ∨ handles d !! i = None.

Lemma fire_graph get i u d d' : (∀ x, get x = io_onRead x ∨ get x = io_onClose x ∨ get x = io_onWrite x ∨ get x = io_onError x) →
  intact i d → fire run_cb get i d = Ok (u, d') → intact i d'.
Proof.
  intros Hget [G|Hno] Hr; [|by rewrite fire_gone in Hr]. unfold fire in Hr.
  apply M_bind_inv in Hr as (x & d1 & H1 & Hr). unfold the_handle, read_cell in H1.
  destruct (handles d !! i) as [x'|] eqn:Hi; [|done]. injection H1 as -> <-.
  destruct (get x) as [cb|] eqn:Hcb; [|injection Hr as _ <-; by left].
  destruct (g_handle _ _ G i (node_handle x)) as [Ho _]; [by apply lookup_node_some|]. injection Ho as Hw He.
  eapply run_cb_graph; [exact G|exact Hi| |exact Hr]. specialize (Hget x).
  destruct Hget as [Hg|[Hg|[Hg|Hg]]]; rewrite Hcb in Hg; [by left|by right|congruence|congruence].
Qed.
Lemma guarded_fire_graph (b : bool) get i u d d' :
  (∀ x, get x = io_onRead x ∨ get x = io_onClose x ∨ get x = io_onWrite x ∨ get x = io_onError x) →
  intact i d → (if b then fire run_cb get i else mret tt) d = Ok (u, d') → intact i d'.
Proof. intros Hg Hi. destruct b; [by apply fire_graph|]. by intros [= _ <-]. Qed.

Lemma handleEvents_graph i u d d' : ok_graph d → IoHandle_handleEventsReceived run_cb i d = Ok (u, d') → ok_graph d'.
Proof.
  intros G Hr. unfold IoHandle_handleEventsReceived in Hr. apply M_bind_inv in Hr as (u1 & d1 & H1 & Hr).
  assert (ok_graph d1) as G1 by (eapply graph_same; [|exact G]; eapply neutral_upd_handle; [|exact H1]; done).
  apply M_bind_inv in Hr as (x & d2 & H2 & Hr).
  assert (intact i d2) as G2 by (left; eapply graph_same; [by eapply neutral_the_handle|done]).
  apply M_bind_inv in Hr as (u3 & d3 & H3 & Hr). apply guarded_fire_graph in H3; [|by eauto|done].
  apply M_bind_inv in Hr as (u4 & d4 & H4 & Hr). apply guarded_fire_graph in H4; [|by eauto|done].
  apply M_bind_inv in Hr as (u5 & d5 & H5 & Hr). apply guarded_fire_graph in H5; [|by eauto|done].
  apply M_bind_inv in Hr as (u6 & d6 & H6 & Hr). apply guarded_fire_graph in H6 as [G6|Hno]; [| |by eauto|done].
  - eapply graph_same; [|exact G6]. eapply neutral_upd_handle; [|exact Hr]. done.
  - by rewrite upd_handle_gone in Hr.
Qed.

Lemma handle_actives_graph cs u d d' : ok_graph d → handle_actives run_cb cs d = Ok (u, d') → ok_graph d'.
Proof.
  revert d. induction cs as [|c cs IH]; intros d G Hr; cbn [handle_actives] in Hr; [by injection Hr as _ <-|].
  apply M_bind_inv in Hr as (v & d1 & H1 & Hr). eapply IH; [|exact Hr]. by eapply handleEvents_graph.
Qed.
Lemma neutral_poll t : neutral (SysPoller_poll t : D E _).
Proof.
  assert (∀ evs, neutral (poll_fds evs : D E _)) by (intros evs; induction evs as [|[]]; cbn [poll_fds]; neutral).
  assert (∀ evs, neutral (poll_deliver evs : D E _)) by (intros evs; induction evs as [|[]]; cbn [poll_deliver]; neutral).
  unfold SysPoller_poll. neutral.
Qed.
Lemma turn_graph u d d' : ok_graph d → EventReactor_turn run_cb d = Ok (u, d') → ok_graph d'.
Proof.
  intros G Hr. unfold EventReactor_turn in Hr. apply M_bind_inv in Hr as (cs & d1 & H1 & Hr).
  assert (ok_graph d1) as G1 by (eapply graph_same; [by eapply neutral_poll|done]).
  apply M_bind_inv in Hr as (v & d2 & H2 & Hr). injection H2 as _ <-. apply M_bind_inv in Hr as (w & d3 & H3 & Hr).
  injection Hr as _ <-. by eapply handle_actives_graph in H3.
Qed.
Lemma dstep_graph d d' : dstep indet parse_partial fuel d d' → ok_graph d → ok_graph d'.
Proof.
  intros [? ? _ Hs|? ? _ Hs|? ? _ Hs] G.
  - eapply graph_same; [by eapply neutral_Interface_turn|done].
  - eapply graph_same; [by eapply neutral_Ip_turn|done].
  - by eapply turn_graph.
Qed.

(** ** Start-up *)

Lemma hub_handle_links fd u d d' :
  (h ← IoHandle_new fd; _ ← IoHandle_setOnReadCB CbHubReadReady h; _ ← IoHandle_enableReading h; modify (set_hub (Some (fd, h)))) d
    = Ok (u, d') →
  links d' = mkLinks (<[next_id d := reader_node fd CbHubReadReady]> (l_handles (links d))) (l_channels (links d))
    (l_endpoints (links d)) (l_sessions (links d)) (l_listed (links d)) (Some (fd, next_id d)) ∧ next_id d' = S (next_id d).
Proof.
  unfold IoHandle_new, IoHandle_setOnReadCB, IoHandle_enableReading, change_interest. intros Hr.
  erewrite M_bind_ok in Hr by (rewrite kcall_any; reflexivity).
  erewrite M_bind_ok in Hr by apply upd_handle_ok, lookup_insert_eq.
  erewrite M_bind_ok in Hr.
  2: { erewrite M_bind_ok; [|apply upd_handle_ok, lookup_insert_eq].
       erewrite M_bind_ok; [|apply read_cell_ok, lookup_insert_eq]. reflexivity. }
  injection Hr as _ <-. split; [|done]. unfold links. cbn. by rewrite !fmap_insert, !insert_insert_eq.
Qed.

Lemma AgentHub_new_links u d d' : AgentHub_new d = Ok (u, d') →
  ∃ fd, links d' = mkLinks (<[next_id d := reader_node fd CbHubReadReady]> (l_handles (links d))) (l_channels (links d))
    (l_endpoints (links d)) (l_sessions (links d)) (l_listed (links d)) (Some (fd, next_id d)) ∧ next_id d' = S (next_id d).
Proof.
  unfold AgentHub_new. intros Hr. apply M_bind_inv in Hr as (u1 & d1 & H1 & Hr). injection H1 as _ <-.
  apply M_bind_inv in Hr as (u2 & d2 & H2 & Hr). injection H2 as _ <-.
  apply M_bind_inv in Hr as (fd & d3 & H3 & Hr). rewrite kcall_ok in H3. injection H3 as <- <-.
  apply M_bind_inv in Hr as (r & d4 & H4 & Hr). rewrite kcall_ok in H4. injection H4 as <- <-.
  destruct (_ =? -1) in Hr; [done|]. eexists. exact (hub_handle_links _ _ _ _ Hr).
Qed.

Lemma neutral_TunIface_init : neutral (TunIface_init : D E _).
Proof. unfold TunIface_init, TunIface_allocateTun, TunIface_setIfUp, TunIface_setIfAddr, ShellOp_run. neutral. Qed.
Lemma neutral_hub_register : neutral (h ← gets hub; h ← deref h; register h.2 : D E _).
Proof. pose proof neutral_register. neutral. Qed.
Lemma init_graph c e u d0 : Veloxd_init (fresh_daemon c e) = Ok (u, d0) → ok_graph d0.
Proof.
  unfold Veloxd_init. rewrite (M_bind_ok _ _ (fresh_daemon c e) c (fresh_daemon c e)) by done.
  destruct (logging_filter (logging_level c)); [|done]. intros Hr.
  apply M_bind_inv in Hr as (u1 & d1 & H1 & Hr). pose proof (neutral_TunIface_init _ _ _ H1) as [Hl1 _].
  apply M_bind_inv in Hr as (u2 & d2 & H2 & Hr). injection H2 as _ <-. unfold Arbiter_init in Hr.
  apply M_bind_inv in Hr as (u3 & d3 & H3 & Hr). apply AgentHub_new_links in H3 as (fd & Hl3 & Hn3).
  eapply graph_same; [exact (neutral_hub_register _ _ _ Hr)|].
  unfold links in Hl3 at 2 3 4 5 6. cbn in Hl3. cbn in Hn3. rewrite Hl3, Hn3.
  change (links d1 = mkLinks ∅ ∅ ∅ ∅ [] None) in Hl1. unfold links in Hl1. injection Hl1 as -> -> -> -> -> _.
  constructor; cbn; try done; try (intros ? ?; by rewrite lookup_empty); try (by constructor).
  - intros h x Hx. apply lookup_insert_Some in Hx as [[<- <-]|[_ Hx]]; [|by rewrite lookup_empty in Hx]. done.
  - intros ch. split; [set_solver|]. rewrite lookup_empty. by intros [].
  - split_and!; [|by intros i [? ?%lookup_empty_Some]..]. intros i Hi. rewrite lookup_insert_is_Some, lookup_empty in Hi.
    destruct Hi as [<-|[_ []]]; [lia|done].
Qed.
End steps.

(** ** Properties *)

(** C2. The ownership graph is intact in every reachable state: from the state
    [Veloxd::init] leaves, through any interleaving of turns of the three
    threads, every pointer between channels, endpoints, sessions and handles
    ends in a live object, every handle's callback leads to the one object that
    owns that handle, every endpoint belongs to exactly one channel and every
    session to exactly one endpoint, and the arbiter lists exactly the live
    channels, once each. *)
Theorem ownership_graph {E} `{Kernel E} `{Codec} indet parse_partial fuel c e (d0 d : Daemon E) :
  Veloxd_init (fresh_daemon c e) = Ok (tt, d0) →
  rtc (dstep indet parse_partial fuel) d0 d → graph (next_id d) (links d).
Proof.
  intros Hi Hr. apply init_graph in Hi. change (ok_graph d). induction Hr as [|d1 d2 d3 Hs _ IH]; [done|].
  by eapply IH, dstep_graph.
Qed.

(** ** A concrete run *)

(** An interceptor connects and asks for a UDP socket. *)
Definition socket_message : list Z := request_pack (Codec := wire_codec) (mkRequest 77 (Some (CallSocket AF_INET SOCK_DGRAM 0))).
Definition one_socket : dscript :=
  mkDScript 10 [(Z.of_nat (length socket_message), socket_message, 0)] [] [40] [(1, [(POLLIN, 0%nat)]); (1, [(POLLIN, 1%nat)])] [].
Definition turn1 (d : Daemon dscript) : Daemon dscript :=
  after (EventReactor_turn (run_cb (H0 := wire_codec) (λ _, mkRequest 0 None) 3) d).
Definition booted1 : Daemon dscript := after (Veloxd_init (fresh_daemon default_Conf one_socket)).

Lemma ownership_graph_witness :
  let d := turn1 (turn1 booted1) in
  graph (next_id d) (links d) ∧ rrChannels d = [2%nat] ∧ l_channels (links d) = {[2%nat := mkCnode 40 1 (Some 4%nat)]} ∧
  l_endpoints (links d) = {[4%nat := mkEnode 3 (Some 2%nat) (Some 5%nat)]}.
Proof.
  split; [|vm_compute; done].
  apply (ownership_graph (H0 := wire_codec) [] (λ _, mkRequest 0 None) 3 default_Conf one_socket booted1).
  - vm_compute. reflexivity.
  - apply rtc_l with (turn1 booted1); [|apply rtc_once]; apply step_reactor; vm_compute; reflexivity.
Defined.
