(* ===== verification/Safety.v ===== *)
(** * No dangling pointer

    The ownership graph (Ownership.v) says which objects are alive; with the
    frames' references it makes a state closed in the sense of Alive.v.  Here
    the two are put together: the callbacks and the turns of the three threads,
    and the one way in which the daemon does use freed memory. *)

From S2P Require Import Prelude Csum16 Frame Session World DScript Reactor Rpc Wire Net Agent Udp Tcp Reassembly IpRx Dispatch Arbiter Alive AliveLayers Boot ReactorSpec AgentSpec UdpSpec Invariant LoopSpec BootSpec SocketCallSpec Ownership.

Section queues.
Context {E : Type} `{Kernel E} `{Codec}.
Implicit Types d : Daemon E.

(** ** References to frames *)

Record live_frames d : Prop := {
  lf_frame : ∀ i f, frames d !! i = Some f → frame_live (doms d) f;
  lf_queue : ∀ i s, endpoints d !! i = Some s → queue_live (doms d) (recvQ s);
  lf_rxQ : ∀ k, Some k ∈ rxQ d → k ∈ fr (doms d);
  lf_groups : ∀ gs g, defragCtxList d = Some gs → g ∈ gs → opt_in (fg_first g) (fr (doms d))
}.
Lemma closed_live d : closed d → live_frames d.
Proof. intros [? ? C ? ? ?]. constructor; try done. intros i s Hs. by destruct (C i s Hs) as (_ & _ & ?). Qed.
Lemma good_closed d : ok_graph d → live_frames d → closed d.
Proof.
  intros G [? Hq ? ?]. constructor; try done.
  - intros i p Hp t Ht. assert (sn_handle (node_session p) = Some (t_sChannel t)) as Hn by (cbn; by rewrite Ht).
    destruct (g_session _ _ G i (node_session p) _ (lookup_node_some node_session _ _ _ Hp) Hn) as (y & Hy & _).
    destruct (lookup_node _ _ _ _ Hy) as (y' & Hy' & _). by apply elem_of_dom.
  - intros i s Hs. pose proof (lookup_node_some node_endpoint _ _ _ Hs) as Hn.
    destruct (g_endpoint _ _ G _ _ Hn) as (y & Hy & _). destruct (lookup_node _ _ _ _ Hy) as (y' & Hy' & _).
    destruct (g_pcb_down _ _ G _ _ Hn) as (p & q & Hp & Hq' & _). destruct (lookup_node _ _ _ _ Hq') as (q' & Hq'' & _).
    split_and!; [by apply elem_of_dom| |by eapply Hq]. intros j Hj. cbn in Hp. simplify_eq. by apply elem_of_dom.
  - intros i c Hc. pose proof (lookup_node_some node_channel _ _ _ Hc) as Hn.
    destruct (g_channel _ _ G _ _ Hn) as (y & Hy & _). destruct (lookup_node _ _ _ _ Hy) as (y' & Hy' & _).
    split; [by apply elem_of_dom|]. intros e He. destruct (g_socket_down _ _ G _ _ e Hn He) as (s & Hs & _).
    destruct (lookup_node _ _ _ _ Hs) as (s' & Hs' & _). by apply elem_of_dom.
Qed.

(** ** Programs that leave the frames and the queues alone *)

Definition queues d d' : Prop :=
  frames d' = frames d ∧ rxQ d' = rxQ d ∧ defragCtxList d' = defragCtxList d ∧
  ∀ i s', endpoints d' !! i = Some s' → recvQ s' = [] ∨ ∃ s, endpoints d !! i = Some s ∧ recvQ s' = recvQ s.
#[global] Instance queues_preorder : PreOrder queues.
Proof.
  split.
  - intros d. unfold queues. split_and!; eauto.
  - intros d1 d2 d3 (F1 & R1 & G1 & Q1) (F2 & R2 & G2 & Q2). unfold queues. split_and!; [congruence..|].
    intros i s Hs. destruct (Q2 i s Hs) as [?|(s2 & Hs2 & Heq)]; [by left|]. rewrite Heq. by apply Q1.
Qed.
Lemma queues_live d d' : queues d d' → live_frames d → live_frames d'.
Proof.
  intros (F & R & G & Q) [H1 H2 H3 H4]. assert (fr (doms d') = fr (doms d)) as Hfr by (cbn; by rewrite F).
  constructor; unfold frame_live, queue_live; rewrite ?F, ?R, ?G, ?Hfr; try done.
  intros i s' Hs'. destruct (Q i s' Hs') as [->|(s & Hs & ->)]; [set_solver|by eapply H2].
Qed.

Definition silent {A} (m : D E A) : Prop := ∀ d a d', m d = Ok (a, d') → queues d d'.
Lemma silent_bind {A B} (m : D E A) (k : A → D E B) : silent m → (∀ a, silent (k a)) → silent (m ≫= k).
Proof. intros Hm Hk d b d' Hr. apply M_bind_inv in Hr as (a & d1 & H1 & H2). etrans; [by eapply Hm|by eapply Hk]. Qed.
Lemma silent_ret {A} (a : A) : silent (mret a : D E A).
Proof. by intros d ? d' [= <- <-]. Qed.
Lemma silent_fail {A} f : silent (fail f : D E A).
Proof. by intros d ? d'. Qed.
Lemma silent_assert b : silent (assert_ b : D E unit).
Proof. destruct b; [apply silent_ret|apply silent_fail]. Qed.
Lemma silent_gets {A} (f : Daemon E → A) : silent (gets f).
Proof. by intros d ? d' [= <- <-]. Qed.
Lemma silent_read_cell {A} (heap : Daemon E → gmap nat A) i : silent (read_cell heap i).
Proof. intros d a d'. unfold read_cell. destruct (heap d !! i); [|done]. by intros [= <- <-]. Qed.
Lemma silent_kcall {A} (f : E → A * E) : silent (kcall f).
Proof. intros d a d'. rewrite kcall_ok. intros [= <- <-]. unfold queues. split_and!; eauto. Qed.
Lemma silent_get : silent (get_st : D E _).
Proof. by intros d ? d' [= <- <-]. Qed.
Lemma silent_fresh : silent (fresh : D E _).
Proof. intros d ? d' [= <- <-]. unfold queues. split_and!; eauto. Qed.
Lemma silent_deref {A} (o : option A) : silent (deref o : D E _).
Proof. intros d ? d'. by destruct o; intros [= <- <-]. Qed.
Lemma silent_modify f : (∀ d, queues d (f d)) → silent (modify f : D E unit).
Proof. intros Hf d ? d' [= <- <-]. apply Hf. Qed.
Lemma silent_del_endpoint i : silent (del_endpoint i : D E unit).
Proof. apply silent_modify. intros d. unfold queues. split_and!; try done. intros j s Hs. cbn in Hs. apply lookup_delete_Some in Hs as [_ Hs]. eauto. Qed.
Lemma silent_heap f : (∀ d, frames (f d) = frames d ∧ rxQ (f d) = rxQ d ∧ defragCtxList (f d) = defragCtxList d ∧ endpoints (f d) = endpoints d) →
  silent (modify f : D E unit).
Proof. intros Hf. apply silent_modify. intros d. destruct (Hf d) as (? & ? & ? & He). unfold queues. rewrite He. split_and!; eauto. Qed.
End queues.

Create HintDb silent discriminated.
#[export] Hint Resolve silent_fail silent_assert silent_gets silent_get silent_fresh silent_deref silent_kcall silent_del_endpoint : silent.
#[export] Hint Extern 1 (silent (the_handle _)) => apply silent_read_cell : silent.
#[export] Hint Extern 1 (silent (the_pcb _)) => apply silent_read_cell : silent.
#[export] Hint Extern 1 (silent (the_endpoint _)) => apply silent_read_cell : silent.
#[export] Hint Extern 1 (silent (the_channel _)) => apply silent_read_cell : silent.
#[export] Hint Extern 2 (silent (modify _)) => apply silent_heap; by intros ? : silent.
#[export] Hint Extern 2 (silent (put_handle _ _)) => apply silent_heap; by intros ? : silent.
#[export] Hint Extern 2 (silent (put_channel _ _)) => apply silent_heap; by intros ? : silent.
#[export] Hint Extern 2 (silent (del_handle _)) => apply silent_heap; by intros ? : silent.
#[export] Hint Extern 2 (silent (del_pcb _)) => apply silent_heap; by intros ? : silent.
Ltac silent :=
  repeat first
    [ progress intros
    | apply silent_ret
    | solve [eauto with silent]
    | apply silent_bind; [solve [eauto with silent]|]
    | match goal with
      | |- silent (match ?x with _ => _ end) => destruct x eqn:?
      | |- silent ((match ?x with _ => _ end) ≫= _) => destruct x eqn:?
      | |- silent (mbind _ _) => apply silent_bind
      end ].

Section creation.
Context {E : Type} `{Kernel E} `{Codec}.
Implicit Types d : Daemon E.

Lemma silent_handle_delete i : silent (IoHandle_delete i : D E _).
Proof. unfold IoHandle_delete, EventReactor_removeChannel, EventReactor_hasChannel, SysPoller_removeChannel. silent. Qed.
Hint Resolve silent_handle_delete : silent.
Lemma silent_setSocket so ch : silent (AgentChannel_setSocket so ch : D E _).
Proof. unfold AgentChannel_setSocket, Endpoint_delete, Session_delete. silent. Qed.
Lemma silent_poll t : silent (SysPoller_poll t : D E _).
Proof.
  assert (∀ evs, silent (poll_fds evs : D E _)) by (intros evs; induction evs as [|[]]; cbn [poll_fds]; silent).
  assert (∀ evs, silent (poll_deliver evs : D E _)) by (intros evs; induction evs as [|[]]; cbn [poll_deliver]; unfold upd_handle; silent).
  unfold SysPoller_poll. silent.
Qed.

(** ** A socket request *)

Lemma Endpoint_delete_run e s p q d : endpoints d !! e = Some s → ep_pcb s = Some p → sessions d !! p = Some q →
  is_Some (handles d !! ep_sChannel s) →
  (∀ t, p_tcb q = Some t → is_Some (handles d !! t_sChannel t) ∧ t_sChannel t ≠ ep_sChannel s) →
  ∃ d', Endpoint_delete e d = Ok (tt, d').
Proof.
  intros He Hp Hq Hh Ht. unfold Endpoint_delete. mstep (read_cell_ok endpoints e s d He). rewrite Hp.
  enough (∃ d1, Session_delete p d = Ok (tt, d1) ∧ is_Some (handles d1 !! ep_sChannel s)) as (d1 & H1 & Hh1).
  { mstep H1. destruct (IoHandle_delete_ok _ _ Hh1) as (d2 & H2 & _). mstep H2. by eexists. }
  unfold Session_delete. mstep (read_cell_ok sessions p q d Hq). destruct (p_tcb q) as [t|]; [|by eexists].
  destruct (Ht t eq_refl) as [Ht1 Hne]. destruct (IoHandle_delete_ok _ _ Ht1) as (d1 & H1 & Hd & _). mstep H1.
  eexists. split; [reflexivity|]. cbn. by rewrite Hd, lookup_delete_ne.
Qed.

Lemma setSocket_run ch so pcb he ht fe ft c d d3 : ok_graph d → channels d !! ch = Some c →
  socket_made ch so pcb he ht fe ft d d3 → ∃ d4, AgentChannel_setSocket so ch d3 = Ok (tt, d4).
Proof.
  intros G Hc S. pose proof (put_socket_links _ _ _ _ _ _ _ _ _ _ S Hc) as Hl. pose proof (lookup_node_some node_channel _ _ _ Hc) as Hcn.
  destruct S as [_ Hch (ep & Hep & _) (p & Hse) Hso Hpcb Hhe Hht _]. unfold AgentChannel_setSocket.
  rewrite <-Hch in Hc. mstep (read_cell_ok channels ch c d3 Hc). set (d3' := set_channels _ d3) in Hl.
  rewrite (M_bind_ok _ _ d3 tt d3') by done. destruct (ch_socket c) as [e|] eqn:Hold; [|by eexists].
  destruct (g_socket_down _ _ G ch _ e Hcn Hold) as (s & Hs & _). destruct (g_pcb_down _ _ G e s Hs) as (pq & q & Hpq & Hq & _).
  destruct (g_endpoint _ _ G e s Hs) as (x & Hx & Hxr). destruct (g_below _ _ G) as (_ & _ & B3 & B4).
  pose proof (B3 e (mk_is_Some _ _ Hs)). pose proof (B4 pq (mk_is_Some _ _ Hq)).
  assert (∀ i y, l_handles (links d) !! i = Some y → is_Some (handles d3' !! i)) as Hold'.
  { intros i y Hy. apply (attach_handle (next_id d) (next_id d3) ch so pcb he ht fe ft (node_channel c)) in Hy; [|done..].
    rewrite <-Hl in Hy.
    destruct (lookup_node _ _ _ _ Hy) as (y' & Hy' & _). by exists y'. }
  destruct (lookup_node _ _ _ _ Hs) as (s' & Hs' & ->). destruct (lookup_node _ _ _ _ Hq) as (q' & Hq' & ->).
  apply (Endpoint_delete_run e s' pq q'); [cbn; rewrite Hep, lookup_insert_ne; [done|lia]|done
    |cbn; rewrite Hse, lookup_insert_ne; [done|lia]|by eapply Hold'|].
  intros t Ht. assert (sn_handle (node_session q') = Some (t_sChannel t)) as Hn by (cbn; by rewrite Ht).
  destruct (g_session _ _ G _ _ _ Hq Hn) as (z & Hz & Hzr). split; [by eapply Hold'|]. intros Heq. cbn in Hx, Hz. rewrite Heq in Hz. congruence.
Qed.

(** The outcome of a run: no use after free, and what holds when it returns. *)
Definition outcome {A} (r : res (A * Daemon E)) (Q : Daemon E → Prop) : Prop :=
  match r with Ok (_, d') => Q d' | Fault f => f ≠ UseAfterFree end.
Lemma outcome_bind {A B} (m : D E A) (k : A → D E B) d Q R :
  outcome (m d) Q → (∀ a d', m d = Ok (a, d') → Q d' → outcome (k a d') R) → outcome ((m ≫= k) d) R.
Proof. unfold mbind, M_bind, outcome. destruct (m d) as [[a d']|f]; [|done]. intros Hq Hk. exact (Hk a d' eq_refl Hq). Qed.
Lemma outcome_keep {A} (m : D E A) d (Q : A → Prop) : keep (doms d) m Q → closed d → outcome (m d) (λ d', doms d' = doms d ∧ closed d').
Proof.
  intros Hm Hc. specialize (Hm d eq_refl Hc). unfold outcome. destruct (m d) as [[a d']|]; [|done].
  destruct Hm as (Hd & Hc' & _). split; [done|]. unfold closed. by rewrite Hd.
Qed.
Lemma outcome_grow {A} (m : D E A) d Q : grow (doms d) m Q → closed d → outcome (m d) (λ d', within (doms d) (doms d') ∧ closed d').
Proof. intros Hm Hc. specialize (Hm d eq_refl Hc). unfold outcome. destruct (m d) as [[a d']|]; [|done]. naive_solver. Qed.
Lemma outcome_weaken {A} (r : res (A * Daemon E)) (Q R : Daemon E → Prop) : outcome r Q → (∀ d, Q d → R d) → outcome r R.
Proof. destruct r as [[a d]|]; [|done]. cbn. auto. Qed.

Lemma keep_socket_finish A ch so pcb : so ∈ es A → pcb ∈ ss A → keep A (socket_finish ch so pcb : D E _) (λ _, True).
Proof. intros Hs Hp. pose proof (keep_register (E := E)). unfold socket_finish. keep_steps. Qed.

Lemma outcome_assert b d : outcome (assert_ b d) (λ d', d' = d).
Proof. by destruct b. Qed.
Lemma socketCall_safe ch c dom type d : ok_graph d → live_frames d → channels d !! ch = Some c →
  outcome (socketCall ch dom type d) live_frames.
Proof.
  intros G Hf Hc. unfold socketCall. eapply outcome_bind; [apply outcome_assert|]. intros _ d1 _ ->.
  eapply outcome_bind; [apply outcome_assert|]. intros _ d1 _ ->.
  destruct (socket_objects ch type (λ '(so, pcb), _ ← AgentChannel_setSocket so ch; socket_finish ch so pcb) d)
    as (so & pcb & he & ht & fe & ft & d3 & S & Hd3). unfold socket_finish in Hd3. rewrite Hd3. clear Hd3.
  destruct (setSocket_run _ _ _ _ _ _ _ _ _ _ G Hc S) as [d4 H4].
  destruct (setSocket_graph _ _ _ _ _ _ _ _ _ _ _ _ G Hc S H4) as (G4 & _ & He4).
  assert (live_frames d4) as Hf4.
  { apply (queues_live d3); [by eapply silent_setSocket|]. destruct S as [_ _ (ep & Hep & Hq) _ _ _ _ _ (F & R & Gs)].
    apply (queues_live d); [|done]. unfold queues. split_and!; try done. intros i s Hs. rewrite Hep in Hs.
    apply lookup_insert_Some in Hs as [[_ <-]|[_ Hs]]; [by left|eauto]. }
  mstep H4. destruct (lookup_node _ _ _ _ He4) as (ep & Hep & Hn). injection Hn as _ _ Hpcb.
  pose proof (cl_endpoint _ _ (good_closed d4 G4 Hf4) so ep Hep) as (_ & Hss & _).
  eapply outcome_weaken; [apply (outcome_keep (socket_finish ch so pcb) d4 (λ _, True))|].
  - apply keep_socket_finish; [by apply elem_of_dom|by apply Hss].
  - by apply good_closed.
  - intros d' [_ Hc']. by apply closed_live.
Qed.

(** ** An accepted connection *)

Lemma grow_AgentChannel_new A fd : grow A (AgentChannel_new fd : D E _) (λ ch B, ch ∈ cs B).
Proof.
  intros d <- Hc. rewrite AgentChannel_new_ok. set (d' := set_channels _ _).
  assert (within (doms d) (doms d')) as Hw by (unfold within; cbn; rewrite !dom_insert_L; set_solver).
  split_and!; [done| |cbn; rewrite dom_insert_L; set_solver]. destruct (closed_mono _ _ _ Hw Hc) as [C1 C2 C3 C4 C5 C6].
  constructor; try done. cbn. apply put_inv; [done|]. split; [cbn; rewrite dom_insert_L; set_solver|apply opt_in_none].
Qed.
Lemma grow_accept_loop A n fd : grow A (accept_loop n fd : D E _) (λ _ _, True).
Proof.
  revert A. induction n as [|n IH]; intros A; cbn [accept_loop]; (eapply grow_after; [apply keep_kcall|]; intros [conn x] _);
    (destruct (conn =? -1); [apply (keep_grow A _ (λ _, True)); [keep_steps|done]|]);
    (eapply (grow_bind _ _ _ (λ _ _, True)); [|intros _ B _ _; first [apply IH|apply (keep_grow B _ (λ _, True)); [by apply keep_fail|done]]]);
    unfold Arbiter_onNewConnection; (eapply grow_bind; [apply grow_AgentChannel_new|]); intros ch B _ Hch;
    (apply (keep_grow B _ (λ _, True)); [|done]); pose proof (keep_register (E := E)); unfold Arbiter_addRRChannel; keep_steps.
Qed.

(** ** Callbacks *)

Context (parse_partial : list Z → Request) (fuel : nat).
Notation run_cb := (run_cb parse_partial fuel).

Lemma socket_request_dec req : (∃ dom ty pr, calling req = Some (CallSocket dom ty pr)) ∨ (∀ dom ty pr, calling req ≠ Some (CallSocket dom ty pr)).
Proof. destruct (calling req) as [[]|]; (by right) || (left; by eauto). Qed.
Lemma handleRequest_safe ch c req d : ok_graph d → live_frames d → channels d !! ch = Some c →
  outcome (handleRequest ch req d) live_frames.
Proof.
  intros G Hf Hc. destruct (socket_request_dec req) as [(dom & ty & pr & Hreq)|Hno].
  - unfold handleRequest. rewrite Hreq. by eapply socketCall_safe.
  - eapply outcome_weaken; [eapply (outcome_grow (handleRequest ch req) d (λ _ _, True))|].
    + apply grow_handleRequest; [by apply elem_of_dom|exact Hno].
    + by apply good_closed.
    + intros d' [_ ?]. by apply closed_live.
Qed.

(** A state in which every pointer is good. *)
Definition good d : Prop := ok_graph d ∧ live_frames d.
Lemma good_env e d : good d → good (set_env e d).
Proof. intros [G F]. split; [by eapply (graph_same d)|]. apply (queues_live d); [|done]. unfold queues. split_and!; eauto. Qed.

Lemma removed_safe ch c d : good d → channels d !! ch = Some c →
  outcome ((_ ← Arbiter_removeRRChannel ch; release_channel ch) d) (λ d', handles d' !! ch_sChannel c = None).
Proof.
  intros [G _] Hc. destruct (AgentChannel_delete_ok ch c d (filter (λ c, c ≠ ch) (rrChannels d)) G Hc) as [d' Hd'].
  assert ((_ ← Arbiter_removeRRChannel ch; release_channel ch) d = Ok (tt, d')) as Hr; [|rewrite Hr; by eapply removed_gone].
  rewrite (M_bind_ok _ _ d tt (set_rrChannels (filter (λ c, c ≠ ch) (rrChannels d)) d)) by done. unfold release_channel.
  rewrite (M_bind_ok (gets rrChannels) _ _ _ _ eq_refl), decide_False; [done|].
  cbn. intros Hin. by apply list_elem_of_filter in Hin as [[] _].
Qed.
Lemma listed_release ch c d : ok_graph d → channels d !! ch = Some c → release_channel ch d = Ok (tt, d).
Proof.
  intros G Hc. unfold release_channel. rewrite (M_bind_ok (gets rrChannels) _ _ _ _ eq_refl), decide_True; [done|].
  apply (g_listed _ _ G). exists (node_channel c). by apply lookup_node_some.
Qed.
Lemma outcome_true {A} (m : D E A) d Q : outcome (m d) Q → ∀ a d', m d = Ok (a, d') → Q d'.
Proof. intros Ho a d' Hr. unfold outcome in Ho. by rewrite Hr in Ho. Qed.

Lemma readReady_safe ch c d : good d → channels d !! ch = Some c →
  outcome ((_ ← AgentChannel_onReadReady parse_partial ch; release_channel ch) d) (λ d', good d' ∨ handles d' !! ch_sChannel c = None).
Proof.
  intros Hg Hc. pose proof (read_cell_ok channels ch c d Hc) as Hrd. destruct (k_read (ch_fd c) RPC_MESSAGE_MAX_SIZE (env d)) as [[[nread rdbuf] errno] e'] eqn:Hk.
  set (d1 := set_env e' d). assert (good d1) as Hg1 by by apply good_env.
  assert (∀ K : D E unit, (AgentChannel_onReadReady parse_partial ch ≫= λ _, K) d =
    ((if (nread =? -1) && (errno =? EAGAIN) then mret tt else if nread =? 0 then Arbiter_removeRRChannel ch else
      resp ← handleRequest ch (if nread =? -1 then parse_partial [] else default (parse_partial rdbuf) (request_unpack rdbuf));
      AgentChannel_write resp ch) ≫= λ _, K) d1) as ->.
  { intros K. unfold AgentChannel_onReadReady. unfold mbind at 1 2 3, M_bind at 1 2 3. fold (the_channel (E := E)) in Hrd. rewrite Hrd.
    unfold kcall. rewrite Hk. reflexivity. }
  destruct ((nread =? -1) && (errno =? EAGAIN)).
  { rewrite (M_bind_ok _ _ d1 tt d1) by done. rewrite (listed_release ch c d1 (proj1 Hg1) Hc). by left. }
  destruct (nread =? 0); [eapply outcome_weaken; [by apply removed_safe|by right]|].
  eapply (outcome_bind _ _ _ (λ d', good d' ∧ is_Some (channels d' !! ch))).
  - eapply outcome_bind; [by apply (handleRequest_safe ch c); [apply Hg1|apply Hg1|]|]. intros resp d2 Hr Hf2.
    destruct (handleRequest_graph _ _ _ _ _ (proj1 Hg1) (mk_is_Some _ _ Hc) Hr) as [G2 Hk2]. destruct (Hk2 c Hc) as (c' & Hc' & _).
    pose proof (outcome_keep (AgentChannel_write resp ch) d2 (λ _, True) ltac:(apply keep_write; by apply elem_of_dom) (good_closed d2 G2 Hf2)) as Hw.
    destruct (AgentChannel_write resp ch d2) as [[[] d3]|f] eqn:Hwr; [|exact Hw]. destruct Hw as [Hd3 Hc3].
    split; [split; [eapply graph_same; [by eapply neutral_write|done]|by apply closed_live]|].
    apply elem_of_dom. change (ch ∈ cs (doms d3)). rewrite Hd3. by apply elem_of_dom.
  - intros u d2 _ [Hg2 [c2 Hc2]]. rewrite (listed_release ch c2 d2 (proj1 Hg2) Hc2). by left.
Qed.

(** The callbacks of a handle of a good state. *)
Definition callback_of (x : IoHandle) (cb : callback) : Prop := io_onRead x = Some cb ∨ io_onClose x = Some cb.
Definition of_channel (cb : callback) : Prop := ∃ ch, cb = CbChannelReadReady ch ∨ cb = CbChannelPeerClose ch.

Lemma run_cb_safe i x cb d : good d → handles d !! i = Some x → callback_of x cb →
  outcome (run_cb cb d) (λ d', (good d' ∨ handles d' !! i = None) ∧ (of_channel cb ∨ within (doms d) (doms d'))).
Proof.
  intros [G F] Hi Hcb. pose proof (good_closed d G F) as Hcl.
  assert (∀ m : D E unit, run_cb cb = m → outcome (m d) (λ d', within (doms d) (doms d') ∧ closed d') →
    (∀ u d', m d = Ok (u, d') → ok_graph d') →
    outcome (run_cb cb d) (λ d', (good d' ∨ handles d' !! i = None) ∧ (of_channel cb ∨ within (doms d) (doms d')))) as Hneutral.
  { intros m -> Ho Hgr. unfold outcome in *. destruct (m d) as [[u d']|]; [|done]. destruct Ho as [Hw Hc'].
    split; [left; split; [by eapply Hgr|by apply closed_live]|by right]. }
  destruct (g_handle _ _ G i (node_handle x)) as [_ Ho]; [by apply lookup_node_some|].
  destruct cb as [|ch|ch|e|p].
  - apply (Hneutral (AgentHub_onReadReady fuel)); [done| |].
    + apply (outcome_grow _ d (λ _ _, True)); [|done]. unfold AgentHub_onReadReady. eapply grow_after; [apply keep_gets|]. intros h _.
      eapply grow_after; [apply keep_deref|]. intros h' _. apply grow_accept_loop.
    + intros u d' Hr. unfold AgentHub_onReadReady in Hr. apply M_bind_inv in Hr as (h & d1 & H1 & Hr). injection H1 as _ <-.
      apply M_bind_inv in Hr as (h' & d1 & H1 & Hr). eapply accept_loop_graph; [|exact Hr].
      eapply graph_same; [by eapply neutral_deref|done].
  - destruct (channel_of_handle i x ch d G Hi) as (c & Hc & <-).
    { destruct Hcb as [Hcb|Hcb]; [by left|]. cbn in Ho. rewrite Hcb in Ho. destruct (io_onRead x) as [[]|]; naive_solver. }
    eapply outcome_weaken; [by apply (readReady_safe ch c d)|]. intros d' Hd'. split; [done|]. left. exists ch. by left.
  - destruct (channel_of_handle i x ch d G Hi) as (c & Hc & <-).
    { destruct Hcb as [Hcb|Hcb]; [|by right]. cbn in Ho. by rewrite Hcb in Ho. }
    eapply outcome_weaken; [by apply (removed_safe ch c d)|]. intros d' Hd'. split; [by right|]. left. exists ch. by right.
  - assert (∃ s, endpoints d !! e = Some s) as [s Hs].
    { cbn in Ho. destruct Hcb as [Hcb|Hcb]; rewrite Hcb in Ho.
      - destruct Ho as (_ & s & Hs & _). destruct (lookup_node _ _ _ _ Hs) as (s' & Hs' & _). eauto.
      - destruct (io_onRead x) as [[]|]; naive_solver. }
    apply (Hneutral (Endpoint_sChannelReadCb fuel e)); [done| |].
    + eapply outcome_weaken; [apply (outcome_keep _ d (λ _, True)); [by apply keep_endpoint_cb, elem_of_dom|done]|].
      intros d' [-> ?]. by split.
    + intros u d' Hr. eapply graph_same; [by eapply neutral_endpoint_cb|done].
  - assert (∃ s, sessions d !! p = Some s) as [s Hs].
    { cbn in Ho. destruct Hcb as [Hcb|Hcb]; rewrite Hcb in Ho.
      - destruct Ho as (_ & s & Hs & _). destruct (lookup_node _ _ _ _ Hs) as (s' & Hs' & _). eauto.
      - destruct (io_onRead x) as [[]|]; naive_solver. }
    apply (Hneutral (TcpSession_onEstabPipe fuel p)); [done| |].
    + eapply outcome_weaken; [apply (outcome_keep _ d (λ _, True)); [by apply keep_estab_cb, elem_of_dom|done]|].
      intros d' [-> ?]. by split.
    + intros u d' Hr. eapply graph_same; [by eapply neutral_estab_cb|done].
Qed.

(** ** The batch of handles one turn handles *)

(** The handles a callback of a channel may have destroyed: [checked f l] runs
    the callback as it is and then stops with [f] when a handle of [l] is gone.
    It watches the run; where it does not stop, it is the run. *)
Definition of_channelb (cb : callback) : bool := match cb with CbChannelReadReady _ | CbChannelPeerClose _ => true | _ => false end.
Definition live (l : list nat) d : Prop := ∀ i, i ∈ l → is_Some (handles d !! i).
Definition checked (f : fault) (l : list nat) (cb : callback) : D E unit :=
  _ ← run_cb cb;
  hs ← gets handles;
  if of_channelb cb && negb (forallb (λ i, bool_decide (is_Some (hs !! i))) l) then fail f else mret tt.

(** [m], and [c f], which is [m] with its callbacks watched. *)
Definition batch {A} (l : list nat) (m : D E A) (c : fault → D E A) : Prop := ∀ d, good d → live l d →
  (∀ f, c f d = Fault f) ∨ ((∀ f, c f d = m d) ∧ outcome (m d) (λ d', good d' ∧ live l d')).

Lemma batch_bind {A B} l (m : D E A) c (k : A → D E B) ck : batch l m c → (∀ a, batch l (k a) (ck a)) →
  batch l (m ≫= k) (λ f, c f ≫= λ a, ck a f).
Proof.
  intros Hm Hk d Hg Hl. unfold mbind, M_bind. destruct (Hm d Hg Hl) as [Hs|[Heq Ho]]; [left; intros f; by rewrite Hs|].
  setoid_rewrite Heq. unfold outcome in *. destruct (m d) as [[a d']|f0]; [|by right]. destruct Ho as [Hg' Hl']. by apply (Hk a).
Qed.
Lemma batch_plain {A} l (m : D E A) : (∀ d, good d → live l d → outcome (m d) (λ d', good d' ∧ live l d')) → batch l m (λ _, m).
Proof. intros Hm d Hg Hl. right. split; [done|by apply Hm]. Qed.
Lemma batch_ret {A} l (a : A) : batch l (mret a) (λ _, mret a).
Proof. by apply batch_plain. Qed.
Lemma live_doms l d d' : hs (doms d) ⊆ hs (doms d') → live l d → live l d'.
Proof. intros Hw Hl i Hi. apply elem_of_dom, Hw, elem_of_dom. by apply Hl. Qed.
Lemma batch_upd_handle l i f : i ∈ l → (∀ h, node_handle (f h) = node_handle h) → batch l (upd_handle i f) (λ _, upd_handle i f).
Proof.
  intros Hi Hf. apply batch_plain. intros d Hg Hl. destruct (Hl i Hi) as [h Hh]. rewrite (upd_handle_ok i f h d Hh). cbn. split.
  - destruct Hg as [G F]. split.
    + eapply (graph_same d); [|done]. split; [|done]. unfold links. cbn. by rewrite (upd_same _ _ _ h).
    + apply (queues_live d); [|done]. unfold queues. split_and!; eauto.
  - apply (live_doms l d); [|done]. cbn. rewrite dom_insert_L. set_solver.
Qed.

Definition getter (get : IoHandle → option callback) : Prop :=
  ∀ x, get x = io_onRead x ∨ get x = io_onClose x ∨ get x = io_onWrite x ∨ get x = io_onError x.
Lemma getter_callback get i x cb d : getter get → good d → handles d !! i = Some x → get x = Some cb → callback_of x cb.
Proof.
  intros Hget Hg Hx Hcb. destruct (g_handle _ _ (proj1 Hg) i (node_handle x)) as [Ho _]; [by apply lookup_node_some|]. injection Ho as Hw He.
  unfold callback_of. destruct (Hget x) as [Hg'|[Hg'|[Hg'|Hg']]]; rewrite Hcb in Hg'; [by left|by right|congruence|congruence].
Qed.
Lemma checked_run l cb d d' : run_cb cb d = Ok (tt, d') →
  (∀ f, checked f l cb d = Ok (tt, d')) ∧ (of_channelb cb = true → live l d') ∨ of_channelb cb = true ∧ ∀ f, checked f l cb d = Fault f.
Proof.
  intros Hr. unfold checked. setoid_rewrite (M_bind_ok _ _ _ _ _ Hr). unfold mbind, M_bind, gets.
  destruct (of_channelb cb); cbn [andb]; [|by left]. destruct (forallb _ l) eqn:Hall; [|by right]. left. split; [done|]. intros _ i Hi.
  apply forallb_forall with (x := i) in Hall; [|by apply list_elem_of_In]. by apply bool_decide_eq_true in Hall.
Qed.
Lemma batch_fire l get i : i ∈ l → getter get → batch l (fire run_cb get i) (λ f, fire (checked f l) get i).
Proof.
  intros Hi Hget d Hg Hl. destruct (Hl i Hi) as [x Hx]. unfold fire. pose proof (read_cell_ok handles i x d Hx) as Hrd.
  setoid_rewrite (M_bind_ok _ _ _ _ _ Hrd). destruct (get x) as [cb|] eqn:Hcb; [|by right].
  pose proof (run_cb_safe i x cb d Hg Hx (getter_callback _ _ _ _ _ Hget Hg Hx Hcb)) as Ho. unfold outcome in *.
  destruct (run_cb cb d) as [[[] d']|f0] eqn:Hr.
  - destruct Ho as [Hgood Hw]. destruct (checked_run l cb d d' Hr) as [[Hc Hlive]|[_ Hs]]; [|by left].
    right. split; [done|]. assert (live l d') as Hl'.
    { destruct Hw as [[ch Hch]|(_ & Hh & _)]; [|by apply (live_doms l d)]. apply Hlive. by destruct Hch as [-> | ->]. }
    split; [|done]. destruct Hgood as [?|Hno]; [done|]. destruct (Hl' i Hi) as [? Hsome]. congruence.
  - right. split; [|done]. intros f. unfold checked. by rewrite (M_bind_fault _ _ _ _ Hr).
Qed.
Lemma batch_guarded l (b : bool) get i : i ∈ l → getter get →
  batch l (if b then fire run_cb get i else mret tt) (λ f, if b then fire (checked f l) get i else mret tt).
Proof. intros Hi Hg. destruct b; [by apply batch_fire|apply batch_ret]. Qed.
Lemma batch_read l i : i ∈ l → batch l (the_handle i) (λ _, the_handle i).
Proof. intros Hi. apply batch_plain. intros d Hg Hl. destruct (Hl i Hi) as [h Hh]. unfold the_handle, read_cell. rewrite Hh. by split. Qed.
Lemma batch_handleEvents l i : i ∈ l → batch l (IoHandle_handleEventsReceived run_cb i) (λ f, IoHandle_handleEventsReceived (checked f l) i).
Proof.
  intros Hi. assert (getter io_onRead ∧ getter io_onClose ∧ getter io_onWrite ∧ getter io_onError) as (? & ? & ? & ?) by (unfold getter; split_and!; eauto).
  unfold IoHandle_handleEventsReceived. apply batch_bind; [by apply batch_upd_handle|]. intros _.
  apply batch_bind; [by apply batch_read|]. intros x. cbv zeta.
  do 4 (apply batch_bind; [apply batch_guarded; done|]; intros _). by apply batch_upd_handle.
Qed.
Lemma batch_poll_fds evs l : (∀ i, i ∈ evs.*2 → i ∈ l) → batch l (poll_fds evs) (λ _, poll_fds evs).
Proof.
  induction evs as [|[ev i] evs IH]; intros Hs; cbn [poll_fds]; [apply batch_ret|].
  apply batch_bind; [apply batch_read, Hs; set_solver|]. intros _. apply IH. set_solver.
Qed.
Lemma batch_poll_deliver evs l : (∀ i, i ∈ evs.*2 → i ∈ l) → batch l (poll_deliver evs) (λ _, poll_deliver evs).
Proof.
  induction evs as [|[ev i] evs IH]; intros Hs; cbn [poll_deliver]; [apply batch_ret|].
  apply batch_bind; [apply batch_upd_handle; [apply Hs; set_solver|done]|]. intros _.
  apply (batch_bind _ _ (λ _, poll_deliver evs)); [apply IH; set_solver|]. intros cs. apply batch_ret.
Qed.
Lemma poll_deliver_handles evs d cs d' : poll_deliver evs d = Ok (cs, d') → cs = evs.*2.
Proof.
  revert d cs d'. induction evs as [|[ev i] evs IH]; intros d cs d' Hr; cbn [poll_deliver] in Hr; [by injection Hr as <- _|].
  apply M_bind_inv in Hr as (u & d1 & _ & Hr). apply M_bind_inv in Hr as (cs' & d2 & H2 & [= <- _]). cbn. f_equal. by eapply IH.
Qed.
Lemma good_handing b d : good d → good (set_loop_handing b d).
Proof. intros [G F]. split; [by eapply (graph_same d)|]. apply (queues_live d); [|done]. unfold queues. split_and!; eauto. Qed.

(** The poll of a batch of live handles. *)
Lemma poll_safe n evs e' d : good d → k_epoll_wait maxEventsReceivedEachPoll (-1) (env d) = ((n, evs), e') → live (evs.*2) d →
  outcome (SysPoller_poll (-1) d) (λ d', good d' ∧ live (evs.*2) d') ∧ ∀ cs d', SysPoller_poll (-1) d = Ok (cs, d') → cs = [] ∨ cs = evs.*2.
Proof.
  intros Hg Hw Hl. unfold SysPoller_poll.
  assert (kcall (k_epoll_wait maxEventsReceivedEachPoll (-1)) d = Ok ((n, evs), set_env e' d)) as Hk by (unfold kcall; by rewrite Hw).
  rewrite (M_bind_ok _ _ _ _ _ Hk). set (d1 := set_env e' d) in *. assert (good d1) as Hg1 by by apply good_env.
  destruct (n =? 0); [split; [by split|]; intros cs d' [= <- _]; by left|].
  destruct (n <? 0); [split; [done|]; by intros cs d'|]. split.
  - destruct (batch_bind (evs.*2) _ _ (λ _, poll_deliver evs) (λ _ _, poll_deliver evs) (batch_poll_fds evs _ (λ i Hi, Hi))
      (λ _, batch_poll_deliver evs _ (λ i Hi, Hi)) d1 Hg1 Hl) as [Hs|[_ Ho]]; [|exact Ho].
    exfalso. discriminate (eq_trans (eq_sym (Hs UseAfterFree)) (Hs OutOfFuel)).
  - intros cs d' Hr. apply M_bind_inv in Hr as (u & d2 & _ & Hr). right. by eapply poll_deliver_handles.
Qed.

(** ** Good states stay good *)

Definition intact_good (i : nat) d : Prop := good d ∨ handles d !! i = None.
Lemma guarded_good (b : bool) get i u d d' : getter get →
  intact_good i d → (if b then fire run_cb get i else mret tt) d = Ok (u, d') → intact_good i d'.
Proof.
  intros Hget Hi Hr. destruct b; [|by injection Hr as _ <-]. destruct Hi as [Hg|Hno]; [|by rewrite fire_gone in Hr].
  destruct (handles d !! i) as [x|] eqn:Hx; [|by rewrite fire_gone in Hr].
  unfold fire in Hr. rewrite (M_bind_ok _ _ _ _ _ (read_cell_ok handles i x d Hx)) in Hr.
  destruct (get x) as [cb|] eqn:Hcb; [|injection Hr as _ <-; by left].
  by destruct (outcome_true _ _ _ (run_cb_safe i x cb d Hg Hx (getter_callback _ _ _ _ _ Hget Hg Hx Hcb)) _ _ Hr) as [Hgood _].
Qed.
Lemma good_same {A} (m : D E A) d a d' : neutral m → silent m → good d → m d = Ok (a, d') → good d'.
Proof. intros Hn Hs [G F] Hr. split; [eapply graph_same; [by eapply Hn|done]|]. apply (queues_live d); [|done]. by eapply Hs. Qed.
Lemma handleEvents_good i u d d' : good d → IoHandle_handleEventsReceived run_cb i d = Ok (u, d') → good d'.
Proof.
  intros Hg Hr. unfold IoHandle_handleEventsReceived in Hr. apply M_bind_inv in Hr as (u1 & d1 & H1 & Hr).
  assert (∀ f d d' u, (∀ h, node_handle (f h) = node_handle h) → good d → upd_handle i f d = Ok (u, d') → good d') as Hupd.
  { intros f dx dy v Hf Hgx Hx. apply (good_same (upd_handle i f) dx v); [by apply neutral_upd_handle| |done..]. unfold upd_handle. silent. }
  apply Hupd in H1; [|done|done]. apply M_bind_inv in Hr as (x & d2 & H2 & Hr).
  assert (intact_good i d2) as G2.
  { left. unfold the_handle, read_cell in H2. destruct (handles d1 !! i); [|done]. by injection H2 as _ <-. }
  assert (getter io_onRead ∧ getter io_onClose ∧ getter io_onWrite ∧ getter io_onError) as (Gr & Gc & Gw & Ge) by (unfold getter; split_and!; eauto).
  apply M_bind_inv in Hr as (u3 & d3 & H3 & Hr). apply guarded_good in H3; [|done..].
  apply M_bind_inv in Hr as (u4 & d4 & H4 & Hr). apply guarded_good in H4; [|done..].
  apply M_bind_inv in Hr as (u5 & d5 & H5 & Hr). apply guarded_good in H5; [|done..].
  apply M_bind_inv in Hr as (u6 & d6 & H6 & Hr). apply guarded_good in H6 as [G6|Hno]; [| |done..].
  - by eapply Hupd in Hr.
  - by rewrite upd_handle_gone in Hr.
Qed.
(** The turns of the interface and of the IP thread. *)
Lemma good_doms d : good d → closed d.
Proof. intros [G F]. by apply good_closed. Qed.
Lemma Interface_turn_safe d : good d → outcome (Interface_turn d) live_frames.
Proof. intros G. eapply outcome_weaken; [apply (outcome_grow _ d (λ _ _, True)); [apply grow_Interface_turn|by apply good_doms]|]. intros d' [_ ?]. by apply closed_live. Qed.
Lemma Ip_turn_safe indet d : good d → outcome (Ip_turn indet d) live_frames.
Proof. intros G. eapply outcome_weaken; [apply (outcome_grow _ d (λ _ _, True)); [apply grow_Ip_turn|by apply good_doms]|]. intros d' [_ ?]. by apply closed_live. Qed.

(** ** Start-up *)

Lemma silent_TunIface_init : silent (TunIface_init : D E _).
Proof. unfold TunIface_init, TunIface_allocateTun, TunIface_setIfUp, TunIface_setIfAddr, ShellOp_run, kcall_. silent. Qed.
Lemma silent_Arbiter_init : silent (Arbiter_init : D E _).
Proof.
  unfold Arbiter_init, AgentHub_new, IoHandle_new, IoHandle_setOnReadCB, IoHandle_enableReading, change_interest, upd_handle, kcall_,
    register, EventReactor_addChannel, EventReactor_hasChannel, SysPoller_addChannel, IoHandle_setOwnerEventReactor. silent.
Qed.
Lemma init_good c e u d0 : Veloxd_init (fresh_daemon c e) = Ok (u, d0) → good d0.
Proof.
  intros Hr. split; [by eapply init_graph|]. unfold Veloxd_init in Hr.
  rewrite (M_bind_ok _ _ (fresh_daemon c e) c (fresh_daemon c e)) in Hr by done.
  destruct (logging_filter (logging_level c)); [|done]. apply M_bind_inv in Hr as (u1 & d1 & H1 & Hr).
  apply M_bind_inv in Hr as (u2 & d2 & H2 & Hr). injection H2 as _ <-. apply (queues_live _ _ (silent_Arbiter_init _ _ _ Hr)).
  assert (live_frames d1) as [F Q R _]; [|constructor; try done; cbn; intros gs g [= <-]; set_solver].
  apply (queues_live _ _ (silent_TunIface_init _ _ _ H1)). constructor; cbn; try (by intros); set_solver.
Qed.
End creation.
