(* ===== verification/ProcessSpec.v ===== *)
(** * The process: its invariant, its exits and its end

    The daemon's invariants hold from [main] on, in every interleaving of
    [main] and the three threads, at the moments between their turns. *)

From S2P Require Import Prelude Csum16 Frame Session World DScript Reactor Rpc Wire Net Agent Udp Tcp Reassembly IpRx Dispatch Arbiter Alive AliveLayers Boot Process Flags ReactorSpec AgentSpec UdpSpec Invariant Interest LoopSpec BootSpec SocketCallSpec Ownership Safety.

Section spec.
Context {E : Type} `{Kernel E} `{Codec}.
Context (indet : list Z) (parse_partial : list Z → Request) (fuel : nat) (options : option (cmd_option → option (list Z))).
Implicit Types p : Process E.
Implicit Types d : Daemon E.

(** How far [main] must be for a thread to exist. *)
Definition started (m : main_pc) : bool * bool * bool :=
  match m with
  | MInit | MStartInterface => (false, false, false)
  | MStartIp => (true, false, false)
  | MStartArbiter => (true, true, false)
  | MExited => (true, true, true)
  end.
Definition present (t : thread_state) : bool := negb (bool_decide (t = TAbsent)).
Definition loop_present (t : loop_state) : bool := negb (bool_decide (t = LThread TAbsent)).

(** Threads exist exactly when [main] has started them; a thread's loop runs
    over initialised data, in which both invariants hold and no pointer dangles. *)
Record process_ok p : Prop := {
  po_threads : (present (ifThread p), present (ipThread p), loop_present (loopThread p)) = started (main p);
  po_running : status p = None → running (daemon p) = bool_decide (main p ≠ MInit ∧ main p ≠ MStartInterface);
  po_fresh : main p = MInit → status p = None → ∃ e, daemon p = fresh_daemon default_Conf e;
  po_init : main p ≠ MInit → dinv (daemon p) ∧ good (daemon p)
}.

(** ** Daemon states *)

Definition intact d : Prop := dinv d ∧ good d.
Lemma intact_modify f d : (∀ d, dinv d → dinv (f d)) → (∀ d, links (f d) = links d ∧ (next_id d <= next_id (f d))%nat) → (∀ d, queues d (f d)) →
  intact d → intact (f d).
Proof.
  intros Hi Hl Hq [I [G F]]. split; [by apply Hi|]. split; [eapply graph_same; [apply Hl|done]|by apply (queues_live d)].
Qed.
Ltac inert := apply intact_modify; [intros ? []; by constructor|by intros ?|intros ?; unfold queues; split_and!; eauto].
Lemma intact_running b d : intact d → intact (set_running b d).
Proof. inert. Qed.
Lemma intact_loop_stopflag b d : intact d → intact (set_loop_stopflag b d).
Proof. inert. Qed.
Lemma intact_if_stopflag b d : intact d → intact (set_if_stopflag b d).
Proof. inert. Qed.
Lemma intact_ip_stopflag b d : intact d → intact (set_ip_stopflag b d).
Proof. inert. Qed.
Lemma intact_env e d : intact d → intact (set_env e d).
Proof. inert. Qed.

Lemma Veloxd_stop_run d : Veloxd_stop d =
  Ok (tt, set_running false (set_loop_stopflag true (set_ip_stopflag true (set_if_stopflag true d)))).
Proof. done. Qed.
Lemma intact_stop d : intact d → intact (set_running false (set_loop_stopflag true (set_ip_stopflag true (set_if_stopflag true d)))).
Proof. intros I. by apply intact_running, intact_loop_stopflag, intact_ip_stopflag, intact_if_stopflag. Qed.
Lemma Arbiter_start_run u d d' : Arbiter_start d = Ok (u, d') → ∃ e, d' = set_loop_stopflag false (set_env e d).
Proof.
  unfold Arbiter_start, AgentHub_listen. intros Hr. apply M_bind_inv in Hr as (v & d1 & Hr & [= _ <-]).
  apply M_bind_inv in Hr as (h & d2 & [= _ <-] & Hr). apply M_bind_inv in Hr as (h' & d3 & Hd & Hr).
  destruct h as [h|]; [|done]. injection Hd as _ <-. apply M_bind_inv in Hr as (r & d4 & Hk & Hr). rewrite kcall_ok in Hk. injection Hk as <- <-.
  destruct (_ =? -1) in Hr; [done|]. injection Hr as _ <-. by eexists.
Qed.
Lemma intact_init c e u d' : Veloxd_init (fresh_daemon c e) = Ok (u, d') → intact d'.
Proof.
  intros Hr. split; [|by eapply init_good]. pose proof (dkeeps_Veloxd_init _ (fresh_dinv c e)) as Hk. rewrite Hr in Hk. apply Hk.
Qed.
Lemma intact_interface u d d' : intact d → Interface_turn d = Ok (u, d') → intact d'.
Proof.
  intros [I G] Hr. pose proof (dkeeps_Interface_turn d I) as Hk. rewrite Hr in Hk. split; [apply Hk|]. split.
  - eapply graph_same; [by eapply neutral_Interface_turn|apply G].
  - exact (outcome_true _ _ _ (Interface_turn_safe _ G) _ _ Hr).
Qed.
Lemma intact_ip u d d' : intact d → Ip_turn indet d = Ok (u, d') → intact d'.
Proof.
  intros [I G] Hr. pose proof (dkeeps_Ip_turn indet d I) as Hk. rewrite Hr in Hk. split; [apply Hk|]. split.
  - eapply graph_same; [by eapply neutral_Ip_turn|apply G].
  - exact (outcome_true _ _ _ (Ip_turn_safe _ _ G) _ _ Hr).
Qed.
Lemma intact_poll cs d d' : intact d → SysPoller_poll (-1) d = Ok (cs, d') → intact d'.
Proof.
  intros [I G] Hr. pose proof (dkeeps_poll (-1) d I) as Hk. rewrite Hr in Hk. split; [apply Hk|].
  eapply good_same; [apply neutral_poll|apply silent_poll|done|done].
Qed.
Lemma intact_handle i u d d' : intact d → IoHandle_handleEventsReceived (run_cb parse_partial fuel) i d = Ok (u, d') → intact d'.
Proof.
  intros [I G] Hr. pose proof (dkeeps_handleEvents _ (dkeeps_run_cb parse_partial fuel) i d I) as Hk. rewrite Hr in Hk. split; [apply Hk|].
  by eapply handleEvents_good.
Qed.
Lemma intact_handing b d : intact d → intact (set_loop_handing b d).
Proof. inert. Qed.

(** ** Steps *)

Lemma exit_inv e p p' : exit_process e p = Ok (Some p') →
  ∃ z d, p' = with_status z (with_daemon d p) ∧ (intact (daemon p) → intact d).
Proof.
  unfold exit_process, Veloxd_exit. destruct (running (daemon p)) eqn:Hr.
  - erewrite M_bind_ok by reflexivity. rewrite Hr. rewrite (M_bind_ok _ _ _ _ _ (Veloxd_stop_run (daemon p))).
    intros [= <-]. eexists _, _. split; [reflexivity|apply intact_stop].
  - erewrite M_bind_ok by reflexivity. rewrite Hr. intros [= <-]. by eexists _, _.
Qed.
Lemma after_run_inv r k p p' : after_run r k p = Ok (Some p') →
  (∃ d, r = Ok (tt, d) ∧ p' = k d) ∨ exit_process FAILURE p = Ok (Some p').
Proof.
  destruct r as [[[] d]|f]; cbn; [intros [= <-]; left; by eexists|]. destruct f; try done. by right.
Qed.
Lemma process_ok_exit e p p' : process_ok p → exit_process e p = Ok (Some p') → process_ok p'.
Proof. intros [T R F I] (z & d & -> & Hd)%exit_inv. constructor; cbn; try done. intros Hm. by apply Hd, I. Qed.

Lemma process_ok_daemon p d : process_ok p → main p ≠ MInit → flags d = flags (daemon p) → intact d → process_ok (with_daemon d p).
Proof. intros [T R F I] Hm Hf Hi. constructor; cbn; try done. intros Hs. rewrite <-(R Hs). by injection Hf. Qed.
(** A thread that exists moves on. *)
Lemma process_ok_threads p p' : process_ok p → main p' = main p → status p' = status p → daemon p' = daemon p →
  present (ifThread p') = present (ifThread p) → present (ipThread p') = present (ipThread p) →
  loop_present (loopThread p') = loop_present (loopThread p) → process_ok p'.
Proof. intros [T R F I] Hm Hs Hd H1 H2 H3. constructor; rewrite ?Hm, ?Hs, ?Hd, ?H1, ?H2, ?H3; done. Qed.
Lemma present_init p : process_ok p → (present (ifThread p) || present (ipThread p) || loop_present (loopThread p)) = true → main p ≠ MInit.
Proof. intros [T _ _ _] Hp Hm. rewrite Hm in T. injection T as T1 T2 T3. by rewrite T1, T2, T3 in Hp. Qed.

Lemma main_step_ok p p' : process_ok p → status p = None → main_step options p = Ok (Some p') → process_ok p'.
Proof.
  intros Hp Hs. pose proof Hp as [T R F I]. unfold main_step. destruct (main p) eqn:Hm; [| | | |done].
  - destruct (F eq_refl Hs) as [e He]. unfold main_init. destruct (Veloxd_readConf _ _) as [x|c]; [by apply process_ok_exit|].
    intros [(d & Hd & ->)|Hx]%after_run_inv; [|by eapply process_ok_exit]. rewrite He in Hd. change (set_conf c _) with (fresh_daemon c e) in Hd.
    constructor; cbn; try done.
    + intros _. pose proof (flagfix_Veloxd_init _ _ _ Hd) as Hfl. by injection Hfl.
    + intros _. by eapply intact_init.
  - intros [= <-]. injection T as T1 T2 T3. constructor; cbn; rewrite ?T1, ?T2, ?T3; try done. intros _. by apply intact_running, I.
  - intros [= <-]. injection T as T1 T2 T3. constructor; cbn; rewrite ?T1, ?T2, ?T3; try done. intros _. by apply I.
  - intros [= <-]. injection T as T1 T2 T3. constructor; cbn; rewrite ?T1, ?T2, ?T3; try done. intros _. by apply I.
Qed.
Lemma interface_step_ok p p' : process_ok p → interface_step p = Ok (Some p') → process_ok p'.
Proof.
  intros Hp. unfold interface_step. destruct (ifThread p) eqn:Ht; try done.
  - intros [= <-]. apply (process_ok_threads p); cbn; rewrite ?Ht; done.
  - intros [= <-]. apply (process_ok_threads p); cbn; rewrite ?Ht; try done. by destruct (if_stopflag _).
  - assert (main p ≠ MInit) as Hm by (apply present_init; [done|]; by rewrite Ht).
    intros [(d & Hd & ->)|Hx]%after_run_inv; [|by eapply process_ok_exit].
    apply (process_ok_threads (with_daemon d p)); cbn; rewrite ?Ht; try done.
    apply process_ok_daemon; [done|done|by eapply flagfix_Interface_turn|]. eapply intact_interface; [|exact Hd]. by apply Hp.
Qed.
Lemma ip_step_ok p p' : process_ok p → ip_step indet p = Ok (Some p') → process_ok p'.
Proof.
  intros Hp. unfold ip_step. destruct (ipThread p) eqn:Ht; try done.
  - intros [= <-]. apply (process_ok_threads p); cbn; rewrite ?Ht; done.
  - intros [= <-]. apply (process_ok_threads p); cbn; rewrite ?Ht; try done. by destruct (ip_stopflag _).
  - assert (main p ≠ MInit) as Hm by (apply present_init; [done|]; by rewrite Ht, orb_true_r).
    intros [(d & Hd & ->)|Hx]%after_run_inv; [|by eapply process_ok_exit].
    apply (process_ok_threads (with_daemon d p)); cbn; rewrite ?Ht; try done.
    apply process_ok_daemon; [done|done|by eapply flagfix_Ip_turn|]. eapply intact_ip; [|exact Hd]. by apply Hp.
Qed.
Lemma loop_init p : process_ok p → loopThread p ≠ LThread TAbsent → main p ≠ MInit.
Proof. intros Hp Ht. apply present_init; [done|]. unfold loop_present. rewrite bool_decide_eq_false_2 by done. by rewrite orb_true_r. Qed.
Lemma loop_step_ok p p' : process_ok p → loop_step (λ _, run_cb parse_partial fuel) p = Ok (Some p') → process_ok p'.
Proof.
  intros Hp. unfold loop_step. pose proof (loop_init p Hp) as Hm.
  destruct (loopThread p) as [[| | | |]|[|c cs]] eqn:Ht; try done; specialize (Hm ltac:(done)); pose proof (po_init _ Hp Hm) as Hi.
  - intros [(d & Hd & ->)|Hx]%after_run_inv; [|by eapply process_ok_exit]. apply Arbiter_start_run in Hd as [e ->].
    destruct Hp as [T R F I]. constructor; cbn; try done; [by rewrite <-T, Ht|]. intros _. by apply intact_loop_stopflag, intact_env.
  - intros [= <-]. apply (process_ok_threads p); cbn; rewrite ?Ht; try done. by destruct (loop_stopflag _).
  - destruct (SysPoller_poll (-1) (daemon p)) as [[cs d]|] eqn:Hd; [|done]. intros [= <-].
    apply (process_ok_threads (with_daemon (set_loop_handing true d) p)); cbn; rewrite ?Ht; try done.
    apply process_ok_daemon; [done|done|by apply (flagfix_poll (-1) _ _ _ Hd)|]. by eapply intact_handing, intact_poll.
  - intros [= <-]. apply (process_ok_threads (with_daemon (set_loop_handing false (daemon p)) p)); cbn; rewrite ?Ht; try done.
    apply process_ok_daemon; [done|done|done|]. by apply intact_handing.
  - intros [(d & Hd & ->)|Hx]%after_run_inv; [|by eapply process_ok_exit].
    apply (process_ok_threads (with_daemon d p)); cbn; rewrite ?Ht; try done.
    apply process_ok_daemon; [done|done|by eapply flagfix_handleEvents|]. by eapply intact_handle.
Qed.
Lemma pstep_ok p p' : pstep indet parse_partial fuel options p p' → process_ok p → process_ok p'.
Proof.
  intros [w q q' Hs] Hp. unfold process_step, step_with in Hs. case_bool_decide as Hst; [done|]. apply eq_None_not_Some in Hst.
  destruct w; [by eapply main_step_ok|by eapply interface_step_ok|by eapply ip_step_ok|by eapply loop_step_ok].
Qed.
Lemma launch_ok e : process_ok (launch e).
Proof. constructor; cbn; try done. eauto. Qed.
Lemma process_reachable_ok e p : rtc (pstep indet parse_partial fuel options) (launch e) p → process_ok p.
Proof. intros Hr. pose proof (launch_ok e) as Hp. induction Hr as [|p1 p2 p3 Hs _ IH]; [done|]. by eapply IH, pstep_ok. Qed.

(** ** Freed memory *)

Lemma grow_IoHandle_new A fd : grow A (IoHandle_new fd : D E _) (λ h B, h ∈ hs B).
Proof.
  unfold IoHandle_new. eapply grow_after; [apply keep_kcall|]. intros fl _. eapply grow_after; [apply keep_kcall_|]. intros _ _.
  intros d <- Hc. erewrite M_bind_ok by reflexivity. set (d' := set_handles (<[next_id d := mkIoHandle fd noneEvent noneEvent false false None None None None]> (handles d)) (set_next_id (S (next_id d)) d)).
  rewrite (M_bind_ok _ _ _ tt d') by done.
  assert (within (doms d) (doms d')) as Hw by (unfold within; cbn; rewrite !dom_insert_L; set_solver).
  split_and!; [done| |cbn; rewrite dom_insert_L; set_solver]. destruct (closed_mono _ _ _ Hw Hc) as [C1 C2 C3 C4 C5 C6]. by constructor.
Qed.
Lemma grow_AgentHub_new A : grow A (AgentHub_new : D E _) (λ _ _, True).
Proof.
  unfold AgentHub_new. do 2 (eapply grow_after; [apply keep_kcall_|]; intros _ _).
  do 2 (eapply grow_after; [apply keep_kcall|]; intros ? _). destruct (_ =? -1); [by apply (keep_grow A _ (λ _, True)); [apply keep_fail|]|].
  eapply grow_bind; [apply grow_IoHandle_new|]. intros h B Hw Hh. apply (keep_grow B _ (λ _, True)); [|done].
  unfold IoHandle_setOnReadCB, IoHandle_enableReading, change_interest, EventReactor_updateChannel, EventReactor_hasChannel, SysPoller_updateChannel. keep_steps.
Qed.
Lemma keep_TunIface_init A : keep A (TunIface_init : D E _) (λ _, True).
Proof. unfold TunIface_init, TunIface_allocateTun, TunIface_setIfUp, TunIface_setIfAddr, ShellOp_run. keep_steps. Unshelve. exact (λ _, True). Qed.
Lemma fresh_closed c e : closed (fresh_daemon c e : Daemon E).
Proof. constructor; cbn; try (by intros); set_solver. Qed.
Lemma Arbiter_init_safe d : closed d → outcome (Arbiter_init d) (λ _, True).
Proof.
  intros Hc. unfold Arbiter_init. eapply outcome_bind; [by apply (outcome_grow _ d (λ _ _, True)), Hc; apply grow_AgentHub_new|].
  intros u d1 Hr [_ Hc1]. destruct (AgentHub_new_links u d d1 Hr) as (fd & Hl & _).
  assert (hub d1 = Some (fd, next_id d)) as Hh by (apply (f_equal l_hub) in Hl; exact Hl).
  rewrite (M_bind_ok _ _ d1 (Some (fd, next_id d)) d1) by (by unfold gets; rewrite Hh).
  rewrite (M_bind_ok _ _ d1 (fd, next_id d) d1) by done.
  eapply outcome_weaken; [apply (outcome_keep _ d1 (λ _, True)), Hc1; apply keep_register|done]. cbn.
  assert (is_Some (l_handles (links d1) !! next_id d)) as [x Hx] by (rewrite Hl; cbn; by rewrite lookup_insert_eq).
  destruct (lookup_node _ _ _ _ Hx) as (x' & Hx' & _). by apply elem_of_dom.
Qed.
Lemma init_safe c e : outcome (Veloxd_init (fresh_daemon c e : Daemon E)) (λ _, True).
Proof.
  unfold Veloxd_init. rewrite (M_bind_ok _ _ (fresh_daemon c e) c (fresh_daemon c e)) by done. destruct (logging_filter _); [|done].
  eapply outcome_bind; [apply (outcome_keep _ _ (λ _, True)), fresh_closed; apply keep_TunIface_init|]. intros u d1 _ [_ [C1 C2 C3 C4 C5 C6]].
  rewrite (M_bind_ok _ _ d1 tt (set_idgenerator (Some (mkIdGen 0)) (set_defragCtxList (Some []) d1))) by done.
  apply Arbiter_init_safe. constructor; try done. cbn. intros gs g [= <-]. set_solver.
Qed.
Lemma exit_safe e p : exit_process e p ≠ Fault UseAfterFree.
Proof.
  unfold exit_process, Veloxd_exit. erewrite M_bind_ok by reflexivity. by destruct (running (daemon p)).
Qed.
Lemma after_run_safe r k p Q : outcome r Q → after_run r k p ≠ Fault UseAfterFree.
Proof. destruct r as [[[] d]|f]; cbn; [done|]. intros Hf. destruct f; try done. apply exit_safe. Qed.

Lemma Arbiter_start_safe d : closed d → outcome (Arbiter_start d) (λ _, True).
Proof.
  intros Hc. eapply outcome_weaken; [apply (outcome_keep _ d (λ _, True)), Hc|done]. unfold Arbiter_start, AgentHub_listen. keep_steps.
Qed.
Lemma main_safe p : process_ok p → status p = None → main_step options p ≠ Fault UseAfterFree.
Proof.
  intros [_ _ F _] Hs. unfold main_step. destruct (main p) eqn:Hm; try done. destruct (F eq_refl Hs) as [e He]. unfold main_init.
  destruct (Veloxd_readConf _ _) as [x|c]; [apply exit_safe|]. rewrite He. change (set_conf c _) with (fresh_daemon c e).
  eapply after_run_safe, init_safe.
Qed.
Lemma threads_safe p : process_ok p → interface_step p ≠ Fault UseAfterFree ∧ ip_step indet p ≠ Fault UseAfterFree.
Proof.
  intros Hp. split.
  - unfold interface_step. destruct (ifThread p) eqn:Ht; try done. eapply after_run_safe, Interface_turn_safe.
    apply Hp, present_init; [done|]. by rewrite Ht.
  - unfold ip_step. destruct (ipThread p) eqn:Ht; try done. eapply after_run_safe, Ip_turn_safe.
    apply Hp, present_init; [done|]. by rewrite Ht, orb_true_r.
Qed.
Lemma start_safe p : process_ok p → loopThread p = LThread TCreated → after_run (Arbiter_start (daemon p)) (λ d, with_loop (LThread THead) (with_daemon d p)) p ≠ Fault UseAfterFree.
Proof. intros Hp Ht. eapply after_run_safe, Arbiter_start_safe, good_doms, Hp, loop_init; [done|]. by rewrite Ht. Qed.
End spec.

(** ** Watching the callbacks *)

Section watch.
Context {E : Type} `{Epoll E} `{Codec}.
Context (indet : list Z) (parse_partial : list Z → Request) (fuel : nat) (options : option (cmd_option → option (list Z))).
Implicit Types p : Process E.
Implicit Types d : Daemon E.
Notation process_step := (process_step indet parse_partial fuel options).

(** The process's step, stopped with [f] when a callback of a channel has
    destroyed one of the handles that are being handled. *)
Definition watched_step (f : fault) (w : who) p : res (option (Process E)) := step_with indet (λ l, checked parse_partial fuel f l) options w p.
(** A step at which the watch does not stop. *)
Inductive undisturbed : Process E → Process E → Prop :=
  | undisturbed_step w p p' : (∀ f, watched_step f w p = Ok (Some p')) → undisturbed p p'.

(** The handles still to be handled are alive, and so is whatever epoll may
    report. *)
Record attentive p : Prop := {
  at_ok : process_ok p;
  at_heard : heard (daemon p);
  at_batch : ∀ cs, loopThread p = LHandling cs → live cs (daemon p)
}.

Lemma heard_flags d : heard d → heard (set_running false (set_loop_stopflag true (set_ip_stopflag true (set_if_stopflag true d)))).
Proof. intros []. by constructor. Qed.
Lemma exit_attentive e p p' : attentive p → exit_process e p = Ok (Some p') → attentive p'.
Proof.
  intros [O Hh B] Hx. pose proof (process_ok_exit _ _ _ O Hx) as O'. unfold exit_process, Veloxd_exit in Hx.
  erewrite M_bind_ok in Hx by reflexivity. destruct (running (daemon p)).
  - rewrite (M_bind_ok _ _ _ _ _ (Veloxd_stop_run (daemon p))) in Hx. injection Hx as <-. constructor; [done|by apply heard_flags|exact B].
  - injection Hx as <-. constructor; [done|exact Hh|exact B].
Qed.
(** A piece of a thread's code that keeps the handles. *)
Lemma after_run_attentive (m : D E unit) k p p' : attentive p → hearing m → (∀ u d', m (daemon p) = Ok (u, d') → hs (doms (daemon p)) ⊆ hs (doms d')) →
  (∀ d, daemon (k d) = d) → (∀ d cs, loopThread (k d) = LHandling cs → loopThread p = LHandling cs) → process_ok p' →
  after_run (m (daemon p)) k p = Ok (Some p') → attentive p'.
Proof.
  intros Hp Hm Hhs Kd Kl Ok' [(d & Hd & ->)|Hx]%after_run_inv; [|by eapply exit_attentive].
  constructor; [done|rewrite Kd; by eapply Hm, Hd; apply Hp|]. intros cs Hcs. rewrite Kd. eapply live_doms; [by eapply Hhs|].
  apply Hp. by eapply Kl.
Qed.
Lemma attentive_same p p' : attentive p → process_ok p' → heard (daemon p') → (∀ cs, loopThread p' = LHandling cs → loopThread p = LHandling cs) →
  handles (daemon p') = handles (daemon p) → attentive p'.
Proof. intros Hp O Hh Hl Hd. constructor; [done|done|]. intros cs Hcs i Hi. rewrite Hd. by eapply (at_batch _ Hp cs); [apply Hl|]. Qed.
Lemma grown {A} (m : D E A) d u d' : grow (doms d) m (λ _ _, True) → closed d → m d = Ok (u, d') → hs (doms d) ⊆ hs (doms d').
Proof. intros Hg Hc Hr. destruct (outcome_true _ _ _ (outcome_grow m d _ Hg Hc) _ _ Hr) as [(_ & Hw & _) _]. exact Hw. Qed.

(** The threads without a batch. *)
Lemma other_attentive w p p' : w ≠ WLoop → attentive p → process_step w p = Ok (Some p') → attentive p'.
Proof.
  intros Hw Hp Hs. pose proof (pstep_ok indet parse_partial fuel options p p' ltac:(by econstructor) (at_ok _ Hp)) as O'.
  unfold Process.process_step, step_with in Hs. case_bool_decide as Hst; [done|]. apply eq_None_not_Some in Hst. destruct w; [..|done].
  - unfold main_step in Hs. pose proof (at_heard _ Hp) as Hh. destruct (main p) eqn:Hm; [|injection Hs as <-; apply (attentive_same p); try done; destruct Hh; by constructor..|done].
    unfold main_init in Hs. destruct (Veloxd_readConf _ _) as [x|c]; [by eapply exit_attentive|].
    apply after_run_inv in Hs as [(d & Hd & ->)|Hx]; [|by eapply exit_attentive]. constructor; [done| |].
    + eapply hearing_Veloxd_init; [|exact Hd]. destruct Hh. by constructor.
    + intros cs Hcs. cbn in Hcs. exfalso. by apply (loop_init p (at_ok _ Hp)); [rewrite Hcs|].
  - unfold interface_step in Hs. destruct (ifThread p) eqn:Ht; try done.
    + injection Hs as <-. apply (attentive_same p); try done. apply Hp.
    + injection Hs as <-. apply (attentive_same p); try done. apply Hp.
    + apply (after_run_attentive Interface_turn (λ d, with_if THead (with_daemon d p)) p); [done|apply hearing_Interface_turn| |done|done|done|exact Hs].
      intros u d'. apply grown; [apply grow_Interface_turn|]. apply good_doms, Hp, present_init; [apply Hp|]. by rewrite Ht.
  - unfold ip_step in Hs. destruct (ipThread p) eqn:Ht; try done.
    + injection Hs as <-. apply (attentive_same p); try done. apply Hp.
    + injection Hs as <-. apply (attentive_same p); try done. apply Hp.
    + apply (after_run_attentive (Ip_turn indet) (λ d, with_ip THead (with_daemon d p)) p); [done|apply hearing_Ip_turn| |done|done|done|exact Hs].
      intros u d'. apply grown; [apply grow_Ip_turn|]. apply good_doms, Hp, present_init; [apply Hp|]. by rewrite Ht, orb_true_r.
Qed.

(** The event loop: the watch stops, or it makes no difference and nothing
    dangles. *)
Definition watched_ok p : Prop :=
  (∀ f, f ≠ ExitFailure → f ≠ Sleeps → watched_step f WLoop p = Fault f) ∨
  (∀ f, watched_step f WLoop p = process_step WLoop p) ∧ process_step WLoop p ≠ Fault UseAfterFree ∧
    ∀ p', process_step WLoop p = Ok (Some p') → attentive p'.
Lemma loop_step_eq cbs p : status p = None → step_with indet cbs options WLoop p = loop_step cbs p.
Proof. intros Hs. unfold step_with. rewrite bool_decide_eq_false_2; [done|]. rewrite Hs. by intros []. Qed.

Lemma poll_watched p : attentive p → status p = None → loopThread p = LThread TBody → watched_ok p.
Proof.
  intros Hp Hs Ht. right. unfold watched_step, Process.process_step. split; [intros f; rewrite !loop_step_eq by done; unfold loop_step; by rewrite Ht|].
  rewrite loop_step_eq by done. assert (main p ≠ MInit) as Hm by (apply loop_init; [apply Hp|by rewrite Ht]).
  destruct (po_init _ (at_ok _ Hp) Hm) as [_ G].
  destruct (k_epoll_wait maxEventsReceivedEachPoll (-1) (env (daemon p))) as [[n evs] e'] eqn:Hw.
  destruct (heard_wait _ _ _ _ _ _ (at_heard _ Hp) Hw) as [Hl _]. destruct (poll_safe n evs e' (daemon p) G Hw Hl) as [Ho Hcs].
  split.
  - unfold loop_step. rewrite Ht. unfold outcome in Ho. destruct (SysPoller_poll _ _) as [[]|]; [done|]. cbn in Ho. congruence.
  - intros p' Hr. pose proof (loop_step_ok parse_partial fuel p p' (at_ok _ Hp) Hr) as O'. unfold loop_step in Hr. rewrite Ht in Hr.
    destruct (SysPoller_poll (-1) (daemon p)) as [[cs d]|] eqn:Hd; [|done]. injection Hr as <-. destruct Ho as [_ Hl']. constructor; [done| |].
    + cbn. destruct (hearing_poll (-1) _ _ _ (at_heard _ Hp) Hd). by constructor.
    + cbn. intros cs' [= <-]. destruct (Hcs cs d eq_refl) as [-> | ->]; [set_solver|exact Hl'].
Qed.
Lemma handler_watched p c cs : attentive p → status p = None → loopThread p = LHandling (c :: cs) → watched_ok p.
Proof.
  intros Hp Hs Ht. assert (main p ≠ MInit) as Hm by (apply loop_init; [apply Hp|by rewrite Ht]).
  destruct (po_init _ (at_ok _ Hp) Hm) as [_ G]. pose proof (at_batch _ Hp _ Ht) as Hl.
  unfold watched_ok, watched_step, Process.process_step. setoid_rewrite loop_step_eq; [|done..].
  destruct (batch_handleEvents parse_partial fuel (c :: cs) c ltac:(set_solver) (daemon p) G Hl) as [Hstop|[Heq Ho]].
  - left. intros f Hf Hf'. unfold loop_step. rewrite Ht, Hstop. by destruct f.
  - right. split; [|split].
    + intros f. unfold loop_step. by rewrite Ht, Heq.
    + unfold loop_step. rewrite Ht. by eapply after_run_safe.
    + intros p' Hr. pose proof (loop_step_ok parse_partial fuel p p' (at_ok _ Hp) Hr) as O'. unfold loop_step in Hr. rewrite Ht in Hr.
      apply after_run_inv in Hr as [(d & Hd & ->)|Hx]; [|by eapply exit_attentive]. destruct (outcome_true _ _ _ Ho _ _ Hd) as [_ Hl'].
      constructor; [done|cbn; by eapply hearing_handleEvents, Hd; apply Hp|]. cbn. intros cs' [= <-] i Hi. apply Hl'. set_solver.
Qed.
(** The steps of the loop's thread that run no callback. *)
Lemma plain_watched p : attentive p → status p = None → (∀ cbs cbs', loop_step cbs p = loop_step cbs' p) →
  (∀ cbs, loop_step cbs p ≠ Fault UseAfterFree) →
  (∀ cbs p', loop_step cbs p = Ok (Some p') → attentive p' ∨ heard (daemon p') ∧ ∀ cs, loopThread p' ≠ LHandling cs) → watched_ok p.
Proof.
  intros Hp Hs Hc Hu Hn. right. unfold watched_step, Process.process_step. setoid_rewrite loop_step_eq; [|done..]. split_and!; [done|done|].
  intros p' Hr. destruct (Hn _ p' Hr) as [?|[Hh Hl]]; [done|]. constructor; [by eapply loop_step_ok, Hr; apply Hp|done|]. intros cs Hcs. by apply Hl in Hcs.
Qed.
Lemma loop_watched p : attentive p → status p = None → watched_ok p.
Proof.
  intros Hp Hs. pose proof (at_heard _ Hp) as Hh.
  destruct (loopThread p) as [[| | | |]|[|c cs]] eqn:Ht; [..|by eapply handler_watched]; [| | |by apply poll_watched| |];
    (apply plain_watched; [done|done|unfold loop_step; by rewrite Ht| |]); unfold loop_step; try (rewrite Ht; done).
  - intros cbs. rewrite Ht. by apply start_safe; [apply Hp|].
  - intros cbs p'. rewrite Ht. intros [(d & Hd & ->)|Hx]%after_run_inv; [|left; by eapply exit_attentive].
    right. split; [by eapply hearing_Arbiter_start|done].
  - intros cbs p'. rewrite Ht. intros [= <-]. right. by split.
  - intros cbs p'. rewrite Ht. intros [= <-]. right. split; [|done]. cbn. destruct Hh. by constructor.
Qed.
Lemma undisturbed_attentive p p' : undisturbed p p' → attentive p → attentive p' ∧ pstep indet parse_partial fuel options p p'.
Proof.
  intros [w q q' Hs] Hq. destruct (status q) as [z|] eqn:Hst.
  { specialize (Hs OutOfFuel). unfold watched_step, step_with in Hs. rewrite bool_decide_eq_true_2 in Hs by (by rewrite Hst). done. }
  destruct (decide (w = WLoop)) as [->|Hw].
  - destruct (loop_watched q Hq Hst) as [Hstop|(Heq & _ & Ha)].
    + exfalso. specialize (Hs OutOfFuel). by rewrite Hstop in Hs.
    + assert (process_step WLoop q = Ok (Some q')) as Hr by by rewrite <-(Heq OutOfFuel). split; [by apply Ha|by econstructor].
  - assert (process_step w q = Ok (Some q')) as Hr; [|split; [by eapply other_attentive|by econstructor]].
    specialize (Hs OutOfFuel). unfold watched_step in Hs. unfold Process.process_step, step_with in *. case_bool_decide; [done|]. by destruct w.
Qed.
Lemma launch_attentive e : interest e = ∅ → attentive (launch e).
Proof.
  intros He. constructor; [apply launch_ok| |done]. constructor; cbn; try done.
  - intros fd i. by rewrite He, lookup_empty.
  - intros c. split; [set_solver|]. by intros (h & Hh & _).
  - constructor.
Qed.
Lemma undisturbed_run e p : interest e = ∅ → rtc undisturbed (launch e) p → attentive p ∧ rtc (pstep indet parse_partial fuel options) (launch e) p.
Proof.
  intros He Hr. pose proof (launch_attentive e He) as Ha. induction Hr as [|p1 p2 p3 Hs _ IH]; [by split|].
  destruct (undisturbed_attentive p1 p2 Hs Ha) as [Ha2 Hp]. destruct (IH Ha2). split; [done|by eapply rtc_l].
Qed.
End watch.

(** ** Properties *)

(** C3. Freed memory is never used, with one exception.  From [main] on, in any
    interleaving of [main], the interface thread, the IP thread and the single
    handlers of the event loop, as long as no callback of an agent channel has
    destroyed one of the handles being handled, no step touches a destroyed
    frame, handle, session, endpoint or channel, and every handle epoll reports
    is alive; a step that does is a handler of the event loop in which such a
    callback has just done that, and watching the handles after each callback of
    a channel stops it first. *)
Theorem no_dangling {E} `{Epoll E} `{Codec} indet parse_partial fuel options (e : E) (p : Process E) :
  interest e = ∅ → rtc (undisturbed indet parse_partial fuel options) (launch e) p →
  rtc (pstep indet parse_partial fuel options) (launch e) p ∧
  ∀ w, process_step indet parse_partial fuel options w p = Fault UseAfterFree →
    w = WLoop ∧ ∀ f, f ≠ ExitFailure → f ≠ Sleeps → watched_step indet parse_partial fuel options f w p = Fault f.
Proof.
  intros He Hr. destruct (undisturbed_run _ _ _ _ e p He Hr) as [Ha Hp]. split; [done|]. intros w Hu.
  assert (status p = None) as Hs.
  { apply eq_None_not_Some. intros Hs. unfold process_step, step_with in Hu. by rewrite bool_decide_eq_true_2 in Hu. }
  destruct (decide (w = WLoop)) as [->|Hw]; [split; [done|]|exfalso].
  - destruct (loop_watched indet parse_partial fuel options p Ha Hs) as [?|(_ & Hno & _)]; done.
  - unfold process_step, step_with in Hu. case_bool_decide; [done|]. destruct (threads_safe indet p (at_ok _ Ha)).
    destruct w; try done. by apply (main_safe indet parse_partial options p (at_ok _ Ha) Hs).
Qed.

(** C4. The process as a whole: in every interleaving of [main], the threads it
    creates and the event loop's handlers, a thread exists exactly when
    [Veloxd::run] has started it, [running] is set exactly while threads may
    run, and from the end of [Veloxd::init] on the daemon's invariant and its
    ownership graph hold and no frame's pointer dangles; before it, nothing has
    been created. *)
Theorem process_invariant {E} `{Kernel E} `{Codec} indet parse_partial fuel options (e : E) (p : Process E) :
  rtc (pstep indet parse_partial fuel options) (launch e) p → process_ok p.
Proof. apply process_reachable_ok. Qed.

(** ** Concrete runs *)

(** An interceptor connects and closes its end: epoll reports the channel
    readable, the read returns 0, and the channel's callback destroys the handle
    whose events are being handled. *)
Definition one_close : escript := mkEScript (mkDScript 10 [(0, [], 0)] [] [40] [(1, [(POLLIN, 0%nat)]); (1, [(POLLIN, 1%nat)])] []) ∅.
Definition no_options : option (cmd_option → option (list Z)) := Some (λ _, None).
Definition nothing_parsed : list Z → Request := λ _, mkRequest 0 None.
Definition close_schedule : list who :=
  [WMain; WMain; WMain; WInterface; WMain; WLoop; WLoop; WLoop; WIp; WLoop; WLoop; WLoop; WIp; WLoop].
Definition run_of (e : escript) (ws : list who) : Process escript :=
  match run_threads (H0 := wire_codec) [] nothing_parsed 3 no_options ws (launch e) with Ok p => p | Fault _ => launch e end.
Definition is_ok {A} (r : res A) : bool := match r with Ok _ => true | Fault _ => false end.
Lemma run_of_reachable e ws : is_ok (run_threads (H0 := wire_codec) [] nothing_parsed 3 no_options ws (launch e)) = true →
  rtc (pstep (H0 := wire_codec) [] nothing_parsed 3 no_options) (launch e) (run_of e ws).
Proof. unfold run_of. destruct (run_threads _ _ _ _ _ _) eqn:Hr; [|done]. intros _. by eapply run_threads_rtc. Qed.
(** The watch stops at none of the steps. *)
Fixpoint calm (ws : list who) (p : Process escript) : Prop :=
  match ws with
  | [] => True
  | w :: ws =>
      match process_step (H0 := wire_codec) [] nothing_parsed 3 no_options w p with
      | Ok (Some p') => (∀ f, watched_step (H1 := wire_codec) [] nothing_parsed 3 no_options f w p = Ok (Some p')) ∧ calm ws p'
      | _ => False
      end
  end.
Lemma calm_undisturbed ws p p' : calm ws p → run_threads (H0 := wire_codec) [] nothing_parsed 3 no_options ws p = Ok p' →
  rtc (undisturbed (H1 := wire_codec) [] nothing_parsed 3 no_options) p p'.
Proof.
  revert p. induction ws as [|w ws IH]; intros p Hc Hr; cbn in Hr; [by injection Hr as ->|]. cbn in Hc.
  destruct (process_step _ _ _ _ w p) as [[p1|]|]; [|done..]. destruct Hc as [Hw Hc]. eapply rtc_l; [by econstructor|by apply IH].
Qed.

Lemma no_dangling_witness :
  let p := run_of one_close close_schedule in
  process_step (H0 := wire_codec) [] nothing_parsed 3 no_options WLoop p = Fault UseAfterFree ∧
  ∀ f, f ≠ ExitFailure → f ≠ Sleeps → watched_step (H1 := wire_codec) [] nothing_parsed 3 no_options f WLoop p = Fault f.
Proof.
  cbv zeta. set (p := run_of _ _).
  assert (process_step (H0 := wire_codec) [] nothing_parsed 3 no_options WLoop p = Fault UseAfterFree) as Hu by (vm_compute; reflexivity).
  split; [exact Hu|].
  destruct (no_dangling (H1 := wire_codec) [] nothing_parsed 3 no_options one_close p) as [_ Hw]; [reflexivity| |by apply (Hw WLoop)].
  apply (calm_undisturbed close_schedule); [|vm_compute; reflexivity].
  vm_compute. repeat (split; [intros f; reflexivity|]). exact I.
Defined.

Lemma process_invariant_witness :
  let p := run_of one_close close_schedule in
  process_ok p ∧ (main p, ifThread p, ipThread p, loopThread p) = (MExited, THead, TBody, LHandling [1%nat]) ∧ rrChannels (daemon p) = [2%nat].
Proof.
  cbv zeta. split; [|vm_compute; done]. apply (process_invariant (H0 := wire_codec) [] nothing_parsed 3 no_options one_close).
  by apply run_of_reachable; vm_compute.
Defined.
