(* ===== verification/StopSpec.v ===== *)
(** * The end of the process

    What [Veloxd::stop] does to the three threads, and where each is found when
    nothing more happens. *)

From S2P Require Import Prelude Csum16 Frame Session World DScript Reactor Rpc Wire Net Agent Udp Tcp Reassembly IpRx Dispatch Arbiter Alive AliveLayers Boot Process Flags Wakeful ReactorSpec AgentSpec UdpSpec Invariant Interest LoopSpec BootSpec SocketCallSpec Ownership Safety ProcessSpec.

(** ** The end *)

Section stop.
Context {E : Type} `{Epoll E} `{Codec}.
Context (indet : list Z) (parse_partial : list Z → Request) (fuel : nat) (options : option (cmd_option → option (list Z))).
Implicit Types p : Process E.
Implicit Types d : Daemon E.
Notation process_step := (process_step indet parse_partial fuel options).

(** How many steps a thread still takes once its stop flag is set; a poll
    reports at most 64 handles. *)
Definition remaining (t : thread_state) : nat := match t with TCreated => 2 | THead => 1 | TBody => 2 | _ => 0 end.
Definition loop_remaining (t : loop_state) : nat :=
  match t with LThread TBody => 67 | LThread t => remaining t | LHandling cs => S (S (length cs)) end.
Definition remaining_steps p : nat :=
  match status p with Some _ => 0 | None => S (remaining (ifThread p) + remaining (ipThread p) + loop_remaining (loopThread p)) end.
(** [Veloxd::stop] has been called, and the event loop was running. *)
Definition all_present p : Prop := ifThread p ≠ TAbsent ∧ ipThread p ≠ TAbsent ∧ loopThread p ≠ LThread TAbsent.
Record stopped p : Prop := {
  sp_main : main p = MExited;
  sp_flags : flags (daemon p) = (true, true, true, false);
  sp_loop : loopThread p ≠ LThread TCreated;
  sp_present : all_present p
}.
(** The moving thread's next state. *)
Definition moves p p' : Prop :=
  main p' = main p ∧ loopThread p' ≠ LThread TCreated ∧ all_present p' ∧ (remaining_steps p' < remaining_steps p)%nat.
Lemma moved_stopped p p' : stopped p → moves p p' → flags (daemon p') = flags (daemon p) → stopped p' ∧ (remaining_steps p' < remaining_steps p)%nat.
Proof. intros [S1 S2 S3 S4] (M1 & M2 & M3 & M4) Hf. split; [|done]. constructor; congruence || done. Qed.
Lemma after_run_stopped (m : D E unit) k p p' : flagfix m → stopped p → status p = None → (∀ d, moves p (k d) ∧ daemon (k d) = d) →
  after_run (m (daemon p)) k p = Ok (Some p') → stopped p' ∧ (remaining_steps p' < remaining_steps p)%nat.
Proof.
  intros Hm S Hs Hk [(d & Hd & ->)|Hx]%after_run_inv.
  - destruct (Hk d) as [K1 K2]. apply moved_stopped; [done|done|]. rewrite K2. by eapply Hm.
  - pose proof S as [S1 S2 S3 S4]. injection S2 as F1 F2 F3 F4. unfold exit_process, Veloxd_exit in Hx. erewrite M_bind_ok in Hx by reflexivity.
    rewrite F4 in Hx. injection Hx as <-. apply moved_stopped; [done| |done]. split_and!; [done|done|apply S4..|]. unfold remaining_steps. rewrite Hs. cbn. lia.
Qed.
Lemma poll_length t d cs d' : SysPoller_poll t d = Ok (cs, d') → (length cs ≤ 64)%nat.
Proof.
  unfold SysPoller_poll. intros Hr. apply M_bind_inv in Hr as ([n evs] & d1 & Hk & Hr).
  assert (length evs ≤ 64)%nat as Hl.
  { unfold kcall in Hk. pose proof (wait_reports maxEventsReceivedEachPoll t (env d)) as Hw.
    destruct (k_epoll_wait _ _ _) as [[n' evs'] e']. injection Hk as _ <- _. apply Hw. }
  destruct (n =? 0); [injection Hr as <- _; cbn; lia|]. destruct (n <? 0); [done|].
  apply M_bind_inv in Hr as (u & d2 & _ & Hr). apply poll_deliver_handles in Hr as ->. rewrite length_fmap. lia.
Qed.
(** The batch being handled is what is left of one poll's report. *)
Definition short_batch p : Prop := ∀ cs, loopThread p = LHandling cs → (length cs ≤ 64)%nat.
Lemma short_same p p' : short_batch p → loopThread p' = loopThread p → short_batch p'.
Proof. intros Hs He cs. rewrite He. apply Hs. Qed.
Lemma short_run r k p p' : short_batch p → (∀ d, short_batch (k d)) → after_run r k p = Ok (Some p') → short_batch p'.
Proof. intros Hs Hk [(d & _ & ->)|(z & d & -> & _)%exit_inv]%after_run_inv; [done|by apply (short_same p)]. Qed.
Lemma short_step p p' : pstep indet parse_partial fuel options p p' → short_batch p → short_batch p'.
Proof.
  intros [w q q' Hs] Hq. unfold Process.process_step, step_with in Hs. case_bool_decide; [done|]. destruct w.
  - unfold main_step, main_init in Hs. destruct (main q); try done; [|injection Hs as <-; by apply (short_same q)..|by injection Hs as <-].
    destruct (Veloxd_readConf _ _); [apply exit_inv in Hs as (z & d & -> & _); by apply (short_same q)|].
    eapply short_run, Hs; [done|]. intros d. by apply (short_same q).
  - unfold interface_step in Hs. destruct (ifThread q); try done; try (injection Hs as <-; by apply (short_same q)).
    eapply short_run, Hs; [done|]. intros d. by apply (short_same q).
  - unfold ip_step in Hs. destruct (ipThread q); try done; try (injection Hs as <-; by apply (short_same q)).
    eapply short_run, Hs; [done|]. intros d. by apply (short_same q).
  - unfold loop_step in Hs. destruct (loopThread q) as [[| | | |]|[|c cs]] eqn:Ht; try done; try (by injection Hs as <-).
    + by eapply short_run, Hs.
    + destruct (SysPoller_poll _ _) as [[cs d]|] eqn:Hd; [|done]. injection Hs as <-. intros cs' [= <-]. by eapply poll_length.
    + eapply short_run, Hs; [done|]. intros d cs' [= <-]. pose proof (Hq _ Ht) as Hl. cbn in Hl. lia.
Qed.
Lemma short_reachable e p : rtc (pstep indet parse_partial fuel options) (launch e) p → short_batch p.
Proof. intros Hr. assert (short_batch (launch e)) as Hs by done. induction Hr as [|p1 p2 p3 Hs1 _ IH]; [done|]. by eapply IH, short_step. Qed.
Lemma remaining_bound p : short_batch p → (remaining_steps p ≤ 72)%nat.
Proof.
  intros Hs. unfold remaining_steps. destruct (status p); [lia|]. assert (∀ t, remaining t ≤ 2)%nat as Hr by (intros []; cbn; lia).
  pose proof (Hr (ifThread p)). pose proof (Hr (ipThread p)). assert (loop_remaining (loopThread p) ≤ 67)%nat; [|lia].
  destruct (loopThread p) as [t|cs] eqn:Ht; [pose proof (Hr t); destruct t; cbn in *; lia|]. pose proof (Hs cs Ht). cbn. lia.
Qed.
Ltac moves Hst Ht S :=
  let S3 := fresh in let S4 := fresh in destruct S as [_ _ S3 S4]; destruct S4 as (? & ? & ?);
  unfold moves, all_present, remaining_steps; cbn; rewrite ?Hst, ?Ht; cbn; split_and!; done || lia.
Lemma stopped_step p p' : pstep indet parse_partial fuel options p p' → stopped p → stopped p' ∧ (remaining_steps p' < remaining_steps p)%nat.
Proof.
  intros [w q q' Hs] S. unfold Process.process_step, step_with in Hs. case_bool_decide as Hst; [done|]. apply eq_None_not_Some in Hst.
  pose proof S as [S1 S2 S3 _]. injection S2 as F1 F2 F3 F4. destruct w; unfold main_step, interface_step, ip_step, loop_step in Hs.
  - by rewrite S1 in Hs.
  - rewrite F1 in Hs. destruct (ifThread q) eqn:Ht; try done; try (injection Hs as <-; apply moved_stopped; [done| |done]; moves Hst Ht S).
    apply after_run_stopped in Hs; [done|apply flagfix_Interface_turn|done|done|]. intros d. split; [|done]. moves Hst Ht S.
  - rewrite F2 in Hs. destruct (ipThread q) eqn:Ht; try done; try (injection Hs as <-; apply moved_stopped; [done| |done]; moves Hst Ht S).
    apply after_run_stopped in Hs; [done|apply flagfix_Ip_turn|done|done|]. intros d. split; [|done]. moves Hst Ht S.
  - rewrite F3 in Hs. destruct (loopThread q) as [[| | | |]|[|c cs]] eqn:Ht; try done;
      try (injection Hs as <-; apply moved_stopped; [done| |done]; moves Hst Ht S).
    + destruct (SysPoller_poll (-1) (daemon q)) as [[cs d]|] eqn:Hd; [|done]. injection Hs as <-. pose proof (poll_length _ _ _ _ Hd) as Hl.
      apply moved_stopped; [done| |by apply (flagfix_poll (-1) _ _ _ Hd)]. moves Hst Ht S.
    + apply after_run_stopped in Hs; [done|apply flagfix_handleEvents|done|done|]. intros d. split; [|done]. moves Hst Ht S.
Qed.
Lemma stopped_steps n p p' : nsteps (pstep indet parse_partial fuel options) n p p' → stopped p → stopped p' ∧ (n + remaining_steps p' ≤ remaining_steps p)%nat.
Proof.
  induction 1 as [|n p1 p2 p3 Hs _ IH]; intros S; [by split|]. destruct (stopped_step p1 p2 Hs S) as [S2 Hlt]. destruct (IH S2). split; [done|lia].
Qed.
(** Nothing left to do: each thread has ended or sleeps. *)
Definition if_over (asleep : who → bool) p : Prop := ifThread p = TEnded ∨ ifThread p = TBody ∧ asleep WInterface = true.
Definition ip_over p : Prop := ipThread p = TEnded ∨ ipThread p = TBody ∧ rxQ (daemon p) = [].
Definition loop_over (asleep : who → bool) p : Prop :=
  loopThread p = LThread TEnded ∨ loopThread p = LThread TBody ∧ asleep WLoop = true ∨
  ∃ c cs, loopThread p = LHandling (c :: cs) ∧
    IoHandle_handleEventsReceived (run_cb parse_partial fuel) c (daemon p) = Fault Sleeps.
Lemma after_run_none r k p : after_run r k p = Ok None → r = Fault Sleeps.
Proof.
  destruct r as [[[] d]|f]; cbn; [done|]. destruct f; try done. unfold exit_process, Veloxd_exit.
  erewrite M_bind_ok by reflexivity. by destruct (running _).
Qed.
Lemma stopped_over asleep p : stopped p → status p = None → at_rest indet parse_partial fuel options asleep p →
  if_over asleep p ∧ ip_over p ∧ loop_over asleep p.
Proof.
  intros [_ _ S3 (P1 & P2 & P3)] Hs Hw.
  assert (∀ w, process_step w p = match w with WMain => main_step options p | WInterface => interface_step p | WIp => ip_step indet p
    | WLoop => loop_step (λ _, run_cb parse_partial fuel) p end) as Hst.
  { intros w. unfold Process.process_step, step_with. by rewrite bool_decide_eq_false_2 by (rewrite Hs; by intros []). }
  split_and!.
  - destruct (Hw WInterface) as [Hi|[Hb%bool_decide_eq_true Ha]]; [|by right]. rewrite Hst in Hi. unfold interface_step in Hi.
    destruct (ifThread p) eqn:Ht; try done; [|by left]. by apply after_run_none, awake_Interface_turn in Hi.
  - destruct (Hw WIp) as [Hi|[Hb _]]; [|done]. rewrite Hst in Hi. unfold ip_step in Hi.
    destruct (ipThread p) eqn:Ht; try done; [|by left]. right. split; [done|]. by apply after_run_none, Ip_turn_sleeps in Hi.
  - destruct (Hw WLoop) as [Hi|[Hb%bool_decide_eq_true Ha]]; [|by right; left]. rewrite Hst in Hi. unfold loop_step in Hi.
    destruct (loopThread p) as [[| | | |]|[|c cs]] eqn:Ht; try done; [by destruct (SysPoller_poll _ _) as [[]|]|by left|].
    right; right. apply after_run_none in Hi. by exists c, cs.
Qed.
End stop.

(** ** Properties *)

(** C35. What [Veloxd::stop] does, once [main] is done.  It sets flags and wakes
    nobody: every thread is where it was, and no system call is made.  If the
    event loop has begun, the threads then take at most 72 more steps altogether,
    whatever the device and epoll deliver (a last batch has at most 64 handles).
    Whenever nothing moves any more, with some threads' [read] or [epoll_wait]
    not returning, each thread has ended or sleeps: the interface thread in its
    [read], the IP thread on its empty queue, the event loop in [epoll_wait] or in
    a callback's [wait_dequeue]; a thread whose call returns ends.  A stop that
    comes before the event loop's thread has begun is lost: [EventReactor::loop]
    clears the flag. *)
Theorem stop_ends_threads {E} `{Epoll E} `{Codec} indet parse_partial fuel options (e : E) (p p1 : Process E) :
  rtc (pstep indet parse_partial fuel options) (launch e) p → main p = MExited → stop_process p = Ok p1 →
  (ifThread p1, ipThread p1, loopThread p1, rxQ (daemon p1), env (daemon p1)) = (ifThread p, ipThread p, loopThread p, rxQ (daemon p), env (daemon p)) ∧
  (loopThread p ≠ LThread TCreated → ∀ n p2, nsteps (pstep indet parse_partial fuel options) n p1 p2 →
     (n ≤ 72)%nat ∧
     ∀ asleep, status p2 = None → at_rest indet parse_partial fuel options asleep p2 →
       if_over asleep p2 ∧ ip_over p2 ∧ loop_over parse_partial fuel asleep p2) ∧
  (loopThread p = LThread TCreated → status p = None → ∀ p2, process_step indet parse_partial fuel options WLoop p1 = Ok (Some p2) →
     status p2 = None → loopThread p2 = LThread THead ∧ loop_stopflag (daemon p2) = false).
Proof.
  intros Hr Hm [= <-]. pose proof (process_reachable_ok _ _ _ _ e p Hr) as Hp. pose proof (short_reachable _ _ _ _ e p Hr) as Hb.
  set (p1 := with_daemon _ p). split; [done|]. split.
  - intros Hl n p2 Hn. pose proof (po_threads _ Hp) as T. rewrite Hm in T. injection T as T1 T2 T3.
    assert (stopped p1) as S by (constructor; [done..|]; split_and!; intros Heq; cbn in Heq; by rewrite Heq in *).
    destruct (stopped_steps _ _ _ _ _ _ _ Hn S) as [S2 Hle]. split; [|intros asleep; by apply stopped_over].
    pose proof (remaining_bound p1 (short_same p p1 Hb eq_refl)). lia.
  - intros Hl Hs p2. unfold process_step, step_with. cbn. rewrite Hs, bool_decide_eq_false_2 by (by intros []). unfold loop_step. cbn. rewrite Hl.
    intros [(d & Hd & ->)|Hx]%after_run_inv Hs2; [by apply Arbiter_start_run in Hd as [e' ->]|].
    apply exit_inv in Hx as (z & d & -> & _). done.
Qed.

(** ** A concrete run *)

(** The process of ProcessSpec.v is stopped while the IP thread waits for a packet
    and the event loop handles a channel. *)
Lemma stop_ends_threads_witness :
  let p := run_of one_close close_schedule in
  ∃ p1, stop_process p = Ok p1 ∧ ipThread p1 = TBody ∧
    ∀ n p2, nsteps (pstep (H0 := wire_codec) [] nothing_parsed 3 no_options) n p1 p2 → (n ≤ 72)%nat ∧
      ∀ asleep, status p2 = None → at_rest (H0 := wire_codec) [] nothing_parsed 3 no_options asleep p2 → if_over asleep p2.
Proof.
  cbv zeta. eexists. split; [reflexivity|].
  destruct (stop_ends_threads (H1 := wire_codec) [] nothing_parsed 3 no_options one_close (run_of one_close close_schedule) _
    ltac:(by apply run_of_reachable; vm_compute) ltac:(vm_compute; reflexivity) eq_refl) as (_ & Hs & _).
  split; [vm_compute; reflexivity|]. intros n p2 Hn. destruct (Hs ltac:(vm_compute; discriminate) n p2 Hn) as [Hle Ho]. split; [exact Hle|].
  intros asleep Ht Hr. exact (proj1 (Ho asleep Ht Hr)).
Defined.
