(* ===== verification/Simulation.v ===== *)
(** * Whole turns are runs of the process

    Arbiter.v describes the running daemon by whole turns ([dstep]), Process.v
    the process by the smaller steps its threads take from [main] on.  Every
    sequence of turns is one of the interleavings of the process, so what the
    theorems on turns reach, the process reaches. *)

From S2P Require Import Prelude Csum16 Frame Session World DScript Reactor Rpc Wire Net Agent Udp Tcp Reassembly IpRx Dispatch Arbiter Boot Process Invariant.

Section simulation.
Context {E : Type} `{Kernel E} `{Codec}.
Context (indet : list Z) (parse_partial : list Z → Request) (fuel : nat) (options : option (cmd_option → option (list Z))).
Implicit Types p : Process E.
Implicit Types d : Daemon E.
Notation dstep := (dstep indet parse_partial fuel).
Notation pstep := (pstep indet parse_partial fuel options).
Notation process_step := (process_step indet parse_partial fuel options).

(** [main] is done and every thread is about to test its stop flag. *)
Definition between_turns d : Process E := mkProcess MExited THead THead (LThread THead) None d.

Lemma move w p p' p'' : process_step w p = Ok (Some p') → rtc pstep p' p'' → rtc pstep p p''.
Proof. intros Hs Hr. eapply rtc_l; [by econstructor|done]. Qed.

(** The handlers of one batch, one after the other. *)
Lemma handle_run cs t1 t2 d d' : handle_actives (run_cb parse_partial fuel) cs d = Ok (tt, d') →
  rtc pstep (mkProcess MExited t1 t2 (LHandling cs) None d) (mkProcess MExited t1 t2 (LHandling []) None d').
Proof.
  revert d. induction cs as [|c cs IH]; intros d Hr; cbn [handle_actives] in Hr; [by injection Hr as <-|].
  apply M_bind_inv in Hr as ([] & d1 & H1 & Hr). eapply (move WLoop); [|by apply IH]. unfold Process.process_step, step_with. cbn. by rewrite H1.
Qed.
Lemma turn_run t1 t2 d d' : EventReactor_turn (run_cb parse_partial fuel) d = Ok (tt, d') →
  rtc pstep (mkProcess MExited t1 t2 (LThread TBody) None d) (mkProcess MExited t1 t2 (LThread THead) None d').
Proof.
  unfold EventReactor_turn. intros Hr. apply M_bind_inv in Hr as (cs & d1 & Hp & Hr). apply M_bind_inv in Hr as (u & d2 & [= _ <-] & Hr).
  apply M_bind_inv in Hr as ([] & d3 & Hh & [= <-]).
  eapply (move WLoop); [unfold Process.process_step, step_with; cbn; by rewrite Hp|]. etrans; [by apply handle_run|].
  by eapply (move WLoop).
Qed.
Lemma dstep_run d d' : dstep d d' → rtc pstep (between_turns d) (between_turns d').
Proof.
  intros [d1 d2 Hf Hr|d1 d2 Hf Hr|d1 d2 Hf Hr].
  - eapply (move WInterface); [by unfold Process.process_step, step_with; cbn; rewrite Hf|].
    eapply (move WInterface); [by unfold Process.process_step, step_with; cbn; rewrite Hr|]. done.
  - eapply (move WIp); [by unfold Process.process_step, step_with; cbn; rewrite Hf|].
    eapply (move WIp); [by unfold Process.process_step, step_with; cbn; rewrite Hr|]. done.
  - eapply (move WLoop); [by unfold Process.process_step, step_with; cbn; rewrite Hf|]. by apply turn_run.
Qed.
Lemma dsteps_run d d' : rtc dstep d d' → rtc pstep (between_turns d) (between_turns d').
Proof. induction 1 as [|d1 d2 d3 Hs _ IH]; [done|]. etrans; [by apply dstep_run|done]. Qed.
(** [main] to its end, and each thread to its loop. *)
Lemma start_run c e d0 d1 : Veloxd_readConf options default_Conf = inr c → Veloxd_init (fresh_daemon c e) = Ok (tt, d0) →
  Arbiter_start (set_running true d0) = Ok (tt, d1) → rtc pstep (launch e) (between_turns d1).
Proof.
  intros Hc Hi Ha. eapply (move WMain).
  { unfold Process.process_step, step_with, main_step, main_init. cbn. rewrite Hc. cbn. change (set_conf c _) with (fresh_daemon c e). by rewrite Hi. }
  do 3 (eapply (move WMain); [reflexivity|]). eapply (move WInterface); [reflexivity|]. eapply (move WIp); [reflexivity|].
  eapply (move WLoop); [|done]. unfold Process.process_step, step_with. cbn. by rewrite Ha.
Qed.
End simulation.

(** Turns are runs: when [Veloxd::init] and the start of the event loop
    succeed, every state of the daemon that whole turns of its three threads
    reach is a state of the process the shell started, reached from [main] by
    the threads' single steps, with every thread back at the head of its loop. *)
Theorem turns_are_runs {E} `{Kernel E} `{Codec} indet parse_partial fuel options c (e : E) d0 d1 d :
  Veloxd_readConf options default_Conf = inr c → Veloxd_init (fresh_daemon c e) = Ok (tt, d0) → Arbiter_start (set_running true d0) = Ok (tt, d1) →
  rtc (dstep indet parse_partial fuel) d1 d → rtc (pstep indet parse_partial fuel options) (launch e) (between_turns d).
Proof. intros Hc Hi Ha Hr. etrans; [by eapply start_run|by apply dsteps_run]. Qed.

(** One interceptor connects. *)
Definition listening : Daemon dscript := after (Arbiter_start (set_running true booted)).
Definition served : Daemon dscript := after (EventReactor_turn (run_cb (H0 := wire_codec) (λ _, mkRequest 0 None) 3) listening).
Lemma turns_are_runs_witness :
  rtc (pstep (H0 := wire_codec) [] (λ _, mkRequest 0 None) 3 (Some (λ _, None))) (launch one_client) (between_turns served) ∧ rrChannels served = [2%nat].
Proof.
  split; [|vm_compute; reflexivity].
  apply (turns_are_runs (H0 := wire_codec) [] (λ _, mkRequest 0 None) 3 (Some (λ _, None)) default_Conf one_client booted listening served);
    [vm_compute; reflexivity..|]. apply rtc_once, step_reactor; vm_compute; reflexivity.
Defined.
