(* ===== verification/Link.v ===== *)
(** * The interceptor and the daemon on one host

    The two halves of Velox meet in the kernel: a channel is an AF_UNIX
    SEQPACKET connection, which carries whole messages in order.  [Host] adds
    such connections to any kernel the daemon runs on, [Guest] puts the daemon
    behind any glibc the interceptor runs on: a message the interceptor writes
    waits in the connection until the daemon's event loop reads it, and a read
    that finds no message lets the daemon's threads run, in the order of a plan
    the scheduler chose, until one is there.  With these two instances the
    models of interceptor and daemon are one system. *)

From S2P Require Import Prelude Rpc Glibc Channel Csum16 Frame Session World Reactor Net Agent Udp Tcp Reassembly IpRx Dispatch Arbiter.

Definition EINTR : Z := 4.
Definition EPIPE : Z := 32.
Definition ECONNREFUSED : Z := 111.

(** One connection: messages to the daemon, messages to the interceptor, and
    whether the interceptor closed its end. *)
Record Conn := mkConn { up : list (list Z); down : list (list Z); shut : bool }.

Record Host (K : Type) := mkHost {
  inner : K;                   (* the rest of the kernel *)
  conns : gmap Z Conn;         (* by the daemon's descriptor *)
  backlog : list Z;            (* connections not yet accepted *)
  listener : option Z;
  interest : gmap Z nat;       (* epoll's interest list: descriptor, data.ptr *)
  next_conn : Z
}.
Arguments mkHost {K}. Arguments inner {K}. Arguments conns {K}. Arguments backlog {K}. Arguments listener {K}.
Arguments interest {K}. Arguments next_conn {K}.

Section host.
Context {K : Type} `{Kernel K}.
Implicit Types h : Host K.

Definition set_inner (k : K) h : Host K := mkHost k (conns h) (backlog h) (listener h) (interest h) (next_conn h).
Definition set_conns (m : gmap Z Conn) h : Host K := mkHost (inner h) m (backlog h) (listener h) (interest h) (next_conn h).
Definition set_interest (m : gmap Z nat) h : Host K := mkHost (inner h) (conns h) (backlog h) (listener h) m (next_conn h).

(** A call the rest of the kernel answers. *)
Definition below_ {A} (f : K → A * K) h : A * Host K := let '(a, k) := f (inner h) in (a, set_inner k h).
Definition below (f : K → K) h : Host K := set_inner (f (inner h)) h.

(** What epoll reports of a connection, level triggered. *)
Definition conn_event (c : Conn) : option Z :=
  match up c with
  | _ :: _ => Some POLLIN
  | [] => if shut c then Some (Z.lor POLLIN POLLHUP) else None
  end.
Definition hub_event h : list (Z * nat) :=
  match backlog h with
  | [] => []
  | _ => match (fd ← listener h; interest h !! fd) with Some p => [(POLLIN, p)] | None => [] end
  end.
Definition conn_events h : list (Z * nat) :=
  omap (λ '(fd, ev), p ← interest h !! fd; Some (ev, p)) (map_to_list (omap conn_event (conns h))).

Definition host_read (fd n : Z) h : (Z * list Z * Z) * Host K :=
  match conns h !! fd with
  | Some c =>
      match up c with
      | m :: r => let bs := take (Z.to_nat n) m in
                  ((Z.of_nat (length bs), bs, 0), set_conns (<[fd := mkConn r (down c) (shut c)]> (conns h)) h)
      | [] => if shut c then ((0, [], 0), h) else ((-1, [], EAGAIN), h)
      end
  | None => below_ (k_read fd n) h
  end.

Definition host_write (fd : Z) (bs : list Z) h : Z * Host K :=
  match conns h !! fd with
  | Some c => if shut c then (-1, h)
              else (Z.of_nat (length bs), set_conns (<[fd := mkConn (up c) (down c ++ [bs]) (shut c)]> (conns h)) h)
  | None => below_ (k_write fd bs) h
  end.

Definition host_close (fd : Z) h : Host K :=
  match conns h !! fd with
  | Some c => set_interest (delete fd (interest h)) (set_conns (delete fd (conns h)) h)
  | None => below (k_close fd) h
  end.

Definition host_accept (fd : Z) h : (Z * Z) * Host K :=
  match backlog h with
  | [] => ((-1, EAGAIN), h)
  | n :: r => ((n, 0), mkHost (inner h) (conns h) r (listener h) (interest h) (next_conn h))
  end.

Definition host_epoll_ctl (op : epoll_op) (fd ev : Z) (p : option nat) h : Z * Host K :=
  let '(r, h) := below_ (k_epoll_ctl op fd ev p) h in
  (r, set_interest (match op, p with
                    | EPOLL_CTL_DEL, _ => delete fd (interest h)
                    | _, Some p => <[fd := p]> (interest h)
                    | _, None => interest h
                    end) h).

(** Connections first; when none is ready, what the rest of the kernel has. *)
Definition host_epoll_wait (n t : Z) h : (Z * list (Z * nat)) * Host K :=
  match take (Z.to_nat n) (hub_event h ++ conn_events h) with
  | [] => below_ (k_epoll_wait n t) h
  | evs => ((Z.of_nat (length evs), evs), h)
  end.

#[global] Instance host_kernel : Kernel (Host K) := {
  k_pipe2 := below_ k_pipe2;
  k_getfl := λ fd, below_ (k_getfl fd);
  k_setfl := λ fd v, below (k_setfl fd v);
  k_read := host_read;
  k_write := host_write;
  k_writev := λ fd bs, below_ (k_writev fd bs);
  k_close := host_close;
  k_accept := host_accept;
  k_epoll_ctl := host_epoll_ctl;
  k_epoll_wait := host_epoll_wait;
  k_listen := λ fd n h, let '(r, h) := below_ (k_listen fd n) h in
    (r, mkHost (inner h) (conns h) (backlog h) (Some fd) (interest h) (next_conn h));
  k_mkdir := λ p, below (k_mkdir p);
  k_unlink := λ p, below (k_unlink p);
  k_socket := λ a b c, below_ (k_socket a b c);
  k_bind := λ fd p, below_ (k_bind fd p);
  k_open := λ p f, below_ (k_open p f);
  k_tunsetiff := λ a b, below_ (k_tunsetiff a b);
  k_system := λ c, below (k_system c)
}.
End host.

(** ** The interceptor's side *)

(** The daemon's threads. *)
Inductive thread : Set := TInterface | TIp | TReactor.

Record Guest (C K : Type) := mkGuest {
  client : C;                          (* the process' own glibc *)
  daemon : res (Daemon (Host K));      (* [Fault] once the daemon has died *)
  linked : gmap Z Z;                   (* the process' channels: descriptor, the daemon's descriptor *)
  plan : list thread                   (* the turns the scheduler will grant *)
}.
Arguments mkGuest {C K}. Arguments client {C K}. Arguments daemon {C K}. Arguments linked {C K}. Arguments plan {C K}.

Section guest.
Context {C K : Type} `{Glibc C} `{Kernel K} `{Codec}.
Context (indet : list Z) (parse_partial : list Z → Request) (fuel : nat).
Notation Daemon := (Daemon (Host K)).
Notation Guest := (Guest C K).

(** A thread's turn: nothing happens when it has stopped or waits for a packet,
    or when the turn would fall asleep, which a plan of whole turns cannot grant
    (Process.v follows such a turn step by step). *)
Definition run_thread (t : thread) (d : Daemon) : res Daemon :=
  let turn (stop : bool) (m : D (Host K) unit) := if stop then Ok d else match m d with Ok (_, d') => Ok d' | Fault Sleeps => Ok d | Fault f => Fault f end in
  match t with
  | TInterface => turn (if_stopflag d) Interface_turn
  | TIp => turn (ip_stopflag d) (Ip_turn indet)
  | TReactor => turn (loop_stopflag d) (EventReactor_turn (run_cb parse_partial fuel))
  end.

Definition pending (fd : Z) (d : Daemon) : option (list Z * Daemon) :=
  c ← conns (env d) !! fd;
  match down c with
  | [] => None
  | m :: r => Some (m, set_env (set_conns (<[fd := mkConn (up c) r (shut c)]> (conns (env d))) (env d)) d)
  end.

(** Let the daemon run until it has answered on [fd]. *)
Fixpoint await (fd : Z) (plan : list thread) (d : Daemon) : res (option (list Z) * Daemon) * list thread :=
  match pending fd d with
  | Some (m, d) => (Ok (Some m, d), plan)
  | None =>
      match plan with
      | [] => (Ok (None, d), [])
      | t :: plan =>
          match run_thread t d with
          | Ok d => await fd plan d
          | Fault f => (Fault f, plan)
          end
      end
  end.

Definition guest_client {A} (f : sys C A) : sys Guest A := λ g,
  let '(r, c) := f (client g) in (r, mkGuest c (daemon g) (linked g) (plan g)).

(** The daemon closed its end when it died: reads return 0, writes fail. *)
Definition guest_read (fd : Z) (buf : option Z) (n : Z) : sys Guest RecvOut := λ g,
  match linked g !! fd, daemon g with
  | None, _ => guest_client (g_read fd buf n) g
  | Some _, Fault _ => ((mkRecv 0 [] None None, None), g)
  | Some dfd, Ok d =>
      match await dfd (plan g) d with
      | (Ok (Some m, d), plan) => let bs := take (Z.to_nat n) m in
          ((mkRecv (Z.of_nat (length bs)) bs None None, None), mkGuest (client g) (Ok d) (linked g) plan)
      | (Ok (None, d), plan) =>
          (if decide (is_Some (conns (env d) !! dfd)) then (mkRecv (-1) [] None None, Some EINTR) else (mkRecv 0 [] None None, None),
           mkGuest (client g) (Ok d) (linked g) plan)
      | (Fault f, plan) => ((mkRecv 0 [] None None, None), mkGuest (client g) (Fault f) (linked g) plan)
      end
  end.

(** A message waits for the daemon. *)
Definition queued (fd : Z) (c : Conn) (bs : list Z) (d : Daemon) : Daemon :=
  set_env (set_conns (<[fd := mkConn (up c ++ [bs]) (down c) (shut c)]> (conns (env d))) (env d)) d.

Definition guest_write (fd : Z) (bs : list Z) (n : Z) : sys Guest Z := λ g,
  match linked g !! fd, daemon g with
  | None, _ => guest_client (g_write fd bs n) g
  | Some _, Fault _ => ((-1, Some EPIPE), g)
  | Some dfd, Ok d =>
      match conns (env d) !! dfd with
      | None => ((-1, Some EPIPE), g)
      | Some c => let bs := take (Z.to_nat n) bs in
          ((Z.of_nat (length bs), None), mkGuest (client g) (Ok (queued dfd c bs d)) (linked g) (plan g))
      end
  end.

(** A connection to the master socket: it exists at once, with the descriptor
    that [accept] will return. *)
Definition connected (d : Daemon) : Daemon :=
  let h := env d in
  set_env (mkHost (inner h) (<[next_conn h := mkConn [] [] false]> (conns h)) (backlog h ++ [next_conn h]) (listener h)
             (interest h) (next_conn h + 1)) d.

Definition guest_connect (fd : Z) (addr : list Z) (len : Z) : sys Guest Z := λ g,
  if decide (addr = master_addr) then
    match daemon g with
    | Ok d => ((0, None), mkGuest (client g) (Ok (connected d)) (<[fd := next_conn (env d)]> (linked g)) (plan g))
    | Fault _ => ((-1, Some ECONNREFUSED), g)
    end
  else guest_client (g_connect fd addr len) g.

Definition hang_up (dfd : Z) (d : Daemon) : Daemon :=
  set_env (set_conns (alter (λ c, mkConn (up c) (down c) true) dfd (conns (env d))) (env d)) d.

Definition guest_close (fd : Z) : sys Guest Z := λ g,
  match linked g !! fd with
  | None => guest_client (g_close fd) g
  | Some dfd =>
      let d := match daemon g with Ok d => Ok (hang_up dfd d) | Fault f => Fault f end in
      guest_client (g_close fd) (mkGuest (client g) d (delete fd (linked g)) (plan g))
  end.

#[global] Instance guest_glibc : Glibc Guest := {
  g_socket := λ a b c, guest_client (g_socket a b c);
  g_connect := guest_connect;
  g_close := guest_close;
  g_read := guest_read;
  g_write := guest_write;
  g_send := λ a b c d, guest_client (g_send a b c d);
  g_sendto := λ a b c d e f, guest_client (g_sendto a b c d e f);
  g_recv := λ a b c d, guest_client (g_recv a b c d);
  g_recvfrom := λ a b c d e f, guest_client (g_recvfrom a b c d e f);
  g_poll := λ a b c, guest_client (g_poll a b c);
  g_select := λ a b c d e, guest_client (g_select a b c d e);
  g_getpeername := λ a b c, guest_client (g_getpeername a b c);
  g_getsockname := λ a b c, guest_client (g_getsockname a b c);
  g_getsockopt := λ a b c d e, guest_client (g_getsockopt a b c d e);
  g_setsockopt := λ a b c d e, guest_client (g_setsockopt a b c d e);
  g_fcntl := λ a b c, guest_client (g_fcntl a b c);
  g_malloc := λ n g, let '(r, c) := g_malloc n (client g) in (r, mkGuest c (daemon g) (linked g) (plan g))
}.
End guest.
