(* ===== verification/LinkSpec.v ===== *)
(** * The two halves of Velox as one system

    On the host of Link.v the daemon keeps the promises the interceptor's
    theorems assume: a request written to a channel is answered with the
    response the daemon's handler computes, and nothing else happens to the
    daemon's state.  [calm m] says that [m] leaves the connections alone, which
    every request handler does. *)

From S2P Require Import Prelude Rpc Wire Glibc Script Channel FdPool Interceptor PoolInv InterceptorSpec SocketSpec Csum16 Frame Session World DScript Reactor Net Agent Udp Tcp Reassembly IpRx Dispatch Arbiter ReactorSpec AgentSpec UdpSpec Invariant LoopSpec BootSpec SocketCallSpec Ownership Wakeful Link.

Section calm.
Context {K : Type} `{Kernel K} `{Codec}.
Notation D := (D (Host K)).

Definition traffic (h : Host K) : gmap Z Conn * list Z := (conns h, backlog h).
Definition calm {A} (m : D A) : Prop := ∀ d a d', m d = Ok (a, d') → traffic (env d') = traffic (env d).

Lemma calm_bind {A B} (m : D A) (k : A → D B) : calm m → (∀ a, calm (k a)) → calm (m ≫= k).
Proof. intros Hm Hk d b d' Hr. apply M_bind_inv in Hr as (a & d1 & H1 & H2). etrans; [by eapply Hk|by eapply Hm]. Qed.
Lemma calm_ret {A} (a : A) : calm (mret a : D A).
Proof. by intros d ? d' [= <- <-]. Qed.
Lemma calm_lift {A} (r : res A) : calm (lift_res r : D A).
Proof. intros d a d'. unfold lift_res. destruct r; [|done]. by intros [= <- <-]. Qed.
Lemma calm_deref {A} (o : option A) : calm (deref o : D A).
Proof. apply calm_lift. Qed.
Lemma calm_fail {A} f : calm (fail f : D A).
Proof. by intros d ? d'. Qed.
Lemma calm_assert b : calm (assert_ b : D unit).
Proof. destruct b; [apply calm_ret|apply calm_fail]. Qed.
Lemma calm_gets {A} (f : Daemon (Host K) → A) : calm (gets f).
Proof. by intros d ? d' [= <- <-]. Qed.
Lemma calm_modify f : (∀ d, env (f d) = env d) → calm (modify f : D unit).
Proof. intros Hf d ? d' [= <- <-]. by rewrite Hf. Qed.
Lemma calm_fresh : calm (fresh : D nat).
Proof. by intros d ? d' [= <- <-]. Qed.
Lemma calm_read_cell {A} (heap : Daemon (Host K) → gmap nat A) i : calm (read_cell heap i).
Proof. intros d a d'. unfold read_cell. destruct (heap d !! i); [|done]. by intros [= <- <-]. Qed.
Lemma calm_kcall {A} (f : Host K → A * Host K) : (∀ h, traffic (f h).2 = traffic h) → calm (kcall f).
Proof. intros Hf d a d'. rewrite kcall_ok. intros [= <- <-]. apply Hf. Qed.
Lemma calm_below {A} (f : K → A * K) : calm (kcall (below_ f)).
Proof. apply calm_kcall. intros h. unfold below_. by destruct (f (inner h)). Qed.
Lemma calm_below_ (f : K → K) : calm (kcall_ (below f)).
Proof. by intros d ? d' [= <- <-]. Qed.
Lemma below_inner {A} (f : K → A * K) h : inner (below_ f h).2 = (f (inner h)).2.
Proof. unfold below_. by destruct (f (inner h)). Qed.
Lemma calm_epoll op fd ev p : calm (kcall (k_epoll_ctl op fd ev p) : D Z).
Proof.
  apply calm_kcall. intros h. cbn. unfold host_epoll_ctl, below_. destruct (k_epoll_ctl op fd ev p (inner h)). by destruct op.
Qed.
End calm.

Create HintDb calm discriminated.
#[export] Hint Resolve calm_lift calm_deref calm_assert calm_gets calm_fresh calm_fail calm_below calm_below_ calm_epoll : calm.
#[export] Hint Extern 1 (calm (the_frame _)) => apply calm_read_cell : calm.
#[export] Hint Extern 1 (calm (the_handle _)) => apply calm_read_cell : calm.
#[export] Hint Extern 1 (calm (the_pcb _)) => apply calm_read_cell : calm.
#[export] Hint Extern 1 (calm (the_endpoint _)) => apply calm_read_cell : calm.
#[export] Hint Extern 1 (calm (the_channel _)) => apply calm_read_cell : calm.
#[export] Hint Extern 1 (calm (modify _)) => by apply calm_modify : calm.
#[export] Hint Extern 1 (calm (put_frame _ _)) => by apply calm_modify : calm.
#[export] Hint Extern 1 (calm (put_handle _ _)) => by apply calm_modify : calm.
#[export] Hint Extern 1 (calm (put_pcb _ _)) => by apply calm_modify : calm.
#[export] Hint Extern 1 (calm (put_endpoint _ _)) => by apply calm_modify : calm.
#[export] Hint Extern 1 (calm (put_channel _ _)) => by apply calm_modify : calm.
#[export] Hint Extern 1 (calm (del_handle _)) => by apply calm_modify : calm.
#[export] Hint Extern 1 (calm (del_pcb _)) => by apply calm_modify : calm.
#[export] Hint Extern 1 (calm (del_endpoint _)) => by apply calm_modify : calm.
#[export] Hint Extern 2 (calm (kcall _)) => apply calm_below : calm.
#[export] Hint Extern 2 (calm (kcall_ _)) => apply calm_below_ : calm.

Ltac calm :=
  repeat first
    [ progress intros
    | apply calm_ret
    | solve [eauto with calm]
    | apply calm_bind; [solve [eauto with calm]|]
    | match goal with
      | |- calm (match ?x with _ => _ end) => destruct x eqn:?
      | |- calm ((match ?x with _ => _ end) ≫= _) => destruct x eqn:?
      | |- calm (mbind _ _) => apply calm_bind
      end ].

Section requests.
Context {K : Type} `{Kernel K} `{Codec}.
Notation D := (D (Host K)).

Lemma calm_tx_gather n curr bs : calm (tx_gather n curr bs : D _).
Proof. revert curr bs. induction n as [|n IH]; intros [i|] bs; cbn [tx_gather]; calm. Qed.
Hint Resolve calm_tx_gather : calm.
Lemma calm_Ip_tx k buf : calm (Ip_tx k buf : D _).
Proof. unfold Ip_tx, Interface_tx, TunIface_tx. calm. Qed.
Lemma calm_handle_new fd : calm (IoHandle_new fd : D _).
Proof. unfold IoHandle_new. calm. Qed.
Lemma calm_enable i : calm (IoHandle_enableReading i : D _).
Proof.
  unfold IoHandle_enableReading, change_interest, EventReactor_updateChannel, EventReactor_hasChannel,
    SysPoller_updateChannel, upd_handle. calm.
Qed.
Lemma calm_handle_delete i : calm (IoHandle_delete i : D _).
Proof. unfold IoHandle_delete, EventReactor_removeChannel, EventReactor_hasChannel, SysPoller_removeChannel. calm. Qed.
Lemma calm_register i : calm (register i : D _).
Proof. unfold register, EventReactor_addChannel, EventReactor_hasChannel, SysPoller_addChannel, IoHandle_setOwnerEventReactor, upd_handle. calm. Qed.
Hint Resolve calm_Ip_tx calm_handle_new calm_enable calm_handle_delete calm_register : calm.
Lemma calm_drain k : calm (drain k : D _).
Proof.
  unfold drain. apply calm_bind; [apply calm_gets|]. intros n.
  generalize (@nil Z) as out. generalize (Some k) as h. induction n as [|n IH]; intros [i|] out; cbn [drain_skbuf_chain]; calm.
Qed.
Lemma calm_udp_base f i : calm (udp_base f i : D _).
Proof. unfold udp_base. calm. Qed.
Lemma calm_tcp_base f i : calm (tcp_base f i : D _).
Proof. unfold tcp_base. calm. Qed.
Hint Resolve calm_drain calm_udp_base calm_tcp_base : calm.
Lemma calm_UdpSession_send buf i : calm (UdpSession_send buf i : D _).
Proof. unfold UdpSession_send, make_FrameBuf, upd_frame. calm. Qed.
Hint Resolve calm_UdpSession_send : calm.
Lemma calm_UdpSession_send_to a p buf i : calm (UdpSession_send_to a p buf i : D _).
Proof. unfold UdpSession_send_to, upd_pcb. calm. Qed.
Lemma calm_TcpSession_send buf i : calm (TcpSession_send buf i : D _).
Proof.
  unfold TcpSession_send, TcpSession_send_closed, TcpSession_send_estab, TcpSession_socketBufferOfTcpTempl,
    TcpSession_prepareBeforeIpTx, make_FrameBuf, upd_frame, upd_tcb, the_tcb. calm.
Qed.
Hint Resolve calm_UdpSession_send_to calm_TcpSession_send : calm.
Lemma calm_endpoint_new ty nb : calm (Endpoint_new ty nb : D _).
Proof. unfold Endpoint_new, IoHandle_setOnReadCB, upd_handle. calm. Qed.
Lemma calm_tcp_new : calm (Tcp_newSession : D _).
Proof. unfold Tcp_newSession, TcpSession_new, IoHandle_setOnReadCB, upd_handle. calm. Qed.
Lemma calm_udp_new : calm (Udp_newSession : D _).
Proof. unfold Udp_newSession, UdpSession_new. calm. Qed.
Lemma calm_endpoint_delete i : calm (Endpoint_delete i : D _).
Proof. unfold Endpoint_delete, Session_delete. calm. Qed.
Hint Resolve calm_endpoint_new calm_tcp_new calm_udp_new calm_endpoint_delete : calm.

Lemma calm_handleRequest ch req : calm (handleRequest ch req : D _).
Proof.
  unfold handleRequest, socketCall, connectCall, closeCall, sendtoCall, recvfromCall, getpeernameCall, getsocknameCall,
    getsockoptCall, pollCall, selectCall, setsockoptCall, fcntlCall, atstartAction, AgentChannel_setPeerName, AgentChannel_setPeerPid,
    Session_connect_v, Session_setOnConnEstabCB_v, Session_send_v, Session_send_to_v, TcpSession_connect,
    TcpSession_setOnConnEstabCB, Endpoint_setOnAsyncNewPacketCB, Endpoint_setWaiting, Endpoint_setSession,
    Endpoint_setAgentChannel, AgentChannel_setSocket, Endpoint_try_takeFromRecvQ, channel_socket, endpoint_pcb,
    upd_endpoint, upd_pcb, upd_channel, upd_tcb. calm.
Qed.
End requests.

(** ** One request through the event loop *)

Lemma set_env_id {E} (d : Daemon E) : set_env (env d) d = d.
Proof. by destruct d. Qed.
Lemma set_conns_id {K} (h : Host K) m : m = conns h → set_conns m h = h.
Proof. intros ->. by destruct h. Qed.

Section turn.
Context {K : Type} `{Kernel K} `{Codec} `{!CodecLaws}.
Context (indet : list Z) (parse_partial : list Z → Request) (fuel : nat).
Implicit Types d : Daemon (Host K).
Notation turn := (EventReactor_turn (run_cb parse_partial fuel)).

Definition idle : Conn := mkConn [] [] false.

(** A daemon that waits for requests: its object graph is intact, its channel
    [dch] is open on the connection [fd] and registered, and no connection has
    anything pending. *)
Record serving (fd : Z) (dch : nat) (cc : AgentChannel) d : Prop := {
  sv_graph : ok_graph d;
  sv_channel : channels d !! dch = Some cc;
  sv_fd : ch_fd cc = fd;
  sv_conn : conns (env d) !! fd = Some idle;
  sv_interest : interest (env d) !! fd = Some (ch_sChannel cc);
  sv_quiet : ∀ fd' c, conns (env d) !! fd' = Some c → conn_event c = None;
  sv_backlog : backlog (env d) = [];
  sv_running : loop_stopflag d = false
}.

(** The state in which the handler runs, and the one after the turn. *)
Definition with_event (ev : Z) (i : nat) (h : IoHandle) d : Daemon (Host K) :=
  set_loop_handing true (set_handles (<[i := set_io_handling true (set_io_received ev h)]> (handles d)) d).
Definition in_turn (i : nat) (h : IoHandle) d : Daemon (Host K) := with_event POLLIN i h d.
Definition after_turn (i : nat) (h : IoHandle) d : Daemon (Host K) :=
  set_loop_handing false (set_handles (<[i := set_io_handling false h]> (handles d)) d).

Lemma in_turn_graph i h d : handles d !! i = Some h → ok_graph d → ok_graph (in_turn i h d).
Proof.
  intros Hi. apply graph_same. split; [|done]. unfold links, in_turn, with_event. cbn. by rewrite (upd_same _ _ _ h).
Qed.

(** epoll reports exactly the connection that has something to report. *)
Lemma one_event fd dch cc c ev d : serving fd dch cc d → conn_event c = Some ev →
  let d' := set_env (set_conns (<[fd := c]> (conns (env d))) (env d)) d in
  host_epoll_wait maxEventsReceivedEachPoll (-1) (env d') = ((1, [(ev, ch_sChannel cc)]), env d').
Proof.
  intros [_ _ _ Hc Hi Hq Hb _] Hev d'. unfold host_epoll_wait.
  assert (hub_event (env d') = []) as -> by (unfold hub_event; cbn; by rewrite Hb).
  assert (conn_events (env d') = [(ev, ch_sChannel cc)]) as ->; [|done].
  unfold conn_events. cbn. replace (omap conn_event _) with ({[fd := ev]} : gmap Z Z).
  { rewrite map_to_list_singleton. cbn. by rewrite Hi. }
  apply map_eq. intros fd'. rewrite lookup_omap. destruct (decide (fd' = fd)) as [->|Hne].
  - by rewrite lookup_singleton_eq, lookup_insert_eq.
  - rewrite lookup_singleton_ne, lookup_insert_ne by done. destruct (conns (env d) !! fd') as [c'|] eqn:Hc'; [|done].
    cbn. by rewrite (Hq _ _ Hc').
Qed.

(** The response waits for the interceptor. *)
Definition replied (fd : Z) (bs : list Z) d : Daemon (Host K) :=
  set_env (set_conns (<[fd := mkConn [] [bs] false]> (conns (env d))) (env d)) d.

(** The callback reads the request and runs the handler as if it had been
    called directly. *)
Lemma read_request fd dch cc h req d :
  let i := ch_sChannel cc in
  serving fd dch cc d → handles d !! i = Some h → request_wf req → length (request_pack req) ≤ RPC_MESSAGE_MAX_SIZE →
  AgentChannel_onReadReady parse_partial dch (in_turn i h (queued fd idle (request_pack req) d)) =
    (resp ← handleRequest dch req; AgentChannel_write resp dch) (in_turn i h d).
Proof.
  intros i Hs Hh Hwf Hl. destruct Hs as [G Hc Hfd Hconn _ _ _ _].
  set (dq := in_turn i h (queued fd idle (request_pack req) d)).
  unfold AgentChannel_onReadReady. mstep (read_cell_ok channels dch cc dq Hc). rewrite Hfd.
  assert (kcall (k_read fd RPC_MESSAGE_MAX_SIZE) dq =
    Ok ((Z.of_nat (length (request_pack req)), request_pack req, 0), in_turn i h d)) as Hread.
  { unfold kcall. cbn. unfold host_read. cbn. rewrite lookup_insert_eq. cbn [up down shut].
    rewrite take_ge by (unfold RPC_MESSAGE_MAX_SIZE in *; lia). do 2 f_equal.
    unfold dq, queued, in_turn, with_event. cbn. rewrite insert_insert_eq, insert_id by done.
    clear. destruct d as [? ? ? ? ? ? ? ? ? ? ? ? ? ? ? ? ? ? ? ? ? ? ? ? []]. reflexivity. }
  mstep Hread. pose proof (request_pack_nonempty req Hwf) as Hne.
  rewrite (proj2 (Z.eqb_neq _ (-1))) by lia. rewrite (proj2 (Z.eqb_neq _ 0)) by (destruct (request_pack req); [done|cbn; lia]).
  cbn [andb]. by rewrite request_roundtrip by done.
Qed.

Lemma request_cb fd dch cc h req resp d d1 :
  let i := ch_sChannel cc in
  serving fd dch cc d → handles d !! i = Some h →
  request_wf req → length (request_pack req) ≤ RPC_MESSAGE_MAX_SIZE →
  handleRequest dch req (in_turn i h d) = Ok (resp, d1) →
  is_Some (retcode resp) → length (response_pack resp) ≤ RPC_MESSAGE_MAX_SIZE →
  run_cb parse_partial fuel (CbChannelReadReady dch) (in_turn i h (queued fd idle (request_pack req) d)) =
    Ok (tt, replied fd (response_pack resp) d1).
Proof.
  intros i Hs Hh Hwf Hl Hr Hrc Hlr. pose proof (read_request fd dch cc h req d Hs Hh Hwf Hl) as Hreq. fold i in Hreq.
  destruct Hs as [G Hc Hfd Hconn _ _ _ _]. pose proof (in_turn_graph i h d Hh G) as G0.
  destruct (handleRequest_graph dch req resp _ _ G0 (mk_is_Some _ _ Hc) Hr) as [G1 Hk].
  destruct (Hk cc Hc) as (c' & Hc' & Hfd' & _). injection (calm_handleRequest dch req _ _ _ Hr) as Hcn _.
  cbn [run_cb]. rewrite (M_bind_ok _ _ _ tt (replied fd (response_pack resp) d1)).
  - unfold release_channel. rewrite (M_bind_ok (gets rrChannels) _ _ (rrChannels d1) (replied fd (response_pack resp) d1)) by done.
    rewrite decide_True; [done|]. apply (g_listed _ _ G1). exists (node_channel c'). by apply (lookup_node_some node_channel).
  - rewrite Hreq. mstep Hr. rewrite (write_ok resp dch c' d1 Hc' Hrc Hlr). unfold respond. rewrite Hfd', Hfd.
    rewrite (M_bind_ok _ _ d1 (Z.of_nat (length (response_pack resp))) (replied fd (response_pack resp) d1)).
    + by rewrite (proj2 (Z.eqb_neq _ (-1))) by lia.
    + unfold kcall, replied. cbn. unfold host_write. rewrite Hcn. cbn. by rewrite Hconn.
Qed.

(** A handle that is only readable, or readable and hung up, runs its read
    callback. *)
Definition readable (ev : Z) : Prop := ev = POLLIN ∨ ev = Z.lor POLLIN POLLHUP.
Lemma handle_readable {E} (cbs : callback → World.D E unit) i h cb (d : Daemon E) :
  handles d !! i = Some h → readable (io_received h) → io_onRead h = Some cb →
  IoHandle_handleEventsReceived cbs i d =
    (_ ← cbs cb; upd_handle i (set_io_handling false)) (set_handles (<[i := set_io_handling true h]> (handles d)) d).
Proof.
  intros Hh Hev Hon. unfold IoHandle_handleEventsReceived. mstep (upd_handle_ok i (set_io_handling true) h d Hh).
  set (d0 := set_handles _ d) in *. assert (handles d0 !! i = Some (set_io_handling true h)) as Hd0 by apply lookup_insert_eq.
  mstep (read_cell_ok handles i _ d0 Hd0). cbn [io_received set_io_handling].
  assert (has_bits (io_received h) POLLHUP && negb (has_bits (io_received h) POLLIN) = false ∧
    has_bits (io_received h) (Z.lor POLLERR POLLNVAL) = false ∧
    has_bits (io_received h) (Z.lor (Z.lor POLLIN POLLPRI) POLLRDHUP) = true ∧
    has_bits (io_received h) POLLOUT = false) as (-> & -> & -> & ->) by (destruct Hev as [-> | ->]; done).
  rewrite (M_bind_ok _ _ d0 tt d0 eq_refl), (M_bind_ok _ _ d0 tt d0 eq_refl).
  assert (fire cbs io_onRead i d0 = cbs cb d0) as Hf.
  { unfold fire. mstep (read_cell_ok handles i _ d0 Hd0). cbn [io_onRead set_io_handling]. by rewrite Hon. }
  unfold mbind, M_bind. rewrite Hf. destruct (cbs cb d0) as [[[] d']|]; done.
Qed.

(** A turn in which epoll reports one handle: its read callback, then the
    flags. *)
Lemma reader_turn_env ev i h cb e' d :
  handles d !! i = Some h → io_onRead h = Some cb → readable ev →
  host_epoll_wait maxEventsReceivedEachPoll (-1) (env d) = ((1, [(ev, i)]), e') →
  turn d = (_ ← run_cb parse_partial fuel cb; _ ← upd_handle i (set_io_handling false);
            modify (set_loop_handing false)) (with_event ev i h (set_env e' d)).
Proof.
  intros Hh Hon Hev Hw. unfold EventReactor_turn. set (de := set_env e' d).
  assert (SysPoller_poll (-1) d = Ok ([i], set_handles (<[i := set_io_received ev h]> (handles de)) de)) as Hpoll.
  { unfold SysPoller_poll. rewrite (M_bind_ok _ _ d (1, [(ev, i)]) de).
    2: { unfold kcall. cbn [k_epoll_wait host_kernel]. by rewrite Hw. }
    cbn [Z.eqb Z.ltb Z.compare poll_fds poll_deliver]. rewrite (M_bind_ok _ _ de tt de).
    2: { by mstep (read_cell_ok handles i h de Hh). }
    by mstep (upd_handle_ok i (set_io_received ev) h de Hh). }
  mstep Hpoll. rewrite (M_bind_ok _ _ _ _ _ eq_refl). cbn [handle_actives]. set (dp := set_loop_handing true _).
  assert (handles dp !! i = Some (set_io_received ev h)) as Hp by apply lookup_insert_eq.
  pose proof (handle_readable (run_cb parse_partial fuel) i _ cb dp Hp Hev Hon) as He.
  replace (set_handles (<[i := set_io_handling true (set_io_received ev h)]> (handles dp)) dp) with (with_event ev i h de) in He
    by (unfold with_event, dp; cbn; by rewrite insert_insert_eq).
  unfold mbind, M_bind in *. rewrite He. destruct (run_cb parse_partial fuel cb (with_event ev i h de)) as [[[] d']|]; [|done].
  by destruct (upd_handle i (set_io_handling false) d') as [[[] d'']|].
Qed.
Lemma reader_turn ev i h cb d :
  handles d !! i = Some h → io_onRead h = Some cb → readable ev →
  host_epoll_wait maxEventsReceivedEachPoll (-1) (env d) = ((1, [(ev, i)]), env d) →
  turn d = (_ ← run_cb parse_partial fuel cb; _ ← upd_handle i (set_io_handling false);
            modify (set_loop_handing false)) (with_event ev i h d).
Proof. intros Hh Hon Hev Hw. rewrite (reader_turn_env ev i h cb (env d)) by done. by rewrite set_env_id. Qed.

Lemma channel_turn ev dch cc h d :
  let i := ch_sChannel cc in
  ok_graph d → channels d !! dch = Some cc → handles d !! i = Some h → readable ev →
  host_epoll_wait maxEventsReceivedEachPoll (-1) (env d) = ((1, [(ev, i)]), env d) →
  turn d = (_ ← run_cb parse_partial fuel (CbChannelReadReady dch); _ ← upd_handle i (set_io_handling false);
            modify (set_loop_handing false)) (with_event ev i h d).
Proof.
  intros i G Hc Hh. apply reader_turn; [done|].
  destruct (g_channel _ _ G dch (node_channel cc)) as (y & Hy & Hry); [by apply (lookup_node_some node_channel)|].
  destruct (lookup_node _ _ _ _ Hy) as (h' & Hh' & ->). cbn in *. fold i in Hh'. congruence.
Qed.

Lemma queued_graph fd c bs d : ok_graph d → ok_graph (queued fd c bs d).
Proof. by apply graph_same. Qed.

Lemma request_turn fd dch cc h req resp d d1 :
  let i := ch_sChannel cc in
  serving fd dch cc d → handles d !! i = Some h →
  request_wf req → length (request_pack req) ≤ RPC_MESSAGE_MAX_SIZE →
  handleRequest dch req (in_turn i h d) = Ok (resp, d1) →
  is_Some (retcode resp) → length (response_pack resp) ≤ RPC_MESSAGE_MAX_SIZE →
  ∃ h1, handles d1 !! i = Some h1 ∧
    turn (queued fd idle (request_pack req) d) = Ok (tt, after_turn i h1 (replied fd (response_pack resp) d1)).
Proof.
  intros i Hs Hh Hwf Hl Hr Hrc Hlr. pose proof (request_cb fd dch cc h req resp d d1 Hs Hh Hwf Hl Hr Hrc Hlr) as Hcb.
  pose proof (one_event fd dch cc (mkConn [request_pack req] [] false) POLLIN d Hs eq_refl) as Hev. destruct Hs as [G Hc _ _ _ _ _ _].
  destruct (handleRequest_graph dch req resp _ _ (in_turn_graph i h d Hh G) (mk_is_Some _ _ Hc) Hr) as [G1 Hk].
  destruct (Hk cc Hc) as (c' & Hc' & _ & Hi').
  destruct (g_channel _ _ G1 dch (node_channel c')) as (x & Hx & _); [by apply (lookup_node_some node_channel)|].
  destruct (lookup_node _ _ _ _ Hx) as (h1 & Hh1 & _). cbn in Hh1. rewrite Hi' in Hh1. fold i in Hh1. exists h1. split; [done|].
  rewrite (channel_turn POLLIN dch cc h (queued fd idle (request_pack req) d)); [|by apply queued_graph|done|done|by left|done].
  mstep Hcb. erewrite M_bind_ok by (apply upd_handle_ok; exact Hh1). done.
Qed.

(** A handler that fails, or whose response cannot be written, is the end of
    the daemon. *)
Lemma request_turn_fault fd dch cc h req f d :
  let i := ch_sChannel cc in
  serving fd dch cc d → handles d !! i = Some h → request_wf req → length (request_pack req) ≤ RPC_MESSAGE_MAX_SIZE →
  (resp ← handleRequest dch req; AgentChannel_write resp dch) (in_turn i h d) = Fault f →
  turn (queued fd idle (request_pack req) d) = Fault f.
Proof.
  intros i Hs Hh Hwf Hl Hr. pose proof (read_request fd dch cc h req d Hs Hh Hwf Hl) as Hreq. fold i in Hreq.
  pose proof (one_event fd dch cc (mkConn [request_pack req] [] false) POLLIN d Hs eq_refl) as Hev. destruct Hs as [G Hc _ _ _ _ _ _].
  rewrite (channel_turn POLLIN dch cc h (queued fd idle (request_pack req) d)); [|by apply queued_graph|done|done|by left|done].
  apply M_bind_fault. cbn [run_cb]. apply M_bind_fault. by rewrite <-Hr, <-Hreq.
Qed.

(** A program that hangs up: the turn that notices ends in a use after free. *)
Lemma hang_up_turn fd dch cc h d : serving fd dch cc d → handles d !! ch_sChannel cc = Some h →
  turn (hang_up fd d) = Fault UseAfterFree.
Proof.
  intros Hs Hh. pose proof (one_event fd dch cc (mkConn [] [] true) (Z.lor POLLIN POLLHUP) d Hs eq_refl) as Hev.
  set (i := ch_sChannel cc) in *. destruct Hs as [G Hc Hfd Hconn _ _ _ _].
  assert (hang_up fd d = set_env (set_conns (<[fd := mkConn [] [] true]> (conns (env d))) (env d)) d) as Hd.
  { unfold hang_up. do 2 f_equal. apply map_eq. intros x. destruct (decide (x = fd)) as [->|Hne].
    - by rewrite lookup_alter_eq, lookup_insert_eq, Hconn.
    - by rewrite lookup_alter_ne, lookup_insert_ne. }
  rewrite <-Hd in Hev. set (d0 := hang_up fd d) in *. assert (ok_graph d0) as G0 by (by eapply (graph_same d)).
  rewrite (channel_turn (Z.lor POLLIN POLLHUP) dch cc h d0); [|done|done|done|by right|done]. fold i.
  set (d1 := with_event _ i h d0).
  assert (ok_graph d1) as G1 by (eapply (graph_same d0); [split; [unfold links, d1, with_event; cbn; by rewrite (upd_same _ _ _ h)|done]|done]).
  destruct (AgentChannel_delete_ok dch cc d1 (filter (λ c, c ≠ dch) (rrChannels d1)) G1 Hc) as [d' Hdel].
  assert (k_read (ch_fd cc) RPC_MESSAGE_MAX_SIZE (env d1) = ((0, [], 0), env d1)) as Hread.
  { assert (conns (env d1) !! fd = Some (mkConn [] [] true)) as Hc1 by (change (env d1) with (env d0); rewrite Hd; apply lookup_insert_eq).
    cbn [k_read host_kernel]. unfold host_read. by rewrite Hfd, Hc1. }
  pose proof (onReadReady_eof parse_partial fuel dch cc (env d1) [] 0 d1 d' Hc Hread) as Heof. cbn zeta in Heof.
  rewrite set_env_id in Heof. mstep (Heof Hdel). apply M_bind_fault, upd_handle_gone.
  eapply (channel_delete_gone dch cc); [|exact Hdel]. exact Hc.
Qed.
End turn.

(** ** The interceptor's exchanges *)

Section exchange.
Context {C K : Type} `{Glibc C} `{Kernel K} `{Codec} `{!CodecLaws}.
Context (indet : list Z) (parse_partial : list Z → Request) (dfuel fuel retries : nat).
Implicit Types d : Daemon (Host K).
#[local] Instance host_glibc : Glibc (Guest C K) := guest_glibc indet parse_partial dfuel.

(** Taking the reply restores the connection. *)
Lemma pending_reply fd bs i h d : conns (env d) !! fd = Some idle →
  pending fd (after_turn i h (replied fd bs d)) = Some (bs, after_turn i h d).
Proof.
  intros Hc. unfold pending. cbn. rewrite lookup_insert_eq. cbn. rewrite insert_insert_eq, insert_id by done.
  do 2 f_equal. clear. destruct d as [? ? ? ? ? ? ? ? ? ? ? ? ? ? ? ? ? ? ? ? ? ? ? ? []]. reflexivity.
Qed.

Lemma await_reply fd dch cc h req resp pl d d1 :
  let i := ch_sChannel cc in
  serving fd dch cc d → handles d !! i = Some h → request_wf req → length (request_pack req) ≤ RPC_MESSAGE_MAX_SIZE →
  handleRequest dch req (in_turn i h d) = Ok (resp, d1) →
  is_Some (retcode resp) → length (response_pack resp) ≤ RPC_MESSAGE_MAX_SIZE →
  ∃ h1, handles d1 !! i = Some h1 ∧
    await indet parse_partial dfuel fd (TReactor :: pl) (queued fd idle (request_pack req) d) =
      (Ok (Some (response_pack resp), after_turn i h1 d1), pl).
Proof.
  intros i Hs Hh Hwf Hl Hr Hrc Hlr.
  destruct (request_turn parse_partial dfuel fd dch cc h req resp d d1 Hs Hh Hwf Hl Hr Hrc Hlr) as (h1 & Hh1 & Ht).
  fold i in Hh1, Ht. exists h1. split; [done|]. destruct Hs as [_ _ _ Hconn _ _ _ Hrun].
  injection (calm_handleRequest dch req _ _ _ Hr) as Hcn _.
  cbn [await]. unfold pending at 1. cbn. rewrite lookup_insert_eq. cbn. unfold run_thread.
  change (loop_stopflag (queued fd idle (request_pack req) d)) with (loop_stopflag d). rewrite Hrun, Ht. cbn.
  assert (conns (env d1) !! fd = Some idle) as Hc1 by (rewrite Hcn; exact Hconn).
  destruct pl; cbn [await]; by rewrite (pending_reply fd _ i h1 d1 Hc1).
Qed.

(** A daemon that dies on a request takes the program with it. *)
Lemma dead_daemon_rpc ch fd dch cc h req f cl lk pl d (p : Proc (Guest C K)) :
  lk !! ch = Some fd → serving fd dch cc d → handles d !! ch_sChannel cc = Some h →
  request_wf req → length (request_pack req) ≤ RPC_MESSAGE_MAX_SIZE →
  (resp ← handleRequest dch req; AgentChannel_write resp dch) (in_turn (ch_sChannel cc) h d) = Fault f →
  Glibc.env p = mkGuest cl (Ok d) lk (TReactor :: pl) →
  ∃ p1, chan_send ch req p = Ok (tt, p1) ∧ same_globals p p1 ∧ chan_recv fuel retries ch p1 = Fault AssertFail.
Proof.
  intros Hlk Hs Hh Hwf Hl Hr He. pose proof (request_turn_fault parse_partial dfuel fd dch cc h req f d Hs Hh Hwf Hl Hr) as Ht.
  exists (Glibc.set_env (mkGuest cl (Ok (queued fd idle (request_pack req) d)) lk (TReactor :: pl)) p). split_and!; [|done|].
  { unfold chan_send. rewrite (M_bind_ok _ _ p tt p) by (unfold assert_; by rewrite (proj2 (Z.leb_le _ _) Hl)).
    erewrite M_bind_ok. 2: { apply syscall_eq. rewrite He. cbn. unfold guest_write. cbn.
      rewrite Hlk, (sv_conn _ _ _ _ Hs). rewrite take_ge by lia. reflexivity. }
    unfold assert_. by rewrite Z.eqb_refl. }
  unfold chan_recv. set (p1 := Glibc.set_env _ p).
  assert (g_read ch (Some RPC_MESSAGE_MAX_SIZE) RPC_MESSAGE_MAX_SIZE (Glibc.env p1) =
    ((mkRecv 0 [] None None, None), mkGuest cl (Fault f) lk pl)) as Hread.
  { cbn. unfold guest_read. cbn [linked daemon plan client]. rewrite Hlk. cbn [await]. unfold pending. cbn.
    rewrite lookup_insert_eq. cbn. unfold run_thread.
    change (loop_stopflag (queued fd idle (request_pack req) d)) with (loop_stopflag d). rewrite (sv_running _ _ _ _ Hs), Ht.
    assert (f ≠ Sleeps) as Hf by (intros ->; exact (awake_bind _ _ (awake_handleRequest (E := Host K) dch req) (λ r, awake_write (E := Host K) r dch) _ Hr)).
    by destruct f. }
  destruct (read_retry_spec ch 0 _ [] _ (reads_now ch _ [] _ (ex_intro _ _ (ex_intro _ _ (ex_intro _ _ Hread)))) retries p1
    ltac:(lia) eq_refl) as (p2 & a & l & Hrun & _ & _).
  destruct fuel; cbn [chan_recv_loop]; mstep Hrun; done.
Qed.

(** An exchange is a request that waits and an answer that the plan's turns
    bring. *)
Lemma exchange_await ch fd req resp cl lk pl pl' d d' : lk !! ch = Some fd → conns (env d) !! fd = Some idle →
  length (request_pack req) ≤ RPC_MESSAGE_MAX_SIZE → is_wait_next resp = false → response_wf resp →
  length (response_pack resp) ≤ RPC_MESSAGE_MAX_SIZE →
  await indet parse_partial dfuel fd pl (queued fd idle (request_pack req) d) = (Ok (Some (response_pack resp), d'), pl') →
  exchange fuel retries ch req (mkGuest cl (Ok d) lk pl) resp (mkGuest cl (Ok d') lk pl').
Proof.
  intros Hlk Hconn Hl Hne Hwr Hlr Ha. split; [done|]. eexists None, _, 0%nat. split.
  { cbn. unfold guest_write. cbn. rewrite Hlk, Hconn. rewrite take_ge by lia. reflexivity. }
  split; [|lia]. eapply (delivers_last _ _ 0%nat); [lia| |done|done]. apply reads_now. exists None, None, None.
  cbn. unfold guest_read. cbn [linked daemon plan client]. rewrite Hlk, Ha.
  rewrite take_ge by (unfold RPC_MESSAGE_MAX_SIZE in *; lia). done.
Qed.
(** An exchange in which the daemon says wait before it answers. *)
Lemma exchange_await_wait ch fd req w resp cl lk pl pl1 pl' d d1 d' : lk !! ch = Some fd → conns (env d) !! fd = Some idle → (1 ≤ fuel)%nat →
  length (request_pack req) ≤ RPC_MESSAGE_MAX_SIZE →
  is_wait_next w = true → response_wf w → length (response_pack w) ≤ RPC_MESSAGE_MAX_SIZE →
  is_wait_next resp = false → response_wf resp → length (response_pack resp) ≤ RPC_MESSAGE_MAX_SIZE →
  await indet parse_partial dfuel fd pl (queued fd idle (request_pack req) d) = (Ok (Some (response_pack w), d1), pl1) →
  await indet parse_partial dfuel fd pl1 d1 = (Ok (Some (response_pack resp), d'), pl') →
  exchange fuel retries ch req (mkGuest cl (Ok d) lk pl) resp (mkGuest cl (Ok d') lk pl').
Proof.
  intros Hlk Hconn Hfuel Hl Hw Hww Hlw Hne Hwr Hlr Ha1 Ha2. split; [done|]. eexists None, _, 1%nat. split.
  { cbn. unfold guest_write. cbn. rewrite Hlk, Hconn. rewrite take_ge by lia. reflexivity. }
  split; [|done].
  assert (∀ bs d0 d2 p0 p2, length bs ≤ RPC_MESSAGE_MAX_SIZE → await indet parse_partial dfuel fd p0 d0 = (Ok (Some bs, d2), p2) →
    reads ch (mkGuest cl (Ok d0) lk p0) bs (mkGuest cl (Ok d2) lk p2)) as Hreads.
  { intros bs d0 d2 p0 p2 Hlb Ha. exists None, None, None. cbn. unfold guest_read. cbn [linked daemon plan client]. rewrite Hlk, Ha.
    by rewrite take_ge by (unfold RPC_MESSAGE_MAX_SIZE in *; lia). }
  eapply (delivers_wait _ _ 0%nat); [lia|apply reads_now, (Hreads _ _ _ _ _ Hlw Ha1)|done|done|].
  eapply (delivers_last _ _ 0%nat); [lia|apply reads_now, (Hreads _ _ _ _ _ Hlr Ha2)|done|done].
Qed.
(** A turn that does not answer. *)
Lemma await_turn fd t pl d d' : pending fd d = None → run_thread indet parse_partial dfuel t d = Ok d' →
  await indet parse_partial dfuel fd (t :: pl) d = await indet parse_partial dfuel fd pl d'.
Proof. intros Hp Hr. cbn [await]. by rewrite Hp, Hr. Qed.
Lemma pending_queued fd bs d : pending fd (queued fd idle bs d) = None.
Proof. unfold pending. cbn. by rewrite lookup_insert_eq. Qed.

(** The daemon answers a request at once. *)
Lemma daemon_exchange ch fd dch cc h req resp cl lk pl d d1 :
  let i := ch_sChannel cc in
  lk !! ch = Some fd → serving fd dch cc d → handles d !! i = Some h →
  request_wf req → length (request_pack req) ≤ RPC_MESSAGE_MAX_SIZE →
  handleRequest dch req (in_turn i h d) = Ok (resp, d1) →
  is_Some (retcode resp) → is_wait_next resp = false → response_wf resp →
  length (response_pack resp) ≤ RPC_MESSAGE_MAX_SIZE →
  ∃ h1, handles d1 !! i = Some h1 ∧
    exchange fuel retries ch req (mkGuest cl (Ok d) lk (TReactor :: pl)) resp (mkGuest cl (Ok (after_turn i h1 d1)) lk pl).
Proof.
  intros i Hlk Hs Hh Hwf Hl Hr Hrc Hne Hwr Hlr.
  destruct (await_reply fd dch cc h req resp pl d d1 Hs Hh Hwf Hl Hr Hrc Hlr) as (h1 & Hh1 & Ha). exists h1. split; [done|].
  by eapply exchange_await; [done|apply (sv_conn _ _ _ _ Hs)|..].
Qed.
End exchange.
