(* ===== verification/StaleSpec.v ===== *)
(** * A stale notification

    The notification pipe of an endpoint and its queue are emptied separately:
    a request that finds a datagram queued takes it and leaves the byte in the
    pipe.  When a later request finds the queue empty and the pipe is reported in
    the same batch, the event loop waits for a datagram that is not there. *)

From S2P Require Import Prelude Csum16 Frame Session World DScript Reactor Rpc Wire Net Agent Udp Tcp Reassembly IpRx Dispatch Arbiter Boot ReactorSpec AgentSpec PacketSpec UdpSpec DispatchSpec Invariant LoopSpec BootSpec SocketCallSpec Ownership Link LinkSpec Process.

Section stale.
Context {E : Type} `{Kernel E} `{Codec}.
Context (parse_partial : list Z → Request) (fuel : nat).
Implicit Types d : Daemon E.

Definition wait_next : Response := mkResponse (Some RC_WAIT_NEXT) None.

(** What the kernel is like once reading the pipe [fd] has failed, within [n + 1]
    reads. *)
Fixpoint empties (n : nat) (fd : Z) (e : E) : option E :=
  let '((k, _, _), e) := k_read fd 8 e in
  if k =? -1 then Some e else match n with O => None | S n => empties n fd e end.
Lemma drain_pipe_empties n fd e d : empties n fd (env d) = Some e → drain_pipe n fd d = Ok (tt, set_env e d).
Proof.
  revert d. induction n as [|n IH]; intros d; cbn [empties drain_pipe]; mstep (kcall_ok (k_read fd 8) d);
    destruct (k_read fd 8 (env d)) as [[[k b] x] e']; cbn [fst snd]; (destruct (k =? -1); [by intros [= <-]|]); [done|].
  intros He. by rewrite (IH (set_env e' d) He).
Qed.

(** The pipe's callback on an endpoint that waits with an empty queue. *)
Lemma stale_callback ch c so ep ra e d : channels d !! ch = Some c → ch_socket c = Some so → endpoints d !! so = Some ep →
  waiting ep = true → recvQ ep = [] → onAsyncNewPacket ep = Some (waiting_cb ch (ep_type ep) ra) →
  empties fuel (new_packet_notify_pipe ep).1 (env d) = Some e →
  Endpoint_sChannelReadCb fuel so d = Fault Sleeps.
Proof.
  intros Hc Hs He Hw Hq Hcb Hd. unfold Endpoint_sChannelReadCb. mstep (read_cell_ok endpoints so ep d He).
  mstep (drain_pipe_empties _ _ _ d Hd). set (d1 := set_env e d). mstep (read_cell_ok endpoints so ep d1 He). rewrite Hw, Hcb. cbn [negb].
  assert (∀ b, answer_packet ch b d1 = Fault Sleeps) as Ha.
  { intros b. unfold answer_packet. mstep (channel_socket_ok ch c so d1 Hc Hs). unfold Endpoint_takeFromRecvQ.
    pose proof (try_take_ok so ep d1 He) as Ht. rewrite Hq in Ht. by rewrite (M_bind_fault _ _ _ Sleeps); [|mstep Ht]. }
  apply M_bind_fault. unfold waiting_cb. destruct (ep_type ep); cbn [run_packet_cb];
    unfold onAsyncNewUdpPacket, onAsyncNewTcpPacket; mstep (eq_refl : get_st d1 = Ok (d1, d1)); rewrite decide_True by (by exists c); apply Ha.
Qed.

(** The request that waits. *)
Lemma waiting_request ch c so ep pid len fl ra nread rdbuf x e1 d :
  channels d !! ch = Some c → ch ∈ rrChannels d → ch_socket c = Some so → endpoints d !! so = Some ep → recvQ ep = [] → ep_nonblocking ep = false →
  k_read (ch_fd c) RPC_MESSAGE_MAX_SIZE (env d) = ((nread, rdbuf, x), e1) → 0 < nread →
  request_unpack rdbuf = Some (mkRequest pid (Some (CallRecvfrom len fl ra))) →
  length (response_pack wait_next) ≤ RPC_MESSAGE_MAX_SIZE → (k_write (ch_fd c) (response_pack wait_next) e1).1 ≠ -1 →
  ∃ e2, run_cb parse_partial fuel (CbChannelReadReady ch) d =
    Ok (tt, set_env e2 (with_endpoint so (set_waiting true (set_onAsyncNewPacket (Some (waiting_cb ch (ep_type ep) ra)) ep)) d)).
Proof.
  intros Hc Hin Hs He Hq Hb Hr Hn Hu Hl Hw. set (ep' := set_waiting true _). set (d2 := with_endpoint so ep' (set_env e1 d)).
  exists (k_write (ch_fd c) (response_pack wait_next) e1).2. cbn [run_cb].
  rewrite (M_bind_ok _ _ d tt (set_env (k_write (ch_fd c) (response_pack wait_next) e1).2 (with_endpoint so ep' d))).
  { unfold release_channel. rewrite (M_bind_ok (gets rrChannels) _ _ _ _ eq_refl). by rewrite decide_True. }
  rewrite (onReadReady_message parse_partial ch c nread rdbuf x e1 d) by done. rewrite Hu. cbn [default from_option].
  rewrite (M_bind_ok _ _ _ wait_next d2).
  - rewrite (write_ok wait_next ch c d2) by done. unfold respond. mstep (kcall_ok (k_write (ch_fd c) (response_pack wait_next)) d2).
    cbn [env with_endpoint set_endpoints set_env d2]. by rewrite (proj2 (Z.eqb_neq _ (-1)) Hw).
  - unfold handleRequest. cbn [calling id]. rewrite (recvfromCall_empty ch c so ep ra (set_env e1 d)) by done. by rewrite Hb.
Qed.

(** The poll that reports two handles. *)
Lemma poll_two i j hi hj e' d : handles d !! i = Some hi → handles d !! j = Some hj → i ≠ j →
  k_epoll_wait maxEventsReceivedEachPoll (-1) (env d) = ((2, [(POLLIN, i); (POLLIN, j)]), e') →
  SysPoller_poll (-1) d = Ok ([i; j],
    set_handles (<[j := set_io_received POLLIN hj]> (<[i := set_io_received POLLIN hi]> (handles d))) (set_env e' d)).
Proof.
  intros Hi Hj Hij Hw. unfold SysPoller_poll.
  rewrite (M_bind_ok _ _ d (2, [(POLLIN, i); (POLLIN, j)]) (set_env e' d)) by (unfold kcall; by rewrite Hw).
  cbn [Z.eqb Z.ltb Z.compare poll_fds poll_deliver]. set (de := set_env e' d). rewrite (M_bind_ok _ _ de tt de).
  2: { mstep (read_cell_ok handles i hi de Hi). by mstep (read_cell_ok handles j hj de Hj). }
  mstep (upd_handle_ok i (set_io_received POLLIN) hi de Hi). set (d1 := set_handles _ de).
  assert (handles d1 !! j = Some hj) as Hj1 by (unfold d1; cbn; by rewrite lookup_insert_ne).
  assert (upd_handle j (set_io_received POLLIN) d1 = Ok (tt, set_handles (<[j := set_io_received POLLIN hj]> (handles d1)) d1)) as Hu
    by by apply upd_handle_ok.
  rewrite (M_bind_ok _ _ d1 [j] (set_handles (<[j := set_io_received POLLIN hj]> (handles d1)) d1)); [done|]. by mstep Hu.
Qed.
(** The endpoint as the request leaves it. *)
Definition made_to_wait (ch : nat) (ra : bool) (ep : Endpoint) : Endpoint :=
  set_waiting true (set_onAsyncNewPacket (Some (waiting_cb ch (ep_type ep) ra)) ep).

(** A handler of the process's event loop. *)
Lemma handling_step indet options j h cb cs (p : Process E) : status p = None → loopThread p = LHandling (j :: cs) →
  handles (daemon p) !! j = Some h → io_received h = POLLIN → io_onRead h = Some cb →
  process_step indet parse_partial fuel options WLoop p =
    after_run ((_ ← run_cb parse_partial fuel cb; upd_handle j (set_io_handling false))
      (set_handles (<[j := set_io_handling true h]> (handles (daemon p))) (daemon p)))
      (λ d, with_loop (LHandling cs) (with_daemon d p)) p.
Proof.
  intros Hs Hl Hj Hr Hcb. unfold process_step, step_with. rewrite Hs, bool_decide_eq_false_2 by (by intros []). unfold loop_step. rewrite Hl.
  by rewrite (handle_readable (run_cb parse_partial fuel) j h cb (daemon p) Hj ltac:(by left) Hcb).
Qed.

(** Poll and first handler. *)
Lemma two_steps indet options ch c so ep pid len fl ra nread rdbuf x e1 e2 (p : Process E) : let d := daemon p in
  status p = None → loopThread p = LThread TBody →
  ok_graph d → channels d !! ch = Some c → ch_socket c = Some so → endpoints d !! so = Some ep →
  recvQ ep = [] → ep_nonblocking ep = false →
  k_epoll_wait maxEventsReceivedEachPoll (-1) (env d) = ((2, [(POLLIN, ch_sChannel c); (POLLIN, ep_sChannel ep)]), e1) →
  k_read (ch_fd c) RPC_MESSAGE_MAX_SIZE e1 = ((nread, rdbuf, x), e2) → 0 < nread →
  request_unpack rdbuf = Some (mkRequest pid (Some (CallRecvfrom len fl ra))) →
  length (response_pack wait_next) ≤ RPC_MESSAGE_MAX_SIZE → (k_write (ch_fd c) (response_pack wait_next) e2).1 ≠ -1 →
  ∃ p1 h, run_threads indet parse_partial fuel options [WLoop; WLoop] p = Ok p1 ∧ status p1 = None ∧ loopThread p1 = LHandling [ep_sChannel ep] ∧
    handles (daemon p1) !! ep_sChannel ep = Some h ∧ io_received h = POLLIN ∧ io_onRead h = Some (CbEndpointReadReady so) ∧
    channels (daemon p1) !! ch = Some c ∧ endpoints (daemon p1) !! so = Some (made_to_wait ch ra ep).
Proof.
  intros d Hst Hlt G Hc Hs He Hq Hb Hw Hr Hn Hu Hl Hwr. pose proof (lookup_node_some node_channel _ _ _ Hc) as Hcn.
  destruct (g_channel _ _ G ch _ Hcn) as (yi & Hyi & Hri). destruct (lookup_node _ _ _ _ Hyi) as (hi & Hi & ->).
  destruct (g_endpoint _ _ G so _ (lookup_node_some node_endpoint _ _ _ He)) as (yj & Hyj & Hrj). destruct (lookup_node _ _ _ _ Hyj) as (hj & Hj & ->).
  cbn in Hi, Hj, Hri, Hrj. set (i := ch_sChannel c) in *. set (j := ep_sChannel ep) in *.
  assert (i ≠ j) as Hij by congruence. assert (ch ∈ rrChannels d) as Hin by (apply (g_listed _ _ G); by eexists).
  pose proof (poll_two i j hi hj e1 d Hi Hj Hij Hw) as Hpoll. set (d0 := set_handles _ (set_env e1 d)) in Hpoll. set (d1 := set_loop_handing true d0).
  set (q1 := with_loop (LHandling [i; j]) (with_daemon d1 p)).
  assert (process_step indet parse_partial fuel options WLoop p = Ok (Some q1)) as H1.
  { unfold process_step, step_with. rewrite Hst, bool_decide_eq_false_2 by (by intros []). unfold loop_step. rewrite Hlt. fold d. by rewrite Hpoll. }
  assert (handles d1 !! i = Some (set_io_received POLLIN hi)) as Hi1 by (unfold d1; cbn [handles set_loop_handing set_handles d0]; by rewrite lookup_insert_ne, lookup_insert_eq).
  set (d2 := set_handles (<[i := set_io_handling true (set_io_received POLLIN hi)]> (handles d1)) d1).
  destruct (waiting_request ch c so ep pid len fl ra nread rdbuf x e2 d2 Hc Hin Hs He Hq Hb Hr Hn Hu Hl Hwr) as [e3 Hcb].
  fold (made_to_wait ch ra ep) in Hcb. set (d3 := set_env e3 _) in Hcb.
  pose proof (handling_step indet options i _ (CbChannelReadReady ch) [j] q1 Hst eq_refl Hi1 eq_refl Hri) as H2.
  change (daemon q1) with d1 in H2. fold d2 in H2. rewrite (M_bind_ok _ _ _ _ _ Hcb), (upd_handle_ok i _ _ d3 (lookup_insert_eq _ _ _)) in H2.
  eexists _, (set_io_received POLLIN hj). split; [cbn [run_threads]; rewrite H1; cbn [mbind res_bind]; rewrite H2; reflexivity|].
  split_and!; try done.
  - cbn. by rewrite !lookup_insert_ne, lookup_insert_eq by congruence.
  - cbn. apply lookup_insert_eq.
Qed.

(** The second handler sleeps, or answers. *)
Section second.
Context (indet : list Z) (options : option (cmd_option → option (list Z))).
Context (ch so : nat) (c : AgentChannel) (ep : Endpoint) (ra : bool) (h : IoHandle) (e : E) (p : Process E).
Context (Hst : status p = None) (Hlt : loopThread p = LHandling [ep_sChannel ep]).
Context (Hh : handles (daemon p) !! ep_sChannel ep = Some h) (Hr : io_received h = POLLIN) (Hon : io_onRead h = Some (CbEndpointReadReady so)).
Context (Hc : channels (daemon p) !! ch = Some c) (Hso : ch_socket c = Some so) (He : endpoints (daemon p) !! so = Some (made_to_wait ch ra ep)).
Context (Hd : empties fuel (new_packet_notify_pipe ep).1 (env (daemon p)) = Some e).

Lemma stale_step : recvQ ep = [] → process_step indet parse_partial fuel options WLoop p = Ok None.
Proof.
  intros Hq. rewrite (handling_step indet options _ h _ [] p Hst Hlt Hh Hr Hon). set (d1 := set_handles _ (daemon p)). cbn [run_cb].
  by rewrite (M_bind_fault _ _ _ Sleeps (stale_callback ch c so (made_to_wait ch ra ep) ra e d1 Hc Hso He eq_refl Hq eq_refl Hd)).
Qed.
Lemma woken_step a k q l bs r e3 : recvQ ep = (a, k) :: q → chain (daemon p) (Some k) l bs →
  let resp := data_response bs (match ep_type ep with EP_UDP => if ra then Some a else None | EP_TCP => None end) in
  length (response_pack resp) ≤ RPC_MESSAGE_MAX_SIZE → k_write (ch_fd c) (response_pack resp) e = (r, e3) → r ≠ -1 →
  ∃ p', process_step indet parse_partial fuel options WLoop p = Ok (Some p') ∧ loopThread p' = LHandling [] ∧ env (daemon p') = e3 ∧
    endpoints (daemon p') !! so = Some (set_waiting false (set_recvQ q (made_to_wait ch ra ep))).
Proof.
  intros Hq Hch resp Hl Hw Hn. rewrite (handling_step indet options _ h _ [] p Hst Hlt Hh Hr Hon). set (d1 := set_handles _ (daemon p)). cbn [run_cb].
  rewrite (M_bind_ok _ _ _ _ _ (waiting_callback fuel ch c so (made_to_wait ch ra ep) a k q l bs ra e r e3 d1 Hc Hso He eq_refl eq_refl Hq
    (chain_frames_eq (daemon p) d1 _ _ _ eq_refl Hch) (drain_pipe_empties _ _ _ d1 Hd) Hl Hw Hn)).
  erewrite upd_handle_ok by apply lookup_insert_eq. eexists. split_and!; [reflexivity|reflexivity|reflexivity|]. cbn. apply lookup_insert_eq.
Qed.
End second.
End stale.

(** C17. A stale notification puts the event loop to sleep: when epoll reports an
    agent's channel and, behind it, the notification pipe of the channel's
    blocking socket, whose queue is empty because an earlier request has taken
    the datagram the notification was for, and the channel's message is a
    [recvfrom], then the handler marks the endpoint as waiting, and the pipe's
    callback takes that for the arrival of a datagram and calls [wait_dequeue].
    The event loop's thread, and with it every program the daemon serves, then
    waits for that one socket: in every state the other threads bring about in
    which the channel, the pipe's handle and the endpoint are as they were, it
    cannot move while the endpoint's queue is empty, and it goes on, answering
    the request, when a datagram is in the queue. *)
Theorem stale_notification_blocks {E} `{Kernel E} `{Codec} indet parse_partial fuel options ch c so ep pid len fl ra nread rdbuf x e1 e2 (p : Process E) :
  let d := daemon p in
  status p = None → loopThread p = LThread TBody →
  ok_graph d → channels d !! ch = Some c → ch_socket c = Some so → endpoints d !! so = Some ep →
  recvQ ep = [] → ep_nonblocking ep = false →
  k_epoll_wait maxEventsReceivedEachPoll (-1) (env d) = ((2, [(POLLIN, ch_sChannel c); (POLLIN, ep_sChannel ep)]), e1) →
  k_read (ch_fd c) RPC_MESSAGE_MAX_SIZE e1 = ((nread, rdbuf, x), e2) → 0 < nread →
  request_unpack rdbuf = Some (mkRequest pid (Some (CallRecvfrom len fl ra))) →
  length (response_pack wait_next) ≤ RPC_MESSAGE_MAX_SIZE → (k_write (ch_fd c) (response_pack wait_next) e2).1 ≠ -1 →
  ∃ p1, run_threads indet parse_partial fuel options [WLoop; WLoop] p = Ok p1 ∧
    channels (daemon p1) !! ch = Some c ∧ endpoints (daemon p1) !! so = Some (made_to_wait ch ra ep) ∧
    ∀ p2 q e3, status p2 = None → loopThread p2 = loopThread p1 →
      handles (daemon p2) !! ep_sChannel ep = handles (daemon p1) !! ep_sChannel ep → channels (daemon p2) !! ch = Some c →
      endpoints (daemon p2) !! so = Some (set_recvQ q (made_to_wait ch ra ep)) →
      empties fuel (new_packet_notify_pipe ep).1 (env (daemon p2)) = Some e3 →
      match q with
      | [] => process_step indet parse_partial fuel options WLoop p2 = Ok None
      | (a, k) :: q => ∀ l bs r e4, chain (daemon p2) (Some k) l bs →
          let resp := data_response bs (match ep_type ep with EP_UDP => if ra then Some a else None | EP_TCP => None end) in
          length (response_pack resp) ≤ RPC_MESSAGE_MAX_SIZE → k_write (ch_fd c) (response_pack resp) e3 = (r, e4) → r ≠ -1 →
          ∃ p3, process_step indet parse_partial fuel options WLoop p2 = Ok (Some p3) ∧ env (daemon p3) = e4 ∧
            endpoints (daemon p3) !! so = Some (set_waiting false (set_recvQ q (made_to_wait ch ra ep)))
      end.
Proof.
  intros d Hst Hlt G Hc Hs He Hq Hb Hw Hr Hn Hu Hl Hwr.
  destruct (two_steps parse_partial fuel indet options ch c so ep pid len fl ra nread rdbuf x e1 e2 p Hst Hlt G Hc Hs He Hq Hb Hw Hr Hn Hu Hl Hwr)
    as (p1 & h & Hrun & Hs1 & Hl1 & Hh1 & Hrec & Hon & Hc1 & He1). exists p1. split_and!; [done..|].
  intros p2 q e3 Hs2 Hl2 Hh2 Hc2 He2 Hd2. rewrite Hl1 in Hl2. rewrite Hh1 in Hh2. destruct q as [|[a k] q].
  - by apply (stale_step parse_partial fuel indet options ch so c (set_recvQ [] ep) ra h e3).
  - intros l bs r e4 Hch resp Hlr Hwk Hr1.
    destruct (woken_step parse_partial fuel indet options ch so c (set_recvQ ((a, k) :: q) ep) ra h e3 p2 Hs2 Hl2 Hh2 Hrec Hon Hc2 Hs He2 Hd2
      a k q l bs r e4 eq_refl Hch Hlr Hwk Hr1) as (p3 & Hp3 & _ & He3 & Hep3). by exists p3.
Qed.

(** ** A concrete run *)

(** A program creates a UDP socket and sends a datagram to 10.0.0.1; the answer
    comes; its [recvfrom], which the event loop reads before it hears of the
    notification, takes it; the program calls [recvfrom] again, and now epoll
    reports the channel and the pipe. *)
Definition a_message (c : Calling) : Z * list Z * Z := (Z.of_nat (length (sample_message c)), sample_message c, 0).
Definition the_peer : Session := mkSession (le_val [192;168;168;10]) (bswap16 1025) (le_val [10;0;0;1]) (bswap16 53) None.
Definition the_answer : list Z := udp_header (bswap16 1) (udp_check (bswap16 1) the_peer 2) the_peer 2 ++ [111; 107].
Definition stale_script : dscript :=
  mkDScript 10
    [a_message (CallSocket AF_INET SOCK_DGRAM 0); a_message (CallSendto [104; 105] 0 (Some (sockaddr_in (bswap16 53) (le_val [10;0;0;1]))));
     (Z.of_nat (length the_answer), the_answer, 0); a_message (CallRecvfrom 100 0 true); a_message (CallRecvfrom 100 0 true); (1, [49], 0)]
    [] [40]
    [(1, [(POLLIN, 0%nat)]); (1, [(POLLIN, 1%nat)]); (1, [(POLLIN, 1%nat)]); (1, [(POLLIN, 1%nat)]); (2, [(POLLIN, 1%nat); (POLLIN, 3%nat)])] [].
Definition stale_boot : Daemon dscript := after (Veloxd_init (fresh_daemon default_Conf stale_script)).
Definition stale_sent : Daemon dscript := turn1 (turn1 (turn1 stale_boot)).
Definition stale_queued : Daemon dscript := after (Ip_turn (H0 := wire_codec) [] (after (Interface_turn stale_sent))).
Definition stale_state : Daemon dscript := turn1 stale_queued.

Lemma turn1_graph d : match EventReactor_turn (run_cb (H0 := wire_codec) (λ _, mkRequest 0 None) 3) d with Ok _ => True | Fault _ => False end →
  ok_graph d → ok_graph (turn1 d).
Proof. unfold turn1. destruct (EventReactor_turn _ d) as [[u d']|] eqn:Hr; [|done]. intros _ G. by eapply turn_graph. Qed.
Lemma stale_graph : ok_graph stale_state.
Proof.
  assert (Veloxd_init (fresh_daemon default_Conf stale_script) = Ok (tt, stale_boot)) as Hb by (vm_compute; reflexivity).
  assert (dstep (H0 := wire_codec) [] (λ _, mkRequest 0 None) 3 stale_sent (after (Interface_turn stale_sent))) as H1
    by (apply step_interface; vm_compute; reflexivity).
  assert (dstep (H0 := wire_codec) [] (λ _, mkRequest 0 None) 3 (after (Interface_turn stale_sent)) stale_queued) as H2
    by (apply step_ip; vm_compute; reflexivity).
  apply turn1_graph; [by vm_compute|]. apply (dstep_graph _ _ _ _ _ H2), (dstep_graph _ _ _ _ _ H1).
  do 3 (apply turn1_graph; [by vm_compute|]). by eapply init_graph.
Qed.

(** The process around that daemon, its event loop about to poll; and what its
    thread can do when it has handled the channel, and when a datagram is queued. *)
Definition stale_process : Process dscript := mkProcess MExited TBody TBody (LThread TBody) None stale_state.
Definition stale_asleep : Process dscript :=
  match run_threads (H0 := wire_codec) [] (λ _, mkRequest 0 None) 3 None [WLoop; WLoop] stale_process with Ok p => p | Fault _ => stale_process end.

Lemma stale_notification_blocks_witness :
  (∃ ep, endpoints stale_queued !! 4%nat = Some ep ∧ length (recvQ ep) = 1%nat) ∧
  process_step (H0 := wire_codec) [] (λ _, mkRequest 0 None) 3 None WLoop stale_asleep = Ok None.
Proof.
  split; [eexists; split; vm_compute; reflexivity|].
  edestruct (stale_notification_blocks (H0 := wire_codec) [] (λ _, mkRequest 0 None) 3 None 2) with (p := stale_process) as (p1 & Hrun & _ & _ & Hall);
    [reflexivity|reflexivity|exact stale_graph|vm_compute; reflexivity|vm_compute; reflexivity|vm_compute; reflexivity|vm_compute; reflexivity|vm_compute; reflexivity
    |vm_compute; reflexivity|vm_compute; reflexivity|vm_compute; reflexivity|vm_compute; reflexivity|vm_compute; discriminate|vm_compute; discriminate|].
  assert (p1 = stale_asleep) as -> by (unfold stale_asleep; by rewrite Hrun).
  eapply (Hall stale_asleep []); [vm_compute; reflexivity..].
Defined.
