(* ===== verification/System.v ===== *)
(** * End to end

    Theorems about the whole system, a program's socket calls through the
    interceptor, the channel, the daemon's event loop and handler, and back:
    they combine the interceptor's theorems, whose assumptions on the channel
    LinkSpec.v discharges, with the daemon's. *)

From S2P Require Import Prelude Rpc Wire Glibc Script Channel FdPool Interceptor PoolInv InterceptorSpec SocketSpec Csum16 Frame Session World DScript Reactor Net Agent Udp Tcp Reassembly IpRx Dispatch Arbiter Boot ReactorSpec AgentSpec PacketSpec UdpSpec DispatchSpec Invariant LoopSpec BootSpec SocketCallSpec Ownership Link LinkSpec.

Section system.
Context {C K : Type} `{Glibc C} `{Kernel K} `{Codec} `{!CodecLaws}.
Context (indet : list Z) (parse_partial : list Z → Request) (dfuel fuel retries : nat).
Implicit Types d : Daemon (Host K).
#[local] Existing Instance host_glibc.
Notation host_glibc := (host_glibc indet parse_partial dfuel).

(** A program's descriptor [vfd] whose channel [ch] leads to the daemon's
    channel [dch], and a daemon that waits for requests. *)
Record attached (p : Proc (Guest C K)) (vfd ch fd : Z) (dch : nat) (cc : AgentChannel) (h : IoHandle)
    (cl : C) (lk : gmap Z Z) (pl : list thread) d : Prop := {
  at_inv : proc_inv p;
  at_chan : chan_of p vfd = Some ch;
  at_env : Glibc.env p = mkGuest cl (Ok d) lk (TReactor :: pl);
  at_linked : lk !! ch = Some fd;
  at_serving : serving fd dch cc d;
  at_handle : handles d !! ch_sChannel cc = Some h
}.

(** A message that the codec keeps and that fits a packet. *)
Definition sendable (req : Request) : Prop := request_wf req ∧ length (request_pack req) ≤ RPC_MESSAGE_MAX_SIZE.
Definition answerable (resp : Response) : Prop :=
  response_wf resp ∧ is_wait_next resp = false ∧ length (response_pack resp) ≤ RPC_MESSAGE_MAX_SIZE.

Lemma attached_exchange p vfd ch fd dch cc h cl lk pl d req resp d1 :
  attached p vfd ch fd dch cc h cl lk pl d → sendable req →
  handleRequest dch req (in_turn (ch_sChannel cc) h d) = Ok (resp, d1) → answerable resp →
  ∃ h1, handles d1 !! ch_sChannel cc = Some h1 ∧
    @exchange _ host_glibc _ fuel retries ch req (Glibc.env p) resp
      (mkGuest cl (Ok (after_turn (ch_sChannel cc) h1 d1)) lk pl).
Proof.
  intros [Hi Hc He Hlk Hs Hh] [Hwf Hl] Hr (Hwr & Hne & Hlr). rewrite He.
  eapply daemon_exchange; eauto. by destruct Hwr.
Qed.

(** When the daemon fails on the request, the interceptor's assertion on the
    length of what it reads fails too. *)
Lemma attached_dies p vfd ch fd dch cc h cl lk pl d c f :
  attached p vfd ch fd dch cc h cl lk pl d → sendable (mkRequest (self_pid p) (Some c)) →
  (resp ← handleRequest dch (mkRequest (self_pid p) (Some c)); AgentChannel_write resp dch) (in_turn (ch_sChannel cc) h d) = Fault f →
  @rpc _ host_glibc _ fuel retries vfd c p = Fault AssertFail.
Proof.
  intros [Hi Hc He Hlk Hs Hh] [Hwf Hl] Hr.
  destruct (dead_daemon_rpc indet parse_partial dfuel fuel retries ch fd dch cc h _ f cl lk pl d p Hlk Hs Hh Hwf Hl Hr He)
    as (p1 & Hsend & Hg & Hrecv).
  unfold rpc. rewrite (M_bind_ok _ _ p (self_pid p) p) by done. mstep (fd_chanmap_ok _ _ _ Hi Hc). mstep Hsend.
  mstep (fd_chanmap_ok p1 vfd ch (proc_inv_same _ _ Hg Hi) ltac:(by rewrite <-(chan_of_same _ _ _ Hg))). exact Hrecv.
Qed.


(** A handler that leaves everything as it is leaves the daemon serving. *)
Lemma serving_again fd dch cc h h1 d : serving fd dch cc d → handles d !! ch_sChannel cc = Some h →
  let i := ch_sChannel cc in
  handles (in_turn i h d) !! i = Some h1 →
  serving fd dch cc (after_turn i h1 (in_turn i h d)) ∧ is_Some (handles (after_turn i h1 (in_turn i h d)) !! i).
Proof.
  intros [G Hc Hfd Hconn Hint Hq Hb Hrun] Hh i Hh1. split; [|cbn; by rewrite lookup_insert_eq].
  constructor; try done. eapply (graph_same d); [|done]. cbn in Hh1. rewrite lookup_insert_eq in Hh1. injection Hh1 as <-.
  split; [|done]. unfold links. cbn. by rewrite insert_insert_eq, (upd_same _ _ _ h).
Qed.

(** ** A datagram to a given destination *)

(** The session while [send(faddr, fport, buf)] runs: bound, and connected to
    the destination. *)
Definition sending_to (a q : Z) (s : Session) (port : Z) : Session * Z :=
  let '(_, s, port) := Session_send_to a q s port in
  let '(_, s, port) := Session_connect a q s port in
  let '(_, s, port) := Session_send s port in (s, port).

Lemma sending_to_eq a q s port : (sending_to a q s port).1 = mkSession a q (laddr s) (source_port s port) (s_socket s).
Proof.
  rewrite <-(send_connect_send_eq a q s port). unfold sending_to. destruct (Session_send_to a q s port) as [[r1 s1] q1].
  destruct (Session_connect a q s1 q1) as [[r2 s2] q2]. by destruct (Session_send s2 q2) as [[r3 s3] q3].
Qed.

Lemma UdpSession_send_to_eq a q buf i p g fd d :
  sessions d !! i = Some p → idgenerator d = Some g → tunDev d = Some fd →
  let '(s, port) := sending_to a q (p_base p) (udp_port d) in
  let hdr := udp_header (IpIdGenerator_next g).1 (udp_check (IpIdGenerator_next g).1 s (length buf)) s (length buf) in
  ∃ d', UdpSession_send_to a q buf i d = Ok (i32 (length buf), d') ∧
    env d' = (k_writev fd [hdr; buf] (env d)).2 ∧ handles d' = handles d ∧
    sessions d' = <[i := set_p_base (Session_disconnect s) p]> (sessions d).
Proof.
  intros Hp Hg Ht. unfold sending_to.
  destruct (Session_send_to a q (p_base p) (udp_port d)) as [[r1 s1] q1] eqn:Hb1.
  destruct (Session_connect a q s1 q1) as [[r2 s2] q2] eqn:Hb2. destruct (Session_send s2 q2) as [[r3 s3] q3] eqn:Hb3.
  unfold UdpSession_send_to. pose proof (udp_base_eq (Session_send_to a q) i p d Hp) as E1. rewrite Hb1 in E1. mstep E1.
  set (d1 := set_udp_port q1 _). assert (sessions d1 !! i = Some (set_p_base s1 p)) as Hp1 by apply lookup_insert_eq.
  pose proof (udp_base_eq (Session_connect a q) i _ d1 Hp1) as E2. cbn [p_base set_p_base] in E2.
  change (udp_port d1) with q1 in E2. rewrite Hb2 in E2. mstep E2. set (d2 := set_udp_port q2 _).
  assert (sessions d2 !! i = Some (set_p_base s2 (set_p_base s1 p))) as Hp2 by apply lookup_insert_eq.
  mstep (UdpSession_send_eq buf i _ g fd d2 r3 s3 q3 Hp2 Hg Ht Hb3). set (d3 := udp_sent _ _ _ _ _ _ _ _).
  assert (sessions d3 !! i = Some (set_p_base s3 (set_p_base s2 (set_p_base s1 p)))) as Hp3 by apply lookup_insert_eq.
  unfold upd_pcb. erewrite M_bind_ok by (mstep (read_cell_ok sessions i _ d3 Hp3); reflexivity).
  eexists. split; [reflexivity|]. split_and!; [reflexivity|reflexivity|]. cbn. by rewrite !insert_insert_eq.
Qed.

Lemma destAddr_sockaddr a q : in_u32 a → in_u16 q → destAddr (sockaddr_in q a) = Ok (a, q).
Proof.
  intros Ha Hq. unfold destAddr. change (slice (sockaddr_in q a ++ [0]) 0 16) with (Some (sockaddr_in q a)). cbn [of_option mbind res_bind].
  change (load16 (sockaddr_in q a) 2) with (Some (le_val (le_bytes 2 q))).
  change (load32 (sockaddr_in q a) 4) with (Some (le_val (le_bytes 4 a))). cbn [of_option mbind res_bind].
  unfold in_u32, in_u16 in *. rewrite !le_val_bytes, !Z.mod_small by lia. done.
Qed.

Lemma sendtoCall_udp ch c so ep i p a q buf g fd d :
  channels d !! ch = Some c → ch_socket c = Some so → endpoints d !! so = Some ep → ep_type ep = EP_UDP →
  ep_pcb ep = Some i → sessions d !! i = Some p → p_tcb p = None → idgenerator d = Some g → tunDev d = Some fd →
  in_u32 a → in_u16 q →
  let '(s, port) := sending_to a q (p_base p) (udp_port d) in
  let hdr := udp_header (IpIdGenerator_next g).1 (udp_check (IpIdGenerator_next g).1 s (length buf)) s (length buf) in
  ∃ d', sendtoCall ch buf (Some (sockaddr_in q a)) d = Ok (answer (RetSendto (mkRet (i32 (length buf)) None)), d') ∧
    env d' = (k_writev fd [hdr; buf] (env d)).2 ∧ sessions d' = <[i := set_p_base (Session_disconnect s) p]> (sessions d).
Proof.
  intros Hc Hso Hep Hty Hpcb Hp Htcb Hg Ht Ha Hq. pose proof (UdpSession_send_to_eq a q buf i p g fd d Hp Hg Ht) as Hs.
  destruct (sending_to a q (p_base p) (udp_port d)) as [s port]. destruct Hs as (d' & Hs & He & _ & Hss). exists d'.
  split; [|done]. unfold sendtoCall. mstep (channel_socket_ok ch c so d Hc Hso). mstep (read_cell_ok endpoints so ep d Hep).
  rewrite (M_bind_ok _ _ d i d). 2: { unfold endpoint_pcb. mstep (read_cell_ok endpoints so ep d Hep). by rewrite Hpcb. }
  rewrite Hty. erewrite M_bind_ok.
  2: { rewrite (M_bind_ok _ _ d (a, q) d) by (by rewrite destAddr_sockaddr). unfold Session_send_to_v.
       mstep (read_cell_ok sessions i p d Hp). rewrite Htcb. exact Hs. }
  done.
Qed.

Lemma connectCall_udp ch c so ep i p a q d :
  channels d !! ch = Some c → ch_socket c = Some so → endpoints d !! so = Some ep → ep_type ep = EP_UDP →
  ep_pcb ep = Some i → sessions d !! i = Some p → p_tcb p = None → in_u32 a → in_u16 q →
  ∃ resp d', connectCall ch (sockaddr_in q a) d = Ok (resp, d') ∧ retcode resp = None.
Proof.
  intros Hc Hso Hep Hty Hpcb Hp Htcb Ha Hq. unfold connectCall.
  rewrite (M_bind_ok _ _ d (a, q) d) by (by rewrite destAddr_sockaddr). mstep (channel_socket_ok ch c so d Hc Hso).
  mstep (read_cell_ok endpoints so ep d Hep).
  rewrite (M_bind_ok _ _ d i d). 2: { unfold endpoint_pcb. mstep (read_cell_ok endpoints so ep d Hep). by rewrite Hpcb. }
  rewrite Hty. unfold Session_connect_v. pose proof (udp_base_eq (Session_connect a q) i p d Hp) as Hb.
  destruct (Session_connect a q (p_base p) (udp_port d)) as [[r s] port].
  erewrite M_bind_ok. 2: { mstep (read_cell_ok sessions i p d Hp). rewrite Htcb. exact Hb. }
  eexists _, _. split; [reflexivity|done].
Qed.
End system.

(** [sendto] on a UDP socket, down to the wire. *)
Lemma sendto_wire {C K} `{Glibc C} `{Kernel K} `{Codec} `{!CodecLaws} indet parse_partial dfuel fuel retries
    (p : Proc (Guest C K)) vfd ch fd dch cc h cl lk pl (d : Daemon (Host K)) so ep i q g tfd buf flags addr port :
  attached p vfd ch fd dch cc h cl lk pl d →
  ch_socket cc = Some so → endpoints d !! so = Some ep → ep_type ep = EP_UDP → ep_pcb ep = Some i →
  sessions d !! i = Some q → p_tcb q = None → idgenerator d = Some g → tunDev d = Some tfd →
  in_u32 addr → in_u16 port → 0 < length buf < 2147483648 →
  sendable (mkRequest (self_pid p) (Some (CallSendto buf flags (Some (sockaddr_in port addr))))) →
  answerable (answer (RetSendto (mkRet (length buf) None))) →
  let s := mkSession addr port (laddr (p_base q)) (source_port (p_base q) (udp_port d)) (s_socket (p_base q)) in
  let hdr := udp_header (IpIdGenerator_next g).1 (udp_check (IpIdGenerator_next g).1 s (length buf)) s (length buf) in
  ∃ p' d', @sendto _ (host_glibc indet parse_partial dfuel) _ fuel retries vfd (Some buf) (length buf) flags
      (Some (sockaddr_in port addr)) 16 p = Ok (Z.of_nat (length buf), p') ∧ same_globals p p' ∧
    Glibc.env p' = mkGuest cl (Ok d') lk pl ∧ inner (env d') = (k_writev tfd [hdr; buf] (inner (env d))).2 ∧
    csum_valid (take 20 hdr).
Proof.
  intros Ha Hso Hep Hty Hpcb Hq Htcb Hg Ht Hia Hip Hlen Hsend Hans s hdr. destruct (Ha) as [Hi Hch He Hlk Hs Hh].
  pose proof (sendtoCall_udp dch cc so ep i q addr port buf g tfd (in_turn (ch_sChannel cc) h d)
    (sv_channel _ _ _ _ Hs) Hso Hep Hty Hpcb Hq Htcb Hg Ht Hia Hip) as Hcall.
  change (udp_port (in_turn (ch_sChannel cc) h d)) with (udp_port d) in Hcall. unfold hdr, s. rewrite <-sending_to_eq.
  destruct (sending_to addr port (p_base q) (udp_port d)) as [s' port']. cbn [fst].
  destruct Hcall as (d1 & Hcall & Henv & _). rewrite i32_small in Hcall by (unfold in_i32; lia).
  destruct (attached_exchange indet parse_partial dfuel fuel retries _ _ _ _ _ _ _ _ _ _ _ _ _ d1 Ha Hsend Hcall Hans) as (h1 & Hh1 & Hx).
  destruct (sendto_ok (H := host_glibc indet parse_partial dfuel) fuel retries p vfd ch buf (length buf) flags
    (Some (sockaddr_in port addr)) (mkRet (length buf) None) _ Hi Hch ltac:(lia) eq_refl ltac:(rewrite Nat2Z.id, firstn_all; exact Hx))
    as (p' & Hrun & Hgl & He' & _); [cbn; lia|].
  exists p', (after_turn (ch_sChannel cc) h1 d1). split_and!; [exact Hrun|exact Hgl|exact He'| |apply udp_header_valid].
  change (env (after_turn (ch_sChannel cc) h1 d1)) with (env d1). rewrite Henv. apply (below_inner (k_writev tfd _)).
Qed.

(** ** Properties *)


(** C6. From the program to the wire: [sendto(fd, buf, len, flags, addr, 16)] on a
    pool descriptor with a UDP socket returns [len], and by then the daemon has
    made one [writev] on its TUN device, of a valid IP and UDP header from the
    socket's address and port (its own, or the next free one) to the address and
    port of [addr], and exactly the bytes of [buf]. *)
Theorem sendto_on_the_wire {C K} `{Glibc C} `{Kernel K} `{Codec} `{!CodecLaws} indet parse_partial dfuel fuel retries
    (p : Proc (Guest C K)) vfd ch fd dch cc h cl lk pl (d : Daemon (Host K)) so ep i q g tfd buf flags addr port :
  attached p vfd ch fd dch cc h cl lk pl d →
  ch_socket cc = Some so → endpoints d !! so = Some ep → ep_type ep = EP_UDP → ep_pcb ep = Some i →
  sessions d !! i = Some q → p_tcb q = None → idgenerator d = Some g → tunDev d = Some tfd →
  in_u32 addr → in_u16 port → 0 < length buf < 2147483648 →
  sendable (mkRequest (self_pid p) (Some (CallSendto buf flags (Some (sockaddr_in port addr))))) →
  answerable (answer (RetSendto (mkRet (length buf) None))) →
  let s := mkSession addr port (laddr (p_base q)) (source_port (p_base q) (udp_port d)) (s_socket (p_base q)) in
  let hdr := udp_header (IpIdGenerator_next g).1 (udp_check (IpIdGenerator_next g).1 s (length buf)) s (length buf) in
  ∃ p' d', @sendto _ (host_glibc indet parse_partial dfuel) _ fuel retries vfd (Some buf) (length buf) flags
      (Some (sockaddr_in port addr)) 16 p = Ok (Z.of_nat (length buf), p') ∧ same_globals p p' ∧
    Glibc.env p' = mkGuest cl (Ok d') lk pl ∧ inner (env d') = (k_writev tfd [hdr; buf] (inner (env d))).2 ∧
    csum_valid (take 20 hdr).
Proof. apply sendto_wire. Qed.

(** C16. [connect] on a UDP socket ends daemon and program: the daemon's handler
    leaves the required [retCode] unset, the assertion of
    [AgentChannel::Impl::write] stops the daemon, the program reads the end of
    the channel, and the assertion of [chan_recv] stops the program (both in a
    build with assertions). *)
Theorem udp_connect_aborts_both {C K} `{Glibc C} `{Kernel K} `{Codec} `{!CodecLaws} indet parse_partial dfuel fuel retries
    (p : Proc (Guest C K)) vfd ch fd dch cc h cl lk pl (d : Daemon (Host K)) so ep i q addr port :
  attached p vfd ch fd dch cc h cl lk pl d →
  ch_socket cc = Some so → endpoints d !! so = Some ep → ep_type ep = EP_UDP → ep_pcb ep = Some i →
  sessions d !! i = Some q → p_tcb q = None → in_u32 addr → in_u16 port →
  let req := mkRequest (self_pid p) (Some (CallConnect (sockaddr_in port addr))) in
  sendable req →
  EventReactor_turn (run_cb parse_partial dfuel) (queued fd idle (request_pack req) d) = Fault AssertFail ∧
  @connect _ (host_glibc indet parse_partial dfuel) _ fuel retries vfd (sockaddr_in port addr) 16 p = Fault AssertFail.
Proof.
  intros Ha Hso Hep Hty Hpcb Hq Htcb Hia Hip req Hsend. destruct (Ha) as [Hi Hch He Hlk Hs Hh].
  assert ((resp ← handleRequest dch req; AgentChannel_write resp dch) (in_turn (ch_sChannel cc) h d) = Fault AssertFail) as Hr.
  { set (d0 := in_turn _ h d).
    destruct (connectCall_udp dch cc so ep i q addr port d0 (sv_channel _ _ _ _ Hs) Hso Hep Hty Hpcb Hq Htcb Hia Hip) as (r & d1 & Hcall & Hrc).
    unfold handleRequest. cbn [calling req]. mstep Hcall. by apply write_incomplete. }
  split.
  - destruct Hsend as [Hwf Hl]. by eapply request_turn_fault.
  - unfold connect. rewrite (M_bind_ok _ _ p p p) by done. rewrite (chan_of_assigned _ _ _ Hch). cbn [negb].
    rewrite (M_bind_ok _ _ p tt p) by done. rewrite (M_bind_ok _ _ p (sockaddr_in port addr) p) by done.
    apply M_bind_fault. by eapply attached_dies.
Qed.

(** C15. Closing a socket ends the daemon: [close] on a pool descriptor returns 0
    and closes the channel, and the next turn of the daemon's event loop, which
    reads the end of the channel and destroys it, uses the handle it has just
    destroyed. *)
Theorem close_kills_daemon {C K} `{Glibc C} `{Kernel K} `{Codec} `{!CodecLaws} indet parse_partial dfuel fuel retries n
    (p : Proc (Guest C K)) vfd ch fd dch cc h cl lk pl (d : Daemon (Host K)) :
  attached p vfd ch fd dch cc h cl lk pl d → is_assigned_by_velox p ch = false →
  sendable (mkRequest (self_pid p) (Some CallClose)) → answerable (answer (RetClose (mkRet 0 None))) →
  ∃ p' d', @close _ (host_glibc indet parse_partial dfuel) _ fuel retries (S n) vfd p = Ok (0, p') ∧
    daemon (Glibc.env p') = Ok d' ∧ EventReactor_turn (run_cb parse_partial dfuel) d' = Fault UseAfterFree.
Proof.
  intros Ha Hnv Hsend Hans. destruct (Ha) as [Hi Hch He Hlk Hs Hh].
  destruct (attached_exchange indet parse_partial dfuel fuel retries _ _ _ _ _ _ _ _ _ _ _ _ _
    (in_turn (ch_sChannel cc) h d) Ha Hsend eq_refl Hans) as (h1 & Hh1 & Hx).
  set (d1 := after_turn _ h1 _) in Hx. destruct (serving_again fd dch cc h h1 d Hs Hh Hh1) as [Hs1 [h2 Hh2]]. fold d1 in Hs1, Hh2.
  destruct (g_close ch cl) as [[v en] cl'] eqn:Hcl.
  assert (@g_close _ (host_glibc indet parse_partial dfuel) ch (mkGuest cl (Ok d1) lk pl) =
    ((v, en), mkGuest cl' (Ok (hang_up fd d1)) (delete ch lk) pl)) as Hgc.
  { cbn. unfold guest_close. cbn. rewrite Hlk. unfold guest_client. cbn. by rewrite Hcl. }
  destruct (close_ok (H := host_glibc indet parse_partial dfuel) fuel retries n p vfd ch (mkRet 0 None) _ v en _ Hi Hch Hnv Hx Hgc)
    as (p' & Hrun & _ & He' & _); [done|].
  exists p', (hang_up fd d1). split; [exact Hrun|]. split; [by rewrite He'|]. by eapply hang_up_turn.
Qed.

(** ** Concrete runs *)

(** The daemon boots on a host, one program connects and asks for a UDP socket. *)
#[local] Existing Instance wire_codec.
#[local] Existing Instance wire_codec_laws.
Definition run_host {A} (r : res (A * Daemon (Host dscript))) : Daemon (Host dscript) :=
  match r with Ok (_, d) => d | Fault _ => fresh_daemon default_Conf (mkHost quiet ∅ [] None ∅ 40) end.
Definition host_turn (d : Daemon (Host dscript)) : Daemon (Host dscript) := run_host (EventReactor_turn (run_cb no_request 3) d).
Definition initialised : Daemon (Host dscript) :=
  run_host (Veloxd_init (fresh_daemon default_Conf (mkHost quiet ∅ [] None ∅ 40))).
Definition booted_host : Daemon (Host dscript) := run_host (Veloxd_run initialised).
Definition accepting : Daemon (Host dscript) :=
  queued 40 idle (request_pack (mkRequest 77 (Some (CallSocket AF_INET SOCK_DGRAM 0)))) (connected booted_host).
Definition with_socket_host : Daemon (Host dscript) :=
  let d := host_turn (host_turn accepting) in set_env (set_conns {[40 := idle]} (env d)) d.

(** The program, whose descriptor 4096 is that socket. *)
Definition socket_proc : Proc (Guest script dscript) :=
  mkProc 4096 4 4096 (Some [10; 0; 0; 0]) 3 0 77 [99; 117; 114; 108]
    (mkGuest (mkScript [] [] 11 (0, []) no_select) (Ok with_socket_host) {[10 := 40]} [TReactor; TReactor]).

Lemma initialised_eq : Veloxd_init (fresh_daemon default_Conf (mkHost quiet ∅ [] None ∅ 40)) = Ok (tt, initialised).
Proof. vm_compute. reflexivity. Qed.
Lemma booted_host_eq : Veloxd_run initialised = Ok (tt, booted_host).
Proof. vm_compute. reflexivity. Qed.
Lemma booted_host_graph : ok_graph booted_host.
Proof.
  apply (graph_same initialised); [split; [vm_compute; reflexivity|vm_compute; lia]|]. exact (init_graph _ _ _ _ initialised_eq).
Qed.
Lemma host_turn_graph d : match EventReactor_turn (run_cb no_request 3) d with Ok _ => True | Fault _ => False end →
  ok_graph d → ok_graph (host_turn d).
Proof.
  intros Hr G. unfold host_turn. destruct (EventReactor_turn _ d) as [[u d']|f] eqn:Ht; [|done]. cbn [run_host].
  by apply (turn_graph no_request 3 u d d').
Qed.
Lemma graph_env e (d : Daemon (Host dscript)) : ok_graph d → ok_graph (set_env e d).
Proof. by apply graph_same. Qed.
Lemma with_socket_graph : ok_graph with_socket_host.
Proof.
  unfold with_socket_host. cbv zeta. apply graph_env. do 2 (apply host_turn_graph; [by vm_compute|]).
  unfold accepting, queued. apply graph_env. unfold connected. apply graph_env, booted_host_graph.
Qed.

Definition socket_channel : AgentChannel := mkChannel 40 1 [] None (Some 4%nat).
Definition socket_handle : IoHandle :=
  mkIoHandle 40 3 1 false true (Some (CbChannelReadReady 2)) None (Some (CbChannelPeerClose 2)) None.
Definition socket_endpoint : Endpoint := mkEndpoint EP_UDP false (12, 13) false None 3 (Some 2%nat) (Some 5%nat) [].
Definition socket_pcb : Pcb := mkPcb (mkSession 0 0 178825408 0 (Some 4%nat)) None.
Definition socket_script : script := mkScript [] [] 11 (0, []) no_select.

Lemma socket_proc_attached :
  attached socket_proc 4096 10 40 2 socket_channel socket_handle socket_script {[10 := 40]} [TReactor] with_socket_host.
Proof.
  constructor.
  - split; cbn; [lia|lia|lia|eauto].
  - reflexivity.
  - reflexivity.
  - reflexivity.
  - constructor; try (vm_compute; reflexivity); [apply with_socket_graph|].
    intros fd c Hc. unfold with_socket_host in Hc. cbn [env set_env conns set_conns] in Hc. by apply lookup_singleton_Some in Hc as [_ <-].
  - vm_compute. reflexivity.
Qed.
Lemma socket_host_objects : endpoints with_socket_host !! 4%nat = Some socket_endpoint ∧ sessions with_socket_host !! 5%nat = Some socket_pcb ∧
  idgenerator with_socket_host = Some (mkIdGen 0) ∧ tunDev with_socket_host = Some 10 ∧
  ds_writes (inner (env with_socket_host)) = [].
Proof. vm_compute. done. Qed.

Lemma writev_logged fd bss (e : dscript) : ds_writes (k_writev fd bss e).2 = ds_writes e ++ [(fd, concat bss)].
Proof. done. Qed.

(** Small messages are well formed and fit. *)
Lemma sendable_small req : request_wf req → (length (request_pack req) <=? RPC_MESSAGE_MAX_SIZE) = true → sendable req.
Proof. intros Hw Hl. split; [done|]. by apply Z.leb_le. Qed.
Lemma answerable_small r : returning_wf r → (length (response_pack (answer r)) <=? RPC_MESSAGE_MAX_SIZE) = true → answerable (answer r).
Proof. intros Hw Hl. split_and!; [split; [by eexists|done]|done|]. by apply Z.leb_le. Qed.

(** The 16 bytes of 10.0.0.1, port 53. *)
Definition name_server : list Z := sockaddr_in 13568 16777226.
Lemma name_server_ok : blob_ok name_server.
Proof. split; [|done]. by apply (bool_decide_unpack _); vm_compute. Qed.

Lemma hello_sendable : sendable (mkRequest 77 (Some (CallSendto [104; 105] 0 (Some name_server)))).
Proof.
  apply sendable_small; [|by vm_compute]. split; [cbn; lia|]. refine (conj (conj _ _) (conj _ name_server_ok)); [|done|done].
  by apply (bool_decide_unpack _); vm_compute.
Qed.

Lemma query_sendable : sendable (mkRequest 77 (Some (CallConnect name_server))).
Proof. apply sendable_small; [|by vm_compute]. split; [cbn; lia|exact name_server_ok]. Qed.
Lemma hello_answerable : answerable (answer (RetSendto (mkRet 2 None))).
Proof. apply answerable_small; [done|by vm_compute]. Qed.


Lemma sendto_on_the_wire_witness :
  ∃ p' d' hdr, @sendto _ (host_glibc [] no_request 3) _ 0 0 4096 (Some [104; 105]) 2 0 (Some name_server) 16 socket_proc = Ok (2, p') ∧
    Glibc.env p' = mkGuest socket_script (Ok d') {[10 := 40]} [TReactor] ∧
    ds_writes (inner (env d')) = [(10, hdr ++ [104; 105])] ∧ csum_valid (take 20 hdr).
Proof.
  destruct socket_host_objects as (Hep & Hss & Hid & Ht & Hnone).
  destruct (sendto_on_the_wire [] no_request 3 0 0 socket_proc 4096 10 40 2 socket_channel socket_handle socket_script {[10 := 40]} [TReactor]
    with_socket_host 4 socket_endpoint 5 socket_pcb (mkIdGen 0) 10 [104; 105] 0 16777226 13568 socket_proc_attached
    eq_refl Hep eq_refl eq_refl Hss eq_refl Hid Ht)
    as (p' & d' & Hr & _ & He & Hw & Hv); [unfold in_u32; lia|unfold in_u16; lia|cbn; lia| | |].
  - exact hello_sendable.
  - exact hello_answerable.
  - match type of Hv with csum_valid (take 20 ?h) => exists p', d', h end.
    split; [exact Hr|split; [exact He|split; [|exact Hv]]]. rewrite Hw, writev_logged, Hnone. reflexivity.
Defined.

Lemma udp_connect_aborts_both_witness :
  @connect _ (host_glibc [] no_request 3) _ 0 0 4096 name_server 16 socket_proc = Fault AssertFail.
Proof.
  destruct socket_host_objects as (Hep & Hss & _).
  apply (udp_connect_aborts_both [] no_request 3 0 0 socket_proc 4096 10 40 2 socket_channel socket_handle socket_script {[10 := 40]} [TReactor]
    with_socket_host 4 socket_endpoint 5 socket_pcb 16777226 13568 socket_proc_attached
    eq_refl Hep eq_refl eq_refl Hss eq_refl); [unfold in_u32; lia|unfold in_u16; lia|].
  exact query_sendable.
Defined.

Lemma close_kills_daemon_witness :
  ∃ p' d', @close _ (host_glibc [] no_request 3) _ 0 0 1 4096 socket_proc = Ok (0, p') ∧
    daemon (Glibc.env p') = Ok d' ∧ EventReactor_turn (run_cb no_request 3) d' = Fault UseAfterFree.
Proof.
  apply (close_kills_daemon [] no_request 3 0 0 0 socket_proc 4096 10 40 2 socket_channel socket_handle socket_script {[10 := 40]} [TReactor]
    with_socket_host socket_proc_attached eq_refl).
  - apply sendable_small; [split; [cbn; lia|done]|by vm_compute].
  - apply answerable_small; [done|by vm_compute].
Defined.
