(* ===== verification/ConnectSpec.v ===== *)
(** * A program connects

    The first request on a new channel needs two turns of the daemon's event
    loop: one accepts the connection and registers the new channel, the next
    serves the request.  With that, start-up and [socket] are end to end. *)

From S2P Require Import Prelude Rpc Wire Glibc Script Channel FdPool Interceptor PoolInv InterceptorSpec SocketSpec Csum16 Frame Session World DScript Reactor Net Agent Udp Tcp Reassembly IpRx Dispatch Arbiter Boot ReactorSpec AgentSpec UdpSpec DispatchSpec Invariant LoopSpec BootSpec SocketCallSpec Ownership Link LinkSpec System.

Section accept.
Context {K : Type} `{Kernel K} `{Codec} `{!CodecLaws}.
Context (parse_partial : list Z → Request) (fuel : nat).
Implicit Types d : Daemon (Host K).
Notation turn := (EventReactor_turn (run_cb parse_partial fuel)).

(** A daemon that waits for connections and requests, and has none. *)
Record listening (lfd : Z) (hh : nat) (h : IoHandle) d : Prop := {
  ls_graph : ok_graph d;
  ls_inv : dinv d;
  ls_hub : hub d = Some (lfd, hh);
  ls_handle : handles d !! hh = Some h;
  ls_read : io_onRead h = Some CbHubReadReady;
  ls_listener : listener (env d) = Some lfd;
  ls_interest : interest (env d) !! lfd = Some hh;
  ls_quiet : ∀ fd c, conns (env d) !! fd = Some c → conn_event c = None;
  ls_backlog : backlog (env d) = [];
  ls_new : 0 ≤ next_conn (env d) ∧ interest (env d) !! next_conn (env d) = None;
  ls_running : loop_stopflag d = false
}.

(** With a connection in the backlog, and a message already waiting on it,
    epoll reports the listening socket only. *)
Lemma hub_only lfd hh h bs d : listening lfd hh h d →
  let d' := queued (next_conn (env d)) idle bs (connected d) in
  host_epoll_wait maxEventsReceivedEachPoll (-1) (env d') = ((1, [(POLLIN, hh)]), env d').
Proof.
  intros [_ _ _ _ _ Hl Hi Hq Hb [_ Hn] _] d'. unfold host_epoll_wait.
  assert (hub_event (env d') = [(POLLIN, hh)]) as ->. { unfold hub_event. cbn. rewrite Hb, Hl. cbn. by rewrite Hi. }
  assert (conn_events (env d') = []) as ->; [|done].
  unfold conn_events. cbn. replace (omap conn_event _) with ({[next_conn (env d) := POLLIN]} : gmap Z Z).
  { rewrite map_to_list_singleton. cbn. by rewrite Hn. }
  apply map_eq. intros fd'. rewrite lookup_omap, insert_insert_eq. destruct (decide (fd' = next_conn (env d))) as [->|Hne].
  - by rewrite lookup_singleton_eq, lookup_insert_eq.
  - rewrite lookup_singleton_ne, lookup_insert_ne by done. destruct (conns (env d) !! fd') as [c'|] eqn:Hc'; [|done].
    cbn. by rewrite (Hq _ _ Hc').
Qed.

(** The connection [n] is accepted: its channel, and what stays. *)
Record accepted (n : Z) d d' : Prop := {
  ac_channel : channels d' !! S (next_id d) = Some (mkChannel n (next_id d) [] None None);
  ac_handle : is_Some (handles d' !! next_id d);
  ac_old : ∀ i x, handles d !! i = Some x → (i < next_id d)%nat → handles d' !! i = Some x;
  ac_interest : interest (env d') !! n = Some (next_id d);
  ac_traffic : traffic (env d') = traffic (env d);
  ac_stop : loop_stopflag d' = loop_stopflag d;
  ac_conf : conf d' = conf d
}.
Lemma onNewConnection_ok n d : (∀ x, x ∈ loop_channels d → (x < next_id d)%nat) →
  ∃ d', Arbiter_onNewConnection n d = Ok (tt, d') ∧ accepted n d d'.
Proof.
  intros Hl. unfold Arbiter_onNewConnection. mstep (AgentChannel_new_ok n d). erewrite M_bind_ok by reflexivity.
  erewrite M_bind_ok by (apply read_cell_ok, lookup_insert_eq). cbn [ch_sChannel].
  erewrite register_ok; [|apply lookup_insert_eq|intros Hx; apply Hl in Hx; cbn in Hx; lia].
  eexists. split; [reflexivity|]. unfold epoll_add. constructor.
  - apply lookup_insert_eq.
  - cbn. by rewrite lookup_insert_eq.
  - intros i x Hi Hlt. cbn. rewrite !lookup_insert_ne by lia. done.
  - cbn. unfold host_epoll_ctl. destruct (below_ _ _) as [r e]. apply lookup_insert_eq.
  - cbn. unfold host_epoll_ctl. unfold below_. by destruct (k_epoll_ctl _ _ _ _ _), (k_getfl _ _).
  - done.
  - done.
Qed.

(** The message that waits on a connection is the only difference. *)
Lemma queued_back n bs d : conns (env d) !! n = Some (mkConn [bs] [] false) →
  d = queued n idle bs (set_env (set_conns (<[n := idle]> (conns (env d))) (env d)) d).
Proof.
  intros Hc. unfold queued. cbn. rewrite insert_insert_eq, insert_id by done. clear.
  destruct d as [? ? ? ? ? ? ? ? ? ? ? ? ? ? ? ? ? ? ? ? ? ? ? ? []]. reflexivity.
Qed.

(** The callback of the listening socket takes the one connection. *)
Lemma hub_cb n lfd hh d : hub d = Some (lfd, hh) → backlog (env d) = [n] → n ≠ -1 → (1 ≤ fuel)%nat →
  (∀ x, x ∈ loop_channels d → (x < next_id d)%nat) →
  ∃ d', run_cb parse_partial fuel CbHubReadReady d = Ok (tt, d') ∧
    channels d' !! S (next_id d) = Some (mkChannel n (next_id d) [] None None) ∧ is_Some (handles d' !! next_id d) ∧
    (∀ i x, handles d !! i = Some x → (i < next_id d)%nat → handles d' !! i = Some x) ∧
    interest (env d') !! n = Some (next_id d) ∧ conns (env d') = conns (env d) ∧ backlog (env d') = [] ∧
    loop_stopflag d' = loop_stopflag d ∧ conf d' = conf d.
Proof.
  intros Hhub Hb Hn Hf Hl. cbn [run_cb]. unfold AgentHub_onReadReady.
  rewrite (M_bind_ok (gets hub) _ d (Some (lfd, hh)) d) by (unfold gets; by rewrite Hhub).
  rewrite (M_bind_ok _ _ d (lfd, hh) d) by done. destruct fuel as [|f]; [lia|]. cbn [accept_loop fst].
  set (d1 := set_env (mkHost (inner (env d)) (conns (env d)) [] (listener (env d)) (interest (env d)) (next_conn (env d))) d).
  rewrite (M_bind_ok _ _ d (n, 0) d1) by (unfold kcall; cbn; unfold host_accept; by rewrite Hb).
  rewrite (proj2 (Z.eqb_neq n (-1)) Hn).
  destruct (onNewConnection_ok n d1 Hl) as (d2 & Hd2 & [Hc Hh Ho Hi Ht Hst Hcf]). mstep Hd2. injection Ht as Ht1 Ht2.
  exists d2. split; [|by split_and!].
  assert (kcall (k_accept lfd) d2 = Ok ((-1, EAGAIN), d2)) as Ha.
  { unfold kcall. cbn. unfold host_accept. rewrite Ht2. cbn. by rewrite set_env_id. }
  destruct f; cbn [accept_loop]; by mstep Ha.
Qed.

Lemma accept_turn lfd hh h bs d : listening lfd hh h d → (1 ≤ fuel)%nat →
  let n := next_conn (env d) in
  ∃ d2 h2, turn (queued n idle bs (connected d)) = Ok (tt, queued n idle bs d2) ∧
    serving n (S (next_id d)) (mkChannel n (next_id d) [] None None) d2 ∧ handles d2 !! next_id d = Some h2 ∧ conf d2 = conf d.
Proof.
  intros Hls Hf n. pose proof (hub_only lfd hh h bs d Hls) as Hev. destruct Hls as [G I Hhub Hh Hon _ _ Hq Hb [Hn0 _] Hrun].
  set (dq := queued n idle bs (connected d)) in *. set (de := with_event POLLIN hh h dq).
  assert (∀ x, x ∈ loop_channels d → (x < next_id d)%nat) as Hl.
  { intros x Hx. apply (inv_registered _ I) in Hx as (y & Hy & _). by eapply inv_fresh. }
  assert (hh < next_id d)%nat as Hlt by (by eapply inv_fresh).
  destruct (hub_cb n lfd hh de Hhub ltac:(cbn; by rewrite Hb) ltac:(lia) Hf Hl) as (d1 & Hd1 & Hc & Hhd & Ho & Hi & Ht & Hbk & Hst & Hcf).
  assert (handles d1 !! hh = Some (set_io_handling true (set_io_received POLLIN h))) as Hh1.
  { apply Ho; [apply lookup_insert_eq|exact Hlt]. }
  set (d2 := after_turn hh (set_io_handling true (set_io_received POLLIN h)) d1).
  assert (turn dq = Ok (tt, d2)) as Hturn.
  { rewrite (reader_turn parse_partial fuel POLLIN hh h CbHubReadReady dq Hh Hon (or_introl eq_refl) Hev). fold de. mstep Hd1.
    erewrite M_bind_ok by (apply upd_handle_ok; exact Hh1). done. }
  assert (ok_graph d2) as G2 by (eapply (turn_graph parse_partial fuel tt dq d2); [by eapply (graph_same d)|done]).
  assert (conns (env d2) = <[n := mkConn [bs] [] false]> (conns (env d))) as Hcn.
  { change (conns (env d1) = <[n := mkConn [bs] [] false]> (conns (env d))). rewrite Ht. cbn. apply insert_insert_eq. }
  rewrite (queued_back n bs d2) in Hturn by (rewrite Hcn; apply lookup_insert_eq).
  assert (is_Some (handles d2 !! next_id d)) as [h2 Hh2] by (cbn; rewrite lookup_insert_ne by lia; exact Hhd).
  eexists _, h2. split; [exact Hturn|]. split; [|split; [exact Hh2|exact Hcf]]. constructor; try done.
  - cbn. apply lookup_insert_eq.
  - intros fd' c Hc'. cbn in Hc'. apply lookup_insert_Some in Hc' as [[_ <-]|[Hne Hc']]; [done|].
    change (conns (env d1)) with (conns (env d2)) in Hc'. rewrite Hcn, lookup_insert_ne in Hc' by done. by eapply Hq.
  - cbn. by rewrite Hst.
Qed.
End accept.

(** ** The first request of a program *)

Section first.
Context {C K : Type} `{Glibc C} `{Kernel K} `{Codec} `{!CodecLaws}.
Context (indet : list Z) (parse_partial : list Z → Request) (dfuel fuel retries : nat).
Implicit Types d : Daemon (Host K).
#[local] Instance the_host : Glibc (Guest C K) := host_glibc indet parse_partial dfuel.

(** Opening a channel. *)
Lemma guest_opens cl lk pl d ch en cl' : ch ≠ -1 → g_socket Channel.AF_UNIX Channel.SOCK_SEQPACKET 0 cl = ((ch, en), cl') →
  opens (mkGuest cl (Ok d) lk pl) ch (mkGuest cl' (Ok (connected d)) (<[ch := next_conn (env d)]> lk) pl).
Proof.
  intros Hne Hs. split; [done|]. eexists en, _, 0, None. split; [cbn; unfold guest_client; cbn; rewrite Hs; reflexivity|].
  split; [|done]. cbn. unfold guest_connect. by rewrite decide_True.
Qed.

(** The first request is answered after the connection is accepted. *)
Lemma first_exchange lfd hh h ch req cl lk pl d : (1 ≤ dfuel)%nat → listening lfd hh h d → sendable req →
  let n := next_conn (env d) in
  let cc := mkChannel n (next_id d) [] None None in
  ∃ d2 h2, serving n (S (next_id d)) cc d2 ∧ handles d2 !! next_id d = Some h2 ∧ dinv d2 ∧ conf d2 = conf d ∧
    ∀ resp d3, handleRequest (S (next_id d)) req (in_turn (next_id d) h2 d2) = Ok (resp, d3) → answerable resp →
      ∃ h3, handles d3 !! next_id d = Some h3 ∧
        exchange fuel retries ch req (mkGuest cl (Ok (connected d)) (<[ch := n]> lk) (TReactor :: TReactor :: pl)) resp
          (mkGuest cl (Ok (after_turn (next_id d) h3 d3)) (<[ch := n]> lk) pl).
Proof.
  intros Hf Hls [Hwf Hl] n cc. destruct (accept_turn parse_partial dfuel lfd hh h (request_pack req) d Hls Hf) as (d2 & h2 & Ht & Hs & Hh2 & Hcf).
  fold n in Ht. fold n cc in Hs. exists d2, h2. split_and!; [done|done| |done|].
  { pose proof (dkeeps_turn _ (dkeeps_run_cb parse_partial dfuel) (queued n idle (request_pack req) (connected d))) as Hk.
    rewrite Ht in Hk. destruct Hk as [I2 _]; [by destruct (ls_inv _ _ _ _ Hls); constructor|]. by destruct I2; constructor. }
  intros resp d3 Hr (Hwr & Hne & Hlr).
  destruct (await_reply indet parse_partial dfuel n (S (next_id d)) cc h2 req resp pl d2 d3 Hs Hh2 Hwf Hl Hr (proj1 Hwr) Hlr) as (h3 & Hh3 & Ha).
  change (ch_sChannel cc) with (next_id d) in Hh3, Ha.
  exists h3. split; [done|]. eapply exchange_await; [apply lookup_insert_eq|apply lookup_insert_eq|done|done|done|done|].
  rewrite <-Ha. apply await_turn; [apply pending_queued|].
  unfold run_thread. change (loop_stopflag (queued n idle (request_pack req) (connected d))) with (loop_stopflag d).
  by rewrite (ls_running _ _ _ _ Hls), Ht.
Qed.

Lemma dinv_in_turn i h d : dinv d → handles d !! i = Some h → dinv (in_turn i h d).
Proof.
  intros I Hi. eapply (dinv_handles i h (set_io_handling true (set_io_received POLLIN h))) in I; [|done|done].
  by destruct I; constructor.
Qed.

Lemma after_turn_graph i h d : handles d !! i = Some h → ok_graph d → ok_graph (after_turn i h d).
Proof.
  intros Hi. apply graph_same. split; [|done]. unfold links, after_turn. cbn. by rewrite (upd_same _ _ _ h).
Qed.

(** What [atstartAction] records. *)
Lemma atstart_ok dch cc pid name d : channels d !! dch = Some cc →
  ∃ d', handleRequest dch (mkRequest pid (Some (CallAtstart name))) d = Ok (answer (RetAtstart 4096 (Some 1024)), d') ∧
    channels d' = <[dch := set_ch_peerPid (Some (i32 pid)) (set_ch_peer name cc)]> (channels d).
Proof.
  intros Hc. cbn [handleRequest calling Rpc.pid]. unfold atstartAction, AgentChannel_setPeerName, AgentChannel_setPeerPid, upd_channel.
  erewrite M_bind_ok by (mstep (read_cell_ok channels dch cc d Hc); reflexivity).
  erewrite M_bind_ok by (erewrite M_bind_ok by (apply read_cell_ok, lookup_insert_eq); reflexivity).
  eexists. split; [reflexivity|]. cbn. apply insert_insert_eq.
Qed.
End first.

(** ** Properties *)

(** C13. Start-up end to end: when a program starts beside a daemon that waits for
    connections, two turns of the event loop (one accepts the program's first
    channel, one serves its first request) leave the interceptor with the pool
    of the 1024 descriptors from 4096, none assigned and the pool invariant
    established, and the daemon with a channel that knows the program's process
    id and name; the program's [main] runs from there. *)
Theorem program_starts {C K} `{Glibc C} `{Kernel K} `{Codec} `{!CodecLaws} indet parse_partial dfuel fuel retries
    (p : Proc (Guest C K)) ch cl en cl1 cl2 lk pl (d : Daemon (Host K)) lfd hh h :
  Glibc.env p = mkGuest cl (Ok d) lk (TReactor :: TReactor :: pl) → listening lfd hh h d → (1 ≤ dfuel)%nat →
  ch ≠ -1 → g_socket Channel.AF_UNIX Channel.SOCK_SEQPACKET 0 cl = ((ch, en), cl1) → g_malloc 4096 cl1 = (true, cl2) →
  sendable (mkRequest (self_pid p) (Some (CallAtstart (short_name p)))) →
  answerable (answer (RetAtstart 4096 (Some 1024))) →
  ∃ p' d', @interceptor_init _ (host_glibc indet parse_partial dfuel) _ fuel retries p = Ok (tt, p') ∧
    (∀ main, @libc_start_main _ (host_glibc indet parse_partial dfuel) _ fuel retries main p = main p') ∧ proc_inv p' ∧
    (∀ fd, is_assigned_by_velox p' fd = true ↔ 4096 ≤ fd < 5120) ∧ last_fd_assigned p' = 4095 ∧ g_proc_chan p' = ch ∧
    Glibc.env p' = mkGuest cl2 (Ok d') (<[ch := next_conn (env d)]> lk) pl ∧
    channels d' !! S (next_id d) =
      Some (mkChannel (next_conn (env d)) (next_id d) (short_name p) (Some (i32 (self_pid p))) None).
Proof.
  intros He Hls Hf Hne Hso Hm Hsend Hans.
  pose proof (guest_opens indet parse_partial dfuel cl lk (TReactor :: TReactor :: pl) d ch en cl1 Hne Hso) as Ho.
  rewrite <-He in Ho.
  destruct (first_exchange indet parse_partial dfuel fuel retries lfd hh h ch _ cl1 lk pl d Hf Hls Hsend) as (d2 & h2 & Hs & Hh2 & _ & _ & Hx).
  destruct (atstart_ok _ _ (self_pid p) (short_name p) (in_turn (next_id d) h2 d2) (sv_channel _ _ _ _ Hs)) as (d3 & Hr & Hc3).
  destruct (Hx _ _ Hr Hans) as (h3 & Hh3 & Hex).
  edestruct (start_up_ok (H := host_glibc indet parse_partial dfuel) fuel retries p ch _ 4096 1024 _
    (mkGuest cl2 (Ok (after_turn (next_id d) h3 d3)) (<[ch := next_conn (env d)]> lk) pl) Ho Hex)
    as (p' & Hrun & Hi & Hst & Hct & Hl & Hpc & _ & He'); [lia|lia| |].
  { change (u64 (4 * 1024)) with 4096. cbn. by rewrite Hm. }
  exists p', (after_turn (next_id d) h3 d3). split_and!; try done.
  - intros main. unfold libc_start_main. by mstep Hrun.
  - intros fd. rewrite is_assigned_spec, Hst, Hct. lia.
  - cbn. rewrite Hc3. apply lookup_insert_eq.
Qed.

(** C14. [socket] end to end: on a pool that is not exhausted, beside a daemon that
    waits for connections, [socket(AF_INET, type, protocol)] returns the next
    pool descriptor, which owns a channel of its own; at the daemon's end of
    that very channel stands a new endpoint of the requested kind, with a
    session at the stack's address, each pointing to the other and to the
    channel. *)
Theorem socket_end_to_end {C K} `{Glibc C} `{Kernel K} `{Codec} `{!CodecLaws} indet parse_partial dfuel fuel retries
    (p : Proc (Guest C K)) type protocol ch cl en cl1 lk pl (d : Daemon (Host K)) lfd hh h :
  proc_inv p → last_fd_assigned p < g_startfd p + g_fd_count p - 1 →
  has_bits type SOCK_STREAM || has_bits type SOCK_DGRAM = true →
  Glibc.env p = mkGuest cl (Ok d) lk (TReactor :: TReactor :: pl) → listening lfd hh h d → (1 ≤ dfuel)%nat →
  ch ≠ -1 → g_socket Channel.AF_UNIX Channel.SOCK_SEQPACKET 0 cl = ((ch, en), cl1) →
  sendable (mkRequest (self_pid p) (Some (CallSocket AF_INET type protocol))) →
  answerable (answer (RetSocket (mkRet 0 None))) →
  let vfd := last_fd_assigned p + 1 in
  let dch := S (next_id d) in
  ∃ p' d' so pcb ep q, @socket _ (host_glibc indet parse_partial dfuel) _ fuel retries AF_INET type protocol p = Ok (vfd, p') ∧
    proc_inv p' ∧ last_fd_assigned p' = vfd ∧ chan_of p' vfd = Some ch ∧ (∀ fd, fd ≠ vfd → chan_of p' fd = chan_of p fd) ∧
    Glibc.env p' = mkGuest cl1 (Ok d') (<[ch := next_conn (env d)]> lk) pl ∧ ok_graph d' ∧
    channels d' !! dch = Some (mkChannel (next_conn (env d)) (next_id d) [] None (Some so)) ∧
    endpoints d' !! so = Some ep ∧ ep_type ep = (if has_bits type SOCK_STREAM then EP_TCP else EP_UDP) ∧
    ep_pcb ep = Some pcb ∧ ep_rrChannel ep = Some dch ∧
    sessions d' !! pcb = Some q ∧ p_base q = Session_setSocket (Some so) (Session_new (stack_addr (conf d))).
Proof.
  intros Hi Hl Hty He Hls Hf Hne Hso Hsend Hans vfd dch.
  pose proof (guest_opens indet parse_partial dfuel cl lk (TReactor :: TReactor :: pl) d ch en cl1 Hne Hso) as Ho.
  rewrite <-He in Ho.
  destruct (first_exchange indet parse_partial dfuel fuel retries lfd hh h ch _ cl1 lk pl d Hf Hls Hsend) as (d2 & h2 & Hs & Hh2 & I2 & Hcf & Hx).
  set (d0 := in_turn (next_id d) h2 d2) in Hx.
  pose proof (socketCall_creates dch _ type d0 (dinv_in_turn _ _ _ I2 Hh2) (sv_channel _ _ _ _ Hs) eq_refl) as Hcr. cbv zeta in Hcr.
  rewrite Hty in Hcr. destruct Hcr as (so & pcb & ep & q & d3 & Hr & _ & _ & Hc & Hep & Hss & Hk & _ & Hpcb & Hrr & _ & _ & Hb & _).
  assert (ok_graph d3) as G3.
  { eapply (handleRequest_graph dch (mkRequest (self_pid p) (Some (CallSocket AF_INET type protocol))) _ d0); [|by eexists; apply (sv_channel _ _ _ _ Hs)|exact Hr].
    apply in_turn_graph; [done|apply (sv_graph _ _ _ _ Hs)]. }
  destruct (Hx _ d3 Hr Hans) as (h3 & Hh3 & Hex).
  destruct (socket_ok (H := host_glibc indet parse_partial dfuel) fuel retries p type protocol ch _ (mkRet 0 None) _ Hi Hty Hl Ho Hex)
    as (p' & Hrun & Hi' & Hl' & Hch & Hoth & He' & _); [done|].
  exists p', (after_turn (next_id d) h3 d3), so, pcb, ep, q. split_and!; try done.
  - apply after_turn_graph; [done|]. exact G3.
  - cbn. rewrite Hc. apply lookup_insert_eq.
  - cbn. rewrite Hep. apply lookup_insert_eq.
  - cbn. rewrite Hss. apply lookup_insert_eq.
  - rewrite Hb. by change (conf d0) with (conf d2); rewrite Hcf.
Qed.

(** ** Concrete runs *)

#[local] Existing Instance wire_codec.
#[local] Existing Instance wire_codec_laws.

(** The booted daemon of System.v waits for connections. *)
Definition hub_handle : IoHandle := mkIoHandle 11 3 0 false true (Some CbHubReadReady) None None None.
Lemma dkeeps_run : dkeeps (λ _, True) (Veloxd_run : D (Host dscript) unit).
Proof.
  unfold Veloxd_run, Arbiter_start, AgentHub_listen. eapply dkeeps_bind; [dkeeps_modify_tac|]. intros _ _.
  apply (dkeeps_bind (λ _, True)); [dkeeps|intros _ _; dkeeps_modify_tac].
Qed.
Lemma booted_listening : listening 11 0 hub_handle booted_host.
Proof.
  constructor; try (vm_compute; reflexivity).
  - apply booted_host_graph.
  - pose proof (dkeeps_Veloxd_init _ (fresh_dinv default_Conf (mkHost quiet ∅ [] None ∅ 40))) as Hk.
    rewrite initialised_eq in Hk. destruct Hk as [Hk _]. apply dkeeps_run in Hk.
    rewrite booted_host_eq in Hk. apply Hk.
  - intros fd c Hc. assert (conns (env booted_host) = ∅) as E by (vm_compute; reflexivity). rewrite E in Hc. done.
  - vm_compute. split; [discriminate|reflexivity].
Qed.

(** A program that starts, and the same program once it has its pool. *)
Definition client_script : script := mkScript [] [] 10 (0, []) no_select.
Definition starting_proc : Proc (Guest script dscript) :=
  mkProc 0 0 0 None 0 0 77 [99; 117; 114; 108] (mkGuest client_script (Ok booted_host) ∅ [TReactor; TReactor]).
Definition started_proc : Proc (Guest script dscript) :=
  mkProc 4096 4 4095 (Some [0; 0; 0; 0]) 3 0 77 [99; 117; 114; 108]
    (mkGuest client_script (Ok booted_host) ∅ [TReactor; TReactor]).

Lemma hello_atstart : sendable (mkRequest 77 (Some (CallAtstart [99; 117; 114; 108]))).
Proof.
  apply sendable_small; [|by vm_compute]. split; [cbn; lia|]. split; [|done]. by apply (bool_decide_unpack _); vm_compute.
Qed.

Lemma program_starts_witness :
  ∃ p' d', @interceptor_init _ (host_glibc [] no_request 3) _ 0 0 starting_proc = Ok (tt, p') ∧
    last_fd_assigned p' = 4095 ∧ daemon (Glibc.env p') = Ok d' ∧
    channels d' !! 2%nat = Some (mkChannel 40 1 [99; 117; 114; 108] (Some 77) None).
Proof.
  destruct (program_starts [] no_request 3 0 0 starting_proc 10 client_script None (mkScript [] [] 11 (0, []) no_select)
    (mkScript [] [] 11 (0, []) no_select) ∅ [] booted_host 11 0 hub_handle eq_refl booted_listening)
    as (p' & d' & Hr & _ & _ & _ & Hl & _ & He & Hc); [lia|discriminate|reflexivity|reflexivity|exact hello_atstart| |].
  - apply answerable_small; [done|by vm_compute].
  - exists p', d'. split; [exact Hr|split; [exact Hl|split; [by rewrite He|exact Hc]]].
Defined.

Lemma socket_end_to_end_witness :
  ∃ p' d' ep q, @socket _ (host_glibc [] no_request 3) _ 0 0 AF_INET SOCK_STREAM 0 started_proc = Ok (4096, p') ∧
    chan_of p' 4096 = Some 10 ∧ daemon (Glibc.env p') = Ok d' ∧ ok_graph d' ∧
    ep_type ep = EP_TCP ∧ laddr (p_base q) = 178825408.
Proof.
  destruct (socket_end_to_end [] no_request 3 0 0 started_proc SOCK_STREAM 0 10 client_script None (mkScript [] [] 11 (0, []) no_select)
    ∅ [] booted_host 11 0 hub_handle) as (p' & d' & so & pcb & ep & q & Hr & _ & _ & Hc & _ & He & G & _ & _ & Ht & _ & _ & _ & Hb);
    [split; cbn; [lia|lia|lia|eauto]|cbn; lia|reflexivity|reflexivity|exact booted_listening|lia|discriminate|reflexivity| | |].
  - apply sendable_small; [|by vm_compute]. by split; [cbn; lia|].
  - apply answerable_small; [done|by vm_compute].
  - exists p', d', ep, q. split; [exact Hr|split; [exact Hc|split; [by rewrite He|split; [exact G|split; [exact Ht|]]]]].
    rewrite Hb. vm_compute. reflexivity.
Defined.
