(* ===== verification/DeliverySpec.v ===== *)
(** * From the wire to the program

    A program that waits in [recvfrom] while the daemon's three threads take
    their turns: the interface thread reads the packet, the IP thread queues the
    datagram, the event loop answers. *)

From S2P Require Import Prelude Rpc Wire Glibc Script Channel FdPool Interceptor PoolInv InterceptorSpec SocketSpec Csum16 Frame Session World DScript Reactor Net Agent Udp Tcp Reassembly IpRx Dispatch Arbiter Boot ReactorSpec AgentSpec PacketSpec UdpSpec DispatchSpec Invariant LoopSpec BootSpec SocketCallSpec Ownership Link LinkSpec System ConnectSpec.

Section delivery.
Context {C K : Type} `{Glibc C} `{Kernel K} `{Codec} `{!CodecLaws}.
Context (indet : list Z) (parse_partial : list Z → Request) (dfuel fuel retries : nat).
Implicit Types d : Daemon (Host K).

(** A descriptor that is not a channel's is the rest of the kernel's. *)
Lemma host_read_below fd n (h : Host K) r k : conns h !! fd = None → k_read fd n (inner h) = (r, k) →
  k_read fd n h = (r, set_inner k h).
Proof. intros Hc Hr. cbn. unfold host_read. rewrite Hc. unfold below_. by rewrite Hr. Qed.
Lemma host_write_below fd bs (h : Host K) : conns h !! fd = None →
  (k_write fd bs h).2 = set_inner (k_write fd bs (inner h)).2 h.
Proof. intros Hc. cbn. unfold host_write. rewrite Hc. unfold below_. by destruct (k_write fd bs (inner h)). Qed.

(** The daemon can receive: its layers run, nothing is queued, and TUN device
    and notification pipe are not channels. *)
Record can_receive (so i : nat) (ep : Endpoint) (q : Pcb) (tfd : Z) d : Prop := {
  cr_endpoint : endpoints d !! so = Some ep;
  cr_empty : recvQ ep = [];
  cr_session : sessions d !! i = Some q;
  cr_socket : s_socket (p_base q) = Some so;
  cr_rxQ : rxQ d = [];
  cr_tun : tunDev d = Some tfd;
  cr_tun_fd : conns (env d) !! tfd = None;
  cr_pipe_fd : conns (env d) !! (new_packet_notify_pipe ep).2 = None;
  cr_running : if_stopflag d = false ∧ ip_stopflag d = false
}.

(** The two lower threads take the datagram [buf] to the endpoint's queue. *)
Lemma layers_deliver so i ep q tfd s hdr buf x k' n fd bs d : datagram_header s hdr →
  can_receive so i ep q tfd d → session_words s → length buf ≤ 1490 →
  Sessions_find (lock_session d) (laddr s) (lport s) (faddr s) (fport s) (udp_pcbs d) = Some i →
  let pkt := hdr ++ buf in
  k_read tfd maxRawBytesSize (inner (env d)) = ((Z.of_nat (length pkt), pkt, x), k') →
  fd ≠ tfd → fd ≠ (new_packet_notify_pipe ep).2 → conns (env d) !! fd = Some idle →
  ∃ dq1 dq2 d2, run_thread indet parse_partial dfuel TInterface (queued fd idle bs d) = Ok dq1 ∧
    run_thread indet parse_partial dfuel TIp dq1 = Ok dq2 ∧
    pending fd dq1 = None ∧ dq2 = queued fd idle bs d2 ∧
    (∀ cc, serving fd n cc d → serving fd n cc d2) ∧ handles d2 = handles d ∧ channels d2 = channels d ∧
    endpoints d2 !! so = Some (set_recvQ [(sockaddr_in (lport s) (laddr s), next_id d)] ep) ∧
    chain d2 (Some (next_id d)) [next_id d] buf.
Proof.
  intros Hdg [Hep Hq Hse Hso Hrx Ht Htf Hpf [Hr1 Hr2]] Hsw Hlen Hfind pkt Hread Hft Hfp Hconn.
  set (dq := queued fd idle bs d). set (k := next_id d). set (a := sockaddr_in (lport s) (laddr s)).
  assert (∀ f, f ≠ fd → conns (env dq) !! f = conns (env d) !! f) as Hoth by (intros f Hf; cbn; by rewrite lookup_insert_ne).
  assert (length pkt = (28 + length buf)%nat) as Hl by (unfold pkt; rewrite length_app, (proj2 Hdg); lia).
  assert (k_read tfd maxRawBytesSize (env dq) = ((Z.of_nat (length pkt), pkt, x), set_inner k' (env dq))) as Hkr.
  { apply host_read_below; [by rewrite Hoth|exact Hread]. }
  pose proof (Interface_turn_ok tfd pkt 69 x _ dq Ht ltac:(lia) Hkr (carries_first _ _ _ _ (proj1 Hdg)) eq_refl) as Hif.
  change (rxQ dq) with (rxQ d) in Hif. rewrite Hrx in Hif. change (next_id dq) with k in Hif. set (dq1 := set_rxQ _ _) in Hif.
  pose proof (Ip_turn_udp indet k s hdr buf i q so ep [] dq1 Hdg eq_refl (lookup_insert_eq _ _ _) Hsw Hfind Hse Hso Hep) as Hip.
  unfold enqueued in Hip. rewrite Hq in Hip. cbn [length app] in Hip. change (recvQlimit <? 0%nat) with false in Hip.
  fold a in Hip. rewrite host_write_below in Hip by (cbn; rewrite lookup_insert_ne by done; exact Hpf).
  set (dq2 := set_env _ _) in Hip.
  assert (conns (env dq2) = <[fd := mkConn [bs] [] false]> (conns (env d))) as Hcn by done.
  exists dq1, dq2, (set_env (set_conns (<[fd := idle]> (conns (env dq2))) (env dq2)) dq2). split_and!.
  - unfold run_thread. change (if_stopflag dq) with (if_stopflag d). by rewrite Hr1, Hif.
  - unfold run_thread. change (ip_stopflag dq1) with (ip_stopflag d). by rewrite Hr2, Hip.
  - unfold pending. cbn. by rewrite lookup_insert_eq.
  - apply queued_back. rewrite Hcn. apply lookup_insert_eq.
  - intros cc [G Hch Hfd _ Hint Hqu Hb Hrun]. constructor; try done.
    + eapply (graph_same dq2); [done|]. eapply (graph_same dq1); [by eapply neutral_Ip_turn|].
      eapply (graph_same dq); [by eapply neutral_Interface_turn|]. by eapply (graph_same d).
    + cbn. apply lookup_insert_eq.
    + intros f cn. cbn [env set_env conns set_conns]. rewrite Hcn, insert_insert_eq, insert_id by done. apply Hqu.
  - reflexivity.
  - reflexivity.
  - cbn. apply lookup_insert_eq.
  - eassert (chain _ (Some k) [k] (buf ++ [])) as Hchn; [|by rewrite app_nil_r in Hchn].
    econstructor; [apply lookup_insert_eq|apply udp_rx_payload, Hdg|constructor].
Qed.

(** The whole exchange of a [recvfrom] during which the datagram arrives. *)
Lemma recvfrom_exchange so i ep q tfd s hdr buf x k' len flags addr ch fd dch cc h cl lk pl pid d : datagram_header s hdr →
  can_receive so i ep q tfd d → serving fd dch cc d → handles d !! ch_sChannel cc = Some h → ch_socket cc = Some so →
  lk !! ch = Some fd → session_words s → length buf ≤ 1490 →
  Sessions_find (lock_session d) (laddr s) (lport s) (faddr s) (fport s) (udp_pcbs d) = Some i →
  let pkt := hdr ++ buf in
  k_read tfd maxRawBytesSize (inner (env d)) = ((Z.of_nat (length pkt), pkt, x), k') →
  fd ≠ tfd → fd ≠ (new_packet_notify_pipe ep).2 →
  let req := mkRequest pid (Some (CallRecvfrom len flags addr)) in
  let resp := data_response buf (if addr then Some (sockaddr_in (lport s) (laddr s)) else None) in
  sendable req → answerable resp →
  ∃ d', @exchange _ (host_glibc indet parse_partial dfuel) _ fuel retries ch req
    (mkGuest cl (Ok d) lk (TInterface :: TIp :: TReactor :: pl)) resp (mkGuest cl (Ok d') lk pl).
Proof.
  intros Hdg Hcr Hs Hh Hso Hlk Hsw Hlen Hfind pkt Hread Hft Hfp req resp [Hwf Hl] (Hwr & Hne & Hlr).
  destruct (layers_deliver so i ep q tfd s hdr buf x k' dch fd (request_pack req) d Hdg Hcr Hsw Hlen Hfind Hread Hft Hfp (sv_conn _ _ _ _ Hs))
    as (dq1 & dq2 & d2 & Ht1 & Ht2 & Hp & -> & Hs2 & Hhd & Hch & Hep & Hchain). specialize (Hs2 cc Hs).
  rewrite <-Hhd in Hh. set (d0 := in_turn (ch_sChannel cc) h d2).
  assert (handleRequest dch req d0 = Ok (resp, with_endpoint so (set_recvQ [] (set_recvQ [(sockaddr_in (lport s) (laddr s), next_id d)] ep)) d0)) as Hr.
  { eapply (recvfromCall_data dch cc so _ _ _ [] [next_id d] buf addr d0); [exact (sv_channel _ _ _ _ Hs2)|exact Hso|exact Hep|reflexivity|].
    by apply (chain_frames_eq d2). }
  destruct (await_reply indet parse_partial dfuel fd dch cc h req resp pl d2 _ Hs2 Hh Hwf Hl Hr (proj1 Hwr) Hlr) as (h3 & Hh3 & Ha).
  eexists. eapply exchange_await; [exact Hlk|apply (sv_conn _ _ _ _ Hs)|done|done|done|done|].
  rewrite (await_turn _ _ _ _ _ _ _ _ (pending_queued _ _ _) Ht1), (await_turn _ _ _ _ _ _ _ _ Hp Ht2). exact Ha.
Qed.
End delivery.

(** [recvfrom] on a UDP socket, up from the wire. *)
Lemma datagram_received {C K} `{Glibc C} `{Kernel K} `{Codec} `{!CodecLaws} indet parse_partial dfuel fuel retries
    (p : Proc (Guest C K)) vfd ch fd dch cc h cl lk pl (d : Daemon (Host K)) so i ep q tfd s hdr buf x k' cap len flags acap al :
  (* the program waits, the daemon serves *)
  Glibc.env p = mkGuest cl (Ok d) lk (TInterface :: TIp :: TReactor :: pl) →
  attached (Glibc.set_env (mkGuest cl (Ok d) lk (TReactor :: pl)) p) vfd ch fd dch cc h cl lk pl d →
  ch_socket cc = Some so → can_receive so i ep q tfd d → fd ≠ tfd → fd ≠ (new_packet_notify_pipe ep).2 →
  (* the datagram *)
  datagram_header s hdr → session_words s → 0 < length buf ≤ 1490 →
  let pkt := hdr ++ buf in
  k_read tfd maxRawBytesSize (inner (env d)) = ((Z.of_nat (length pkt), pkt, x), k') →
  Sessions_find (lock_session d) (laddr s) (lport s) (faddr s) (fport s) (udp_pcbs d) = Some i →
  (* the call *)
  len ≠ 0 → length buf ≤ cap → 16 ≤ acap →
  let from := sockaddr_in (lport s) (laddr s) in
  sendable (mkRequest (self_pid p) (Some (CallRecvfrom (i32 len) flags true))) →
  answerable (data_response buf (Some from)) →
  ∃ p' d', same_globals p p' ∧ Glibc.env p' = mkGuest cl (Ok d') lk pl ∧
    @recvfrom _ (host_glibc indet parse_partial dfuel) _ fuel retries vfd (Some cap) len flags (Some acap) (Some al) p =
      Ok (mkRecv (length buf) buf (Some from) (Some 16), p').
Proof.
  intros He [Hi Hch _ Hlk Hs Hh] Hso Hcr Hft Hfp Hdg Hsw Hlen pkt Hread Hfind Hl Hcap Hac from Hsend Hans.
  change (chan_of p vfd = Some ch) in Hch. apply (proc_inv_same _ p) in Hi; [|done].
  destruct (recvfrom_exchange indet parse_partial dfuel fuel retries so i ep q tfd s hdr buf x k' (i32 len) flags true ch fd dch cc h cl lk pl
    (self_pid p) d Hdg Hcr Hs Hh Hso Hlk Hsw (proj2 Hlen) Hfind Hread Hft Hfp Hsend Hans) as (d' & Hx).
  rewrite <-He in Hx. unfold data_response in Hx. rewrite (i32_small (length buf)) in Hx by (unfold in_i32; lia).
  destruct (recvfrom_ok (H := host_glibc indet parse_partial dfuel) fuel retries p vfd ch cap len flags (Some acap) (Some al) buf (Some from) _
    Hi Hch Hl Hx) as (p' & Hg & He' & Hrun); [intros ->; cbn in Hlen; lia|done|by eexists|done|done|].
  exists p', d'. by split_and!.
Qed.

(** ** Properties *)

(** C7. From the wire to the program: while a program waits in [recvfrom] on a UDP
    socket, a datagram that its host's TUN device delivers and whose addresses
    the demultiplexer finds to be the socket's goes through the interface
    thread, the IP thread and the event loop into the caller's buffer: the call
    returns its length, exactly its bytes, and the sender's address.  The
    datagram is any unfragmented one without IP options. *)
Theorem wire_to_program {C K} `{Glibc C} `{Kernel K} `{Codec} `{!CodecLaws} indet parse_partial dfuel fuel retries
    (p : Proc (Guest C K)) vfd ch fd dch cc h cl lk pl (d : Daemon (Host K)) so i ep q tfd s hdr buf x k' cap len flags acap al :
  (* the program waits, the daemon serves *)
  Glibc.env p = mkGuest cl (Ok d) lk (TInterface :: TIp :: TReactor :: pl) →
  attached (Glibc.set_env (mkGuest cl (Ok d) lk (TReactor :: pl)) p) vfd ch fd dch cc h cl lk pl d →
  ch_socket cc = Some so → can_receive so i ep q tfd d → fd ≠ tfd → fd ≠ (new_packet_notify_pipe ep).2 →
  (* the datagram *)
  datagram_header s hdr → session_words s → 0 < length buf ≤ 1490 →
  let pkt := hdr ++ buf in
  k_read tfd maxRawBytesSize (inner (env d)) = ((Z.of_nat (length pkt), pkt, x), k') →
  Sessions_find (lock_session d) (laddr s) (lport s) (faddr s) (fport s) (udp_pcbs d) = Some i →
  (* the call *)
  len ≠ 0 → length buf ≤ cap → 16 ≤ acap →
  let from := sockaddr_in (lport s) (laddr s) in
  sendable (mkRequest (self_pid p) (Some (CallRecvfrom (i32 len) flags true))) →
  answerable (data_response buf (Some from)) →
  ∃ p' d', same_globals p p' ∧ Glibc.env p' = mkGuest cl (Ok d') lk pl ∧
    @recvfrom _ (host_glibc indet parse_partial dfuel) _ fuel retries vfd (Some cap) len flags (Some acap) (Some al) p =
      Ok (mkRecv (length buf) buf (Some from) (Some 16), p').
Proof. apply datagram_received. Qed.

(** ** A concrete run *)

#[local] Existing Instance wire_codec.
#[local] Existing Instance wire_codec_laws.

(** The daemon of System.v, whose UDP socket is bound to port 53, with a datagram
    in its TUN device. *)
Definition asker : Session := mkSession 178825408 13568 16777226 53764 None.
Definition question : list Z := udp_header (bswap16 1) (udp_check (bswap16 1) asker 2) asker 2 ++ [104; 105].
Definition bound_pcb : Pcb := mkPcb (mkSession 0 0 178825408 13568 (Some 4%nat)) None.
Definition bound_host : Daemon (Host dscript) :=
  let d := with_socket_host in
  set_sessions {[5%nat := bound_pcb]}
    (set_env (set_inner (mkDScript 14 [(Z.of_nat (length question), question, 0)] [] [] [] []) (env d)) d).
Definition bound_proc : Proc (Guest script dscript) :=
  mkProc 4096 4 4096 (Some [10; 0; 0; 0]) 3 0 77 [99; 117; 114; 108]
    (mkGuest socket_script (Ok bound_host) {[10 := 40]} [TInterface; TIp; TReactor]).

Lemma bound_serving : serving 40 2 socket_channel bound_host.
Proof.
  destruct (at_serving _ _ _ _ _ _ _ _ _ _ _ socket_proc_attached) as [G Hc Hfd Hcn Hi Hq Hb Hr]. constructor; assumption.
Qed.
Lemma bound_handle : handles bound_host !! ch_sChannel socket_channel = Some socket_handle.
Proof. vm_compute. reflexivity. Qed.
Lemma bound_receives : can_receive 4 5 socket_endpoint bound_pcb 10 bound_host.
Proof. constructor; vm_compute; try reflexivity. by split. Qed.
Lemma bound_find : Sessions_find (lock_session bound_host) (laddr asker) (lport asker) (faddr asker) (fport asker) (udp_pcbs bound_host) = Some 5%nat.
Proof. vm_compute. reflexivity. Qed.
Lemma question_answerable : answerable (data_response [104; 105] (Some (sockaddr_in 53764 16777226))).
Proof.
  apply (answerable_small (RetRecvfrom _ _ _)); [|by vm_compute]. split_and!; [done|..]; (split; [|done]); by apply (bool_decide_unpack _); vm_compute.
Qed.
Lemma bound_reads : k_read 10 maxRawBytesSize (inner (env bound_host)) =
  ((Z.of_nat (length question), question, 0), mkDScript 14 [] [] [] [] []).
Proof. reflexivity. Qed.

Lemma wire_to_program_witness :
  ∃ p', @recvfrom _ (host_glibc [] no_request 3) _ 0 0 4096 (Some 100) 100 0 (Some 16) (Some 16) bound_proc =
      Ok (mkRecv 2 [104; 105] (Some (sockaddr_in 53764 16777226)) (Some 16), p').
Proof.
  assert (attached (Glibc.set_env (mkGuest socket_script (Ok bound_host) {[10 := 40]} [TReactor]) bound_proc) 4096 10 40 2 socket_channel
    socket_handle socket_script {[10 := 40]} [] bound_host) as Ha.
  { constructor; [split; cbn; [lia|lia|lia|eauto]|reflexivity|reflexivity|reflexivity|exact bound_serving|].
    exact bound_handle. }
  destruct (wire_to_program [] no_request 3 0 0 bound_proc 4096 10 40 2 socket_channel socket_handle socket_script {[10 := 40]} []
    bound_host 4 5 socket_endpoint bound_pcb 10 asker (udp_header (bswap16 1) (udp_check (bswap16 1) asker 2) asker 2) [104; 105] 0 (mkDScript 14 [] [] [] [] [])
    100 100 0 16 16
    eq_refl Ha eq_refl bound_receives ltac:(discriminate) ltac:(discriminate)) as (p' & d' & _ & _ & Hr);
    [apply udp_header_form|split_and!; cbn; unfold in_u32, in_u16; lia|cbn; lia|exact bound_reads|exact bound_find|discriminate|cbn; lia|lia| |exact question_answerable|].
  - apply sendable_small; [|by vm_compute]. by split; [cbn; lia|].
  - exists p'. exact Hr.
Defined.
