(* ===== verification/RoundTripSpec.v ===== *)
(** * From program to program

    The datagram that one host's daemon puts on the wire for [sendto] is the one
    that another host's daemon takes from the wire to the program waiting in
    [recvfrom]. *)

From S2P Require Import Prelude Rpc Wire Glibc Script Channel FdPool Interceptor PoolInv InterceptorSpec SocketSpec Csum16 Frame Session World DScript Reactor Net Agent Udp Tcp Reassembly IpRx Dispatch Arbiter Boot ReactorSpec AgentSpec PacketSpec UdpSpec DispatchSpec Invariant LoopSpec BootSpec SocketCallSpec Ownership Link LinkSpec System ConnectSpec DeliverySpec.

Lemma source_port_range s port : in_u16 (lport s) → in_u16 (source_port s port).
Proof. intros Hl. unfold source_port. destruct (lport s =? 0); [apply bswap16_range|done]. Qed.

(** ** Properties *)

(** C9. A datagram, from program to program.  On one host a program calls
    [sendto] on a UDP socket with the address of another; on the other host a
    program waits in [recvfrom] on a socket to which the demultiplexer assigns
    that address; both daemons serve.  If what the one daemon writes to its TUN
    device is what the other reads from its own, both calls return: [sendto] the
    length, [recvfrom] the length, exactly the bytes given to [sendto], and the
    address and port of the sending socket. *)
Theorem datagram_roundtrip {C1 K1 C2 K2} `{Glibc C1} `{Kernel K1} `{Glibc C2} `{Kernel K2} `{Codec} `{!CodecLaws}
    indet parse_partial dfuel fuel retries
    (* the sender *)
    (p1 : Proc (Guest C1 K1)) vfd1 ch1 fd1 dch1 cc1 h1 cl1 lk1 pl1 (d1 : Daemon (Host K1)) so1 ep1 i1 q1 g tfd1 buf flags1 addr port
    (* the receiver *)
    (p2 : Proc (Guest C2 K2)) vfd2 ch2 fd2 dch2 cc2 h2 cl2 lk2 pl2 (d2 : Daemon (Host K2)) so2 i2 ep2 q2 tfd2 x k2 cap len flags2 acap al :
  attached p1 vfd1 ch1 fd1 dch1 cc1 h1 cl1 lk1 pl1 d1 →
  ch_socket cc1 = Some so1 → endpoints d1 !! so1 = Some ep1 → ep_type ep1 = EP_UDP → ep_pcb ep1 = Some i1 →
  sessions d1 !! i1 = Some q1 → p_tcb q1 = None → idgenerator d1 = Some g → tunDev d1 = Some tfd1 →
  in_u32 (laddr (p_base q1)) → in_u16 (lport (p_base q1)) → in_u32 addr → in_u16 port → 0 < length buf ≤ 1490 →
  sendable (mkRequest (self_pid p1) (Some (CallSendto buf flags1 (Some (sockaddr_in port addr))))) →
  answerable (answer (RetSendto (mkRet (length buf) None))) →
  Glibc.env p2 = mkGuest cl2 (Ok d2) lk2 (TInterface :: TIp :: TReactor :: pl2) →
  attached (Glibc.set_env (mkGuest cl2 (Ok d2) lk2 (TReactor :: pl2)) p2) vfd2 ch2 fd2 dch2 cc2 h2 cl2 lk2 pl2 d2 →
  ch_socket cc2 = Some so2 → can_receive so2 i2 ep2 q2 tfd2 d2 → fd2 ≠ tfd2 → fd2 ≠ (new_packet_notify_pipe ep2).2 →
  len ≠ 0 → length buf ≤ cap → 16 ≤ acap →
  let from := laddr (p_base q1) in
  let from_port := source_port (p_base q1) (udp_port d1) in
  Sessions_find (lock_session d2) from from_port addr port (udp_pcbs d2) = Some i2 →
  sendable (mkRequest (self_pid p2) (Some (CallRecvfrom (i32 len) flags2 true))) →
  answerable (data_response buf (Some (sockaddr_in from_port from))) →
  (* the wire *)
  let s := mkSession addr port from from_port (s_socket (p_base q1)) in
  let hdr := udp_header (IpIdGenerator_next g).1 (udp_check (IpIdGenerator_next g).1 s (length buf)) s (length buf) in
  k_read tfd2 maxRawBytesSize (inner (env d2)) = ((Z.of_nat (length (hdr ++ buf)), hdr ++ buf, x), k2) →
  ∃ p1' d1' p2' d2',
    @sendto _ (host_glibc indet parse_partial dfuel) _ fuel retries vfd1 (Some buf) (length buf) flags1 (Some (sockaddr_in port addr)) 16 p1 =
      Ok (Z.of_nat (length buf), p1') ∧ same_globals p1 p1' ∧ Glibc.env p1' = mkGuest cl1 (Ok d1') lk1 pl1 ∧
    inner (env d1') = (k_writev tfd1 [hdr; buf] (inner (env d1))).2 ∧
    @recvfrom _ (host_glibc indet parse_partial dfuel) _ fuel retries vfd2 (Some cap) len flags2 (Some acap) (Some al) p2 =
      Ok (mkRecv (length buf) buf (Some (sockaddr_in from_port from)) (Some 16), p2') ∧ same_globals p2 p2' ∧
    Glibc.env p2' = mkGuest cl2 (Ok d2') lk2 pl2.
Proof.
  intros Ha1 Hso1 Hep1 Hty Hpcb Hq1 Htcb Hg Ht1 Hla Hlp Hia Hip Hlen Hs1 Hw1 He2 Ha2 Hso2 Hcr Hft Hfp Hl Hcap Hac from from_port Hfind Hs2 Hw2 s hdr Hread.
  destruct (sendto_wire indet parse_partial dfuel fuel retries p1 vfd1 ch1 fd1 dch1 cc1 h1 cl1 lk1 pl1 d1 so1 ep1 i1 q1 g tfd1 buf flags1 addr port
    Ha1 Hso1 Hep1 Hty Hpcb Hq1 Htcb Hg Ht1 Hia Hip ltac:(lia) Hs1 Hw1) as (p1' & d1' & Hrun1 & Hg1 & He1 & Hwire & _).
  assert (session_words s) as Hsw by (split_and!; [exact Hia|exact Hla|exact Hip|by apply source_port_range]).
  destruct (datagram_received indet parse_partial dfuel fuel retries p2 vfd2 ch2 fd2 dch2 cc2 h2 cl2 lk2 pl2 d2 so2 i2 ep2 q2 tfd2 s hdr buf x k2 cap len flags2 acap al
    He2 Ha2 Hso2 Hcr Hft Hfp (udp_header_form _ _ _ _) Hsw Hlen Hread Hfind Hl Hcap Hac Hs2 Hw2) as (p2' & d2' & Hg2 & He2' & Hrun2).
  by exists p1', d1', p2', d2'.
Qed.

(** ** A concrete run *)

#[local] Existing Instance wire_codec.
#[local] Existing Instance wire_codec_laws.

(** The program of System.v sends to the program of DeliverySpec.v, whose TUN
    device holds what the other's received. *)
Definition sent_question : list Z :=
  let s := mkSession 178825408 13568 178825408 (bswap16 1025) (Some 4%nat) in
  udp_header (bswap16 1) (udp_check (bswap16 1) s 2) s 2 ++ [104; 105].
Definition peer_host : Daemon (Host dscript) :=
  set_env (set_inner (mkDScript 14 [(Z.of_nat (length sent_question), sent_question, 0)] [] [] [] []) (env bound_host)) bound_host.
Definition peer_proc : Proc (Guest script dscript) :=
  mkProc 4096 4 4096 (Some [10; 0; 0; 0]) 3 0 77 [99; 117; 114; 108]
    (mkGuest socket_script (Ok peer_host) {[10 := 40]} [TInterface; TIp; TReactor]).
Definition bound_address : list Z := sockaddr_in 13568 178825408.
Definition sender_address : list Z := sockaddr_in (bswap16 1025) 178825408.

Lemma peer_attached : attached (Glibc.set_env (mkGuest socket_script (Ok peer_host) {[10 := 40]} [TReactor]) peer_proc) 4096 10 40 2 socket_channel
  socket_handle socket_script {[10 := 40]} [] peer_host.
Proof.
  constructor; [split; cbn; [lia|lia|lia|eauto]|reflexivity|reflexivity|reflexivity| |exact bound_handle].
  destruct bound_serving as [G Hc Hfd Hcn Hi Hq Hb Hr]. constructor; assumption.
Qed.
Lemma peer_receives : can_receive 4 5 socket_endpoint bound_pcb 10 peer_host.
Proof. destruct bound_receives as [? ? ? ? ? ? ? ? ?]. constructor; assumption. Qed.
Lemma to_peer_sendable : sendable (mkRequest 77 (Some (CallSendto [104; 105] 0 (Some bound_address)))).
Proof.
  apply sendable_small; [|by vm_compute]. split; [cbn; lia|]. split_and!; [|done|]; (split; [|done]); by apply (bool_decide_unpack _); vm_compute.
Qed.
Lemma receive_sendable : sendable (mkRequest 77 (Some (CallRecvfrom (i32 100) 0 true))).
Proof. apply sendable_small; [|by vm_compute]. by split; [cbn; lia|]. Qed.
Lemma from_sender_answerable : answerable (data_response [104; 105] (Some sender_address)).
Proof.
  apply (answerable_small (RetRecvfrom _ _ _)); [|by vm_compute]. split_and!; [done|..]; (split; [|done]); by apply (bool_decide_unpack _); vm_compute.
Qed.

Lemma datagram_roundtrip_witness :
  ∃ p1' p2', @sendto _ (host_glibc [] no_request 3) _ 0 0 4096 (Some [104; 105]) 2 0 (Some bound_address) 16 socket_proc = Ok (2, p1') ∧
    @recvfrom _ (host_glibc [] no_request 3) _ 0 0 4096 (Some 100) 100 0 (Some 16) (Some 16) peer_proc =
      Ok (mkRecv 2 [104; 105] (Some sender_address) (Some 16), p2').
Proof.
  destruct socket_host_objects as (Hep & Hss & Hid & Ht & Hnone).
  destruct (datagram_roundtrip [] no_request 3 0 0 socket_proc 4096 10 40 2 socket_channel socket_handle socket_script {[10 := 40]} [TReactor]
    with_socket_host 4 socket_endpoint 5 socket_pcb (mkIdGen 0) 10 [104; 105] 0 178825408 13568
    peer_proc 4096 10 40 2 socket_channel socket_handle socket_script {[10 := 40]} [] peer_host 4 5 socket_endpoint bound_pcb 10
    0 (mkDScript 14 [] [] [] [] []) 100 100 0 16 16 socket_proc_attached eq_refl Hep eq_refl eq_refl Hss eq_refl Hid Ht)
    as (p1' & d1' & p2' & d2' & Hr1 & _ & _ & _ & Hr2 & _);
    [cbn; unfold in_u32; lia|cbn; unfold in_u16; lia|unfold in_u32; lia|unfold in_u16; lia|cbn; lia|exact to_peer_sendable|exact hello_answerable|reflexivity|exact peer_attached
    |reflexivity|exact peer_receives|discriminate|discriminate|discriminate|cbn; lia|lia|vm_compute; reflexivity|exact receive_sendable|exact from_sender_answerable|vm_compute; reflexivity|].
  exists p1', p2'. split; [exact Hr1|exact Hr2].
Defined.
