(* ===== verification/WaitSpec.v ===== *)
(** * A program that waits for a datagram

    [recvfrom] on a socket with nothing queued: the event loop tells the
    interceptor to wait, the interface and IP threads queue the datagram when it
    comes and write to the endpoint's notification pipe, and the event loop's
    next turn answers the program that waits. *)

From S2P Require Import Prelude Rpc Wire Glibc Script Channel FdPool Interceptor PoolInv InterceptorSpec SocketSpec Csum16 Frame Session World DScript Reactor Net Agent Udp Tcp Reassembly IpRx Dispatch Arbiter Boot ReactorSpec AgentSpec PacketSpec UdpSpec DispatchSpec Invariant LoopSpec BootSpec SocketCallSpec Ownership Link LinkSpec System ConnectSpec DeliverySpec.

(** The pipe reports what was written to it: after the notification, epoll
    returns the pipe's handle [i], one read empties the pipe and the next one
    finds nothing. *)
Definition notified {K} `{Kernel K} (pipe : Z * Z) (i : nat) (k : K) : Prop :=
  ∃ k1 n b x k2 b' x' k3,
    k_epoll_wait maxEventsReceivedEachPoll (-1) (k_write pipe.2 [49] k).2 = ((1, [(POLLIN, i)]), k1) ∧
    k_read pipe.1 8 k1 = ((n, b, x), k2) ∧ n ≠ -1 ∧ k_read pipe.1 8 k2 = ((-1, b', x'), k3).

Section wait.
Context {K : Type} `{Kernel K} `{Codec} `{!CodecLaws}.
Context (indet : list Z) (parse_partial : list Z → Request) (dfuel : nat).
Implicit Types d : Daemon (Host K).

(** A program waits on the channel [dch] for the endpoint [so]. *)
Record waits (so i dch : nat) (cc : AgentChannel) (ep : Endpoint) (q : Pcb) (he : IoHandle) (tfd : Z) (ra : bool) d : Prop := {
  wa_receive : can_receive so i ep q tfd d;
  wa_waiting : waiting ep = true;
  wa_type : ep_type ep = EP_UDP;
  wa_cb : onAsyncNewPacket ep = Some (onAsyncNewUdpPacket_cb dch ra);
  wa_channel : channels d !! dch = Some cc;
  wa_socket : ch_socket cc = Some so;
  wa_handle : handles d !! ep_sChannel ep = Some he;
  wa_onread : io_onRead he = Some (CbEndpointReadReady so);
  wa_conn : conns (env d) !! ch_fd cc = Some idle;
  wa_quiet : ∀ fd' c, conns (env d) !! fd' = Some c → conn_event c = None;
  wa_backlog : backlog (env d) = [];
  wa_pipe_fd : conns (env d) !! (new_packet_notify_pipe ep).1 = None;
  wa_running : loop_stopflag d = false
}.

(** With no connection ready, epoll is the rest of the kernel's. *)
Lemma quiet_epoll (h : Host K) r k : (∀ fd' c, conns h !! fd' = Some c → conn_event c = None) → backlog h = [] →
  k_epoll_wait maxEventsReceivedEachPoll (-1) (inner h) = (r, k) →
  host_epoll_wait maxEventsReceivedEachPoll (-1) h = (r, set_inner k h).
Proof.
  intros Hq Hb Hw. unfold host_epoll_wait.
  assert (hub_event h = []) as -> by (unfold hub_event; by rewrite Hb).
  assert (conn_events h = []) as ->.
  { unfold conn_events. replace (omap conn_event (conns h)) with (∅ : gmap Z Z); [by rewrite map_to_list_empty|].
    symmetry. apply map_empty. intros fd. rewrite lookup_omap. destruct (conns h !! fd) as [c|] eqn:Hc; [|done]. exact (Hq _ _ Hc). }
  cbn. unfold below_. by rewrite Hw.
Qed.

(** The two lower threads queue the datagram and write the notification. *)
Lemma packet_queued so i ep q tfd s hdr buf x k' d : datagram_header s hdr →
  can_receive so i ep q tfd d → session_words s → length buf ≤ 1490 →
  Sessions_find (lock_session d) (laddr s) (lport s) (faddr s) (fport s) (udp_pcbs d) = Some i →
  let pkt := hdr ++ buf in
  k_read tfd maxRawBytesSize (inner (env d)) = ((Z.of_nat (length pkt), pkt, x), k') →
  ∃ d1 d2, run_thread indet parse_partial dfuel TInterface d = Ok d1 ∧ run_thread indet parse_partial dfuel TIp d1 = Ok d2 ∧
    conns (env d1) = conns (env d) ∧ env d2 = set_inner (k_write (new_packet_notify_pipe ep).2 [49] k').2 (env d) ∧
    endpoints d2 = <[so := set_recvQ [(sockaddr_in (lport s) (laddr s), next_id d)] ep]> (endpoints d) ∧
    chain d2 (Some (next_id d)) [next_id d] buf ∧
    channels d2 = channels d ∧ handles d2 = handles d ∧ loop_stopflag d2 = loop_stopflag d.
Proof.
  intros Hdg [Hep Hq Hse Hso Hrx Ht Htf Hpf [Hr1 Hr2]] Hsw Hlen Hfind pkt Hread. set (k := next_id d).
  assert (length pkt = (28 + length buf)%nat) as Hl by (unfold pkt; rewrite length_app, (proj2 Hdg); lia).
  pose proof (host_read_below tfd maxRawBytesSize (env d) _ k' Htf Hread) as Hkr.
  pose proof (Interface_turn_ok tfd pkt 69 x _ d Ht ltac:(lia) Hkr (carries_first _ _ _ _ (proj1 Hdg)) eq_refl) as Hif.
  rewrite Hrx in Hif. fold k in Hif. set (d1 := set_rxQ _ _) in Hif.
  pose proof (Ip_turn_udp indet k s hdr buf i q so ep [] d1 Hdg eq_refl (lookup_insert_eq _ _ _) Hsw Hfind Hse Hso Hep) as Hip.
  unfold enqueued in Hip. rewrite Hq in Hip. cbn [length app] in Hip. change (recvQlimit <? 0%nat) with false in Hip.
  rewrite host_write_below in Hip by exact Hpf. set (d2 := set_env _ _) in Hip.
  exists d1, d2. split_and!; try reflexivity.
  - unfold run_thread. by rewrite Hr1, Hif.
  - unfold run_thread. change (ip_stopflag d1) with (ip_stopflag d). by rewrite Hr2, Hip.
  - eassert (chain _ (Some k) [k] (buf ++ [])) as Hchn; [|by rewrite app_nil_r in Hchn].
    econstructor; [apply lookup_insert_eq|apply udp_rx_payload, Hdg|constructor].
Qed.

(** The event loop's turn that answers. *)
Lemma wake_turn so i dch cc ep q he tfd (ra : bool) a k buf k' d d2 :
  waits so i dch cc ep q he tfd ra d → notified (new_packet_notify_pipe ep) (ep_sChannel ep) k' → (0 < dfuel)%nat →
  env d2 = set_inner (k_write (new_packet_notify_pipe ep).2 [49] k').2 (env d) →
  endpoints d2 = <[so := set_recvQ [(a, k)] ep]> (endpoints d) → chain d2 (Some k) [k] buf →
  channels d2 = channels d → handles d2 = handles d → loop_stopflag d2 = loop_stopflag d →
  let resp := data_response buf (if ra then Some a else None) in
  length (response_pack resp) ≤ RPC_MESSAGE_MAX_SIZE →
  ∃ d3 d4, run_thread indet parse_partial dfuel TReactor d2 = Ok d3 ∧ pending (ch_fd cc) d3 = Some (response_pack resp, d4) ∧
    endpoints d4 !! so = Some (set_waiting false (set_recvQ [] ep)).
Proof.
  intros [Hcr Hw Hty Hcb Hc Hso Hhe Hon Hcn Hqu Hb Hpf Hrun] (k1 & n & b & x & k2 & b' & x' & k3 & Hev & Hr1 & Hn & Hr2) Hf
    Hen Hep Hch Hcc Hhh Hlf resp Hl.
  assert (conns (env d2) = conns (env d) ∧ backlog (env d2) = backlog (env d)) as [Hcn2 Hb2] by (by rewrite Hen).
  assert (host_epoll_wait maxEventsReceivedEachPoll (-1) (env d2) = ((1, [(POLLIN, ep_sChannel ep)]), set_inner k1 (env d2))) as Hpoll.
  { apply quiet_epoll; [by rewrite Hcn2|by rewrite Hb2|]. by rewrite Hen. }
  pose proof (reader_turn_env parse_partial dfuel POLLIN (ep_sChannel ep) he (CbEndpointReadReady so) _ d2
    ltac:(by rewrite Hhh) Hon ltac:(by left) Hpoll) as Hturn. set (d2' := with_event _ _ _ _) in Hturn.
  set (e2 := set_inner k3 (env d2)). set (conn := mkConn [] [response_pack resp] false).
  set (e3 := set_conns (<[ch_fd cc := conn]> (conns e2)) e2).
  destruct dfuel as [|fuel]; [lia|].
  assert (Endpoint_sChannelReadCb (S fuel) so d2' =
    Ok (tt, set_env e3 (with_endpoint so (set_waiting false (set_recvQ [] (set_recvQ [(a, k)] ep))) d2'))) as Hrd.
  { apply (waiting_reader_answered fuel dch cc so (set_recvQ [(a, k)] ep) a k [] [k] buf ra n b x (set_inner k2 (env d2)) b' x' e2
      (Z.of_nat (length (response_pack resp))) e3 d2').
    - change (channels d2' !! dch) with (channels d2 !! dch). by rewrite Hcc.
    - exact Hso.
    - change (endpoints d2') with (endpoints d2). rewrite Hep. apply lookup_insert_eq.
    - exact Hw.
    - change (onAsyncNewPacket ep = Some (waiting_cb dch (ep_type ep) ra)). by rewrite Hty.
    - done.
    - by apply (chain_frames_eq d2).
    - by apply (host_read_below _ 8 (set_inner k1 (env d2))); [cbn; rewrite Hcn2|].
    - done.
    - by apply (host_read_below _ 8 (set_inner k2 (env d2))); [cbn; rewrite Hcn2|].
    - change (ep_type (set_recvQ [(a, k)] ep)) with (ep_type ep). rewrite Hty. exact Hl.
    - change (ep_type (set_recvQ [(a, k)] ep)) with (ep_type ep). rewrite Hty. fold resp. cbn [k_write host_kernel]. unfold host_write.
      change (conns e2) with (conns (env d2)). rewrite Hcn2, Hcn. unfold e3. change (conns e2) with (conns (env d2)). by rewrite Hcn2.
    - lia. }
  cbn [run_cb] in Hturn. set (d3 := set_env e3 _) in Hrd.
  assert (handles d3 !! ep_sChannel ep = Some (set_io_handling true (set_io_received POLLIN he))) as Hh3 by apply lookup_insert_eq.
  rewrite (M_bind_ok _ _ _ _ _ Hrd) in Hturn. erewrite M_bind_ok in Hturn by (apply upd_handle_ok; exact Hh3).
  eexists _, _. split_and!.
  - unfold run_thread. rewrite Hlf, Hrun, Hturn. reflexivity.
  - unfold pending. cbn. rewrite lookup_insert_eq. reflexivity.
  - cbn. apply lookup_insert_eq.
Qed.
End wait.

Section served.
Context {C K : Type} `{Glibc C} `{Kernel K} `{Codec} `{!CodecLaws}.
Context (indet : list Z) (parse_partial : list Z → Request) (dfuel fuel retries : nat).
Implicit Types d : Daemon (Host K).

(** What the request leaves at the endpoint. *)
Definition waiting_at (dch : nat) (ra : bool) (ep : Endpoint) : Endpoint :=
  set_waiting true (set_onAsyncNewPacket (Some (onAsyncNewUdpPacket_cb dch ra)) ep).

(** Serving the request leaves the program waiting. *)
Lemma recvfrom_served fd dch cc h so i ep q tfd (ra : bool) d :
  serving fd dch cc d → handles d !! ch_sChannel cc = Some h → ch_socket cc = Some so → can_receive so i ep q tfd d →
  ep_type ep = EP_UDP → ep_nonblocking ep = false → conns (env d) !! (new_packet_notify_pipe ep).1 = None →
  let d1 := with_endpoint so (waiting_at dch ra ep) (in_turn (ch_sChannel cc) h d) in
  recvfromCall dch ra (in_turn (ch_sChannel cc) h d) = Ok (mkResponse (Some RC_WAIT_NEXT) None, d1) ∧
  ∀ h1, ∃ he, waits so i dch cc (waiting_at dch ra ep) q he tfd ra (after_turn (ch_sChannel cc) h1 d1).
Proof.
  intros [G Hc Hfd Hcn Hi Hqu Hb Hrun] Hh Hso [Hep Hq Hse Hs Hrx Ht Htf Hpf Hr] Hty Hnb Hp1 d1. split.
  { rewrite (recvfromCall_empty dch cc so ep ra) by done. by rewrite Hnb, Hty. }
  intros h1. destruct (g_endpoint _ _ G so (node_endpoint ep)) as (y & Hy & Hry); [by apply (lookup_node_some node_endpoint)|].
  destruct (lookup_node _ _ _ _ Hy) as (he & Hhe & ->). cbn in Hhe, Hry. exists he.
  destruct (g_channel _ _ G dch (node_channel cc)) as (z & Hz & Hrz); [by apply (lookup_node_some node_channel)|].
  assert (ep_sChannel ep ≠ ch_sChannel cc) as Hne.
  { intros Heq. cbn in Hy, Hz. rewrite Heq in Hy. rewrite Hy in Hz. injection Hz as <-. cbn in Hrz. congruence. }
  constructor; try done.
  - constructor; try done. apply lookup_insert_eq.
  - cbn. by rewrite !lookup_insert_ne.
  - by rewrite Hfd.
Qed.

(** The whole exchange of a [recvfrom] that waits. *)
Lemma recvfrom_wait_exchange so i ep q tfd s hdr buf x k' len flags (ra : bool) ch fd dch cc h cl lk pl pid d : datagram_header s hdr →
  serving fd dch cc d → handles d !! ch_sChannel cc = Some h → ch_socket cc = Some so → can_receive so i ep q tfd d →
  ep_type ep = EP_UDP → ep_nonblocking ep = false → conns (env d) !! (new_packet_notify_pipe ep).1 = None →
  lk !! ch = Some fd → session_words s → length buf ≤ 1490 →
  Sessions_find (lock_session d) (laddr s) (lport s) (faddr s) (fport s) (udp_pcbs d) = Some i →
  let pkt := hdr ++ buf in
  k_read tfd maxRawBytesSize (inner (env d)) = ((Z.of_nat (length pkt), pkt, x), k') →
  notified (new_packet_notify_pipe ep) (ep_sChannel ep) k' → (0 < dfuel)%nat → (1 ≤ fuel)%nat →
  let req := mkRequest pid (Some (CallRecvfrom len flags ra)) in
  let wait := mkResponse (Some RC_WAIT_NEXT) None in
  let resp := data_response buf (if ra then Some (sockaddr_in (lport s) (laddr s)) else None) in
  sendable req → length (response_pack wait) ≤ RPC_MESSAGE_MAX_SIZE → answerable resp →
  ∃ d', @exchange _ (host_glibc indet parse_partial dfuel) _ fuel retries ch req
    (mkGuest cl (Ok d) lk (TReactor :: TInterface :: TIp :: TReactor :: pl)) resp (mkGuest cl (Ok d') lk pl) ∧
    endpoints d' !! so = Some (set_waiting false (set_recvQ [] (waiting_at dch ra ep))).
Proof.
  intros Hdg Hs Hh Hso Hcr Hty Hnb Hp1 Hlk Hsw Hlen Hfind pkt Hread Hnot Hdf Hf req wait resp [Hwf Hl] Hlw (Hwr & Hne & Hlr).
  destruct (recvfrom_served fd dch cc h so i ep q tfd ra d Hs Hh Hso Hcr Hty Hnb Hp1) as [Hr Hwait].
  set (d1 := with_endpoint so _ _) in *.
  destruct (await_reply indet parse_partial dfuel fd dch cc h req wait (TInterface :: TIp :: TReactor :: pl) d d1 Hs Hh Hwf Hl Hr
    ltac:(by eexists) Hlw) as (h1 & _ & Ha1). destruct (Hwait h1) as [he Hwa]. set (d2 := after_turn _ h1 d1) in *.
  destruct (packet_queued indet parse_partial dfuel so i _ q tfd s hdr buf x k' d2 Hdg (wa_receive _ _ _ _ _ _ _ _ _ _ Hwa) Hsw Hlen Hfind Hread)
    as (d3 & d4 & Ht1 & Ht2 & Hc3 & He4 & Hep4 & Hch4 & Hcc4 & Hhh4 & Hlf4).
  destruct (wake_turn indet parse_partial dfuel so i dch cc _ q he tfd ra (sockaddr_in (lport s) (laddr s)) (next_id d2) buf k' d2 d4
    Hwa Hnot Hdf He4 Hep4 Hch4 Hcc4 Hhh4 Hlf4 Hlr) as (d5 & d6 & Ht3 & Hp5 & Hep6).
  pose proof (wa_conn _ _ _ _ _ _ _ _ _ _ Hwa) as Hc2. rewrite (sv_fd _ _ _ _ Hs) in Hp5, Hc2.
  assert (pending fd d2 = None ∧ pending fd d3 = None ∧ pending fd d4 = None) as (Hp2 & Hp3 & Hp4).
  { unfold pending. rewrite Hc3, He4. cbn [conns set_inner]. by rewrite Hc2. }
  exists d6. split; [|exact Hep6].
  eapply (exchange_await_wait indet parse_partial dfuel fuel retries ch fd req wait resp cl lk _ _ pl d d2 d6 Hlk (sv_conn _ _ _ _ Hs) Hf Hl
    eq_refl ltac:(split; [by eexists|done]) Hlw Hne Hwr Hlr Ha1).
  rewrite (await_turn _ _ _ _ _ _ _ _ Hp2 Ht1), (await_turn _ _ _ _ _ _ _ _ Hp3 Ht2), (await_turn _ _ _ _ _ _ _ _ Hp4 Ht3).
  destruct pl; cbn [await]; by rewrite Hp5.
Qed.
End served.

(** ** Properties *)

(** C8. A program that waits is answered: [recvfrom] on a blocking UDP socket with
    nothing queued makes the daemon answer WAIT_NEXT and remember the program;
    when the TUN device then delivers a datagram whose addresses the
    demultiplexer finds to be the socket's, the interface and IP threads queue it
    and write to the notification pipe, and the event loop's next turn, in which
    epoll reports the pipe, answers: the call returns with the datagram's length,
    exactly its bytes and the sender's address, the queue is empty again and the
    endpoint no longer waits. *)
Theorem waiting_program_answered {C K} `{Glibc C} `{Kernel K} `{Codec} `{!CodecLaws} indet parse_partial dfuel fuel retries
    (p : Proc (Guest C K)) vfd ch fd dch cc h cl lk pl (d : Daemon (Host K)) so i ep q tfd s hdr buf x k' cap len flags acap al :
  (* the program, and a daemon with nothing for it *)
  attached p vfd ch fd dch cc h cl lk (TInterface :: TIp :: TReactor :: pl) d → ch_socket cc = Some so → can_receive so i ep q tfd d →
  ep_type ep = EP_UDP → ep_nonblocking ep = false → conns (env d) !! (new_packet_notify_pipe ep).1 = None →
  (* the datagram, and the pipe *)
  datagram_header s hdr → session_words s → 0 < length buf ≤ 1490 →
  let pkt := hdr ++ buf in
  k_read tfd maxRawBytesSize (inner (env d)) = ((Z.of_nat (length pkt), pkt, x), k') →
  Sessions_find (lock_session d) (laddr s) (lport s) (faddr s) (fport s) (udp_pcbs d) = Some i →
  notified (new_packet_notify_pipe ep) (ep_sChannel ep) k' → (0 < dfuel)%nat → (1 ≤ fuel)%nat →
  (* the call *)
  len ≠ 0 → length buf ≤ cap → 16 ≤ acap →
  let from := sockaddr_in (lport s) (laddr s) in
  sendable (mkRequest (self_pid p) (Some (CallRecvfrom (i32 len) flags true))) →
  length (response_pack (mkResponse (Some RC_WAIT_NEXT) None)) ≤ RPC_MESSAGE_MAX_SIZE → answerable (data_response buf (Some from)) →
  ∃ p' d', @recvfrom _ (host_glibc indet parse_partial dfuel) _ fuel retries vfd (Some cap) len flags (Some acap) (Some al) p =
      Ok (mkRecv (length buf) buf (Some from) (Some 16), p') ∧
    same_globals p p' ∧ Glibc.env p' = mkGuest cl (Ok d') lk pl ∧
    endpoints d' !! so = Some (set_waiting false (set_recvQ [] (waiting_at dch true ep))).
Proof.
  intros [Hi Hch He Hlk Hs Hh] Hso Hcr Hty Hnb Hp1 Hdg Hsw Hlen pkt Hread Hfind Hnot Hdf Hf Hl Hcap Hac from Hsend Hlw Hans.
  destruct (recvfrom_wait_exchange indet parse_partial dfuel fuel retries so i ep q tfd s hdr buf x k' (i32 len) flags true ch fd dch cc h cl lk pl
    (self_pid p) d Hdg Hs Hh Hso Hcr Hty Hnb Hp1 Hlk Hsw (proj2 Hlen) Hfind Hread Hnot Hdf Hf Hsend Hlw Hans) as (d' & Hx & Hep').
  rewrite <-He in Hx. unfold data_response in Hx. rewrite (i32_small (length buf)) in Hx by (unfold in_i32; lia).
  destruct (recvfrom_ok (H := host_glibc indet parse_partial dfuel) fuel retries p vfd ch cap len flags (Some acap) (Some al) buf (Some from) _
    Hi Hch Hl Hx) as (p' & Hg & He' & Hrun); [intros ->; cbn in Hlen; lia|done|by eexists|done|done|].
  exists p', d'. by split_and!.
Qed.

(** ** A concrete run *)

#[local] Existing Instance wire_codec.
#[local] Existing Instance wire_codec_laws.

(** The daemon of DeliverySpec.v; after the datagram its kernel reports the
    endpoint's pipe, which holds one byte. *)
Definition waiting_host : Daemon (Host dscript) :=
  set_env (set_inner (mkDScript 14 [(Z.of_nat (length question), question, 0); (1, [49], 0)] [] [] [(1, [(POLLIN, 3%nat)])] [])
    (env bound_host)) bound_host.
Definition waiting_proc : Proc (Guest script dscript) :=
  mkProc 4096 4 4096 (Some [10; 0; 0; 0]) 3 0 77 [99; 117; 114; 108]
    (mkGuest socket_script (Ok waiting_host) {[10 := 40]} [TReactor; TInterface; TIp; TReactor]).

Lemma waiting_attached : attached waiting_proc 4096 10 40 2 socket_channel socket_handle socket_script {[10 := 40]}
  [TInterface; TIp; TReactor] waiting_host.
Proof.
  constructor; [split; cbn; [lia|lia|lia|eauto]|reflexivity|reflexivity|reflexivity| |exact bound_handle].
  destruct bound_serving as [G Hc Hfd Hcn Hi Hq Hb Hr]. constructor; assumption.
Qed.
Lemma waiting_receives : can_receive 4 5 socket_endpoint bound_pcb 10 waiting_host.
Proof. destruct bound_receives as [? ? ? ? ? ? ? ? ?]. constructor; assumption. Qed.
Lemma pipe_free : conns (env waiting_host) !! (new_packet_notify_pipe socket_endpoint).1 = None.
Proof. vm_compute. reflexivity. Qed.
(** What is left of the script once the datagram has been read. *)
Definition after_question : dscript := mkDScript 14 [(1, [49], 0)] [] [] [(1, [(POLLIN, 3%nat)])] [].
Lemma pipe_notified : notified (new_packet_notify_pipe socket_endpoint) (ep_sChannel socket_endpoint) after_question.
Proof. do 8 eexists. split_and!; [reflexivity|reflexivity|discriminate|reflexivity]. Qed.
Lemma wait_next_fits : length (response_pack (mkResponse (Some RC_WAIT_NEXT) None)) ≤ RPC_MESSAGE_MAX_SIZE.
Proof. vm_compute. discriminate. Qed.
Lemma ask_sendable : sendable (mkRequest (self_pid waiting_proc) (Some (CallRecvfrom (i32 100) 0 true))).
Proof. apply sendable_small; [|by vm_compute]. by split; [cbn; lia|]. Qed.

Lemma waiting_program_answered_witness :
  ∃ p', @recvfrom _ (host_glibc [] no_request 1) _ 1 0 4096 (Some 100) 100 0 (Some 16) (Some 16) waiting_proc =
      Ok (mkRecv 2 [104; 105] (Some (sockaddr_in 53764 16777226)) (Some 16), p').
Proof.
  destruct (waiting_program_answered [] no_request 1 1 0 waiting_proc 4096 10 40 2 socket_channel socket_handle socket_script {[10 := 40]} []
    waiting_host 4 5 socket_endpoint bound_pcb 10 asker (udp_header (bswap16 1) (udp_check (bswap16 1) asker 2) asker 2) [104; 105] 0 after_question
    100 100 0 16 16 waiting_attached eq_refl waiting_receives eq_refl eq_refl pipe_free) as (p' & d' & Hr & _);
    [apply udp_header_form|split_and!; cbn; unfold in_u32, in_u16; lia|cbn; lia|reflexivity|exact bound_find|exact pipe_notified|lia|lia|discriminate|cbn; lia|lia
    |exact ask_sendable|exact wait_next_fits|exact question_answerable|].
  exists p'. exact Hr.
Defined.
