(* ===== verification/TcpConnectSpec.v ===== *)
(** * A TCP connection, end to end

    [connect] on a blocking TCP socket: the event loop sends the SYN and tells
    the interceptor to wait, the interface and IP threads take the SYN+ACK to the
    session, whose callback answers the waiting program. *)

From S2P Require Import Prelude Rpc Wire Glibc Script Channel FdPool Interceptor PoolInv InterceptorSpec SocketSpec Csum16 Frame Session World DScript Reactor Net Agent Udp Tcp Reassembly IpRx Dispatch Arbiter Boot ReactorSpec AgentSpec PacketSpec TcpSpec UdpSpec DispatchSpec Invariant LoopSpec BootSpec SocketCallSpec Ownership Link LinkSpec System ConnectSpec DeliverySpec.

(** ** A segment through the receiving path *)

(** A packet that begins with [h] is a TCP segment with these sequence and
    acknowledgement numbers and flags; options, window and the rest are
    arbitrary. *)
Record tcp_fields (s : Session) (seq ack flags : Z) (h : list Z) : Prop := {
  tf_carries : carries 6 s h;
  tf_seq : slice h 24 4 = Some (le_bytes 4 (bswap32 seq));
  tf_ack : slice h 28 4 = Some (le_bytes 4 (bswap32 ack));
  tf_flags : slice h 33 1 = Some [flags]
}.
(** All the headers of a segment, with [doff] words of TCP header. *)
Record segment_header (s : Session) (seq ack flags doff : Z) (h : list Z) : Prop := {
  sh_fields : tcp_fields s seq ack flags h;
  sh_doff : slice h 32 1 = Some [16 * doff];
  sh_length : Z.of_nat (length h) = 20 + 4 * doff;
  sh_range : 5 ≤ doff ≤ 15
}.
Definition tcp_headers (id c1 c2 : Z) (s : Session) (seq ack flags : Z) (len : Z) : list Z :=
  ip_tcp_header id c1 s len ++ tcp_header c2 s seq ack flags.
Lemma tcp_headers_segment id c1 c2 s seq ack flags len : segment_header s seq ack flags 5 (tcp_headers id c1 c2 s seq ack flags len).
Proof. split; [|done|done|done]. split; [|done..]. by constructor; first [left|idtac]. Qed.

Section segment.
Context {E : Type} `{Kernel E} `{Codec} (indet : list Z).
Implicit Types d : Daemon E.

Lemma segment_loads s seq ack flags h data t ub : session_words s → tcp_fields s seq ack flags h →
  let f := rx_frame t ub (h ++ data) in
  ld32 f (raw 20) tcphdr_seq = Ok (bswap32 seq) ∧ ld32 f (raw 20) tcphdr_ack_seq = Ok (bswap32 ack) ∧
  (∀ bit, ld_tcp_flag bit f (raw 20) = Ok (has_bits flags bit)) ∧
  (∀ doff, slice h 32 1 = Some [16 * doff] → 0 ≤ doff → ld_doff f (raw 20) = Ok doff).
Proof.
  intros Hs [Hca Hsq Hak Hfl] f. pose proof (header_loads 6 s h data t ub Hs Hca) as (Hld & _). fold f in Hld. split_and!.
  - pose proof (Hld 4%nat 20 4 _ ltac:(done) Hsq) as Hx. rewrite le_val_bytes, Z.mod_small in Hx by apply bswap32_range. exact Hx.
  - pose proof (Hld 4%nat 20 8 _ ltac:(done) Hak) as Hx. rewrite le_val_bytes, Z.mod_small in Hx by apply bswap32_range. exact Hx.
  - intros bit. unfold ld_tcp_flag. replace (ld8 f (raw 20) 13) with (Ok flags); [done|]. symmetry.
    pose proof (Hld 1%nat 20 13 [flags] ltac:(done) Hfl) as Hx. cbn [le_val] in Hx. rewrite Z.add_0_r in Hx. exact Hx.
  - intros doff Hdo Hd. unfold ld_doff. replace (ld8 f (raw 20) 12) with (Ok (16 * doff)).
    + cbn [mbind res_bind]. f_equal. rewrite Z.shiftr_div_pow2 by lia. change (2 ^ 4) with 16. by rewrite Z.mul_comm, Z.div_mul.
    + symmetry. pose proof (Hld 1%nat 20 12 _ ltac:(done) Hdo) as Hx. cbn [le_val] in Hx. rewrite Z.mul_0_r, Z.add_0_r in Hx. exact Hx.
Qed.

Lemma Ip_turn_tcp k s seq ack flags h data i q d : tcp_fields s seq ack flags h → (20 ≤ length h)%nat →
  let pkt := h ++ data in
  rxQ d = Some k :: q → frames d !! k = Some (rx_frame nullptr nullptr pkt) → session_words s →
  Sessions_find (lock_session d) (laddr s) (lport s) (faddr s) (fport s) (tcp_pcbs d) = Some i →
  Ip_turn indet d = TcpSession_recv indet k i (with_frame k (rx_frame (raw 20) nullptr pkt) (set_rxQ q d)).
Proof.
  intros [Hca _ _ _] Hlh pkt Hq Hf Hs Hfind. unfold Ip_turn.
  rewrite (M_bind_ok _ _ d (Some k :: q) d) by (unfold gets; by rewrite Hq).
  set (d1 := set_rxQ q d). rewrite (M_bind_ok _ _ d tt d1) by done.
  unfold Ip_process. mstep (read_cell_ok frames k _ d1 Hf). rewrite (M_bind_ok _ _ d1 tt d1) by done.
  set (f := rx_frame nullptr nullptr pkt) in *.
  pose proof (header_loads 6 s h data nullptr nullptr Hs Hca) as (_ & _ & _ & _ & _ & Hihl & Hfrag & _).
  fold pkt f in Hihl, Hfrag.
  rewrite (M_bind_ok _ _ d1 (Z.of_nat (length pkt)) d1) by (unfold f, rx_frame; cbn; f_equal; f_equal; lia).
  assert (length pkt = (length h + length data)%nat) as Hl by (unfold pkt; by rewrite length_app).
  rewrite (proj2 (Z.ltb_ge (Z.of_nat (length pkt)) 20)) by lia. change (false || negb (IpHdrs_checksum f nullptr)) with false. cbv iota zeta.
  change (network_hdr f) with (raw 0). mstep (lift_res_ok _ _ d1 Hfrag).
  rewrite (M_bind_ok _ _ d1 (Some k) d1) by done. unfold Ip_demultiplex, get_frame.
  rewrite (M_bind_ok _ _ d1 5 d1) by (mstep (read_cell_ok frames k f d1 Hf); by apply lift_res_ok).
  mrun upd_frame_ok; [reflexivity|]. set (f1 := set_transport_hdr _ f). set (d2 := with_frame k f1 d1).
  change f1 with (rx_frame (raw 20) nullptr pkt) in *.
  pose proof (header_loads 6 s h data (raw 20) nullptr Hs Hca) as (_ & Hsa & Hda & Hsp & Hdp & _ & _ & Hproto).
  fold pkt in Hsa, Hda, Hsp, Hdp, Hproto.
  rewrite (M_bind_ok _ _ d2 PX_TCP d2).
  2: { erewrite M_bind_ok; [|apply read_cell_ok, lookup_insert_eq]. unfold IpHdrs_protocol. by rewrite Hproto. }
  unfold Tcp_rx. erewrite M_bind_ok by (apply read_cell_ok, lookup_insert_eq). cbv zeta.
  mstep (lift_res_ok _ _ d2 Hsa). mstep (lift_res_ok _ _ d2 Hda). mstep (lift_res_ok _ _ d2 Hsp). mstep (lift_res_ok _ _ d2 Hdp).
  mstep (eq_refl : get_st d2 = Ok (d2, d2)).
  assert (Sessions_find (lock_session d2) (laddr s) (lport s) (faddr s) (fport s) (tcp_pcbs d2) = Some i) as -> by exact Hfind. done.
Qed.
End segment.

(** ** What a [connect] leaves alone *)

Section steady.
Context {E : Type} `{Kernel E}.
Implicit Types d : Daemon E.

Definition layers d : list (option nat) * list nat * (bool * bool * bool) :=
  (rxQ d, tcp_pcbs d, (if_stopflag d, ip_stopflag d, loop_stopflag d)).
Definition steady {A} (m : D E A) : Prop := ∀ d a d', m d = Ok (a, d') → layers d' = layers d.

Lemma steady_bind {A B} (m : D E A) (k : A → D E B) : steady m → (∀ a, steady (k a)) → steady (m ≫= k).
Proof. intros Hm Hk d b d' Hr. apply M_bind_inv in Hr as (a & d1 & H1 & H2). etrans; [by eapply Hk|by eapply Hm]. Qed.
Lemma steady_ret {A} (a : A) : steady (mret a : D E A).
Proof. by intros d ? d' [= <- <-]. Qed.
Lemma steady_lift {A} (r : res A) : steady (lift_res r : D E A).
Proof. intros d a d'. unfold lift_res. destruct r; [|done]. by intros [= <- <-]. Qed.
Lemma steady_gets {A} (f : Daemon E → A) : steady (gets f).
Proof. by intros d ? d' [= <- <-]. Qed.
Lemma steady_fail {A} f : steady (fail f : D E A).
Proof. by intros d ? d'. Qed.
Lemma steady_assert b : steady (assert_ b : D E unit).
Proof. destruct b; [apply steady_ret|apply steady_fail]. Qed.
Lemma steady_modify f : (∀ d, layers (f d) = layers d) → steady (modify f : D E unit).
Proof. intros Hf d ? d' [= <- <-]. by rewrite Hf. Qed.
Lemma steady_fresh : steady (fresh : D E nat).
Proof. by intros d ? d' [= <- <-]. Qed.
Lemma steady_read_cell {A} (heap : Daemon E → gmap nat A) i : steady (read_cell heap i).
Proof. intros d a d'. unfold read_cell. destruct (heap d !! i); [|done]. by intros [= <- <-]. Qed.
Lemma steady_kcall {A} (f : E → A * E) : steady (kcall f).
Proof. intros d a d'. rewrite kcall_ok. by intros [= <- <-]. Qed.
End steady.

Create HintDb steady discriminated.
#[export] Hint Resolve steady_lift steady_gets steady_fail steady_assert steady_fresh steady_kcall : steady.
#[export] Hint Extern 1 (steady (deref _)) => apply steady_lift : steady.
#[export] Hint Extern 1 (steady (the_frame _)) => apply steady_read_cell : steady.
#[export] Hint Extern 1 (steady (the_pcb _)) => apply steady_read_cell : steady.
#[export] Hint Extern 1 (steady (modify _)) => by apply steady_modify : steady.
#[export] Hint Extern 1 (steady (put_frame _ _)) => by apply steady_modify : steady.
#[export] Hint Extern 1 (steady (put_pcb _ _)) => by apply steady_modify : steady.
Ltac steady :=
  repeat first
    [ progress intros
    | apply steady_ret
    | solve [eauto with steady]
    | apply steady_bind; [solve [eauto with steady]|]
    | match goal with
      | |- steady (match ?x with _ => _ end) => destruct x eqn:?
      | |- steady ((match ?x with _ => _ end) ≫= _) => destruct x eqn:?
      | |- steady (mbind _ _) => apply steady_bind
      end ].

Section walk.
Context {E : Type} `{Kernel E}.

Lemma steady_tx_gather n curr bs : steady (tx_gather n curr bs : D E _).
Proof. revert curr bs. induction n as [|n IH]; intros [i|] bs; cbn [tx_gather]; steady. Qed.
Hint Resolve steady_tx_gather : steady.
Lemma steady_Ip_tx k buf : steady (Ip_tx k buf : D E _).
Proof. unfold Ip_tx, Interface_tx, TunIface_tx. steady. Qed.
Lemma steady_tcp_base f i : steady (tcp_base f i : D E _).
Proof. unfold tcp_base. steady. Qed.
Hint Resolve steady_Ip_tx steady_tcp_base : steady.
Lemma steady_TcpSession_send buf i : steady (TcpSession_send buf i : D E _).
Proof.
  unfold TcpSession_send, TcpSession_send_closed, TcpSession_send_estab, TcpSession_socketBufferOfTcpTempl,
    TcpSession_prepareBeforeIpTx, make_FrameBuf, upd_frame, upd_tcb, the_tcb. steady.
Qed.
Hint Resolve steady_TcpSession_send : steady.
Lemma steady_TcpSession_connect a q i : steady (TcpSession_connect a q i : D E _).
Proof. unfold TcpSession_connect. steady. Qed.
End walk.

(** ** The two halves of the handshake *)

Section connect.
Context {E : Type} `{Kernel E}.
Implicit Types d : Daemon E.

(** [connectCall] sends the SYN, remembers whom to tell, and says wait. *)
Lemma connectCall_tcp ch c so ep i p t a q g fd d :
  channels d !! ch = Some c → ch_socket c = Some so → endpoints d !! so = Some ep → ep_type ep = EP_TCP → ep_nonblocking ep = false →
  ep_pcb ep = Some i → sessions d !! i = Some p → p_tcb p = Some t → conn_state t = TCP_STATE__CLOSED →
  idgenerator d = Some g → tunDev d = Some fd → in_u32 a → in_u16 q →
  let s := connecting a q (p_base p) (tcp_port d) in
  ∃ d', connectCall ch (sockaddr_in q a) d = Ok (mkResponse (Some RC_WAIT_NEXT) None, d') ∧
    after_segment i s (tcb_syn_sent (set_onConnEstabCB (Some ch) t)) 1 0 2 [] g fd d d' ∧ layers d' = layers d.
Proof.
  intros Hc Hso Hep Hty Hnb Hpcb Hp Ht Hcl Hg Htun Ha Hq s. unfold connectCall.
  rewrite (M_bind_ok _ _ d (a, q) d) by (by rewrite destAddr_sockaddr). mstep (channel_socket_ok ch c so d Hc Hso).
  mstep (read_cell_ok endpoints so ep d Hep).
  rewrite (M_bind_ok _ _ d i d). 2: { unfold endpoint_pcb. mstep (read_cell_ok endpoints so ep d Hep). by rewrite Hpcb. }
  rewrite Hty, Hnb. set (p1 := set_p_tcb (Some (set_onConnEstabCB (Some ch) t)) p).
  set (d1 := with_pcb i p1 d). rewrite (M_bind_ok _ _ d tt d1).
  2: { unfold Session_setOnConnEstabCB_v. mstep (read_cell_ok sessions i p d Hp). rewrite Ht. unfold TcpSession_setOnConnEstabCB.
       by apply upd_tcb_ok. }
  assert (sessions d1 !! i = Some p1) as Hp1 by apply lookup_insert_eq.
  destruct (TcpSession_connect_ok a q i p1 _ g fd d1 Hp1 eq_refl Hcl Hg Htun) as (d' & Hd' & Hen & Hs & Hrest).
  rewrite (M_bind_ok _ _ d1 0 d').
  2: { unfold Session_connect_v. mstep (read_cell_ok sessions i p1 d1 Hp1). exact Hd'. }
  exists d'. split; [done|]. split.
  - split; [done|]. split; [|done]. rewrite Hs. cbn. by rewrite insert_insert_eq.
  - by apply (steady_TcpSession_connect a q i d1 0 d').
Qed.
End connect.

Section synack.
Context {K : Type} `{Kernel K} `{Codec} `{!CodecLaws}.
Context (indet : list Z) (parse_partial : list Z → Request) (dfuel : nat).
Implicit Types d : Daemon (Host K).

(** A session that waits for the SYN+ACK, for the program on channel [ch]. *)
Record awaits_synack (ch i so : nat) (c : AgentChannel) (ep : Endpoint) (s : Session) (t : Tcb) (h : IoHandle) (g : IpIdGenerator) (tfd : Z) d : Prop := {
  aw_session : sessions d !! i = Some (mkPcb s (Some t));
  aw_state : conn_state t = TCP_STATE__SYN_SENT;
  aw_cb : onConnEstabCB t = Some ch;
  aw_channel : channels d !! ch = Some c;
  aw_socket : ch_socket c = Some so;
  aw_endpoint : endpoints d !! so = Some ep;
  aw_pcb : ep_pcb ep = Some i;
  aw_handle : handles d !! t_sChannel t = Some h;
  aw_ids : idgenerator d = Some g;
  aw_tun : tunDev d = Some tfd;
  aw_tun_fd : conns (env d) !! tfd = None;
  aw_conn : conns (env d) !! ch_fd c = Some idle;
  aw_rxQ : rxQ d = [];
  aw_running : if_stopflag d = false ∧ ip_stopflag d = false
}.

Lemma host_writev_conns fd bs (h : Host K) : conns (k_writev fd bs h).2 = conns h.
Proof. cbn. unfold below_. by destruct (k_writev fd bs (inner h)). Qed.
Lemma host_epoll_inner op fd ev p (h : Host K) : inner (k_epoll_ctl op fd ev p h).2 = (k_epoll_ctl op fd ev p (inner h)).2.
Proof. cbn. unfold host_epoll_ctl, below_. by destruct (k_epoll_ctl op fd ev p (inner h)), op. Qed.
Lemma host_epoll_conns op fd ev p (h : Host K) : conns (k_epoll_ctl op fd ev p h).2 = conns h.
Proof. cbn. unfold host_epoll_ctl, below_. by destruct (k_epoll_ctl op fd ev p (inner h)). Qed.

(** The segment that acknowledges the SYN+ACK with sequence number [seq]; and what
    the kernel has seen since it delivered that: the acknowledgement, and at most
    the removal of the connection's handle from epoll. *)
Definition ack_header (g : IpIdGenerator) (s : Session) (seq : Z) (t : Tcb) : list Z :=
  tcp_full_header (IpIdGenerator_next g).1 s (send_next t) (u32 (bswap32 (bswap32 seq) + 1)) 16 [].
Definition acknowledged (tfd : Z) (hdr : list Z) (k k' : K) : Prop :=
  let k1 := (k_writev tfd [hdr; []] k).2 in k' = k1 ∨ ∃ fd, k' = (k_epoll_ctl EPOLL_CTL_DEL fd 0 None k1).2.

(** The interface and IP threads take the SYN+ACK to the session and answer the
    program. *)
Lemma synack_turns ch i so c ep s t h g tfd s' seq ack flags pkt x k' d :
  tcp_fields s' seq ack flags pkt → (40 ≤ length pkt ≤ 1518)%nat → has_bits flags tcp_syn_bit = true → has_bits flags tcp_ack_bit = true →
  awaits_synack ch i so c ep s t h g tfd d → session_words s' →
  length (response_pack TcpSpec.connected) ≤ RPC_MESSAGE_MAX_SIZE →
  Sessions_find (lock_session d) (laddr s') (lport s') (faddr s') (fport s') (tcp_pcbs d) = Some i →
  k_read tfd maxRawBytesSize (inner (env d)) = ((Z.of_nat (length pkt), pkt, x), k') →
  ∃ d1 d2 d3, run_thread indet parse_partial dfuel TInterface d = Ok d1 ∧ run_thread indet parse_partial dfuel TIp d1 = Ok d2 ∧
    pending (ch_fd c) d1 = None ∧ pending (ch_fd c) d2 = Some (response_pack TcpSpec.connected, d3) ∧
    sessions d3 = <[i := mkPcb s (Some (tcb_established (bswap32 seq) t))]> (sessions d) ∧
    acknowledged tfd (ack_header g s seq t) k' (inner (env d3)).
Proof.
  intros Htf' Hlen Hfs Hfa [Hse Hst Hcb Hch Hso Hep Hpcb Hh Hg Ht Htf Hcn Hrx [Hr1 Hr2]] Hsw Hl Hfind Hread. set (k := next_id d).
  pose proof (host_read_below tfd maxRawBytesSize (env d) _ k' Htf Hread) as Hkr.
  pose proof (Interface_turn_ok tfd pkt 69 x _ d Ht ltac:(lia) Hkr ltac:(rewrite <-(app_nil_r pkt); by eapply carries_first, tf_carries) eq_refl) as Hif.
  rewrite Hrx in Hif. set (d1 := set_rxQ _ _) in Hif.
  pose proof (Ip_turn_tcp indet k s' seq ack flags pkt [] i [] d1 Htf' ltac:(lia) eq_refl) as Hip. rewrite app_nil_r in Hip.
  specialize (Hip (lookup_insert_eq _ _ _) Hsw Hfind).
  set (d1' := with_frame k (rx_frame (raw 20) nullptr pkt) (set_rxQ [] d1)) in Hip.
  pose proof (segment_loads s' seq ack flags pkt [] (raw 20) nullptr Hsw Htf') as (Hseq & _ & Hfl & _). rewrite app_nil_r in Hseq, Hfl.
  destruct (handshake_ok indet k _ i (mkPcb s (Some t)) t (bswap32 seq) ch c so ep h g tfd d1' (lookup_insert_eq _ _ _) Hse eq_refl Hst Hg Ht
    ltac:(by rewrite <-Hfs) ltac:(by rewrite <-Hfa) Hseq Hcb Hch Hso Hep Hpcb Hh Hl) as (d2 & (Hen & Hss & _) & _ & Hrecv).
  rewrite Hrecv in Hip. set (d3 := set_handles _ (detached _ h d2)) in Hip.
  assert (conns (env d3) = conns (env d) ∧ sessions d3 = sessions d2 ∧ acknowledged tfd (ack_header g s seq t) k' (inner (env d3))) as (Hc3 & Hs3 & Ha3).
  { assert (conns (env d2) = conns (env d)) as Hc2 by (rewrite Hen, host_writev_conns; done).
    assert (inner (env d2) = (k_writev tfd [ack_header g s seq t; []] k').2) as Hi2 by (rewrite Hen; apply (below_inner (k_writev tfd _))).
    unfold d3, detached, acknowledged. rewrite <-Hi2.
    destruct (io_owner h); [case_decide|]; (split_and!; [|reflexivity|]); cbn [env set_env set_handles set_loop_channels epoll_del];
      rewrite ?host_epoll_conns; try exact Hc2; [|by left..]. right. exists (io_fd h). apply host_epoll_inner. }
  clearbody d3. set (d4 := set_env (set_conns (<[ch_fd c := mkConn [] [response_pack TcpSpec.connected] false]> (conns (env d3))) (env d3)) d3).
  assert (respond TcpSpec.connected c d3 = Ok (tt, d4)) as Hresp.
  { unfold respond. erewrite M_bind_ok.
    2: { unfold kcall. cbn [k_write host_kernel]. unfold host_write. rewrite Hc3, Hcn. cbn [idle shut up down app]. rewrite <-Hc3. reflexivity. }
    by rewrite (proj2 (Z.eqb_neq _ _)) by lia. }
  rewrite Hresp in Hip. exists d1, d4. eexists. split_and!.
  - unfold run_thread. by rewrite Hr1, Hif.
  - unfold run_thread. change (ip_stopflag d1) with (ip_stopflag d). by rewrite Hr2, Hip.
  - unfold pending. change (conns (env d1)) with (conns (env d)). by rewrite Hcn.
  - unfold pending. cbn [env set_env conns set_conns d4]. rewrite lookup_insert_eq. reflexivity.
  - change (sessions d3 = <[i := mkPcb s (Some (tcb_established (bswap32 seq) t))]> (sessions d)). by rewrite Hs3, Hss.
  - exact Ha3.
Qed.
End synack.

(** ** The whole connection *)

Section whole.
Context {C K : Type} `{Glibc C} `{Kernel K} `{Codec} `{!CodecLaws}.
Context (indet : list Z) (parse_partial : list Z → Request) (dfuel fuel retries : nat).
Implicit Types d : Daemon (Host K).

(** A blocking TCP socket that is not connected. *)
Record closed_socket (so i : nat) (ep : Endpoint) (q : Pcb) (t : Tcb) (g : IpIdGenerator) (tfd : Z) d : Prop := {
  cs_endpoint : endpoints d !! so = Some ep;
  cs_type : ep_type ep = EP_TCP;
  cs_blocking : ep_nonblocking ep = false;
  cs_pcb : ep_pcb ep = Some i;
  cs_session : sessions d !! i = Some q;
  cs_tcb : p_tcb q = Some t;
  cs_closed : conn_state t = TCP_STATE__CLOSED;
  cs_handle : is_Some (handles d !! t_sChannel t);
  cs_ids : idgenerator d = Some g;
  cs_tun : tunDev d = Some tfd;
  cs_tun_fd : conns (env d) !! tfd = None;
  cs_rxQ : rxQ d = [];
  cs_running : if_stopflag d = false ∧ ip_stopflag d = false
}.

(** Serving the request leaves the session waiting for the SYN+ACK. *)
Lemma connect_served fd dch cc h so i ep q t g tfd a port d : serving fd dch cc d → handles d !! ch_sChannel cc = Some h → ch_socket cc = Some so →
  closed_socket so i ep q t g tfd d → in_u32 a → in_u16 port →
  let s := connecting a port (p_base q) (tcp_port d) in
  let t1 := tcb_syn_sent (set_onConnEstabCB (Some dch) t) in
  let syn := tcp_full_header (IpIdGenerator_next g).1 s 1 0 2 [] in
  ∃ d1, connectCall dch (sockaddr_in port a) (in_turn (ch_sChannel cc) h d) = Ok (mkResponse (Some RC_WAIT_NEXT) None, d1) ∧
    ∀ h1, handles d1 !! ch_sChannel cc = Some h1 → let d2 := after_turn (ch_sChannel cc) h1 d1 in
      (∃ h2, awaits_synack dch i so cc ep s t1 h2 (IpIdGenerator_next g).2 tfd d2) ∧
      inner (env d2) = (k_writev tfd [syn; []] (inner (env d))).2 ∧ tcp_pcbs d2 = tcp_pcbs d ∧
      sessions d2 = <[i := mkPcb s (Some t1)]> (sessions d).
Proof.
  intros Hs Hh Hso [Hep Hty Hnb Hpcb Hq Ht Hcl [h0 Hh0] Hg Htun Htf Hrx Hrun] Ha Hp s t1 syn. set (d0 := in_turn (ch_sChannel cc) h d).
  destruct (connectCall_tcp dch cc so ep i q t a port g tfd d0 (sv_channel _ _ _ _ Hs) Hso Hep Hty Hnb Hpcb Hq Ht Hcl Hg Htun Ha Hp)
    as (d1 & Hr & (Hen & Hss & Hid & Htu & Hee & Hcc & Hhh & _) & Hla). exists d1. split; [exact Hr|]. intros h1 Hh1 d2.
  injection Hla as Hl1 Hl2 Hl3 Hl4 Hl5. change (tcp_port d0) with (tcp_port d) in Hen, Hss. fold s in Hen, Hss. fold t1 in Hss. fold syn in Hen.
  assert (conns (env d2) = conns (env d)) as Hcn by (change (env d2) with (env d1); rewrite Hen, host_writev_conns; done).
  assert (is_Some (handles d2 !! t_sChannel t1)) as [h2 Hh2].
  { cbn. rewrite Hhh. cbn. destruct (decide (t_sChannel t = ch_sChannel cc)) as [->|Hne]; [by rewrite lookup_insert_eq|].
    by rewrite !lookup_insert_ne, Hh0. }
  split_and!.
  - exists h2. constructor; try done; rewrite ?Hcn; try done.
    + cbn. rewrite Hss. apply lookup_insert_eq.
    + cbn. rewrite Hcc. exact (sv_channel _ _ _ _ Hs).
    + cbn. by rewrite Hee.
    + rewrite (sv_fd _ _ _ _ Hs). exact (sv_conn _ _ _ _ Hs).
    + cbn. rewrite Hl1. exact Hrx.
    + cbn. rewrite Hl3, Hl4. exact Hrun.
  - change (env d2) with (env d1). rewrite Hen. apply (below_inner (k_writev tfd [syn; []])).
  - exact Hl2.
  - exact Hss.
Qed.
End whole.

(** ** Properties *)

(** C10. A TCP connection, end to end: [connect] on a blocking, closed TCP socket
    puts a SYN on the wire, from the socket's address and port (its own, or the
    next free one) to the address and port of the call; when the TUN device then
    delivers a SYN+ACK (any, without IP options) whose addresses the
    demultiplexer finds to be the socket's,
    the interface and IP threads make the session ESTABLISHED, put the
    acknowledgement of its sequence number on the wire, and answer the waiting
    program, whose call returns 0 with the interceptor's state unchanged.  Of the
    kernel the daemon has asked the two [writev] calls, with valid segments, the
    [read] between them, and at most the removal of the connection's handle from
    epoll. *)
Theorem tcp_connect_end_to_end {C K} `{Glibc C} `{Kernel K} `{Codec} `{!CodecLaws} indet parse_partial dfuel fuel retries
    (p : Proc (Guest C K)) vfd ch fd dch cc h cl lk pl (d : Daemon (Host K)) so i ep q t g tfd addr port s' seq ack flags synack x :
  (* the program and the daemon *)
  attached p vfd ch fd dch cc h cl lk (TInterface :: TIp :: pl) d → ch_socket cc = Some so → closed_socket so i ep q t g tfd d →
  in_u32 addr → in_u16 port → (1 ≤ fuel)%nat →
  let wait := mkResponse (Some RC_WAIT_NEXT) None in
  sendable (mkRequest (self_pid p) (Some (CallConnect (sockaddr_in port addr)))) → answerable TcpSpec.connected →
  length (response_pack wait) ≤ RPC_MESSAGE_MAX_SIZE →
  (* the SYN, and the SYN+ACK that answers it *)
  let s := mkSession addr port (laddr (p_base q)) (source_port (p_base q) (tcp_port d)) (s_socket (p_base q)) in
  let t1 := tcb_syn_sent (set_onConnEstabCB (Some dch) t) in
  let syn := tcp_full_header (IpIdGenerator_next g).1 s 1 0 2 [] in
  let k1 := (k_writev tfd [syn; []] (inner (env d))).2 in
  tcp_fields s' seq ack flags synack → (40 ≤ length synack ≤ 1518)%nat → has_bits flags tcp_syn_bit = true → has_bits flags tcp_ack_bit = true →
  session_words s' → (k_read tfd maxRawBytesSize k1).1 = (Z.of_nat (length synack), synack, x) →
  Sessions_find (λ j, p_base <$> <[i := mkPcb s (Some t1)]> (sessions d) !! j) (laddr s') (lport s') (faddr s') (fport s') (tcp_pcbs d) = Some i →
  let acked := ack_header (IpIdGenerator_next g).2 s seq t1 in
  ∃ p' d', @connect _ (host_glibc indet parse_partial dfuel) _ fuel retries vfd (sockaddr_in port addr) 16 p = Ok (0, p') ∧
    same_globals p p' ∧ Glibc.env p' = mkGuest cl (Ok d') lk pl ∧
    sessions d' !! i = Some (mkPcb s (Some (tcb_established (bswap32 seq) t1))) ∧
    segment_valid s syn [] ∧ segment_valid s acked [] ∧
    acknowledged tfd acked (k_read tfd maxRawBytesSize k1).2 (inner (env d')).
Proof.
  intros [Hi Hch He Hlk Hs Hh] Hso Hcs Ha Hp Hf wait [Hwf Hl] (Hwr & Hne & Hlr) Hlw s t1 syn k1 Htf' Hlen Hfs Hfa Hsw Hread Hfind acked.
  destruct (k_read tfd maxRawBytesSize k1) as [rd k'] eqn:Hread'. cbn in Hread. subst rd. rename Hread' into Hread. unfold k1 in Hread.
  destruct (connect_served fd dch cc h so i ep q t g tfd addr port d Hs Hh Hso Hcs Ha Hp) as (d1 & Hr & Hd1).
  destruct (await_reply indet parse_partial dfuel fd dch cc h (mkRequest (self_pid p) (Some (CallConnect (sockaddr_in port addr)))) wait
    (TInterface :: TIp :: pl) d d1 Hs Hh Hwf Hl Hr ltac:(by eexists) Hlw) as (h1 & Hh1 & Ha1).
  destruct (Hd1 h1 Hh1) as ([h2 Haw] & Hin & Hpc & Hse). set (d2 := after_turn _ h1 d1) in *.
  rewrite connecting_eq in Haw, Hin, Hse. fold s t1 syn in Haw, Hin, Hse. rewrite <-Hin in Hread. rewrite <-Hpc in Hfind.
  destruct (synack_turns indet parse_partial dfuel dch i so cc ep s t1 h2 _ tfd s' seq ack flags synack x k' d2 Htf' Hlen Hfs Hfa Haw Hsw Hlr) as (d3 & d4 & d5 & Ht1 & Ht2 & Hp3 & Hp4 & Hs5 & Hk5);
    [unfold lock_session; rewrite Hse; exact Hfind|exact Hread|].
  rewrite (sv_fd _ _ _ _ Hs) in Hp3, Hp4.
  assert (conns (env d2) !! fd = Some idle) as Hc2 by (rewrite <-(sv_fd _ _ _ _ Hs); apply (aw_conn _ _ _ _ _ _ _ _ _ _ _ Haw)).
  assert (pending fd d2 = None) as Hp2 by (unfold pending; by rewrite Hc2).
  assert (await indet parse_partial dfuel fd (TInterface :: TIp :: pl) d2 = (Ok (Some (response_pack TcpSpec.connected), d5), pl)) as Ha2.
  { rewrite (await_turn _ _ _ _ _ _ _ _ Hp2 Ht1), (await_turn _ _ _ _ _ _ _ _ Hp3 Ht2). destruct pl; cbn [await]; by rewrite Hp4. }
  pose proof (exchange_await_wait indet parse_partial dfuel fuel retries ch fd _ wait TcpSpec.connected cl lk _ _ pl d d2 d5 Hlk (sv_conn _ _ _ _ Hs) Hf Hl
    eq_refl ltac:(split; [by eexists|done]) Hlw Hne Hwr Hlr Ha1 Ha2) as Hx. rewrite <-He in Hx.
  destruct (connect_ok (H := host_glibc indet parse_partial dfuel) fuel retries vfd ch p (sockaddr_in port addr) (mkRet 0 None) _ Hi Hch eq_refl Hx)
    as (p' & Hrun & Hg & He' & _); [done|].
  exists p', d5. split_and!; [exact Hrun|exact Hg|exact He'| | | |exact Hk5].
  - rewrite Hs5, Hse. apply lookup_insert_eq.
  - apply full_header_valid; [apply Forall_nil_2|cbn; lia|unfold in_u8; lia].
  - apply full_header_valid; [apply Forall_nil_2|cbn; lia|unfold in_u8; lia].
Qed.

(** ** A concrete run *)

#[local] Existing Instance wire_codec.
#[local] Existing Instance wire_codec_laws.

(** The daemon of System.v after a request for a TCP socket; its TUN device holds
    the SYN+ACK of 10.0.0.1, port 80. *)
Definition tcp_socket_host : Daemon (Host dscript) :=
  let d := host_turn (host_turn (queued 40 idle (request_pack (mkRequest 77 (Some (CallSocket AF_INET SOCK_STREAM 0)))) (connected booted_host))) in
  set_env (set_conns {[40 := idle]} (env d)) d.
Definition server : Session := mkSession 178825408 (bswap16 1025) 16777226 (bswap16 80) None.
Definition synack : list Z := tcp_headers 1 2 3 server 1000 2 18 0.
Definition tcp_host : Daemon (Host dscript) :=
  let d := tcp_socket_host in set_env (set_inner (mkDScript 20 [(40, synack, 0)] [] [] [] []) (env d)) d.
Definition tcp_proc : Proc (Guest script dscript) :=
  mkProc 4096 4 4096 (Some [10; 0; 0; 0]) 3 0 77 [99; 117; 114; 108]
    (mkGuest socket_script (Ok tcp_host) {[10 := 40]} [TReactor; TInterface; TIp]).

Definition tcp_endpoint : Endpoint := mkEndpoint EP_TCP false (12, 13) false None 3 (Some 2%nat) (Some 6%nat) [].
Definition tcp_tcb : Tcb := mkTcb TCP_STATE__CLOSED (14, 15) None 5 0 0 0 0.
Definition tcp_pcb : Pcb := mkPcb (mkSession 0 0 178825408 0 (Some 4%nat)) (Some tcp_tcb).

Lemma tcp_host_graph : ok_graph tcp_host.
Proof.
  unfold tcp_host, tcp_socket_host. cbv zeta. do 2 apply graph_env. do 2 (apply host_turn_graph; [by vm_compute|]).
  unfold queued. apply graph_env. unfold connected. apply graph_env, booted_host_graph.
Qed.
Lemma tcp_attached : attached tcp_proc 4096 10 40 2 socket_channel socket_handle socket_script {[10 := 40]} [TInterface; TIp] tcp_host.
Proof.
  constructor; [split; cbn; [lia|lia|lia|eauto]|reflexivity|reflexivity|reflexivity| |vm_compute; reflexivity].
  constructor; try (vm_compute; reflexivity); [apply tcp_host_graph|].
  intros f c Hc. unfold tcp_host, tcp_socket_host in Hc. cbn [env set_env conns set_conns set_inner] in Hc. by apply lookup_singleton_Some in Hc as [_ <-].
Qed.
Lemma tcp_closed : closed_socket 4 6 tcp_endpoint tcp_pcb tcp_tcb (mkIdGen 0) 10 tcp_host.
Proof. constructor; try (vm_compute; reflexivity); [vm_compute; by eexists|by vm_compute]. Qed.
(** The sockaddr of 10.0.0.1, port 80. *)
Definition web : list Z := sockaddr_in (bswap16 80) 16777226.
Lemma web_sendable : sendable (mkRequest 77 (Some (CallConnect web))).
Proof.
  apply sendable_small; [|by vm_compute]. split; [cbn; lia|]. split; [|done]. by apply (bool_decide_unpack _); vm_compute.
Qed.
Lemma web_answerable : answerable TcpSpec.connected.
Proof. apply (answerable_small (RetConnect _)); [done|by vm_compute]. Qed.
Lemma wait_fits : length (response_pack (mkResponse (Some RC_WAIT_NEXT) None)) ≤ RPC_MESSAGE_MAX_SIZE.
Proof. vm_compute. discriminate. Qed.
Lemma tcp_find s t : s = mkSession 16777226 (bswap16 80) 178825408 (bswap16 1025) (Some 4%nat) →
  Sessions_find (λ j, p_base <$> <[6%nat := mkPcb s t]> (sessions tcp_host) !! j) (laddr server) (lport server) (faddr server) (fport server) (tcp_pcbs tcp_host) = Some 6%nat.
Proof. intros ->. vm_compute. reflexivity. Qed.
Lemma tcp_reads bss : (k_read 10 maxRawBytesSize (k_writev 10 bss (inner (env tcp_host))).2).1 = (40, synack, 0).
Proof. reflexivity. Qed.
(** The SYN and its acknowledgement are all that was written. *)
Lemma tcp_writes bss hdr k' : acknowledged 10 hdr (k_read 10 maxRawBytesSize (k_writev 10 bss (inner (env tcp_host))).2).2 k' →
  ds_writes k' = [(10, concat bss); (10, concat [hdr; []])].
Proof. by intros [->|[fd ->]]. Qed.

Lemma tcp_connect_end_to_end_witness :
  ∃ p' d' s t syn ack, @connect _ (host_glibc [] no_request 3) _ 1 0 4096 web 16 tcp_proc = Ok (0, p') ∧
    Glibc.env p' = mkGuest socket_script (Ok d') {[10 := 40]} [] ∧ sessions d' !! 6%nat = Some (mkPcb s (Some t)) ∧
    conn_state t = TCP_STATE__ESTABLISHED ∧ faddr s = 16777226 ∧ fport s = bswap16 80 ∧
    ds_writes (inner (env d')) = [(10, concat [syn; []]); (10, concat [ack; []])].
Proof.
  destruct (tcp_connect_end_to_end [] no_request 3 1 0 tcp_proc 4096 10 40 2 socket_channel socket_handle socket_script {[10 := 40]} []
    tcp_host 4 6 tcp_endpoint tcp_pcb tcp_tcb (mkIdGen 0) 10 16777226 (bswap16 80) server 1000 2 18 synack 0
    tcp_attached eq_refl tcp_closed) as (p' & d' & Hr & _ & He & Hs & _ & _ & Hk);
    [unfold in_u32; lia|unfold in_u16; vm_compute; by split|lia|exact web_sendable|exact web_answerable|exact wait_fits|apply tcp_headers_segment|cbn; lia|reflexivity|reflexivity| |apply tcp_reads| |].
  - split_and!; unfold in_u32, in_u16; vm_compute; by split.
  - apply tcp_find. vm_compute. reflexivity.
  - apply tcp_writes in Hk. eexists p', d', _, _, _, _. do 3 (split; [eassumption|]). do 3 (split; [reflexivity|]). exact Hk.
Defined.
