(* ===== verification/TcpDataSpec.v ===== *)
(** * Data on a TCP connection, end to end

    [write] on a connected TCP socket down to the segment on the wire, and a
    segment from the wire up to the program that waits in [read]. *)

From S2P Require Import Prelude Rpc Wire Glibc Script Channel FdPool Interceptor PoolInv InterceptorSpec SocketSpec Csum16 Frame Session World DScript Reactor Net Agent Udp Tcp Reassembly IpRx Dispatch Arbiter Boot ReactorSpec AgentSpec PacketSpec TcpSpec UdpSpec DispatchSpec Invariant LoopSpec BootSpec SocketCallSpec Ownership Link LinkSpec System ConnectSpec DeliverySpec TcpConnectSpec Flags.

(** A connected socket: its endpoint [so], session [i] and control block [t]. *)
Record connected_socket {E} (so i : nat) (ep : Endpoint) (q : Pcb) (t : Tcb) (g : IpIdGenerator) (tfd : Z) (d : Daemon E) : Prop := {
  es_endpoint : endpoints d !! so = Some ep;
  es_type : ep_type ep = EP_TCP;
  es_pcb : ep_pcb ep = Some i;
  es_session : sessions d !! i = Some q;
  es_tcb : p_tcb q = Some t;
  es_established : conn_state t = TCP_STATE__ESTABLISHED;
  es_ids : idgenerator d = Some g;
  es_tun : tunDev d = Some tfd
}.

(** ** Sending *)

Lemma sendtoCall_tcp {E} `{Kernel E} ch c so ep i q t buf addr g fd (d : Daemon E) :
  channels d !! ch = Some c → ch_socket c = Some so → connected_socket so i ep q t g fd d → length buf < 2147483648 →
  ∃ d', sendtoCall ch buf addr d = Ok (answer (RetSendto (mkRet (length buf) None)), d') ∧
    after_segment i (bound q d) (tcb_sent (length buf) t) (send_next t) (recv_next t) 16 buf g fd d d'.
Proof.
  intros Hc Hso [Hep Hty Hpcb Hq Ht Hst Hg Htun] Hl. unfold sendtoCall. mstep (channel_socket_ok ch c so d Hc Hso).
  mstep (read_cell_ok endpoints so ep d Hep).
  rewrite (M_bind_ok _ _ d i d). 2: { unfold endpoint_pcb. mstep (read_cell_ok endpoints so ep d Hep). by rewrite Hpcb. }
  rewrite Hty. destruct (TcpSession_send_ok buf i q t _ (send_next t) (recv_next t) 16 g fd d Hq Ht Hg Htun Hl
    (or_intror (conj Hst (conj eq_refl (conj eq_refl (conj eq_refl eq_refl)))))) as (d' & Hd' & Ha).
  exists d'. split; [|exact Ha]. erewrite M_bind_ok; [reflexivity|]. unfold Session_send_v. mstep (read_cell_ok sessions i q d Hq). by rewrite Ht.
Qed.

(** ** Receiving *)

Section receiving.
Context {C K : Type} `{Glibc C} `{Kernel K} `{Codec} `{!CodecLaws}.
Context (indet : list Z) (parse_partial : list Z → Request) (dfuel fuel retries : nat).
Implicit Types d : Daemon (Host K).

Lemma host_writev_below fd bs (h : Host K) : (k_writev fd bs h).2 = set_inner (k_writev fd bs (inner h)).2 h.
Proof. cbn. unfold below_. by destruct (k_writev fd bs (inner h)). Qed.

(** The control block after a segment of [n] bytes at [seq] that acknowledges
    [ack], and the acknowledgement that goes out. *)
Definition tcb_received (seq ack n : Z) (t : Tcb) : Tcb :=
  set_recv_next (u32 (bswap32 (bswap32 seq) + n)) (tcb_acked (Some (bswap32 ack)) t).
Definition ack_of (g : IpIdGenerator) (s : Session) (seq n : Z) (t : Tcb) : list Z :=
  tcp_full_header (IpIdGenerator_next g).1 s (send_next t) (u32 (bswap32 (bswap32 seq) + n)) 16 [].

(** A turn of the interface thread and one of the IP thread: the segment is in
    the endpoint's queue, and acknowledged. *)
Lemma segment_turns so i ep q t g tfd s seq ack flags doff hdr buf x k' d : segment_header s seq ack flags doff hdr →
  can_receive so i ep q tfd d → connected_socket so i ep q t g tfd d → session_words s → 0 < length buf → length (hdr ++ buf) ≤ 1518 → has_bits flags tcp_ack_bit = true →
  Sessions_find (lock_session d) (laddr s) (lport s) (faddr s) (fport s) (tcp_pcbs d) = Some i →
  let pkt := hdr ++ buf in
  k_read tfd maxRawBytesSize (inner (env d)) = ((Z.of_nat (length pkt), pkt, x), k') →
  ∃ d1 d2, Interface_turn d = Ok (tt, d1) ∧ rxQ d1 = [Some (next_id d)] ∧ conns (env d1) = conns (env d) ∧
    Flags.flags d1 = Flags.flags d ∧ Ip_turn indet d1 = Ok (tt, d2) ∧
    env d2 = set_inner (k_writev tfd [ack_of g (p_base q) seq (length buf) t; []] (k_write (new_packet_notify_pipe ep).2 [49] k').2).2 (env d) ∧
    sessions d2 !! i = Some (mkPcb (p_base q) (Some (tcb_received seq ack (length buf) t))) ∧
    endpoints d2 !! so = Some (set_recvQ [(indet, next_id d)] ep) ∧ channels d2 = channels d ∧ handles d2 = handles d ∧
    chain d2 (Some (next_id d)) [next_id d] buf.
Proof.
  intros Hsh [Hep Hq Hse Hso Hrx Ht Htf Hpf _] [_ _ _ _ Htcb Hst Hg _] Hsw Hlen Hmax Hfl Hfind pkt Hread. set (k := next_id d).
  destruct Hsh as [Hsf Hsd Hsl Hsr]. assert (Z.of_nat (length pkt) = 20 + 4 * doff + length buf) as Hl by (unfold pkt; rewrite length_app; lia).
  fold pkt in Hmax.
  pose proof (Interface_turn_ok tfd pkt 69 x _ d Ht ltac:(lia) (host_read_below _ _ _ _ _ Htf Hread) (carries_first _ _ _ _ (tf_carries _ _ _ _ _ Hsf)) eq_refl) as Hif.
  rewrite Hrx in Hif. fold k in Hif. set (d1 := set_rxQ _ _) in Hif.
  pose proof (Ip_turn_tcp indet k s seq ack flags hdr buf i [] d1 Hsf ltac:(lia) eq_refl (lookup_insert_eq _ _ _) Hsw Hfind) as Hip. fold pkt in Hip.
  set (f := rx_frame (raw 20) nullptr pkt) in Hip. set (dr := with_frame k f (set_rxQ [] d1)) in Hip.
  pose proof (segment_loads s seq ack flags hdr buf (raw 20) nullptr Hsw Hsf) as (Hsq & Hak & Hfb & Hdo). fold pkt f in Hsq, Hak, Hdo, Hfb.
  specialize (Hdo doff Hsd ltac:(lia)).
  assert (frames dr !! k = Some f) as Hfk by apply lookup_insert_eq.
  destruct (recv_estab_ok indet k f i q t (Some (bswap32 ack)) (bswap32 seq) doff (length buf) so ep g tfd dr Hfk Hse Htcb Hg Ht
    ltac:(by rewrite Hfb, Hfl) ltac:(by intros a [= <-]) Hdo ltac:(unfold f, rx_frame; cbn -[pkt]; rewrite Hl; f_equal; lia) ltac:(lia) Hsq Hso Hep)
    as (d2 & Hrun & Ha).
  assert (Ip_turn indet d1 = Ok (tt, d2)) as Hip2.
  { rewrite Hip. unfold TcpSession_recv. mstep (read_cell_ok frames k f dr Hfk). mrun the_tcb_ok. by rewrite Hst. }
  clear Hip Hrun. unfold enqueued in Ha. rewrite Hq in Ha. change (recvQlimit <? length (@nil (list Z * nat))) with false in Ha. cbv iota in Ha.
  destruct Ha as (Hen & Hss & _ & _ & Hee & Hcc & Hhh & Hff). cbn [app] in Hee.
  cbn [env set_env] in Hen. rewrite host_writev_below, host_write_below in Hen by exact Hpf.
  exists d1, d2. split_and!; try done.
  - rewrite Hss. apply lookup_insert_eq.
  - rewrite Hee. apply lookup_insert_eq.
  - eassert (chain _ (Some k) [k] (buf ++ [])) as Hchn; [|by rewrite app_nil_r in Hchn].
    econstructor; [rewrite Hff by (cbn; lia); apply lookup_insert_eq| |constructor].
    pose proof (rx_payload hdr buf (raw 20)) as Hpay. replace (Z.of_nat (length hdr)) with (20 + doff * 4) in Hpay by lia. exact Hpay.
Qed.

(** The same while a request waits on the channel [fd]. *)
Lemma segment_delivered so i ep q t g tfd s seq ack flags doff hdr buf x k' n fd bs d : segment_header s seq ack flags doff hdr →
  can_receive so i ep q tfd d → connected_socket so i ep q t g tfd d → session_words s → 0 < length buf → length (hdr ++ buf) ≤ 1518 → has_bits flags tcp_ack_bit = true →
  Sessions_find (lock_session d) (laddr s) (lport s) (faddr s) (fport s) (tcp_pcbs d) = Some i →
  let pkt := hdr ++ buf in
  k_read tfd maxRawBytesSize (inner (env d)) = ((Z.of_nat (length pkt), pkt, x), k') →
  fd ≠ tfd → fd ≠ (new_packet_notify_pipe ep).2 → conns (env d) !! fd = Some idle →
  ∃ dq1 dq2 d2, run_thread indet parse_partial dfuel TInterface (queued fd idle bs d) = Ok dq1 ∧
    run_thread indet parse_partial dfuel TIp dq1 = Ok dq2 ∧
    pending fd dq1 = None ∧ dq2 = queued fd idle bs d2 ∧
    (∀ cc, serving fd n cc d → serving fd n cc d2) ∧ handles d2 = handles d ∧
    endpoints d2 !! so = Some (set_recvQ [(indet, next_id d)] ep) ∧
    chain d2 (Some (next_id d)) [next_id d] buf ∧
    sessions d2 !! i = Some (mkPcb (p_base q) (Some (tcb_received seq ack (length buf) t))) ∧
    inner (env d2) = (k_writev tfd [ack_of g (p_base q) seq (length buf) t; []] (k_write (new_packet_notify_pipe ep).2 [49] k').2).2.
Proof.
  intros Hsh [Hep Hq Hse Hso Hrx Ht Htf Hpf [Hr1 Hr2]] Hes Hsw Hlen Hmax Hfl Hfind pkt Hread Hft Hfp Hconn.
  set (dq := queued fd idle bs d).
  assert (can_receive so i ep q tfd dq) as Hcr by (constructor; try done; cbn; by rewrite lookup_insert_ne).
  assert (connected_socket so i ep q t g tfd dq) as Hes' by (by destruct Hes).
  destruct (segment_turns so i ep q t g tfd s seq ack flags doff hdr buf x k' dq Hsh Hcr Hes' Hsw Hlen Hmax Hfl Hfind Hread)
    as (d1 & d2 & Hif & Hq1 & Hc1 & Hf1 & Hip & Hen & Hss & Hee & Hcc & Hhh & Hch).
  assert (conns (env d2) = <[fd := mkConn [bs] [] false]> (conns (env d))) as Hcn by (rewrite Hen; done).
  exists d1, d2, (set_env (set_conns (<[fd := idle]> (conns (env d2))) (env d2)) d2). injection Hf1 as _ F2 _. split_and!; try done.
  - unfold run_thread. change (if_stopflag dq) with (if_stopflag d). by rewrite Hr1, Hif.
  - unfold run_thread. rewrite F2. change (ip_stopflag dq) with (ip_stopflag d). by rewrite Hr2, Hip.
  - unfold pending. rewrite Hc1. cbn. by rewrite lookup_insert_eq.
  - apply queued_back. rewrite Hcn. apply lookup_insert_eq.
  - intros cc [G Hch' Hfd _ Hint Hqu Hb Hrn].
    pose proof (flagfix_Ip_turn indet _ _ _ Hip) as Hf2. pose proof (flagfix_Interface_turn _ _ _ Hif) as Hf3.
    constructor; [|cbn; by rewrite Hcc|exact Hfd|cbn; apply lookup_insert_eq|cbn; by rewrite Hen| |cbn; by rewrite Hen|].
    + eapply (graph_same d2); [done|]. eapply (graph_same d1); [by eapply neutral_Ip_turn|].
      eapply (graph_same dq); [by eapply neutral_Interface_turn|]. by eapply (graph_same d).
    + intros f' cn. cbn [env set_env conns set_conns]. rewrite Hcn, insert_insert_eq, insert_id by done. apply Hqu.
    + injection Hf2 as _ _ Hl2 _. injection Hf3 as _ _ Hl3 _. change (loop_stopflag d2 = false). by rewrite Hl2, Hl3.
  - by apply (chain_frames_eq d2).
  - cbn. by rewrite Hen.
Qed.

(** The whole exchange of a [read] during which the segment arrives. *)
Lemma read_exchange so i ep q t g tfd s seq ack flags doff hdr buf x k' len rflags ch fd dch cc h cl lk pl pid d : segment_header s seq ack flags doff hdr →
  can_receive so i ep q tfd d → connected_socket so i ep q t g tfd d → serving fd dch cc d → handles d !! ch_sChannel cc = Some h → ch_socket cc = Some so →
  lk !! ch = Some fd → session_words s → 0 < length buf → length (hdr ++ buf) ≤ 1518 → has_bits flags tcp_ack_bit = true →
  Sessions_find (lock_session d) (laddr s) (lport s) (faddr s) (fport s) (tcp_pcbs d) = Some i →
  let pkt := hdr ++ buf in
  k_read tfd maxRawBytesSize (inner (env d)) = ((Z.of_nat (length pkt), pkt, x), k') →
  fd ≠ tfd → fd ≠ (new_packet_notify_pipe ep).2 →
  let req := mkRequest pid (Some (CallRecvfrom len rflags false)) in
  sendable req → answerable (data_response buf None) →
  ∃ d', @exchange _ (host_glibc indet parse_partial dfuel) _ fuel retries ch req
      (mkGuest cl (Ok d) lk (TInterface :: TIp :: TReactor :: pl)) (data_response buf None) (mkGuest cl (Ok d') lk pl) ∧
    sessions d' !! i = Some (mkPcb (p_base q) (Some (tcb_received seq ack (length buf) t))) ∧
    endpoints d' !! so = Some (set_recvQ [] ep) ∧
    inner (env d') = (k_writev tfd [ack_of g (p_base q) seq (length buf) t; []] (k_write (new_packet_notify_pipe ep).2 [49] k').2).2.
Proof.
  intros Hsh Hcr Hes Hs Hh Hso Hlk Hsw Hlen Hmax Hfl Hfind pkt Hread Hft Hfp req [Hwf Hl] (Hwr & Hne & Hlr).
  destruct (segment_delivered so i ep q t g tfd s seq ack flags doff hdr buf x k' dch fd (request_pack req) d Hsh Hcr Hes Hsw Hlen Hmax Hfl Hfind Hread Hft Hfp (sv_conn _ _ _ _ Hs))
    as (dq1 & dq2 & d2 & Ht1 & Ht2 & Hp & -> & Hs2 & Hhd & Hep & Hchain & Hss & Hen). specialize (Hs2 cc Hs).
  rewrite <-Hhd in Hh. set (d0 := in_turn (ch_sChannel cc) h d2). set (epq := set_recvQ [(indet, next_id d)] ep) in Hep.
  assert (handleRequest dch req d0 = Ok (data_response buf None, with_endpoint so (set_recvQ [] epq) d0)) as Hr.
  { eapply (recvfromCall_data dch cc so _ _ _ [] [next_id d] buf false d0); [exact (sv_channel _ _ _ _ Hs2)|exact Hso|exact Hep|reflexivity|].
    by apply (chain_frames_eq d2). }
  destruct (await_reply indet parse_partial dfuel fd dch cc h req _ pl d2 _ Hs2 Hh Hwf Hl Hr (proj1 Hwr) Hlr) as (h3 & Hh3 & Ha).
  eexists. split.
  - eapply exchange_await; [exact Hlk|apply (sv_conn _ _ _ _ Hs)|done|done|done|done|].
    rewrite (await_turn _ _ _ _ _ _ _ _ (pending_queued _ _ _) Ht1), (await_turn _ _ _ _ _ _ _ _ Hp Ht2). exact Ha.
  - split_and!; [exact Hss|cbn; apply lookup_insert_eq|exact Hen].
Qed.
End receiving.

(** ** Properties *)

(** C11. From the program to the wire, on a connection: [write(fd, buf, len)] on
    a pool descriptor with a connected TCP socket returns [len], and by then the
    daemon has made one [writev] on its TUN device, of a segment with the
    connection's addresses, the next sequence number, the acknowledgement of
    everything received and exactly the bytes of [buf], with checksums that
    verify; the connection's next sequence number is advanced by [len]. *)
Theorem tcp_write_end_to_end {C K} `{Glibc C} `{Kernel K} `{Codec} `{!CodecLaws} indet parse_partial dfuel fuel retries
    (p : Proc (Guest C K)) vfd ch fd dch cc h cl lk pl (d : Daemon (Host K)) so i ep q t g tfd buf :
  attached p vfd ch fd dch cc h cl lk pl d → ch_socket cc = Some so → connected_socket so i ep q t g tfd d →
  bytes_ok buf → 0 < length buf ≤ 65495 →
  sendable (mkRequest (self_pid p) (Some (CallSendto buf 0 None))) → answerable (answer (RetSendto (mkRet (length buf) None))) →
  let b := p_base q in
  let s := mkSession (faddr b) (fport b) (laddr b) (if lport b =? 0 then bswap16 (u16 (tcp_port d + 1)) else lport b) (s_socket b) in
  let hdr := tcp_full_header (IpIdGenerator_next g).1 s (send_next t) (recv_next t) 16 buf in
  ∃ p' d', @write _ (host_glibc indet parse_partial dfuel) _ fuel retries vfd (Some buf) (length buf) p = Ok (Z.of_nat (length buf), p') ∧
    same_globals p p' ∧ Glibc.env p' = mkGuest cl (Ok d') lk pl ∧
    inner (env d') = (k_writev tfd [hdr; buf] (inner (env d))).2 ∧ segment_valid s hdr buf ∧
    sessions d' !! i = Some (mkPcb s (Some (tcb_sent (length buf) t))).
Proof.
  intros Ha Hso Hes Hb Hlen Hsend Hans b s hdr. destruct (Ha) as [Hi Hch He Hlk Hs Hh].
  destruct (sendtoCall_tcp dch cc so ep i q t buf None g tfd (in_turn (ch_sChannel cc) h d) (sv_channel _ _ _ _ Hs) Hso ltac:(by destruct Hes) ltac:(lia))
    as (d1 & Hcall & Hen & Hss & _). rewrite bound_eq in Hen, Hss. fold b s in Hen, Hss.
  destruct (attached_exchange indet parse_partial dfuel fuel retries _ _ _ _ _ _ _ _ _ _ _ _ _ d1 Ha Hsend Hcall Hans) as (h1 & Hh1 & Hx).
  destruct (sendto_ok (H := host_glibc indet parse_partial dfuel) fuel retries p vfd ch buf (length buf) 0
    None (mkRet (length buf) None) _ Hi Hch ltac:(lia) I ltac:(rewrite Nat2Z.id, firstn_all; exact Hx)) as (p' & Hrun & Hgl & He' & _); [cbn; lia|].
  exists p', (after_turn (ch_sChannel cc) h1 d1). split_and!; [|exact Hgl|exact He'| |apply full_header_valid; [done|lia|unfold in_u8; lia]|].
  - pose proof (chan_of_assigned _ _ _ Hch) as Has. unfold write. rewrite (M_bind_ok _ _ p p p) by done. rewrite Has. cbn [negb].
    by rewrite (sendto_no_address _ _ p vfd (Some buf) (length buf) 0 0 16 Has).
  - change (env (after_turn (ch_sChannel cc) h1 d1)) with (env d1). rewrite Hen, host_writev_below. done.
  - change (sessions (after_turn (ch_sChannel cc) h1 d1)) with (sessions d1). rewrite Hss. apply lookup_insert_eq.
Qed.

(** C12. From the wire to the program, on a connection: while a program waits in
    [read] on a connected TCP socket, a data segment that its host's TUN device
    delivers for the connection goes through the interface thread, the IP thread
    and the event loop into the caller's buffer: the call returns its length and
    exactly its bytes, the connection's next expected byte is the one behind
    them, and exactly one segment went out, the acknowledgement of that byte.
    The segment is any that acknowledges something, with any TCP options and
    without IP options. *)
Theorem tcp_read_end_to_end {C K} `{Glibc C} `{Kernel K} `{Codec} `{!CodecLaws} indet parse_partial dfuel fuel retries
    (p : Proc (Guest C K)) vfd ch fd dch cc h cl lk pl (d : Daemon (Host K)) so i ep q t g tfd s seq ack flags doff hdr buf x k' cap len :
  (* the program waits, the daemon serves *)
  Glibc.env p = mkGuest cl (Ok d) lk (TInterface :: TIp :: TReactor :: pl) →
  attached (Glibc.set_env (mkGuest cl (Ok d) lk (TReactor :: pl)) p) vfd ch fd dch cc h cl lk pl d →
  ch_socket cc = Some so → can_receive so i ep q tfd d → connected_socket so i ep q t g tfd d → fd ≠ tfd → fd ≠ (new_packet_notify_pipe ep).2 →
  (* the segment *)
  segment_header s seq ack flags doff hdr → session_words s → 0 < length buf → length (hdr ++ buf) ≤ 1518 → has_bits flags tcp_ack_bit = true →
  let pkt := hdr ++ buf in
  k_read tfd maxRawBytesSize (inner (env d)) = ((Z.of_nat (length pkt), pkt, x), k') →
  Sessions_find (lock_session d) (laddr s) (lport s) (faddr s) (fport s) (tcp_pcbs d) = Some i →
  (* the call *)
  len ≠ 0 → length buf ≤ cap →
  sendable (mkRequest (self_pid p) (Some (CallRecvfrom (i32 len) 0 false))) → answerable (data_response buf None) →
  ∃ p' d', @read _ (host_glibc indet parse_partial dfuel) _ fuel retries vfd (Some cap) len p = Ok (mkRecv (length buf) buf None None, p') ∧
    same_globals p p' ∧ Glibc.env p' = mkGuest cl (Ok d') lk pl ∧
    sessions d' !! i = Some (mkPcb (p_base q) (Some (tcb_received seq ack (length buf) t))) ∧ endpoints d' !! so = Some (set_recvQ [] ep) ∧
    inner (env d') = (k_writev tfd [ack_of g (p_base q) seq (length buf) t; []] (k_write (new_packet_notify_pipe ep).2 [49] k').2).2.
Proof.
  intros He [Hi Hch _ Hlk Hs Hh] Hso Hcr Hes Hft Hfp Hsh Hsw Hlen Hmax Hfl pkt Hread Hfind Hl Hcap Hsend Hans.
  change (chan_of p vfd = Some ch) in Hch. apply (proc_inv_same _ p) in Hi; [|done].
  destruct (read_exchange indet parse_partial dfuel fuel retries so i ep q t g tfd s seq ack flags doff hdr buf x k' (i32 len) 0 ch fd dch cc h cl lk pl
    (self_pid p) d Hsh Hcr Hes Hs Hh Hso Hlk Hsw Hlen Hmax Hfl Hfind Hread Hft Hfp Hsend Hans) as (d' & Hx & Hrest).
  rewrite <-He in Hx. unfold data_response in Hx. rewrite (i32_small (length buf)) in Hx by (unfold in_i32; rewrite length_app in Hmax; lia).
  destruct (recvfrom_ok (H := host_glibc indet parse_partial dfuel) fuel retries p vfd ch cap len 0 None None buf None _
    Hi Hch Hl Hx) as (p' & Hg & He' & Hrun); [intros ->; cbn in Hlen; lia|done|done|done|done|].
  exists p', d'. split_and!; [|done|done|apply Hrest..]. unfold read. rewrite (M_bind_ok _ _ p p p) by done.
  rewrite (chan_of_assigned _ _ _ Hch). exact Hrun.
Qed.


(** ** A concrete run *)

#[local] Existing Instance wire_codec.
#[local] Existing Instance wire_codec_laws.

(** The daemon of TcpConnectSpec.v with the connection to 10.0.0.1, port 80,
    established; its TUN device holds a segment of the server with two bytes. *)
Definition open_tcb : Tcb := mkTcb TCP_STATE__ESTABLISHED (14, 15) None 5 2 2 1000 1001.
Definition open_pcb : Pcb := mkPcb (mkSession 16777226 (bswap16 80) 178825408 (bswap16 1025) (Some 4%nat)) (Some open_tcb).
Definition page_header : list Z := tcp_headers 1 2 3 server 1001 2 24 2.
Definition page : list Z := page_header ++ [104; 105].
Definition open_host : Daemon (Host dscript) :=
  let d := tcp_host in
  set_sessions {[6%nat := open_pcb]} (set_env (set_inner (mkDScript 20 [(42, page, 0)] [] [] [] []) (env d)) d).
Definition conn_proc (pl : list thread) : Proc (Guest script dscript) :=
  mkProc 4096 4 4096 (Some [10; 0; 0; 0]) 3 0 77 [99; 117; 114; 108] (mkGuest socket_script (Ok open_host) {[10 := 40]} pl).

Lemma open_attached : attached (conn_proc [TReactor]) 4096 10 40 2 socket_channel socket_handle socket_script {[10 := 40]} [] open_host.
Proof.
  constructor; [split; cbn; [lia|lia|lia|eauto]|reflexivity|reflexivity|reflexivity| |vm_compute; reflexivity].
  destruct (at_serving _ _ _ _ _ _ _ _ _ _ _ tcp_attached) as [G Hc Hfd Hcn Hi Hq Hb Hr]. constructor; assumption.
Qed.
Lemma open_connected : connected_socket 4 6 tcp_endpoint open_pcb open_tcb (mkIdGen 0) 10 open_host.
Proof. constructor; vm_compute; reflexivity. Qed.
Lemma open_receives : can_receive 4 6 tcp_endpoint open_pcb 10 open_host.
Proof. constructor; vm_compute; try reflexivity. by split. Qed.

Lemma two_bytes : bytes_ok [104; 105] ∧ blob_ok [104; 105].
Proof. split; [repeat constructor; unfold in_u8; lia|]. split; [|done]. by apply (bool_decide_unpack _); vm_compute. Qed.

Lemma tcp_write_end_to_end_witness :
  ∃ p' d', @write _ (host_glibc [] no_request 3) _ 0 0 4096 (Some [104; 105]) 2 (conn_proc [TReactor]) = Ok (2, p') ∧
    Glibc.env p' = mkGuest socket_script (Ok d') {[10 := 40]} [] ∧
    ds_writes (inner (env d')) =
      [(10, [69;0;0;42;0;1;0;0;64;6;8;26;192;168;168;10;10;0;0;1; 4;1;0;80;0;0;0;2;0;0;3;233;80;16;16;0;188;121;0;0; 104;105])].
Proof.
  destruct (tcp_write_end_to_end [] no_request 3 0 0 (conn_proc [TReactor]) 4096 10 40 2 socket_channel socket_handle socket_script {[10 := 40]} []
    open_host 4 6 tcp_endpoint open_pcb open_tcb (mkIdGen 0) 10 [104; 105] open_attached eq_refl open_connected (proj1 two_bytes))
    as (p' & d' & Hr & _ & He & Hi & _); [cbn; lia| | |].
  - apply sendable_small; [|by vm_compute]. split; [cbn; lia|]. by split; [apply two_bytes|].
  - by apply (answerable_small (RetSendto _)); [|vm_compute].
  - exists p', d'. split; [exact Hr|]. split; [exact He|]. rewrite Hi. vm_compute. reflexivity.
Defined.

Lemma tcp_read_end_to_end_witness :
  ∃ p' d', @read _ (host_glibc [] no_request 3) _ 0 0 4096 (Some 100) 100 (conn_proc [TInterface; TIp; TReactor]) = Ok (mkRecv 2 [104; 105] None None, p') ∧
    Glibc.env p' = mkGuest socket_script (Ok d') {[10 := 40]} [] ∧
    sessions d' !! 6%nat = Some (mkPcb (p_base open_pcb) (Some (set_recv_next 1003 open_tcb))).
Proof.
  destruct (tcp_read_end_to_end [] no_request 3 0 0 (conn_proc [TInterface; TIp; TReactor]) 4096 10 40 2 socket_channel socket_handle socket_script {[10 := 40]} []
    open_host 4 6 tcp_endpoint open_pcb open_tcb (mkIdGen 0) 10 server 1001 2 24 5 page_header [104; 105] 0 (mkDScript 20 [] [] [] [] []) 100 100
    eq_refl open_attached eq_refl open_receives open_connected ltac:(discriminate) ltac:(discriminate))
    as (p' & d' & Hr & _ & He & Hs & _); [apply tcp_headers_segment|split_and!; unfold in_u32, in_u16; vm_compute; by split|cbn; lia|cbn; lia|reflexivity|reflexivity| |lia|cbn; lia| | |].
  - vm_compute. reflexivity.
  - apply sendable_small; [|by vm_compute]. by split; [cbn; lia|].
  - apply (answerable_small (RetRecvfrom _ _ _)); [|by vm_compute]. split_and!; [done| |done]. apply two_bytes.
  - exists p', d'. split; [exact Hr|]. split; [exact He|]. rewrite Hs. vm_compute. reflexivity.
Defined.
