(* ===== verification/DuplexSpec.v ===== *)
(** * Two threads on one socket

    One thread waits in [recv], another sends on the same descriptor, as
    src/tests/interceptor.pthread-test.c does.  The channel carries requests and
    responses of both, and a response does not say whose it is. *)

From S2P Require Import Prelude Rpc Wire Glibc Script Channel FdPool Interceptor PoolInv Threads InterceptorSpec SocketSpec Csum16 Frame Session World DScript Reactor Net Agent Udp Tcp Reassembly IpRx Dispatch Arbiter Boot ReactorSpec AgentSpec PacketSpec TcpSpec UdpSpec DispatchSpec Invariant LoopSpec BootSpec SocketCallSpec Ownership Link LinkSpec System ConnectSpec DeliverySpec TcpConnectSpec TcpDataSpec Flags.

(** ** On any channel *)

Section channel.
Context {E : Type} `{Glibc E} `{Codec} `{!CodecLaws}.
Context (fuel retries : nat).
Implicit Types p : Proc E.

(** The channel takes the packed request whole. *)
Definition takes (ch : Z) (req : Request) (e e' : E) : Prop :=
  length (request_pack req) ≤ RPC_MESSAGE_MAX_SIZE ∧
  ∃ en, g_write ch (request_pack req) (length (request_pack req)) e = ((Z.of_nat (length (request_pack req)), en), e').

Lemma chan_send_takes ch req p e' : takes ch req (Glibc.env p) e' → ∃ p', chan_send ch req p = Ok (tt, p') ∧ same_globals p p' ∧ Glibc.env p' = e'.
Proof.
  intros [Hl [en Hw]]. eexists. split_and!.
  - unfold chan_send. rewrite (M_bind_ok _ _ p tt p) by (unfold assert_; by rewrite (proj2 (Z.leb_le _ _) Hl)).
    mstep (syscall_eq _ _ _ _ _ Hw). unfold assert_. rewrite Z.eqb_refl. reflexivity.
  - by destruct en.
  - by destruct en.
Qed.
Lemma runs_atom {A B} (m : M (Proc E) A) (k : A → code E B) p a q c' p' : m p = Ok (a, q) → runs (k a) q c' p' → runs (atom m ≫= k) p c' p'.
Proof. apply runs_part. Qed.
(** One message of [chan_recv]. *)
Lemma runs_recv n ch p resp e' : reads ch (Glibc.env p) (response_pack resp) e' → response_wf resp →
  ∃ p', same_globals p p' ∧ Glibc.env p' = e' ∧ runs (chan_recv_code retries n ch) p
    (if is_wait_next resp then match n with O => atom (fail OutOfFuel) | S n => chan_recv_code retries n ch end else mret resp) p'.
Proof.
  intros Hr Hwf. destruct (read_retry_spec ch 0 _ _ _ (reads_now ch _ _ _ Hr) retries p ltac:(lia) eq_refl) as (p' & a & l & Hrun & Hg & He).
  exists p'. split_and!; [done|done|]. rewrite <-(flat_read_retry retries ch p) in Hrun.
  assert ((_ ← assert_ (negb (Z.of_nat (length (response_pack resp)) =? 0));
    deref (response_unpack (take (Z.to_nat (Z.of_nat (length (response_pack resp)))) (response_pack resp)))) p' = Ok (resp, p')) as Hd.
  { rewrite (proj2 (Z.eqb_neq _ _)). 2: { pose proof (response_pack_nonempty resp Hwf). destruct (response_pack resp); [done|cbn; lia]. }
    rewrite Nat2Z.id, firstn_all, response_roundtrip by done. done. }
  destruct n; cbn [chan_recv_code]; (eapply runs_trans; [eapply runs_bind, runs_flat, Hrun|]); (eapply runs_atom; [exact Hd|]); apply runs_done.
Qed.

Context (vfd ch : Z).

(** [recv] up to the message that says wait. *)
Lemma recv_waits n cap len flags p w e1 e2 :
  proc_inv p → chan_of p vfd = Some ch → len ≠ 0 →
  takes ch (mkRequest (self_pid p) (Some (CallRecvfrom (i32 len) flags false))) (Glibc.env p) e1 →
  reads ch e1 (response_pack w) e2 → response_wf w → is_wait_next w = true →
  ∃ p', same_globals p p' ∧ Glibc.env p' = e2 ∧ runs (recv_code (S n) retries vfd (Some cap) len flags) p
    (chan_recv_code retries n ch ≫= λ resp, atom (recvfrom_result cap None None resp)) p'.
Proof.
  intros Hi Hc Hl Ht Hr Hwf Hw. pose proof (chan_of_assigned _ _ _ Hc) as Ha. destruct (chan_send_takes _ _ _ _ Ht) as (p1 & Hs & Hg1 & <-).
  destruct (runs_recv (S n) ch p1 w e2 Hr Hwf) as (p2 & Hg2 & He2 & Hrun). rewrite Hw in Hrun.
  exists p2. split_and!; [by etrans|done|]. unfold recv_code. eapply runs_atom; [reflexivity|]. rewrite Ha. cbn [negb].
  unfold recvfrom_code. eapply runs_atom; [reflexivity|]. rewrite Ha. cbn [negb]. rewrite (proj2 (Z.eqb_neq _ _) Hl).
  apply runs_bind. unfold rpc_code. eapply runs_atom; [reflexivity|]. eapply runs_atom; [by apply fd_chanmap_ok|].
  eapply runs_atom; [exact Hs|]. eapply runs_atom; [|exact Hrun]. apply fd_chanmap_ok; [by eapply proc_inv_same|]. by rewrite <-(chan_of_same _ _ _ Hg1).
Qed.
(** [send] up to its request. *)
Lemma send_sent buf flags p e1 : proc_inv p → chan_of p vfd = Some ch → buf ≠ [] →
  takes ch (mkRequest (self_pid p) (Some (CallSendto buf flags None))) (Glibc.env p) e1 →
  ∃ p' c, same_globals p p' ∧ Glibc.env p' = e1 ∧ runs (send_code fuel retries vfd (Some buf) (length buf) flags) p c p'.
Proof.
  intros Hi Hc Hb Ht. pose proof (chan_of_assigned _ _ _ Hc) as Ha. destruct (chan_send_takes _ _ _ _ Ht) as (p1 & Hs & Hg1 & <-).
  eexists p1, _. split_and!; [done|done|]. unfold send_code. eapply runs_atom; [reflexivity|]. rewrite Ha. cbn [negb].
  unfold sendto_code. eapply runs_atom; [reflexivity|]. rewrite Ha. cbn [negb]. rewrite (proj2 (Z.eqb_neq _ _)) by (destruct buf; cbn; [done|lia]).
  eapply runs_atom.
  { replace (slice buf 0 (length buf)) with (Some buf); [reflexivity|]. symmetry. apply slice_Some.
    split_and!; [lia|lia|lia|]. by rewrite drop_0, Nat2Z.id, firstn_all. }
  lazymatch goal with |- runs (mret None ≫= ?k) _ _ _ => change (mret None ≫= k) with (k None) end. cbv beta. apply runs_bind. unfold rpc_code. eapply runs_atom; [reflexivity|].
  eapply runs_atom; [by apply fd_chanmap_ok|]. eapply runs_atom; [exact Hs|]. constructor.
Qed.

(** The thread that waits takes the answer to the other thread's [send]. *)
Definition receiver_and_sender (n : nat) (cap len rflags sflags : Z) (buf : list Z) (en en' : Z) p : team E Z :=
  mkTeam p [(en, r ← recv_code (S n) retries vfd (Some cap) len rflags; mret (r_ret r)); (en', send_code fuel retries vfd (Some buf) (length buf) sflags)].
Lemma crossed n cap len rflags sflags buf en en' p w r e1 e2 e3 e4 : proc_inv p → chan_of p vfd = Some ch → len ≠ 0 → buf ≠ [] →
  takes ch (mkRequest (self_pid p) (Some (CallRecvfrom (i32 len) rflags false))) (Glibc.env p) e1 → reads ch e1 (response_pack w) e2 →
  takes ch (mkRequest (self_pid p) (Some (CallSendto buf sflags None))) e2 e3 → reads ch e3 (response_pack (answer (RetSendto r))) e4 →
  response_wf w → is_wait_next w = true → response_wf (answer (RetSendto r)) →
  ∃ s, rtc tstep (receiver_and_sender n cap len rflags sflags buf en en' p) s ∧ team_step 0 s = Fault AssertFail.
Proof.
  intros Hi Hc Hl Hb T1 R1 T2 R2 W1 W2 W3. set (s0 := receiver_and_sender _ _ _ _ _ _ _ _ _).
  destruct (recv_waits n cap len rflags (set_errno en p) w e1 e2) as (p1 & G1 & E1 & X1); [by apply (proc_inv_same p)|done..|].
  apply (runs_bind _ _ (λ r, mret (r_ret r))) in X1. pose proof (runs_team s0 0 en _ _ p1 eq_refl X1) as S1. set (s1 := mkTeam _ _) in S1.
  assert (same_globals p (set_errno en' (memory s1))) as G1' by exact G1.
  destruct (send_sent buf sflags (set_errno en' (memory s1)) e3) as (p2 & c2 & G2 & E2 & X2);
    [by eapply proc_inv_same|by rewrite <-(chan_of_same _ _ _ G1')|done| |].
  { cbn. rewrite E1. destruct G1 as (_ & _ & _ & _ & _ & <- & _). exact T2. }
  pose proof (runs_team s1 1 en' _ _ p2 eq_refl X2) as S2. set (s2 := mkTeam _ _) in S2.
  destruct (runs_recv n ch (set_errno (errno p1) (memory s2)) (answer (RetSendto r)) e4) as (p3 & G3 & E3 & X3); [cbn; by rewrite E2|done|].
  apply (runs_bind _ _ (λ resp, atom (recvfrom_result cap None None resp))), (runs_bind _ _ (λ r, mret (r_ret r))) in X3.
  pose proof (runs_team s2 0 (errno p1) _ _ p3 eq_refl X3) as S3. eexists. split; [etrans; [exact S1|]; etrans; [exact S2|exact S3]|reflexivity].
Qed.
End channel.

(** ** On the daemon's channel *)

Section daemon.
Context {C K : Type} `{Glibc C} `{Kernel K} `{Codec} `{!CodecLaws}.
Context (indet : list Z) (parse_partial : list Z → Request) (dfuel : nat).
Implicit Types d : Daemon (Host K).
#[local] Existing Instance host_glibc.
Notation host_glibc := (host_glibc indet parse_partial dfuel).

Lemma guest_takes ch fd req cl lk pl d : lk !! ch = Some fd → conns (env d) !! fd = Some idle → length (request_pack req) ≤ RPC_MESSAGE_MAX_SIZE →
  @takes _ host_glibc _ ch req (mkGuest cl (Ok d) lk pl) (mkGuest cl (Ok (queued fd idle (request_pack req) d)) lk pl).
Proof. intros Hlk Hc Hl. split; [done|]. exists None. cbn. unfold guest_write. cbn. rewrite Hlk, Hc. by rewrite take_ge by lia. Qed.
Lemma guest_reads ch fd bs cl lk pl pl' d d' : lk !! ch = Some fd → length bs ≤ RPC_MESSAGE_MAX_SIZE →
  await indet parse_partial dfuel fd pl d = (Ok (Some bs, d'), pl') →
  @reads _ host_glibc ch (mkGuest cl (Ok d) lk pl) bs (mkGuest cl (Ok d') lk pl').
Proof.
  intros Hlk Hl Ha. exists None, None, None. cbn. unfold guest_read. cbn [linked daemon plan client]. rewrite Hlk, Ha.
  rewrite take_ge by (unfold RPC_MESSAGE_MAX_SIZE in *; lia). done.
Qed.

(** Serving the [recvfrom] leaves the daemon serving, and the connection as it
    is. *)
Lemma recv_served fd dch cc h so i ep q t g tfd d : serving fd dch cc d → handles d !! ch_sChannel cc = Some h → ch_socket cc = Some so →
  connected_socket so i ep q t g tfd d → recvQ ep = [] → ep_nonblocking ep = false →
  ∃ d1, recvfromCall dch false (in_turn (ch_sChannel cc) h d) = Ok (mkResponse (Some RC_WAIT_NEXT) None, d1) ∧
    ∀ h1, handles d1 !! ch_sChannel cc = Some h1 → let d2 := after_turn (ch_sChannel cc) h1 d1 in
      serving fd dch cc d2 ∧ is_Some (handles d2 !! ch_sChannel cc) ∧
      ∃ ep', connected_socket so i ep' q t g tfd d2.
Proof.
  intros Hs Hh Hso [Hep Hty Hpcb Hse Htcb Hst Hg Ht] Hq Hnb. pose proof Hs as [G Hc Hfd Hcn Hi Hqu Hb Hrun].
  set (ep' := set_waiting true (set_onAsyncNewPacket (Some (onAsyncNewTcpPacket_cb dch)) ep)).
  exists (with_endpoint so ep' (in_turn (ch_sChannel cc) h d)). split.
  { rewrite (recvfromCall_empty dch cc so ep false) by done. by rewrite Hnb, Hty. }
  intros h1 Hh1 d2. cbn in Hh1. rewrite lookup_insert_eq in Hh1. injection Hh1 as <-. split_and!.
  - constructor; try done. eapply (graph_same d); [|done]. split; [|done]. unfold links. cbn.
    rewrite insert_insert_eq, (upd_same _ _ _ h) by done. by rewrite (upd_same _ _ _ ep).
  - cbn. by rewrite lookup_insert_eq.
  - exists ep'. constructor; try done. cbn. apply lookup_insert_eq.
Qed.

(** The two exchanges on the channel: the first answer is wait, the second the
    result of the [send]. *)
Lemma crossing_exchanges ch fd dch cc h so i ep q t g tfd buf pid len rflags sflags cl lk pl d :
  lk !! ch = Some fd → serving fd dch cc d → handles d !! ch_sChannel cc = Some h → ch_socket cc = Some so →
  connected_socket so i ep q t g tfd d → recvQ ep = [] → ep_nonblocking ep = false → length buf ≤ 65495 →
  let wait := mkResponse (Some RC_WAIT_NEXT) None in
  let asks := mkRequest pid (Some (CallRecvfrom len rflags false)) in
  let sends := mkRequest pid (Some (CallSendto buf sflags None)) in
  let sent := answer (RetSendto (mkRet (length buf) None)) in
  sendable asks → sendable sends → length (response_pack wait) ≤ RPC_MESSAGE_MAX_SIZE → answerable sent →
  ∃ e1 e2 e3 e4, @takes _ host_glibc _ ch asks (mkGuest cl (Ok d) lk (TReactor :: TReactor :: pl)) e1 ∧ @reads _ host_glibc ch e1 (response_pack wait) e2 ∧
    @takes _ host_glibc _ ch sends e2 e3 ∧ @reads _ host_glibc ch e3 (response_pack sent) e4.
Proof.
  intros Hlk Hs Hh Hso Hes Hq Hnb Hl wait asks sends sent [Hw1 Hl1] [Hw2 Hl2] Hlw (Hwr & Hne & Hlr).
  destruct (recv_served fd dch cc h so i ep q t g tfd d Hs Hh Hso Hes Hq Hnb) as (d1 & Hr1 & Hd1).
  destruct (await_reply indet parse_partial dfuel fd dch cc h asks wait (TReactor :: pl) d d1 Hs Hh Hw1 Hl1 Hr1 ltac:(by eexists) Hlw) as (h1 & Hh1 & Ha1).
  destruct (Hd1 h1 Hh1) as (Hs2 & [h2 Hh2] & ep' & Hes2). set (d2 := after_turn _ h1 d1) in *.
  destruct (sendtoCall_tcp dch cc so ep' i q t buf None g tfd (in_turn (ch_sChannel cc) h2 d2) (sv_channel _ _ _ _ Hs2) Hso ltac:(by destruct Hes2) ltac:(lia))
    as (d3 & Hr2 & _).
  destruct (await_reply indet parse_partial dfuel fd dch cc h2 sends sent pl d2 d3 Hs2 Hh2 Hw2 Hl2 Hr2 (proj1 Hwr) Hlr) as (h3 & _ & Ha2).
  eexists _, _, _, _. split_and!.
  - apply guest_takes; [exact Hlk|apply (sv_conn _ _ _ _ Hs)|exact Hl1].
  - eapply guest_reads; [exact Hlk|exact Hlw|exact Ha1].
  - apply guest_takes; [exact Hlk|apply (sv_conn _ _ _ _ Hs2)|exact Hl2].
  - eapply guest_reads; [exact Hlk|exact Hlr|exact Ha2].
Qed.
End daemon.

(** ** Properties *)

(** C18. Two threads cannot use one socket: on a connected blocking TCP socket
    with nothing to read, while one thread waits in [recv] another sends on the
    same descriptor; there is an interleaving in which the daemon answers the
    [send], the waiting thread takes that answer for its own, and the assertion
    on the kind of answer in [recvfrom] aborts the program (in a build with
    assertions). *)
Theorem duplex_aborts {C K} `{Glibc C} `{Kernel K} `{Codec} `{!CodecLaws} indet parse_partial dfuel fuel retries n
    (p : Proc (Guest C K)) vfd ch fd dch cc h cl lk pl (d : Daemon (Host K)) so i ep q t g tfd buf cap len rflags sflags en en' :
  attached p vfd ch fd dch cc h cl lk (TReactor :: pl) d → ch_socket cc = Some so → connected_socket so i ep q t g tfd d →
  recvQ ep = [] → ep_nonblocking ep = false → len ≠ 0 → 0 < length buf ≤ 65495 →
  sendable (mkRequest (self_pid p) (Some (CallRecvfrom (i32 len) rflags false))) →
  sendable (mkRequest (self_pid p) (Some (CallSendto buf sflags None))) →
  length (response_pack (mkResponse (Some RC_WAIT_NEXT) None)) ≤ RPC_MESSAGE_MAX_SIZE →
  answerable (answer (RetSendto (mkRet (length buf) None))) →
  ∃ s, rtc tstep (@receiver_and_sender _ (host_glibc indet parse_partial dfuel) _ fuel retries vfd n cap len rflags sflags buf en en' p) s ∧
    team_step 0 s = Fault AssertFail.
Proof.
  intros [Hi Hch He Hlk Hs Hh] Hso Hes Hq Hnb Hl Hb Ha1 Ha2 Hlw Hans.
  destruct (crossing_exchanges indet parse_partial dfuel ch fd dch cc h so i ep q t g tfd buf (self_pid p) (i32 len) rflags sflags cl lk pl d
    Hlk Hs Hh Hso Hes Hq Hnb ltac:(lia) Ha1 Ha2 Hlw Hans) as (e1 & e2 & e3 & e4 & T1 & R1 & T2 & R2).
  eapply (crossed (H := host_glibc indet parse_partial dfuel)); [exact Hi|exact Hch|exact Hl| |rewrite He; exact T1|exact R1|exact T2|exact R2| |reflexivity|apply Hans].
  - intros ->. cbn in Hb. lia.
  - split; [by eexists|done].
Qed.

(** ** A concrete run *)

#[local] Existing Instance wire_codec.
#[local] Existing Instance wire_codec_laws.

Lemma duplex_aborts_witness :
  ∃ s, rtc tstep (@receiver_and_sender _ (host_glibc [] no_request 3) _ 1 0 4096 1 512 512 0 0 [104; 105] 0 0 (conn_proc [TReactor; TReactor])) s ∧
    team_step 0 s = Fault AssertFail.
Proof.
  assert (attached (conn_proc [TReactor; TReactor]) 4096 10 40 2 socket_channel socket_handle socket_script {[10 := 40]} [TReactor] open_host) as Ha.
  { destruct open_attached as [_ _ _ _ Hs Hh].
    constructor; [split; cbn; [lia|lia|lia|eauto]|reflexivity|reflexivity|reflexivity|exact Hs|exact Hh]. }
  apply (duplex_aborts [] no_request 3 1 0 1 (conn_proc [TReactor; TReactor]) 4096 10 40 2 socket_channel socket_handle socket_script {[10 := 40]} []
    open_host 4 6 tcp_endpoint open_pcb open_tcb (mkIdGen 0) 10 [104; 105] 512 512 0 0 0 0 Ha eq_refl open_connected);
    [reflexivity|reflexivity|lia|cbn; lia| | | |].
  - apply sendable_small; [|by vm_compute]. by split; [cbn; lia|].
  - apply sendable_small; [|by vm_compute]. split; [cbn; lia|]. by split; [apply two_bytes|].
  - by vm_compute.
  - by apply (answerable_small (RetSendto _)); [|vm_compute].
Defined.
